(* ===== verification/_CoqProject ===== *)
-Q . S2P
Prelude.v
Python.v
Collections.v
Wire.v
Constants.v
Options.v
Stats.v
FileLock.v
Cache.v
Paths.v
Frame.v
Acl.v
Session.v
Download.v
Upload.v
SessionLife.v
Locked.v
Counted.v
Keeps.v
Termination.v
Online.v
Server.v
System.v
Shared.v
Exclusion.v
Ledger.v
Network.v
Bridge.v
Source.v
Auth.v
Users.v
Calendar.v
Daily.v
Config.v
Logger.v
App.v
Engine.v
Supervisor.v
Settings.v
WebAdmin.v
WebFiles.v
Listings.v
Main.v
WebSocket.v
WebViews.v
Dashboard.v
