(* ===== verification/Prelude.v ===== *)
(** * Nishro TFTP: a verification development

    Nishro TFTP is a TFTP server that speaks Ethernet itself: it captures
    frames for a virtual MAC and IP address, answers ARP and ping, and serves
    and stores files over TFTP (RFC 1350, 2347-2349, 7440) with a file cache,
    file locks, FTP back ends, access lists and a web panel.  This library
    models its Python part and proves what makes the transfers correct.

    ** The program and the files of this library

    A frame goes through [L2Bridge] (capture queue) to the dispatch loop, which
    offers it to the ARP responder, the ICMP responder and the TFTP server.
    The server gives it to the session it belongs to or starts a new session
    for a request; a session is a coroutine that takes the lock of its file,
    reads it through the cache from the file sources (or writes it under the
    upload folder), negotiates options and exchanges blocks with the client.

<<
    file          models                                       source (src/)
    Prelude.v     notations, tactics, dictionaries, lists,     -
                  error and state monads
    Python.v      strings, int(), str(), dynamic values        the language
    Collections.v sorting, deques, string order, serialisers   the language, json, yaml
    Wire.v        packets, struct, codecs                      tftp/protocol.py
    Constants.v   limits and defaults                          core/constants.py
    Options.v     option negotiation                           tftp/options.py
    Stats.v       counters, carry-over between engines         core/stats.py, core/carryover.py,
                                                               _stats_payload of web/app.py
    FileLock.v    readers-writer locks, abstract lock          core/file_lock.py
    Cache.v       read-through LRU cache with coalescing       files/cache.py
    Paths.v       client names to paths, os.path interface     _safe_join, FtpSource._join,
                                                               _safe_target, _browse_dir
    Frame.v       packet parsing, builders, fast path          network/packet_utils.py and the
                                                               frame code of tftp/session.py
    Acl.v         VLAN and IP access lists                     core/acl.py
    Session.v     the transfer coroutine                       tftp/session.py
    Download.v    theorems on _send_file                       tftp/session.py
    Upload.v      theorems on _recv_file                       tftp/session.py
    SessionLife.v theorems on _safe_run, _run_rrq, _run_wrq    tftp/session.py
    Locked.v      a session and its lock                       tftp/session.py
    Counted.v     a session and the counters                   tftp/session.py, core/stats.py
    Keeps.v       what the parts of a session leave alone      tftp/session.py
    Termination.v every session ends                           tftp/session.py
    Online.v      a session acts on what it has received       tftp/session.py
    Server.v      dispatch, TIDs, queueing, completion         tftp/server.py
    System.v      the server with all its session tasks        tftp/server.py, tftp/session.py
    Shared.v      the tasks on shared locks, counters, cache   tftp/server.py, tftp/session.py
    Exclusion.v   which transfers hold which locks             tftp/session.py, core/file_lock.py
    Ledger.v      the session counters add up                  tftp/session.py, core/stats.py
    Network.v     ARP, ICMP, dispatch loop, capture queue      network/*.py, main.py
    Bridge.v      capture and send sockets, receive queue      network/sniffer.py
    Source.v      local folder, FTP, routing by name           files/*source.py
    Auth.v        admin password, tokens, WebSocket counts     core/auth.py, login of web/app.py
    Users.v       employee names                               core/users.py
    Calendar.v    dates and their ISO texts                    datetime
    Daily.v       daily totals, pruning, persistence           core/daily_stats.py
    Config.v      configuration store and its subscribers      core/config.py
    Logger.v      ring buffer, listeners, set-up of logging    core/logger.py
    App.v         start, hot reload, restart, shutdown         main.py
    Engine.v      supervisor of the C engine, speed windows    core/engine.py, SessionInfo
    Supervisor.v  child process, tasks of [run]                core/engine.py, main.py
    Settings.v    UI settings                                  web/app.py
    WebAdmin.v    administrator's endpoints, WebSocket tokens  web/app.py
    WebFiles.v    file endpoints of the panel                  web/app.py
    Listings.v    listings of the file sources                 files/*source.py
    Main.v        entry point, choice of the adapter           main.py
    WebSocket.v   live stream                                  web/app.py
    WebViews.v    listings, adapters, process samples          web/app.py
    Dashboard.v   live table, statistics, read-only endpoints  tftp/server.py, web/app.py
>>

    The configuration store feeds everything: a save writes the file, swaps the
    data in and calls its subscribers, of which the running instance of the
    application is one.  The instance either applies the change in place -
    access lists, addresses, cache limits, sources, the server's settings - or,
    when a critical setting changed, asks to be replaced; the loop of main.py
    stops it, folds its counters into the carry-over and builds the next one.
    With the C engine the instance only supervises a child process and turns
    its events into the same sessions, history and daily records.

    ** How the code is translated

    A Python integer is a [Z]; where the code packs it into 16 bits the packing
    fails or masks as [struct] and [& 0xFFFF] do.  Bytes and strings are lists
    of [Z].  A dictionary is an association list in insertion order ([dict_get],
    [dict_set], [dict_del]); the lock table is a [gmap], a set of texts a
    [gset].  Configuration and JSON values are dynamic ([pyval]: null, booleans,
    integers, texts, lists, objects), so a wrong type raises as it does in
    Python; floating-point numbers in them are not represented, times are
    integers in milliseconds and a rate is a fraction.  A function that can
    raise returns [pyres]; exceptions are values of [exc].  Code that changes an
    object step by step and may raise on the way is in the monad [eff], which
    keeps what was changed before the exception.

    A coroutine is a function of the results of its suspensions.  A session
    ([M] in Session.v) consumes a list of [event]s - a packet, a timeout or a
    cancellation - and is [Blocked] when the list ends while it waits, so every
    interleaving with the network is a list and the loops recurse on it; the
    server, the cache, the lock table, the daily statistics, the log ring, the
    configuration and the process, which several coroutines share, are step
    functions or step relations, and their theorems hold after any sequence of
    steps.  System.v puts the server and the sessions together: a task of the
    session table is described by the events it has had, and tasks, packets,
    waiting requests, reloads and the shutdown interleave as they like; that a
    session never acts on later events (Online.v) is what makes the description
    right.  Each session there has its own environment and finds arbitrary
    shared objects when it starts; Shared.v then gives all of them the one lock
    table, the one set of counters and the one cache of the server.  The
    description from a start stays right while others change these objects,
    because a session uses them in three ways only: it returns its lock to the
    table as it is then ([env_others], Locked.v), it adds to counters it never
    reads (Counted.v), and it consults the cache in its first step (Keeps.v).
    Reading a file through the cache and uploading one to an FTP server, during
    which a session neither receives nor sends, are part of the step they are
    in; Cache.v has the waiting for a load, and its cancellation, by itself.  A
    subscriber of the configuration is a function on the store and the rest of
    the process, so it may subscribe, unsubscribe and raise.

    Fuel appears in three places, always enough: [drain] gets the number of
    buffered blocks and removes one per round; [fold_carry] gets the binary
    logarithm of the sum ([fold_carry_done]); the decimal printer gets the
    binary length of the number ([dec_val_nat_str]).

    Parameters stand for code outside src/: the layers scapy decodes from a
    frame, [socket.inet_aton], [float], the key derivation of the password
    store, [os.path] (class [OsPath], and [OsPathParts] for names and relative
    paths, with lexical instances), JSON and YAML (class [Codec]: reading what
    was written gives it back; with an instance), the disk, the FTP client
    library, [urlparse], the adapters scapy and psutil list, random numbers and
    clock readings.

    ** What the theorems show

    Transfers: against any peer a download sends only blocks of the file and
    reports success only when the last one was acknowledged, and an upload
    leaves the destination untouched or complete; with a peer that answers
    within the retry budget both complete, for any size; whatever happened
    before, [max_retries + 1] timeouts in a row or a cancellation end every
    session, and it never acts on what it has not received.  A session
    releases its lock and is counted exactly once however it ends; a read
    request for a readable file and a write request for a permitted name are
    served from the request to the state "done".

    Server: transfer identifiers of running sessions are distinct and in range,
    the session cap holds in every reachable state, a packet reaches exactly
    the session whose key it has; a captured frame is dispatched once and in
    order, waits in the bounded queue, or is counted as dropped.  With its
    tasks, in every interleaving: every started session is running, recorded or
    was cancelled before it began; a session hears and answers its own client
    only; without new packets everything ends within a bound; and a read request
    goes from its packet to the history with everything else left as it was.  On
    the objects the sessions share: transfers of one name exclude each other
    unless all are downloads, and the lock table holds nothing else; the session
    counters, the live tasks and the daily records add up; the cache stays in
    order.

    Shared objects: the lock table refines an abstract readers-writer lock; the
    cache stays within its budget, evicts least recently used files first,
    loads a file once for concurrent requests and is transparent; counters
    survive a change from the Python engine, and lose session totals from the
    C engine.

    Application: a change applied in place leaves the settings a fresh start
    would have; one instance is alive at any time and handles each save once; a
    critical change is served by an instance built from it; the file always
    holds the configuration in memory, and subscribers are called once, in
    order, with the new data.  The supervisor shows exactly the sessions the C
    engine started and has not ended, and leaves no child process behind; a
    restart is decided when [run] wakes up; the server starts with an adapter
    and writes no other setting.

    Statistics: recording a session changes today and nothing else, a restart
    shows what was shown before, at most 181 days are kept; the two readings of
    an employee number agree; the log ring holds the last lines logged and a
    listener hears each line once.

    Web panel: who has no token and no password changes nothing, whatever he
    sends; what the local folder lists it serves; the file endpoints stay inside
    the two configured folders; the live table and the history follow the
    transfers; a page that is sent only changes shows the whole state after each
    tick and gets every log line once; settings are well typed whatever the file holds, and
    what is posted is what is shown.

    Formats: requests, OACK, ERROR, DATA and ACK round trip; negotiation stays
    within the configured limits and announces what it uses; fast-path frames
    decode to what they were built from, with a correct IP checksum.

    Access: lists decide as the CIDR texts say; paths made from client names
    stay below their root; the session and the router agree on which names are
    FTP names; at most one admin token exists and it expires when idle.

    Lemmas outside these groups record behaviour that differs from what the
    code intends: [upload_loses_buffered_eof] and [upload_buffer_escapes_limit]
    (Upload.v), [daily_bytes_are_zero] (Server.v), [cache_update_keeps_overflow]
    (Cache.v), [detach_untracked_revokes] and [change_to_empty_password]
    (Auth.v), [browse_reaches_sibling] (Paths.v), [c_swap_loses_session_totals]
    (Stats.v), [prune_keeps_visitors] (Daily.v), [reload_drops_listeners] and
    [bad_buffer_stops_capture] (Logger.v), [degraded_reload_raises],
    [null_cache_block_raises] and [removed_cache_limit_stays] (App.v),
    [core_daily_bytes_are_zero], [missing_id_stops_reader],
    [core_rules_lose_mode] and [core_session_default] (Engine.v),
    [color_with_newline] (Settings.v), [ftp_listing_escapes] and
    [ftp_copy_removes_root] (WebFiles.v), [ws_history_freezes] (WebSocket.v),
    [failed_start_orphans], [restart_lost_after_engine_exit] and
    [interrupt_lost_while_draining] (Supervisor.v), [ftp_browse_escapes] and
    [detailed_fallback_raises] (Dashboard.v), [ftp_session_closes] (Source.v),
    [two_names_one_file] (Exclusion.v), [client_error_recorded_as_success]
    (Ledger.v), [failed_start_keeps_tid] (Server.v),
    [cancelled_waiter_cancels_all] (Cache.v), [null_port_ends_program] (App.v).

    ** What is not modelled

    A disk that fails after a file was opened; the text of log lines; time and
    speed columns of the session tables; routing of requests, cookies and page
    assets, which are FastAPI's; argparse and the
    construction of the uvicorn server; two running uploads that write the same
    file (their names differ, so their locks do); the C engine (c_core/), of which only the
    names of its counters and the fields of its events matter here; the
    packaging script and the image tool. *)

From stdpp Require Export base list gmap.
From Stdlib Require Export ZArith Lia.
From Stdlib Require Import Ascii.
From Stdlib Require String.
Export String.StringSyntax.

Open Scope Z_scope.

(** ** Data *)

(** A Python [bytes] object is a list of integers in [0, 256); a Python [str]
    is a list of code points.  Both are [list Z]; the two names only document
    which one a definition handles. *)
Abbreviation bytes := (list Z) (only parsing).
Abbreviation str := (list Z) (only parsing).

(** A source string literal as its code points. *)
Definition u (s : String.string) : list Z :=
  map (λ c, Z.of_N (N_of_ascii c)) (String.list_ascii_of_string s).
Arguments u s%_string_scope.

(** [len(x)]. *)
Definition zlen {A} (l : list A) : Z := Z.of_nat (length l).

Definition byte_range (b : Z) : Prop := 0 ≤ b < 256.
Definition bytes_ok (l : list Z) : Prop := Forall byte_range l.

(** Python's [l[i:j]] for any integers [i] and [j]: a negative index counts
    from the end, and both are clamped to the list. *)
Definition py_index {A} (l : list A) (i : Z) : Z :=
  if i <? 0 then Z.max 0 (i + zlen l) else Z.min i (zlen l).

Definition py_slice {A} (l : list A) (i j : Z) : list A :=
  take (Z.to_nat (py_index l j - py_index l i)) (drop (Z.to_nat (py_index l i)) l).

(** [range(a, b)]. *)
Fixpoint zrange_n (a : Z) (n : nat) : list Z :=
  match n with
  | O => []
  | S n' => a :: zrange_n (a + 1) n'
  end.

Definition zrange (a b : Z) : list Z := zrange_n a (Z.to_nat (b - a)).

(** ** Exceptions and the error monad *)

(** The exceptions the modelled code raises or lets through.  [str(e)] is the
    message; a [TFTPError] also carries its wire code. *)
Inductive exc :=
| TFTPError (code : Z) (message : list Z)
| FileLockError (message : list Z)
| ValueError (message : list Z)
| TypeError (message : list Z)
| AttributeError (message : list Z)
| ZeroDivisionError (message : list Z)
| StructError (message : list Z)
| RuntimeError (message : list Z)
| OSError (message : list Z)
| PermissionError (message : list Z)
| KeyError (message : list Z).

#[export] Instance exc_eq_dec : EqDecision exc.
Proof. solve_decision. Defined.

Inductive pyres (A : Type) :=
| Ok (a : A)
| Raise (e : exc).
Arguments Ok {A} a.
Arguments Raise {A} e.

#[export] Instance pyres_ret : MRet pyres := λ A a, Ok a.
#[export] Instance pyres_bind : MBind pyres := λ A B f m,
  match m with Ok a => f a | Raise e => Raise e end.
#[export] Instance pyres_fmap : FMap pyres := λ A B f m,
  match m with Ok a => Ok (f a) | Raise e => Raise e end.

Lemma pyres_bind_Ok {A B} (m : pyres A) (f : A → pyres B) b :
  m ≫= f = Ok b ↔ ∃ a, m = Ok a ∧ f a = Ok b.
Proof. destruct m; cbn; naive_solver. Qed.

Lemma pyres_bind_Raise {A B} (m : pyres A) (f : A → pyres B) e :
  m ≫= f = Raise e ↔ m = Raise e ∨ ∃ a, m = Ok a ∧ f a = Raise e.
Proof. destruct m; cbn; naive_solver. Qed.

(** Code that updates an object of type [S] and can raise on the way: what was
    done before the exception stays done. *)
Definition eff (S A : Type) : Type := S → pyres A * S.

#[export] Instance eff_ret {S} : MRet (eff S) := λ A a s, (Ok a, s).
#[export] Instance eff_bind {S} : MBind (eff S) := λ A B f m s,
  match m s with (Ok a, s') => f a s' | (Raise e, s') => (Raise e, s') end.

Definition lift_res {S A} (r : pyres A) : eff S A := λ s, (r, s).
Definition assign {S} (f : S → S) : eff S unit := λ s, (Ok tt, f s).
Definition reading {S A} (f : S → A) : eff S A := λ s, (Ok (f s), s).

(** [try: m / except Exception: log]. *)
Definition attempt {S} (m : eff S unit) : eff S unit := λ s, (Ok tt, (m s).2).

Lemma eff_bind_lift_res {S A B} (r : pyres A) (f : A → eff S B) s :
  (lift_res r ≫= f) s = match r with Ok a => f a s | Raise e => (Raise e, s) end.
Proof. by destruct r. Qed.

Lemma eff_bind_assign {S B} (g : S → S) (f : unit → eff S B) s : (assign g ≫= f) s = f tt (g s).
Proof. done. Qed.

Lemma eff_bind_reading {S A B} (g : S → A) (f : A → eff S B) s : (reading g ≫= f) s = f (g s) s.
Proof. done. Qed.

(** ** Insertion-ordered dictionaries

    A Python [dict] (and an [OrderedDict]) as the association list of its
    items in insertion order. *)
Section dict.
Context {K V : Type} `{EqDecision K}.
Implicit Types (d : list (K * V)) (k : K) (v : V).

Fixpoint dict_get (k : K) (d : list (K * V)) : option V :=
  match d with
  | [] => None
  | (k', v) :: d' => if decide (k = k') then Some v else dict_get k d'
  end.

(** [d[k] = v]: an existing key keeps its position. *)
Fixpoint dict_set (k : K) (v : V) (d : list (K * V)) : list (K * V) :=
  match d with
  | [] => [(k, v)]
  | (k', v') :: d' => if decide (k = k') then (k, v) :: d' else (k', v') :: dict_set k v d'
  end.

(** [d.pop(k, None)] and [del d[k]]. *)
Fixpoint dict_del (k : K) (d : list (K * V)) : list (K * V) :=
  match d with
  | [] => []
  | (k', v') :: d' => if decide (k = k') then d' else (k', v') :: dict_del k d'
  end.

Definition dict_mem (k : K) (d : list (K * V)) : bool :=
  match dict_get k d with Some _ => true | None => false end.

Definition dict_keys (d : list (K * V)) : list K := map fst d.

Lemma dict_get_set k k' v d :
  dict_get k' (dict_set k v d) = if decide (k' = k) then Some v else dict_get k' d.
Proof.
  induction d as [|[k1 v1] d IH]; cbn; repeat (case_decide; cbn); congruence.
Qed.

Lemma dict_get_set_eq k v d : dict_get k (dict_set k v d) = Some v.
Proof. rewrite dict_get_set. by case_decide. Qed.

Lemma dict_get_set_ne k k' v d : k' ≠ k → dict_get k' (dict_set k v d) = dict_get k' d.
Proof. intros. rewrite dict_get_set. by case_decide. Qed.

Lemma dict_get_None k d : dict_get k d = None ↔ k ∉ dict_keys d.
Proof.
  induction d as [|[k1 v1] d IH]; cbn.
  - split; [|done]. intros _. inversion 1.
  - rewrite not_elem_of_cons. case_decide; naive_solver.
Qed.

Lemma dict_get_Some_in k v d : dict_get k d = Some v → (k, v) ∈ d.
Proof.
  induction d as [|[k1 v1] d IH]; cbn; [done|]. rewrite elem_of_cons.
  case_decide; naive_solver.
Qed.

Lemma dict_get_Some_key k v d : dict_get k d = Some v → k ∈ dict_keys d.
Proof.
  intros H%dict_get_Some_in. apply list_elem_of_fmap. by exists (k, v).
Qed.

Lemma dict_get_in k v d : NoDup (dict_keys d) → (k, v) ∈ d → dict_get k d = Some v.
Proof.
  induction d as [|[k1 v1] d IH]; cbn; [by inversion 2|].
  rewrite NoDup_cons, elem_of_cons. intros [Hni Hnd] [[= -> ->]|Hin].
  - by case_decide.
  - case_decide as Heq; [subst|by apply IH].
    destruct Hni. apply list_elem_of_fmap. by exists (k1, v).
Qed.

Lemma dict_keys_set k v d :
  dict_keys (dict_set k v d) = if dict_mem k d then dict_keys d else dict_keys d ++ [k].
Proof.
  unfold dict_mem, dict_keys. induction d as [|[k1 v1] d IH]; cbn; [done|].
  case_decide; cbn; [by subst|]. rewrite IH. by destruct (dict_get k d).
Qed.

Lemma elem_of_dict_keys_set k v d x : x ∈ dict_keys (dict_set k v d) ↔ x = k ∨ x ∈ dict_keys d.
Proof.
  rewrite dict_keys_set. unfold dict_mem. destruct (dict_get k d) eqn:Hg.
  - split; [by right|]. intros [->|?]; [by eapply dict_get_Some_key|done].
  - rewrite elem_of_app, list_elem_of_singleton. tauto.
Qed.

Lemma dict_set_NoDup k v d : NoDup (dict_keys d) → NoDup (dict_keys (dict_set k v d)).
Proof.
  intros Hnd. rewrite dict_keys_set. unfold dict_mem.
  destruct (dict_get k d) eqn:Hg; [done|]. apply dict_get_None in Hg.
  apply NoDup_app. split_and!; [done| |apply NoDup_singleton].
  intros x Hx ->%list_elem_of_singleton. done.
Qed.

Lemma dict_set_new k v d : k ∉ dict_keys d → dict_set k v d = d ++ [(k, v)].
Proof.
  unfold dict_keys. induction d as [|[k1 v1] d IH]; cbn; [done|].
  rewrite not_elem_of_cons. intros [Hne Hn]. case_decide; [done|]. by rewrite IH.
Qed.

Lemma dict_keys_del_sub k d x : x ∈ dict_keys (dict_del k d) → x ∈ dict_keys d.
Proof.
  induction d as [|[k1 v1] d IH]; cbn; [done|]. rewrite elem_of_cons.
  case_decide; cbn; [by right|]. rewrite elem_of_cons. naive_solver.
Qed.

Lemma dict_del_NoDup k d : NoDup (dict_keys d) → NoDup (dict_keys (dict_del k d)).
Proof.
  induction d as [|[k1 v1] d IH]; cbn; [done|]. rewrite NoDup_cons. intros [Hni Hnd].
  case_decide; cbn; [done|]. rewrite NoDup_cons. split; [|auto].
  intros Hx. by apply Hni, (dict_keys_del_sub k).
Qed.

Lemma dict_get_del_eq k d : NoDup (dict_keys d) → dict_get k (dict_del k d) = None.
Proof.
  induction d as [|[k1 v1] d IH]; cbn; [done|]. rewrite NoDup_cons. intros [Hni Hnd].
  case_decide; cbn; [subst; by apply dict_get_None|]. case_decide; [done|]. by apply IH.
Qed.

Lemma dict_get_del_ne k k' d : k' ≠ k → dict_get k' (dict_del k d) = dict_get k' d.
Proof.
  intros Hne. induction d as [|[k1 v1] d IH]; cbn; [done|].
  repeat (case_decide; cbn); congruence.
Qed.

Lemma dict_del_notin k d : dict_get k d = None → dict_del k d = d.
Proof.
  induction d as [|[k1 v1] d IH]; cbn; [done|]. case_decide; [done|].
  intros. by rewrite IH.
Qed.
End dict.

(** ** Automation *)

Create HintDb nishro.

(** Splits every boolean comparison of the context and the goal into the order
    fact it stands for, then leaves the arithmetic to [lia]. *)
Ltac zbool :=
  repeat match goal with
  | H : _ && _ = true |- _ => apply andb_prop in H as [? ?]
  | H : _ || _ = false |- _ => apply orb_false_elim in H as [? ?]
  | H : negb _ = true |- _ => apply negb_true_iff in H
  | H : negb _ = false |- _ => apply negb_false_iff in H
  | H : (_ <? _) = true |- _ => apply Z.ltb_lt in H
  | H : (_ <? _) = false |- _ => apply Z.ltb_ge in H
  | H : (_ <=? _) = true |- _ => apply Z.leb_le in H
  | H : (_ <=? _) = false |- _ => apply Z.leb_gt in H
  | H : (_ =? _) = true |- _ => apply Z.eqb_eq in H
  | H : (_ =? _) = false |- _ => apply Z.eqb_neq in H
  end.

(** Case analysis on the scrutinee of the outermost [match] or [if] of the
    goal or of a hypothesis. *)
Ltac case_goal :=
  match goal with
  | |- context [match ?x with _ => _ end] => let E := fresh "E" in destruct x eqn:E
  end.
Ltac case_hyp H :=
  match type of H with
  | context [match ?x with _ => _ end] => let E := fresh "E" in destruct x eqn:E
  end.

(** Two different string literals. *)
Ltac str_ne := let H := fresh in intro H; vm_compute in H; discriminate H.

(** A literal is not among a concrete list of keys. *)
Ltac key_fresh := unfold dict_keys; cbn [map fst app];
  repeat (apply not_elem_of_cons; split; [str_ne|]); apply not_elem_of_nil.

(** Decomposes a successful monadic computation. *)
Ltac inv_ok :=
  repeat match goal with
  | H : Ok _ = Ok _ |- _ => injection H as H
  | H : Raise _ = Ok _ |- _ => discriminate H
  | H : Ok _ = Raise _ |- _ => discriminate H
  | H : _ ≫= _ = Ok _ |- _ => apply pyres_bind_Ok in H as (? & ? & H)
  end.

(** ** Ranges and slices *)

Lemma zlen_nonneg {A} (l : list A) : 0 ≤ zlen l.
Proof. unfold zlen. lia. Qed.

Lemma zlen_app {A} (l1 l2 : list A) : zlen (l1 ++ l2) = zlen l1 + zlen l2.
Proof. unfold zlen. rewrite length_app. lia. Qed.

Lemma zlen_cons {A} (x : A) l : zlen (x :: l) = 1 + zlen l.
Proof. unfold zlen. cbn [length]. lia. Qed.

Lemma zlen_nil {A} : zlen (@nil A) = 0.
Proof. done. Qed.

Lemma zlen_0 {A} (l : list A) : zlen l = 0 → l = [].
Proof. destruct l; [done|]. rewrite zlen_cons. pose proof (zlen_nonneg l). lia. Qed.

Create Rewrite HintDb zlen.
#[export] Hint Rewrite @zlen_app @zlen_cons @zlen_nil : zlen.
#[export] Hint Resolve zlen_nonneg : nishro.

Lemma zrange_n_app a n m : zrange_n a (n + m) = zrange_n a n ++ zrange_n (a + Z.of_nat n) m.
Proof.
  revert a. induction n as [|n IH]; intros a; cbn [zrange_n Nat.add app].
  - by rewrite Z.add_0_r.
  - rewrite IH. do 3 f_equal. lia.
Qed.

Lemma elem_of_zrange_n x a n : x ∈ zrange_n a n ↔ a ≤ x < a + Z.of_nat n.
Proof.
  revert a. induction n as [|n IH]; intros a; cbn [zrange_n].
  - split; [by inversion 1|lia].
  - rewrite elem_of_cons, IH. lia.
Qed.

Lemma elem_of_zrange x a b : x ∈ zrange a b ↔ a ≤ x < b.
Proof. unfold zrange. rewrite elem_of_zrange_n. lia. Qed.

Lemma zrange_empty a b : b ≤ a → zrange a b = [].
Proof. intros. unfold zrange. by replace (Z.to_nat (b - a)) with 0%nat by lia. Qed.

Lemma zrange_cons a b : a < b → zrange a b = a :: zrange (a + 1) b.
Proof.
  intros. unfold zrange. replace (Z.to_nat (b - a)) with (S (Z.to_nat (b - (a + 1)))) by lia.
  done.
Qed.

Lemma zrange_snoc a b : a ≤ b → zrange a (b + 1) = zrange a b ++ [b].
Proof.
  intros. unfold zrange. replace (Z.to_nat (b + 1 - a)) with (Z.to_nat (b - a) + 1)%nat by lia.
  rewrite zrange_n_app. cbn. do 2 f_equal. lia.
Qed.

Lemma zrange_app a b c : a ≤ b ≤ c → zrange a c = zrange a b ++ zrange b c.
Proof.
  intros. unfold zrange.
  replace (Z.to_nat (c - a)) with (Z.to_nat (b - a) + Z.to_nat (c - b))%nat by lia.
  rewrite zrange_n_app. do 2 f_equal. lia.
Qed.

Lemma zlen_zrange a b : a ≤ b → zlen (zrange a b) = b - a.
Proof.
  unfold zlen, zrange. intros. remember (Z.to_nat (b - a)) as n eqn:Hn.
  assert (∀ x, length (zrange_n x n) = n) as -> by (clear; induction n; cbn; auto).
  lia.
Qed.

Lemma py_slice_nonneg {A} (l : list A) i j :
  0 ≤ i → 0 ≤ j → py_slice l i j = take (Z.to_nat (j - i)) (drop (Z.to_nat i) l).
Proof.
  intros Hi Hj. unfold py_slice, py_index, zlen.
  destruct (Z.ltb_spec i 0), (Z.ltb_spec j 0); try lia.
  destruct (decide (Z.of_nat (length l) ≤ i)).
  { rewrite !drop_ge by lia. by rewrite !take_nil. }
  replace (Z.min i _) with i by lia.
  destruct (decide (j ≤ Z.of_nat (length l))); [by rewrite Z.min_l by lia|].
  rewrite !take_ge; [done|rewrite length_drop; lia..].
Qed.

