(* ===== verification/Python.v ===== *)
(** * The parts of Python the source relies on

    Text operations ([lower], [startswith], [split], [lstrip], [replace]),
    integer printing and parsing, and the dynamic values of the YAML
    configuration with [dict.get], truth value, [int()], [str()] and [or].

    Text methods are modelled on ASCII and leave every other code point alone.
    Names that arrive on the wire are decoded with
    [decode("ascii", errors="replace")] and so hold only ASCII and U+FFFD, on
    which this is exactly what Python does. *)

From S2P Require Import Prelude.
Open Scope Z_scope.

(** ** Text *)

Definition chr_lower (c : Z) : Z := if (65 <=? c) && (c <=? 90) then c + 32 else c.
Definition chr_upper (c : Z) : Z := if (97 <=? c) && (c <=? 122) then c - 32 else c.

(** [s.lower()], [s.upper()]. *)
Definition lower (s : str) : str := map chr_lower s.
Definition upper (s : str) : str := map chr_upper s.

Arguments lower : simpl never.
Arguments upper : simpl never.

(** [s.startswith(p)]. *)
Fixpoint starts_with (p s : str) : bool :=
  match p, s with
  | [], _ => true
  | a :: p', b :: s' => (a =? b) && starts_with p' s'
  | _ :: _, [] => false
  end.

(** [p in s] on strings. *)
Fixpoint contains (p s : str) : bool :=
  starts_with p s || match s with [] => false | _ :: s' => contains p s' end.

(** [s.split(c)] for a one-character separator. *)
Fixpoint split_on (c : Z) (s : str) : list str :=
  match s with
  | [] => [[]]
  | x :: s' =>
      if x =? c then [] :: split_on c s'
      else match split_on c s' with
           | [] => [[x]]
           | p :: ps => (x :: p) :: ps
           end
  end.

(** [c.join(parts)] for a one-character separator. *)
Fixpoint join_with (c : Z) (ps : list str) : str :=
  match ps with
  | [] => []
  | [p] => p
  | p :: ps' => p ++ c :: join_with c ps'
  end.

(** [s.lstrip(c)], [s.rstrip(c)] for one character. *)
Fixpoint lstrip (c : Z) (s : str) : str :=
  match s with
  | [] => []
  | x :: s' => if x =? c then lstrip c s' else s
  end.
Definition rstrip (c : Z) (s : str) : str := rev (lstrip c (rev s)).

(** [s.replace(a, b)] for one-character [a] and [b]. *)
Definition replace_chr (a b : Z) (s : str) : str := map (λ x, if x =? a then b else x) s.

Definition is_digit (c : Z) : bool := (48 <=? c) && (c <=? 57).

(** [s.isdigit()]. *)
Definition isdigit (s : str) : bool :=
  match s with [] => false | _ => forallb is_digit s end.

(** ** Integers as text *)

Fixpoint digits_aux (fuel : nat) (n : Z) (acc : list Z) : list Z :=
  match fuel with
  | O => acc
  | S f =>
      let acc' := (48 + n mod 10) :: acc in
      if n / 10 =? 0 then acc' else digits_aux f (n / 10) acc'
  end.

(** [str(n)]; a number below [2^f] has at most [f] digits, so the fuel
    [log2 n + 1] is enough ([dec_val_digits]). *)
Definition nat_str (n : Z) : str := digits_aux (S (Z.to_nat (Z.log2 n))) n [].
Definition z_str (z : Z) : str := if z <? 0 then 45 :: nat_str (- z) else nat_str z.

Definition dec_val (acc : Z) (ds : list Z) : Z := fold_left (λ a c, a * 10 + (c - 48)) ds acc.

Definition is_space (c : Z) : bool := ((9 <=? c) && (c <=? 13)) || (c =? 32).

Fixpoint lstrip_ws (s : str) : str :=
  match s with
  | [] => []
  | x :: s' => if is_space x then lstrip_ws s' else s
  end.
Definition strip_ws (s : str) : str := rev (lstrip_ws (rev (lstrip_ws s))).

(** A digit, then digits each optionally preceded by one underscore. *)
Fixpoint us_digits (s : str) : option (list Z) :=
  match s with
  | [] => None
  | c :: s' =>
      if is_digit c then
        match s' with
        | [] => Some [c]
        | c2 :: s'' =>
            if c2 =? 95 then cons c <$> us_digits s'' else cons c <$> us_digits s'
        end
      else None
  end.

Definition hex_digit (n : Z) : Z := if n <? 10 then 48 + n else 87 + n.

(** [repr(s)]. *)
Definition repr_chr (quote c : Z) : str :=
  if (c =? quote) || (c =? 92) then [92; c]
  else if c =? 10 then u "\n" else if c =? 13 then u "\r" else if c =? 9 then u "\t"
  else if (c <? 32) || (c =? 127) then u "\x" ++ [hex_digit (c / 16); hex_digit (c mod 16)]
  else [c].

Definition repr_str (s : str) : str :=
  let quote := if existsb (Z.eqb 39) s && negb (existsb (Z.eqb 34) s) then 34 else 39 in
  [quote] ++ concat (map (repr_chr quote) s) ++ [quote].

(** [str(e)], as an f-string shows it. *)
Definition exc_str (e : exc) : str :=
  match e with
  | TFTPError c m => u "TFTP error " ++ z_str c ++ u ": " ++ m
  | FileLockError m | ValueError m | TypeError m
  | AttributeError m | ZeroDivisionError m | StructError m | RuntimeError m
  | OSError m | PermissionError m | KeyError m => m
  end.

(** The interpreter's limit on the digits of a decimal string. *)
Definition INT_MAX_STR_DIGITS : Z := 4300.

Definition split_sign (t : str) : Z * str :=
  match t with
  | c :: r => if c =? 43 then (1, r) else if c =? 45 then (-1, r) else (1, t)
  | [] => (1, t)
  end.

(** [int(s)] for a string. *)
Definition int_of_str (s : str) : pyres Z :=
  let t := strip_ws s in
  let '(sg, d) := split_sign t in
  match us_digits d with
  | None => Raise (ValueError (u "invalid literal for int() with base 10: " ++ repr_str s))
  | Some ds =>
      if INT_MAX_STR_DIGITS <? zlen ds then
        Raise (ValueError (u "Exceeds the limit (4300 digits) for integer string conversion: value has "
                 ++ z_str (zlen ds)
                 ++ u " digits; use sys.set_int_max_str_digits() to increase the limit"))
      else Ok (sg * dec_val 0 ds)
  end.

(** ** Configuration values *)

(** What [yaml.safe_load] builds from the configuration schema. *)
Inductive pyval :=
| VNone
| VBool (b : bool)
| VInt (z : Z)
| VStr (s : list Z)
| VList (l : list pyval)
| VDict (d : list (list Z * pyval)).

(** [bool(v)]. *)
Definition truthy (v : pyval) : bool :=
  match v with
  | VNone => false
  | VBool b => b
  | VInt z => negb (z =? 0)
  | VStr s => negb (bool_decide (s = []))
  | VList l => match l with [] => false | _ => true end
  | VDict d => match d with [] => false | _ => true end
  end.

(** [v or w]. *)
Definition py_or (v w : pyval) : pyval := if truthy v then v else w.

Definition type_name (v : pyval) : str :=
  match v with
  | VNone => u "NoneType" | VBool _ => u "bool" | VInt _ => u "int"
  | VStr _ => u "str" | VList _ => u "list" | VDict _ => u "dict"
  end.

(** [v.get(k, d)]. *)
Definition py_get (v : pyval) (k : str) (d : pyval) : pyres pyval :=
  match v with
  | VDict kvs => Ok (default d (dict_get k kvs))
  | _ => Raise (AttributeError (u "'" ++ type_name v ++ u "' object has no attribute 'get'"))
  end.

(** [int(v)]. *)
Definition py_int (v : pyval) : pyres Z :=
  match v with
  | VInt z => Ok z
  | VBool b => Ok (if b then 1 else 0)
  | VStr s => int_of_str s
  | _ => Raise (TypeError (u "int() argument must be a string, a bytes-like object or a real number, not '"
           ++ type_name v ++ u "'"))
  end.

(** [v.lower()]. *)
Definition py_lower (v : pyval) : pyres str :=
  match v with
  | VStr s => Ok (lower s)
  | _ => Raise (AttributeError (u "'" ++ type_name v ++ u "' object has no attribute 'lower'"))
  end.

(** [v == w]: a boolean equals the number it stands for, a dictionary does not
    depend on the order of its keys. *)
Fixpoint py_eqb (v w : pyval) {struct v} : bool :=
  match v, w with
  | VNone, VNone => true
  | VBool a, VBool b => Bool.eqb a b
  | VBool a, VInt z => z =? (if a then 1 else 0)
  | VInt z, VBool a => z =? (if a then 1 else 0)
  | VInt a, VInt b => a =? b
  | VStr a, VStr b => bool_decide (a = b)
  | VList l, VList m =>
      (fix go l m := match l, m with
                     | [], [] => true
                     | x :: l', y :: m' => py_eqb x y && go l' m'
                     | _, _ => false
                     end) l m
  | VDict d, VDict e =>
      (length d =? length e)%nat &&
      (fix go d := match d with
                   | [] => true
                   | (k, x) :: d' => match dict_get k e with Some y => py_eqb x y | None => false end && go d'
                   end) d
  | _, _ => false
  end.

Lemma py_eqb_str s v : py_eqb v (VStr s) = true → v = VStr s.
Proof. destruct v; cbn; try done. by intros ->%bool_decide_eq_true_1. Qed.

Fixpoint comma_sep (ps : list str) : str :=
  match ps with
  | [] => []
  | [p] => p
  | p :: ps' => p ++ u ", " ++ comma_sep ps'
  end.

(** [repr(v)] and [str(v)]. *)
Fixpoint py_repr (v : pyval) : str :=
  match v with
  | VNone => u "None"
  | VBool b => if b then u "True" else u "False"
  | VInt z => z_str z
  | VStr s => repr_str s
  | VList l => u "[" ++ comma_sep (map py_repr l) ++ u "]"
  | VDict d => u "{" ++ comma_sep
                 (map (λ kv, repr_str (fst kv) ++ u ": " ++ py_repr (snd kv)) d) ++ u "}"
  end.

Definition py_str (v : pyval) : str :=
  match v with VStr s => s | _ => py_repr v end.

(** ** Laws of the text operations *)

Lemma dec_val_app acc l1 l2 : dec_val acc (l1 ++ l2) = dec_val (dec_val acc l1) l2.
Proof. apply fold_left_app. Qed.

Lemma dec_val_digits_aux f n acc :
  0 ≤ n < 2 ^ Z.of_nat f → f ≠ O → dec_val 0 (digits_aux f n acc) = dec_val n acc.
Proof.
  revert n acc. induction f as [|f IH]; intros n acc Hn Hf; [done|]. cbn [digits_aux].
  pose proof (Z.div_mod n 10). pose proof (Z.mod_pos_bound n 10).
  destruct (Z.eqb_spec (n / 10) 0) as [Hz|Hz].
  - unfold dec_val. cbn [fold_left]. f_equal. lia.
  - assert (0 ≤ n / 10) by (apply Z.div_pos; lia).
    rewrite Nat2Z.inj_succ, Z.pow_succ_r in Hn by lia.
    rewrite IH; [unfold dec_val; cbn [fold_left]; f_equal; lia|nia|]. intros ->. cbn in Hn. lia.
Qed.

Lemma dec_val_nat_str n : 0 ≤ n → dec_val 0 (nat_str n) = n.
Proof.
  intros Hn. unfold nat_str. rewrite dec_val_digits_aux; [done| |done].
  split; [done|]. destruct (decide (n = 0)) as [->|]; [done|].
  rewrite Nat2Z.inj_succ, Z2Nat.id by apply Z.log2_nonneg. apply Z.log2_spec. lia.
Qed.

Lemma digits_aux_digits f n acc :
  Forall (λ c, is_digit c = true) acc → Forall (λ c, is_digit c = true) (digits_aux f n acc).
Proof.
  revert n acc. induction f as [|f IH]; intros n acc Hacc; [done|]. cbn [digits_aux].
  assert (Forall (λ c, is_digit c = true) ((48 + n mod 10) :: acc)).
  { constructor; [|done]. unfold is_digit. pose proof (Z.mod_pos_bound n 10). lia. }
  case_goal; auto.
Qed.

Lemma nat_str_digits n : Forall (λ c, is_digit c = true) (nat_str n).
Proof. by apply digits_aux_digits. Qed.

Lemma digits_aux_ne f n acc : f ≠ O ∨ acc ≠ [] → digits_aux f n acc ≠ [].
Proof.
  revert n acc. induction f as [|f IH]; intros n acc Hne; cbn [digits_aux]; [naive_solver|].
  case_goal; [done|]. apply IH. by right.
Qed.

Lemma nat_str_ne n : nat_str n ≠ [].
Proof. apply digits_aux_ne. by left. Qed.

Lemma us_digits_digits ds :
  ds ≠ [] → Forall (λ c, is_digit c = true) ds → us_digits ds = Some ds.
Proof.
  induction ds as [|c [|c2 ds] IH]; intros Hne Hd; [done| |]; inversion_clear Hd as [|?? Hc Hds].
  - cbn. by rewrite Hc.
  - change (us_digits (c :: c2 :: ds)) with
      (if is_digit c then if c2 =? 95 then cons c <$> us_digits ds
                          else cons c <$> us_digits (c2 :: ds) else None).
    rewrite Hc, IH by done. inversion Hds as [|?? Hc2]. unfold is_digit in Hc2.
    destruct (Z.eqb_spec c2 95); [zbool; lia|done].
Qed.

Lemma lstrip_ws_nonspace c s : is_space c = false → lstrip_ws (c :: s) = c :: s.
Proof. cbn. by intros ->. Qed.

Lemma strip_ws_noop s :
  Forall (λ c, is_space c = false) s → strip_ws s = s.
Proof.
  intros Hs. unfold strip_ws.
  assert (∀ l, Forall (λ c, is_space c = false) l → lstrip_ws l = l) as Hl.
  { intros [|c l] H; [done|]. inversion H. by apply lstrip_ws_nonspace. }
  rewrite (Hl s) by done. rewrite Hl by by apply Forall_rev. apply rev_involutive.
Qed.

Lemma is_digit_nonspace c : is_digit c = true → is_space c = false.
Proof. unfold is_digit, is_space. lia. Qed.

Lemma digits_aux_length f n acc : (length (digits_aux f n acc) ≤ f + length acc)%nat.
Proof.
  revert n acc. induction f as [|f IH]; intros n acc; cbn [digits_aux]; [lia|].
  case_goal; [cbn; lia|]. specialize (IH (n / 10) ((48 + n mod 10) :: acc)). cbn in IH. lia.
Qed.

Lemma split_sign_digits s : Forall (λ c, is_digit c = true) s → split_sign s = (1, s).
Proof.
  destruct s as [|c r]; [done|]. inversion_clear 1 as [|?? Hc _]. unfold is_digit in Hc. cbn.
  destruct (Z.eqb_spec c 43), (Z.eqb_spec c 45); subst; done.
Qed.

(** The decimal text of a number within the interpreter's digit limit reads
    back as the number: [int(str(z)) = z]. *)
Lemma int_of_z_str z : Z.abs z < 2 ^ 4299 → int_of_str (z_str z) = Ok z.
Proof.
  intros Hz.
  assert (∀ n, 0 ≤ n < 2 ^ 4299 → zlen (nat_str n) ≤ 4300) as Hlen.
  { intros n Hn. unfold nat_str, zlen.
    pose proof (digits_aux_length (S (Z.to_nat (Z.log2 n))) n []).
    assert (Z.log2 n < 4299 + 1).
    { destruct (decide (n = 0)) as [->|]; [by vm_compute|].
      enough (Z.log2 n < 4299) by lia. apply Z.log2_lt_pow2; lia. }
    pose proof (Z.log2_nonneg n). cbn [length] in *. lia. }
  assert (∀ n, Forall (λ c, is_space c = false) (nat_str n)) as Hns.
  { intros n. eapply Forall_impl; [apply nat_str_digits|]. apply is_digit_nonspace. }
  assert (∀ n, us_digits (nat_str n) = Some (nat_str n)) as Hus.
  { intros n. apply us_digits_digits; [apply nat_str_ne|apply nat_str_digits]. }
  unfold int_of_str, z_str. destruct (Z.ltb_spec z 0) as [Hneg|Hpos].
  - rewrite strip_ws_noop by (constructor; [done|apply Hns]). cbn [split_sign Z.eqb Pos.eqb].
    rewrite Hus. destruct (Z.ltb_spec INT_MAX_STR_DIGITS (zlen (nat_str (- z)))) as [Hl|_].
    { specialize (Hlen (- z)). unfold INT_MAX_STR_DIGITS in Hl. lia. }
    rewrite dec_val_nat_str by lia. f_equal. lia.
  - rewrite strip_ws_noop by apply Hns.
    rewrite split_sign_digits by apply nat_str_digits.
    rewrite Hus. destruct (Z.ltb_spec INT_MAX_STR_DIGITS (zlen (nat_str z))) as [Hl|_].
    { specialize (Hlen z). unfold INT_MAX_STR_DIGITS in Hl. lia. }
    rewrite dec_val_nat_str by lia. f_equal. lia.
Qed.
