(* ===== verification/Collections.v ===== *)
(** * Library containers the source relies on

    The order of Python strings, the stable [sorted], [deque(maxlen=n)], and
    the text codecs (JSON and YAML) that the persistent stores write and read
    their files with. *)

From S2P Require Import Prelude Python.
From stdpp Require Import sorting.
Open Scope Z_scope.

(** ** The order of strings *)

(** [s < t]: by code points. *)
Fixpoint str_ltb (s t : str) : bool :=
  match s, t with
  | [], _ :: _ => true
  | _, [] => false
  | a :: s', b :: t' => (a <? b) || ((a =? b) && str_ltb s' t')
  end.

Definition str_leb (s t : str) : bool := negb (str_ltb t s).

Lemma str_ltb_irrefl s : str_ltb s s = false.
Proof. induction s as [|a s IH]; cbn; [done|]. by rewrite Z.ltb_irrefl, IH, andb_false_r. Qed.

Lemma str_ltb_trans s t v : str_ltb s t = true → str_ltb t v = true → str_ltb s v = true.
Proof.
  revert t v. induction s as [|a s IH]; intros [|b t] [|c v]; cbn; try done.
  rewrite !orb_true_iff, !andb_true_iff, !Z.ltb_lt, !Z.eqb_eq.
  intros [?|[-> ?]] [?|[-> ?]]; [left; lia..|right; split; [done|]]. by eapply IH.
Qed.

(** Strings that differ are ordered. *)
Lemma str_ltb_total s t : str_ltb s t = false → str_ltb t s = false → s = t.
Proof.
  revert t. induction s as [|a s IH]; intros [|b t]; cbn; try done.
  rewrite !orb_false_iff, !andb_false_iff, !Z.ltb_ge, !Z.eqb_neq.
  intros [? Hab] [? Hba]. assert (a = b) as -> by lia.
  f_equal. apply IH; naive_solver.
Qed.

(** A common prefix does not matter; strings of one length that differ in a
    block are ordered by the block. *)
Lemma str_ltb_app p s t : str_ltb (p ++ s) (p ++ t) = str_ltb s t.
Proof. induction p as [|a p IH]; cbn; [done|]. by rewrite Z.ltb_irrefl, Z.eqb_refl, IH. Qed.

Lemma str_ltb_app_lt p q s t :
  length p = length q → str_ltb p q = true → str_ltb (p ++ s) (q ++ t) = true.
Proof.
  revert q. induction p as [|a p IH]; intros [|b q]; cbn; try done.
  rewrite !orb_true_iff, !andb_true_iff. intros [= Hl] [?|[? ?]]; [by left|right; auto].
Qed.

(** ** Sorting *)

Section sorting.
Context {A : Type} (le : A → A → bool).

Fixpoint insert_by (x : A) (l : list A) : list A :=
  match l with
  | [] => [x]
  | y :: l' => if le x y then x :: l else y :: insert_by x l'
  end.

(** [sorted(l, key=...)] for the order of the keys: stable. *)
Fixpoint sort_by (l : list A) : list A :=
  match l with
  | [] => []
  | x :: l' => insert_by x (sort_by l')
  end.

Lemma insert_by_Permutation x l : insert_by x l ≡ₚ x :: l.
Proof.
  induction l as [|y l IH]; cbn; [done|]. destruct (le x y); [done|].
  rewrite IH. apply Permutation_swap.
Qed.

Lemma sort_by_Permutation l : sort_by l ≡ₚ l.
Proof. induction l as [|x l IH]; cbn; [done|]. by rewrite insert_by_Permutation, IH. Qed.

Lemma elem_of_sort_by x l : x ∈ sort_by l ↔ x ∈ l.
Proof. by rewrite sort_by_Permutation. Qed.

Hypothesis le_total : ∀ x y, le x y = true ∨ le y x = true.

Lemma insert_by_Sorted x l :
  Sorted (λ a b, le a b = true) l → Sorted (λ a b, le a b = true) (insert_by x l).
Proof.
  induction l as [|y l IH]; cbn; [by repeat constructor|]. intros Hs.
  destruct (le x y) eqn:Hxy; [constructor; [done|by constructor]|].
  apply Sorted_inv in Hs as [Hs Hh]. constructor; [by apply IH|].
  assert (le y x = true) as Hyx by (destruct (le_total x y); congruence).
  destruct l as [|z l]; cbn; [by constructor|].
  destruct (le x z); constructor; [done|by inversion Hh].
Qed.

Lemma sort_by_Sorted l : Sorted (λ a b, le a b = true) (sort_by l).
Proof. induction l as [|x l IH]; cbn; [constructor|]. by apply insert_by_Sorted. Qed.
End sorting.

Lemma str_leb_total s t : str_leb s t = true ∨ str_leb t s = true.
Proof.
  unfold str_leb. rewrite !negb_true_iff. destruct (str_ltb t s) eqn:E; [|by left].
  right. destruct (str_ltb s t) eqn:E'; [|done].
  pose proof (str_ltb_trans _ _ _ E E') as Hc. by rewrite str_ltb_irrefl in Hc.
Qed.

(** [sorted(strings)]. *)
Definition sorted_strs (l : list str) : list str := sort_by str_leb l.

(** ** deque(maxlen=n) *)

(** [append]: the oldest item on the left goes first. *)
Definition deque_append {A} (maxlen : nat) (x : A) (q : list A) : list A :=
  let q := q ++ [x] in drop (length q - maxlen) q.

(** [appendleft]: the oldest item is on the right. *)
Definition deque_appendleft {A} (maxlen : nat) (x : A) (q : list A) : list A :=
  take maxlen (x :: q).

(** The last [n] elements. *)
Definition lastn {A} (n : nat) (l : list A) : list A := drop (length l - n) l.

Lemma lastn_append {A} n (x : A) l : deque_append n x (lastn n l) = lastn n (l ++ [x]).
Proof.
  unfold deque_append, lastn. rewrite !length_app, length_drop. cbn [length].
  rewrite <- (drop_app_le l [x]) by lia. rewrite drop_drop. f_equal. lia.
Qed.

Lemma length_lastn {A} n (l : list A) : length (lastn n l) = Nat.min n (length l).
Proof. unfold lastn. rewrite length_drop. lia. Qed.

Lemma lastn_all {A} n (l : list A) : (length l ≤ n)%nat → lastn n l = l.
Proof. intros. unfold lastn. by replace (length l - n)%nat with 0%nat by lia. Qed.

(** [list.remove]: the first occurrence, if there is one. *)
Fixpoint remove_first {A} `{EqDecision A} (x : A) (l : list A) : list A :=
  match l with
  | [] => []
  | y :: l' => if decide (x = y) then l' else y :: remove_first x l'
  end.

Lemma remove_first_app {A} `{EqDecision A} (x : A) l k :
  x ∉ l → remove_first x (l ++ x :: k) = l ++ k.
Proof.
  induction l as [|y l IH]; cbn; [by rewrite decide_True|]. rewrite not_elem_of_cons. intros [Hne Hl].
  rewrite decide_False by done. by rewrite IH.
Qed.

Lemma elem_of_remove_first {A} `{EqDecision A} (x y : A) l : y ∈ remove_first x l → y ∈ l.
Proof.
  induction l as [|z l IH]; cbn; [done|]. case_decide; rewrite ?elem_of_cons; tauto.
Qed.

(** ** Text codecs *)

(** A value a codec can write: no dictionary in it has a key twice. *)
Fixpoint val_ok (v : pyval) : Prop :=
  match v with
  | VList l => fold_right (λ x P, val_ok x ∧ P) True l
  | VDict d => NoDup (dict_keys d) ∧ fold_right (λ kv P, val_ok kv.2 ∧ P) True d
  | _ => True
  end.

(** [json] or [yaml]: what it writes it reads back; reading another text can
    raise.  A file is the text last written, or [None] when it does not
    exist. *)
Class Codec := {
  text : Type;
  dumps : pyval → text;
  loads : text → pyres pyval;
  loads_dumps : ∀ v, val_ok v → loads (dumps v) = Ok v;
}.

(** The codec that stores the value itself. *)
Definition plain_codec : Codec := {|
  text := pyval; dumps := λ v, v; loads := λ v, Ok v; loads_dumps := λ v _, eq_refl;
|}.

Lemma val_ok_list l : val_ok (VList l) ↔ Forall val_ok l.
Proof. cbn. induction l as [|v l IH]; cbn; [done|]. rewrite Forall_cons. tauto. Qed.

Lemma val_ok_dict d : val_ok (VDict d) ↔ NoDup (dict_keys d) ∧ Forall (λ kv, val_ok kv.2) d.
Proof.
  cbn. assert (fold_right (λ kv P, val_ok kv.2 ∧ P) True d ↔ Forall (λ kv, val_ok kv.2) d) as ->; [|done].
  induction d as [|v d IH]; cbn; [done|]. rewrite Forall_cons. tauto.
Qed.

(** A dictionary comprehension: a repeated key keeps its place and takes the
    last value. *)
Definition dict_of {K V} `{EqDecision K} (items : list (K * V)) : list (K * V) :=
  fold_left (λ d kv, dict_set kv.1 kv.2 d) items [].

Lemma dict_of_NoDup {K V} `{EqDecision K} (items : list (K * V)) : NoDup (dict_keys (dict_of items)).
Proof.
  unfold dict_of. assert (NoDup (dict_keys (@nil (K * V)))) as Hn by constructor.
  revert Hn. generalize (@nil (K * V)). induction items as [|kv items IH]; intros d Hd; cbn; [done|].
  by apply IH, dict_set_NoDup.
Qed.

Lemma dict_of_id {K V} `{EqDecision K} (d : list (K * V)) : NoDup (dict_keys d) → dict_of d = d.
Proof.
  unfold dict_of. intros Hnd.
  assert (∀ acc, NoDup (dict_keys (acc ++ d)) →
    fold_left (λ d kv, dict_set kv.1 kv.2 d) d acc = acc ++ d) as Hgen; [|by apply (Hgen [])].
  clear Hnd. induction d as [|[k v] d IH]; intros acc Hn; cbn; [by rewrite app_nil_r|].
  unfold dict_keys in Hn. rewrite map_app in Hn. cbn in Hn.
  apply NoDup_app in Hn as (Ha & Hd & Hr).
  rewrite dict_set_new.
  - rewrite IH; [by rewrite <- app_assoc|]. unfold dict_keys. rewrite !map_app, <- app_assoc.
    apply NoDup_app. split_and!; done.
  - intros Hin. apply (Hd k Hin). apply elem_of_cons. by left.
Qed.

(** [sort_keys=True]. *)
Definition sort_dict {A} (d : list (str * A)) : list (str * A) := sort_by (λ a b, str_leb a.1 b.1) d.

(** The order of the items does not matter to a lookup. *)
Lemma dict_get_Permutation {K V} `{EqDecision K} k (d d' : list (K * V)) :
  NoDup (dict_keys d) → d ≡ₚ d' → dict_get k d' = dict_get k d.
Proof.
  intros Hnd Hp. assert (NoDup (dict_keys d')) as Hnd' by (unfold dict_keys in *; by rewrite <- Hp).
  destruct (dict_get k d) as [v|] eqn:Hg.
  - apply dict_get_in; [done|]. rewrite <- Hp. by apply dict_get_Some_in.
  - apply dict_get_None. apply dict_get_None in Hg. unfold dict_keys in *. by rewrite <- Hp.
Qed.

Lemma sort_dict_get {A} k (d : list (str * A)) :
  NoDup (dict_keys d) → dict_get k (sort_dict d) = dict_get k d.
Proof. intros Hnd. apply dict_get_Permutation; [done|]. symmetry. apply sort_by_Permutation. Qed.

Lemma sort_dict_NoDup {A} (d : list (str * A)) : NoDup (dict_keys d) → NoDup (dict_keys (sort_dict d)).
Proof. unfold dict_keys, sort_dict. by rewrite sort_by_Permutation. Qed.
