(* ===== verification/Wire.v ===== *)
(** * TFTP wire format (src/tftp/protocol.py)

    Opcodes, error codes, the packet types and their encoders and decoders. *)

From S2P Require Import Prelude Python.
Open Scope Z_scope.

Definition OP_RRQ : Z := 1.
Definition OP_WRQ : Z := 2.
Definition OP_DATA : Z := 3.
Definition OP_ACK : Z := 4.
Definition OP_ERROR : Z := 5.
Definition OP_OACK : Z := 6.

Definition ERR_UNDEFINED : Z := 0.
Definition ERR_NOT_FOUND : Z := 1.
Definition ERR_ACCESS : Z := 2.
Definition ERR_DISK_FULL : Z := 3.
Definition ERR_ILLEGAL_OP : Z := 4.
Definition ERR_UNKNOWN_TID : Z := 5.
Definition ERR_FILE_EXISTS : Z := 6.
Definition ERR_NO_USER : Z := 7.
Definition ERR_OPTION : Z := 8.

Record Request := mkRequest {
  req_opcode : Z;
  req_filename : list Z;
  req_mode : list Z;
  req_options : list (list Z * list Z);
}.

Record Data := mkData { data_block : Z; data_payload : list Z }.
Record Ack := mkAck { ack_block : Z }.
Record Error := mkError { error_code : Z; error_message : list Z }.

(** ** struct and codecs *)

(** [struct.pack("!H", n)]: big-endian, refused outside 16 bits. *)
Definition pack_H (n : Z) : pyres bytes :=
  if (0 <=? n) && (n <=? 65535) then Ok [Z.shiftr n 8; Z.land n 255]
  else Raise (StructError (u "'H' format requires 0 <= number <= 65535")).

(** [struct.unpack("!H", b)[0]] on the two bytes at [i]. *)
Definition unpack_H (pkt : bytes) (i : nat) : Z :=
  Z.lor (Z.shiftl (nth i pkt 0) 8) (nth (S i) pkt 0).

(** [b.decode("ascii", errors="replace")]. *)
Definition decode_ascii (b : bytes) : str := map (λ c, if c <? 128 then c else 65533) b.

(** [s.encode("ascii", errors="replace")]. *)
Definition encode_ascii_replace (s : str) : bytes := map (λ c, if c <? 128 then c else 63) s.

(** [s.encode("ascii")]. *)
Definition encode_ascii (s : str) : pyres bytes :=
  if forallb (λ c, c <? 128) s then Ok s
  else Raise (ValueError (u "'ascii' codec can't encode character: ordinal not in range(128)")).

(** ** Unpack *)

Definition peek_opcode (pkt : bytes) : pyres Z :=
  if zlen pkt <? 2 then Raise (TFTPError ERR_ILLEGAL_OP (u "short packet"))
  else Ok (unpack_H pkt 0).

(** The loop of [_split_cstrings] with its locals [parts] and [cur]. *)
Fixpoint split_cstrings_loop (buf cur : bytes) (parts : list str) : list str :=
  match buf with
  | [] => match cur with [] => parts | _ => parts ++ [decode_ascii cur] end
  | b :: buf' =>
      if b =? 0 then split_cstrings_loop buf' [] (parts ++ [decode_ascii cur])
      else split_cstrings_loop buf' (cur ++ [b]) parts
  end.

Definition split_cstrings (buf : bytes) : list str := split_cstrings_loop buf [] [].

(** The option loop of [parse_request]: pairs are consumed two at a time, a
    key without a value ends the loop, an empty key is skipped. *)
Fixpoint parse_options (parts : list str) (options : list (str * str)) : list (str * str) :=
  match parts with
  | key :: value :: rest =>
      parse_options rest
        (match key with [] => options | _ => dict_set (lower key) value options end)
  | _ => options
  end.

Definition parse_request (pkt : bytes) : pyres Request :=
  op ← peek_opcode pkt;
  if negb ((op =? OP_RRQ) || (op =? OP_WRQ)) then
    Raise (TFTPError ERR_ILLEGAL_OP (u "expected RRQ/WRQ"))
  else
    match split_cstrings (drop 2 pkt) with
    | filename :: mode :: rest =>
        Ok (mkRequest op filename (lower mode) (parse_options rest []))
    | _ => Raise (TFTPError ERR_ILLEGAL_OP (u "malformed RRQ/WRQ"))
    end.

Definition parse_data (pkt : bytes) : pyres Data :=
  if zlen pkt <? 4 then Raise (TFTPError ERR_ILLEGAL_OP (u "short DATA"))
  else Ok (mkData (unpack_H pkt 2) (drop 4 pkt)).

Definition parse_ack (pkt : bytes) : pyres Ack :=
  if zlen pkt <? 4 then Raise (TFTPError ERR_ILLEGAL_OP (u "short ACK"))
  else Ok (mkAck (unpack_H pkt 2)).

(** [b.split(b"\x00", 1)[0]]. *)
Fixpoint until_nul (b : bytes) : bytes :=
  match b with
  | [] => []
  | c :: b' => if c =? 0 then [] else c :: until_nul b'
  end.

Definition parse_error (pkt : bytes) : pyres Error :=
  if zlen pkt <? 4 then Raise (TFTPError ERR_ILLEGAL_OP (u "short ERROR"))
  else Ok (mkError (unpack_H pkt 2) (decode_ascii (until_nul (drop 4 pkt)))).

(** ** Pack *)

(** Two bytes of a number already known to fit. *)
Definition be16 (n : Z) : bytes := [Z.shiftr n 8; Z.land n 255].

Definition pack_data (block : Z) (payload : bytes) : bytes :=
  be16 OP_DATA ++ be16 (Z.land block 65535) ++ payload.

Definition pack_ack (block : Z) : bytes := be16 OP_ACK ++ be16 (Z.land block 65535).

Definition pack_error (code : Z) (message : str) : pyres bytes :=
  c ← pack_H code;
  Ok (be16 OP_ERROR ++ c ++ encode_ascii_replace message ++ [0]).

Fixpoint pack_oack_items (options : list (str * str)) : pyres bytes :=
  match options with
  | [] => Ok []
  | (k, v) :: rest =>
      k' ← encode_ascii k;
      v' ← encode_ascii v;
      r ← pack_oack_items rest;
      Ok (k' ++ [0] ++ v' ++ [0] ++ r)
  end.

Definition pack_oack (options : list (str * str)) : pyres bytes :=
  r ← pack_oack_items options;
  Ok (be16 OP_OACK ++ r).

(** ** Sixteen-bit fields *)

Lemma land_65535 n : Z.land n 65535 = n mod 65536.
Proof. change 65535 with (Z.ones 16). by rewrite Z.land_ones. Qed.

Lemma be16_value n : 0 ≤ n < 65536 → Z.lor (Z.shiftl (Z.shiftr n 8) 8) (Z.land n 255) = n.
Proof.
  intros Hn. change 255 with (Z.ones 8). rewrite <- Z.ldiff_ones_r by lia.
  apply Z.bits_inj'. intros i Hi.
  rewrite Z.lor_spec, Z.ldiff_spec, Z.land_spec.
  destruct (Z.testbit n i), (Z.testbit (Z.ones 8) i); done.
Qed.

Lemma lor_bytes a b : 0 ≤ b < 256 → Z.lor (Z.shiftl a 8) b = a * 256 + b.
Proof.
  intros Hb. assert (Z.land (Z.shiftl a 8) b = 0) as Hd.
  { apply Z.bits_inj'. intros i Hi. rewrite Z.land_spec, Z.bits_0, Z.shiftl_spec by lia.
    destruct (decide (i < 8)); [by rewrite Z.testbit_neg_r by lia|].
    rewrite <- (Z.mod_small b (2 ^ 8)) by (change (2 ^ 8) with 256; lia).
    rewrite Z.mod_pow2_bits_high by lia. by rewrite andb_false_r. }
  pose proof (Z.add_lor_land (Z.shiftl a 8) b) as Hs. rewrite Hd in Hs.
  rewrite Z.shiftl_mul_pow2 in * by lia. change (2 ^ 8) with 256 in *. lia.
Qed.

Lemma unpack_H_range p i : bytes_ok p → 0 ≤ unpack_H p i < 65536.
Proof.
  intros Hp. assert (∀ j, 0 ≤ nth j p 0 < 256) as Hb.
  { intros j. destruct (nth_in_or_default j p 0) as [Hin|Hd]; [|rewrite Hd; lia].
    eapply (proj1 (Forall_forall _ _) Hp). by apply list_elem_of_In. }
  unfold unpack_H. pose proof (Hb i). pose proof (Hb (S i)). rewrite lor_bytes by lia. lia.
Qed.

Lemma unpack_be16 n pre post i :
  0 ≤ n < 65536 → i = length pre → unpack_H (pre ++ be16 n ++ post) i = n.
Proof.
  intros Hn ->. unfold unpack_H.
  rewrite (app_nth2 pre _ _ (n := length pre)), (app_nth2 pre _ _ (n := S (length pre))) by lia.
  rewrite Nat.sub_diag, Nat.sub_succ_l, Nat.sub_diag by lia. cbn. by apply be16_value.
Qed.

Lemma be16_bytes_ok n : 0 ≤ n < 65536 → bytes_ok (be16 n).
Proof.
  intros Hn. unfold be16. rewrite Z.shiftr_div_pow2 by lia. change 255 with (Z.ones 8).
  rewrite Z.land_ones by lia. change (2 ^ 8) with 256.
  assert (0 ≤ n / 256 < 256).
  { split; [apply Z.div_pos; lia|apply Z.div_lt_upper_bound; lia]. }
  pose proof (Z.mod_pos_bound n 256). repeat constructor; lia.
Qed.

(** ** Round trips *)

Lemma peek_opcode_be16 op rest : 0 ≤ op < 65536 → peek_opcode (be16 op ++ rest) = Ok op.
Proof.
  intros Hop. unfold peek_opcode. destruct (Z.ltb_spec (zlen (be16 op ++ rest)) 2) as [Hl|_].
  { unfold be16 in Hl. cbn [app] in Hl. autorewrite with zlen in Hl.
    pose proof (zlen_nonneg rest). lia. }
  f_equal. by apply (unpack_be16 op []).
Qed.

Lemma two_fields op f rest :
  0 ≤ op < 65536 → 0 ≤ f < 65536 →
  let pkt := be16 op ++ be16 f ++ rest in
  (zlen pkt <? 4) = false ∧ unpack_H pkt 2 = f ∧ drop 4 pkt = rest.
Proof.
  intros Hop Hf pkt. split_and!.
  - apply Z.ltb_ge. unfold pkt, be16. cbn [app]. autorewrite with zlen.
    pose proof (zlen_nonneg rest). lia.
  - by apply (unpack_be16 f (be16 op)).
  - done.
Qed.

Lemma parse_data_pack b p : parse_data (pack_data b p) = Ok (mkData (b mod 65536) p).
Proof.
  unfold parse_data, pack_data. rewrite land_65535.
  destruct (two_fields OP_DATA (b mod 65536) p) as (-> & -> & ->); [done| |done].
  by apply Z.mod_pos_bound.
Qed.

Lemma parse_ack_pack b : parse_ack (pack_ack b) = Ok (mkAck (b mod 65536)).
Proof.
  unfold parse_ack, pack_ack. rewrite land_65535.
  destruct (two_fields OP_ACK (b mod 65536) []) as (Hl & Hu & _);
    [done|by apply Z.mod_pos_bound|]. rewrite app_nil_r in Hl, Hu. by rewrite Hl, Hu.
Qed.

Lemma peek_opcode_data b p : peek_opcode (pack_data b p) = Ok OP_DATA.
Proof. by apply peek_opcode_be16. Qed.

Lemma peek_opcode_ack b : peek_opcode (pack_ack b) = Ok OP_ACK.
Proof. by apply (peek_opcode_be16 OP_ACK). Qed.

(** ** NUL-terminated strings *)

(** Text a NUL-terminated ASCII field can carry. *)
Definition cstr_ok (s : str) : Prop := Forall (λ c, 0 < c < 128) s.

(** A sequence of NUL-terminated fields. *)
Definition cstrings (ss : list str) : bytes := concat (map (λ s, s ++ [0]) ss).

Lemma decode_ascii_id s : cstr_ok s → decode_ascii s = s.
Proof.
  unfold decode_ascii. induction 1 as [|c s Hc _ IH]; [done|]. cbn. rewrite IH.
  by destruct (Z.ltb_spec c 128); [|lia].
Qed.

Lemma split_loop_field p rest cur parts :
  cstr_ok p →
  split_cstrings_loop (p ++ rest) cur parts = split_cstrings_loop rest (cur ++ p) parts.
Proof.
  intros Hp. revert cur. induction Hp as [|c p Hc _ IH]; intros cur; cbn [app].
  - by rewrite app_nil_r.
  - cbn. destruct (Z.eqb_spec c 0); [lia|]. rewrite IH. by rewrite <- app_assoc.
Qed.

Lemma split_loop_cstrings ss rest parts :
  Forall cstr_ok ss →
  split_cstrings_loop (cstrings ss ++ rest) [] parts
  = split_cstrings_loop rest [] (parts ++ ss).
Proof.
  intros Hss. revert parts. induction Hss as [|s ss Hs _ IH]; intros parts.
  - by rewrite app_nil_r.
  - unfold cstrings. cbn [map concat]. rewrite <- !app_assoc. rewrite split_loop_field by done.
    cbn [app split_cstrings_loop Z.eqb]. rewrite decode_ascii_id by done.
    unfold cstrings in IH. rewrite IH. by rewrite <- app_assoc.
Qed.

(** Terminated fields split back into themselves, and a missing final NUL is
    tolerated. *)
Lemma split_cstrings_terminated ss : Forall cstr_ok ss → split_cstrings (cstrings ss) = ss.
Proof.
  intros Hss. unfold split_cstrings. pose proof (split_loop_cstrings ss [] [] Hss) as H.
  by rewrite app_nil_r in H.
Qed.

Lemma split_cstrings_unterminated ss last :
  Forall cstr_ok ss → cstr_ok last → last ≠ [] →
  split_cstrings (cstrings ss ++ last) = ss ++ [last].
Proof.
  intros Hss Hl Hne. unfold split_cstrings. rewrite split_loop_cstrings by done.
  rewrite <- (app_nil_r last) at 1. rewrite split_loop_field by done. cbn.
  destruct last; [done|]. by rewrite decode_ascii_id.
Qed.

Lemma cstrings_app ss ss' : cstrings (ss ++ ss') = cstrings ss ++ cstrings ss'.
Proof. unfold cstrings. by rewrite map_app, concat_app. Qed.

(** The option fields of a request or of an OACK, as a client writes them. *)
Definition option_fields (opts : list (str * str)) : list str :=
  concat (map (λ kv, [kv.1; kv.2]) opts).

(** Options as a client that follows RFC 2347 writes them: printable, each
    name once, here already in lower case. *)
Definition options_ok (opts : list (str * str)) : Prop :=
  NoDup (dict_keys opts) ∧
  Forall (λ kv, cstr_ok kv.1 ∧ cstr_ok kv.2 ∧ kv.1 ≠ [] ∧ lower kv.1 = kv.1) opts.

Lemma option_fields_ok opts : options_ok opts → Forall cstr_ok (option_fields opts).
Proof.
  intros [_ H]. unfold option_fields. induction H as [|[k v] opts (?&?&?) _ IH]; cbn; auto.
Qed.

Lemma parse_options_fields opts acc :
  options_ok opts → (∀ k, k ∈ dict_keys acc → k ∉ dict_keys opts) →
  parse_options (option_fields opts) acc = acc ++ opts.
Proof.
  revert acc. induction opts as [|[k v] opts IH]; intros acc [Hnd Hall] Hdis.
  { by rewrite app_nil_r. }
  apply Forall_cons in Hall as [(_ & _ & Hne & Hlow) Hall]. cbn in Hnd, Hne, Hlow.
  apply NoDup_cons in Hnd as [Hni Hnd].
  change (option_fields ((k, v) :: opts)) with (k :: v :: option_fields opts).
  cbn [parse_options]. destruct k as [|c k]; [done|]. rewrite Hlow.
  rewrite dict_set_new.
  2: { intros Hin. eapply Hdis; [done|]. by left. }
  rewrite IH; [by rewrite <- app_assoc|done|].
  intros k' Hk'. unfold dict_keys in Hk'. rewrite map_app, elem_of_app in Hk'. cbn in Hk'.
  destruct Hk' as [Hk'| ->%list_elem_of_singleton]; [|done].
  intros Hin. eapply Hdis; [done|]. by right.
Qed.

(** A request as a client writes it (RFC 1350 with the RFC 2347 options). *)
Definition encode_request (op : Z) (filename mode : str) (opts : list (str * str)) : bytes :=
  be16 op ++ cstrings (filename :: mode :: option_fields opts).

Lemma parse_request_fields op filename mode rest buf :
  op = OP_RRQ ∨ op = OP_WRQ → split_cstrings buf = filename :: mode :: rest →
  parse_request (be16 op ++ buf)
  = Ok (mkRequest op filename (lower mode) (parse_options rest [])).
Proof.
  intros Hop Hs. unfold parse_request.
  rewrite peek_opcode_be16 by (unfold OP_RRQ, OP_WRQ in Hop; lia). cbn [mbind pyres_bind].
  assert (((op =? OP_RRQ) || (op =? OP_WRQ)) = true) as -> by (destruct Hop; subst; done).
  cbn [negb]. change (drop 2 (be16 op ++ buf)) with buf. by rewrite Hs.
Qed.

(** The well-formedness of a parsed request. *)
Definition request_wf (r : Request) : Prop :=
  (req_opcode r = OP_RRQ ∨ req_opcode r = OP_WRQ) ∧
  lower (req_mode r) = req_mode r ∧
  NoDup (dict_keys (req_options r)) ∧
  Forall (λ k, k ≠ [] ∧ lower k = k) (dict_keys (req_options r)).

Lemma chr_lower_idem c : chr_lower (chr_lower c) = chr_lower c.
Proof. unfold chr_lower. repeat case_goal; try done; lia. Qed.

Lemma lower_idem s : lower (lower s) = lower s.
Proof. unfold lower. rewrite map_map. apply map_ext, chr_lower_idem. Qed.

Lemma parse_options_wf parts acc :
  NoDup (dict_keys acc) → Forall (λ k, k ≠ [] ∧ lower k = k) (dict_keys acc) →
  NoDup (dict_keys (parse_options parts acc)) ∧
  Forall (λ k, k ≠ [] ∧ lower k = k) (dict_keys (parse_options parts acc)).
Proof.
  revert acc. induction parts as [parts IH] using (well_founded_induction (well_founded_ltof _ length)).
  intros acc Hnd Hf. destruct parts as [|k [|v rest]]; [done..|]. cbn [parse_options].
  apply IH; [unfold ltof; cbn; lia|by destruct k; [|apply dict_set_NoDup]|].
  destruct k as [|c k]; [done|]. rewrite dict_keys_set. destruct (dict_mem _ _); [done|].
  apply Forall_app. split; [done|]. constructor; [|done]. split; [done|apply lower_idem].
Qed.

Lemma encode_ascii_cstr s : cstr_ok s → encode_ascii s = Ok s.
Proof.
  intros Hs. unfold encode_ascii.
  assert (forallb (λ c, c <? 128) s = true) as ->; [|done].
  induction Hs as [|c s Hc _ IH]; [done|]. cbn. rewrite IH. lia.
Qed.

Lemma pack_oack_items_fields opts :
  options_ok opts → pack_oack_items opts = Ok (cstrings (option_fields opts)).
Proof.
  intros [_ H]. induction H as [|[k v] opts (Hk & Hv & _) _ IH]; [done|].
  cbn [pack_oack_items fst snd] in *. rewrite !encode_ascii_cstr by done. cbn [mbind pyres_bind].
  rewrite IH. unfold cstrings. cbn. by rewrite <- !app_assoc.
Qed.

Lemma pack_oack_ok opts :
  options_ok opts → pack_oack opts = Ok (be16 OP_OACK ++ cstrings (option_fields opts)).
Proof. intros. unfold pack_oack. by rewrite pack_oack_items_fields. Qed.

Lemma until_nul_terminated m rest : cstr_ok m → until_nul (m ++ 0 :: rest) = m.
Proof.
  induction 1 as [|c m Hc _ IH]; [done|]. cbn.
  destruct (Z.eqb_spec c 0); [lia|]. by rewrite IH.
Qed.

Lemma encode_replace_cstr m : cstr_ok m → encode_ascii_replace m = m.
Proof.
  unfold encode_ascii_replace. induction 1 as [|c m Hc _ IH]; [done|]. cbn. rewrite IH.
  by destruct (Z.ltb_spec c 128); [|lia].
Qed.

Lemma pack_H_ok n : 0 ≤ n < 65536 → pack_H n = Ok (be16 n).
Proof.
  intros Hn. unfold pack_H.
  destruct (Z.leb_spec 0 n), (Z.leb_spec n 65535); cbn; (done || lia).
Qed.

(** ** Properties *)

(** A DATA packet decodes to the payload it was built from and to its
    block number modulo 65536, an ACK to its block number modulo 65536, and
    [peek_opcode] classifies both; the block counter of a session, which never
    wraps, is exactly what is lost on the wire. *)
Theorem data_ack_roundtrip (b : Z) (p : bytes) :
  peek_opcode (pack_data b p) = Ok OP_DATA ∧
  parse_data (pack_data b p) = Ok (mkData (b mod 65536) p) ∧
  peek_opcode (pack_ack b) = Ok OP_ACK ∧
  parse_ack (pack_ack b) = Ok (mkAck (b mod 65536)).
Proof. split_and!; [apply peek_opcode_data|apply parse_data_pack|apply peek_opcode_ack|apply parse_ack_pack]. Qed.

(** A request written by a client that follows RFC 1350 and RFC 2347
    decodes to its opcode, filename, lower-cased mode and options in order,
    and a packet whose final NUL is missing decodes to the same request as
    long as the last field is not empty. *)
Theorem request_roundtrip op filename mode opts :
  op = OP_RRQ ∨ op = OP_WRQ → cstr_ok filename → cstr_ok mode → options_ok opts →
  parse_request (encode_request op filename mode opts)
  = Ok (mkRequest op filename (lower mode) opts) ∧
  (List.last (filename :: mode :: option_fields opts) [] ≠ [] →
   parse_request (removelast (encode_request op filename mode opts))
   = Ok (mkRequest op filename (lower mode) opts)).
Proof.
  intros Hop Hf Hm Ho.
  assert (Forall cstr_ok (filename :: mode :: option_fields opts)) as Hall
    by (repeat constructor; auto using option_fields_ok).
  assert (parse_options (option_fields opts) [] = opts) as Hpo.
  { rewrite parse_options_fields; [done..|]. intros k Hk. inversion Hk. }
  unfold encode_request. split.
  - erewrite parse_request_fields; [by rewrite Hpo|done|by apply split_cstrings_terminated].
  - intros Hne. set (fs := filename :: mode :: option_fields opts) in *.
    assert (fs = removelast fs ++ [List.last fs []]) as Hfs by by apply app_removelast_last.
    assert (cstrings fs = (cstrings (removelast fs) ++ List.last fs []) ++ [0]) as Hcs.
    { rewrite Hfs at 1. rewrite cstrings_app, <- app_assoc. f_equal.
      unfold cstrings. cbn. by rewrite app_nil_r. }
    rewrite Hcs, app_assoc, removelast_last.
    rewrite Hfs in Hall. apply Forall_app in Hall as [Hall Hl].
    erewrite parse_request_fields; [by rewrite Hpo|done|].
    rewrite split_cstrings_unterminated; [by rewrite <- Hfs|done| |done].
    by apply Forall_inv in Hl.
Qed.

Lemma request_roundtrip_witness :
  parse_request (removelast (encode_request OP_RRQ (u "boot/fw.bin") (u "Octet")
    [(u "blksize", u "1428"); (u "tsize", u "0")]))
  = Ok (mkRequest OP_RRQ (u "boot/fw.bin") (u "octet")
          [(u "blksize", u "1428"); (u "tsize", u "0")]).
Proof.
  apply (request_roundtrip OP_RRQ (u "boot/fw.bin") (u "Octet")
    [(u "blksize", u "1428"); (u "tsize", u "0")]).
  - by left.
  - repeat constructor.
  - repeat constructor.
  - split; [apply (bool_decide_unpack _); vm_compute; exact I|].
    repeat constructor; done.
  - vm_compute. discriminate.
Defined.

(** [parse_request] is total on arbitrary bytes: it either refuses the
    packet with a TFTP illegal-operation error, or it returns a request whose
    opcode is RRQ or WRQ, whose mode is lower case and whose option names are
    non-empty, lower case and pairwise distinct. *)
Theorem parse_request_total (pkt : bytes) :
  (∃ m, parse_request pkt = Raise (TFTPError ERR_ILLEGAL_OP m)) ∨
  (∃ r, parse_request pkt = Ok r ∧ request_wf r).
Proof.
  unfold parse_request, peek_opcode.
  destruct (zlen pkt <? 2); cbn [mbind pyres_bind]; [left; by eexists|].
  set (op := unpack_H pkt 0).
  destruct (((op =? OP_RRQ) || (op =? OP_WRQ))) eqn:Hop; cbn [negb]; [|left; by eexists].
  destruct (split_cstrings (drop 2 pkt)) as [|f [|m rest]]; [left; by eexists..|].
  right. eexists. split; [done|]. split_and!; cbn.
  - apply orb_prop in Hop. by rewrite !Z.eqb_eq in Hop.
  - apply lower_idem.
  - apply parse_options_wf; constructor.
  - apply parse_options_wf; constructor.
Qed.

(** An OACK built from negotiated options decodes, with the decoder the
    server applies to a request's option fields, to exactly those options; it
    carries opcode 6. *)
Theorem oack_roundtrip opts :
  options_ok opts →
  ∃ pkt, pack_oack opts = Ok pkt ∧ peek_opcode pkt = Ok OP_OACK ∧
         parse_options (split_cstrings (drop 2 pkt)) [] = opts.
Proof.
  intros Ho. eexists. split; [by apply pack_oack_ok|]. split; [by apply peek_opcode_be16|].
  change (drop 2 (be16 OP_OACK ++ cstrings (option_fields opts)))
    with (cstrings (option_fields opts)).
  rewrite split_cstrings_terminated by by apply option_fields_ok.
  rewrite parse_options_fields; [done..|]. intros k Hk. inversion Hk.
Qed.

(** An ERROR packet decodes to the code and the message it was built
    from, for every code a TFTP error can carry and every printable message;
    a code outside 16 bits is refused by [struct.pack]. *)
Theorem error_roundtrip code m :
  cstr_ok m →
  if decide (0 ≤ code < 65536) then
    ∃ pkt, pack_error code m = Ok pkt ∧ peek_opcode pkt = Ok OP_ERROR ∧
           parse_error pkt = Ok (mkError code m)
  else ∃ s, pack_error code m = Raise (StructError s).
Proof.
  intros Hm. unfold pack_error. case_decide as Hc.
  - rewrite pack_H_ok by done. eexists. split; [done|]. split; [by apply peek_opcode_be16|].
    unfold parse_error.
    destruct (two_fields OP_ERROR code (encode_ascii_replace m ++ [0])) as (-> & -> & ->);
      [done..|]. rewrite encode_replace_cstr, until_nul_terminated by done.
    by rewrite decode_ascii_id.
  - unfold pack_H. destruct (Z.leb_spec 0 code), (Z.leb_spec code 65535); cbn;
      (by eexists) || lia.
Qed.

(** [C40] Every kind of packet the server sends decodes to what it was built from,
    for all contents: a DATA packet to its payload and its block number modulo
    65536, an ACK to its block number modulo 65536, an OACK - with the decoder
    applied to a request's option fields - to its options, an ERROR to its code
    and message; [peek_opcode] tells the four apart, and an error code outside
    16 bits is refused by [struct.pack]. *)
Theorem packets_roundtrip (b : Z) (p : bytes) opts code m :
  options_ok opts → cstr_ok m →
  (peek_opcode (pack_data b p) = Ok OP_DATA ∧ parse_data (pack_data b p) = Ok (mkData (b mod 65536) p) ∧
   peek_opcode (pack_ack b) = Ok OP_ACK ∧ parse_ack (pack_ack b) = Ok (mkAck (b mod 65536))) ∧
  (∃ pkt, pack_oack opts = Ok pkt ∧ peek_opcode pkt = Ok OP_OACK ∧
     parse_options (split_cstrings (drop 2 pkt)) [] = opts) ∧
  (if decide (0 ≤ code < 65536) then
     ∃ pkt, pack_error code m = Ok pkt ∧ peek_opcode pkt = Ok OP_ERROR ∧ parse_error pkt = Ok (mkError code m)
   else ∃ s, pack_error code m = Raise (StructError s)).
Proof.
  intros Ho Hm. split; [apply data_ack_roundtrip|]. split; [by apply oack_roundtrip|by apply error_roundtrip].
Qed.

Lemma packets_roundtrip_witness :
  (∃ pkt, pack_oack [(u "blksize", u "1428")] = Ok pkt ∧ peek_opcode pkt = Ok OP_OACK ∧
     parse_options (split_cstrings (drop 2 pkt)) [] = [(u "blksize", u "1428")]) ∧
  (∃ pkt, pack_error 1 (u "file not found: x") = Ok pkt ∧ peek_opcode pkt = Ok OP_ERROR ∧
     parse_error pkt = Ok (mkError 1 (u "file not found: x"))).
Proof.
  destruct (packets_roundtrip 1 [] [(u "blksize", u "1428")] 1 (u "file not found: x")) as (_ & Ho & He).
  - split; [apply (bool_decide_unpack _); vm_compute; exact I|]. repeat constructor; done.
  - repeat constructor.
  - split; [exact Ho|exact He].
Defined.
