(* ===== verification/Constants.v ===== *)
(** * Project-wide constants (src/core/constants.py)

    The constants the modelled components read; times are in milliseconds
    where the source has fractions of a second. *)

From S2P Require Import Prelude.
Open Scope Z_scope.

Definition SNIFFER_QUEUE_MAX : Z := 20000.
Definition IP_DEFAULT_TTL : Z := 64.
Definition ETHERTYPE_IPV4 : Z := 0x0800.
Definition ETHERTYPE_DOT1Q : Z := 0x8100.
Definition IP_FLAGS_DF : Z := 0x4000.

Definition TFTP_DEFAULT_LISTEN_PORT : Z := 69.
Definition TFTP_CLASSIC_BLKSIZE : Z := 512.
Definition TFTP_BLKSIZE_DEFAULT : Z := 1468.
Definition TFTP_WINDOWSIZE_DEFAULT : Z := 4.
Definition TFTP_TIMEOUT_DEFAULT : Z := 3.
Definition TFTP_MAX_RETRIES_DEFAULT : Z := 5.
Definition TFTP_BLKSIZE_MIN : Z := 8.
Definition TFTP_BLKSIZE_MAX : Z := 65464.
Definition TFTP_WINDOWSIZE_MIN : Z := 1.
Definition TFTP_WINDOWSIZE_MAX : Z := 64.
Definition TFTP_TIMEOUT_MIN : Z := 1.
Definition TFTP_TIMEOUT_MAX : Z := 60.
Definition TFTP_TID_MIN : Z := 10000.
Definition TFTP_TID_MAX : Z := 65500.
Definition TFTP_SESSION_QUEUE_MAX : Z := 256.

Definition SESSIONS_MAX_CONCURRENT_DEFAULT : Z := 100.
Definition SESSIONS_QUEUE_TIMEOUT_DEFAULT_MS : Z := 10000.
Definition SESSIONS_OVERFLOW_POLL_INTERVAL_MS : Z := 50.

Definition LOCAL_ROOT_DEFAULT : str := u "./tftp_root".
Definition WRITE_ROOT_DEFAULT : str := u "./tftp_uploads".

Definition FTP_DEFAULT_PORT : Z := 21.
Definition FTP_DEFAULT_USER : str := u "share".
Definition FTP_DEFAULT_PASSWORD : str := u "shared".
Definition FTP_DEFAULT_ROOT : str := u "/".
Definition FTP_PREFIX_TRIGGER : str := u "f::".
Definition FTP_PREFIX_FOLDER : str := u "BDCOM".
Definition FTP_PREFIX_DIGIT_PAD : Z := 4.

Definition CACHE_TOTAL_BYTES_DEFAULT : Z := 512 * 1024 * 1024.
Definition CACHE_PER_FILE_BYTES_DEFAULT : Z := 100 * 1024 * 1024.

Definition LOG_FORMAT_DEFAULT : str := u "%(asctime)s %(levelname)-7s %(name)-20s %(message)s".
Definition LOG_ROTATE_BYTES : Z := 10 * 1024 * 1024.
Definition LOG_ROTATE_BACKUPS : Z := 5.
Definition LOG_MEMORY_BUFFER : Z := 2000.

Definition WEB_HOST_DEFAULT : str := u "127.0.0.1".
Definition WEB_PORT_DEFAULT : Z := 8011.
Definition WEB_WS_LOG_QUEUE : nat := 500.
Definition WEB_WS_INIT_LOG_COUNT : Z := 200.
Definition WEB_WS_LOGS_PER_TICK : nat := 200.
