(* ===== verification/Options.v ===== *)
(** * Option negotiation (src/tftp/options.py)

    RFC 2347/2348/2349/7440 options resolved against the [tftp] section of the
    configuration, which the caller always builds as a dictionary. *)

From S2P Require Import Prelude Python Constants Wire.
Open Scope Z_scope.

Record Negotiated := mkNegotiated {
  neg_blksize : Z;
  neg_windowsize : Z;
  neg_timeout : Z;
  neg_tsize : option Z;
  neg_reply : list (list Z * list Z);
}.

(** [cfg.get(k, d)] on a dictionary. *)
Definition cfg_get (cfg : list (str * pyval)) (k : str) (d : pyval) : pyval :=
  default d (dict_get k cfg).

Definition pick (policy : str) (client_val : option Z) (dflt lo hi : Z) : Z :=
  let policy := lower (match policy with [] => u "client" | _ => policy end) in
  let chosen :=
    if decide (policy = u "server") then dflt
    else if decide (policy = u "min") then lo
    else if decide (policy = u "max") then hi
    else default dflt client_val in
  Z.max lo (Z.min hi chosen).

Definition legacy_policy (cfg : list (str * pyval)) : option (list (str * pyval)) :=
  if dict_mem (u "negotiation") cfg then None
  else
    let legacy := lower (py_str (cfg_get cfg (u "option_mode") (VStr []))) in
    if decide (legacy = u "accept") then
      Some [(u "blksize", VStr (u "client")); (u "windowsize", VStr (u "client"));
            (u "timeout", VStr (u "client"))]
    else if decide (legacy = u "force") then
      Some [(u "blksize", VStr (u "server")); (u "windowsize", VStr (u "server"));
            (u "timeout", VStr (u "server"))]
    else if decide (legacy = u "off") then Some [(u "_off", VStr (u "true"))]
    else None.

(** [int(d.get(k, dflt))]. *)
Definition get_int (d : pyval) (k : str) (dflt : Z) : pyres Z :=
  v ← py_get d k (VInt dflt); py_int v.

(** [{k.lower(): v for k, v in client_opts.items()}]. *)
Definition lower_keys (opts : list (str * str)) : list (str * str) :=
  fold_left (λ d kv, dict_set (lower kv.1) kv.2 d) opts [].

(** [_client_int(name)]: [int()] raises only [ValueError] on a string. *)
Definition client_int (opts : list (str * str)) (name : str) : option Z :=
  match dict_get name opts with
  | None => None
  | Some s => match int_of_str s with Ok z => Some z | Raise _ => None end
  end.

(** The defaults and limits of the configuration, in the order they are read. *)
Record limits := mkLimits {
  def_blk : Z; def_win : Z; def_tmo : Z;
  blk_lo : Z; blk_hi : Z; win_lo : Z; win_hi : Z; tmo_lo : Z; tmo_hi : Z;
}.

Definition read_limits (defaults lims : pyval) : pyres limits :=
  db ← get_int defaults (u "blksize") TFTP_BLKSIZE_DEFAULT;
  dw ← get_int defaults (u "windowsize") TFTP_WINDOWSIZE_DEFAULT;
  dt ← get_int defaults (u "timeout") TFTP_TIMEOUT_DEFAULT;
  bl ← get_int lims (u "blksize_min") TFTP_BLKSIZE_MIN;
  bh ← get_int lims (u "blksize_max") TFTP_BLKSIZE_MAX;
  wl ← get_int lims (u "windowsize_min") TFTP_WINDOWSIZE_MIN;
  wh ← get_int lims (u "windowsize_max") TFTP_WINDOWSIZE_MAX;
  tl ← get_int lims (u "timeout_min") TFTP_TIMEOUT_MIN;
  th ← get_int lims (u "timeout_max") TFTP_TIMEOUT_MAX;
  Ok (mkLimits db dw dt bl bh wl wh tl th).

(** [str(policy.get(name, "client")).lower()]. *)
Definition option_policy (policy : pyval) (name : str) : pyres str :=
  v ← py_get policy name (VStr (u "client")); Ok (lower (py_str v)).

(** blksize and windowsize: the RFC value when the client is silent and the
    policy is "client", otherwise the policy's pick, echoed if requested. *)
Definition negotiate_size (name policy : str) (client : option Z) (classic dflt lo hi : Z)
    (reply : list (str * str)) : Z * list (str * str) :=
  if decide (policy = u "client" ∧ client = None) then (classic, reply)
  else
    let v := pick policy client dflt lo hi in
    (v, match client with Some _ => dict_set name (z_str v) reply | None => reply end).

Definition negotiate_tsize (opts : list (str * str)) (file_size : option Z) (is_read : bool)
    (reply : list (str * str)) : list (str * str) :=
  match dict_get (u "tsize") opts with
  | None => reply
  | Some s =>
      match is_read, file_size with
      | true, Some sz => dict_set (u "tsize") (z_str sz) reply
      | true, None => reply
      | false, _ =>
          match int_of_str s with
          | Ok z => dict_set (u "tsize") (z_str z) reply
          | Raise _ => reply
          end
      end
  end.

(** The defaults, limits and policy blocks a configuration gives. *)
Definition cfg_defaults (cfg : list (str * pyval)) : pyval :=
  py_or (cfg_get cfg (u "defaults") (VDict [])) (VDict []).
Definition cfg_limits (cfg : list (str * pyval)) : pyval :=
  py_or (cfg_get cfg (u "limits") (VDict [])) (VDict []).
Definition cfg_policy (cfg : list (str * pyval)) : pyval :=
  match legacy_policy cfg with
  | Some d => VDict d
  | None => py_or (cfg_get cfg (u "negotiation") (VDict [])) (VDict [])
  end.
Definition cfg_off (cfg : list (str * pyval)) : bool :=
  match legacy_policy cfg with Some d => dict_mem (u "_off") d | None => false end.

(** The resolution of the four options once the configuration is read. *)
Definition negotiate_core (client_opts : list (str * str)) (L : limits)
    (blk_policy win_policy tmo_policy : str) (file_size : option Z) (is_read : bool) : Negotiated :=
  let opts := lower_keys client_opts in
  let '(blksize, reply) :=
    negotiate_size (u "blksize") blk_policy (client_int opts (u "blksize")) TFTP_CLASSIC_BLKSIZE
      (def_blk L) (blk_lo L) (blk_hi L) [] in
  let '(windowsize, reply) :=
    negotiate_size (u "windowsize") win_policy (client_int opts (u "windowsize")) 1
      (def_win L) (win_lo L) (win_hi L) reply in
  let tmo_client := client_int opts (u "timeout") in
  let timeout := pick tmo_policy tmo_client (def_tmo L) (tmo_lo L) (tmo_hi L) in
  let reply := match tmo_client with
               | Some _ => dict_set (u "timeout") (z_str timeout) reply
               | None => reply
               end in
  let reply := negotiate_tsize opts file_size is_read reply in
  mkNegotiated blksize windowsize timeout file_size reply.

Definition negotiate (client_opts : list (str * str)) (cfg : list (str * pyval))
    (file_size : option Z) (is_read : bool) : pyres Negotiated :=
  let defaults := cfg_defaults cfg in
  let lims := cfg_limits cfg in
  if cfg_off cfg then
    tmo ← get_int defaults (u "timeout") TFTP_TIMEOUT_DEFAULT;
    Ok (mkNegotiated TFTP_CLASSIC_BLKSIZE 1 tmo file_size [])
  else
    let policy := cfg_policy cfg in
    L ← read_limits defaults lims;
    blk_policy ← option_policy policy (u "blksize");
    win_policy ← option_policy policy (u "windowsize");
    tmo_policy ← option_policy policy (u "timeout");
    Ok (negotiate_core client_opts L blk_policy win_policy tmo_policy file_size is_read).

(** ** Resolution lemmas *)

Lemma negotiate_inv opts cfg sz rd n :
  negotiate opts cfg sz rd = Ok n →
  (cfg_off cfg = true ∧ ∃ tmo, n = mkNegotiated TFTP_CLASSIC_BLKSIZE 1 tmo sz []) ∨
  (cfg_off cfg = false ∧ ∃ L bp wp tp,
     read_limits (cfg_defaults cfg) (cfg_limits cfg) = Ok L ∧
     option_policy (cfg_policy cfg) (u "blksize") = Ok bp ∧
     option_policy (cfg_policy cfg) (u "windowsize") = Ok wp ∧
     option_policy (cfg_policy cfg) (u "timeout") = Ok tp ∧
     n = negotiate_core opts L bp wp tp sz rd).
Proof.
  unfold negotiate. destruct (cfg_off cfg); intros H; inv_ok; subst; [left; eauto|right].
  split; [done|]. by do 4 eexists.
Qed.

Lemma pick_bounds policy c dflt lo hi : lo ≤ hi → lo ≤ pick policy c dflt lo hi ≤ hi.
Proof. unfold pick. lia. Qed.

Lemma pick_client c dflt lo hi : pick (u "client") c dflt lo hi = Z.max lo (Z.min hi (default dflt c)).
Proof. done. Qed.

Lemma negotiate_size_bounds name policy c classic dflt lo hi reply v reply' :
  lo ≤ hi → negotiate_size name policy c classic dflt lo hi reply = (v, reply') →
  v = classic ∨ lo ≤ v ≤ hi.
Proof.
  intros Hlh. unfold negotiate_size. case_decide; intros [= <- <-]; [by left|].
  right. by apply pick_bounds.
Qed.

(** The OACK entry of one option: present when the client's value parses. *)
Definition reply_entry (name : str) (client : option Z) (v : Z) : list (str * str) :=
  match client with Some _ => [(name, z_str v)] | None => [] end.

Lemma negotiate_size_reply name policy c classic dflt lo hi reply v reply' :
  name ∉ dict_keys reply →
  negotiate_size name policy c classic dflt lo hi reply = (v, reply') →
  reply' = reply ++ reply_entry name c v.
Proof.
  intros Hf. unfold negotiate_size, reply_entry. case_decide as Hd; intros [= <- <-].
  - destruct Hd as [_ ->]. by rewrite app_nil_r.
  - destruct c; [by apply dict_set_new|by rewrite app_nil_r].
Qed.

Definition tsize_entry (opts : list (str * str)) (sz : option Z) (rd : bool) : list (str * str) :=
  negotiate_tsize opts sz rd [].

Lemma negotiate_tsize_reply opts sz rd reply :
  u "tsize" ∉ dict_keys reply → negotiate_tsize opts sz rd reply = reply ++ tsize_entry opts sz rd.
Proof.
  intros Hf. unfold tsize_entry, negotiate_tsize.
  destruct (dict_get _ _) as [s|]; [|by rewrite app_nil_r].
  destruct rd, sz; rewrite ?dict_set_new by done; rewrite ?app_nil_r; try done.
  all: destruct (int_of_str s); [by rewrite dict_set_new|by rewrite app_nil_r].
Qed.

Lemma core_reply opts L bp wp tp sz rd :
  let o := lower_keys opts in
  let n := negotiate_core opts L bp wp tp sz rd in
  neg_reply n = reply_entry (u "blksize") (client_int o (u "blksize")) (neg_blksize n)
             ++ reply_entry (u "windowsize") (client_int o (u "windowsize")) (neg_windowsize n)
             ++ reply_entry (u "timeout") (client_int o (u "timeout")) (neg_timeout n)
             ++ tsize_entry o sz rd.
Proof.
  cbn zeta. unfold negotiate_core.
  destruct (negotiate_size (u "blksize") _ _ _ _ _ _ _) as [b r1] eqn:H1.
  apply negotiate_size_reply in H1; [|by key_fresh]. cbn [app] in H1. subst r1.
  destruct (negotiate_size (u "windowsize") _ _ _ _ _ _ _) as [w r2] eqn:H2.
  apply negotiate_size_reply in H2; [subst r2|destruct (client_int _ (u "blksize")); cbn [reply_entry]; by key_fresh].
  cbn [neg_reply neg_blksize neg_windowsize neg_timeout].
  rewrite negotiate_tsize_reply.
  - rewrite !app_assoc. f_equal.
    destruct (client_int _ (u "timeout")); cbn [reply_entry]; [|by rewrite app_nil_r].
    rewrite dict_set_new; [done|].
    destruct (client_int _ (u "blksize")), (client_int _ (u "windowsize"));
      cbn [reply_entry]; by key_fresh.
  - destruct (client_int _ (u "blksize")), (client_int _ (u "windowsize")),
      (client_int _ (u "timeout")); cbn [reply_entry app];
      rewrite ?dict_set_new; by key_fresh.
Qed.

Lemma digits_cstr s : Forall (λ c, is_digit c = true) s → cstr_ok s.
Proof. intros H. eapply Forall_impl; [done|]. unfold is_digit. cbn. lia. Qed.

Lemma z_str_cstr z : cstr_ok (z_str z).
Proof.
  unfold z_str. destruct (z <? 0).
  - constructor; [lia|]. apply digits_cstr, nat_str_digits.
  - apply digits_cstr, nat_str_digits.
Qed.

Lemma client_int_key o name z : client_int o name = Some z → name ∈ dict_keys o.
Proof.
  unfold client_int. destruct (dict_get name o) eqn:Hg; [|done]. intros _.
  by eapply dict_get_Some_key.
Qed.

Lemma elem_of_reply_entry k v name c z :
  (k, v) ∈ reply_entry name c z → k = name ∧ v = z_str z ∧ ∃ y, c = Some y.
Proof.
  unfold reply_entry. destruct c; [|by inversion 1].
  intros [= -> ->]%list_elem_of_singleton. eauto.
Qed.

Lemma tsize_entry_cases o sz rd :
  tsize_entry o sz rd = [] ∨
  (∃ z, tsize_entry o sz rd = [(u "tsize", z_str z)] ∧ u "tsize" ∈ dict_keys o ∧
        (rd = true → sz = Some z) ∧ (rd = false → client_int o (u "tsize") = Some z)).
Proof.
  unfold tsize_entry, negotiate_tsize, client_int.
  destruct (dict_get _ o) as [s|] eqn:Hg; [|by left].
  assert (u "tsize" ∈ dict_keys o).
  { by eapply dict_get_Some_key. }
  destruct rd, sz as [z|]; try (by left); try (right; exists z; by split_and!).
  all: destruct (int_of_str s) as [y|]; [right; exists y; by split_and!|by left].
Qed.

Lemma core_reply_ok opts L bp wp tp sz rd :
  options_ok (neg_reply (negotiate_core opts L bp wp tp sz rd)).
Proof.
  rewrite core_reply. set (o := lower_keys opts). set (n := negotiate_core _ _ _ _ _ _ _).
  assert (∀ name c z, cstr_ok name ∧ name ≠ [] ∧ lower name = name →
    Forall (λ kv : str * str, cstr_ok kv.1 ∧ cstr_ok kv.2 ∧ kv.1 ≠ [] ∧ lower kv.1 = kv.1)
      (reply_entry name c z)) as He.
  { intros name [y|] z (H1 & H2 & H3); [|done]. repeat constructor; cbn; auto using z_str_cstr. }
  split.
  - destruct (client_int o (u "blksize")), (client_int o (u "windowsize")),
      (client_int o (u "timeout")), (tsize_entry_cases o sz rd) as [->|(zt & -> & _)];
      cbn [reply_entry app dict_keys map fst];
      repeat (apply NoDup_cons; split; [key_fresh|]); apply NoDup_nil_2.
  - rewrite !Forall_app. split_and!; [apply He; split_and!; [repeat constructor|done|done]..|].
    destruct (tsize_entry_cases o sz rd) as [->|(z & -> & _)]; [done|].
    repeat constructor; cbn; auto using z_str_cstr; done.
Qed.

Lemma negotiate_packs opts cfg sz rd n :
  negotiate opts cfg sz rd = Ok n → ∃ pkt, pack_oack (neg_reply n) = Ok pkt.
Proof.
  intros [[_ [tmo ->]]|(_ & L & bp & wp & tp & _ & _ & _ & _ & ->)]%negotiate_inv; [by eexists|].
  eexists. apply pack_oack_ok, core_reply_ok.
Qed.

(** ** Properties *)

(** [C32] Whatever a client requests and whatever the policies say, a
    successful negotiation stays inside the configured limits: the block size
    is the classic 512 or lies between the limits, the window size is 1 or
    lies between the limits, and so does the timeout; only the legacy "off"
    mode, which skips negotiation, returns the configured timeout unclamped. *)
Theorem negotiate_bounds opts cfg sz rd n L :
  negotiate opts cfg sz rd = Ok n → cfg_off cfg = false →
  read_limits (cfg_defaults cfg) (cfg_limits cfg) = Ok L →
  blk_lo L ≤ blk_hi L → win_lo L ≤ win_hi L → tmo_lo L ≤ tmo_hi L →
  (neg_blksize n = 512 ∨ blk_lo L ≤ neg_blksize n ≤ blk_hi L) ∧
  (neg_windowsize n = 1 ∨ win_lo L ≤ neg_windowsize n ≤ win_hi L) ∧
  tmo_lo L ≤ neg_timeout n ≤ tmo_hi L.
Proof.
  intros Hn Hoff HL Hb Hw Ht.
  apply negotiate_inv in Hn as [[Hoff' _]|(_ & L' & bp & wp & tp & HL' & _ & _ & _ & ->)];
    [congruence|]. rewrite HL in HL'. injection HL' as <-. unfold negotiate_core.
  destruct (negotiate_size (u "blksize") _ _ _ _ _ _ _) as [b r1] eqn:H1.
  destruct (negotiate_size (u "windowsize") _ _ _ _ _ _ _) as [w r2] eqn:H2.
  apply negotiate_size_bounds in H1; [|done]. apply negotiate_size_bounds in H2; [|done].
  cbn [neg_blksize neg_windowsize neg_timeout]. split_and!; [done|done|by apply pick_bounds..].
Qed.

Lemma negotiate_bounds_witness :
  let n := mkNegotiated 65464 1 60 (Some 10) [(u "blksize", u "65464"); (u "timeout", u "60")] in
  negotiate [(u "BlkSize", u "9999999"); (u "timeout", u "100")] [] (Some 10) true = Ok n ∧
  (neg_blksize n = 512 ∨ 8 ≤ neg_blksize n ≤ 65464) ∧
  (neg_windowsize n = 1 ∨ 1 ≤ neg_windowsize n ≤ 64) ∧ 1 ≤ neg_timeout n ≤ 60.
Proof.
  cbn zeta. split; [by vm_compute|].
  apply (negotiate_bounds [(u "BlkSize", u "9999999"); (u "timeout", u "100")] [] (Some 10) true _
    (mkLimits 1468 4 3 8 65464 1 64 1 60)); by vm_compute.
Defined.

(** The OACK only answers what was asked: every option of the reply was
    requested by the client (RFC 2347), its value is the decimal form of the
    value the session will use, a read's tsize is the file size and a write's
    is the client's own number; and the reply can always be encoded. *)
Theorem negotiate_reply_sound opts cfg sz rd n :
  negotiate opts cfg sz rd = Ok n →
  (∃ pkt, pack_oack (neg_reply n) = Ok pkt) ∧
  ∀ k v, (k, v) ∈ neg_reply n →
    k ∈ dict_keys (lower_keys opts) ∧
    ((k = u "blksize" ∧ v = z_str (neg_blksize n)) ∨
     (k = u "windowsize" ∧ v = z_str (neg_windowsize n)) ∨
     (k = u "timeout" ∧ v = z_str (neg_timeout n)) ∨
     (k = u "tsize" ∧ ∃ z, v = z_str z ∧ (rd = true → sz = Some z) ∧
        (rd = false → client_int (lower_keys opts) (u "tsize") = Some z))).
Proof.
  intros Hn. split; [by eapply negotiate_packs|]. revert Hn.
  intros [[_ [tmo ->]]|(_ & L & bp & wp & tp & _ & _ & _ & _ & ->)]%negotiate_inv.
  { intros k v H. inversion H. }
  intros k v.
  rewrite core_reply, !elem_of_app.
  intros [H|[H|[H|H]]]; try apply elem_of_reply_entry in H as (-> & -> & y & Hy).
  1-3: split; [by eapply client_int_key|naive_solver].
  destruct (tsize_entry_cases (lower_keys opts) sz rd) as [He|(z & He & Hk & Hr & Hw)];
    rewrite He in H; [inversion H|].
  apply list_elem_of_singleton in H as [= -> ->]. split; [done|]. do 3 right. eauto.
Qed.

Lemma negotiate_reply_sound_witness :
  let n := mkNegotiated 1024 1 3 None [(u "blksize", u "1024"); (u "tsize", u "77")] in
  negotiate [(u "blksize", u "1024"); (u "tsize", u "77")] [] None false = Ok n ∧
  ∃ pkt, pack_oack (neg_reply n) = Ok pkt.
Proof.
  cbn zeta. split; [by vm_compute|].
  apply (negotiate_reply_sound [(u "blksize", u "1024"); (u "tsize", u "77")] [] None false).
  by vm_compute.
Defined.

(** The "client" policy: a request inside the limits is honoured exactly
    and echoed, one outside is clamped to the nearest limit, and a client that
    names neither option gets the RFC 1350/7440 defaults 512 and 1. *)
Theorem negotiate_client_policy opts L tp sz rd :
  let n := negotiate_core opts L (u "client") (u "client") tp sz rd in
  let client := client_int (lower_keys opts) in
  neg_blksize n = match client (u "blksize") with
                  | Some z => Z.max (blk_lo L) (Z.min (blk_hi L) z) | None => 512 end ∧
  neg_windowsize n = match client (u "windowsize") with
                  | Some z => Z.max (win_lo L) (Z.min (win_hi L) z) | None => 1 end ∧
  match client (u "blksize") with
  | Some _ => (u "blksize", z_str (neg_blksize n)) ∈ neg_reply n | None => True end ∧
  match client (u "windowsize") with
  | Some _ => (u "windowsize", z_str (neg_windowsize n)) ∈ neg_reply n | None => True end.
Proof.
  cbn zeta. pose proof (core_reply opts L (u "client") (u "client") tp sz rd) as Hr.
  cbn zeta in Hr. rewrite Hr. clear Hr. unfold reply_entry. split_and!.
  3, 4: destruct (client_int _ _); set_solver.
  all: unfold negotiate_core, negotiate_size.
  all: destruct (client_int (lower_keys opts) (u "blksize")),
    (client_int (lower_keys opts) (u "windowsize")); repeat case_decide; naive_solver.
Qed.

(** A configuration that states the policies with the current key instead of
    the deprecated [option_mode]. *)
Definition with_policy (name : str) (cfg : list (str * pyval)) : list (str * pyval) :=
  dict_set (u "negotiation")
    (VDict [(u "blksize", VStr name); (u "windowsize", VStr name); (u "timeout", VStr name)]) cfg.

(** The deprecated [tftp.option_mode] means what the documentation maps
    it to: "accept" negotiates exactly as the policy "client" for all three
    options, "force" as "server", and "off" gives 512-byte blocks, window 1
    and no OACK; the mode is ignored when [tftp.negotiation] is present. *)
Theorem legacy_mode_equivalence opts cfg mode sz rd :
  dict_get (u "negotiation") cfg = None →
  dict_get (u "option_mode") cfg = Some (VStr mode) →
  (lower mode = u "accept" →
     negotiate opts cfg sz rd = negotiate opts (with_policy (u "client") cfg) sz rd) ∧
  (lower mode = u "force" →
     negotiate opts cfg sz rd = negotiate opts (with_policy (u "server") cfg) sz rd) ∧
  (lower mode = u "off" → ∀ n, negotiate opts cfg sz rd = Ok n →
     neg_blksize n = 512 ∧ neg_windowsize n = 1 ∧ neg_reply n = []).
Proof.
  intros Hneg Hmode.
  assert (∀ name k d, k ≠ u "negotiation" → cfg_get (with_policy name cfg) k d = cfg_get cfg k d)
    as Hget.
  { intros name k d Hk. unfold cfg_get, with_policy. by rewrite dict_get_set_ne. }
  assert (∀ name, legacy_policy (with_policy name cfg) = None) as Hlp.
  { intros name. unfold legacy_policy, dict_mem, with_policy. by rewrite dict_get_set_eq. }
  assert (∀ name, cfg_get (with_policy name cfg) (u "negotiation") (VDict []) =
    VDict [(u "blksize", VStr name); (u "windowsize", VStr name); (u "timeout", VStr name)])
    as Hpol.
  { intros name. unfold cfg_get, with_policy. by rewrite dict_get_set_eq. }
  assert (legacy_policy cfg = let l := lower mode in
    if decide (l = u "accept") then Some [(u "blksize", VStr (u "client"));
      (u "windowsize", VStr (u "client")); (u "timeout", VStr (u "client"))]
    else if decide (l = u "force") then Some [(u "blksize", VStr (u "server"));
      (u "windowsize", VStr (u "server")); (u "timeout", VStr (u "server"))]
    else if decide (l = u "off") then Some [(u "_off", VStr (u "true"))] else None) as Hl.
  { unfold legacy_policy, dict_mem, cfg_get. by rewrite Hneg, Hmode. }
  unfold negotiate, cfg_off, cfg_policy, cfg_defaults, cfg_limits.
  rewrite !Hlp, !Hpol, Hl, !Hget by str_ne.
  split_and!; intros ->; cbn zeta; [done..|]. intros n Hn. cbn -[get_int] in Hn.
  destruct (get_int _ _ _); [by injection Hn as <-|done].
Qed.

Lemma legacy_mode_equivalence_witness :
  negotiate [(u "blksize", u "1428")] [(u "option_mode", VStr (u "Force"))] (Some 5) true
  = negotiate [(u "blksize", u "1428")]
      (with_policy (u "server") [(u "option_mode", VStr (u "Force"))]) (Some 5) true.
Proof.
  apply (legacy_mode_equivalence [(u "blksize", u "1428")]
    [(u "option_mode", VStr (u "Force"))] (u "Force") (Some 5) true); by vm_compute.
Defined.
