(* ===== verification/Stats.v ===== *)
(** * Counters and their carry-over (src/core/stats.py, src/core/carryover.py)

    The global counters every component bumps, the accumulator that keeps the
    totals of engines that were stopped, and the composition the dashboard
    shows ([_stats_payload] of src/web/app.py). *)

From S2P Require Import Prelude Python.
Open Scope Z_scope.

(** ** Counters *)

Inductive counter :=
| arp_requests | arp_replies | icmp_requests | icmp_replies
| tftp_rrq | tftp_wrq | tftp_errors
| tftp_sessions_total | tftp_sessions_completed | tftp_sessions_failed
| bytes_sent | bytes_received | cache_hits | cache_misses
| acl_denied | vlan_denied | ip_denied.

#[export] Instance counter_eq_dec : EqDecision counter.
Proof. solve_decision. Defined.

Definition counter_name (c : counter) : str :=
  match c with
  | arp_requests => u "arp_requests" | arp_replies => u "arp_replies"
  | icmp_requests => u "icmp_requests" | icmp_replies => u "icmp_replies"
  | tftp_rrq => u "tftp_rrq" | tftp_wrq => u "tftp_wrq" | tftp_errors => u "tftp_errors"
  | tftp_sessions_total => u "tftp_sessions_total"
  | tftp_sessions_completed => u "tftp_sessions_completed"
  | tftp_sessions_failed => u "tftp_sessions_failed"
  | bytes_sent => u "bytes_sent" | bytes_received => u "bytes_received"
  | cache_hits => u "cache_hits" | cache_misses => u "cache_misses"
  | acl_denied => u "acl_denied" | vlan_denied => u "vlan_denied" | ip_denied => u "ip_denied"
  end.

Definition all_counters : list counter :=
  [arp_requests; arp_replies; icmp_requests; icmp_replies; tftp_rrq; tftp_wrq; tftp_errors;
   tftp_sessions_total; tftp_sessions_completed; tftp_sessions_failed; bytes_sent; bytes_received;
   cache_hits; cache_misses; acl_denied; vlan_denied; ip_denied].

(** [Counters()]: every field zero. *)
Definition Counters_init : list (counter * Z) := map (λ c, (c, 0)) all_counters.

Definition counter_get (cs : list (counter * Z)) (c : counter) : Z := default 0 (dict_get c cs).

(** [Stats.bump]. *)
Definition bump (c : counter) (amount : Z) (cs : list (counter * Z)) : list (counter * Z) :=
  dict_set c (counter_get cs c + amount) cs.

(** [Stats.reset_counters]: the captured totals and the cleared counters. *)
Definition reset_counters (cs : list (counter * Z)) : list (str * pyval) * list (counter * Z) :=
  (map (λ c, (counter_name c, VInt (counter_get cs c))) all_counters, Counters_init).

(** The counter part of [Stats.snapshot]. *)
Definition snapshot (cs : list (counter * Z)) : list (str * pyval) :=
  map (λ c, (counter_name c, VInt (counter_get cs c))) all_counters.

Lemma counter_get_bump c c' n cs :
  counter_get (bump c n cs) c' = counter_get cs c' + if decide (c' = c) then n else 0.
Proof.
  unfold counter_get, bump. rewrite dict_get_set. case_decide; [subst; done|lia].
Qed.

Lemma counter_get_init c : counter_get Counters_init c = 0.
Proof. by destruct c. Qed.

(** ** Carry-over *)

Definition KEYS : list str :=
  [u "bytes_sent"; u "bytes_received"; u "tftp_rrq"; u "tftp_wrq"; u "tftp_errors";
   u "tftp_sessions_total"; u "tftp_sessions_completed"; u "tftp_sessions_failed";
   u "acl_denied"; u "vlan_denied"; u "ip_denied"; u "arp_requests"; u "arp_replies";
   u "icmp_requests"; u "icmp_replies"; u "cache_hits"; u "cache_misses"].

(** The initial [_carry]. *)
Definition carry_init : list (str * Z) := map (λ k, (k, 0)) KEYS.

Definition carry_get (carry : list (str * Z)) (k : str) : Z := default 0 (dict_get k carry).

(** [add]: unknown keys and values [int()] refuses are skipped. *)
Definition carry_add (src : list (str * pyval)) (carry : list (str * Z)) : list (str * Z) :=
  fold_left (λ acc k,
    match dict_get k src with
    | None => acc
    | Some v => match py_int (py_or v (VInt 0)) with
                | Ok n => dict_set k (carry_get acc k + n) acc
                | Raise _ => acc
                end
    end) KEYS carry.

(** [apply]. *)
Definition carry_apply (carry : list (str * Z)) (dst : list (str * pyval)) : list (str * pyval) :=
  fold_left (λ out kv,
    if kv.2 =? 0 then out
    else match py_int (py_or (default (VInt 0) (dict_get kv.1 out)) (VInt 0)) with
         | Ok n => dict_set kv.1 (VInt (n + kv.2)) out
         | Raise _ => dict_set kv.1 (VInt kv.2) out
         end) carry dst.

(** [reset]. *)
Definition carry_reset (carry : list (str * Z)) : list (str * Z) :=
  map (λ kv, (kv.1, 0)) carry.

(** ** What the dashboard shows *)

(** The renaming table of [_stats_payload]. *)
Definition c_to_py : list (str * str) :=
  [(u "bytes_sent", u "bytes_sent"); (u "bytes_received", u "bytes_received");
   (u "rrq", u "tftp_rrq"); (u "wrq", u "tftp_wrq"); (u "errors", u "tftp_errors");
   (u "sessions_total", u "tftp_sessions_total");
   (u "sessions_completed", u "tftp_sessions_completed");
   (u "sessions_failed", u "tftp_sessions_failed"); (u "acl_denied", u "acl_denied");
   (u "arp_requests", u "arp_requests"); (u "arp_replies", u "arp_replies");
   (u "icmp_requests", u "icmp_requests"); (u "icmp_replies", u "icmp_replies")].

(** The C engine's latest [stat] event over the Python counters. *)
Definition overlay_c (c s : list (str * pyval)) : list (str * pyval) :=
  fold_left (λ s kv, match dict_get kv.1 c with
                     | Some v => dict_set kv.2 v s
                     | None => s
                     end) c_to_py s.

(** The counters of [_stats_payload]: the Python snapshot, overlaid in C-engine
    mode with the child's event, plus the carry-over. *)
Definition stats_counters (cs : list (counter * Z)) (c_event : option (list (str * pyval)))
    (carry : list (str * Z)) : list (str * pyval) :=
  let s := snapshot cs in
  let s := match c_event with Some c => overlay_c c s | None => s end in
  carry_apply carry s.

(** Stopping the Python engine: [carryover.add(STATS.reset_counters())]. *)
Definition stop_python_engine (cs : list (counter * Z)) (carry : list (str * Z))
  : list (counter * Z) * list (str * Z) :=
  let '(old, cs') := reset_counters cs in (cs', carry_add old carry).

(** Stopping the C engine: [carryover.add(core.get_stats())]. *)
Definition stop_c_engine (c_event : list (str * pyval)) (carry : list (str * Z))
  : list (str * Z) := carry_add c_event carry.

(** ** Lemmas *)

Lemma snapshot_get cs c : dict_get (counter_name c) (snapshot cs) = Some (VInt (counter_get cs c)).
Proof. unfold snapshot. by destruct c. Qed.

Lemma py_int_or_0 n : py_int (py_or (VInt n) (VInt 0)) = Ok n.
Proof. unfold py_or. cbn. by destruct (Z.eqb_spec n 0); subst. Qed.

(** The value of a counter entry as a number. *)
Definition shown (s : list (str * pyval)) (k : str) : Z :=
  match dict_get k s with Some (VInt n) => n | _ => 0 end.

Lemma carry_add_get src carry k :
  carry_get (carry_add src carry) k = carry_get carry k +
    (if decide (k ∈ KEYS) then
       match dict_get k src with
       | Some v => match py_int (py_or v (VInt 0)) with Ok n => n | Raise _ => 0 end
       | None => 0 end
     else 0).
Proof.
  unfold carry_add. assert (NoDup KEYS) as Hnd by (apply (bool_decide_unpack _); by vm_compute).
  revert carry. induction Hnd as [|k1 ks Hni Hnd IH]; intros carry; cbn [fold_left].
  { case_decide as Hin; [by inversion Hin|lia]. }
  rewrite IH. clear IH.
  assert (∀ b, (if decide (k ∈ k1 :: ks) then b else 0)
               = (if decide (k = k1) then b else 0) + (if decide (k ∈ ks) then b else 0)) as ->.
  { intros b. repeat case_decide; subst; try set_solver; lia. }
  assert (∀ v acc, carry_get (dict_set k1 v acc) k = if decide (k = k1) then v else carry_get acc k)
    as Hset.
  { intros. unfold carry_get. rewrite dict_get_set. by case_decide. }
  destruct (decide (k = k1)) as [->|Hne].
  - destruct (dict_get k1 src) as [v|]; [|lia].
    destruct (py_int _); [rewrite Hset|]; case_decide; try done; lia.
  - destruct (dict_get k1 src) as [v|]; [|lia].
    destruct (py_int _); [rewrite Hset; case_decide; [done|]|]; lia.
Qed.

Lemma carry_add_NoDup src carry : NoDup (dict_keys carry) → NoDup (dict_keys (carry_add src carry)).
Proof.
  unfold carry_add. generalize KEYS. intros ks. revert carry.
  induction ks as [|k ks IH]; intros carry Hnd; cbn [fold_left]; [done|]. apply IH.
  destruct (dict_get k src); [|done]. destruct (py_int _); [by apply dict_set_NoDup|done].
Qed.

Definition int_at (s : list (str * pyval)) (k : str) : Prop :=
  ∀ v, dict_get k s = Some v → ∃ n, v = VInt n.

Lemma shown_carry_apply carry dst k :
  NoDup (dict_keys carry) → int_at dst k →
  shown (carry_apply carry dst) k = shown dst k + carry_get carry k.
Proof.
  unfold carry_apply, carry_get. revert dst.
  induction carry as [|[k1 v1] carry IH]; intros dst Hnd Hint; cbn [fold_left dict_get].
  { cbn. lia. }
  apply NoDup_cons in Hnd as [Hni Hnd]. cbn [fst snd] in *.
  set (n := if v1 =? 0 then 0 else v1).
  set (dst' := if v1 =? 0 then dst else _).
  assert (dict_get k dst' = dict_get k dst ∨ (k = k1 ∧ dict_get k dst' = Some (VInt (shown dst k + v1))))
    as Hk.
  { unfold dst'. destruct (v1 =? 0); [by left|]. unfold shown.
    destruct (decide (k = k1)) as [->|Hne].
    - right. split; [done|]. destruct (dict_get k1 dst) as [v|] eqn:Hg; cbn [from_option id].
      + destruct (Hint v Hg) as [m ->]. rewrite py_int_or_0. by rewrite dict_get_set_eq.
      + by rewrite py_int_or_0, dict_get_set_eq.
    - left. destruct (py_int _); by rewrite dict_get_set_ne. }
  rewrite IH; [|done|].
  - case_decide as Heq; cbn [from_option id].
    + subst k1. assert (dict_get k carry = None) as -> by by apply dict_get_None.
      cbn [from_option id]. unfold dst', shown in *. destruct (Z.eqb_spec v1 0) as [->|Hv].
      * destruct (dict_get k dst) as [[]|]; lia.
      * destruct Hk as [Hk|[_ Hk]]; [|by rewrite Hk, Z.add_0_r].
        exfalso. destruct (dict_get k dst) as [v|] eqn:Hg; cbn [from_option id] in Hk.
        { destruct (Hint v Hg) as [m ->]. rewrite py_int_or_0, dict_get_set_eq in Hk.
          injection Hk. lia. }
        { cbn in Hk. by rewrite dict_get_set_eq in Hk. }
    + destruct Hk as [Hk|[-> _]]; [|done]. unfold shown. by rewrite Hk.
  - intros v Hv. destruct Hk as [Hk|[_ Hk]]; rewrite Hk in Hv; [by apply Hint|].
    injection Hv as <-. eauto.
Qed.

Lemma snapshot_int cs k : int_at (snapshot cs) k.
Proof.
  intros v Hv. apply dict_get_Some_in, list_elem_of_fmap in Hv as (c & [= -> ->] & _). eauto.
Qed.

Lemma counter_name_key c : counter_name c ∈ KEYS.
Proof. apply (bool_decide_unpack _). destruct c; by vm_compute. Qed.

(** ** Properties *)

(** Stopping the Python engine loses nothing on the dashboard: for every
    counter, the total shown after the counters were reset and folded into the
    carry-over is the total shown before. *)
Theorem python_swap_preserves_totals cs carry :
  NoDup (dict_keys carry) →
  let st := stop_python_engine cs carry in
  ∀ c, shown (stats_counters st.1 None st.2) (counter_name c)
     = shown (stats_counters cs None carry) (counter_name c).
Proof.
  intros Hnd st c. unfold st, stop_python_engine, reset_counters, stats_counters.
  cbn [fst snd].
  rewrite shown_carry_apply by (apply carry_add_NoDup, Hnd || apply snapshot_int).
  rewrite shown_carry_apply by (apply Hnd || apply snapshot_int).
  unfold shown. rewrite !snapshot_get, counter_get_init, carry_add_get.
  rewrite decide_True by apply counter_name_key.
  change (map _ all_counters) with (snapshot cs). rewrite snapshot_get, py_int_or_0. lia.
Qed.

Lemma python_swap_preserves_totals_witness :
  let cs := bump tftp_rrq 1 (bump bytes_sent 512 Counters_init) in
  let st := stop_python_engine cs carry_init in
  counter_get st.1 bytes_sent = 0 ∧
  shown (stats_counters st.1 None st.2) (counter_name bytes_sent)
  = shown (stats_counters cs None carry_init) (counter_name bytes_sent).
Proof.
  intros cs st. split; [vm_compute; reflexivity|].
  apply (python_swap_preserves_totals cs carry_init).
  apply (bool_decide_unpack _). vm_compute. exact I.
Defined.

(** A [stat] event as the C engine emits it (src/c_core/main.c). *)
Definition c_stat_event (bs br sa st sc sf rrq wrq er acl aq ar iq ir : Z) : list (str * pyval) :=
  [(u "ev", VStr (u "stat")); (u "bytes_sent", VInt bs); (u "bytes_received", VInt br);
   (u "sessions_active", VInt sa); (u "sessions_total", VInt st);
   (u "sessions_completed", VInt sc); (u "sessions_failed", VInt sf);
   (u "rrq", VInt rrq); (u "wrq", VInt wrq); (u "errors", VInt er); (u "acl_denied", VInt acl);
   (u "arp_requests", VInt aq); (u "arp_replies", VInt ar);
   (u "icmp_requests", VInt iq); (u "icmp_replies", VInt ir)].

Section c_event.
Context (bs br sa st sc sf rrq wrq er acl aq ar iq ir : Z).
Let ev := c_stat_event bs br sa st sc sf rrq wrq er acl aq ar iq ir.

(** The entries the event and the carry-over name alike, and the others. *)
Definition same_name_keys : list (str * Z) :=
  [(u "bytes_sent", bs); (u "bytes_received", br); (u "acl_denied", acl);
   (u "arp_requests", aq); (u "arp_replies", ar); (u "icmp_requests", iq);
   (u "icmp_replies", ir)].
Definition renamed_keys : list (str * Z) :=
  [(u "tftp_rrq", rrq); (u "tftp_wrq", wrq); (u "tftp_errors", er);
   (u "tftp_sessions_total", st); (u "tftp_sessions_completed", sc);
   (u "tftp_sessions_failed", sf)].

Lemma event_entry k n :
  (k, n) ∈ same_name_keys ++ renamed_keys →
  k ∈ KEYS ∧ shown (snapshot Counters_init) k = 0 ∧
  shown (overlay_c ev (snapshot Counters_init)) k = n.
Proof.
  unfold same_name_keys, renamed_keys. cbn [app].
  intros Hk. repeat (apply elem_of_cons in Hk as [[= -> ->]|Hk];
    [split_and!; [apply (bool_decide_unpack _); vm_compute; exact I|vm_compute; reflexivity..]|]).
  inversion Hk.
Qed.

Lemma event_same_name k n : (k, n) ∈ same_name_keys → dict_get k ev = Some (VInt n).
Proof.
  unfold same_name_keys. intros Hk.
  repeat (apply elem_of_cons in Hk as [[= -> ->]|Hk]; [vm_compute; reflexivity|]). inversion Hk.
Qed.

Lemma event_renamed k n : (k, n) ∈ renamed_keys → dict_get k ev = None.
Proof.
  unfold renamed_keys. intros Hk.
  repeat (apply elem_of_cons in Hk as [[= -> ->]|Hk]; [vm_compute; reflexivity|]). inversion Hk.
Qed.

Lemma overlay_int k : int_at (overlay_c ev (snapshot Counters_init)) k.
Proof.
  intros v Hv. apply dict_get_Some_in in Hv.
  apply (proj1 (Forall_forall (λ kv : str * pyval, ∃ n, kv.2 = VInt n) _)) with (x := (k, v)) in Hv;
    [done|]. repeat constructor; by eexists.
Qed.

(** Stopping the C engine keeps the byte, ACL, ARP and ICMP totals on the
    dashboard, but the request, error and session totals fall back to what the
    carry-over held before: the child's event names them [rrq], [wrq],
    [errors] and [sessions_*], and the carry-over only knows the [tftp_*]
    names. *)
Theorem c_swap_loses_session_totals carry :
  NoDup (dict_keys carry) →
  let ev := c_stat_event bs br sa st sc sf rrq wrq er acl aq ar iq ir in
  let before := shown (stats_counters Counters_init (Some ev) carry) in
  let after := shown (stats_counters Counters_init None (stop_c_engine ev carry)) in
  (∀ k n, (k, n) ∈ same_name_keys → before k = n + carry_get carry k ∧ after k = before k) ∧
  (∀ k n, (k, n) ∈ renamed_keys → before k = n + carry_get carry k ∧ after k = carry_get carry k).
Proof.
  intros Hnd ev' before after.
  assert (∀ k, before k = shown (overlay_c ev (snapshot Counters_init)) k + carry_get carry k) as Hb.
  { intros k. apply shown_carry_apply; [done|apply overlay_int]. }
  assert (∀ k, k ∈ KEYS → after k = shown (snapshot Counters_init) k + (carry_get carry k +
    match dict_get k ev with
    | Some v => match py_int (py_or v (VInt 0)) with Ok n => n | Raise _ => 0 end
    | None => 0 end)) as Ha.
  { intros k Hk. unfold after, stats_counters, stop_c_engine.
    rewrite shown_carry_apply by (apply carry_add_NoDup, Hnd || apply snapshot_int).
    rewrite carry_add_get, decide_True by done. done. }
  clearbody before after. clear ev'. split; intros k n Hk.
  - destruct (event_entry k n) as (Hin & H0 & Hov); [apply elem_of_app; by left|].
    rewrite Hb, Ha, (event_same_name k n), H0, Hov, py_int_or_0 by done. lia.
  - destruct (event_entry k n) as (Hin & H0 & Hov); [apply elem_of_app; by right|].
    rewrite Hb, Ha, (event_renamed k n), H0, Hov by done. lia.
Qed.
End c_event.

Lemma c_swap_loses_session_totals_witness :
  let ev := c_stat_event 4096 0 0 3 3 0 3 0 1 0 0 0 0 0 in
  shown (stats_counters Counters_init (Some ev) carry_init) (u "tftp_rrq") = 3 + carry_get carry_init (u "tftp_rrq") ∧
  shown (stats_counters Counters_init None (stop_c_engine ev carry_init)) (u "tftp_rrq")
  = carry_get carry_init (u "tftp_rrq").
Proof.
  intros ev. apply (c_swap_loses_session_totals 4096 0 0 3 3 0 3 0 1 0 0 0 0 0 carry_init).
  - apply (bool_decide_unpack _). vm_compute. exact I.
  - left.
Defined.
