(* ===== verification/FileLock.v ===== *)
(** * Per-file readers-writer locks (src/core/file_lock.py)

    The lock table, its four operations, and the abstract readers-writer lock
    they implement: a bag of holders. Each operation runs entirely under
    [_mu], so one operation is one atomic step. *)

From S2P Require Import Prelude Python.
Open Scope Z_scope.

(** [_Entry]; its [waiters] list is never used by the source. *)
Record Entry := mkEntry { readers : Z; writer : bool }.

Definition Entry_init : Entry := mkEntry 0 false.

(** [self._entries.setdefault(path, _Entry())]. *)
Definition setdefault (path : str) (t : gmap (list Z) Entry) : Entry * gmap (list Z) Entry :=
  match t !! path with
  | Some e => (e, t)
  | None => (Entry_init, <[path := Entry_init]> t)
  end.

Definition lock_gc (path : str) (e : Entry) (t : gmap (list Z) Entry) : gmap (list Z) Entry :=
  if negb (writer e) && (readers e =? 0) then delete path t else t.

Definition acquire_read (path : str) (t : gmap (list Z) Entry) : pyres unit * gmap (list Z) Entry :=
  let '(e, t) := setdefault path t in
  if writer e then (Raise (FileLockError (u "file busy (writer active): " ++ path)), t)
  else (Ok tt, <[path := mkEntry (readers e + 1) (writer e)]> t).

Definition release_read (path : str) (t : gmap (list Z) Entry) : gmap (list Z) Entry :=
  match t !! path with
  | None => t
  | Some e =>
      let e := mkEntry (Z.max 0 (readers e - 1)) (writer e) in
      lock_gc path e (<[path := e]> t)
  end.

Definition acquire_write (path : str) (t : gmap (list Z) Entry) : pyres unit * gmap (list Z) Entry :=
  let '(e, t) := setdefault path t in
  if writer e || (0 <? readers e) then (Raise (FileLockError (u "file busy: " ++ path)), t)
  else (Ok tt, <[path := mkEntry (readers e) true]> t).

Definition release_write (path : str) (t : gmap (list Z) Entry) : gmap (list Z) Entry :=
  match t !! path with
  | None => t
  | Some e =>
      let e := mkEntry (readers e) false in
      lock_gc path e (<[path := e]> t)
  end.

(** ** The abstract lock *)

Inductive mode := Rd | Wr.

#[export] Instance mode_eq_dec : EqDecision mode.
Proof. solve_decision. Defined.

Definition acquire (m : mode) : str → gmap (list Z) Entry → pyres unit * gmap (list Z) Entry :=
  match m with Rd => acquire_read | Wr => acquire_write end.
Definition release (m : mode) : str → gmap (list Z) Entry → gmap (list Z) Entry :=
  match m with Rd => release_read | Wr => release_write end.

(** The context managers currently open, each with the path and the mode it
    was entered with. *)
Definition holders := list (list Z * mode).

Fixpoint held (p : str) (m : mode) (hs : holders) : Z :=
  match hs with
  | [] => 0
  | (p', m') :: hs' => (if decide (p = p' ∧ m = m') then 1 else 0) + held p m hs'
  end.

(** When the abstract lock grants a request. *)
Definition grants (p : str) (m : mode) (hs : holders) : Prop :=
  match m with
  | Rd => held p Wr hs = 0
  | Wr => held p Wr hs = 0 ∧ held p Rd hs = 0
  end.

(** The system: [__aenter__] and [__aexit__] of the two context managers.
    Python calls [__aexit__] exactly once for every [__aenter__] that did not
    raise, and never otherwise. *)
Inductive lock_step : gmap (list Z) Entry * holders → gmap (list Z) Entry * holders → Prop :=
| step_enter p m t t' hs :
    acquire m p t = (Ok tt, t') → lock_step (t, hs) (t', (p, m) :: hs)
| step_refused p m t t' hs e :
    acquire m p t = (Raise e, t') → lock_step (t, hs) (t', hs)
| step_exit p m t hs1 hs2 :
    lock_step (t, hs1 ++ (p, m) :: hs2) (release m p t, hs1 ++ hs2).

Definition lock_reachable : gmap (list Z) Entry * holders → Prop := rtc lock_step (∅, []).

(** The table entry that represents the holders of a path. *)
Definition entry_of (p : str) (hs : holders) : option Entry :=
  if (held p Rd hs =? 0) && (held p Wr hs =? 0) then None
  else Some (mkEntry (held p Rd hs) (0 <? held p Wr hs)).

Record lock_inv (s : gmap (list Z) Entry * holders) : Prop := {
  inv_table : ∀ p, s.1 !! p = entry_of p s.2;
  inv_excl : ∀ p, held p Wr s.2 = 0 ∨ (held p Wr s.2 = 1 ∧ held p Rd s.2 = 0);
}.

(** ** Lemmas *)

Lemma held_nonneg p m hs : 0 ≤ held p m hs.
Proof. induction hs as [|[p' m'] hs IH]; cbn; [lia|]. case_decide; lia. Qed.

Lemma held_app p m hs1 hs2 : held p m (hs1 ++ hs2) = held p m hs1 + held p m hs2.
Proof. induction hs1 as [|[p' m'] hs1 IH]; cbn; [done|]. lia. Qed.

Lemma held_cons p m p' m' hs :
  held p m ((p', m') :: hs) = (if decide (p = p' ∧ m = m') then 1 else 0) + held p m hs.
Proof. done. Qed.

Lemma held_same p m hs : held p m ((p, m) :: hs) = 1 + held p m hs.
Proof. rewrite held_cons. by rewrite decide_True. Qed.

Lemma held_other p m p' m' hs : p ≠ p' ∨ m ≠ m' → held p m ((p', m') :: hs) = held p m hs.
Proof. intros H. rewrite held_cons. rewrite decide_False; [done|]. intros [-> ->]. by destruct H. Qed.

Lemma held_middle p m p' m' hs1 hs2 :
  held p m (hs1 ++ (p', m') :: hs2) = held p m ((p', m') :: hs1 ++ hs2).
Proof. rewrite held_app, !held_cons, held_app. lia. Qed.

Ltac held_arith :=
  repeat match goal with
  | |- context [held ?p ?m ?hs] =>
      lazymatch goal with
      | H : 0 ≤ held p m hs |- _ => fail
      | _ => pose proof (held_nonneg p m hs)
      end
  | H : context [held ?p ?m ?hs] |- _ =>
      lazymatch goal with
      | H' : 0 ≤ held p m hs |- _ => fail
      | _ => pose proof (held_nonneg p m hs)
      end
  end.

(** What the table holds for a path, read through the invariant. *)
Lemma inv_setdefault s p :
  lock_inv s →
  ∃ t', setdefault p s.1 = (mkEntry (held p Rd s.2) (0 <? held p Wr s.2), t') ∧
        ∀ p', t' !! p' = if decide (p' = p) then Some (mkEntry (held p Rd s.2) (0 <? held p Wr s.2))
                         else s.1 !! p'.
Proof.
  intros [Ht _]. unfold setdefault. pose proof (Ht p) as Hp. rewrite Hp. unfold entry_of in *.
  destruct ((held p Rd s.2 =? 0) && (held p Wr s.2 =? 0)) eqn:E; zbool.
  - eexists. split; [f_equal; unfold Entry_init; f_equal; [done|]|].
    { rewrite H0. done. }
    intros p'. rewrite lookup_insert. unfold Entry_init. rewrite H, H0. cbn.
    repeat case_decide; congruence.
  - eexists. split; [done|]. intros p'. case_decide; [by subst|done].
Qed.

Lemma acquire_spec s p m :
  lock_inv s →
  (grants p m s.2 ∧ ∃ t', acquire m p s.1 = (Ok tt, t') ∧ lock_inv (t', (p, m) :: s.2)) ∨
  (¬ grants p m s.2 ∧
   ∃ msg t', acquire m p s.1 = (Raise (FileLockError msg), t') ∧ lock_inv (t', s.2)).
Proof.
  intros Hinv. destruct (inv_setdefault s p Hinv) as (t' & Hsd & Ht').
  destruct Hinv as [Ht Hex]. pose proof (Hex p) as Hp. held_arith.
  assert (¬ grants p m s.2 → lock_inv (t', s.2)) as Hrefused.
  { intros Hng. split; [|exact Hex]. intros p'. cbn [fst snd]. rewrite Ht'. case_decide; [subst p'|done].
    unfold entry_of. destruct m; cbn in Hng;
      destruct (Z.eqb_spec (held p Rd s.2) 0), (Z.eqb_spec (held p Wr s.2) 0); done || lia. }
  assert (∀ r w, grants p m s.2 → r = held p Rd ((p, m) :: s.2) →
    w = (0 <? held p Wr ((p, m) :: s.2)) →
    lock_inv (<[p := mkEntry r w]> t', (p, m) :: s.2)) as Hgranted.
  { intros r w Hg -> ->. split; intros p'; cbn [fst snd].
    - rewrite lookup_insert, Ht'. unfold entry_of.
      destruct (decide (p = p')) as [<-|Hne].
      + destruct m; rewrite held_same, held_other by (right; done);
          [destruct (Z.eqb_spec (1 + held p Rd s.2) 0)|destruct (Z.eqb_spec (1 + held p Wr s.2) 0)];
          try lia; by rewrite ?andb_false_r.
      + rewrite (decide_False (P := p' = p)) by congruence.
        rewrite !held_other by (left; congruence). apply Ht.
    - specialize (Hex p'). destruct (decide (p = p')) as [<-|Hne].
      + destruct m; cbn in Hg; rewrite held_same, held_other by (right; done); lia.
      + by rewrite !held_other by (left; congruence). }
  destruct m; cbn [acquire grants] in *; unfold acquire_read, acquire_write; rewrite Hsd;
    cbn [readers writer].
  - destruct (Z.ltb_spec 0 (held p Wr s.2)); [right|left]; (split; [lia|]).
    + do 2 eexists. split; [done|]. apply Hrefused. lia.
    + eexists. split; [done|]. rewrite held_same, held_other in Hgranted by (right; done).
      apply Hgranted; [lia..|]. symmetry. apply Z.ltb_ge. lia.
  - destruct (Z.ltb_spec 0 (held p Wr s.2)), (Z.ltb_spec 0 (held p Rd s.2)); cbn [orb];
      [right..|left]; (split; [lia|]).
    1-3: do 2 eexists; (split; [done|]); apply Hrefused; lia.
    eexists. split; [done|]. rewrite held_same, held_other in Hgranted by (right; done).
    apply Hgranted; [lia..|]. symmetry. apply Z.ltb_lt. lia.
Qed.

(** The entry a release leaves behind. *)
Lemma release_lookup t p m hs :
  t !! p = entry_of p ((p, m) :: hs) →
  held p Wr ((p, m) :: hs) = 0 ∨ (held p Wr ((p, m) :: hs) = 1 ∧ held p Rd ((p, m) :: hs) = 0) →
  release m p t !! p = entry_of p hs ∧ ∀ p', p' ≠ p → release m p t !! p' = t !! p'.
Proof.
  intros Htp Hp. unfold entry_of in *. held_arith.
  destruct m; rewrite held_same, held_other in Htp, Hp by (right; done); cbn [release];
    unfold release_read, release_write, lock_gc.
  - destruct (Z.eqb_spec (1 + held p Rd hs) 0); [lia|]. cbn [andb] in Htp. rewrite Htp.
    cbn [readers writer]. replace (Z.max 0 (1 + held p Rd hs - 1)) with (held p Rd hs) by lia.
    assert (held p Wr hs = 0) as -> by lia. cbn [negb andb Z.ltb Z.compare Z.eqb].
    rewrite andb_true_r.
    destruct (Z.eqb_spec (held p Rd hs) 0); split; intros; by simplify_map_eq.
  - destruct (Z.eqb_spec (1 + held p Wr hs) 0); [lia|]. rewrite andb_false_r in Htp. rewrite Htp.
    cbn [readers writer negb andb].
    assert (held p Wr hs = 0) as -> by lia. cbn [Z.ltb Z.compare Z.eqb].
    rewrite andb_true_r.
    destruct (Z.eqb_spec (held p Rd hs) 0); split; intros; by simplify_map_eq.
Qed.

Lemma release_inv t p m hs1 hs2 :
  lock_inv (t, hs1 ++ (p, m) :: hs2) → lock_inv (release m p t, hs1 ++ hs2).
Proof.
  intros [Ht Hex]. cbn [fst snd] in *. set (hs := hs1 ++ hs2).
  assert (∀ p', t !! p' = entry_of p' ((p, m) :: hs)) as Ht'.
  { intros p'. rewrite Ht. unfold entry_of. by rewrite !held_middle. }
  assert (∀ p', held p' Wr ((p, m) :: hs) = 0 ∨
    (held p' Wr ((p, m) :: hs) = 1 ∧ held p' Rd ((p, m) :: hs) = 0)) as Hex'.
  { intros p'. specialize (Hex p'). by rewrite !held_middle in Hex. }
  destruct (release_lookup t p m hs) as [Hrp Hrne]; [done..|].
  split; cbn [fst snd]; intros p'; destruct (decide (p' = p)) as [->|Hne].
  - done.
  - rewrite Hrne, Ht' by done. unfold entry_of. by rewrite !held_other by (left; done).
  - specialize (Hex' p). held_arith.
    destruct m; rewrite held_same, held_other in Hex' by (right; done); lia.
  - specialize (Hex' p'). by rewrite !held_other in Hex' by (left; done).
Qed.

Lemma lock_step_inv s s' : lock_step s s' → lock_inv s → lock_inv s'.
Proof.
  intros Hst Hinv. destruct Hst as [p m t t' hs Ha|p m t t' hs e Ha|p m t hs1 hs2].
  - destruct (acquire_spec _ p m Hinv) as [[_ (t2 & Ha2 & Hi)]|[_ (msg & t2 & Ha2 & Hi)]];
      cbn in Ha2; rewrite Ha in Ha2; by simplify_eq.
  - destruct (acquire_spec _ p m Hinv) as [[_ (t2 & Ha2 & Hi)]|[_ (msg & t2 & Ha2 & Hi)]];
      cbn in Ha2; rewrite Ha in Ha2; by simplify_eq.
  - by apply release_inv.
Qed.

Lemma lock_inv_init : lock_inv (∅, []).
Proof. split; intros p; [done|by left]. Qed.

Lemma lock_reachable_inv s : lock_reachable s → lock_inv s.
Proof.
  intros Hr. cut (∀ s0, rtc lock_step s0 s → lock_inv s0 → lock_inv s).
  { intros H. exact (H _ Hr lock_inv_init). }
  induction 1; eauto using lock_step_inv.
Qed.

(** ** Properties *)

(** [C28] Refinement of the readers-writer lock: after any interleaving of
    entered, refused and exited contexts, a read request is granted exactly
    when no writer holds the file and a write request exactly when nobody
    does; every other request raises [FileLockError]. *)
Theorem lock_grants_exactly t hs p m :
  lock_reachable (t, hs) →
  ((∃ t', acquire m p t = (Ok tt, t')) ↔ grants p m hs) ∧
  ((∃ msg t', acquire m p t = (Raise (FileLockError msg), t')) ↔ ¬ grants p m hs).
Proof.
  intros Hr%lock_reachable_inv.
  destruct (acquire_spec _ p m Hr) as [[Hg (t2 & Ha & _)]|[Hg (msg & t2 & Ha & _)]];
    cbn [fst snd] in *; rewrite Ha; split; split; try done; try (by eauto);
    intros Hx; destruct_and?; (by destruct Hx as (? & [=])) || (by destruct Hx as (? & ? & [=])).
Qed.

Lemma lock_grants_exactly_witness :
  let p := u "fw.bin" in
  let t := (acquire_read p ∅).2 in
  ((∃ t', acquire Wr p t = (Ok tt, t')) ↔ grants p Wr [(p, Rd)]) ∧
  ((∃ msg t', acquire Wr p t = (Raise (FileLockError msg), t')) ↔ ¬ grants p Wr [(p, Rd)]).
Proof.
  intros p t. apply (lock_grants_exactly t [(p, Rd)] p Wr).
  eapply rtc_once. apply (step_enter p Rd). vm_compute. reflexivity.
Defined.

(** Mutual exclusion and no leak: in every reachable state a file has at
    most one writer and never a writer together with a reader, and once every
    context has exited the lock table is empty. *)
Theorem lock_mutual_exclusion t hs :
  lock_reachable (t, hs) →
  (∀ p, held p Wr hs ≤ 1 ∧ (0 < held p Wr hs → held p Rd hs = 0)) ∧
  (hs = [] → t = ∅).
Proof.
  intros [Ht Hex]%lock_reachable_inv. cbn [fst snd] in *. split.
  - intros p. specialize (Hex p). lia.
  - intros ->. apply map_eq. intros p. rewrite Ht. done.
Qed.

Lemma lock_mutual_exclusion_witness :
  let p := u "fw.bin" in
  (∀ q, held q Wr [(p, Wr)] ≤ 1 ∧ (0 < held q Wr [(p, Wr)] → held q Rd [(p, Wr)] = 0)) ∧
  ([(p, Wr)] = [] → (acquire_write p ∅).2 = ∅).
Proof.
  intros p. apply (lock_mutual_exclusion (acquire_write p ∅).2 [(p, Wr)]).
  eapply rtc_once. apply (step_enter p Wr). vm_compute. reflexivity.
Defined.
