(* ===== verification/Cache.v ===== *)
(** * LRU file cache (src/files/cache.py)

    Entries are kept in least-recently-used-first order, as in the source's
    [OrderedDict].  No section under [_mu] awaits, so the cache changes in two
    kinds of atomic step: a request (a hit, a join of the load in flight, or
    the start of a load) and the completion of a load. *)

From S2P Require Import Prelude Python Stats.
Open Scope Z_scope.

Record FileCache := mkCache {
  c_max_bytes : Z;
  c_max_file_bytes : Z;
  c_enabled : bool;
  c_entries : list (list Z * list Z);
  c_bytes : Z;
  c_inflight : list (list Z);
}.

Definition FileCache_init (max_bytes max_file_bytes : Z) (enabled : bool) : FileCache :=
  mkCache max_bytes max_file_bytes enabled [] 0 [].

Definition set_entries (c : FileCache) (es : list (str * bytes)) (used : Z) : FileCache :=
  mkCache (c_max_bytes c) (c_max_file_bytes c) (c_enabled c) es used (c_inflight c).

Definition set_inflight (c : FileCache) (fl : list str) : FileCache :=
  mkCache (c_max_bytes c) (c_max_file_bytes c) (c_enabled c) (c_entries c) (c_bytes c) fl.

(** [update]. *)
Definition cache_update (max_bytes max_file_bytes : Z) (enabled : bool) (c : FileCache) : FileCache :=
  let c := mkCache max_bytes max_file_bytes enabled (c_entries c) (c_bytes c) (c_inflight c) in
  if enabled then c else set_entries c [] 0.

(** [move_to_end]. *)
Definition move_to_end (f : str) (d : bytes) (es : list (str * bytes)) : list (str * bytes) :=
  dict_del f es ++ [(f, d)].

(** [_peek]. *)
Definition cache_peek (f : str) (c : FileCache) : option bytes * FileCache :=
  match dict_get f (c_entries c) with
  | None => (None, c)
  | Some d => (Some d, set_entries c (move_to_end f d (c_entries c)) (c_bytes c))
  end.

(** The eviction loop of [_store]: [popitem(last=False)] until it fits. *)
Fixpoint evict (max_bytes : Z) (es : list (str * bytes)) (used : Z) : list (str * bytes) * Z :=
  match es with
  | [] => ([], used)
  | (_, v) :: es' =>
      if max_bytes <? used then evict max_bytes es' (used - zlen v) else (es, used)
  end.

(** [_store]. *)
Definition cache_store (f : str) (data : bytes) (c : FileCache) : FileCache :=
  let '(es, used) :=
    match dict_get f (c_entries c) with
    | Some old => (dict_del f (c_entries c), c_bytes c - zlen old)
    | None => (c_entries c, c_bytes c)
    end in
  let es := es ++ [(f, data)] in
  let used := used + zlen data in
  let '(es, used) := evict (c_max_bytes c) es used in
  set_entries c es used.

(** [invalidate]. *)
Definition cache_invalidate (f : option str) (c : FileCache) : FileCache :=
  match f with
  | None => set_entries c [] 0
  | Some f =>
      match dict_get f (c_entries c) with
      | Some old => set_entries c (dict_del f (c_entries c)) (c_bytes c - zlen old)
      | None => c
      end
  end.

(** ** Requests and loads *)

(** What [source.read] produced: the file, no such file, or an exception. *)
Abbreviation read_result := (pyres (option (list Z))) (only parsing).

Inductive request_outcome :=
| Hit (data : list Z)
| Joined
| Started.

(** [get_or_load] up to its [await fut]. *)
Definition cache_request (f : str) (c : FileCache) (st : list (counter * Z))
  : request_outcome * FileCache * list (counter * Z) :=
  let miss c st :=
    if decide (f ∈ c_inflight c) then (Joined, c, st)
    else (Started, set_inflight c (c_inflight c ++ [f]), st) in
  if c_enabled c then
    match cache_peek f c with
    | (Some d, c') => (Hit d, c', bump cache_hits 1 st)
    | (None, c') => miss c' st
    end
  else miss c st.

(** [_load] after [await source.read(filename)]: the value the waiters get
    ([get_or_load] turns an exception into [None]) and the new state. *)
Definition cache_load_done (f : str) (r : read_result) (c : FileCache) (st : list (counter * Z))
  : option bytes * FileCache * list (counter * Z) :=
  let '(out, c, st) :=
    match r with
    | Ok None => (None, c, bump cache_misses 1 st)
    | Ok (Some data) =>
        let c := if c_enabled c && (zlen data <=? c_max_file_bytes c)
                 then cache_store f data c else c in
        (Some data, c, bump cache_misses 1 st)
    | Raise _ => (None, c, st)
    end in
  (out, set_inflight c (filter (λ g, g ≠ f) (c_inflight c)), st).

(** [get_or_load] with nobody else running: the request and, on a miss, the
    load it starts. *)
Definition get_or_load (read : str → read_result) (f : str) (c : FileCache) (st : list (counter * Z))
  : option bytes * FileCache * list (counter * Z) :=
  match cache_request f c st with
  | (Hit d, c, st) => (Some d, c, st)
  | (_, c, st) => cache_load_done f (read f) c st
  end.

(** ** Invariant *)

Fixpoint total_size (es : list (str * bytes)) : Z :=
  match es with [] => 0 | (_, v) :: es' => zlen v + total_size es' end.

Record cache_inv (c : FileCache) : Prop := {
  ci_nodup : NoDup (dict_keys (c_entries c));
  ci_bytes : c_bytes c = total_size (c_entries c);
  ci_inflight : NoDup (c_inflight c);
}.

Lemma total_size_nonneg es : 0 ≤ total_size es.
Proof. induction es as [|[k v] es IH]; cbn; [lia|]. pose proof (zlen_nonneg v). lia. Qed.

Lemma total_size_app es1 es2 : total_size (es1 ++ es2) = total_size es1 + total_size es2.
Proof. induction es1 as [|[k v] es1 IH]; cbn; lia. Qed.

Lemma total_size_del f es v :
  dict_get f es = Some v → total_size (dict_del f es) = total_size es - zlen v.
Proof.
  induction es as [|[k w] es IH]; cbn; [done|]. case_decide; [intros [= ->]; lia|].
  intros Hg%IH. cbn. lia.
Qed.

(** Eviction keeps the longest suffix that fits. *)
Lemma evict_spec m es used :
  used = total_size es →
  let '(es', used') := evict m es used in
  used' = total_size es' ∧ (0 ≤ m → used' ≤ m) ∧
  ∃ gone, es = gone ++ es' ∧
          ∀ g1 x g2, gone = g1 ++ x :: g2 → m < total_size (x :: g2 ++ es').
Proof.
  revert used. induction es as [|[k v] es IH]; intros used Hu; cbn [evict].
  - split_and!; [done|intros; cbn in Hu; lia|]. exists []. split; [done|].
    intros g1 x g2 Hg. by destruct g1.
  - destruct (Z.ltb_spec m used) as [Hlt|Hge].
    + specialize (IH (used - zlen v)). destruct (evict m es (used - zlen v)) as [es' used'].
      destruct IH as (H1 & H2 & gone & Hes & Hg); [cbn in Hu; lia|].
      split_and!; [done..|]. exists ((k, v) :: gone). split; [by rewrite Hes|].
      intros [|y g1] x g2 Heq; injection Heq as <- Heq.
      * subst gone. rewrite Hes in Hu. cbn in Hu |- *. lia.
      * by apply (Hg g1).
    + split_and!; [done..|]. exists []. split; [done|]. intros g1 x g2 Hg. by destruct g1.
Qed.

Lemma dict_keys_move_to_end f d es :
  dict_keys (move_to_end f d es) = dict_keys (dict_del f es) ++ [f].
Proof. unfold move_to_end, dict_keys. by rewrite map_app. Qed.

Lemma NoDup_del_snoc f (es : list (str * bytes)) :
  NoDup (dict_keys es) → NoDup (dict_keys (dict_del f es) ++ [f]).
Proof.
  intros Hnd. apply NoDup_app. split_and!;
    [by apply dict_del_NoDup| |apply NoDup_singleton].
  intros x Hx ->%list_elem_of_singleton.
  exact (proj1 (dict_get_None f _) (dict_get_del_eq f es Hnd) Hx).
Qed.

Lemma cache_peek_inv f c : cache_inv c → cache_inv (cache_peek f c).2.
Proof.
  intros [Hnd Hb Hi]. unfold cache_peek. destruct (dict_get f (c_entries c)) as [d|] eqn:Hg; [|done].
  split; cbn [c_entries c_bytes c_inflight set_entries snd]; [|unfold move_to_end|done].
  - rewrite dict_keys_move_to_end. by apply NoDup_del_snoc.
  - rewrite total_size_app, (total_size_del _ _ d) by done. cbn. lia.
Qed.

(** The entries [_store] sees after removing an old version of the file. *)
Lemma cache_store_inv f data c :
  cache_inv c →
  cache_inv (cache_store f data c) ∧
  (0 ≤ c_max_bytes c → c_bytes (cache_store f data c) ≤ c_max_bytes c).
Proof.
  intros [Hnd Hb Hi]. unfold cache_store.
  assert (∃ es used, (match dict_get f (c_entries c) with
    | Some old => (dict_del f (c_entries c), c_bytes c - zlen old)
    | None => (c_entries c, c_bytes c) end) = (es, used) ∧
    used = total_size es ∧ NoDup (dict_keys es ++ [f])) as (es & used & -> & Hu & Hnd').
  { destruct (dict_get f (c_entries c)) as [old|] eqn:Hg; do 2 eexists; (split; [done|]); split.
    - rewrite (total_size_del _ _ old) by done. lia.
    - by apply NoDup_del_snoc.
    - done.
    - rewrite <- (dict_del_notin f (c_entries c)) by done. by apply NoDup_del_snoc. }
  assert (used + zlen data = total_size (es ++ [(f, data)])) as Htot
    by (rewrite total_size_app; cbn; lia).
  pose proof (evict_spec (c_max_bytes c) (es ++ [(f, data)]) (used + zlen data) Htot) as Hev.
  destruct (evict _ _ _) as [es' used']. destruct Hev as (H1 & H2 & gone & Hg & _).
  split; [|done]. split; cbn [c_entries c_bytes c_inflight set_entries]; [|done|done].
  assert (dict_keys (es ++ [(f, data)]) = dict_keys es ++ [f]) as Hk
    by (unfold dict_keys; by rewrite map_app).
  rewrite <- Hk, Hg in Hnd'. unfold dict_keys in Hnd'. rewrite map_app in Hnd'.
  by apply NoDup_app in Hnd' as (_ & _ & ?).
Qed.

(** ** The cache shared by many sessions *)

Inductive cache_event :=
| ERequest (client : Z) (f : list Z)
| EDone (f : list Z) (r : pyres (option (list Z)))
| ECancel (client : Z) (f : list Z)
| EInvalidate (f : option (list Z))
| EUpdate (max_bytes max_file_bytes : Z) (enabled : bool).

(** The cache, the clients suspended on a load, what each client was given,
    the calls of [source.read] so far, the files whose future is cancelled, and
    the clients that got [CancelledError] from [await fut]. *)
Record cache_sys := mkSys {
  s_cache : FileCache;
  s_stats : list (counter * Z);
  s_waiting : list (Z * list Z);
  s_given : list (Z * list Z * option (list Z));
  s_reads : list (list Z);
  s_dead : list (list Z);
  s_cancelled : list (Z * list Z);
}.

(** A client is cancelled while it waits: [Task.cancel] cancels the future the
    task is suspended on, and this one is shared by everybody who waits for the
    file.  The load itself goes on; until it is done, who joins it finds the
    cancelled future. *)
Definition cache_step (s : cache_sys) (e : cache_event) : option cache_sys :=
  match e with
  | ERequest cl f =>
      match cache_request f (s_cache s) (s_stats s) with
      | (Hit d, c, st) =>
          Some (mkSys c st (s_waiting s) (s_given s ++ [(cl, f, Some d)]) (s_reads s) (s_dead s) (s_cancelled s))
      | (Joined, c, st) =>
          if decide (f ∈ s_dead s)
          then Some (mkSys c st (s_waiting s) (s_given s) (s_reads s) (s_dead s) (s_cancelled s ++ [(cl, f)]))
          else Some (mkSys c st (s_waiting s ++ [(cl, f)]) (s_given s) (s_reads s) (s_dead s) (s_cancelled s))
      | (Started, c, st) =>
          Some (mkSys c st (s_waiting s ++ [(cl, f)]) (s_given s) (s_reads s ++ [f]) (s_dead s) (s_cancelled s))
      end
  | EDone f r =>
      if decide (f ∈ c_inflight (s_cache s)) then
        let '(out, c, st) := cache_load_done f r (s_cache s) (s_stats s) in
        Some (mkSys c st (filter (λ w, w.2 ≠ f) (s_waiting s))
                (s_given s ++ map (λ w, (w.1, w.2, out)) (filter (λ w, w.2 = f) (s_waiting s)))
                (s_reads s) (filter (λ g, g ≠ f) (s_dead s)) (s_cancelled s))
      else None
  | ECancel cl f =>
      if decide ((cl, f) ∈ s_waiting s)
      then Some (mkSys (s_cache s) (s_stats s) (filter (λ w, w.2 ≠ f) (s_waiting s)) (s_given s) (s_reads s)
                   (s_dead s ++ [f]) (s_cancelled s ++ filter (λ w, w.2 = f) (s_waiting s)))
      else None
  | EInvalidate f =>
      Some (mkSys (cache_invalidate f (s_cache s)) (s_stats s) (s_waiting s) (s_given s) (s_reads s)
              (s_dead s) (s_cancelled s))
  | EUpdate mb mf en =>
      Some (mkSys (cache_update mb mf en (s_cache s)) (s_stats s) (s_waiting s) (s_given s) (s_reads s)
              (s_dead s) (s_cancelled s))
  end.

Fixpoint cache_run (s : cache_sys) (es : list cache_event) : option cache_sys :=
  match es with
  | [] => Some s
  | e :: es' => s' ← cache_step s e; cache_run s' es'
  end.

Definition cache_sys_init (mb mf : Z) (en : bool) : cache_sys :=
  mkSys (FileCache_init mb mf en) Counters_init [] [] [] [] [].

(** Occurrences of a file in a list of reads. *)
Definition count_reads (f : str) (l : list str) : nat := length (filter (λ g, g = f) l).

(** Completed loads of a file in a history. *)
Fixpoint count_done (f : str) (es : list cache_event) : nat :=
  match es with
  | [] => 0
  | EDone g _ :: es' => (if decide (g = f) then 1 else 0) + count_done f es'
  | _ :: es' => count_done f es'
  end.

Lemma cache_request_cases f c st :
  (∃ d, dict_get f (c_entries c) = Some d ∧ c_enabled c = true ∧
     cache_request f c st = (Hit d, (cache_peek f c).2, bump cache_hits 1 st)) ∨
  (f ∈ c_inflight c ∧ cache_request f c st = (Joined, c, st)) ∨
  ((f ∉ c_inflight c) ∧ cache_request f c st = (Started, set_inflight c (c_inflight c ++ [f]), st)).
Proof.
  unfold cache_request, cache_peek. destruct (c_enabled c) eqn:He.
  - destruct (dict_get f (c_entries c)) as [d|] eqn:Hg; [left; eauto|].
    case_decide; [right; left; eauto|right; right; eauto].
  - case_decide; [right; left; eauto|right; right; eauto].
Qed.

Lemma cache_load_done_inflight f r c st :
  c_inflight (cache_load_done f r c st).1.2 = filter (λ g, g ≠ f) (c_inflight c).
Proof.
  unfold cache_load_done, cache_store.
  destruct r as [[data|]|]; cbn; [|done..]. destruct (c_enabled c && _); [|done].
  destruct (dict_get f _); destruct (evict _ _ _); done.
Qed.

Lemma cache_invalidate_inflight f c : c_inflight (cache_invalidate f c) = c_inflight c.
Proof. unfold cache_invalidate. destruct f; [|done]. by destruct (dict_get _ _). Qed.

Lemma cache_update_inflight mb mf en c : c_inflight (cache_update mb mf en c) = c_inflight c.
Proof. by destruct en. Qed.

(** Reads started, loads completed and loads in flight balance, file by file. *)
Definition coalesced (s : cache_sys) (done : str → nat) : Prop :=
  NoDup (c_inflight (s_cache s)) ∧
  ∀ f, count_reads f (s_reads s)
       = (done f + if decide (f ∈ c_inflight (s_cache s)) then 1 else 0)%nat.

Lemma coalesced_step s e s' done :
  cache_step s e = Some s' → coalesced s done →
  coalesced s' (λ f, done f + match e with EDone g _ => if decide (g = f) then 1 else 0 | _ => 0 end)%nat.
Proof.
  intros Hs [Hnd Hc]. destruct e as [cl f|f r|cl f|o|mb mf en]; cbn in Hs.
  - destruct (cache_request_cases f (s_cache s) (s_stats s))
      as [(d & Hg & _ & E)|[[Hin E]|[Hni E]]]; rewrite E in Hs; [|destruct (decide (f ∈ s_dead s))|]; injection Hs as <-; cbn.
    + assert (c_inflight (cache_peek f (s_cache s)).2 = c_inflight (s_cache s)) as Hi
        by (unfold cache_peek; by rewrite Hg).
      split; cbn [s_reads s_cache]; rewrite Hi; [done|]. intros g. rewrite Hc. lia.
    + split; [done|]. intros g. cbn [s_reads s_cache]. rewrite Hc. lia.
    + split; [done|]. intros g. cbn [s_reads s_cache]. rewrite Hc. lia.
    + split; cbn [s_reads s_cache c_inflight set_inflight].
      { apply NoDup_app. split_and!; [done| |apply NoDup_singleton].
        intros x Hx ->%list_elem_of_singleton. done. }
      intros g. unfold count_reads in *. rewrite filter_app, length_app, Hc.
      rewrite filter_cons, filter_nil.
      destruct (decide (f = g)) as [<-|Hne].
      * rewrite decide_False by done. rewrite decide_True by set_solver. cbn. lia.
      * rewrite (decide_ext (g ∈ c_inflight (s_cache s) ++ [f]) (g ∈ c_inflight (s_cache s)))
          by set_solver. cbn. lia.
  - case_decide as Hin; [|done]. pose proof (cache_load_done_inflight f r (s_cache s) (s_stats s)) as Hi.
    destruct (cache_load_done f r _ _) as [[out c] st]. injection Hs as <-. cbn in Hi |- *.
    split; cbn [s_reads s_cache]; rewrite Hi; [by apply NoDup_filter|]. intros g. rewrite Hc.
    destruct (decide (f = g)) as [<-|Hne].
    + rewrite decide_True by done. rewrite decide_False; [lia|].
      rewrite list_elem_of_filter. naive_solver.
    + rewrite (decide_ext (g ∈ filter _ _) (g ∈ c_inflight (s_cache s))); [lia|].
      rewrite list_elem_of_filter. naive_solver.
  - case_decide; [|done]. injection Hs as <-. split; [done|]. intros g. cbn [s_reads s_cache]. rewrite Hc. lia.
  - injection Hs as <-. split; cbn [s_reads s_cache]; rewrite cache_invalidate_inflight; [done|].
    intros g. rewrite Hc. lia.
  - injection Hs as <-. split; cbn [s_reads s_cache]; rewrite cache_update_inflight; [done|].
    intros g. rewrite Hc. lia.
Qed.

Lemma coalesced_run s es s' done :
  cache_run s es = Some s' → coalesced s done →
  coalesced s' (λ f, done f + count_done f es)%nat.
Proof.
  revert s done. induction es as [|e es IH]; intros s done Hr Hc; cbn in Hr.
  - injection Hr as <-. destruct Hc as [Hnd Hc]. split; [done|]. intros f. rewrite Hc. cbn. lia.
  - destruct (cache_step s e) as [s1|] eqn:Hs; [|done]. cbn in Hr.
    eapply coalesced_step in Hc; [|done]. eapply IH in Hr as [Hnd Hcc]; [|done]. split; [done|].
    intros f. rewrite Hcc. destruct e; cbn [count_done]; lia.
Qed.

(** ** Preservation of the invariant *)

Lemma cache_invalidate_inv f c :
  cache_inv c → cache_inv (cache_invalidate f c) ∧ c_bytes (cache_invalidate f c) ≤ c_bytes c.
Proof.
  intros [Hnd Hb Hi]. pose proof (total_size_nonneg (c_entries c)).
  unfold cache_invalidate. destruct f as [f|].
  - destruct (dict_get f (c_entries c)) as [old|] eqn:Hg; [|split; [by split|lia]].
    split; [split; cbn [c_entries c_bytes c_inflight set_entries]|].
    + by apply dict_del_NoDup.
    + rewrite (total_size_del _ _ old) by done. lia.
    + done.
    + pose proof (zlen_nonneg old). cbn. lia.
  - split; [split; [apply NoDup_nil_2|done|done]|cbn; lia].
Qed.

Lemma cache_update_inv mb mf en c :
  cache_inv c → cache_inv (cache_update mb mf en c) ∧ c_bytes (cache_update mb mf en c) ≤ c_bytes c.
Proof.
  intros [Hnd Hb Hi]. pose proof (total_size_nonneg (c_entries c)).
  destruct en; (split; [split|cbn; lia]); cbn; try done. apply NoDup_nil_2.
Qed.

Lemma set_inflight_inv fl c : NoDup fl → cache_inv c → cache_inv (set_inflight c fl).
Proof. intros Hfl [Hnd Hb Hi]. by split. Qed.

Lemma cache_store_inflight f d c : c_inflight (cache_store f d c) = c_inflight c.
Proof. unfold cache_store. by destruct (dict_get f _); destruct (evict _ _ _). Qed.

Lemma cache_store_max f d c : c_max_bytes (cache_store f d c) = c_max_bytes c.
Proof. unfold cache_store. by destruct (dict_get f _); destruct (evict _ _ _). Qed.

Lemma cache_load_done_inv f r c st :
  let c' := (cache_load_done f r c st).1.2 in
  cache_inv c →
  cache_inv c' ∧ c_max_bytes c' = c_max_bytes c ∧
  (0 ≤ c_max_bytes c → c_bytes c ≤ c_max_bytes c → c_bytes c' ≤ c_max_bytes c).
Proof.
  intros c' Hc. assert (NoDup (filter (λ g, g ≠ f) (c_inflight c))) as Hnd
    by (apply NoDup_filter, Hc).
  subst c'. unfold cache_load_done. destruct r as [[data|]|]; cbn [fst snd];
    [|split_and!; [by apply set_inflight_inv|done|done]..].
  destruct (c_enabled c && _); cbn [fst snd]; [|split_and!; [by apply set_inflight_inv|done|done]].
  destruct (cache_store_inv f data c Hc) as [Hs Hle]. split_and!.
  - apply set_inflight_inv; [by rewrite cache_store_inflight|done].
  - apply cache_store_max.
  - intros Hp _. by apply Hle.
Qed.

(** The budget in force along a history that reloads the configuration only
    with the same [max_bytes]. *)
Definition keeps_budget (mb : Z) (e : cache_event) : Prop :=
  match e with EUpdate mb' _ _ => mb' = mb | _ => True end.

Definition within_budget (mb : Z) (c : FileCache) : Prop :=
  c_max_bytes c = mb ∧ c_bytes c ≤ mb.

Lemma cache_step_inv s e s' :
  cache_step s e = Some s' → cache_inv (s_cache s) →
  cache_inv (s_cache s') ∧
  ∀ mb, 0 ≤ mb → keeps_budget mb e → within_budget mb (s_cache s) → within_budget mb (s_cache s').
Proof.
  intros Hs Hc. destruct e as [cl f|f r|cl f|o|mb' mf en]; cbn in Hs.
  - destruct (cache_request_cases f (s_cache s) (s_stats s))
      as [(d & Hg & _ & E)|[[Hin E]|[Hni E]]]; rewrite E in Hs; [|destruct (decide (f ∈ s_dead s))|]; injection Hs as <-;
      cbn [s_cache].
    + split; [by apply cache_peek_inv|]. intros mb _ _. unfold cache_peek. by rewrite Hg.
    + done.
    + done.
    + split; [|done]. apply set_inflight_inv; [|done]. apply NoDup_app.
      split_and!; [apply Hc| |apply NoDup_singleton].
      by intros x Hx ->%list_elem_of_singleton.
  - case_decide; [|done]. pose proof (cache_load_done_inv f r (s_cache s) (s_stats s) Hc) as Hi.
    destruct (cache_load_done f r _ _) as [[out c] st]. injection Hs as <-.
    destruct Hi as (Hi & Hm & Hb). split; [done|]. intros mb Hmb _ [Hm1 Hb1].
    cbn [fst snd] in Hm, Hb. unfold within_budget. cbn [s_cache].
    rewrite Hm, Hm1 in *. split; [done|]. by apply Hb.
  - case_decide; [|done]. by injection Hs as <-.
  - injection Hs as <-. destruct (cache_invalidate_inv o _ Hc) as [Hi Hle]. split; [done|].
    intros mb _ _ [Hm1 Hb1]. split; [|cbn in *; lia]. rewrite <- Hm1. cbn.
    unfold cache_invalidate. destruct o; [|done]. by destruct (dict_get _ _).
  - injection Hs as <-. destruct (cache_update_inv mb' mf en _ Hc) as [Hi Hle]. split; [done|].
    intros mb _ Hk [Hm1 Hb1]. cbn in Hk. split; cbn in *; [|lia]. by destruct en.
Qed.

Lemma cache_init_inv mb mf en : cache_inv (s_cache (cache_sys_init mb mf en)).
Proof. split; [apply NoDup_nil_2|done|apply NoDup_nil_2]. Qed.

Lemma cache_run_ind (P : cache_sys → Prop) (Q : cache_event → Prop) s es s' :
  (∀ s e s', cache_step s e = Some s' → Q e → P s → P s') →
  cache_run s es = Some s' → Forall Q es → P s → P s'.
Proof.
  intros Hstep. revert s. induction es as [|e es IH]; intros s Hr HQ HP; cbn in Hr.
  - by injection Hr as <-.
  - apply Forall_cons in HQ as [He HQ]. destruct (cache_step s e) as [s1|] eqn:Hs; [|done].
    cbn in Hr. by eapply IH; [| |eapply Hstep].
Qed.

(** [C31] Whatever requests, load completions, invalidations and reloads
    happen, and in whatever order, the byte counter the web panel shows is the
    sum of the sizes of the cached files, no file is cached twice, and the
    cache never holds more than its byte budget as long as reloads keep that
    budget. *)
Theorem cache_budget mb mf en es s :
  0 ≤ mb →
  cache_run (cache_sys_init mb mf en) es = Some s →
  Forall (keeps_budget mb) es →
  NoDup (dict_keys (c_entries (s_cache s))) ∧
  c_bytes (s_cache s) = total_size (c_entries (s_cache s)) ∧
  c_bytes (s_cache s) ≤ mb.
Proof.
  intros Hmb Hr HQ.
  apply (cache_run_ind (λ s, cache_inv (s_cache s) ∧ within_budget mb (s_cache s))
           (keeps_budget mb)) in Hr as [[Hnd Hb _] [_ Hle]]; [done| |done|].
  - intros s1 e s2 Hs He [Hi Hw]. destruct (cache_step_inv _ _ _ Hs Hi) as [Hi' Hw']. eauto.
  - split; [apply cache_init_inv|by split].
Qed.

Lemma cache_budget_witness :
  let es := [ERequest 1 (u "a"); EDone (u "a") (Ok (Some [1; 2; 3]));
             ERequest 2 (u "b"); EDone (u "b") (Ok (Some [4; 5; 6])); EUpdate 5 9 true] in
  ∃ s, cache_run (cache_sys_init 5 4 true) es = Some s ∧
       c_entries (s_cache s) = [(u "b", [4; 5; 6])] ∧ c_bytes (s_cache s) ≤ 5.
Proof.
  intros es. eexists. split; [vm_compute; reflexivity|]. split; [reflexivity|].
  refine (proj2 (proj2 (cache_budget 5 4 true es _ _ _ _)));
    [lia|vm_compute; reflexivity|repeat constructor].
Defined.

(** ** Least recently used first *)

(** The cached files in the order of use, oldest first, once the file being
    stored has become the newest. *)
Definition use_order (f : str) (data : bytes) (c : FileCache) : list (str * bytes) :=
  move_to_end f data (c_entries c).

(** [_store] evicts in least-recently-used order and no more than
    needed: the entries it leaves are a suffix of the use order ending in the
    new file, they fit the budget, and every longer suffix would not. *)
Theorem cache_store_lru f data c :
  cache_inv c → 0 ≤ c_max_bytes c →
  ∃ gone, use_order f data c = gone ++ c_entries (cache_store f data c) ∧
    total_size (c_entries (cache_store f data c)) ≤ c_max_bytes c ∧
    ∀ g1 x g2, gone = g1 ++ x :: g2 →
      c_max_bytes c < total_size (x :: g2 ++ c_entries (cache_store f data c)).
Proof.
  intros [Hnd Hb _] Hm. unfold use_order, move_to_end, cache_store.
  destruct (dict_get f (c_entries c)) as [old|] eqn:Hg.
  - pose proof (total_size_del _ _ _ Hg) as Hd.
    pose proof (evict_spec (c_max_bytes c) (dict_del f (c_entries c) ++ [(f, data)])
      (c_bytes c - zlen old + zlen data)) as He.
    destruct (evict _ _ _) as [es' used'].
    destruct He as (-> & Hle & gone & Heq & Hmin); [rewrite total_size_app; cbn; lia|].
    exists gone. cbn [c_entries set_entries]. auto.
  - rewrite dict_del_notin by done.
    pose proof (evict_spec (c_max_bytes c) (c_entries c ++ [(f, data)])
      (c_bytes c + zlen data)) as He.
    destruct (evict _ _ _) as [es' used'].
    destruct He as (-> & Hle & gone & Heq & Hmin); [rewrite total_size_app; cbn; lia|].
    exists gone. cbn [c_entries set_entries]. auto.
Qed.

Lemma cache_store_lru_witness :
  let c := mkCache 5 9 true [(u "a", [1; 2]); (u "b", [3; 4])] 4 [] in
  c_entries (cache_store (u "c") [5; 6] c) = [(u "b", [3; 4]); (u "c", [5; 6])] ∧
  ∃ gone, use_order (u "c") [5; 6] c = gone ++ c_entries (cache_store (u "c") [5; 6] c).
Proof.
  intros c. split; [vm_compute; reflexivity|].
  destruct (cache_store_lru (u "c") [5; 6] c) as (gone & Hg & _).
  - split; [apply (bool_decide_unpack _); vm_compute; exact I|reflexivity|apply NoDup_nil_2].
  - vm_compute. discriminate.
  - by exists gone.
Defined.

(** ** One read per load, and every request answered *)

(** Clients suspended on a load wait for one that is in flight. *)
Definition waiters_ok (s : cache_sys) : Prop :=
  ∀ w, w ∈ s_waiting s → w.2 ∈ c_inflight (s_cache s).

Lemma waiters_step s e s' : cache_step s e = Some s' → True → waiters_ok s → waiters_ok s'.
Proof.
  intros Hs _ Hw. destruct e as [cl f|f r|cl f|o|mb mf en]; cbn in Hs.
  - destruct (cache_request_cases f (s_cache s) (s_stats s))
      as [(d & Hg & _ & E)|[[Hin E]|[Hni E]]]; rewrite E in Hs; [|destruct (decide (f ∈ s_dead s))|]; injection Hs as <-;
      intros w Hin'; cbn [s_cache s_waiting] in *.
    + unfold cache_peek. rewrite Hg. by apply Hw.
    + by apply Hw.
    + apply elem_of_app in Hin' as [?| ->%list_elem_of_singleton]; [by apply Hw|done].
    + apply elem_of_app. apply elem_of_app in Hin' as [?| ->%list_elem_of_singleton];
        [left; by apply Hw|right; by apply list_elem_of_singleton].
  - case_decide; [|done]. pose proof (cache_load_done_inflight f r (s_cache s) (s_stats s)) as Hi.
    destruct (cache_load_done f r _ _) as [[out c] st]. injection Hs as <-.
    intros w [Hne Hin]%list_elem_of_filter. cbn [s_cache fst snd] in *. rewrite Hi.
    apply list_elem_of_filter. split; [done|by apply Hw].
  - case_decide; [|done]. injection Hs as <-. intros w [_ Hin]%list_elem_of_filter. by apply Hw.
  - injection Hs as <-. intros w Hin. cbn [s_cache] in *. rewrite cache_invalidate_inflight. by apply Hw.
  - injection Hs as <-. intros w Hin. cbn [s_cache] in *. rewrite cache_update_inflight. by apply Hw.
Qed.

(** Requests for a file in a history. *)
Fixpoint count_asked (f : str) (es : list cache_event) : nat :=
  match es with
  | [] => 0
  | ERequest _ g :: es' => (if decide (g = f) then 1 else 0) + count_asked f es'
  | _ :: es' => count_asked f es'
  end.

(** The requests for a file that were answered, wait, or were cancelled. *)
Definition accounted (f : str) (s : cache_sys) : nat :=
  count_reads f (map (λ g, g.1.2) (s_given s)) + count_reads f (map snd (s_waiting s))
  + count_reads f (map snd (s_cancelled s)).

Lemma count_reads_app f l1 l2 : count_reads f (l1 ++ l2) = (count_reads f l1 + count_reads f l2)%nat.
Proof. unfold count_reads. by rewrite filter_app, length_app. Qed.

Lemma count_reads_one f g : count_reads f [g] = if decide (g = f) then 1%nat else 0%nat.
Proof. unfold count_reads. rewrite filter_cons, filter_nil. by case_decide. Qed.

Lemma count_reads_cons f g l : count_reads f (g :: l) = ((if decide (g = f) then 1 else 0) + count_reads f l)%nat.
Proof. change (g :: l) with ([g] ++ l). by rewrite count_reads_app, count_reads_one. Qed.

(** The waiters of a file and the others. *)
Lemma count_waiters f g (ws : list (Z * list Z)) :
  count_reads g (map snd (filter (λ w, w.2 = f) ws)) = (if decide (f = g) then count_reads g (map snd ws) else 0)%nat ∧
  count_reads g (map snd (filter (λ w, w.2 ≠ f) ws)) = (if decide (f = g) then 0 else count_reads g (map snd ws))%nat.
Proof.
  induction ws as [|[cl h] ws [IH1 IH2]]; [split; by case_decide|].
  rewrite !filter_cons. cbn [map snd]. rewrite count_reads_cons.
  destruct (decide (h = f)) as [->|Hne].
  - rewrite (decide_False (P := f ≠ f)) by auto. cbn [map snd]. rewrite count_reads_cons, IH1, IH2. by repeat case_decide.
  - rewrite (decide_True (P := h ≠ f)) by done. cbn [map snd]. rewrite count_reads_cons, IH1, IH2.
    split; repeat case_decide; congruence || lia.
Qed.

Lemma accounted_step s e s' f :
  cache_step s e = Some s' → accounted f s' = (accounted f s + count_asked f [e])%nat.
Proof.
  unfold accounted. intros Hs. destruct e as [cl g|g r|cl g|o|mb mf en]; cbn in Hs |- *.
  - destruct (cache_request_cases g (s_cache s) (s_stats s))
      as [(d & Hg & _ & E)|[[Hin E]|[Hni E]]]; rewrite E in Hs; [|destruct (decide (g ∈ s_dead s))|];
      injection Hs as <-; cbn [s_given s_waiting s_cancelled]; rewrite map_app, count_reads_app; cbn [map fst snd];
      rewrite count_reads_one; lia.
  - case_decide; [|done]. destruct (cache_load_done g r _ _) as [[out c] st]. injection Hs as <-.
    cbn [s_given s_waiting s_cancelled]. rewrite map_app, count_reads_app, map_map. cbn [fst snd].
    destruct (count_waiters g f (s_waiting s)) as [H1 H2]. rewrite H2.
    change (λ x, x.2) with (@snd Z (list Z)). rewrite H1. case_decide; lia.
  - case_decide; [|done]. injection Hs as <-. cbn [s_given s_waiting s_cancelled]. rewrite map_app, count_reads_app.
    destruct (count_waiters g f (s_waiting s)) as [H1 H2]. rewrite H1, H2. case_decide; lia.
  - injection Hs as <-. cbn [s_given s_waiting s_cancelled]. lia.
  - injection Hs as <-. cbn [s_given s_waiting s_cancelled]. lia.
Qed.

Lemma accounted_run s es s' f : cache_run s es = Some s' → accounted f s' = (accounted f s + count_asked f es)%nat.
Proof.
  revert s. induction es as [|e es IH]; intros s Hr; cbn in Hr; [injection Hr as <-; cbn; lia|].
  destruct (cache_step s e) as [s1|] eqn:Hs; [|done]. cbn in Hr. rewrite (IH _ Hr), (accounted_step _ _ _ _ Hs).
  destruct e; cbn; lia.
Qed.

(** A future is cancelled by a client that waits for it, and by nothing else. *)
Definition spares (f : str) (e : cache_event) : Prop :=
  match e with ECancel _ g => g ≠ f | _ => True end.

Definition unharmed (f : str) (s : cache_sys) : Prop :=
  (f ∉ s_dead s) ∧ f ∉ map snd (s_cancelled s).

Lemma unharmed_step f s e s' : cache_step s e = Some s' → spares f e → unharmed f s → unharmed f s'.
Proof.
  intros Hs He [H1 H2]. unfold unharmed. destruct e as [cl g|g r|cl g|o|mb mf en]; cbn in Hs, He.
  - destruct (cache_request_cases g (s_cache s) (s_stats s))
      as [(d & Hg & _ & E)|[[Hin E]|[Hni E]]]; rewrite E in Hs; [|destruct (decide (g ∈ s_dead s)) as [Hd|]|];
      injection Hs as <-; cbn [s_dead s_cancelled]; [done| |done..]. split; [done|]. rewrite map_app.
    intros [?|Hx]%elem_of_app; [done|]. apply list_elem_of_singleton in Hx. by subst.
  - case_decide; [|done]. destruct (cache_load_done g r _ _) as [[out c] st]. injection Hs as <-. cbn.
    split; [|done]. by intros [_ ?]%list_elem_of_filter.
  - case_decide; [|done]. injection Hs as <-. cbn [s_dead s_cancelled]. split.
    + intros [?|Hx%list_elem_of_singleton]%elem_of_app; [done|by subst].
    + rewrite map_app. intros [?|Hx]%elem_of_app; [done|]. apply list_elem_of_fmap in Hx as ([c h] & -> & [Hh _]%list_elem_of_filter).
      by cbn in Hh; subst.
  - by injection Hs as <-.
  - by injection Hs as <-.
Qed.

(** [C30] Concurrent requests coalesce and none is lost: in every history the
    source has been read exactly once per completed load of the file plus once
    for the load in flight, if there is one, however many clients asked; every
    request for the file was answered, or waits for the load in flight, or was
    cancelled, and the last only when a client waiting for this very file was
    cancelled. *)
Theorem cache_coalesces mb mf en es s f :
  cache_run (cache_sys_init mb mf en) es = Some s →
  count_reads f (s_reads s)
    = (count_done f es + if decide (f ∈ c_inflight (s_cache s)) then 1 else 0)%nat ∧
  count_asked f es = accounted f s ∧
  (f ∉ c_inflight (s_cache s) → ∀ cl, (cl, f) ∉ s_waiting s) ∧
  (Forall (spares f) es → f ∉ map snd (s_cancelled s)).
Proof.
  intros Hr. split_and!.
  - apply (coalesced_run _ _ _ (λ _, 0%nat)) in Hr as [_ Hc]; [by rewrite Hc|].
    split; [apply NoDup_nil_2|]. intros g. reflexivity.
  - by rewrite (accounted_run _ _ _ f Hr).
  - assert (waiters_ok s) as Hw.
    { eapply (cache_run_ind waiters_ok (λ _, True)); [apply waiters_step|done| |].
      - by apply Forall_forall.
      - intros w Hin. by apply not_elem_of_nil in Hin. }
    intros Hni cl Hin. by apply Hni, (Hw (cl, f)).
  - intros Hsp. eapply (cache_run_ind (unharmed f) (spares f)); [apply unharmed_step|done|done|].
    split; apply not_elem_of_nil.
Qed.

Lemma cache_coalesces_witness :
  let es := [ERequest 1 (u "fw"); ERequest 2 (u "fw"); ERequest 3 (u "fw");
             EDone (u "fw") (Ok (Some [7])); ERequest 4 (u "fw")] in
  ∃ s, cache_run (cache_sys_init 10 10 true) es = Some s ∧
       length (s_given s) = 4%nat ∧ count_reads (u "fw") (s_reads s) = 1%nat ∧
       accounted (u "fw") s = 4%nat.
Proof.
  intros es. eexists. split; [vm_compute; reflexivity|]. split; [reflexivity|]. split; [|vm_compute; reflexivity].
  refine (eq_trans (proj1 (cache_coalesces 10 10 true es _ (u "fw") _)) _);
    vm_compute; reflexivity.
Defined.

(** ** Transparency *)

Section transparent.
Variable src : list Z → pyres (option (list Z)).

(** The loads of the history return what the source holds. *)
Definition loads_from (e : cache_event) : Prop :=
  match e with EDone f r => r = src f | _ => True end.

(** What a client reading the source directly would get. *)
Definition direct_read (f : str) : option bytes :=
  match src f with Ok o => o | Raise _ => None end.

Definition agrees (s : cache_sys) : Prop :=
  (∀ f d, (f, d) ∈ c_entries (s_cache s) → src f = Ok (Some d)) ∧
  (∀ cl f o, (cl, f, o) ∈ s_given s → o = direct_read f).

Lemma elem_of_dict_del (f g : str) (d : bytes) es : (g, d) ∈ dict_del f es → (g, d) ∈ es.
Proof.
  induction es as [|[k v] es IH]; cbn; [done|]. case_decide; [by right|].
  rewrite !elem_of_cons. intuition.
Qed.

Lemma store_entries f data c g d :
  cache_inv c →
  (g, d) ∈ c_entries (cache_store f data c) → (g, d) ∈ c_entries c ∨ (g, d) = (f, data).
Proof.
  intros [Hnd Hb Hi]. unfold cache_store.
  destruct (match dict_get f (c_entries c) with Some old => _ | None => _ end) as [es used] eqn:E.
  assert (∀ x, x ∈ es → x ∈ c_entries c) as Hsub.
  { intros [k v]. destruct (dict_get f (c_entries c)); injection E as <- <-; [|done].
    apply elem_of_dict_del. }
  assert (used = total_size es) as Hu.
  { destruct (dict_get f (c_entries c)) as [old|] eqn:Hg; injection E as <- <-; [|done].
    rewrite (total_size_del _ _ old) by done. lia. }
  pose proof (evict_spec (c_max_bytes c) (es ++ [(f, data)]) (used + zlen data)) as He.
  destruct (evict _ _ _) as [es' used'].
  destruct He as (_ & _ & gone & Heq & _); [rewrite total_size_app; cbn; lia|].
  cbn [c_entries set_entries]. intros Hin.
  assert ((g, d) ∈ es ++ [(f, data)]) as Hin' by (rewrite Heq; apply elem_of_app; by right).
  apply elem_of_app in Hin' as [?|?%list_elem_of_singleton]; [left; by apply Hsub|by right].
Qed.

Lemma agrees_step s e s' :
  cache_step s e = Some s' → loads_from e →
  cache_inv (s_cache s) ∧ agrees s → cache_inv (s_cache s') ∧ agrees s'.
Proof.
  intros Hs He [Hi [Ha Hg]]. split; [by eapply cache_step_inv|].
  destruct e as [cl f|f r|cl f|o|mb mf en]; cbn in Hs.
  - destruct (cache_request_cases f (s_cache s) (s_stats s))
      as [(d & Hd & _ & E)|[[Hin E]|[Hni E]]]; rewrite E in Hs; [|destruct (decide (f ∈ s_dead s))|]; injection Hs as <-;
      [|by split..].
    apply dict_get_Some_in in Hd as Hd'. split; cbn [s_cache s_given].
    + unfold cache_peek. rewrite Hd. cbn [snd c_entries set_entries]. unfold move_to_end.
      intros g x Hin. apply elem_of_app in Hin as [Hx|Hx].
      * by eapply Ha, elem_of_dict_del.
      * apply list_elem_of_singleton in Hx as [= -> ->]. by apply Ha.
    + intros c' g x Hin. apply elem_of_app in Hin as [Hx|Hx]; [by eapply Hg|].
      apply list_elem_of_singleton in Hx as [= -> -> ->]. unfold direct_read. by rewrite (Ha _ _ Hd').
  - case_decide; [|done]. cbn in He. subst r.
    destruct (cache_load_done f (src f) _ _) as [[out c] st] eqn:E. injection Hs as <-.
    assert (out = direct_read f ∧ ∀ g d, (g, d) ∈ c_entries c → src g = Ok (Some d)) as [-> Hc].
    { unfold cache_load_done, direct_read in *. destruct (src f) as [[data|]|ex] eqn:Hsrc;
        injection E as <- <- <-; (split; [done|]); [|exact Ha..]. cbn [set_inflight c_entries].
      destruct (c_enabled _ && _); [|exact Ha]. intros g d Hin.
      apply store_entries in Hin as [?|Heq]; [by apply Ha|congruence|done]. }
    split; [exact Hc|]. cbn [s_given]. intros cl g o [Hx|Hx]%elem_of_app; [by eapply Hg|].
    apply list_elem_of_fmap in Hx as ([cl' g'] & Heq & Hf).
    apply list_elem_of_filter in Hf as [Hf _]. cbn in Hf, Heq. congruence.
  - case_decide; [|done]. by injection Hs as <-.
  - injection Hs as <-. split; [|exact Hg]. cbn [s_cache]. intros g d Hin. apply Ha.
    unfold cache_invalidate in Hin. destruct o as [f|]; [|by apply not_elem_of_nil in Hin].
    destruct (dict_get f _); [|done]. exact (elem_of_dict_del f g d _ Hin).
  - injection Hs as <-. split; [|exact Hg]. cbn [s_cache]. intros g d Hin. apply Ha.
    destruct en; [done|]. by apply not_elem_of_nil in Hin.
Qed.

(** [C29] The cache is transparent while the source does not change: every
    client, whether it hit the cache, joined a load or started one, is given
    what reading the source itself gives (nothing when the read fails), and
    everything cached is what the source holds. *)
Theorem cache_transparent mb mf en es s :
  cache_run (cache_sys_init mb mf en) es = Some s →
  Forall loads_from es →
  (∀ cl f o, (cl, f, o) ∈ s_given s → o = direct_read f) ∧
  (∀ f d, dict_get f (c_entries (s_cache s)) = Some d → src f = Ok (Some d)).
Proof.
  intros Hr HQ.
  apply (cache_run_ind (λ s, cache_inv (s_cache s) ∧ agrees s) loads_from) in Hr as [_ [Ha Hg]];
    [|exact agrees_step|done|].
  - split; [done|]. intros f d Hd. by apply Ha, dict_get_Some_in.
  - split; [apply cache_init_inv|]. split; cbn; set_solver.
Qed.
End transparent.

Lemma cache_transparent_witness :
  let src := λ f, if decide (f = u "fw") then Ok (Some [7; 8]) else Ok None in
  let es := [ERequest 1 (u "fw"); ERequest 2 (u "fw"); EDone (u "fw") (Ok (Some [7; 8]));
             ERequest 3 (u "fw"); ERequest 4 (u "no"); EDone (u "no") (Ok None)] in
  ∃ s, cache_run (cache_sys_init 10 10 true) es = Some s ∧ length (s_given s) = 4%nat ∧
       ∀ cl o, (cl, u "fw", o) ∈ s_given s → o = Some [7; 8].
Proof.
  intros src es. eexists. split; [vm_compute; reflexivity|]. split; [reflexivity|].
  intros cl o Hin. refine (proj1 (cache_transparent src 10 10 true es _ _ _) cl (u "fw") o Hin).
  - vm_compute. reflexivity.
  - repeat constructor; vm_compute; reflexivity.
Defined.

(** [update] keeps every cached file when only the budget shrinks: the cache
    stays over the new budget until the next store. *)
Lemma cache_update_keeps_overflow :
  ∃ s, cache_run (cache_sys_init 10 10 true)
         [ERequest 1 (u "fw"); EDone (u "fw") (Ok (Some [1; 2; 3])); EUpdate 2 2 true;
          ERequest 2 (u "fw")] = Some s ∧
       c_max_bytes (s_cache s) = 2 ∧ c_bytes (s_cache s) = 3 ∧ length (s_given s) = 2%nat.
Proof. eexists. split_and!; [vm_compute; reflexivity|reflexivity..]. Qed.

(** One client that is cancelled while it waits takes the other clients of the
    same file with it, also one that asks later: they are cancelled, not
    answered, although the load succeeds and the file is cached. *)
Lemma cancelled_waiter_cancels_all :
  ∃ s, cache_run (cache_sys_init 10 10 true)
         [ERequest 1 (u "fw"); ERequest 2 (u "fw"); ECancel 1 (u "fw"); ERequest 3 (u "fw");
          EDone (u "fw") (Ok (Some [1; 2; 3]))] = Some s ∧
       s_given s = [] ∧ map fst (s_cancelled s) = [1; 2; 3] ∧
       dict_get (u "fw") (c_entries (s_cache s)) = Some [1; 2; 3].
Proof. eexists. split_and!; [vm_compute; reflexivity|reflexivity..]. Qed.
