(* ===== verification/Paths.v ===== *)
(** * Paths under a root (src/tftp/session.py, src/files/ftp_source.py,
    src/files/local_source.py, src/web/app.py)

    The functions that turn a name chosen by a client into a path on the
    server.  The operating system's path functions are a class: on Windows
    [os.path.abspath] asks the system. *)

From S2P Require Import Prelude Python Wire.
Open Scope Z_scope.

Definition SLASH : Z := 47.
Definition BACKSLASH : Z := 92.

(** [os.path.abspath], [os.path.join] of two paths and [os.sep]. *)
Class OsPath := {
  os_abspath : list Z → list Z;
  os_join : list Z → list Z → list Z;
  os_sep : list Z;
}.

(** [filename.replace("\\", "/").lstrip("/")]. *)
Definition cleaned_name (filename : str) : str := lstrip SLASH (replace_chr BACKSLASH SLASH filename).

Definition dotdot : str := u "..".

(** [any(part == ".." for part in cleaned.split("/"))]. *)
Definition has_dotdot (cleaned : str) : bool :=
  existsb (λ p, bool_decide (p = dotdot)) (split_on SLASH cleaned).

(** [joined == root_abs or joined.startswith(root_abs + os.sep)]. *)
Definition under `{OsPath} (root p : str) : bool :=
  bool_decide (p = root) || starts_with (root ++ os_sep) p.

(** [_safe_join]. *)
Definition safe_join `{OsPath} (root filename : str) : pyres str :=
  let cleaned := cleaned_name filename in
  if has_dotdot cleaned then Raise (TFTPError ERR_ACCESS (u "path traversal rejected"))
  else
    let joined := os_abspath (os_join root cleaned) in
    if under (os_abspath root) joined then Ok joined
    else Raise (TFTPError ERR_ACCESS (u "path escapes write root")).

(** [FtpSource._join]. *)
Definition ftp_join (root filename : str) : pyres str :=
  let cleaned := cleaned_name filename in
  if has_dotdot cleaned then Raise (ValueError (u "path traversal rejected"))
  else
    let root := rstrip SLASH root in
    Ok (root ++ [SLASH] ++ cleaned).

(** [_safe_target] of the web panel, given the root of the tree: the absolute
    base and target, or status 400. *)
Definition safe_target `{OsPath} (root rel : str) : option (str * str) :=
  let base := os_abspath root in
  let target := os_abspath (os_join base (cleaned_name rel)) in
  if under base target then Some (base, target) else None.

(** The test [_browse_dir] makes before it lists a directory. *)
Definition browse_ok `{OsPath} (root sub_path : str) : bool :=
  let base := os_abspath root in
  starts_with base (os_abspath (os_join base sub_path)).

(** ** Containment *)

Lemma starts_with_app p s : starts_with p s = true ↔ ∃ r, s = p ++ r.
Proof.
  revert s. induction p as [|a p IH]; intros s; cbn.
  - split; [by exists s|done].
  - destruct s as [|b s]; [split; [done|by intros (? & ?)]|].
    rewrite andb_true_iff, IH, Z.eqb_eq. split.
    + intros [-> (r & ->)]. by exists r.
    + intros (r & [= -> ->]). eauto.
Qed.

Lemma split_on_app_sep c a b : split_on c (a ++ c :: b) = split_on c a ++ split_on c b.
Proof.
  induction a as [|x a IH]; cbn; [by rewrite Z.eqb_refl|].
  destruct (x =? c); [by rewrite IH|]. rewrite IH.
  assert (split_on c a ≠ []) as Hne.
  { destruct a as [|y a]; cbn; [done|]. destruct (y =? c); [done|]. by destruct (split_on c a). }
  by destruct (split_on c a).
Qed.

Lemma has_dotdot_spec s : has_dotdot s = true ↔ dotdot ∈ split_on SLASH s.
Proof.
  unfold has_dotdot. rewrite existsb_exists. split.
  - intros (p & Hp & Hd). apply bool_decide_eq_true_1 in Hd as ->. by apply list_elem_of_In.
  - intros Hd. exists dotdot. split; [by apply list_elem_of_In|]. by apply bool_decide_eq_true_2.
Qed.

(** [p] is the root or a path below it that never steps up. *)
Definition below (root p : str) : Prop :=
  p = root ∨ ∃ rest, p = root ++ BACKSLASH :: rest ∧ dotdot ∉ split_on BACKSLASH rest.

Section windows.
Context `{OsPath}.
(** Windows: the separator is a backslash, and [os.path.abspath] resolves every
    [".."]. *)
Hypothesis sep_backslash : os_sep = [BACKSLASH].
Hypothesis abspath_resolves : ∀ p, dotdot ∉ split_on BACKSLASH (os_abspath p).

Lemma under_below root p : under root (os_abspath p) = true → below root (os_abspath p).
Proof.
  unfold under. rewrite sep_backslash. intros Hu. apply orb_prop in Hu as [Hu|Hu].
  - apply bool_decide_eq_true_1 in Hu. by left.
  - apply starts_with_app in Hu as (r & Hr). right. exists r.
    rewrite <- app_assoc in Hr. cbn in Hr. split; [done|].
    pose proof (abspath_resolves p) as Hn. rewrite Hr, split_on_app_sep, not_elem_of_app in Hn. tauto.
Qed.

(** [C34] A name chosen by a TFTP client cannot leave the upload folder: either
    [_safe_join] refuses it with the TFTP error "access violation", as it does
    for every name with a ".." segment under either slash, or the path it
    returns is the folder itself or lies below it, with no step up. *)
Theorem safe_join_contained root filename :
  (dotdot ∈ split_on SLASH (replace_chr BACKSLASH SLASH filename) →
     safe_join root filename = Raise (TFTPError 2 (u "path traversal rejected"))) ∧
  match safe_join root filename with
  | Ok p => below (os_abspath root) p
  | Raise e => ∃ msg, e = TFTPError 2 msg
  end.
Proof.
  assert (∀ s, split_on SLASH (lstrip SLASH s) ⊆ split_on SLASH s ∧
    (dotdot ∈ split_on SLASH s → dotdot ∈ split_on SLASH (lstrip SLASH s))) as Hl.
  { intros s. induction s as [|x s [IH1 IH2]]; cbn [lstrip]; [done|].
    destruct (Z.eqb_spec x SLASH) as [->|Hx]; [|done]. cbn [split_on]. rewrite Z.eqb_refl. split.
    - intros y Hy. right. by apply IH1.
    - intros [Hd|Hd]%elem_of_cons; [discriminate Hd|by apply IH2]. }
  unfold safe_join, cleaned_name. split.
  - intros Hd%(proj2 (Hl _)). by apply has_dotdot_spec in Hd as ->.
  - destruct (has_dotdot _); [by eexists|].
    destruct (under _ _) eqn:Hu; [by apply under_below|by eexists].
Qed.

(** The same for the web panel's file endpoints. *)
Lemma safe_target_contained root rel base target :
  safe_target root rel = Some (base, target) → base = os_abspath root ∧ below base target.
Proof.
  unfold safe_target. destruct (under _ _) eqn:Hu; [|done]. intros [= <- <-].
  split; [done|]. by apply under_below.
Qed.
End windows.

(** A path on the FTP server stays below the configured root: the root, a
    slash, and a relative name without a ".." segment. *)
Lemma ftp_join_contained root filename p :
  ftp_join root filename = Ok p →
  ∃ rel, p = rstrip SLASH root ++ SLASH :: rel ∧ dotdot ∉ split_on SLASH rel.
Proof.
  unfold ftp_join. destruct (has_dotdot _) eqn:Hd; [done|]. intros [= <-].
  eexists. split; [reflexivity|]. rewrite <- has_dotdot_spec. by rewrite Hd.
Qed.

(** ** Lexical Windows paths *)

(** Resolves "." and ".." the way [ntpath.normpath] does below a drive. *)
Fixpoint norm_parts (acc parts : list str) : list str :=
  match parts with
  | [] => rev acc
  | p :: ps =>
      if decide (p = dotdot) then norm_parts (tail acc) ps
      else if decide (p = [] ∨ p = u ".") then norm_parts acc ps
      else norm_parts (p :: acc) ps
  end.

#[export] Instance lexical_paths : OsPath :=
  {| os_abspath p := join_with BACKSLASH (norm_parts [] (split_on BACKSLASH (replace_chr SLASH BACKSLASH p)));
     os_join a b := a ++ BACKSLASH :: b;
     os_sep := [BACKSLASH] |}.

Lemma norm_parts_ok acc parts :
  Forall (λ p, p ≠ dotdot ∧ BACKSLASH ∉ p) acc → Forall (λ p, BACKSLASH ∉ p) parts →
  Forall (λ p, p ≠ dotdot ∧ BACKSLASH ∉ p) (norm_parts acc parts).
Proof.
  revert acc. induction parts as [|p ps IH]; intros acc Ha Hp; cbn [norm_parts].
  - apply Forall_rev, Ha.
  - apply Forall_cons in Hp as [Hp Hps]. repeat case_decide; apply IH; auto.
    destruct Ha; [done|]. done.
Qed.

Lemma split_on_clean c s : Forall (λ p, c ∉ p) (split_on c s).
Proof.
  induction s as [|x s IH]; cbn; [repeat constructor; apply not_elem_of_nil|].
  destruct (Z.eqb_spec x c); [constructor; [apply not_elem_of_nil|done]|].
  destruct (split_on c s) as [|p ps].
  - repeat constructor. rewrite not_elem_of_cons. split; [done|apply not_elem_of_nil].
  - apply Forall_cons in IH as [Hp Hps]. constructor; [|done]. by apply not_elem_of_cons.
Qed.

Lemma split_join_clean c ps :
  Forall (λ p, p ≠ dotdot ∧ c ∉ p) ps → dotdot ∉ split_on c (join_with c ps).
Proof.
  assert (∀ p, c ∉ p → split_on c p = [p]) as Hnone.
  { induction p as [|x p IH]; [done|]. rewrite not_elem_of_cons. intros [Hx Hp]. cbn.
    destruct (Z.eqb_spec x c); [by subst|]. by rewrite IH. }
  induction 1 as [|p ps [Hd Hc] Hps IH]; [cbn; set_solver|].
  destruct ps as [|q qs]; cbn [join_with].
  - rewrite Hnone by done. set_solver.
  - rewrite split_on_app_sep, Hnone by done. rewrite not_elem_of_app. split; [set_solver|exact IH].
Qed.

Lemma lexical_resolves p : dotdot ∉ split_on BACKSLASH (os_abspath (OsPath := lexical_paths) p).
Proof. cbn. apply split_join_clean, norm_parts_ok; [constructor|apply split_on_clean]. Qed.

Lemma safe_join_contained_witness :
  (∀ p, dotdot ∉ split_on BACKSLASH (os_abspath (OsPath := lexical_paths) p)) ∧
  safe_join (u "C:\up") (u "lab\fw.bin") = Ok (u "C:\up\lab\fw.bin") ∧
  safe_join (u "C:\up") (u "..\..\x") = Raise (TFTPError 2 (u "path traversal rejected")) ∧
  match safe_join (u "C:\up") (u "lab\fw.bin") with
  | Ok p => below (os_abspath (u "C:\up")) p | Raise e => ∃ msg, e = TFTPError 2 msg end.
Proof.
  split; [exact lexical_resolves|]. split; [vm_compute; reflexivity|]. split.
  - apply (safe_join_contained (H := lexical_paths) eq_refl lexical_resolves (u "C:\up") (u "..\..\x")).
    apply (bool_decide_unpack _). vm_compute. exact I.
  - apply (safe_join_contained (H := lexical_paths) eq_refl lexical_resolves (u "C:\up") (u "lab\fw.bin")).
Defined.

(** The directory browser compares prefixes without a separator, so a sibling
    folder whose name extends the root's passes. *)
Lemma browse_reaches_sibling :
  browse_ok (u "C:\tftp_root") (u "..\tftp_root_private") = true ∧
  os_abspath (os_join (os_abspath (u "C:\tftp_root")) (u "..\tftp_root_private")) = u "C:\tftp_root_private".
Proof. split; vm_compute; reflexivity. Qed.
