(* ===== verification/Frame.v ===== *)
(** * Frames (src/network/packet_utils.py and the fast path of
    src/tftp/session.py)

    [parse] and the reply builders work on the layers scapy decodes, here the
    data type [ether]; the fast path assembles the bytes of a frame itself.
    [decode_frame] is an independent reading of the Ethernet II, 802.1Q, IPv4
    and UDP formats against which the fast path is checked. *)

From S2P Require Import Prelude Python Constants Wire.
Open Scope Z_scope.

(** ** Layers as scapy shows them *)

Inductive inner :=
| ICMP (type code : Z) (id seq : option Z) (payload : list Z)
| UDP (sport dport : Z) (len : option Z) (payload : list Z)
| OtherInner.

Inductive layer3 :=
| ARP (op : Z) (hwsrc psrc hwdst pdst : list Z)
| IP (src dst : list Z) (proto : Z) (ttl : Z) (payload : inner)
| OtherLayer.

Record dot1q := mkDot1q { dq_vlan : Z; dq_prio : Z; dq_id : Z }.

Record ether := mkEther {
  eth_src : list Z;
  eth_dst : list Z;
  eth_type : Z;
  eth_tag : option dot1q;
  eth_layer : layer3;
}.

(** What [ParsedPacket] holds besides the frame itself. *)
Inductive upper_layer :=
| UArp (op : Z) (spa tpa sha tha : list Z)
| UIcmp (type code id seq : Z) (payload : list Z)
| UUdp (sport dport : Z) (payload : list Z)
| UIpOther
| UOther.

Record ParsedPacket := mkParsed {
  p_eth_src : list Z;
  p_eth_dst : list Z;
  p_vlan_id : option Z;
  p_vlan_pcp : Z;
  p_vlan_dei : Z;
  p_ether_type : Z;
  p_ip_src : list Z;
  p_ip_dst : list Z;
  p_ip_proto : Z;
  p_upper : upper_layer;
}.

(** [raw_bytes[:udp_data_len]]: a zero or absent length field keeps all. *)
Definition udp_payload (len : option Z) (raw : bytes) : bytes :=
  match len with
  | None => raw
  | Some l => if l =? 0 then raw else py_slice raw 0 (Z.max 0 (l - 8))
  end.

(** [parse]; [None] is a packet without an Ethernet layer. *)
Definition parse (pkt : option ether) : option ParsedPacket :=
  match pkt with
  | None => None
  | Some eth =>
      let '(vid, pcp, dei) := match eth_tag eth with
                              | Some q => (Some (dq_vlan q), dq_prio q, dq_id q)
                              | None => (None, 0, 0)
                              end in
      let mk := mkParsed (eth_src eth) (eth_dst eth) vid pcp dei (eth_type eth) in
      Some (match eth_layer eth with
            | ARP op hwsrc psrc hwdst pdst => mk [] [] 0 (UArp op psrc pdst hwsrc hwdst)
            | IP src dst proto _ (ICMP ty code id seq payload) =>
                mk src dst proto (UIcmp ty code (default 0 id) (default 0 seq) payload)
            | IP src dst proto _ (UDP sport dport len payload) =>
                mk src dst proto (UUdp sport dport (udp_payload len payload))
            | IP src dst proto _ OtherInner => mk src dst proto UIpOther
            | OtherLayer => mk [] [] 0 UOther
            end)
  end.

Definition ETHERTYPE_ARP : Z := 0x0806.

(** [_vlan_wrap] over an Ethernet header; scapy fills in the type of the layer
    below. *)
Definition vlan_wrap (src_mac dst_mac : str) (vid : option Z) (pcp dei type : Z) (l : layer3) : ether :=
  match vid with
  | None => mkEther src_mac dst_mac type None l
  | Some v => mkEther src_mac dst_mac ETHERTYPE_DOT1Q (Some (mkDot1q v pcp dei)) l
  end.

Definition build_arp_reply (req : ParsedPacket) (our_mac our_ip : str) : ether :=
  let '(sha, spa) := match p_upper req with UArp _ spa _ sha _ => (sha, spa) | _ => ([], []) end in
  vlan_wrap our_mac (p_eth_src req) (p_vlan_id req) (p_vlan_pcp req) (p_vlan_dei req) ETHERTYPE_ARP
    (ARP 2 our_mac our_ip sha spa).

Definition build_icmp_echo_reply (req : ParsedPacket) (our_mac our_ip : str) : ether :=
  let '(id, seq, payload) := match p_upper req with
                             | UIcmp _ _ id seq payload => (id, seq, payload)
                             | _ => (0, 0, []) end in
  vlan_wrap our_mac (p_eth_src req) (p_vlan_id req) (p_vlan_pcp req) (p_vlan_dei req) ETHERTYPE_IPV4
    (IP our_ip (p_ip_src req) 1 IP_DEFAULT_TTL (ICMP 0 0 (Some id) (Some seq) payload)).

Definition build_udp_frame (dst_mac src_mac : str) (vid : option Z) (pcp dei : Z)
    (src_ip dst_ip : str) (sport dport : Z) (payload : bytes) : ether :=
  vlan_wrap src_mac dst_mac vid pcp dei ETHERTYPE_IPV4
    (IP src_ip dst_ip 17 IP_DEFAULT_TTL (UDP sport dport None payload)).

Definition build_udp_reply (req : ParsedPacket) (our_mac our_ip : str) (sport dport : Z) (payload : bytes) : ether :=
  vlan_wrap our_mac (p_eth_src req) (p_vlan_id req) (p_vlan_pcp req) (p_vlan_dei req) ETHERTYPE_IPV4
    (IP our_ip (p_ip_src req) 17 IP_DEFAULT_TTL (UDP sport dport None payload)).

(** ** The fast path *)

(** The characters [int(b, 16)] reads. *)
Definition hex_val (c : Z) : option Z :=
  if is_digit c then Some (c - 48)
  else if (97 <=? c) && (c <=? 102) then Some (c - 87)
  else if (65 <=? c) && (c <=? 70) then Some (c - 55)
  else None.

(** Hexadecimal digits with single underscores between them. *)
Fixpoint hex_digits (acc : Z) (s : str) : option Z :=
  match s with
  | [] => None
  | c :: s' =>
      v ← hex_val c;
      match s' with
      | [] => Some (acc * 16 + v)
      | c' :: s'' => if c' =? 95 then hex_digits (acc * 16 + v) s'' else hex_digits (acc * 16 + v) s'
      end
  end.

(** The optional "0x" prefix, which may be followed by an underscore. *)
Definition strip_0x (s : str) : str :=
  match s with
  | z :: x :: rest =>
      if (z =? 48) && ((x =? 120) || (x =? 88))
      then match rest with c :: rest' => if c =? 95 then rest' else rest | [] => rest end
      else s
  | _ => s
  end.

(** [int(b, 16)]. *)
Definition int_hex (s : str) : pyres Z :=
  let '(sg, d) := split_sign (strip_ws s) in
  match hex_digits 0 (strip_0x d) with
  | Some z => Ok (sg * z)
  | None => Raise (ValueError (u "invalid literal for int() with base 16: " ++ repr_str s))
  end.

(** [bytes(...)] of the parsed parts. *)
Fixpoint mac_bytes (parts : list str) : pyres bytes :=
  match parts with
  | [] => Ok []
  | p :: ps =>
      b ← int_hex p;
      if (0 <=? b) && (b <=? 255) then r ← mac_bytes ps; Ok (b :: r)
      else Raise (ValueError (u "bytes must be in range(0, 256)"))
  end.

Definition mac_to_bytes (mac : str) : pyres bytes :=
  mac_bytes (split_on 58 (replace_chr 45 58 mac)).

(** The sum of the big-endian words; an odd last byte is a high byte. *)
Fixpoint word_sum (header : bytes) : Z :=
  match header with
  | [] => 0
  | [a] => Z.shiftl a 8
  | a :: b :: rest => Z.lor (Z.shiftl a 8) b + word_sum rest
  end.

(** [while s >> 16]; the fuel is bounded by [fold_carry_done]. *)
Fixpoint fold_carry (fuel : nat) (s : Z) : Z :=
  match fuel with
  | O => s
  | S n => if Z.shiftr s 16 =? 0 then s
           else fold_carry n (Z.land s 65535 + Z.shiftr s 16)
  end.

Definition ip_csum (header : bytes) : Z :=
  let s := word_sum header in
  Z.land (Z.lnot (fold_carry (Z.to_nat (Z.log2 s)) s)) 65535.

Section fastpath.
(** [socket.inet_aton]. *)
Variable inet_aton : list Z → pyres (list Z).

Record template := mkTemplate {
  t_eth_prefix : list Z;
  t_src_ip : list Z;
  t_dst_ip : list Z;
  t_sport : Z;
  t_dport : Z;
}.

(** The tag control information. *)
Definition tci (pcp dei vid : Z) : Z :=
  Z.lor (Z.lor (Z.shiftl (Z.land pcp 7) 13) (Z.shiftl (Z.land dei 1) 12)) (Z.land vid 4095).

Definition build_fastpath_template (client_mac our_mac : str) (vid : option Z) (pcp dei : Z)
    (our_ip client_ip : str) (server_port client_port : Z) : pyres template :=
  dst ← mac_to_bytes client_mac;
  src ← mac_to_bytes our_mac;
  tag ← match vid with
        | Some v => a ← pack_H ETHERTYPE_DOT1Q; b ← pack_H (tci pcp dei v); c ← pack_H ETHERTYPE_IPV4;
                    Ok (a ++ b ++ c)
        | None => pack_H ETHERTYPE_IPV4
        end;
  s ← inet_aton our_ip;
  d ← inet_aton client_ip;
  Ok (mkTemplate (dst ++ src ++ tag) s d server_port client_port).
End fastpath.

(** The IPv4 header with the given checksum bytes. *)
Definition ip_header (total csum src dst : bytes) : bytes :=
  [0x45; 0x00] ++ total ++ [0; 0] ++ be16 IP_FLAGS_DF ++ [IP_DEFAULT_TTL; 17] ++ csum ++ src ++ dst.

Definition build_frame_fast (t : template) (payload : bytes) : pyres bytes :=
  let udp_len := 8 + zlen payload in
  let ip_total := 20 + udp_len in
  total ← pack_H ip_total;
  let hdr := ip_header total [0; 0] (t_src_ip t) (t_dst_ip t) in
  c ← pack_H (ip_csum hdr);
  let hdr := take 10 hdr ++ c ++ drop 12 hdr in
  sp ← pack_H (t_sport t);
  dp ← pack_H (t_dport t);
  ul ← pack_H udp_len;
  Ok (t_eth_prefix t ++ hdr ++ (sp ++ dp ++ ul ++ [0; 0]) ++ payload).

(** The frame [_send] hands to the bridge: the fast path's bytes, or the frame
    scapy builds when the fast path raises.  The bridge itself never raises. *)
Definition send_frame (t : template) (client_mac our_mac : str) (vid : option Z) (pcp dei : Z)
    (our_ip client_ip : str) (payload : bytes) : bytes + ether :=
  match build_frame_fast t payload with
  | Ok frame => inl frame
  | Raise _ => inr (build_udp_frame client_mac our_mac vid pcp dei our_ip client_ip
                      (t_sport t) (t_dport t) payload)
  end.

(** ** The header checksum *)

Lemma fold_carry_small fuel s : 0 ≤ s < 65536 → fold_carry fuel s = s.
Proof.
  intros Hs. destruct fuel as [|n]; [done|]. cbn [fold_carry].
  rewrite Z.shiftr_div_pow2 by lia. change (2 ^ 16) with 65536. rewrite Z.div_small by lia. done.
Qed.

Lemma fold_carry_step n s :
  65536 ≤ s → fold_carry (S n) s = fold_carry n (s mod 65536 + s / 65536).
Proof.
  intros Hs. cbn [fold_carry]. rewrite land_65535, Z.shiftr_div_pow2 by lia.
  change (2 ^ 16) with 65536. destruct (Z.eqb_spec (s / 65536) 0) as [Hq|_]; [|done].
  apply Z.div_small_iff in Hq; lia.
Qed.

(** One fold keeps the residue modulo 65535 and makes progress. *)
Lemma fold_once s :
  65536 ≤ s →
  let s' := s mod 65536 + s / 65536 in 0 < s' < s ∧ s' mod 65535 = s mod 65535.
Proof.
  intros Hs s'. pose proof (Z.div_mod s 65536 ltac:(lia)) as Hd.
  pose proof (Z.mod_pos_bound s 65536 ltac:(lia)) as Hm.
  assert (1 ≤ s / 65536) by (apply Z.div_le_lower_bound; lia).
  subst s'. split; [lia|].
  replace s with (s mod 65536 + s / 65536 + (s / 65536) * 65535) at 3 by lia.
  by rewrite Z.mod_add.
Qed.

Lemma fold_carry_bound n fuel s :
  0 ≤ s < 2 ^ (17 + Z.of_nat n) → (n + 2 ≤ fuel)%nat →
  0 ≤ fold_carry fuel s < 65536 ∧ fold_carry fuel s mod 65535 = s mod 65535 ∧
  (0 < s → 0 < fold_carry fuel s).
Proof.
  revert fuel s. induction n as [|n IH]; intros fuel s Hs Hf;
    (destruct (decide (s < 65536)); [rewrite fold_carry_small by lia; split; [lia|done]|]).
  - change (2 ^ (17 + Z.of_nat 0)) with 131072 in Hs.
    destruct fuel as [|[|fuel]]; [lia..|]. rewrite fold_carry_step by lia.
    destruct (fold_once s ltac:(lia)) as [Ha Hb]. revert Ha Hb. cbn zeta.
    pose proof (Z.div_mod s 65536 ltac:(lia)). pose proof (Z.mod_pos_bound s 65536 ltac:(lia)).
    set (s1 := s mod 65536 + s / 65536). intros Ha Hb.
    destruct (decide (s1 < 65536)); [rewrite fold_carry_small by lia; split; [lia|split; [done|lia]]|].
    assert (s1 = 65536) as Hs1 by lia. rewrite fold_carry_step by lia. rewrite Hs1 in *.
    change (65536 mod 65536 + 65536 / 65536) with 1.
    rewrite fold_carry_small by lia. split; [lia|]. split; [|lia]. by rewrite <- Hb.
  - destruct fuel as [|fuel]; [lia|]. rewrite fold_carry_step by lia.
    destruct (fold_once s ltac:(lia)) as [H1 H2]. cbn zeta in H1, H2.
    pose proof (Z.mod_pos_bound s 65536 ltac:(lia)).
    assert (s / 65536 < 4 * 2 ^ Z.of_nat n).
    { apply Z.div_lt_upper_bound; [lia|]. replace (17 + Z.of_nat (S n)) with (18 + Z.of_nat n) in Hs by lia.
      rewrite Z.pow_add_r in Hs by lia. change (2 ^ 18) with 262144 in Hs. lia. }
    pose proof (Z.pow_pos_nonneg 2 (Z.of_nat n) ltac:(lia) ltac:(lia)).
    destruct (IH fuel (s mod 65536 + s / 65536)) as (I1 & I2 & I3); [|lia|].
    + rewrite Z.pow_add_r by lia. change (2 ^ 17) with 131072. lia.
    + split; [done|]. split; [congruence|]. intros _. apply I3. lia.
Qed.

(** The folding loop ends within the fuel [ip_csum] gives it. *)
Lemma fold_carry_done s :
  0 ≤ s → let r := fold_carry (Z.to_nat (Z.log2 s)) s in
  0 ≤ r < 65536 ∧ r mod 65535 = s mod 65535 ∧ (0 < s → 0 < r).
Proof.
  intros Hs r. destruct (decide (s < 65536)).
  { subst r. rewrite fold_carry_small by lia. done. }
  assert (16 ≤ Z.log2 s) as Hl by (apply (Z.log2_le_mono 65536); lia).
  apply (fold_carry_bound (Z.to_nat (Z.log2 s - 16))); [|lia].
  split; [lia|]. replace (17 + _) with (Z.succ (Z.log2 s)) by lia.
  apply Z.log2_spec. lia.
Qed.

Lemma ip_csum_value h :
  0 ≤ word_sum h → ip_csum h = 65535 - fold_carry (Z.to_nat (Z.log2 (word_sum h))) (word_sum h).
Proof.
  intros Hs. destruct (fold_carry_done _ Hs) as [Hr _]. unfold ip_csum.
  set (r := fold_carry _ _) in *. rewrite land_65535. unfold Z.lnot.
  replace (Z.pred (- r)) with (65535 - r + (-1) * 65536) by lia.
  rewrite Z.mod_add, Z.mod_small by lia. done.
Qed.

Lemma word_sum_nonneg h : bytes_ok h → 0 ≤ word_sum h.
Proof.
  cut (∀ n h, (length h ≤ n)%nat → bytes_ok h → 0 ≤ word_sum h).
  { intros H. by apply (H (length h)). }
  induction n as [|n IH]; intros [|a [|b l]] Hl Hb; cbn [word_sum]; cbn in Hl; try lia.
  - apply Z.shiftl_nonneg. inversion Hb as [|?? [? ?]]. lia.
  - inversion_clear Hb as [|?? Ha Hb']. inversion_clear Hb' as [|?? Hb2 Hl2].
    unfold byte_range in *. rewrite lor_bytes by lia.
    specialize (IH l ltac:(lia) Hl2). lia.
Qed.

(** A header is intact when its words add up to a positive multiple of 65535
    (all ones in one's complement arithmetic, RFC 791). *)
Definition checksum_valid (h : bytes) : Prop := 0 < word_sum h ∧ word_sum h mod 65535 = 0.

#[export] Instance checksum_valid_dec h : Decision (checksum_valid h) := _.

Lemma be16_fields n : 0 ≤ n < 65536 →
  ∃ a b, be16 n = [a; b] ∧ byte_range a ∧ byte_range b ∧ a * 256 + b = n.
Proof.
  intros Hn. exists (Z.shiftr n 8), (Z.land n 255). pose proof (be16_bytes_ok n Hn) as Hb.
  inversion_clear Hb as [|?? Ha Hb']. inversion_clear Hb' as [|?? Hb2 _].
  split_and!; [done..|]. unfold byte_range in Hb2. rewrite <- lor_bytes by done. by apply be16_value.
Qed.

(** A 4-byte address. *)
Definition ip4 (b : bytes) : Prop := length b = 4%nat ∧ bytes_ok b.

Ltac split_bytes m :=
  let H := fresh in
  match goal with Hm : length m = _ |- _ => rename Hm into H end;
  repeat (destruct m as [|? m]; [discriminate H|]; cbn [length] in H; apply eq_add_S in H);
  destruct m; [clear H|discriminate H].

Lemma ip_header_sum total csum src dst t c :
  total = be16 t → csum = be16 c → 0 ≤ t < 65536 → 0 ≤ c < 65536 → ip4 src → ip4 dst →
  word_sum (ip_header total csum src dst) = word_sum (ip_header total [0; 0] src dst) + c.
Proof.
  intros -> -> Ht Hc [Hs Hsb] [Hd Hdb]. destruct (be16_fields c Hc) as (c1 & c2 & -> & H1 & H2 & Hv).
  split_bytes src. split_bytes dst. unfold ip_header. cbn [app word_sum be16].
  unfold byte_range in *. rewrite (lor_bytes c1) by lia.
  change (Z.lor (Z.shiftl 0 8) 0) with 0. lia.
Qed.

Lemma ip_header_ok total csum src dst :
  bytes_ok total → bytes_ok csum → ip4 src → ip4 dst → bytes_ok (ip_header total csum src dst).
Proof.
  intros Ht Hc [_ Hs] [_ Hd]. unfold ip_header, bytes_ok in *. rewrite !Forall_app.
  split_and!; try done; try (repeat constructor; done).
Qed.

(** The checksum the sender stores makes the header intact. *)
Lemma ip_header_checksum t src dst :
  0 ≤ t < 65536 → ip4 src → ip4 dst →
  let c := ip_csum (ip_header (be16 t) [0; 0] src dst) in
  0 ≤ c < 65536 ∧ checksum_valid (ip_header (be16 t) (be16 c) src dst).
Proof.
  intros Ht Hs Hd c. assert (bytes_ok (ip_header (be16 t) [0; 0] src dst)) as Hok.
  { apply ip_header_ok; [by apply be16_bytes_ok|by repeat constructor|done|done]. }
  pose proof (word_sum_nonneg _ Hok) as H0. pose proof (fold_carry_done _ H0) as (Hr & Hm & _).
  assert (0 ≤ c < 65536) as Hc by (unfold c; rewrite ip_csum_value by done; lia).
  split; [done|]. unfold checksum_valid.
  rewrite (ip_header_sum _ _ _ _ t c) by done. unfold c. rewrite ip_csum_value by done.
  set (s := word_sum _) in *. set (r := fold_carry _ _) in *.
  assert (0x4500 ≤ s) as Hpos.
  { destruct Hs as [Hsl Hsb], Hd as [Hdl Hdb]. subst s. unfold ip_header, be16 in *.
    cbn [app word_sum] in *.
    inversion_clear Hok as [|?? _ Hok1]. inversion_clear Hok1 as [|?? _ Hok2].
    pose proof (word_sum_nonneg _ Hok2) as Hrest. cbn [app word_sum] in Hrest.
    change (Z.lor (Z.shiftl 69 8) 0) with 0x4500. lia. }
  split; [lia|].
  replace (s + (65535 - r)) with (s - r + 1 * 65535) by lia. rewrite Z.mod_add by lia.
  rewrite Zminus_mod, Hm, Z.sub_diag. done.
Qed.

(** ** Reading a frame back *)

Record decoded := mkDecoded {
  d_dst_mac : list Z;
  d_src_mac : list Z;
  d_tag : option (Z * Z * Z);
  d_src_ip : list Z;
  d_dst_ip : list Z;
  d_sport : Z;
  d_dport : Z;
  d_payload : list Z;
}.

(** An IPv4/UDP packet without options: the header checksum must be right and
    the payload is what the UDP length says, whatever follows it. *)
Definition decode_ip (dst src : bytes) (tag : option (Z * Z * Z)) (ip : bytes) : option decoded :=
  if decide (nth 0 ip 0 = 0x45 ∧ nth 9 ip 0 = 17 ∧ checksum_valid (take 20 ip) ∧
             unpack_H ip 2 = 20 + unpack_H ip 24 ∧ unpack_H ip 2 ≤ zlen ip)
  then Some (mkDecoded dst src tag (take 4 (drop 12 ip)) (take 4 (drop 16 ip))
               (unpack_H ip 20) (unpack_H ip 22)
               (take (Z.to_nat (unpack_H ip 24 - 8)) (drop 28 ip)))
  else None.

(** Ethernet II with at most one 802.1Q tag: (VLAN id, priority, DEI). *)
Definition decode_frame (f : bytes) : option decoded :=
  let dst := take 6 f in
  let src := take 6 (drop 6 f) in
  if decide (unpack_H f 12 = 0x0800) then decode_ip dst src None (drop 14 f)
  else if decide (unpack_H f 12 = 0x8100 ∧ unpack_H f 16 = 0x0800) then
    let t := unpack_H f 14 in
    decode_ip dst src (Some (Z.land t 0xFFF, Z.shiftr t 13, Z.land (Z.shiftr t 12) 1)) (drop 18 f)
  else None.

Lemma unpack_field n l : 0 ≤ n < 65536 → unpack_H (be16 n ++ l) 0 = n.
Proof. intros Hn. by apply (unpack_be16 n []). Qed.

Lemma tci_value pcp dei vid :
  0 ≤ pcp < 8 → 0 ≤ dei < 2 → 0 ≤ vid < 4096 → tci pcp dei vid = pcp * 8192 + dei * 4096 + vid.
Proof.
  intros Hp Hd Hv. unfold tci. change 7 with (Z.ones 3). change 1 with (Z.ones 1) at 1.
  change 4095 with (Z.ones 12). rewrite !Z.land_ones by lia.
  rewrite !Z.mod_small by (cbn; lia).
  assert (∀ a b k, 0 ≤ k → 0 ≤ b < 2 ^ k → Z.lor (a * 2 ^ k) b = a * 2 ^ k + b) as Hlor.
  { intros a b k Hk Hb. rewrite <- Z.shiftl_mul_pow2 by done.
    assert (Z.land (Z.shiftl a k) b = 0) as Hz.
    { apply Z.bits_inj'. intros i Hi. rewrite Z.land_spec, Z.bits_0, Z.shiftl_spec by lia.
      destruct (decide (i < k)); [by rewrite Z.testbit_neg_r by lia|].
      rewrite <- (Z.mod_small b (2 ^ k)) by done.
      rewrite Z.mod_pow2_bits_high by lia. by rewrite andb_false_r. }
    pose proof (Z.add_lor_land (Z.shiftl a k) b). lia. }
  rewrite !Z.shiftl_mul_pow2 by lia.
  rewrite (Hlor pcp (dei * 2 ^ 12) 13) by (cbn; lia).
  replace (pcp * 2 ^ 13 + dei * 2 ^ 12) with ((pcp * 2 + dei) * 2 ^ 12) by lia.
  rewrite Hlor by (cbn; lia). lia.
Qed.

Lemma tci_fields pcp dei vid :
  0 ≤ pcp < 8 → 0 ≤ dei < 2 → 0 ≤ vid < 4096 →
  let t := tci pcp dei vid in
  0 ≤ t < 65536 ∧ Z.land t 0xFFF = vid ∧ Z.shiftr t 13 = pcp ∧ Z.land (Z.shiftr t 12) 1 = dei.
Proof.
  intros Hp Hd Hv t. subst t. rewrite tci_value by done. split; [lia|].
  change 0xFFF with (Z.ones 12). change 1 with (Z.ones 1).
  rewrite !Z.land_ones, !Z.shiftr_div_pow2 by lia.
  change (2 ^ 12) with 4096. change (2 ^ 13) with 8192. change (2 ^ 1) with 2.
  assert (pcp * 8192 + dei * 4096 + vid = vid + (pcp * 2 + dei) * 4096) as He by lia.
  split_and!.
  - rewrite He, Z.mod_add, Z.mod_small by lia. done.
  - symmetry. apply (Z.div_unique _ _ _ (dei * 4096 + vid)); lia.
  - rewrite He, Z.div_add, Z.div_small by lia. rewrite Z.add_0_l, Z.add_comm, Z.mod_add, Z.mod_small by lia.
    done.
Qed.

(** The IP part of a fast-path frame reads back, padding or not. *)
Lemma decode_ip_built dst src tag sip dip sp dp payload c pad :
  ip4 sip → ip4 dip → 0 ≤ sp < 65536 → 0 ≤ dp < 65536 → zlen payload ≤ 65507 →
  let t := 20 + (8 + zlen payload) in
  0 ≤ c < 65536 → checksum_valid (ip_header (be16 t) (be16 c) sip dip) →
  decode_ip dst src tag
    ((ip_header (be16 t) (be16 c) sip dip ++
      (be16 sp ++ be16 dp ++ be16 (8 + zlen payload) ++ [0; 0]) ++ payload) ++ pad)
  = Some (mkDecoded dst src tag sip dip sp dp payload).
Proof.
  intros Hs Hd Hsp Hdp Hl t Hc Hv. pose proof (zlen_nonneg payload).
  set (ul := 8 + zlen payload) in *.
  assert (0 ≤ t < 65536 ∧ 0 ≤ ul < 65536) as [Ht Hu] by (subst t ul; lia).
  destruct Hs as [Hsl Hsb], Hd as [Hdl Hdb]. split_bytes sip. split_bytes dip.
  unfold decode_ip.
  assert (∀ n rest, 0 ≤ n < 65536 → unpack_H (Z.shiftr n 8 :: Z.land n 255 :: rest) 0 = n) as Hf
    by (intros; by apply unpack_field).
  unfold ip_header in *. cbn [app be16] in *.
  rewrite decide_True.
  - cbn [take drop]. rewrite !(λ a l i, eq_refl : unpack_H (a :: l) (S i) = unpack_H l i).
    rewrite !Hf by done. do 2 f_equal. subst ul. rewrite Z.add_simpl_l.
    unfold zlen. rewrite Nat2Z.id. by rewrite drop_0, take_app_length.
  - split_and!; [done|done|exact Hv| |].
    + change (unpack_H (?a :: ?l) (S ?i)) with (unpack_H l i).
      rewrite !(λ a l i, eq_refl : unpack_H (a :: l) (S i) = unpack_H l i).
      rewrite !Hf by done. done.
    + rewrite !(λ a l i, eq_refl : unpack_H (a :: l) (S i) = unpack_H l i).
      rewrite Hf by done. subst t ul. autorewrite with zlen. pose proof (zlen_nonneg pad). lia.
Qed.

(** The tag a template writes. *)
Definition tag_of (vid : option Z) (pcp dei : Z) : option (Z * Z * Z) :=
  match vid with Some v => Some (v, pcp, dei) | None => None end.

Definition tag_ok (vid : option Z) (pcp dei : Z) : Prop :=
  match vid with Some v => 0 ≤ v < 4096 ∧ 0 ≤ pcp < 8 ∧ 0 ≤ dei < 2 | None => True end.

(** The bytes between the addresses and the IP header. *)
Definition tag_bytes (vid : option Z) (pcp dei : Z) : bytes :=
  match vid with
  | Some v => be16 ETHERTYPE_DOT1Q ++ be16 (tci pcp dei v) ++ be16 ETHERTYPE_IPV4
  | None => be16 ETHERTYPE_IPV4
  end.

Lemma decode_prefix m1 m2 vid pcp dei ip :
  length m1 = 6%nat → length m2 = 6%nat → tag_ok vid pcp dei →
  decode_frame (m1 ++ m2 ++ tag_bytes vid pcp dei ++ ip) = decode_ip m1 m2 (tag_of vid pcp dei) ip.
Proof.
  intros L1 L2 Htag. split_bytes m1. split_bytes m2. unfold decode_frame, tag_bytes, tag_of, tag_ok in *.
  destruct vid as [v|]; rewrite <- ?app_assoc; cbn [app be16 take drop].
  - destruct Htag as (Hv & Hp & Hd). destruct (tci_fields pcp dei v Hp Hd Hv) as (Ht & T1 & T2 & T3).
    rewrite decide_False by by vm_compute. rewrite decide_True by (split; by vm_compute).
    rewrite !(λ a l i, eq_refl : unpack_H (a :: l) (S i) = unpack_H l i).
    rewrite (unpack_field (tci pcp dei v) _ Ht : unpack_H (Z.shiftr _ _ :: Z.land _ _ :: _) 0 = _).
    by rewrite T1, T2, T3.
  - by rewrite decide_True by by vm_compute.
Qed.

Lemma build_frame_shape t payload :
  ip4 (t_src_ip t) → ip4 (t_dst_ip t) → 0 ≤ t_sport t < 65536 → 0 ≤ t_dport t < 65536 →
  zlen payload ≤ 65507 →
  let total := 20 + (8 + zlen payload) in
  ∃ c, 0 ≤ c < 65536 ∧ checksum_valid (ip_header (be16 total) (be16 c) (t_src_ip t) (t_dst_ip t)) ∧
    build_frame_fast t payload
    = Ok (t_eth_prefix t ++ ip_header (be16 total) (be16 c) (t_src_ip t) (t_dst_ip t) ++
          (be16 (t_sport t) ++ be16 (t_dport t) ++ be16 (8 + zlen payload) ++ [0; 0]) ++ payload).
Proof.
  intros Hs Hd Hsp Hdp Hl total. pose proof (zlen_nonneg payload).
  destruct (ip_header_checksum total (t_src_ip t) (t_dst_ip t)) as [Hc Hv]; [subst total; lia|done|done|].
  set (c := ip_csum _) in *. exists c. split; [done|]. split; [done|].
  unfold build_frame_fast. fold total. rewrite (pack_H_ok total) by (subst total; lia).
  cbn [mbind pyres_bind]. fold c. rewrite !pack_H_ok by lia. done.
Qed.

(** The scapy path is taken exactly for payloads no UDP datagram can hold. *)
Lemma send_frame_fast t cm om vid pcp dei oip cip payload :
  ip4 (t_src_ip t) → ip4 (t_dst_ip t) → 0 ≤ t_sport t < 65536 → 0 ≤ t_dport t < 65536 →
  match send_frame t cm om vid pcp dei oip cip payload with
  | inl f => build_frame_fast t payload = Ok f ∧ zlen payload ≤ 65507
  | inr e => 65507 < zlen payload
  end.
Proof.
  intros Hs Hd Hsp Hdp. unfold send_frame. destruct (Z.le_gt_cases (zlen payload) 65507) as [Hl|Hl].
  - destruct (build_frame_shape t payload Hs Hd Hsp Hdp Hl) as (c & _ & _ & ->). done.
  - assert (pack_H (20 + (8 + zlen payload)) = Raise (StructError (u "'H' format requires 0 <= number <= 65535"))) as Hp.
    { unfold pack_H. destruct (Z.leb_spec (20 + (8 + zlen payload)) 65535); [lia|]. by rewrite andb_false_r. }
    unfold build_frame_fast. by rewrite Hp.
Qed.

(** [C13] Every frame the fast path sends is well formed and carries exactly
    what it should: for a payload of at most 65507 bytes it is built without
    falling back to scapy, and a receiver - whatever padding the link appended -
    finds the client's and our MAC and IP addresses, the ports, the payload, a
    correct IP header checksum and correct lengths; a reply to a tagged request
    carries the request's VLAN id, priority and DEI, and a reply to an untagged
    one no tag. *)
Theorem fast_frame_roundtrip inet_aton client_mac our_mac vid pcp dei our_ip client_ip
    server_port client_port m1 m2 i1 i2 payload pad :
  mac_to_bytes client_mac = Ok m1 → mac_to_bytes our_mac = Ok m2 →
  length m1 = 6%nat → length m2 = 6%nat →
  inet_aton our_ip = Ok i1 → inet_aton client_ip = Ok i2 → ip4 i1 → ip4 i2 →
  tag_ok vid pcp dei → 0 ≤ server_port < 65536 → 0 ≤ client_port < 65536 →
  zlen payload ≤ 65507 →
  ∃ t f, build_fastpath_template inet_aton client_mac our_mac vid pcp dei our_ip client_ip
           server_port client_port = Ok t ∧
    build_frame_fast t payload = Ok f ∧
    decode_frame (f ++ pad)
    = Some (mkDecoded m1 m2 (tag_of vid pcp dei) i1 i2 server_port client_port payload).
Proof.
  intros H1 H2 L1 L2 A1 A2 I1 I2 Htag Hsp Hcp Hl.
  set (t := mkTemplate (m1 ++ m2 ++ tag_bytes vid pcp dei) i1 i2 server_port client_port).
  destruct (build_frame_shape t payload I1 I2 Hsp Hcp Hl) as (c & Hc & Hck & Hf).
  exists t. eexists. split_and!; [|exact Hf|].
  - unfold build_fastpath_template. rewrite H1, H2, A1, A2. cbn [mbind pyres_bind].
    destruct vid as [v|]; [|done]. destruct Htag as (Hv & Hp & Hd).
    destruct (tci_fields pcp dei v Hp Hd Hv) as (Ht & _). by rewrite (pack_H_ok (tci pcp dei v)).
  - cbn [t t_eth_prefix t_src_ip t_dst_ip t_sport t_dport] in *. rewrite <- !app_assoc.
    rewrite decode_prefix by done.
    rewrite <- (decode_ip_built m1 m2 (tag_of vid pcp dei) i1 i2 server_port client_port payload c pad)
      by done.
    by rewrite <- !app_assoc.
Qed.

Lemma fast_frame_roundtrip_witness :
  let aton ip := if decide (ip = u "10.0.0.1") then Ok [10; 0; 0; 1] else Ok [10; 0; 0; 2] in
  ∃ t f, build_fastpath_template aton (u "aa:bb:cc:dd:ee:ff") (u "02-00-00-00-00-01") (Some 100) 5 1
           (u "10.0.0.1") (u "10.0.0.2") 20000 1234 = Ok t ∧
    build_frame_fast t [0; 4; 0; 1] = Ok f ∧
    decode_frame (f ++ [0; 0; 0; 0; 0; 0])
    = Some (mkDecoded [170; 187; 204; 221; 238; 255] [2; 0; 0; 0; 0; 1] (Some (100, 5, 1))
              [10; 0; 0; 1] [10; 0; 0; 2] 20000 1234 [0; 4; 0; 1]).
Proof.
  intros aton. apply (fast_frame_roundtrip aton _ _ (Some 100) 5 1);
    try (vm_compute; reflexivity); try lia.
  - split; [reflexivity|by repeat constructor].
  - split; [reflexivity|by repeat constructor].
  - cbn. lia.
  - vm_compute. discriminate.
Defined.

(** ** Padding *)

(** Ethernet padding never reaches a transfer: whatever bytes the link
    appended after a datagram whose UDP length field is right, [parse] hands
    over exactly the datagram's payload. *)
Theorem parse_strips_padding src dst ty tag isrc idst ttl sport dport payload pad :
  ∃ p, parse (Some (mkEther src dst ty tag
         (IP isrc idst 17 ttl (UDP sport dport (Some (8 + zlen payload)) (payload ++ pad))))) = Some p ∧
    p_upper p = UUdp sport dport payload.
Proof.
  unfold parse. cbn [eth_tag eth_layer eth_src eth_dst eth_type].
  destruct tag as [q|]; eexists; (split; [reflexivity|]); cbn [p_upper udp_payload].
  all: pose proof (zlen_nonneg payload);
    destruct (Z.eqb_spec (8 + zlen payload) 0); [lia|]; f_equal;
    rewrite Z.add_simpl_l, py_slice_nonneg by lia; rewrite drop_0;
    unfold zlen; replace (Z.to_nat (Z.max 0 (Z.of_nat (length payload)) - 0)) with (length payload) by lia;
    by rewrite take_app_length.
Qed.
