(* ===== verification/Acl.v ===== *)
(** * Access control lists (src/core/acl.py)

    The VLAN and IP lists with their per-service scope.  Addresses come from
    the IPv4 and ARP layers of a frame, so they are IPv4 texts; the part of
    Python's [ipaddress] the code uses is modelled for IPv4.  (An IPv6 network
    in the list is accepted by the source and contains no IPv4 address; here
    it is skipped like an entry [ipaddress] refuses.) *)

From S2P Require Import Prelude Python.
Open Scope Z_scope.

(** ** ipaddress *)

(** One octet: one to three ASCII digits, no leading zero, at most 255. *)
Definition parse_octet (s : str) : option Z :=
  if negb (isdigit s) || (3 <? zlen s) then None
  else if negb (bool_decide (s = u "0")) && starts_with (u "0") s then None
  else let v := dec_val 0 s in if 255 <? v then None else Some v.

(** [ipaddress.ip_address(s)] as an integer. *)
Definition parse_ipv4 (s : str) : option Z :=
  match split_on 46 s with
  | [a; b; c; d] =>
      a ← parse_octet a; b ← parse_octet b; c ← parse_octet c; d ← parse_octet d;
      Some (((a * 256 + b) * 256 + c) * 256 + d)
  | _ => None
  end.

(** [_count_righthand_zero_bits(n, bits)]. *)
Fixpoint trailing_zeros (bits : nat) (n : Z) : Z :=
  match bits with
  | O => 0
  | S b => if Z.odd n then 0 else 1 + trailing_zeros b (Z.shiftr n 1)
  end.

(** [_prefix_from_ip_int]. *)
Definition prefix_of_mask (m : Z) : option Z :=
  let tz := trailing_zeros 32 m in
  let p := 32 - tz in
  if Z.shiftr m tz =? Z.shiftl 1 p - 1 then Some p else None.

(** [_make_netmask]: a prefix length, a netmask or a hostmask. *)
Definition parse_prefix (s : str) : option Z :=
  let by_mask :=
    m ← parse_ipv4 s;
    match prefix_of_mask m with
    | Some p => Some p
    | None => prefix_of_mask (Z.lxor m 4294967295)
    end in
  if isdigit s && (zlen s <=? 4300) then
    let p := dec_val 0 s in if p <=? 32 then Some p else by_mask
  else by_mask.

Definition netmask (p : Z) : Z := Z.lxor 4294967295 (Z.shiftr 4294967295 p).

(** [ipaddress.ip_network(s, strict=False)]: network address and mask. *)
Definition ip_network (s : str) : option (Z * Z) :=
  match split_on 47 s with
  | [a] => ip ← parse_ipv4 a; Some (Z.land ip (netmask 32), netmask 32)
  | [a; m] => p ← parse_prefix m; ip ← parse_ipv4 a; Some (Z.land ip (netmask p), netmask p)
  | _ => None
  end.

(** [addr in net]. *)
Definition in_net (addr : Z) (net : Z * Z) : bool := Z.land addr net.2 =? net.1.

(** ** The ACL *)

Record ACL := mkACL {
  vlan_mode : list Z;
  vlan_list : list Z;
  vlan_apply : list (list Z);
  ip_mode : list Z;
  ip_nets : list (Z * Z);
  ip_apply : list (list Z);
}.

(** [for x in v]. *)
Definition py_iter (v : pyval) : pyres (list pyval) :=
  match v with
  | VList l => Ok l
  | VStr s => Ok (map (λ c, VStr [c]) s)
  | VDict d => Ok (map (λ kv, VStr kv.1) d)
  | _ => Raise (TypeError (u "'" ++ type_name v ++ u "' object is not iterable"))
  end.

(** [v.get(k) or []], iterated. *)
Definition get_items (v : pyval) (k : str) : pyres (list pyval) :=
  x ← py_get v k VNone; py_iter (py_or x (VList [])).

Fixpoint map_int (l : list pyval) : pyres (list Z) :=
  match l with
  | [] => Ok []
  | v :: l' => z ← py_int v; zs ← map_int l'; Ok (z :: zs)
  end.

(** [d.get(k, {}) or {}]. *)
Definition get_block (v : pyval) (k : str) : pyres pyval :=
  x ← py_get v k (VDict []); Ok (py_or x (VDict [])).

(** [str(v.get("mode", "disabled")).lower()]. *)
Definition get_mode (v : pyval) : pyres str :=
  m ← py_get v (u "mode") (VStr (u "disabled")); Ok (lower (py_str m)).

Definition lower_strs (l : list pyval) : list str := map (λ v, lower (py_str v)) l.

(** [reload]. *)
Definition acl_reload (cfg : pyval) : pyres ACL :=
  sec ← get_block cfg (u "security");
  vlan ← get_block sec (u "vlan_acl");
  ip ← get_block sec (u "ip_acl");
  vm ← get_mode vlan;
  vl ← (items ← get_items vlan (u "list"); map_int items);
  va ← get_items vlan (u "apply_to");
  im ← get_mode ip;
  il ← get_items ip (u "list");
  ia ← get_items ip (u "apply_to");
  Ok (mkACL vm vl (lower_strs va) im (omap (λ v, ip_network (py_str v)) il) (lower_strs ia)).

(** [reload] of an object in use: the attributes are assigned one by one, so a
    value that raises leaves the earlier ones new and the later ones old. *)
Definition acl_reload_in_place (cfg : pyval) : eff ACL unit :=
  sec ← lift_res (get_block cfg (u "security"));
  vlan ← lift_res (get_block sec (u "vlan_acl"));
  ip ← lift_res (get_block sec (u "ip_acl"));
  vm ← lift_res (get_mode vlan);
  _ ← assign (λ a, mkACL vm (vlan_list a) (vlan_apply a) (ip_mode a) (ip_nets a) (ip_apply a));
  vl ← lift_res (items ← get_items vlan (u "list"); map_int items);
  _ ← assign (λ a, mkACL (vlan_mode a) vl (vlan_apply a) (ip_mode a) (ip_nets a) (ip_apply a));
  va ← lift_res (get_items vlan (u "apply_to"));
  _ ← assign (λ a, mkACL (vlan_mode a) (vlan_list a) (lower_strs va) (ip_mode a) (ip_nets a) (ip_apply a));
  im ← lift_res (get_mode ip);
  _ ← assign (λ a, mkACL (vlan_mode a) (vlan_list a) (vlan_apply a) im [] (ip_apply a));
  il ← lift_res (get_items ip (u "list"));
  _ ← assign (λ a, mkACL (vlan_mode a) (vlan_list a) (vlan_apply a) (ip_mode a)
                     (omap (λ v, ip_network (py_str v)) il) (ip_apply a));
  ia ← lift_res (get_items ip (u "apply_to"));
  assign (λ a, mkACL (vlan_mode a) (vlan_list a) (vlan_apply a) (ip_mode a) (ip_nets a) (lower_strs ia)).

(** A reload that raises nothing makes the object a fresh one would be, and
    raises exactly when the constructor would. *)
Lemma acl_reload_in_place_spec cfg a :
  match acl_reload cfg with
  | Ok a' => acl_reload_in_place cfg a = (Ok tt, a')
  | Raise e => (acl_reload_in_place cfg a).1 = Raise e
  end.
Proof.
  unfold acl_reload, acl_reload_in_place. cbv zeta.
  rewrite eff_bind_lift_res; destruct (get_block cfg (u "security")) as [sec|]; cbn [mbind pyres_bind]; [|done].
  rewrite eff_bind_lift_res; destruct (get_block sec (u "vlan_acl")) as [vlan|]; cbn [mbind pyres_bind]; [|done].
  rewrite eff_bind_lift_res; destruct (get_block sec (u "ip_acl")) as [ip|]; cbn [mbind pyres_bind]; [|done].
  rewrite eff_bind_lift_res; destruct (get_mode vlan) as [vm|]; cbn [mbind pyres_bind]; [|done].
  rewrite eff_bind_assign, eff_bind_lift_res.
  destruct (get_items vlan (u "list")) as [items|]; cbn [mbind pyres_bind]; [|done].
  destruct (map_int items) as [vl|]; cbn [mbind pyres_bind]; [|done].
  rewrite eff_bind_assign, eff_bind_lift_res.
  destruct (get_items vlan (u "apply_to")) as [va|]; cbn [mbind pyres_bind]; [|done].
  rewrite eff_bind_assign, eff_bind_lift_res. destruct (get_mode ip) as [im|]; cbn [mbind pyres_bind]; [|done].
  rewrite eff_bind_assign, eff_bind_lift_res.
  destruct (get_items ip (u "list")) as [il|]; cbn [mbind pyres_bind]; [|done].
  rewrite eff_bind_assign, eff_bind_lift_res.
  by destruct (get_items ip (u "apply_to")) as [ia|]; cbn [mbind pyres_bind].
Qed.

Inductive denial := DenyVlan | DenyIp.

#[export] Instance denial_eq_dec : EqDecision denial.
Proof. solve_decision. Defined.

Definition elem {A} `{EqDecision A} (x : A) (l : list A) : bool := bool_decide (x ∈ l).

(** The VLAN half of [check]: [None] is VLAN 0. *)
Definition check_vlan (a : ACL) (service : str) (vlan : option Z) : bool :=
  if elem service (vlan_apply a) && negb (bool_decide (vlan_mode a = u "disabled")) then
    let in_list := elem (default 0 vlan) (vlan_list a) in
    if bool_decide (vlan_mode a = u "whitelist") && negb in_list then false
    else if bool_decide (vlan_mode a = u "blacklist") && in_list then false
    else true
  else true.

(** The IP half: skipped when there is no source address. *)
Definition check_ip (a : ACL) (service src_ip : str) : bool :=
  if elem service (ip_apply a) && negb (bool_decide (ip_mode a = u "disabled"))
     && negb (bool_decide (src_ip = [])) then
    match parse_ipv4 src_ip with
    | None => false
    | Some addr =>
        let in_list := existsb (in_net addr) (ip_nets a) in
        if bool_decide (ip_mode a = u "whitelist") && negb in_list then false
        else if bool_decide (ip_mode a = u "blacklist") && in_list then false
        else true
    end
  else true.

(** [check]; [src_ip] is the empty string for [None]. *)
Definition acl_check (a : ACL) (service : str) (vlan : option Z) (src_ip : str) : option denial :=
  let service := lower service in
  if negb (check_vlan a service vlan) then Some DenyVlan
  else if negb (check_ip a service src_ip) then Some DenyIp
  else None.

Definition acl_allow (a : ACL) (service : str) (vlan : option Z) (src_ip : str) : bool :=
  match acl_check a service vlan src_ip with None => true | Some _ => false end.

(** ** Networks *)

Lemma netmask_bits p i : 0 ≤ p ≤ 32 → 0 ≤ i →
  Z.testbit (netmask p) i = (32 - p <=? i) && (i <? 32).
Proof.
  intros Hp Hi. unfold netmask. change 4294967295 with (Z.ones 32).
  rewrite Z.lxor_spec, Z.shiftr_spec, !Z.testbit_ones_nonneg by lia.
  destruct (Z.ltb_spec i 32), (Z.ltb_spec (i + p) 32), (Z.leb_spec (32 - p) i); cbn; lia || done.
Qed.

Lemma land_netmask a p : 0 ≤ a < 2 ^ 32 → 0 ≤ p ≤ 32 →
  Z.land a (netmask p) = a / 2 ^ (32 - p) * 2 ^ (32 - p).
Proof.
  intros Ha Hp. rewrite <- Z.shiftr_div_pow2, <- Z.shiftl_mul_pow2, <- Z.ldiff_ones_r by lia.
  apply Z.bits_inj'. intros i Hi. rewrite Z.land_spec, Z.ldiff_spec, netmask_bits by done.
  rewrite Z.testbit_ones_nonneg by lia.
  destruct (Z.leb_spec (32 - p) i), (Z.ltb_spec i (32 - p)), (Z.ltb_spec i 32); cbn; try lia; try done.
  rewrite <- (Z.mod_small a (2 ^ 32)) by done. by rewrite Z.mod_pow2_bits_high by lia.
Qed.

(** Two addresses agree on their first [p] bits. *)
Definition same_prefix (p a b : Z) : Prop := a / 2 ^ (32 - p) = b / 2 ^ (32 - p).

Lemma in_net_prefix a ip p : 0 ≤ a < 2 ^ 32 → 0 ≤ ip < 2 ^ 32 → 0 ≤ p ≤ 32 →
  in_net a (Z.land ip (netmask p), netmask p) = true ↔ same_prefix p a ip.
Proof.
  intros Ha Hi Hp. unfold in_net, same_prefix. cbn [fst snd]. rewrite Z.eqb_eq, !land_netmask by done.
  assert (0 < 2 ^ (32 - p)) by (apply Z.pow_pos_nonneg; lia). nia.
Qed.

(** ** Texts *)

Record quad := mkQuad { qa : Z; qb : Z; qc : Z; qd : Z }.

Definition quad_ok (q : quad) : Prop :=
  0 ≤ qa q < 256 ∧ 0 ≤ qb q < 256 ∧ 0 ≤ qc q < 256 ∧ 0 ≤ qd q < 256.
Definition quad_val (q : quad) : Z := ((qa q * 256 + qb q) * 256 + qc q) * 256 + qd q.

(** "a.b.c.d", as scapy and people write it. *)
Definition dotted (q : quad) : str :=
  z_str (qa q) ++ 46 :: z_str (qb q) ++ 46 :: z_str (qc q) ++ 46 :: z_str (qd q).
Definition cidr (q : quad) (p : Z) : str := dotted q ++ 47 :: z_str p.

Lemma quad_val_range q : quad_ok q → 0 ≤ quad_val q < 2 ^ 32.
Proof. intros (Ha & Hb & Hc & Hd). unfold quad_val. change (2 ^ 32) with 4294967296. lia. Qed.

Lemma split_on_none c s : c ∉ s → split_on c s = [s].
Proof.
  induction s as [|x s IH]; [done|]. rewrite not_elem_of_cons. intros [Hx Hs]. cbn [split_on].
  destruct (Z.eqb_spec x c); [by subst|]. by rewrite IH.
Qed.

Lemma split_on_sep c a b : c ∉ a → split_on c (a ++ c :: b) = a :: split_on c b.
Proof.
  induction a as [|x a IH]; [cbn; by rewrite Z.eqb_refl|]. rewrite not_elem_of_cons.
  intros [Hx Ha]. cbn [app split_on]. destruct (Z.eqb_spec x c); [by subst|]. by rewrite IH.
Qed.

Lemma z_str_no_sep c z : 0 ≤ z → is_digit c = false → c ∉ z_str z.
Proof.
  intros Hz Hc Hin. unfold z_str in Hin. destruct (Z.ltb_spec z 0); [lia|].
  assert (is_digit c = true); [|congruence]. by apply (proj1 (Forall_forall _ _) (nat_str_digits z)).
Qed.

(** Facts on 0..255 settled by evaluation. *)
Lemma octets_parse v : 0 ≤ v < 256 → parse_octet (z_str v) = Some v.
Proof.
  intros Hv. assert (forallb (λ v, bool_decide (parse_octet (z_str v) = Some v)) (zrange 0 256) = true)
    as Hall by (vm_compute; reflexivity).
  rewrite forallb_forall in Hall. specialize (Hall v). rewrite <- list_elem_of_In, elem_of_zrange in Hall.
  exact (bool_decide_eq_true_1 _ (Hall Hv)).
Qed.

Lemma prefix_parses p : 0 ≤ p ≤ 32 → parse_prefix (z_str p) = Some p.
Proof.
  intros Hp. assert (forallb (λ v, bool_decide (parse_prefix (z_str v) = Some v)) (zrange 0 33) = true)
    as Hall by (vm_compute; reflexivity).
  rewrite forallb_forall in Hall. specialize (Hall p). rewrite <- list_elem_of_In, elem_of_zrange in Hall.
  refine (bool_decide_eq_true_1 _ (Hall _)). lia.
Qed.

Lemma parse_dotted q : quad_ok q → parse_ipv4 (dotted q) = Some (quad_val q).
Proof.
  intros (Ha & Hb & Hc & Hd). unfold parse_ipv4, dotted.
  rewrite !split_on_sep, split_on_none by (by apply z_str_no_sep; [lia|]).
  by rewrite !octets_parse.
Qed.

Lemma dotted_no_slash q : quad_ok q → 47 ∉ dotted q.
Proof.
  intros (Ha & Hb & Hc & Hd). unfold dotted.
  rewrite !not_elem_of_app, !not_elem_of_cons, !not_elem_of_app, !not_elem_of_cons, !not_elem_of_app,
    !not_elem_of_cons.
  split_and!; try lia; by apply z_str_no_sep; [lia|].
Qed.

Lemma network_of_cidr q p : quad_ok q → 0 ≤ p ≤ 32 →
  ip_network (cidr q p) = Some (Z.land (quad_val q) (netmask p), netmask p).
Proof.
  intros Hq Hp. unfold ip_network, cidr. rewrite split_on_sep by by apply dotted_no_slash.
  rewrite split_on_none by (apply z_str_no_sep; [lia|done]).
  by rewrite prefix_parses, parse_dotted.
Qed.

(** ** Decisions *)

(** The configuration of an IP list: its mode, networks and services. *)
Definition ip_acl_cfg (mode : str) (entries : list (quad * Z)) (services : list str) : pyval :=
  VDict [(u "security", VDict [(u "ip_acl", VDict
    [(u "mode", VStr mode);
     (u "list", VList (map (λ e, VStr (cidr e.1 e.2)) entries));
     (u "apply_to", VList (map VStr services))])])].

Definition entry_ok (e : quad * Z) : Prop := quad_ok e.1 ∧ 0 ≤ e.2 ≤ 32.

Definition covered (entries : list (quad * Z)) (src : quad) : Prop :=
  ∃ e, e ∈ entries ∧ same_prefix e.2 (quad_val src) (quad_val e.1).

Lemma nets_of_entries entries :
  Forall entry_ok entries →
  omap (λ v, ip_network (py_str v)) (map (λ e, VStr (cidr e.1 e.2)) entries)
  = map (λ e, (Z.land (quad_val e.1) (netmask e.2), netmask e.2)) entries.
Proof.
  induction 1 as [|e es [Hq Hp] Hes IH]; [done|]. cbn [map omap list_omap py_str].
  rewrite network_of_cidr by done. f_equal. exact IH.
Qed.

Lemma covered_nets entries src :
  Forall entry_ok entries → quad_ok src →
  existsb (in_net (quad_val src))
    (map (λ e, (Z.land (quad_val e.1) (netmask e.2), netmask e.2)) entries) = true
  ↔ covered entries src.
Proof.
  intros Hes Hsrc. rewrite existsb_exists. unfold covered. split.
  - intros (n & Hn & Hin). apply list_elem_of_In, list_elem_of_fmap in Hn as (e & -> & He).
    pose proof (proj1 (Forall_forall _ _) Hes e He) as [Hq Hp].
    exists e. split; [done|]. by apply in_net_prefix in Hin; auto using quad_val_range.
  - intros (e & He & Hs). pose proof (proj1 (Forall_forall _ _) Hes e He) as [Hq Hp].
    eexists. split; [apply list_elem_of_In, list_elem_of_fmap; by exists e|].
    apply in_net_prefix; auto using quad_val_range.
Qed.

Lemma lower_strs_VStr ss : lower_strs (map VStr ss) = map lower ss.
Proof. unfold lower_strs. rewrite map_map. done. Qed.

Lemma reload_shape a b c :
  acl_reload (VDict [(u "security", VDict [(u "ip_acl", VDict
    [(u "mode", a); (u "list", b); (u "apply_to", c)])])])
  = il ← py_iter (py_or b (VList [])); ia ← py_iter (py_or c (VList []));
    Ok (mkACL (u "disabled") [] [] (lower (py_str a)) (omap (λ v, ip_network (py_str v)) il)
          (lower_strs ia)).
Proof. reflexivity. Qed.

Lemma reload_ip_acl mode entries services :
  Forall entry_ok entries →
  acl_reload (ip_acl_cfg mode entries services)
  = Ok (mkACL (u "disabled") [] [] (lower mode)
          (map (λ e, (Z.land (quad_val e.1) (netmask e.2), netmask e.2)) entries) (map lower services)).
Proof.
  intros Hes. unfold ip_acl_cfg. rewrite reload_shape.
  assert (∀ l, py_iter (py_or (VList l) (VList [])) = Ok l) as Hit by (by intros []).
  rewrite !Hit. cbn [mbind pyres_bind]. by rewrite nets_of_entries, lower_strs_VStr.
Qed.

Lemma check_ip_decision mode entries services service src :
  Forall entry_ok entries → quad_ok src →
  let a := mkACL (u "disabled") [] [] mode
    (map (λ e, (Z.land (quad_val e.1) (netmask e.2), netmask e.2)) entries) services in
  check_ip a service (dotted src) = true ↔
  (service ∉ services ∨ (mode = u "whitelist" ∧ covered entries src) ∨
   (mode = u "blacklist" ∧ ¬ covered entries src) ∨ (mode ≠ u "whitelist" ∧ mode ≠ u "blacklist")).
Proof.
  intros Hes Hsrc a. pose proof (covered_nets entries src Hes Hsrc) as Hcov.
  unfold check_ip, elem. rewrite parse_dotted by done. cbn [ip_apply ip_mode ip_nets a].
  assert (dotted src ≠ []) as Hne by (unfold dotted; by destruct (z_str (qa src))).
  rewrite (bool_decide_eq_false_2 (dotted src = [])) by done. rewrite andb_true_r.
  assert (u "disabled" ≠ u "whitelist" ∧ u "disabled" ≠ u "blacklist" ∧ u "whitelist" ≠ u "blacklist")
    as (N1 & N2 & N3) by (split_and!; str_ne).
  destruct (existsb _ _).
  - assert (covered entries src) as Hc by by apply Hcov. clear Hcov.
    repeat case_bool_decide; cbn; subst; intuition congruence.
  - assert (¬ covered entries src) as Hc by (intros Hc; by apply Hcov in Hc). clear Hcov.
    repeat case_bool_decide; cbn; subst; intuition congruence.
Qed.

(** [C33] An IP list means what its text says.  Loaded from the configuration
    with any CIDR entries and services, it lets a packet through exactly when
    the service is not one the list applies to, or the mode is "whitelist" (in
    any case) and some entry shares its prefix bits with the source address, or
    "blacklist" and none does, or neither; and it denies only on behalf of the
    IP list. *)
Theorem acl_ip_decision mode entries services service vlan src :
  Forall entry_ok entries → quad_ok src →
  ∃ a, acl_reload (ip_acl_cfg mode entries services) = Ok a ∧
    acl_check a service vlan (dotted src) ≠ Some DenyVlan ∧
    (acl_check a service vlan (dotted src) = None ↔
     (lower service ∉ map lower services ∨
      (lower mode = u "whitelist" ∧ covered entries src) ∨
      (lower mode = u "blacklist" ∧ ¬ covered entries src) ∨
      (lower mode ≠ u "whitelist" ∧ lower mode ≠ u "blacklist"))).
Proof.
  intros Hes Hsrc. eexists. split; [by apply reload_ip_acl|].
  pose proof (check_ip_decision (lower mode) entries (map lower services) (lower service) src Hes Hsrc)
    as Hd. cbn zeta in Hd. rewrite <- Hd. clear Hd. unfold acl_check.
  set (a := mkACL _ _ _ _ _ _).
  assert (check_vlan a (lower service) vlan = true) as -> by done. cbn [negb].
  destruct (check_ip a _ _); cbn [negb]; split; [done|done|done|done].
Qed.

Lemma acl_ip_decision_witness :
  ∃ a, acl_reload (ip_acl_cfg (u "Whitelist") [(mkQuad 10 1 2 3, 16)] [u "TFTP"]) = Ok a ∧
    acl_check a (u "tftp") None (dotted (mkQuad 10 1 200 7)) = None.
Proof.
  destruct (acl_ip_decision (u "Whitelist") [(mkQuad 10 1 2 3, 16)] [u "TFTP"] (u "tftp") None
    (mkQuad 10 1 200 7)) as (a & Ha & _ & Hiff).
  - repeat constructor; cbn; lia.
  - repeat split; cbn; lia.
  - exists a. split; [done|]. apply Hiff. right. left. split; [vm_compute; reflexivity|].
    eexists. split; [by left|]. vm_compute. reflexivity.
Defined.

(** The configuration of a VLAN list. *)
Definition vlan_acl_cfg (mode : str) (vlans : list Z) (services : list str) : pyval :=
  VDict [(u "security", VDict [(u "vlan_acl", VDict
    [(u "mode", VStr mode); (u "list", VList (map VInt vlans));
     (u "apply_to", VList (map VStr services))])])].

Lemma map_int_VInt zs : map_int (map VInt zs) = Ok zs.
Proof. induction zs as [|z zs IH]; [done|]. cbn [map map_int]. by rewrite IH. Qed.

Lemma reload_vlan_shape a b c :
  acl_reload (VDict [(u "security", VDict [(u "vlan_acl", VDict
    [(u "mode", a); (u "list", b); (u "apply_to", c)])])])
  = vl ← (il ← py_iter (py_or b (VList [])); map_int il); va ← py_iter (py_or c (VList []));
    Ok (mkACL (lower (py_str a)) vl (lower_strs va) (u "disabled") [] []).
Proof. reflexivity. Qed.

(** A VLAN list means what its text says: a frame passes exactly when the
    service is out of the list's scope, or the mode is "whitelist" and its VLAN
    is listed, or "blacklist" and it is not, or neither, where an untagged frame
    counts as VLAN 0; and the VLAN list alone never blames the IP list. *)
Theorem acl_vlan_decision mode vlans services service vlan src_ip :
  ∃ a, acl_reload (vlan_acl_cfg mode vlans services) = Ok a ∧
    acl_check a service vlan src_ip ≠ Some DenyIp ∧
    (acl_check a service vlan src_ip = None ↔
     (lower service ∉ map lower services ∨
      (lower mode = u "whitelist" ∧ default 0 vlan ∈ vlans) ∨
      (lower mode = u "blacklist" ∧ default 0 vlan ∉ vlans) ∨
      (lower mode ≠ u "whitelist" ∧ lower mode ≠ u "blacklist"))).
Proof.
  eexists. split.
  { unfold vlan_acl_cfg. rewrite reload_vlan_shape.
    assert (∀ l, py_iter (py_or (VList l) (VList [])) = Ok l) as Hit by (by intros []).
    rewrite !Hit. cbn [mbind pyres_bind]. by rewrite map_int_VInt, lower_strs_VStr. }
  unfold acl_check, check_vlan, check_ip, elem.
  cbn [vlan_mode vlan_list vlan_apply ip_mode ip_nets ip_apply py_str].
  rewrite (bool_decide_eq_false_2 (lower service ∈ [])) by apply not_elem_of_nil. cbn [andb negb].
  assert (u "disabled" ≠ u "whitelist" ∧ u "disabled" ≠ u "blacklist" ∧ u "whitelist" ≠ u "blacklist")
    as (N1 & N2 & N3) by (split_and!; str_ne).
  generalize (lower mode). intros m. generalize (map lower services). intros ss.
  generalize dependent (lower service). intros sv.
  repeat case_bool_decide; cbn; subst; intuition congruence.
Qed.
