(* ===== verification/Session.v ===== *)
(** * One transfer (src/tftp/session.py)

    A session is a coroutine that waits for its client in
    [asyncio.wait_for(self.queue.get(), timeout)].  What each such wait ends
    with is an [event]; a run of the session is a function of the list of its
    events, and it is [Blocked] when the list ends while it waits.  Its other
    awaits - the load of the file, the writes to the temporary file, the upload
    to an FTP server - are part of the step they occur in.
    The state holds what the session reports ([SessionInfo]), what it sent,
    and the shared objects it works on: counters, cache, lock table and files
    under [write_root]. *)

From S2P Require Import Prelude Python Constants Wire Options Stats FileLock Cache Paths.
Open Scope Z_scope.

Inductive event :=
| Pkt (p : list Z)
| Timeout
| Cancel.

Inductive outcome (A : Type) :=
| Ret (a : A)
| Exc (e : exc)
| Cancelled
| Blocked.
Arguments Ret {A} a.
Arguments Exc {A} e.
Arguments Cancelled {A}.
Arguments Blocked {A}.

(** The constructor arguments the coroutine reads. *)
Record config := mkConfig {
  sc_id : list Z;
  sc_request : Request;
  sc_cfg : list (list Z * pyval);
  sc_write_root : list Z;
  sc_enable_writes : bool;
  sc_max_rrq_size : Z;
  sc_max_wrq_size : Z;
  sc_max_ftp_size : Z;
  sc_allow_wrq_ftp : bool;
  sc_ftp_trigger : list Z;
  sc_allow_rollover : bool;
}.

(** What the session calls outside this file: [source.read], [source.upload]
    (given the contents of the uploaded file), [os.makedirs] with
    [aiofiles.open] (the message of the [OSError], if any), and what the other sessions did to the lock table while
    this one was suspended. *)
Record env := mkEnv {
  env_read : list Z → pyres (option (list Z));
  env_upload : list Z → list Z → pyres bool;
  env_open : list Z → option (list Z);
  env_others : gmap (list Z) Entry → gmap (list Z) Entry;
}.

Record sess := mkSess {
  x_sent : list (list Z);
  x_stats : list (counter * Z);
  x_state : list Z;
  x_fault : bool;
  x_transferred : Z;
  x_total : option Z;
  x_blksize : Z;
  x_windowsize : Z;
  x_cache : FileCache;
  x_locks : gmap (list Z) Entry;
  x_fs : list (list Z * list Z);
}.

Definition on_sent (f : list bytes → list bytes) (x : sess) : sess :=
  mkSess (f (x_sent x)) (x_stats x) (x_state x) (x_fault x) (x_transferred x) (x_total x)
    (x_blksize x) (x_windowsize x) (x_cache x) (x_locks x) (x_fs x).
Definition on_stats (f : list (counter * Z) → list (counter * Z)) (x : sess) : sess :=
  mkSess (x_sent x) (f (x_stats x)) (x_state x) (x_fault x) (x_transferred x) (x_total x)
    (x_blksize x) (x_windowsize x) (x_cache x) (x_locks x) (x_fs x).
Definition set_state (s : str) (x : sess) : sess :=
  mkSess (x_sent x) (x_stats x) s (x_fault x) (x_transferred x) (x_total x)
    (x_blksize x) (x_windowsize x) (x_cache x) (x_locks x) (x_fs x).
Definition set_fault (x : sess) : sess :=
  mkSess (x_sent x) (x_stats x) (x_state x) true (x_transferred x) (x_total x)
    (x_blksize x) (x_windowsize x) (x_cache x) (x_locks x) (x_fs x).
Definition set_transferred (n : Z) (x : sess) : sess :=
  mkSess (x_sent x) (x_stats x) (x_state x) (x_fault x) n (x_total x)
    (x_blksize x) (x_windowsize x) (x_cache x) (x_locks x) (x_fs x).
Definition set_total (n : Z) (x : sess) : sess :=
  mkSess (x_sent x) (x_stats x) (x_state x) (x_fault x) (x_transferred x) (Some n)
    (x_blksize x) (x_windowsize x) (x_cache x) (x_locks x) (x_fs x).
Definition set_sizes (b w : Z) (x : sess) : sess :=
  mkSess (x_sent x) (x_stats x) (x_state x) (x_fault x) (x_transferred x) (x_total x)
    b w (x_cache x) (x_locks x) (x_fs x).
Definition set_cache (c : FileCache) (x : sess) : sess :=
  mkSess (x_sent x) (x_stats x) (x_state x) (x_fault x) (x_transferred x) (x_total x)
    (x_blksize x) (x_windowsize x) c (x_locks x) (x_fs x).
Definition set_locks (l : gmap (list Z) Entry) (x : sess) : sess :=
  mkSess (x_sent x) (x_stats x) (x_state x) (x_fault x) (x_transferred x) (x_total x)
    (x_blksize x) (x_windowsize x) (x_cache x) l (x_fs x).
Definition on_fs (f : list (str * bytes) → list (str * bytes)) (x : sess) : sess :=
  mkSess (x_sent x) (x_stats x) (x_state x) (x_fault x) (x_transferred x) (x_total x)
    (x_blksize x) (x_windowsize x) (x_cache x) (x_locks x) (f (x_fs x)).

(** ** The session monad *)

Definition M (A : Type) : Type := list event → sess → outcome A * list event * sess.

#[export] Instance M_ret : MRet M := λ A a evs x, (Ret a, evs, x).
#[export] Instance M_bind : MBind M := λ A B f m evs x,
  match m evs x with
  | (Ret a, evs, x) => f a evs x
  | (Exc e, evs, x) => (Exc e, evs, x)
  | (Cancelled, evs, x) => (Cancelled, evs, x)
  | (Blocked, evs, x) => (Blocked, evs, x)
  end.

Definition raise {A} (e : exc) : M A := λ evs x, (Exc e, evs, x).
Definition lift {A} (r : pyres A) : M A := λ evs x,
  match r with Ok a => (Ret a, evs, x) | Raise e => (Exc e, evs, x) end.
(** A loop written in state-passing style. *)
Definition prim {A} (f : list event → sess → outcome A * list event * sess) : M A := f.
Definition modify (f : sess → sess) : M unit := λ evs x, (Ret tt, evs, f x).

(** [a // b]. *)
Definition floordiv (a b : Z) : pyres Z :=
  if b =? 0 then Raise (ZeroDivisionError (u "integer division or modulo by zero")) else Ok (a / b).

(** ** Small helpers of the source *)

Definition is_server_fault (code : Z) (msg : str) : bool :=
  let m := lower msg in
  if code =? ERR_UNDEFINED then
    negb (contains (u "timeout") m || contains (u "client never acked") m)
  else false.

(** [_send] at the level of UDP payloads (Frame.v has the frame around it). *)
Definition send (count : bool) (payload : bytes) (x : sess) : sess :=
  let x := on_sent (λ l, l ++ [payload]) x in
  if count then on_stats (bump bytes_sent (zlen payload)) x else x.

(** [_send_error]. *)
Definition send_error (code : Z) (msg : str) : M unit :=
  pkt ← lift (pack_error code msg);
  _ ← modify (send false pkt);
  modify (on_stats (bump tftp_errors 1)).

Definition is_ftp_name (c : config) (filename : str) : bool :=
  if starts_with (u "ftp://") (lower filename) then true
  else match sc_ftp_trigger c with [] => false | t => starts_with t filename end.

Definition rrq_limit (c : config) (filename : str) : Z :=
  if is_ftp_name c filename then sc_max_ftp_size c else sc_max_rrq_size c.

(** [feed]: a full queue drops the packet. *)
Definition feed (queue : list bytes) (payload : bytes) : list bytes :=
  if TFTP_SESSION_QUEUE_MAX <=? zlen queue then queue else queue ++ [payload].

(** [int(self.cfg.get("max_retries", TFTP_MAX_RETRIES_DEFAULT))]. *)
Definition get_max_retries (c : config) : pyres Z :=
  py_int (cfg_get (sc_cfg c) (u "max_retries") (VInt TFTP_MAX_RETRIES_DEFAULT)).

(** [async with self.locks.try_read(f)] (and [try_write]): the release runs on
    every exit of the body, on the table the other sessions left. *)
Definition with_lock {A} (E : env) (m : mode) (f : str) (body : M A) : M A := λ evs x,
  match acquire m f (x_locks x) with
  | (Raise e, l) => (Exc e, evs, set_locks l x)
  | (Ok _, l) =>
      match body evs (set_locks l x) with
      | (Blocked, evs, x) => (Blocked, evs, x)
      | (o, evs, x) => (o, evs, set_locks (release m f (env_others E (x_locks x))) x)
      end
  end.

(** [except FileLockError as e: raise TFTPError(ERR_ACCESS, str(e))]. *)
Definition lock_to_tftp {A} (body : M A) : M A := λ evs x,
  match body evs x with
  | (Exc (FileLockError m), evs, x) => (Exc (TFTPError ERR_ACCESS m), evs, x)
  | r => r
  end.

(** ** Downloads *)

(** The candidate search both directions use to map a 16-bit block number
    back to an absolute one. *)
Definition find_block (lo hi block : Z) : option Z :=
  List.find (λ c, (c mod 65536) =? block) (zrange lo hi).

(** The error a client's ERROR packet becomes. *)
Definition client_error (p : bytes) : exc :=
  match parse_error p with
  | Ok err => TFTPError (error_code err) (error_message err)
  | Raise e => e
  end.

(** [_send_oack_await_ack]: [attempt] counts the rounds left of
    [range(max_retries)]. *)
Fixpoint oack_loop (oack : bytes) (attempts : nat) : M bool := λ evs x,
  match attempts with
  | O => (Ret false, evs, x)
  | S n =>
      let x := send true oack x in
      match evs with
      | [] => (Blocked, [], x)
      | Cancel :: evs => (Cancelled, evs, x)
      | Timeout :: evs => oack_loop oack n evs x
      | Pkt p :: evs =>
          match peek_opcode p with
          | Raise e => (Exc e, evs, x)
          | Ok op =>
              let next :=
                if op =? OP_ERROR then (Exc (client_error p), evs, x) else oack_loop oack n evs x in
              if op =? OP_ACK then
                match parse_ack p with
                | Raise e => (Exc e, evs, x)
                | Ok ack => if ack_block ack =? 0 then (Ret true, evs, x) else next
                end
              else next
          end
      end
  end.

Definition send_oack_await_ack (c : config) (neg : Negotiated) : M bool :=
  oack ← lift (pack_oack (neg_reply neg));
  max_retries ← lift (get_max_retries c);
  oack_loop oack (Z.to_nat max_retries).

(** [slice_block]. *)
Definition slice_block (data : bytes) (blksize n : Z) : bytes :=
  let offset := (n - 1) * blksize in py_slice data offset (offset + blksize).

(** The [for bn in range(window_start, window_end + 1)] loop. *)
Definition send_blocks (data : bytes) (blksize : Z) (bns : list Z) (x : sess) : sess :=
  fold_left (λ x bn, send true (pack_data (bn mod 65536) (slice_block data blksize bn)) x) bns x.

Section send_file.
Variables (data : list Z) (blksize windowsize max_retries total_blocks : Z).

(** The [while last_ack < total_blocks] loop of [_send_file]. *)
Fixpoint send_loop (evs : list event) (x : sess) (last_ack retries : Z)
  : outcome unit * list event * sess :=
  if last_ack <? total_blocks then
    let window_start := last_ack + 1 in
    let window_end := Z.min (window_start + windowsize - 1) total_blocks in
    let x := send_blocks data blksize (zrange window_start (window_end + 1)) x in
    match evs with
    | [] => (Blocked, [], x)
    | Cancel :: evs => (Cancelled, evs, x)
    | Timeout :: evs =>
        if max_retries <? retries + 1
        then (Exc (TFTPError ERR_UNDEFINED (u "timeout waiting for ACK")), evs, x)
        else send_loop evs x last_ack (retries + 1)
    | Pkt p :: evs =>
        match peek_opcode p with
        | Raise e => (Exc e, evs, x)
        | Ok op =>
            if op =? OP_ERROR then (Exc (client_error p), evs, x)
            else if negb (op =? OP_ACK) then send_loop evs x last_ack retries
            else match parse_ack p with
                 | Raise e => (Exc e, evs, x)
                 | Ok ack =>
                     match find_block window_start (window_end + 1) (ack_block ack) with
                     | Some c => send_loop evs (set_transferred (Z.min (zlen data) (c * blksize)) x) c 0
                     | None => send_loop evs x last_ack retries
                     end
                 end
        end
    end
  else (Ret tt, evs, x).
End send_file.

Definition send_file (c : config) (data : bytes) (neg : Negotiated) : M unit :=
  _ ← modify (set_state (u "transferring"));
  let blksize := neg_blksize neg in
  let windowsize := Z.max 1 (neg_windowsize neg) in
  max_retries ← lift (get_max_retries c);
  q ← lift (floordiv (zlen data) blksize);
  prim (λ evs x, send_loop data blksize windowsize max_retries (q + 1) evs x 0 0).

(** [_run_rrq]. *)
Definition mode_ok (m : str) : bool := bool_decide (m = u "octet") || bool_decide (m = u "netascii").

Definition cached_read (E : env) (filename : str) : M (option bytes) := λ evs x,
  let '(data, cache, st) := get_or_load (env_read E) filename (x_cache x) (x_stats x) in
  (Ret data, evs, set_cache cache (on_stats (λ _, st) x)).

Definition rrq_body (E : env) (c : config) : M unit :=
  let filename := req_filename (sc_request c) in
  data ← cached_read E filename;
  match data with
  | None => raise (TFTPError ERR_NOT_FOUND (u "file not found: " ++ filename))
  | Some data =>
      let limit := rrq_limit c filename in
      if negb (limit =? 0) && (limit <? zlen data) then
        raise (TFTPError ERR_DISK_FULL
          (u "file exceeds size limit (" ++ z_str (zlen data) ++ u " > " ++ z_str limit ++ u ")"))
      else
        _ ← modify (set_total (zlen data));
        neg ← lift (negotiate (req_options (sc_request c)) (sc_cfg c) (Some (zlen data)) true);
        _ ← modify (set_sizes (neg_blksize neg) (neg_windowsize neg));
        q ← lift (floordiv (zlen data) (neg_blksize neg));
        if negb (sc_allow_rollover c) && (65535 <? q + 1) then
          raise (TFTPError ERR_UNDEFINED
            (u "transfer needs " ++ z_str (q + 1) ++ u " blocks; block-number rollover disabled"))
        else
          match neg_reply neg with
          | [] => send_file c data neg
          | _ =>
              ok ← send_oack_await_ack c neg;
              if negb ok then raise (TFTPError ERR_UNDEFINED (u "client never acked OACK"))
              else send_file c data neg
          end
  end.

Definition completed : M unit :=
  _ ← modify (on_stats (bump tftp_sessions_completed 1));
  modify (set_state (u "done")).

Definition run_rrq (E : env) (c : config) : M unit :=
  _ ← modify (on_stats (bump tftp_rrq 1));
  let md := req_mode (sc_request c) in
  if negb (mode_ok md) then raise (TFTPError ERR_ILLEGAL_OP (u "unsupported mode " ++ md))
  else lock_to_tftp (
    _ ← with_lock E Rd (req_filename (sc_request c)) (rrq_body E c);
    completed).

(** ** Uploads *)

(** [fh.write(payload)] with the two counters that follow it. *)
Definition write_payload (tmp : str) (payload : bytes) (x : sess) : sess :=
  let x := on_fs (λ fs, dict_set tmp (default [] (dict_get tmp fs) ++ payload) fs) x in
  let x := set_transferred (x_transferred x + zlen payload) x in
  on_stats (bump bytes_received (zlen payload)) x.

(** [while expected in window_received]; the fuel is the number of buffered
    blocks, one of which every iteration removes. *)
Fixpoint drain (fuel : nat) (tmp : str) (expected : Z) (w : list (Z * bytes)) (x : sess)
  : Z * list (Z * bytes) * sess :=
  match fuel with
  | O => (expected, w, x)
  | S n =>
      match dict_get expected w with
      | None => (expected, w, x)
      | Some buf => drain n tmp (expected + 1) (dict_del expected w) (write_payload tmp buf x)
      end
  end.

Section recv_file.
Variables (tmp : list Z) (blksize windowsize max_retries max_wrq_size : Z) (allow_rollover : bool).

(** The [while True] loop of [_recv_file]. *)
Fixpoint recv_loop (evs : list event) (x : sess) (expected retries : Z) (w : list (Z * bytes))
  : outcome unit * list event * sess :=
  match evs with
  | [] => (Blocked, [], x)
  | Cancel :: evs => (Cancelled, evs, x)
  | Timeout :: evs =>
      if max_retries <? retries + 1
      then (Exc (TFTPError ERR_UNDEFINED (u "timeout waiting for DATA")), evs, x)
      else recv_loop evs (send true (pack_ack ((expected - 1) mod 65536)) x) expected (retries + 1) w
  | Pkt p :: evs =>
      match peek_opcode p with
      | Raise e => (Exc e, evs, x)
      | Ok op =>
          if op =? OP_ERROR then (Exc (client_error p), evs, x)
          else if negb (op =? OP_DATA) then recv_loop evs x expected retries w
          else match parse_data p with
          | Raise e => (Exc e, evs, x)
          | Ok d =>
              let payload := data_payload d in
              match find_block expected (expected + windowsize) (data_block d) with
              | None => recv_loop evs (send true (pack_ack ((expected - 1) mod 65536)) x) expected 0 w
              | Some matched =>
                  if matched =? expected then
                    if negb (max_wrq_size =? 0) && (max_wrq_size <? x_transferred x + zlen payload)
                    then (Exc (TFTPError ERR_DISK_FULL
                           (u "upload exceeded max_wrq_size (" ++ z_str max_wrq_size ++ u ")")), evs, x)
                    else
                      let x := write_payload tmp payload x in
                      if negb allow_rollover && (65536 <? expected + 1)
                      then (Exc (TFTPError ERR_UNDEFINED
                             (u "upload exceeded 65535 blocks; rollover disabled")), evs, x)
                      else
                        let '(expected, w, x) := drain (length w) tmp (expected + 1) w x in
                        let x := send true (pack_ack ((expected - 1) mod 65536)) x in
                        if zlen payload <? blksize then (Ret tt, evs, x)
                        else recv_loop evs x expected 0 w
                  else
                    recv_loop evs (send true (pack_ack ((expected - 1) mod 65536)) x) expected 0
                      (dict_set matched payload w)
              end
          end
      end
  end.
End recv_file.

(** [os.replace(tmp, dest)]. *)
Definition fs_replace (tmp dest : str) (fs : list (str * bytes)) : list (str * bytes) :=
  match dict_get tmp fs with
  | Some d => dict_set dest d (dict_del tmp fs)
  | None => fs
  end.

Definition recv_file (E : env) (c : config) (dest : str) (neg : Negotiated) : M unit :=
  _ ← modify (set_state (u "receiving"));
  max_retries ← lift (get_max_retries c);
  let tmp := dest ++ u ".part" in
  _ ← lift (match env_open E tmp with None => Ok tt | Some m => Raise (OSError m) end);
  _ ← modify (on_fs (dict_set tmp []));
  _ ← prim (λ evs x, recv_loop tmp (neg_blksize neg) (Z.max 1 (neg_windowsize neg)) max_retries
                  (sc_max_wrq_size c) (sc_allow_rollover c) evs x 1 0 []);
  modify (on_fs (fs_replace tmp dest)).

(** The announced size: [neg.reply.get("tsize")] when it is not empty and
    [int()] accepts it. *)
Definition advertised_size (neg : Negotiated) : option Z :=
  match dict_get (u "tsize") (neg_reply neg) with
  | None | Some [] => None
  | Some s => match int_of_str s with Ok z => Some z | Raise _ => None end
  end.

(** The post-receipt upload of an FTP target. *)
Definition ftp_upload (E : env) (filename safe_path : str) : M unit := λ evs x,
  let ok := match env_upload E filename (default [] (dict_get safe_path (x_fs x))) with
            | Ok b => b | Raise _ => false end in
  let x := on_fs (dict_del safe_path) x in
  if ok then (Ret tt, evs, x)
  else (Exc (TFTPError ERR_UNDEFINED (u "FTP upload failed (see logs)")), evs, x).

(** The two up-front refusals of an announced upload. *)
Definition check_advertised (c : config) (neg : Negotiated) : M unit :=
  match advertised_size neg with
  | None => mret tt
  | Some a =>
      _ ← modify (set_total a);
      if negb (sc_max_wrq_size c =? 0) && (sc_max_wrq_size c <? a) then
        raise (TFTPError ERR_DISK_FULL
          (u "upload exceeds max_wrq_size (" ++ z_str a ++ u " > " ++ z_str (sc_max_wrq_size c) ++ u ")"))
      else if negb (sc_allow_rollover c) then
        q ← lift (floordiv a (neg_blksize neg));
        if 65535 <? q + 1 then
          raise (TFTPError ERR_UNDEFINED
            (u "upload needs " ++ z_str (q + 1) ++ u " blocks; block-number rollover disabled"))
        else mret tt
      else mret tt
  end.

Definition wrq_body (E : env) (c : config) (is_ftp : bool) (safe_path : str) : M unit :=
  neg ← lift (negotiate (req_options (sc_request c)) (sc_cfg c) None false);
  _ ← modify (set_sizes (neg_blksize neg) (neg_windowsize neg));
  _ ← check_advertised c neg;
  first ← match neg_reply neg with [] => mret (pack_ack 0) | r => lift (pack_oack r) end;
  _ ← modify (send true first);
  _ ← recv_file E c safe_path neg;
  if is_ftp then ftp_upload E (req_filename (sc_request c)) safe_path else mret tt.

(** [_run_wrq]. *)
Definition run_wrq `{OsPath} (E : env) (c : config) : M unit :=
  _ ← modify (on_stats (bump tftp_wrq 1));
  let filename := req_filename (sc_request c) in
  let md := req_mode (sc_request c) in
  let is_ftp := is_ftp_name c filename in
  if negb (sc_enable_writes c) then raise (TFTPError ERR_ACCESS (u "writes disabled"))
  else if negb (mode_ok md) then raise (TFTPError ERR_ILLEGAL_OP (u "unsupported mode " ++ md))
  else if is_ftp && negb (sc_allow_wrq_ftp c) then
    raise (TFTPError ERR_ACCESS
      (u "writes to FTP are disabled (enable files.allow_wrq_ftp to permit)"))
  else
    safe_path ← lift (safe_join (sc_write_root c)
      (if is_ftp then u ".wrq_ftp_" ++ sc_id c ++ u ".bin" else filename));
    lock_to_tftp (
      _ ← with_lock E Wr filename (wrq_body E c is_ftp safe_path);
      completed).

(** [_safe_run] up to the call of [on_complete] (Server.v), which every exit
    makes. *)
Definition safe_run `{OsPath} (E : env) (c : config) : M unit := λ evs x,
  match (if req_opcode (sc_request c) =? OP_RRQ then run_rrq E c else run_wrq E c) evs x with
  | (Exc (TFTPError code msg), evs, x) =>
      (_ ← send_error code msg;
       _ ← modify (set_state msg);
       if is_server_fault code msg then
         _ ← modify set_fault; modify (on_stats (bump tftp_sessions_failed 1))
       else mret tt) evs x
  | (Exc e, evs, x) =>
      let msg := u "server error: " ++ exc_str e in
      (_ ← send_error ERR_UNDEFINED msg;
       _ ← modify (set_state msg);
       _ ← modify set_fault;
       modify (on_stats (bump tftp_sessions_failed 1))) evs x
  | r => r
  end.

(** ** Blocks *)

(** [(total // blksize) + 1]. *)
Definition block_count (data : bytes) (blksize : Z) : Z := zlen data / blksize + 1.

Lemma slice_block_eq data blksize n :
  0 < blksize → 1 ≤ n →
  slice_block data blksize n = take (Z.to_nat blksize) (drop (Z.to_nat ((n - 1) * blksize)) data).
Proof.
  intros Hb Hn. unfold slice_block. rewrite py_slice_nonneg by nia. f_equal. lia.
Qed.

Lemma zlen_slice_block data blksize n :
  0 < blksize → 1 ≤ n →
  zlen (slice_block data blksize n) = Z.max 0 (Z.min blksize (zlen data - (n - 1) * blksize)).
Proof.
  intros Hb Hn. rewrite slice_block_eq by done. unfold zlen. rewrite length_take, length_drop.
  nia.
Qed.

Lemma concat_blocks data blksize k :
  0 < blksize → 0 ≤ k →
  concat (map (slice_block data blksize) (zrange 1 (k + 1))) = take (Z.to_nat (k * blksize)) data.
Proof.
  intros Hb. revert k. refine (natlike_ind _ _ _); [by rewrite zrange_empty by lia|].
  intros k Hk IH. replace (Z.succ k + 1) with (k + 1 + 1) by lia.
  rewrite zrange_snoc by lia. rewrite map_app, concat_app, IH. cbn. rewrite app_nil_r.
  rewrite slice_block_eq by lia. replace (k + 1 - 1) with k by lia.
  rewrite take_take_drop. f_equal. nia.
Qed.

Lemma block_count_bounds data blksize :
  0 < blksize →
  1 ≤ block_count data blksize ∧
  (block_count data blksize - 1) * blksize ≤ zlen data < block_count data blksize * blksize.
Proof.
  intros Hb. unfold block_count. pose proof (zlen_nonneg data).
  pose proof (Z.div_pos (zlen data) blksize ltac:(lia) Hb).
  pose proof (Z.mul_div_le (zlen data) blksize Hb).
  pose proof (Z.mul_succ_div_gt (zlen data) blksize Hb). nia.
Qed.

Lemma concat_all_blocks data blksize :
  0 < blksize →
  concat (map (slice_block data blksize) (zrange 1 (block_count data blksize + 1))) = data.
Proof.
  intros Hb. destruct (block_count_bounds data blksize Hb) as (H1 & H2 & H3).
  rewrite concat_blocks by lia. apply take_ge. unfold zlen in H3. lia.
Qed.

(** ** Block numbers on the wire *)

Lemma find_block_Some lo hi b c : find_block lo hi b = Some c → lo ≤ c < hi ∧ c mod 65536 = b.
Proof.
  unfold find_block. intros Hf. apply List.find_some in Hf as [Hin Heq].
  apply list_elem_of_In, elem_of_zrange in Hin. zbool. done.
Qed.

Lemma find_block_None lo hi b c : find_block lo hi b = None → lo ≤ c < hi → c mod 65536 ≠ b.
Proof.
  unfold find_block. intros Hf Hc Heq. eapply List.find_none in Hf; [|apply list_elem_of_In, elem_of_zrange, Hc].
  cbn in Hf. zbool. done.
Qed.

(** A window of at most 65536 blocks determines the absolute number. *)
Lemma find_block_window lo hi c :
  hi - lo ≤ 65536 → lo ≤ c < hi → find_block lo hi (c mod 65536) = Some c.
Proof.
  intros Hw Hc. destruct (find_block lo hi (c mod 65536)) as [c'|] eqn:Hf.
  - apply find_block_Some in Hf as [Hc' Hm]. f_equal.
    pose proof (Z.div_mod c 65536 ltac:(lia)). pose proof (Z.div_mod c' 65536 ltac:(lia)). lia.
  - by eapply find_block_None in Hf.
Qed.

(** ** Sending *)

(** The DATA packet of block [n]. *)
Definition data_packet (data : bytes) (blksize n : Z) : bytes :=
  pack_data (n mod 65536) (slice_block data blksize n).

Lemma send_blocks_sent data blksize bns x :
  x_sent (send_blocks data blksize bns x) = x_sent x ++ map (data_packet data blksize) bns.
Proof.
  unfold send_blocks. revert x. induction bns as [|b bns IH]; intros x; cbn [fold_left map].
  - by rewrite app_nil_r.
  - rewrite IH. cbn [send on_sent on_stats x_sent]. by rewrite <- app_assoc.
Qed.

(** The part of the state a window does not touch. *)
Definition same_but_sent (x x' : sess) : Prop :=
  x_state x' = x_state x ∧ x_fault x' = x_fault x ∧ x_transferred x' = x_transferred x ∧
  x_total x' = x_total x ∧ x_cache x' = x_cache x ∧ x_locks x' = x_locks x ∧ x_fs x' = x_fs x.

Lemma send_blocks_same data blksize bns x : same_but_sent x (send_blocks data blksize bns x).
Proof.
  unfold send_blocks. revert x. induction bns as [|b bns IH]; intros x; cbn [fold_left]; [done|].
  specialize (IH (send true (pack_data (b mod 65536) (slice_block data blksize b)) x)).
  unfold same_but_sent in *. destruct IH as (-> & -> & -> & -> & -> & -> & ->). done.
Qed.

(** ** Sample objects

    A session configuration, state and surroundings to run the definitions on. *)

Definition demo_config (op : Z) : config :=
  mkConfig (u "5e55") (mkRequest op (u "fw") (u "octet") []) [(u "max_retries", VInt 2)]
    (u "C:\up") true 0 0 0 false (u "f::") false.
Definition demo_sess : sess :=
  mkSess [] Counters_init (u "init") false 0 None 512 1 (FileCache_init 100 100 true) ∅ [].
Definition demo_neg : Negotiated := mkNegotiated 2 2 3 None [].
Definition demo_env : env :=
  mkEnv (λ f, if decide (f = u "fw") then Ok (Some [1; 2; 3]) else Ok None)
    (λ _ _, Ok true) (λ _, None) id.

(** The blocks of a download are the file: concatenated in order they
    give back its contents, every block but the last is full, and the last one
    is short, which is what tells the client that the file ends (an empty
    block when the size is a multiple of the block size). *)
Theorem blocks_reassemble data blksize :
  0 < blksize →
  concat (map (slice_block data blksize) (zrange 1 (block_count data blksize + 1))) = data ∧
  (∀ n, 1 ≤ n < block_count data blksize → zlen (slice_block data blksize n) = blksize) ∧
  zlen (slice_block data blksize (block_count data blksize)) = zlen data mod blksize ∧
  zlen data mod blksize < blksize.
Proof.
  intros Hb. destruct (block_count_bounds data blksize Hb) as (H1 & H2 & H3).
  split_and!; [by apply concat_all_blocks| | |].
  - intros n Hn. rewrite zlen_slice_block by lia. nia.
  - rewrite zlen_slice_block by lia. rewrite Z.mod_eq by lia. unfold block_count in *. nia.
  - by apply Z.mod_pos_bound.
Qed.

Lemma blocks_reassemble_witness :
  block_count [1; 2; 3; 4] 2 = 3 ∧
  concat (map (slice_block [1; 2; 3; 4] 2) (zrange 1 (block_count [1; 2; 3; 4] 2 + 1))) = [1; 2; 3; 4].
Proof. split; [reflexivity|]. apply (blocks_reassemble [1; 2; 3; 4] 2). lia. Defined.
