(* ===== verification/Download.v ===== *)
(** * Downloads (the RRQ side of src/tftp/session.py)

    What [_send_file] guarantees against an arbitrary peer, and what it does
    with a peer that cooperates over a lossy network. *)

From S2P Require Import Prelude Python Constants Wire Options Stats FileLock Cache Paths Session.
Open Scope Z_scope.

(** ** Safety against any peer *)

Section download.
Context (data : list Z) (blksize windowsize max_retries : Z).

Local Abbreviation tb := (block_count data blksize).

(** A packet is a DATA packet of the file. *)
Definition genuine (p : bytes) : Prop := ∃ n, 1 ≤ n ≤ block_count data blksize ∧ p = data_packet data blksize n.

(** Blocks up to [la] are acknowledged: they were sent after [pre], nothing
    but packets of the file was, and the reported progress counts them. *)
Record dl_inv (pre : list bytes) (x : sess) (la : Z) : Prop := {
  dl_range : 0 ≤ la ≤ tb;
  dl_sent : ∃ l, x_sent x = pre ++ l ∧ Forall genuine l ∧
                 ∀ n, 1 ≤ n ≤ la → data_packet data blksize n ∈ l;
  dl_progress : x_transferred x = Z.min (zlen data) (la * blksize);
}.

(** The blocks of the window after [la]. *)
Definition window (la : Z) : list Z :=
  zrange (la + 1) (Z.min (la + 1 + windowsize - 1) (block_count data blksize) + 1).

Lemma elem_of_window la n : n ∈ window la ↔ la < n ≤ Z.min (la + windowsize) tb.
Proof. unfold window. rewrite elem_of_zrange. lia. Qed.

Lemma window_genuine la : 0 ≤ la → Forall genuine (map (data_packet data blksize) (window la)).
Proof.
  intros Hla. apply Forall_forall. intros p Hp. apply list_elem_of_fmap in Hp as (n & -> & Hn).
  apply elem_of_window in Hn. exists n. split; [lia|done].
Qed.

Lemma dl_inv_window pre x la :
  dl_inv pre x la → dl_inv pre (send_blocks data blksize (window la) x) la.
Proof.
  intros [Hr (l & Hs & Hg & Ha) Hp]. destruct (send_blocks_same data blksize (window la) x)
    as (_ & _ & Ht & _). split; [done| |congruence].
  exists (l ++ map (data_packet data blksize) (window la)). split_and!.
  - rewrite send_blocks_sent, Hs. by rewrite app_assoc.
  - apply Forall_app. split; [done|]. apply window_genuine. lia.
  - intros n Hn. apply elem_of_app. left. by apply Ha.
Qed.

Lemma dl_inv_ack pre x la c :
  dl_inv pre x la → c ∈ window la →
  dl_inv pre (set_transferred (Z.min (zlen data) (c * blksize))
                (send_blocks data blksize (window la) x)) c.
Proof.
  intros [Hr (l & Hs & Hg & Ha) Hp] Hc. apply elem_of_window in Hc as Hc'.
  split; [lia| |done]. exists (l ++ map (data_packet data blksize) (window la)). split_and!.
  - cbn [x_sent set_transferred]. rewrite send_blocks_sent, Hs. by rewrite app_assoc.
  - apply Forall_app. split; [done|]. apply window_genuine. lia.
  - intros n Hn. apply elem_of_app. destruct (decide (n ≤ la)); [left; apply Ha; lia|right].
    apply list_elem_of_fmap. exists n. split; [done|]. apply elem_of_window. lia.
Qed.

(** An ACK packet for block [b] is among the events. *)
Definition acked (b : Z) (evs : list event) : Prop :=
  ∃ p, Pkt p ∈ evs ∧ peek_opcode p = Ok OP_ACK ∧ parse_ack p = Ok (mkAck (b mod 65536)).

Lemma acked_cons b e evs : acked b evs → acked b (e :: evs).
Proof. intros (p & Hp & H). exists p. split; [by right|done]. Qed.

Lemma send_loop_safe pre evs x la r o evs' x' :
  send_loop data blksize windowsize max_retries tb evs x la r = (o, evs', x') →
  dl_inv pre x la →
  ∃ la', dl_inv pre x' la' ∧ (o = Ret tt → la' = tb ∧ (la = tb ∨ acked tb evs)).
Proof.
  revert x la r. induction evs as [|e evs IH]; intros x la r Hrun Hinv;
    cbn [send_loop] in Hrun; fold (window la) in Hrun;
    pose proof (dl_range _ _ _ Hinv) as Hr; (destruct (Z.ltb_spec la tb) as [Hlt|Hge];
      [|injection Hrun as <- <- <-; exists la; split; [done|]; intros _; split; [lia|left; lia]]).
  - injection Hrun as <- <- <-. exists la. split; [by apply dl_inv_window|done].
  - assert (∀ x2 r2, dl_inv pre x2 la →
      send_loop data blksize windowsize max_retries tb evs x2 la r2 = (o, evs', x') →
      ∃ la', dl_inv pre x' la' ∧ (o = Ret tt → la' = tb ∧ (la = tb ∨ acked tb (e :: evs)))) as Hstay.
    { intros x2 r2 Hi Hl. destruct (IH _ _ _ Hl Hi) as (la' & Hi' & Hret). exists la'.
      split; [done|]. intros Ho. destruct (Hret Ho) as [-> [?|?]]; auto using acked_cons. }
    apply dl_inv_window in Hinv as Hinv'.
    destruct e as [p| |].
    + destruct (peek_opcode p) as [op|] eqn:Hop; [|injection Hrun as <- <- <-; by exists la].
      destruct (op =? OP_ERROR); [injection Hrun as <- <- <-; by exists la|].
      destruct (Z.eqb_spec op OP_ACK) as [->|Hne]; cbn [negb] in Hrun; [|by eapply Hstay].
      destruct (parse_ack p) as [[b]|] eqn:Hp; [|injection Hrun as <- <- <-; by exists la].
      cbn [ack_block] in Hrun. destruct (find_block _ _ _) as [c|] eqn:Hf; [|by eapply Hstay].
      apply find_block_Some in Hf as [Hc Hm].
      assert (c ∈ window la) as Hcw by (apply elem_of_zrange; lia).
      destruct (IH _ _ _ Hrun (dl_inv_ack _ _ _ _ Hinv Hcw)) as (la' & Hi' & Hret).
      exists la'. split; [done|]. intros Ho. destruct (Hret Ho) as [-> Hor]. split; [done|]. right.
      destruct Hor as [->|?]; [|by apply acked_cons]. exists p. split; [by left|]. by rewrite Hm.
    + destruct (max_retries <? r + 1); [injection Hrun as <- <- <-; by exists la|by eapply Hstay].
    + injection Hrun as <- <- <-. by exists la.
Qed.

(** ** A cooperating client over a lossy network *)

(** [client_run la evs bns la']: from block [la] acknowledged to [la'], the
    client answers every window with an ACK of one of its blocks after at most
    [max_retries] timeouts (lost windows or lost ACKs); [bns] are the blocks
    the server puts on the wire meanwhile. *)
Inductive client_run : Z → list event → list Z → Z → Prop :=
| cr_done la : client_run la [] [] la
| cr_round la k c evs bns la' :
    la < block_count data blksize → Z.of_nat k ≤ max_retries → c ∈ window la →
    client_run c evs bns la' →
    client_run la (replicate k Timeout ++ Pkt (pack_ack c) :: evs)
      (concat (replicate (S k) (window la)) ++ bns) la'.

(** The state after sending some blocks and reporting progress [t]. *)
Definition sent_blocks (x : sess) (bns : list Z) (t : Z) (x' : sess) : Prop :=
  x_sent x' = x_sent x ++ map (data_packet data blksize) bns ∧ x_transferred x' = t.

Lemma send_loop_timeouts k evs x la r :
  la < tb → r + Z.of_nat k ≤ max_retries →
  ∃ x', send_loop data blksize windowsize max_retries tb (replicate k Timeout ++ evs) x la r
        = send_loop data blksize windowsize max_retries tb evs x' la (r + Z.of_nat k) ∧
        sent_blocks x (concat (replicate k (window la))) (x_transferred x) x'.
Proof.
  intros Hla. revert x r. induction k as [|k IH]; intros x r Hk.
  - exists x. cbn. rewrite Z.add_0_r. split; [done|]. split; [by rewrite app_nil_r|done].
  - cbn [replicate app send_loop]. fold (window la).
    destruct (Z.ltb_spec la tb); [|lia]. destruct (Z.ltb_spec max_retries (r + 1)); [lia|].
    destruct (IH (send_blocks data blksize (window la) x) (r + 1)) as (x' & -> & Hs & Ht); [lia|].
    exists x'. split; [f_equal; lia|]. split.
    + rewrite Hs, send_blocks_sent. cbn [concat]. by rewrite map_app, app_assoc.
    + rewrite Ht. apply send_blocks_same.
Qed.

Lemma send_loop_client la evs bns la' rest x r :
  client_run la evs bns la' → 0 ≤ la → windowsize ≤ 65536 → r = 0 →
  x_transferred x = Z.min (zlen data) (la * blksize) →
  ∃ x', send_loop data blksize windowsize max_retries tb (evs ++ rest) x la r
        = send_loop data blksize windowsize max_retries tb rest x' la' 0 ∧
        sent_blocks x bns (Z.min (zlen data) (la' * blksize)) x'.
Proof.
  intros Hrun. revert x r. induction Hrun as [la|la k c evs bns la' Hla Hk Hc Hrun IH];
    intros x r H0 Hw -> Ht.
  - exists x. split; [done|]. split; [by rewrite app_nil_r|done].
  - rewrite <- app_assoc. cbn [app].
    destruct (send_loop_timeouts k (Pkt (pack_ack c) :: evs ++ rest) x la 0 Hla ltac:(lia))
      as (x1 & -> & Hs1 & Ht1).
    cbn [send_loop]. fold (window la). destruct (Z.ltb_spec la tb); [|lia].
    rewrite peek_opcode_ack, parse_ack_pack. change (OP_ACK =? OP_ERROR) with false.
    change (negb (OP_ACK =? OP_ACK)) with false. cbn [ack_block].
    apply elem_of_zrange in Hc as Hc'.
    rewrite find_block_window by lia.
    destruct (IH (set_transferred (Z.min (zlen data) (c * blksize))
      (send_blocks data blksize (window la) x1)) 0) as (x' & -> & Hs & Ht'); [lia|done..|].
    exists x'. split; [done|]. split; [|done].
    rewrite Hs. cbn [x_sent set_transferred]. rewrite send_blocks_sent, Hs1.
    rewrite <- !app_assoc. f_equal. rewrite !map_app. rewrite app_assoc. f_equal.
    rewrite <- map_app. f_equal. replace (S k) with (k + 1)%nat by lia.
    rewrite replicate_add, concat_app. cbn. by rewrite app_nil_r.
Qed.
End download.

Lemma send_file_loop c data neg mr evs x :
  get_max_retries c = Ok mr → 0 < neg_blksize neg →
  send_file c data neg evs x
  = send_loop data (neg_blksize neg) (Z.max 1 (neg_windowsize neg)) mr
      (block_count data (neg_blksize neg)) evs (set_state (u "transferring") x) 0 0.
Proof.
  intros Hmr Hb. unfold send_file, mbind, M_bind, modify, lift, prim, floordiv. rewrite Hmr.
  destruct (Z.eqb_spec (neg_blksize neg) 0); [lia|]. done.
Qed.

(** [C4] Whatever the peer answers and however the session ends, [_send_file]
    puts only DATA packets of the file on the wire and never reports more
    progress than the file has bytes; and when it returns, every block was
    sent, the client acknowledged the last one, and the progress reported is
    the whole file. *)
Theorem download_safe c data neg evs x o evs' x' :
  send_file c data neg evs x = (o, evs', x') →
  0 < neg_blksize neg → x_transferred x = 0 →
  ∃ sent, x_sent x' = x_sent x ++ sent ∧ Forall (genuine data (neg_blksize neg)) sent ∧
    0 ≤ x_transferred x' ≤ zlen data ∧
    (o = Ret tt →
       x_transferred x' = zlen data ∧ acked (block_count data (neg_blksize neg)) evs ∧
       ∀ n, 1 ≤ n ≤ block_count data (neg_blksize neg) →
         data_packet data (neg_blksize neg) n ∈ sent).
Proof.
  intros Hrun Hb Ht. destruct (block_count_bounds data _ Hb) as (H1 & H2 & H3).
  pose proof (zlen_nonneg data). destruct (get_max_retries c) as [mr|e] eqn:Hmr.
  - rewrite (send_file_loop _ _ _ mr) in Hrun by done.
    eapply (send_loop_safe _ _ _ _ (x_sent x)) in Hrun as (la & [Hr (l & Hs & Hg & Ha) Hp] & Hret).
    + exists l. split_and!; [done|done|nia|nia|].
      intros Ho. destruct (Hret Ho) as [-> [?|?]]; [lia|]. split_and!; [nia|done|done].
    + split; [lia| |cbn; lia]. exists []. split_and!; [by rewrite app_nil_r|done|lia].
  - unfold send_file, mbind, M_bind, modify, lift in Hrun. rewrite Hmr in Hrun.
    injection Hrun as <- <- <-. exists []. split_and!; [by rewrite app_nil_r|done|cbn; lia..|done].
Qed.

Lemma download_safe_witness :
  ∃ o evs' x' sent,
    send_file (demo_config 1) [1; 2; 3] demo_neg [Pkt [9; 9]; Timeout; Pkt (pack_ack 2)] demo_sess
      = (o, evs', x') ∧ o = Ret tt ∧ x_sent x' = [] ++ sent ∧ x_transferred x' = 3.
Proof.
  destruct (send_file (demo_config 1) [1; 2; 3] demo_neg [Pkt [9; 9]; Timeout; Pkt (pack_ack 2)]
    demo_sess) as [[o evs'] x'] eqn:E. exists o, evs', x'.
  destruct (download_safe _ _ _ _ _ _ _ _ E) as (sent & Hs & _ & _ & Hret); [reflexivity..|].
  assert (o = Ret tt) as Ho by (vm_compute in E; by injection E as <- <- <-).
  exists sent. split_and!; [done|done|exact Hs|]. by destruct (Hret Ho).
Defined.

(** Against a client that acknowledges some block of every window within
    [max_retries] timeouts, whatever the losses, the download completes: the
    server puts on the wire exactly the windows the client's answers call for,
    consumes exactly those answers, and reports the whole file. *)
Theorem download_completes c data neg mr evs bns rest x :
  get_max_retries c = Ok mr → 0 < neg_blksize neg → neg_windowsize neg ≤ 65536 →
  x_transferred x = 0 →
  client_run data (neg_blksize neg) (Z.max 1 (neg_windowsize neg)) mr 0 evs bns
    (block_count data (neg_blksize neg)) →
  ∃ x', send_file c data neg (evs ++ rest) x = (Ret tt, rest, x') ∧
    x_sent x' = x_sent x ++ map (data_packet data (neg_blksize neg)) bns ∧
    x_transferred x' = zlen data.
Proof.
  intros Hmr Hb Hw Ht Hrun. destruct (block_count_bounds data _ Hb) as (H1 & H2 & H3).
  pose proof (zlen_nonneg data).
  rewrite (send_file_loop _ _ _ mr) by done.
  destruct (send_loop_client _ _ _ _ _ _ _ _ rest (set_state (u "transferring") x) 0 Hrun)
    as (x' & -> & Hs & Hp); [lia..|done|cbn; lia|].
  exists x'. split; [|split; [exact Hs|lia]].
  destruct rest; cbn [send_loop]; destruct (Z.ltb_spec (block_count data (neg_blksize neg))
    (block_count data (neg_blksize neg))); done || lia.
Qed.

Lemma download_completes_witness :
  ∃ x', send_file (demo_config 1) [1; 2; 3; 4; 5] demo_neg
          [Timeout; Pkt (pack_ack 1); Pkt (pack_ack 3)] demo_sess = (Ret tt, [], x') ∧
    x_sent x' = map (data_packet [1; 2; 3; 4; 5] 2) [1; 2; 1; 2; 2; 3] ∧ x_transferred x' = 5.
Proof.
  apply (download_completes (demo_config 1) [1; 2; 3; 4; 5] demo_neg 2
    [Timeout; Pkt (pack_ack 1); Pkt (pack_ack 3)] [1; 2; 1; 2; 2; 3] [] demo_sess);
    [reflexivity|reflexivity|discriminate|reflexivity|].
  apply (cr_round [1; 2; 3; 4; 5] 2 2 2 0 1 1 [Pkt (pack_ack 3)] [2; 3]); [reflexivity|discriminate| |].
  { apply (bool_decide_unpack _). vm_compute. exact I. }
  apply (cr_round [1; 2; 3; 4; 5] 2 2 2 1 0 3 [] []); [reflexivity|discriminate| |apply cr_done].
  apply (bool_decide_unpack _). vm_compute. exact I.
Defined.

(** Without losses: every window acknowledged whole. *)
Inductive lossless (data : bytes) (blksize windowsize : Z) : Z → list event → Prop :=
| ll_done : lossless data blksize windowsize (block_count data blksize) []
| ll_round la evs :
    la < block_count data blksize →
    lossless data blksize windowsize (Z.min (la + windowsize) (block_count data blksize)) evs →
    lossless data blksize windowsize la
      (Pkt (pack_ack (Z.min (la + windowsize) (block_count data blksize))) :: evs).

Lemma lossless_run data blksize windowsize mr la evs :
  0 ≤ mr → 1 ≤ windowsize → lossless data blksize windowsize la evs →
  la ≤ block_count data blksize ∧
  client_run data blksize windowsize mr la evs (zrange (la + 1) (block_count data blksize + 1))
    (block_count data blksize).
Proof.
  intros Hmr Hw Hl. induction Hl as [|la evs Hla Hl [IHle IH]].
  - split; [done|]. rewrite zrange_empty by lia. constructor.
  - split; [lia|]. set (e := Z.min (la + windowsize) (block_count data blksize)) in *.
    assert (window data blksize windowsize la = zrange (la + 1) (e + 1)) as Hwin
      by (unfold window; f_equal; lia).
    rewrite (zrange_app (la + 1) (e + 1)) by lia.
    replace (zrange (la + 1) (e + 1)) with (concat (replicate 1 (window data blksize windowsize la)))
      by (cbn; by rewrite app_nil_r).
    apply (cr_round _ _ _ _ la 0 e evs); [done|lia| |done].
    rewrite Hwin. apply elem_of_zrange. lia.
Qed.

(** Over a network that loses nothing, with a client that acknowledges
    each window whole, a download is the sequence of its blocks: each block
    goes on the wire exactly once, in order, and the transfer completes. *)
Theorem download_lossless c data neg mr evs x :
  get_max_retries c = Ok mr → 0 ≤ mr → 0 < neg_blksize neg → neg_windowsize neg ≤ 65536 →
  x_transferred x = 0 →
  lossless data (neg_blksize neg) (Z.max 1 (neg_windowsize neg)) 0 evs →
  ∃ x', send_file c data neg evs x = (Ret tt, [], x') ∧
    x_sent x' = x_sent x ++ map (λ n, pack_data (n mod 65536) (slice_block data (neg_blksize neg) n))
                              (zrange 1 (block_count data (neg_blksize neg) + 1)).
Proof.
  intros Hmr H0 Hb Hw Ht Hl. destruct (block_count_bounds data _ Hb) as (H1 & H2 & H3).
  pose proof (zlen_nonneg data).
  apply (lossless_run _ _ _ mr) in Hl as [_ Hrun]; [|done|lia].
  rewrite (send_file_loop _ _ _ mr) by done. rewrite <- (app_nil_r evs).
  destruct (send_loop_client _ _ _ _ _ _ _ _ [] (set_state (u "transferring") x) 0 Hrun)
    as (x' & -> & Hs & Hp); [lia..|done|cbn; lia|].
  exists x'. split; [|exact Hs]. cbn [send_loop].
  destruct (Z.ltb_spec (block_count data (neg_blksize neg)) (block_count data (neg_blksize neg)));
    [lia|done].
Qed.

Lemma download_lossless_witness :
  ∃ x', send_file (demo_config 1) [1; 2; 3; 4; 5] demo_neg [Pkt (pack_ack 2); Pkt (pack_ack 3)] demo_sess
        = (Ret tt, [], x') ∧
    x_sent x' = [] ++ map (λ n, pack_data (n mod 65536) (slice_block [1; 2; 3; 4; 5] 2 n)) [1; 2; 3].
Proof.
  apply (download_lossless (demo_config 1) [1; 2; 3; 4; 5] demo_neg 2);
    [reflexivity|discriminate|reflexivity|discriminate|reflexivity|].
  apply (ll_round [1; 2; 3; 4; 5] 2 2 0); [reflexivity|].
  apply (ll_round [1; 2; 3; 4; 5] 2 2 2); [reflexivity|]. apply ll_done.
Defined.

(** A client that stops answering is given up: from any point of the
    transfer, [max_retries + 1] timeouts in a row end it with the error
    "timeout waiting for ACK", after the current window went out that many
    times, and [_is_server_fault] does not blame the server. *)
Theorem download_gives_up c data neg mr evs bns la rest x :
  get_max_retries c = Ok mr → 0 ≤ mr → 0 < neg_blksize neg → neg_windowsize neg ≤ 65536 →
  x_transferred x = 0 →
  client_run data (neg_blksize neg) (Z.max 1 (neg_windowsize neg)) mr 0 evs bns la →
  0 ≤ la < block_count data (neg_blksize neg) →
  let msg := u "timeout waiting for ACK" in
  is_server_fault ERR_UNDEFINED msg = false ∧
  ∃ x', send_file c data neg (evs ++ replicate (Z.to_nat (mr + 1)) Timeout ++ rest) x
        = (Exc (TFTPError ERR_UNDEFINED msg), rest, x') ∧
    x_sent x' = x_sent x ++ map (data_packet data (neg_blksize neg))
      (bns ++ concat (replicate (Z.to_nat (mr + 1))
                        (window data (neg_blksize neg) (Z.max 1 (neg_windowsize neg)) la))).
Proof.
  intros Hmr H0 Hb Hw Ht Hrun Hla msg. split; [reflexivity|].
  pose proof (zlen_nonneg data). rewrite (send_file_loop _ _ _ mr) by done.
  destruct (send_loop_client _ _ _ _ _ _ _ _
    (replicate (Z.to_nat (mr + 1)) Timeout ++ rest) (set_state (u "transferring") x) 0 Hrun)
    as (x1 & -> & Hs1 & _); [lia..|done|cbn; lia|].
  replace (Z.to_nat (mr + 1)) with (Z.to_nat mr + 1)%nat by lia.
  rewrite (replicate_add _ 1). rewrite <- app_assoc.
  destruct (send_loop_timeouts data (neg_blksize neg) (Z.max 1 (neg_windowsize neg)) mr
    (Z.to_nat mr) (replicate 1 Timeout ++ rest) x1 la 0) as (x2 & -> & Hs2 & _); [lia..|].
  cbn [replicate app send_loop].
  destruct (Z.ltb_spec la (block_count data (neg_blksize neg))); [|lia].
  destruct (Z.ltb_spec mr (0 + Z.of_nat (Z.to_nat mr) + 1)); [|lia].
  eexists. split; [reflexivity|].
  rewrite send_blocks_sent, Hs2, Hs1. cbn [x_sent set_state].
  rewrite replicate_add, concat_app, !map_app, !app_assoc.
  cbn [replicate concat]. by rewrite app_nil_r.
Qed.

Lemma download_gives_up_witness :
  ∃ x', send_file (demo_config 1) [1; 2; 3] demo_neg ([] ++ replicate 3 Timeout ++ []) demo_sess
        = (Exc (TFTPError ERR_UNDEFINED (u "timeout waiting for ACK")), [], x') ∧
    x_sent x' = [] ++ map (data_packet [1; 2; 3] 2) ([] ++ [1; 2; 1; 2; 1; 2]).
Proof.
  apply (download_gives_up (demo_config 1) [1; 2; 3] demo_neg 2 [] [] 0);
    [reflexivity|discriminate|reflexivity|discriminate|reflexivity|apply cr_done|].
  vm_compute. split; [discriminate|reflexivity].
Defined.
