(* ===== verification/Upload.v ===== *)
(** * Uploads (the WRQ side of src/tftp/session.py)

    What [_recv_file] stores when the packets of a file arrive in any order,
    repeated or not at all, and when an upload completes. *)

From S2P Require Import Prelude Python Constants Wire Options Stats FileLock Cache Paths Session.
Open Scope Z_scope.

Section upload.
Context (data : list Z) (blksize windowsize max_retries max_wrq_size : Z) (allow_rollover : bool).
Context (tmp : list Z).
Hypothesis Hblk : 0 < blksize.
Local Abbreviation tb := (block_count data blksize).

(** The first [n] blocks of the file. *)
Definition stored_bytes (n : Z) : bytes := take (Z.to_nat (n * blksize)) data.

Lemma stored_bytes_next n :
  0 ≤ n → stored_bytes n ++ slice_block data blksize (n + 1) = stored_bytes (n + 1).
Proof.
  intros Hn. unfold stored_bytes. rewrite slice_block_eq by lia.
  rewrite Z.add_simpl_r, take_take_drop. f_equal. nia.
Qed.

Lemma stored_bytes_all : stored_bytes tb = data.
Proof.
  destruct (block_count_bounds data blksize Hblk) as (H1 & H2 & H3).
  apply take_ge. unfold zlen in *. lia.
Qed.

(** An acknowledgement of a block before [e]. *)
Definition ack_below (e : Z) (p : bytes) : Prop := ∃ n, 0 ≤ n < e ∧ p = pack_ack (n mod 65536).

Lemma ack_below_mono e e' l : e ≤ e' → Forall (ack_below e) l → Forall (ack_below e') l.
Proof.
  intros He Hl. eapply Forall_impl; [exact Hl|]. intros p (n & Hn & ->). exists n. split; [lia|done].
Qed.

(** The temporary file holds the blocks before [expected], the reported
    progress counts them, only those blocks were acknowledged, and nothing else
    on disk has changed since [x0]. *)
Record stored (x0 x : sess) (expected : Z) : Prop := {
  st_file : dict_get tmp (x_fs x) = Some (stored_bytes (expected - 1));
  st_count : x_transferred x = zlen (stored_bytes (expected - 1));
  st_frame : ∀ p, p ≠ tmp → dict_get p (x_fs x) = dict_get p (x_fs x0);
  st_locks : x_locks x = x_locks x0;
  st_sent : ∃ acks, x_sent x = x_sent x0 ++ acks ∧ Forall (ack_below expected) acks;
}.

Lemma stored_send x0 x e :
  1 ≤ e → stored x0 x e → stored x0 (send true (pack_ack ((e - 1) mod 65536)) x) e.
Proof.
  intros He [H1 H2 H3 H4 (acks & H5 & H6)]. split; try done.
  exists (acks ++ [pack_ack ((e - 1) mod 65536)]). cbn [x_sent send on_sent on_stats].
  rewrite H5, app_assoc. split; [done|]. apply Forall_app. split; [done|].
  apply Forall_singleton. exists (e - 1). split; [lia|done].
Qed.

Lemma stored_write x0 x e payload :
  1 ≤ e → stored x0 x e → payload = slice_block data blksize e →
  stored x0 (write_payload tmp payload x) (e + 1).
Proof.
  intros He [H1 H2 H3 H4 (acks & H5 & H6)] ->.
  assert (stored_bytes (e - 1) ++ slice_block data blksize e = stored_bytes (e + 1 - 1)) as Hn.
  { replace (e + 1 - 1) with (e - 1 + 1) by lia. rewrite <- stored_bytes_next by lia.
    do 2 f_equal. lia. }
  split.
  - cbn [x_fs write_payload on_fs set_transferred on_stats].
    by rewrite dict_get_set_eq, H1, <- Hn.
  - cbn [x_transferred write_payload on_fs set_transferred on_stats].
    by rewrite H2, <- zlen_app, Hn.
  - intros p Hp. cbn [x_fs write_payload on_fs set_transferred on_stats].
    rewrite dict_get_set_ne by done. by apply H3.
  - done.
  - exists acks. split; [done|]. apply (ack_below_mono e); [lia|done].
Qed.

(** Buffered blocks are blocks of the file. *)
Definition buffer_ok (w : list (Z * bytes)) : Prop :=
  ∀ n v, dict_get n w = Some v → 1 ≤ n ≤ tb ∧ v = slice_block data blksize n.

Lemma buffer_ok_del n w : NoDup (dict_keys w) → buffer_ok w → buffer_ok (dict_del n w).
Proof.
  intros Hnd Hw m v Hg. destruct (decide (m = n)) as [->|Hne].
  - by rewrite dict_get_del_eq in Hg.
  - rewrite dict_get_del_ne in Hg by done. by apply Hw.
Qed.

Lemma drain_stored x0 fuel e w x e' w' x' :
  drain fuel tmp e w x = (e', w', x') →
  1 ≤ e ≤ tb + 1 → NoDup (dict_keys w) → buffer_ok w → stored x0 x e →
  e ≤ e' ≤ tb + 1 ∧ NoDup (dict_keys w') ∧ buffer_ok w' ∧ stored x0 x' e'.
Proof.
  revert e w x. induction fuel as [|fuel IH]; intros e w x Hd He Hnd Hw Hs; cbn [drain] in Hd.
  - injection Hd as <- <- <-. split_and!; [lia..|done|done|done].
  - destruct (dict_get e w) as [buf|] eqn:Hg.
    + destruct (Hw _ _ Hg) as [Hr ->]. apply IH in Hd as (? & ? & ? & ?).
      * split_and!; [lia..|done|done|done].
      * lia.
      * by apply dict_del_NoDup.
      * by apply buffer_ok_del.
      * apply stored_write; [lia|done|done].
    + injection Hd as <- <- <-. split_and!; [lia..|done|done|done].
Qed.

(** A packet a sender of this file can put on the wire: anything but a DATA
    packet that is not one of the file's. *)
Definition sender_event (e : event) : Prop :=
  ∀ p, e = Pkt p → peek_opcode p = Ok OP_DATA →
       ∃ n, 1 ≤ n ≤ tb ∧ p = pack_data (n mod 65536) (slice_block data blksize n).

Lemma match_block e n c :
  tb + windowsize ≤ 65536 → 1 ≤ e ≤ tb + 1 → 1 ≤ n ≤ tb →
  find_block e (e + windowsize) ((n mod 65536) mod 65536) = Some c → c = n.
Proof.
  intros Hw He Hn Hf. rewrite Z.mod_mod in Hf by lia. apply find_block_Some in Hf as [Hc Hm].
  pose proof (Z.div_mod c 65536 ltac:(lia)). pose proof (Z.div_mod n 65536 ltac:(lia)). lia.
Qed.

Lemma short_block_last n :
  1 ≤ n ≤ tb → zlen (slice_block data blksize n) < blksize → n = tb.
Proof.
  intros Hn. destruct (block_count_bounds data blksize Hblk) as (H1 & H2 & H3).
  rewrite zlen_slice_block by lia. nia.
Qed.

Lemma recv_loop_safe x0 evs x e r w o evs' x' :
  recv_loop tmp blksize windowsize max_retries max_wrq_size allow_rollover evs x e r w = (o, evs', x') →
  tb + windowsize ≤ 65536 → Forall sender_event evs →
  1 ≤ e ≤ tb + 1 → NoDup (dict_keys w) → buffer_ok w → stored x0 x e →
  ∃ e', 1 ≤ e' ≤ tb + 1 ∧ stored x0 x' e' ∧ (o = Ret tt → e' = tb + 1).
Proof.
  intros Hrun Hwin. revert x e r w Hrun.
  induction evs as [|ev evs IH]; intros x e r w Hrun Hev He Hnd Hw Hs; cbn [recv_loop] in Hrun.
  { injection Hrun as <- <- <-. by exists e. }
  apply Forall_cons in Hev as [Hev Hevs].
  assert (∀ r2 w2, NoDup (dict_keys w2) → buffer_ok w2 →
    recv_loop tmp blksize windowsize max_retries max_wrq_size allow_rollover evs
      (send true (pack_ack ((e - 1) mod 65536)) x) e r2 w2 = (o, evs', x') →
    ∃ e', 1 ≤ e' ≤ tb + 1 ∧ stored x0 x' e' ∧ (o = Ret tt → e' = tb + 1)) as Hreack.
  { intros r2 w2 Hnd2 Hw2 Hrun2. eapply IH; [exact Hrun2|done..|apply stored_send; [lia|done]]. }
  destruct ev as [p| |].
  2: { destruct (max_retries <? r + 1); [injection Hrun as <- <- <-; by exists e|by eapply Hreack]. }
  2: { injection Hrun as <- <- <-. by exists e. }
  destruct (peek_opcode p) as [op|] eqn:Hop; [|injection Hrun as <- <- <-; by exists e].
  destruct (op =? OP_ERROR); [injection Hrun as <- <- <-; by exists e|].
  destruct (Z.eqb_spec op OP_DATA) as [->|Hne]; cbn [negb] in Hrun; [|by eapply IH].
  destruct (Hev p eq_refl Hop) as (n & Hn & ->).
  rewrite parse_data_pack in Hrun. cbn [data_payload data_block] in Hrun.
  destruct (find_block e _ _) as [c|] eqn:Hf; [|by eapply Hreack].
  apply match_block in Hf; [|done..]. subst c.
  destruct (Z.eqb_spec n e) as [->|Hne].
  - destruct (negb (max_wrq_size =? 0) && _); [injection Hrun as <- <- <-; by exists e|].
    pose proof (stored_write x0 x e _ ltac:(lia) Hs eq_refl) as Hs1.
    destruct (negb allow_rollover && _).
    { injection Hrun as <- <- <-. exists (e + 1). split; [lia|]. split; [done|]. done. }
    destruct (drain _ _ _ _ _) as [[e1 w1] x1] eqn:Hd.
    eapply drain_stored in Hd as (He1 & Hnd1 & Hw1 & Hs2); [|lia|done|done|done].
    destruct (Z.ltb_spec (zlen (slice_block data blksize e)) blksize) as [Hlt|Hge].
    + injection Hrun as <- <- <-. apply short_block_last in Hlt; [|lia].
      exists e1. split; [lia|]. split; [apply stored_send; [lia|done]|]. intros _. lia.
    + eapply IH; [done|done|lia|done|done|apply stored_send; [lia|done]].
  - eapply Hreack; [by apply dict_set_NoDup| |done]. intros m v. rewrite dict_get_set.
    case_decide; [|apply Hw]. intros [= <-]. subst m. split; [lia|done].
Qed.

(** ** A sender that gets its packets through *)

(** [sender_run e r evs]: blocks before [e] are stored and [r] timeouts have
    passed since the last DATA packet.  The next event is a timeout within the
    retry budget, a repetition of a stored block, or block [e]. *)
Inductive sender_run : Z → Z → list event → Prop :=
| sr_done r : sender_run (block_count data blksize + 1) r []
| sr_timeout e r evs :
    r + 1 ≤ max_retries → sender_run e (r + 1) evs → sender_run e r (Timeout :: evs)
| sr_repeat e r n evs :
    1 ≤ n < e → find_block e (e + windowsize) (n mod 65536) = None →
    sender_run e 0 evs →
    sender_run e r (Pkt (pack_data (n mod 65536) (slice_block data blksize n)) :: evs)
| sr_next e r evs :
    e ≤ block_count data blksize → sender_run (e + 1) 0 evs →
    sender_run e r (Pkt (pack_data (e mod 65536) (slice_block data blksize e)) :: evs).

Lemma sender_run_end e r evs : sender_run e r evs → e ≤ tb + 1.
Proof. induction 1; lia. Qed.

(** The transfer is over once the last block is stored: what is left of the
    sender's events stays in the queue. *)
Lemma recv_loop_completes x0 e r evs x :
  sender_run e r evs → 1 ≤ e ≤ tb → 1 ≤ windowsize ≤ 65536 →
  max_wrq_size = 0 ∨ zlen data ≤ max_wrq_size →
  allow_rollover = true ∨ tb ≤ 65535 →
  stored x0 x e →
  ∃ evs' x', recv_loop tmp blksize windowsize max_retries max_wrq_size allow_rollover evs x e r []
             = (Ret tt, evs', x') ∧ stored x0 x' (tb + 1).
Proof.
  intros Hrun. revert x. induction Hrun as [r|e r evs Hr Hrun IH|e r n evs Hn Hf Hrun IH|e r evs He Hrun IH];
    intros x Her Hw Hmax Hroll Hs; cbn [recv_loop].
  - lia.
  - destruct (Z.ltb_spec max_retries (r + 1)); [lia|]. apply IH; [done..|apply stored_send; [lia|done]].
  - rewrite peek_opcode_data, parse_data_pack. change (OP_DATA =? OP_ERROR) with false.
    change (negb (OP_DATA =? OP_DATA)) with false. cbn [data_block data_payload].
    rewrite Z.mod_mod, Hf by lia. apply IH; [done..|apply stored_send; [lia|done]].
  - rewrite peek_opcode_data, parse_data_pack. change (OP_DATA =? OP_ERROR) with false.
    change (negb (OP_DATA =? OP_DATA)) with false. cbn [data_block data_payload].
    rewrite Z.mod_mod, find_block_window, Z.eqb_refl by lia.
    pose proof (stored_write x0 x e _ ltac:(lia) Hs eq_refl) as Hs1.
    assert (x_transferred x + zlen (slice_block data blksize e) ≤ zlen data) as Hle.
    { rewrite (st_count _ _ _ Hs), <- zlen_app.
      replace e with (e - 1 + 1) at 2 by lia. rewrite stored_bytes_next by lia.
      unfold stored_bytes, zlen. rewrite length_take. lia. }
    assert (negb (max_wrq_size =? 0) &&
      (max_wrq_size <? x_transferred x + zlen (slice_block data blksize e)) = false) as ->.
    { destruct (Z.eqb_spec max_wrq_size 0), (Z.ltb_spec max_wrq_size
        (x_transferred x + zlen (slice_block data blksize e))); cbn; lia || done. }
    assert (negb allow_rollover && (65536 <? e + 1) = false) as ->.
    { destruct allow_rollover, (Z.ltb_spec 65536 (e + 1)); cbn; naive_solver lia. }
    cbn [length drain]. destruct (Z.ltb_spec (zlen (slice_block data blksize e)) blksize) as [Hlt|Hge].
    + apply short_block_last in Hlt as ->; [|lia]. do 2 eexists. split; [done|]. apply stored_send; [lia|done].
    + apply IH; [|done..|apply stored_send; [lia|done]].
      destruct (decide (e = tb)) as [->|]; [|lia]. exfalso.
      destruct (block_count_bounds data blksize Hblk) as (H1 & H2 & H3).
      rewrite zlen_slice_block in Hge by lia. nia.
Qed.
End upload.

(** ** The whole of [_recv_file] *)

Lemma recv_file_loop E c dest neg mr evs x :
  get_max_retries c = Ok mr → env_open E (dest ++ u ".part") = None →
  recv_file E c dest neg evs x
  = match recv_loop (dest ++ u ".part") (neg_blksize neg) (Z.max 1 (neg_windowsize neg)) mr
            (sc_max_wrq_size c) (sc_allow_rollover c) evs
            (on_fs (dict_set (dest ++ u ".part") []) (set_state (u "receiving") x)) 1 0 [] with
    | (Ret _, evs, x) => (Ret tt, evs, on_fs (fs_replace (dest ++ u ".part") dest) x)
    | (Exc e, evs, x) => (Exc e, evs, x)
    | (Cancelled, evs, x) => (Cancelled, evs, x)
    | (Blocked, evs, x) => (Blocked, evs, x)
    end.
Proof.
  intros Hmr Ho. unfold recv_file, mbind, M_bind, modify, lift, prim. by rewrite Hmr, Ho.
Qed.

Lemma part_ne (dest : str) : dest ++ u ".part" ≠ dest.
Proof.
  intros H. apply (f_equal length) in H. rewrite length_app in H.
  change (length (u ".part")) with 5%nat in H. lia.
Qed.

Lemma fs_replace_get tmp dest fs d p :
  dict_get tmp fs = Some d → tmp ≠ dest →
  dict_get dest (fs_replace tmp dest fs) = Some d ∧
  (p ≠ dest → p ≠ tmp → dict_get p (fs_replace tmp dest fs) = dict_get p fs).
Proof.
  intros Hg Hne. unfold fs_replace. rewrite Hg. split; [apply dict_get_set_eq|].
  intros Hd Ht. by rewrite dict_get_set_ne, dict_get_del_ne.
Qed.

Lemma stored_start data blksize tmp x :
  x_transferred x = 0 →
  stored data blksize tmp x (on_fs (dict_set tmp []) (set_state (u "receiving") x)) 1.
Proof.
  intros Ht. assert (stored_bytes data blksize (1 - 1) = []) as Hn by done.
  split; rewrite ?Hn.
  - apply dict_get_set_eq.
  - exact Ht.
  - intros p Hp. by apply dict_get_set_ne.
  - done.
  - exists []. split; [symmetry; apply app_nil_r|constructor].
Qed.



Lemma recv_file_completes E c dest neg data mr evs x :
  get_max_retries c = Ok mr → env_open E (dest ++ u ".part") = None →
  0 < neg_blksize neg → neg_windowsize neg ≤ 65536 →
  sc_max_wrq_size c = 0 ∨ zlen data ≤ sc_max_wrq_size c →
  sc_allow_rollover c = true ∨ block_count data (neg_blksize neg) ≤ 65535 →
  x_transferred x = 0 →
  sender_run data (neg_blksize neg) (Z.max 1 (neg_windowsize neg)) mr 1 0 evs →
  ∃ evs' x' acks, recv_file E c dest neg evs x = (Ret tt, evs', x') ∧
    dict_get dest (x_fs x') = Some data ∧ x_transferred x' = zlen data ∧
    x_sent x' = x_sent x ++ acks ∧ Forall (ack_below (block_count data (neg_blksize neg) + 1)) acks ∧
    x_locks x' = x_locks x.
Proof.
  intros Hmr Ho Hb Hw Hmax Hroll Ht Hrun. destruct (block_count_bounds data _ Hb) as (H1 & _).
  rewrite (recv_file_loop _ _ _ _ mr) by done.
  destruct (recv_loop_completes data (neg_blksize neg) (Z.max 1 (neg_windowsize neg)) mr
    (sc_max_wrq_size c) (sc_allow_rollover c) (dest ++ u ".part") Hb x 1 0 evs
    (on_fs (dict_set (dest ++ u ".part") []) (set_state (u "receiving") x)))
    as (evs' & x' & -> & [Hf Hc _ Hl (acks & Ha & Hack)]); [done|lia|lia|done|done|by apply stored_start|].
  rewrite Z.add_simpl_r, stored_bytes_all in Hf, Hc by done.
  do 2 eexists. exists acks. split_and!; [done| |done..]. cbn [x_fs on_fs].
  by apply (proj1 (fs_replace_get _ _ _ _ dest Hf (part_ne dest))).
Qed.

(** An upload completes whenever every block gets through in order within
    the retry budget, however many timeouts and repeated blocks come between:
    [_recv_file] returns and the requested name holds the file.  With block
    number rollover allowed this holds for files of any size. *)
Theorem upload_completes E c dest neg data mr evs x :
  get_max_retries c = Ok mr → env_open E (dest ++ u ".part") = None →
  0 < neg_blksize neg → neg_windowsize neg ≤ 65536 →
  sc_max_wrq_size c = 0 ∨ zlen data ≤ sc_max_wrq_size c →
  sc_allow_rollover c = true ∨ block_count data (neg_blksize neg) ≤ 65535 →
  x_transferred x = 0 →
  sender_run data (neg_blksize neg) (Z.max 1 (neg_windowsize neg)) mr 1 0 evs →
  ∃ evs' x', recv_file E c dest neg evs x = (Ret tt, evs', x') ∧
    dict_get dest (x_fs x') = Some data ∧ x_transferred x' = zlen data.
Proof.
  intros Hmr Ho Hb Hw Hmax Hroll Ht Hrun.
  destruct (recv_file_completes E c dest neg data mr evs x) as (evs' & x' & acks & Hr & Hd & Hp & _); [done..|].
  by exists evs', x'.
Qed.

Lemma upload_completes_witness :
  let b n := Pkt (pack_data (n mod 65536) (slice_block [1; 2; 3; 4] 2 n)) in
  ∃ evs' x', recv_file demo_env (demo_config 2) (u "C:\up\fw") demo_neg
               [Timeout; b 1; b 1; Timeout; Timeout; b 2; b 3] demo_sess = (Ret tt, evs', x') ∧
    dict_get (u "C:\up\fw") (x_fs x') = Some [1; 2; 3; 4] ∧ x_transferred x' = 4.
Proof.
  intros b. apply (upload_completes _ _ _ _ [1; 2; 3; 4] 2); [reflexivity..|discriminate|by left|
    right; vm_compute; discriminate|reflexivity|].
  apply sr_timeout; [discriminate|]. apply (sr_next [1; 2; 3; 4] 2 2 2 1); [discriminate|].
  apply (sr_repeat [1; 2; 3; 4] 2 2 2 2 0 1); [lia|reflexivity|].
  do 2 (apply sr_timeout; [discriminate|]). apply (sr_next [1; 2; 3; 4] 2 2 2 2); [discriminate|].
  apply (sr_next [1; 2; 3; 4] 2 2 2 3); [discriminate|]. apply (sr_done [1; 2; 3; 4] 2 2 2).
Defined.

(** ** Where the window buffer breaks the upload *)

(** The file [1; 2; 3] in blocks of two: its short last block arrives before
    the first one.  The server stores both and acknowledges the last block,
    but it looks for the end of the file only in the block that came in order,
    so it waits for more, times out, and the file never gets its name. *)
Lemma upload_loses_buffered_eof :
  let dest := u "C:\up\fw" in
  ∃ x', recv_file demo_env (demo_config 2) dest demo_neg
          [Pkt (pack_data 2 [3]); Pkt (pack_data 1 [1; 2]); Timeout; Timeout; Timeout] demo_sess
        = (Exc (TFTPError ERR_UNDEFINED (u "timeout waiting for DATA")), [], x') ∧
    x_sent x' = [pack_ack 0; pack_ack 2; pack_ack 2; pack_ack 2] ∧
    dict_get (dest ++ u ".part") (x_fs x') = Some [1; 2; 3] ∧ dict_get dest (x_fs x') = None.
Proof. eexists. split_and!; [vm_compute; reflexivity|vm_compute; reflexivity..]. Qed.

(** A limit of one byte, and a file of four stored under the requested name:
    the size check does not see the buffered block. *)
Lemma upload_buffer_escapes_limit :
  let dest := u "C:\up\fw" in
  let c := mkConfig [] (mkRequest 2 (u "fw") (u "octet") []) [] (u "C:\up") true 0 1 0 false [] false in
  ∃ x', recv_file demo_env c dest demo_neg [Pkt (pack_data 2 [7; 8; 9]); Pkt (pack_data 1 [6])] demo_sess
        = (Ret tt, [], x') ∧ dict_get dest (x_fs x') = Some [6; 7; 8; 9].
Proof. eexists. split; vm_compute; reflexivity. Qed.
