(* ===== verification/SessionLife.v ===== *)
(** * The life of a session ([_safe_run], [_run_rrq] and [_run_wrq] of
    src/tftp/session.py)

    Whatever the peer sends, a session that ends has released its lock,
    accounted for its end exactly once and answered with an ERROR packet
    unless it completed; and a cooperating client gets its file. *)

From S2P Require Import Prelude Python Constants Wire Options Stats FileLock Cache Paths Session Download Upload.
Open Scope Z_scope.

(** ** What the body of a session cannot do *)

(** The counters that only [_run_*] and [_safe_run] themselves move. *)
Definition end_counter (k : counter) : bool :=
  match k with
  | tftp_errors | tftp_sessions_total | tftp_sessions_completed | tftp_sessions_failed => true
  | _ => false
  end.

(** The lock table, the fault flag and the end counters are as before. *)
Record frame (x x' : sess) : Prop := {
  fr_locks : x_locks x' = x_locks x;
  fr_fault : x_fault x' = x_fault x;
  fr_ends : ∀ k, end_counter k = true → counter_get (x_stats x') k = counter_get (x_stats x) k;
}.

#[export] Instance frame_preorder : PreOrder frame.
Proof.
  split; [by split|]. intros x y z [H1 H2 H3] [H4 H5 H6].
  split; [congruence|congruence|]. intros k Hk. by rewrite H6, H3.
Qed.

(** A TFTP error code fits its field. *)
Definition exc_ok (e : exc) : Prop :=
  match e with TFTPError code _ => 0 ≤ code < 65536 | _ => True end.

Definition event_ok (e : event) : Prop := match e with Pkt p => bytes_ok p | _ => True end.

(** A computation that respects the frame and raises encodable errors. *)
Definition framed {A} (m : M A) : Prop := ∀ evs x o evs' x',
  m evs x = (o, evs', x') → Forall event_ok evs →
  frame x x' ∧ Forall event_ok evs' ∧ ∀ e, o = Exc e → exc_ok e.

(** An encodable failure of a pure function. *)
Definition raises_ok {A} (r : pyres A) : Prop := ∀ e, r = Raise e → exc_ok e.

Lemma raises_ok_bind {A B} (r : pyres A) (f : A → pyres B) :
  raises_ok r → (∀ a, raises_ok (f a)) → raises_ok (r ≫= f).
Proof. intros Hr Hf e [He|(a & _ & He)]%pyres_bind_Raise; [by apply Hr|by eapply Hf]. Qed.

Lemma raises_ok_Ok {A} (a : A) : raises_ok (Ok a).
Proof. by intros e. Qed.

Lemma raises_ok_other {A} e : (∀ c m, e ≠ TFTPError c m) → raises_ok (Raise (A := A) e).
Proof. intros He e' [= <-]. destruct e; try done. by destruct (He code message). Qed.

#[export] Hint Resolve raises_ok_bind raises_ok_Ok raises_ok_other : nishro.

Lemma int_of_str_raises s : raises_ok (int_of_str s).
Proof.
  unfold int_of_str. destruct (split_sign _) as [sg ds]. destruct (us_digits ds); repeat case_goal; intros e' [= <-]; done.
Qed.

Lemma py_int_raises v : raises_ok (py_int v).
Proof. destruct v; cbn; try apply int_of_str_raises; intros e [= <-]; done. Qed.

Lemma py_get_raises v k d : raises_ok (py_get v k d).
Proof. destruct v; cbn; intros e [= <-]; done. Qed.

Lemma negotiate_raises opts cfg sz rd : raises_ok (negotiate opts cfg sz rd).
Proof.
  unfold negotiate, read_limits, option_policy, get_int. destruct (cfg_off cfg);
    repeat (apply raises_ok_bind; [|intros ?]); auto using py_int_raises, raises_ok_Ok, py_get_raises.
Qed.

Lemma pack_oack_raises opts : raises_ok (pack_oack opts).
Proof.
  unfold pack_oack. apply raises_ok_bind; [|intros; apply raises_ok_Ok].
  induction opts as [|[k v] opts IH]; cbn [pack_oack_items]; [apply raises_ok_Ok|].
  unfold encode_ascii. repeat (apply raises_ok_bind; [|intros ?]); auto using raises_ok_Ok;
    case_goal; auto using raises_ok_Ok; by intros e [= <-].
Qed.

Lemma floordiv_raises a b : raises_ok (floordiv a b).
Proof. unfold floordiv. case_goal; by intros e [= <-]. Qed.

Lemma safe_join_raises `{OsPath} r f : raises_ok (safe_join r f).
Proof. unfold safe_join. repeat case_goal; intros e [= <-]; vm_compute; split; done || discriminate. Qed.

Lemma wire_raises p : raises_ok (peek_opcode p) ∧ raises_ok (parse_ack p) ∧ raises_ok (parse_data p).
Proof.
  unfold peek_opcode, parse_ack, parse_data.
  split_and!; case_goal; intros e [= <-]; vm_compute; split; done || discriminate.
Qed.

Lemma client_error_ok p : bytes_ok p → exc_ok (client_error p).
Proof.
  intros Hp. unfold client_error, parse_error. destruct (zlen p <? 4); cbn.
  - split; done || discriminate.
  - by apply unpack_H_range.
Qed.

(** ** The frame, operation by operation *)

Lemma counter_get_bump_ne k k' n cs : k' ≠ k → counter_get (bump k n cs) k' = counter_get cs k'.
Proof. intros. rewrite counter_get_bump, decide_False by done. lia. Qed.

Lemma frame_send b p x : frame x (send b p x).
Proof.
  split; [by destruct b..|]. intros k Hk. destruct b; [|done].
  apply counter_get_bump_ne. by intros ->.
Qed.

Lemma frame_send_blocks data bs bns x : frame x (send_blocks data bs bns x).
Proof.
  unfold send_blocks. revert x. induction bns as [|n bns IH]; intros x; cbn [fold_left]; [done|].
  etrans; [apply (frame_send true)|apply IH].
Qed.

Lemma frame_write tmp p x : frame x (write_payload tmp p x).
Proof. split; [done..|]. intros k Hk. apply counter_get_bump_ne. by intros ->. Qed.

Lemma frame_drain n tmp e w x e' w' x' : drain n tmp e w x = (e', w', x') → frame x x'.
Proof.
  revert e w x. induction n as [|n IH]; intros e w x; cbn [drain]; [by intros [= <- <- <-]|].
  destruct (dict_get e w); [|by intros [= <- <- <-]]. intros Hd%IH.
  etrans; [apply frame_write|done].
Qed.

Lemma frame_bump k n x : end_counter k = false → frame x (on_stats (bump k n) x).
Proof. intros Hk. split; [done..|]. intros k' Hk'. apply counter_get_bump_ne. congruence. Qed.

Lemma framed_ret {A} (a : A) : framed (mret a).
Proof. intros evs x o evs' x' [= <- <- <-] Hev. done. Qed.

Lemma framed_bind {A B} (m : M A) (f : A → M B) :
  framed m → (∀ a, framed (f a)) → framed (m ≫= f).
Proof.
  intros Hm Hf evs x o evs' x' Hrun Hev. unfold mbind, M_bind in Hrun.
  destruct (m evs x) as [[o1 evs1] x1] eqn:E1. destruct (Hm _ _ _ _ _ E1 Hev) as (Hf1 & Hev1 & He1).
  destruct o1 as [a|e| |]; try (injection Hrun as <- <- <-; split_and!; [done..|]; naive_solver).
  destruct (Hf a _ _ _ _ _ Hrun Hev1) as (Hf2 & Hev2 & He2). split_and!; [by etrans|done|done].
Qed.

Lemma framed_raise {A} e : exc_ok e → framed (raise (A := A) e).
Proof. intros He evs x o evs' x' [= <- <- <-] Hev. split_and!; [done..|]. by intros e' [= <-]. Qed.

Lemma framed_lift {A} (r : pyres A) : raises_ok r → framed (lift r).
Proof.
  intros Hr evs x o evs' x' Hrun Hev. unfold lift in Hrun. destruct r as [a|e];
    injection Hrun as <- <- <-; (split_and!; [done..|]); [done|]. intros e' [= <-]. by apply Hr.
Qed.

Lemma framed_modify f : (∀ x, frame x (f x)) → framed (modify f).
Proof. intros Hf evs x o evs' x' [= <- <- <-] Hev. done. Qed.

Lemma framed_oack_loop oack n : framed (oack_loop oack n).
Proof.
  induction n as [|n IH]; intros evs x o evs' x'; cbn [oack_loop].
  { intros [= <- <- <-] Hev. done. }
  intros Hrun Hev. pose proof (frame_send true oack x) as Hs.
  assert (∀ o2 evs2, Forall event_ok evs2 → (∀ e, o2 = Exc e → exc_ok e) →
    (o2, evs2, send true oack x) = (o, evs', x') → frame x x' ∧ Forall event_ok evs' ∧
    ∀ e, o = Exc e → exc_ok e) as Hend by (by intros o2 evs2 He Ho [= <- <- <-]).
  destruct evs as [|ev evs]; [by eapply Hend, Hrun|]. apply Forall_cons in Hev as [Hev Hevs].
  assert (oack_loop oack n evs (send true oack x) = (o, evs', x') →
    frame x x' ∧ Forall event_ok evs' ∧ ∀ e, o = Exc e → exc_ok e) as Hnext.
  { intros H. destruct (IH _ _ _ _ _ H Hevs) as (? & ? & ?). split_and!; [by etrans|done|done]. }
  destruct ev as [p| |]; [|by apply Hnext|by eapply Hend, Hrun].
  destruct (wire_raises p) as (Hpk & Hpa & _).
  destruct (peek_opcode p) as [op|e]; [|eapply Hend, Hrun; [done|]; intros ? [= <-]; by apply Hpk].
  destruct (op =? OP_ERROR), (op =? OP_ACK);
    try (destruct (parse_ack p) as [a|e];
         [destruct (ack_block a =? 0); [by eapply Hend, Hrun|]
         |eapply Hend, Hrun; [done|]; intros ? [= <-]; by apply Hpa]).
  all: try (by apply Hnext).
  all: eapply Hend, Hrun; [done|]; intros ? [= <-]; by apply client_error_ok.
Qed.

Lemma framed_send_loop data bs ws mr tb evs x la r o evs' x' :
  send_loop data bs ws mr tb evs x la r = (o, evs', x') → Forall event_ok evs →
  frame x x' ∧ Forall event_ok evs' ∧ ∀ e, o = Exc e → exc_ok e.
Proof.
  revert x la r. induction evs as [|ev evs IH]; intros x la r; cbn [send_loop];
    (destruct (la <? tb); [|by intros [= <- <- <-]]);
    set (x1 := send_blocks _ _ _ x); pose proof (frame_send_blocks data bs
      (zrange (la + 1) (Z.min (la + 1 + ws - 1) tb + 1)) x : frame x x1) as Hs; clearbody x1.
  { by intros [= <- <- <-]. }
  intros Hrun Hev. apply Forall_cons in Hev as [Hev Hevs].
  assert (∀ o2 x2, frame x x2 → (∀ e, o2 = Exc e → exc_ok e) →
    (o2, evs, x2) = (o, evs', x') → frame x x' ∧ Forall event_ok evs' ∧
    ∀ e, o = Exc e → exc_ok e) as Hend by (by intros o2 x2 Hf Ho [= <- <- <-]).
  assert (∀ x2 la r, frame x x2 → send_loop data bs ws mr tb evs x2 la r = (o, evs', x') →
    frame x x' ∧ Forall event_ok evs' ∧ ∀ e, o = Exc e → exc_ok e) as Hnext.
  { intros x2 la2 r2 Hf H. destruct (IH _ _ _ H Hevs) as (? & ? & ?). split_and!; [by etrans|done|done]. }
  destruct ev as [p| |].
  - destruct (wire_raises p) as (Hpk & Hpa & _).
    destruct (peek_opcode p) as [op|e]; [|eapply Hend, Hrun; [done|]; intros ? [= <-]; by apply Hpk].
    destruct (op =? OP_ERROR);
      [eapply Hend, Hrun; [done|]; intros ? [= <-]; by apply client_error_ok|].
    destruct (negb (op =? OP_ACK)); [by eapply Hnext|].
    destruct (parse_ack p) as [a|e]; [|eapply Hend, Hrun; [done|]; intros ? [= <-]; by apply Hpa].
    destruct (find_block _ _ _); [|by eapply Hnext]. eapply Hnext, Hrun. etrans; [done|by split].
  - destruct (mr <? r + 1); [|by eapply Hnext]. eapply Hend, Hrun; [done|].
    intros ? [= <-]. vm_compute. split; done || discriminate.
  - by eapply Hend, Hrun.
Qed.

Lemma framed_recv_loop tmp bs ws mr mx ro evs x e r w o evs' x' :
  recv_loop tmp bs ws mr mx ro evs x e r w = (o, evs', x') → Forall event_ok evs →
  frame x x' ∧ Forall event_ok evs' ∧ ∀ e, o = Exc e → exc_ok e.
Proof.
  revert x e r w. induction evs as [|ev evs IH]; intros x e r w; cbn [recv_loop].
  { by intros [= <- <- <-]. }
  intros Hrun Hev. apply Forall_cons in Hev as [Hev Hevs].
  assert (∀ o2 x2, frame x x2 → (∀ e, o2 = Exc e → exc_ok e) →
    (o2, evs, x2) = (o, evs', x') → frame x x' ∧ Forall event_ok evs' ∧
    ∀ e, o = Exc e → exc_ok e) as Hend by (by intros o2 x2 Hf Ho [= <- <- <-]).
  assert (∀ x2 e r w, frame x x2 → recv_loop tmp bs ws mr mx ro evs x2 e r w = (o, evs', x') →
    frame x x' ∧ Forall event_ok evs' ∧ ∀ e, o = Exc e → exc_ok e) as Hnext.
  { intros x2 e2 r2 w2 Hf H. destruct (IH _ _ _ _ H Hevs) as (? & ? & ?).
    split_and!; [by etrans|done|done]. }
  pose proof (λ p, frame_send true p x) as Hsend.
  destruct ev as [p| |].
  - destruct (wire_raises p) as (Hpk & _ & Hpd).
    destruct (peek_opcode p) as [op|ex]; [|eapply Hend, Hrun; [done|]; intros ? [= <-]; by apply Hpk].
    destruct (op =? OP_ERROR);
      [eapply Hend, Hrun; [done|]; intros ? [= <-]; by apply client_error_ok|].
    destruct (negb (op =? OP_DATA)); [by eapply Hnext|].
    destruct (parse_data p) as [d|ex]; [|eapply Hend, Hrun; [done|]; intros ? [= <-]; by apply Hpd].
    destruct (find_block _ _ _) as [m|]; [|eapply Hnext, Hrun; apply Hsend].
    destruct (m =? e); [|eapply Hnext, Hrun; apply Hsend].
    destruct (negb (mx =? 0) && _).
    { eapply Hend, Hrun; [done|]. intros ? [= <-]. cbn. split; done || discriminate. }
    pose proof (frame_write tmp (data_payload d) x) as Hw.
    destruct (negb ro && _).
    { eapply Hend, Hrun; [done|]. intros ? [= <-]. cbn. split; done || discriminate. }
    destruct (drain _ _ _ _ _) as [[e1 w1] x1] eqn:Hd. apply frame_drain in Hd.
    assert (∀ pkt, frame x (send true pkt x1)) as Hx1.
    { intros pkt. etrans; [done|]. etrans; [done|]. apply frame_send. }
    destruct (zlen _ <? bs); [by eapply Hend, Hrun|eapply Hnext, Hrun; apply Hx1].
  - destruct (mr <? r + 1); [|eapply Hnext, Hrun; apply Hsend]. eapply Hend, Hrun; [done|].
    intros ? [= <-]. cbn. split; done || discriminate.
  - by eapply Hend, Hrun.
Qed.

Lemma get_or_load_ends read f c st k :
  end_counter k = true →
  counter_get (get_or_load read f c st).2 k = counter_get st k.
Proof.
  intros Hk. unfold get_or_load. assert (∀ b n s, (b = cache_hits ∨ b = cache_misses) →
    counter_get (bump b n s) k = counter_get s k) as Hb.
  { intros b n s Hb. apply counter_get_bump_ne. intros ->. by destruct Hb; subst. }
  assert (∀ r c2, counter_get (cache_load_done f r c2 st).2 k = counter_get st k) as Hd.
  { intros r c2. unfold cache_load_done. destruct r as [[d|]|]; cbn [snd]; auto. }
  destruct (cache_request_cases f c st) as [(d & _ & _ & ->)|[[_ ->]|[_ ->]]];
    [apply Hb; by left|apply Hd|apply Hd].
Qed.

Lemma framed_cached_read E f : framed (cached_read E f).
Proof.
  intros evs x o evs' x' Hrun Hev. unfold cached_read in Hrun.
  pose proof (get_or_load_ends (env_read E) f (x_cache x) (x_stats x)) as Hg.
  destruct (get_or_load _ _ _ _) as [[d c] st]. injection Hrun as <- <- <-. cbn [snd] in Hg.
  split_and!; [by split|done|done].
Qed.

Lemma framed_send_prim data bs ws mr tb la r :
  framed (prim (λ evs x, send_loop data bs ws mr tb evs x la r)).
Proof. intros evs x o evs' x' Hrun. by eapply framed_send_loop. Qed.

Lemma framed_recv_prim tmp bs ws mr mx ro e r w :
  framed (prim (λ evs x, recv_loop tmp bs ws mr mx ro evs x e r w)).
Proof. intros evs x o evs' x' Hrun. by eapply framed_recv_loop. Qed.

Lemma framed_open E p :
  framed (lift (match env_open E p with None => Ok tt | Some m => Raise (OSError m) end)).
Proof. apply framed_lift. case_goal; by intros e [= <-]. Qed.

Lemma framed_ftp_upload E f p : framed (ftp_upload E f p).
Proof.
  intros evs x o evs' x' Hrun Hev. unfold ftp_upload in Hrun.
  destruct (match env_upload _ _ _ with Ok b => b | Raise _ => false end);
    injection Hrun as <- <- <-; (split_and!; [by split|done|]); [done|].
  intros e [= <-]. cbn. split; done || discriminate.
Qed.

(** Composes the frame of a computation from its parts. *)
Ltac framed_tac :=
  repeat first
    [ apply framed_send_prim | apply framed_recv_prim | apply framed_open
    | apply framed_bind; [|intros ?]
    | apply framed_ret | apply framed_cached_read | apply framed_oack_loop | apply framed_ftp_upload
    | apply framed_raise; cbn; split; done || discriminate
    | apply framed_modify; intros ?; first [apply frame_send | by split]
    | apply framed_lift; first [apply negotiate_raises | apply pack_oack_raises
        | apply floordiv_raises | apply py_int_raises]
    | case_goal ].

Lemma framed_rrq_body E c : framed (rrq_body E c).
Proof. unfold rrq_body, send_oack_await_ack, get_max_retries, send_file. framed_tac. Qed.

Lemma framed_wrq_body E c is_ftp p : framed (wrq_body E c is_ftp p).
Proof. unfold wrq_body, check_advertised, recv_file, get_max_retries. framed_tac. Qed.

(** ** The two handlers *)

(** How a handler left the lock table it started on. *)
Definition lock_effect (E : env) (m : mode) (f : str) (o : outcome unit)
    (l l' : gmap (list Z) Entry) : Prop :=
  (o ≠ Blocked ∧ l' = l) ∨
  (o ≠ Blocked ∧ ∃ e, acquire m f l = (Raise e, l')) ∨
  (∃ l1, acquire m f l = (Ok tt, l1) ∧
     (o = Blocked → l' = l1) ∧ (o ≠ Blocked → l' = release m f (env_others E l1))).

#[export] Instance outcome_unit_ret_dec (o : outcome unit) : Decision (o = Ret tt).
Proof. destruct o as [[]|?| |]; [by left|by right..]. Defined.

(** What a handler did to the session: the completion counter moved exactly
    when it returned, the other end counters and the fault flag did not. *)
Record handled (E : env) (m : mode) (f : str) (o : outcome unit) (x x' : sess) : Prop := {
  h_exc : ∀ e, o = Exc e → exc_ok e;
  h_fault : x_fault x' = x_fault x;
  h_ends : ∀ k, end_counter k = true →
    counter_get (x_stats x') k = counter_get (x_stats x) k +
      (if decide (k = tftp_sessions_completed ∧ o = Ret tt) then 1 else 0);
  h_state : o = Ret tt → x_state x' = u "done";
  h_locks : lock_effect E m f o (x_locks x) (x_locks x');
}.

Lemma no_completion {k : counter} {o : outcome unit} :
  o ≠ Ret tt → (if decide (k = tftp_sessions_completed ∧ o = Ret tt) then 1 else 0) = 0.
Proof. intros Ho. rewrite decide_False; [done|]. by intros [_ ?]. Qed.

Lemma acquire_raises m f l e l' : acquire m f l = (Raise e, l') → exc_ok e.
Proof.
  destruct m; cbn; unfold acquire_read, acquire_write; destruct (setdefault f l) as [en l1];
    repeat case_goal; intros [= <- <-]; done.
Qed.

Lemma locked_handled E m f (body : M unit) evs x o evs' x' :
  framed body → Forall event_ok evs →
  lock_to_tftp (_ ← with_lock E m f body; completed) evs x = (o, evs', x') →
  handled E m f o x x'.
Proof.
  intros Hb Hev Hrun. unfold lock_to_tftp, mbind, M_bind, with_lock in Hrun.
  destruct (acquire m f (x_locks x)) as [[[]|e] l1] eqn:Ha.
  2: { assert (exc_ok e) by (by eapply acquire_raises).
       assert (∃ e', o = Exc e' ∧ exc_ok e' ∧ x' = set_locks l1 x) as (e' & -> & Hok & ->).
       { destruct e; injection Hrun as <- <- <-; eexists; (split_and!; [done| |done]); try done. }
       split; [by intros ? [= <-]|done| |done|right; left; eauto].
       intros k _. rewrite no_completion by done. cbn [x_stats set_locks]. lia. }
  destruct (body evs (set_locks l1 x)) as [[o1 evs1] x1] eqn:E1.
  destruct (Hb _ _ _ _ _ E1 Hev) as ([Hl Hf Hc] & _ & Hexc). cbn [x_locks x_fault x_stats set_locks] in Hl, Hf, Hc.
  destruct o1 as [[]|e| |].
  - injection Hrun as <- <- <-. split; [done|exact Hf| |done|].
    + intros k Hk. cbn [x_stats on_stats set_state set_locks]. rewrite counter_get_bump, Hc by done.
      repeat case_decide; naive_solver lia.
    + right; right. exists l1. split_and!; [done..|]. intros _. cbn. by rewrite Hl.
  - specialize (Hexc e eq_refl).
    assert (∃ e', o = Exc e' ∧ exc_ok e' ∧
      x' = set_locks (release m f (env_others E (x_locks x1))) x1) as (e' & -> & Hok & ->).
    { destruct e; injection Hrun as <- <- <-; eexists; (split_and!; [done| |done]); done. }
    split; [by intros ? [= <-]|exact Hf| |done|].
    + intros k Hk. rewrite no_completion by done. cbn [x_stats set_locks]. rewrite Hc by done. lia.
    + right; right. exists l1. split_and!; [done..|]. intros _. cbn. by rewrite Hl.
  - injection Hrun as <- <- <-. split; [done|exact Hf| |done|].
    + intros k Hk. rewrite no_completion by done. cbn [x_stats set_locks]. rewrite Hc by done. lia.
    + right; right. exists l1. split_and!; [done..|]. intros _. cbn. by rewrite Hl.
  - injection Hrun as <- <- <-. split; [done|exact Hf| |done|].
    + intros k Hk. rewrite no_completion by done. rewrite Hc by done. lia.
    + right; right. exists l1. split_and!; [done|by rewrite Hl|done].
Qed.

Lemma handled_bump E m f o k n x x' :
  end_counter k = false → handled E m f o (on_stats (bump k n) x) x' → handled E m f o x x'.
Proof.
  intros Hk [H1 H2 H3 H4 H5]. split; [done|exact H2| |done|exact H5].
  intros k' Hk'. rewrite H3 by done. cbn [x_stats on_stats]. rewrite counter_get_bump_ne; [done|congruence].
Qed.

Lemma handled_raise E m f e x : exc_ok e → handled E m f (Exc e) x x.
Proof.
  intros He. split; [by intros ? [= <-]|done| |done|by left].
  intros k _. rewrite no_completion by done. lia.
Qed.

Lemma run_rrq_handled E c evs x o evs' x' :
  Forall event_ok evs → run_rrq E c evs x = (o, evs', x') →
  handled E Rd (req_filename (sc_request c)) o x x'.
Proof.
  intros Hev Hrun. unfold run_rrq, modify, mbind at 1, M_bind at 1 in Hrun.
  apply (handled_bump _ _ _ _ tftp_rrq 1); [done|].
  destruct (negb (mode_ok _)).
  - injection Hrun as <- <- <-. by apply handled_raise.
  - eapply locked_handled; [apply framed_rrq_body|done|exact Hrun].
Qed.

Lemma run_wrq_handled `{OsPath} E c evs x o evs' x' :
  Forall event_ok evs → run_wrq E c evs x = (o, evs', x') →
  handled E Wr (req_filename (sc_request c)) o x x'.
Proof.
  intros Hev Hrun. unfold run_wrq, modify, mbind at 1, M_bind at 1 in Hrun.
  apply (handled_bump _ _ _ _ tftp_wrq 1); [done|].
  repeat match type of Hrun with
  | (if ?b then raise _ else _) _ _ = _ =>
      destruct b; [injection Hrun as <- <- <-; by apply handled_raise|]
  end.
  unfold mbind at 1, M_bind at 1, lift at 1 in Hrun.
  match type of Hrun with context [safe_join ?r ?n] =>
    pose proof (safe_join_raises r n) as Hj; destruct (safe_join r n) as [p|e] end.
  - eapply locked_handled; [apply framed_wrq_body|done|exact Hrun].
  - injection Hrun as <- <- <-. apply handled_raise. by apply Hj.
Qed.

(** The lock a request takes. *)
Definition request_mode (c : config) : mode := if req_opcode (sc_request c) =? OP_RRQ then Rd else Wr.

(** The session ended in an ERROR packet with this code and message. *)
Record errored (code : Z) (msg : str) (fault : bool) (x x' : sess) : Prop := {
  er_sent : ∃ pkt, pack_error code msg = Ok pkt ∧ x_sent x' = x_sent x ++ [pkt];
  er_state : x_state x' = msg;
  er_fault : x_fault x' = x_fault x || fault;
  er_ends : ∀ k, end_counter k = true → counter_get (x_stats x') k = counter_get (x_stats x) k +
    (if decide (k = tftp_errors) then 1
     else if decide (k = tftp_sessions_failed) then (if fault then 1 else 0) else 0);
  er_locks : x_locks x' = x_locks x;
}.

Lemma pack_error_ok code msg : 0 ≤ code < 65536 → ∃ pkt, pack_error code msg = Ok pkt.
Proof. intros Hc. unfold pack_error. rewrite pack_H_ok by done. by eexists. Qed.

Lemma safe_run_cases `{OsPath} E c evs x o evs' x' :
  Forall event_ok evs → safe_run E c evs x = (o, evs', x') →
  ∃ o1 x1, handled E (request_mode c) (req_filename (sc_request c)) o1 x x1 ∧
    match o1 with
    | Exc e => o = Ret tt ∧ ∃ code msg fault, errored code msg fault x1 x' ∧
        match e with
        | TFTPError code' msg' => code = code' ∧ msg = msg' ∧ fault = is_server_fault code msg
        | _ => code = 0 ∧ msg = u "server error: " ++ exc_str e ∧ fault = true
        end
    | _ => o = o1 ∧ x' = x1
    end.
Proof.
  intros Hev Hrun. unfold safe_run in Hrun.
  destruct ((if req_opcode (sc_request c) =? OP_RRQ then run_rrq E c else run_wrq E c) evs x)
    as [[o1 evs1] x1] eqn:E1. exists o1, x1.
  assert (handled E (request_mode c) (req_filename (sc_request c)) o1 x x1) as Hh.
  { unfold request_mode. destruct (req_opcode (sc_request c) =? OP_RRQ);
      [by eapply run_rrq_handled|by eapply run_wrq_handled]. }
  split; [done|]. assert (∀ e, o1 = Exc e → exc_ok e) as Hexc by apply Hh.
  destruct o1 as [[]|e| |]; try (by injection Hrun as <- <- <-).
  specialize (Hexc e eq_refl).
  assert (∀ code msg (fault : bool) rest,
    0 ≤ code < 65536 →
    rest = (if fault then _ ← modify set_fault; modify (on_stats (bump tftp_sessions_failed 1))
            else mret tt) →
    (_ ← send_error code msg; _ ← modify (set_state msg); rest) evs1 x1 = (o, evs', x') →
    o = Ret tt ∧ errored code msg fault x1 x') as Hsend.
  { intros code msg fault rest Hcode -> Hr. destruct (pack_error_ok code msg Hcode) as [pkt Hpkt].
    unfold send_error, mbind, M_bind, lift, modify in Hr. rewrite Hpkt in Hr.
    destruct fault; injection Hr as <- <- <-; (split; [done|]);
      (split; [eauto|done|cbn [x_fault set_fault on_stats set_state send on_sent]; by rewrite ?orb_true_r, ?orb_false_r| |done]);
      intros k Hk; cbn [x_stats set_fault on_stats set_state send on_sent];
      rewrite !counter_get_bump; repeat case_decide; subst; try done; lia. }
  destruct e as [code msg| | | | | | | | | |];
    try (apply (Hsend ERR_UNDEFINED _ true) in Hrun as [-> Her]; [|vm_compute; split; done || discriminate|done];
         split; [done|]; eauto 10).
  apply (Hsend code msg (is_server_fault code msg)) in Hrun as [-> Her]; [|done|by destruct (is_server_fault code msg)].
  split; [done|]. eauto 10.
Qed.

(** Sessions do not leak locks: whatever the peer sends, a session that
    is suspended holds the lock its request needs, next to the other holders
    [hs]; and however it ends (completed, refused, failed, crashed or
    cancelled) it holds nothing any more: the lock table is the one of the
    other holders alone, [hs] if the lock was never taken, or [hs'] if the
    others moved on to [hs'] while it was held. *)
Theorem session_releases_lock `{OsPath} E c evs x o evs' x' hs hs' :
  let f := req_filename (sc_request c) in
  let m := request_mode c in
  Forall event_ok evs → safe_run E c evs x = (o, evs', x') →
  lock_inv (x_locks x, hs) →
  (∀ t, lock_inv (t, (f, m) :: hs) → lock_inv (env_others E t, (f, m) :: hs')) →
  (o = Blocked → grants f m hs ∧ lock_inv (x_locks x', (f, m) :: hs)) ∧
  (o ≠ Blocked → lock_inv (x_locks x', hs) ∨ lock_inv (x_locks x', hs')).
Proof.
  intros f m Hev Hrun Hinv Hoth. destruct (safe_run_cases _ _ _ _ _ _ _ Hev Hrun) as (o1 & x1 & Hh & Hx).
  assert (x_locks x' = x_locks x1 ∧ (o = Blocked ↔ o1 = Blocked)) as [-> Ho].
  { destruct o1 as [[]|e| |]; try (by destruct Hx as [-> ->]).
    destruct Hx as (-> & code & msg & fault & Her & _). split; [apply Her|done]. }
  rewrite Ho. clear Hx Ho Hrun.
  destruct (acquire_spec _ f m Hinv) as [[Hg (l2 & Ha2 & Hi)]|[_ (msg & l2 & Ha2 & Hi)]];
    cbn [fst snd] in Ha2, Hi;
    destruct (h_locks _ _ _ _ _ _ Hh) as [[Hb Hl]|[(Hb & e & Ha)|(l1 & Ha & Hbl & Hrel)]];
    rewrite ?Hl; try (fold f m in Ha; rewrite Ha in Ha2; simplify_eq); split; intros Hbo;
    try (by destruct (Hb Hbo)); auto.
  - split; [done|]. by rewrite (Hbl Hbo).
  - right. rewrite (Hrel Hbo). by apply (release_inv _ _ _ []), Hoth.
Qed.

Lemma session_releases_lock_witness :
  ∃ o evs' x', safe_run demo_env (demo_config 1) [Pkt (pack_ack 1)] demo_sess = (o, evs', x') ∧
    o = Ret tt ∧ (lock_inv (x_locks x', []) ∨ lock_inv (x_locks x', [])).
Proof.
  destruct (safe_run demo_env (demo_config 1) [Pkt (pack_ack 1)] demo_sess) as [[o evs'] x'] eqn:Er.
  exists o, evs', x'. assert (o = Ret tt) as Ho by (vm_compute in Er; by injection Er as <- <- <-).
  split; [done|]. split; [done|].
  apply (session_releases_lock demo_env (demo_config 1) [Pkt (pack_ack 1)] demo_sess o evs' x' [] []);
    [by repeat constructor|done|apply lock_inv_init|done|by subst].
Defined.

(** Every session that ends is accounted for exactly once.  It completed:
    state "done", the completion counter moved, no error counted, no fault.  Or
    it sent, as its last packet, one ERROR packet carrying the message the web
    panel shows as its state, and counted one error, and one failed session
    exactly when the fault flag is set: for a crash, or a TFTP error
    [_is_server_fault] blames on the server.  No exception escapes, and a
    suspended or cancelled session has counted nothing. *)
Theorem session_accounts `{OsPath} E c evs x o evs' x' :
  Forall event_ok evs → safe_run E c evs x = (o, evs', x') → x_fault x = false →
  let d k := counter_get (x_stats x') k - counter_get (x_stats x) k in
  d tftp_sessions_total = 0 ∧
  match o with
  | Ret _ =>
      (x_state x' = u "done" ∧ x_fault x' = false ∧
       d tftp_sessions_completed = 1 ∧ d tftp_errors = 0 ∧ d tftp_sessions_failed = 0) ∨
      (∃ code msg pkt sent, pack_error code msg = Ok pkt ∧ x_sent x' = sent ++ [pkt] ∧
       x_state x' = msg ∧ d tftp_sessions_completed = 0 ∧ d tftp_errors = 1 ∧
       d tftp_sessions_failed = (if x_fault x' then 1 else 0))
  | Exc _ => False
  | Cancelled | Blocked =>
      x_fault x' = false ∧
      d tftp_sessions_completed = 0 ∧ d tftp_errors = 0 ∧ d tftp_sessions_failed = 0
  end.
Proof.
  intros Hev Hrun Hf0. cbn zeta.
  destruct (safe_run_cases _ _ _ _ _ _ _ Hev Hrun) as (o1 & x1 & [_ Hf Hends Hst _] & Hx).
  rewrite Hf0 in Hf. pose proof (λ k, Hends k) as He.
  destruct o1 as [[]|e| |].
  - destruct Hx as [-> ->]. rewrite !Hends by done. split; [case_decide; naive_solver lia|].
    left. split; [by apply Hst|]. split; [done|]. repeat case_decide; naive_solver lia.
  - destruct Hx as (-> & code & msg & fault & [(pkt & Hpk & Hs) Hstate Hfault Hc _] & _).
    rewrite !Hc, !Hends by done. rewrite !no_completion by done. cbn [decide].
    split; [repeat case_decide; done || lia|]. right. exists code, msg, pkt, (x_sent x1).
    rewrite Hfault, Hf. split_and!; [done..| | |]; repeat case_decide; done || (cbn; lia).
  - destruct Hx as [-> ->]. rewrite !Hends by done. rewrite !no_completion by done.
    split_and!; [lia|done|lia..].
  - destruct Hx as [-> ->]. rewrite !Hends by done. rewrite !no_completion by done.
    split_and!; [lia|done|lia..].
Qed.

Lemma session_accounts_witness :
  ∃ evs' x', safe_run demo_env (demo_config 1) [Pkt (pack_ack 1)] demo_sess = (Ret tt, evs', x') ∧
    counter_get (x_stats x') tftp_sessions_total - counter_get (x_stats demo_sess) tftp_sessions_total = 0.
Proof.
  destruct (safe_run demo_env (demo_config 1) [Pkt (pack_ack 1)] demo_sess) as [[o evs'] x'] eqn:Er.
  exists evs', x'. assert (o = Ret tt) as Ho by (vm_compute in Er; by injection Er as <- <- <-).
  subst o. split; [done|].
  apply (session_accounts demo_env (demo_config 1) [Pkt (pack_ack 1)] demo_sess (Ret tt) evs' x');
    [by repeat constructor|done|reflexivity].
Defined.

(** ** A download from the request to the end *)

Lemma get_or_load_reads read f c st data :
  read f = Ok (Some data) →
  (dict_get f (c_entries c) = None ∨ dict_get f (c_entries c) = Some data) →
  (get_or_load read f c st).1.1 = Some data.
Proof.
  intros Hr Hc. unfold get_or_load.
  destruct (cache_request_cases f c st) as [(d & Hd & _ & ->)|[[_ ->]|[_ ->]]].
  - rewrite Hd in Hc. destruct Hc as [|Hc]; [done|]. exact Hc.
  - rewrite Hr. done.
  - rewrite Hr. done.
Qed.

Lemma oack_acked oack n evs x :
  oack_loop oack (S n) (Pkt (pack_ack 0) :: evs) x = (Ret true, evs, send true oack x).
Proof. cbn [oack_loop]. by rewrite peek_opcode_ack, parse_ack_pack. Qed.

(** What the client sends first: an ACK of block 0 if there is an OACK. *)
Definition oack_answer (neg : Negotiated) : list event :=
  match neg_reply neg with [] => [] | _ => [Pkt (pack_ack 0)] end.
Definition oack_packets (neg : Negotiated) (oack : bytes) : list bytes :=
  match neg_reply neg with [] => [] | _ => [oack] end.

Lemma rrq_body_completes E c data neg mr oack evs bns x :
  let f := req_filename (sc_request c) in
  env_read E f = Ok (Some data) →
  (dict_get f (c_entries (x_cache x)) = None ∨ dict_get f (c_entries (x_cache x)) = Some data) →
  (rrq_limit c f = 0 ∨ zlen data ≤ rrq_limit c f) →
  negotiate (req_options (sc_request c)) (sc_cfg c) (Some (zlen data)) true = Ok neg →
  pack_oack (neg_reply neg) = Ok oack →
  0 < neg_blksize neg → neg_windowsize neg ≤ 65536 →
  (sc_allow_rollover c = true ∨ block_count data (neg_blksize neg) ≤ 65535) →
  get_max_retries c = Ok mr → 0 < mr → x_transferred x = 0 →
  client_run data (neg_blksize neg) (Z.max 1 (neg_windowsize neg)) mr 0 evs bns
    (block_count data (neg_blksize neg)) →
  ∃ x', rrq_body E c (oack_answer neg ++ evs) x = (Ret tt, [], x') ∧
    x_sent x' = x_sent x ++ oack_packets neg oack ++ map (data_packet data (neg_blksize neg)) bns ∧
    x_transferred x' = zlen data.
Proof.
  intros f Hread Hcache Hlim Hneg Hoack Hb Hw Hroll Hmr H0 Ht Hrun.
  pose proof (zlen_nonneg data). destruct (block_count_bounds data _ Hb) as (H1 & H2 & H3).
  assert (∀ x1, x_transferred x1 = 0 → ∃ x', send_file c data neg evs x1 = (Ret tt, [], x') ∧
    x_sent x' = x_sent x1 ++ map (data_packet data (neg_blksize neg)) bns ∧
    x_transferred x' = zlen data) as Hsend.
  { intros x1 Hx1. rewrite (send_file_loop _ _ _ mr) by done. rewrite <- (app_nil_r evs).
    destruct (send_loop_client _ _ _ _ _ _ _ _ [] (set_state (u "transferring") x1) 0 Hrun)
      as (x' & -> & Hs & Hp); [lia..|done|cbn; lia|].
    exists x'. split; [|split; [exact Hs|lia]]. cbn [send_loop].
    destruct (Z.ltb_spec (block_count data (neg_blksize neg)) (block_count data (neg_blksize neg)));
      [lia|done]. }
  unfold rrq_body, cached_read, mbind, M_bind, modify, lift. fold f.
  pose proof (get_or_load_reads (env_read E) f (x_cache x) (x_stats x) data Hread Hcache) as Hg.
  destruct (get_or_load _ _ _ _) as [[d ca] st]. cbn [fst snd] in Hg. subst d.
  assert (negb (rrq_limit c f =? 0) && (rrq_limit c f <? zlen data) = false) as ->.
  { destruct (Z.eqb_spec (rrq_limit c f) 0), (Z.ltb_spec (rrq_limit c f) (zlen data)); cbn; lia || done. }
  rewrite Hneg. unfold floordiv. destruct (Z.eqb_spec (neg_blksize neg) 0); [lia|].
  fold (block_count data (neg_blksize neg)).
  assert (negb (sc_allow_rollover c) && (65535 <? block_count data (neg_blksize neg)) = false) as ->.
  { destruct (sc_allow_rollover c), (Z.ltb_spec 65535 (block_count data (neg_blksize neg)));
      cbn; naive_solver lia. }
  unfold oack_answer, oack_packets. destruct (neg_reply neg) as [|r rs] eqn:Hr.
  - cbn [app]. match goal with |- context [send_file c data neg evs ?y] =>
      exact (Hsend y Ht) end.
  - unfold send_oack_await_ack, mbind, M_bind, lift. rewrite Hr, Hoack, Hmr.
    replace (Z.to_nat mr) with (S (Z.to_nat (mr - 1))) by lia.
    cbn [app]. rewrite oack_acked. cbn [negb].
    match goal with |- context [send_file c data neg evs ?y] =>
      destruct (Hsend y Ht) as (x' & -> & Hs & Hp) end.
    exists x'. split; [done|]. split; [|done]. rewrite Hs. cbn. by rewrite <- app_assoc.
Qed.

(** The body between its lock and its end. *)
Lemma rrq_run_completes `{OsPath} E c data neg mr evs bns x l :
  let f := req_filename (sc_request c) in
  req_opcode (sc_request c) = OP_RRQ → mode_ok (req_mode (sc_request c)) = true →
  acquire Rd f (x_locks x) = (Ok tt, l) →
  env_read E f = Ok (Some data) →
  (dict_get f (c_entries (x_cache x)) = None ∨ dict_get f (c_entries (x_cache x)) = Some data) →
  (rrq_limit c f = 0 ∨ zlen data ≤ rrq_limit c f) →
  negotiate (req_options (sc_request c)) (sc_cfg c) (Some (zlen data)) true = Ok neg →
  0 < neg_blksize neg → neg_windowsize neg ≤ 65536 →
  (sc_allow_rollover c = true ∨ block_count data (neg_blksize neg) ≤ 65535) →
  get_max_retries c = Ok mr → 0 < mr → x_transferred x = 0 →
  client_run data (neg_blksize neg) (Z.max 1 (neg_windowsize neg)) mr 0 evs bns
    (block_count data (neg_blksize neg)) →
  ∃ oack x', pack_oack (neg_reply neg) = Ok oack ∧
    safe_run E c (oack_answer neg ++ evs) x = (Ret tt, [], x') ∧
    x_sent x' = x_sent x ++ oack_packets neg oack ++ map (data_packet data (neg_blksize neg)) bns ∧
    x_transferred x' = zlen data ∧ x_state x' = u "done".
Proof.
  intros f Hop Hmode Hacq Hread Hcache Hlim Hneg Hb Hw Hroll Hmr H0 Ht Hrun.
  destruct (negotiate_packs _ _ _ _ _ Hneg) as [oack Hoack]. exists oack.
  destruct (rrq_body_completes E c data neg mr oack evs bns
    (set_locks l (on_stats (bump tftp_rrq 1) x)) Hread Hcache Hlim Hneg Hoack Hb Hw Hroll Hmr H0 Ht Hrun)
    as (x' & Hbody & Hs & Hp).
  unfold safe_run. rewrite Hop, Z.eqb_refl. unfold run_rrq, mbind, M_bind, modify.
  rewrite Hmode. cbn [negb]. unfold lock_to_tftp, with_lock. cbn [x_locks on_stats].
  fold f. rewrite Hacq, Hbody. eexists. split_and!; [done..|exact Hs|exact Hp|done].
Qed.

(** [C1] A read request is served from beginning to end: for a readable file
    within the size limit whose lock is free, and a client that acknowledges
    the OACK (if options were negotiated) and some block of every window within
    the retry budget, the session sends the OACK and exactly the DATA packets
    of the client's run, consumes all its answers, and ends completed. *)
Theorem rrq_serves_file `{OsPath} E c data neg mr evs bns x l :
  let f := req_filename (sc_request c) in
  req_opcode (sc_request c) = OP_RRQ → mode_ok (req_mode (sc_request c)) = true →
  acquire Rd f (x_locks x) = (Ok tt, l) →
  env_read E f = Ok (Some data) →
  (dict_get f (c_entries (x_cache x)) = None ∨ dict_get f (c_entries (x_cache x)) = Some data) →
  (rrq_limit c f = 0 ∨ zlen data ≤ rrq_limit c f) →
  negotiate (req_options (sc_request c)) (sc_cfg c) (Some (zlen data)) true = Ok neg →
  0 < neg_blksize neg → neg_windowsize neg ≤ 65536 →
  (sc_allow_rollover c = true ∨ block_count data (neg_blksize neg) ≤ 65535) →
  get_max_retries c = Ok mr → 0 < mr → x_transferred x = 0 →
  client_run data (neg_blksize neg) (Z.max 1 (neg_windowsize neg)) mr 0 evs bns
    (block_count data (neg_blksize neg)) →
  ∃ oack x', pack_oack (neg_reply neg) = Ok oack ∧
    safe_run E c (oack_answer neg ++ evs) x = (Ret tt, [], x') ∧
    x_sent x' = x_sent x ++ oack_packets neg oack ++ map (data_packet data (neg_blksize neg)) bns ∧
    x_transferred x' = zlen data ∧ x_state x' = u "done".
Proof. exact (rrq_run_completes E c data neg mr evs bns x l). Qed.

Lemma rrq_serves_file_witness :
  let c := mkConfig (u "5e55") (mkRequest 1 (u "fw") (u "octet") [(u "blksize", u "8")]) []
             (u "C:\up") true 0 0 0 false (u "f::") false in
  let neg := mkNegotiated 8 1 3 (Some 3) [(u "blksize", u "8")] in
  ∃ oack x', pack_oack (neg_reply neg) = Ok oack ∧
    safe_run demo_env c [Pkt (pack_ack 0); Timeout; Pkt (pack_ack 1)] demo_sess = (Ret tt, [], x') ∧
    x_sent x' = [] ++ [oack] ++ map (data_packet [1; 2; 3] 8) [1; 1] ∧
    x_transferred x' = 3 ∧ x_state x' = u "done".
Proof.
  intros c neg.
  apply (rrq_serves_file demo_env c [1; 2; 3] neg 5 [Timeout; Pkt (pack_ack 1)] [1; 1] demo_sess
    (acquire_read (u "fw") ∅).2);
    try (vm_compute; reflexivity); [by left|by left|discriminate|right; vm_compute; discriminate|].
  apply (cr_round [1; 2; 3] 8 1 5 0 1 1 [] []); [reflexivity|discriminate| |apply cr_done].
  apply (bool_decide_unpack _). vm_compute. exact I.
Defined.

(** ** An upload from the request to the end *)

(** The client announced no size, or the right one. *)
Definition announced (neg : Negotiated) (data : bytes) : Prop :=
  advertised_size neg = None ∨ advertised_size neg = Some (zlen data).

Lemma check_advertised_passes c neg data evs x :
  announced neg data → 0 < neg_blksize neg →
  sc_max_wrq_size c = 0 ∨ zlen data ≤ sc_max_wrq_size c →
  sc_allow_rollover c = true ∨ block_count data (neg_blksize neg) ≤ 65535 →
  ∃ x', check_advertised c neg evs x = (Ret tt, evs, x') ∧
    x_sent x' = x_sent x ∧ x_transferred x' = x_transferred x ∧ x_fs x' = x_fs x ∧ x_locks x' = x_locks x.
Proof.
  intros Han Hb Hmax Hroll. unfold check_advertised.
  destruct Han as [-> | ->]; [by exists x|]. unfold mbind, M_bind, modify, lift.
  destruct (Z.eqb_spec (sc_max_wrq_size c) 0), (Z.ltb_spec (sc_max_wrq_size c) (zlen data));
    cbn [negb andb]; try lia; (destruct (sc_allow_rollover c); cbn [negb]; [by eexists|]);
    unfold floordiv; (destruct (Z.eqb_spec (neg_blksize neg) 0); [lia|]);
    fold (block_count data (neg_blksize neg));
    (destruct (Z.ltb_spec 65535 (block_count data (neg_blksize neg))); [naive_solver lia|]); by eexists.
Qed.

(** The first packet of the server: the OACK, or the ACK of block 0. *)
Definition wrq_answer (neg : Negotiated) (oack : bytes) : bytes :=
  match neg_reply neg with [] => pack_ack 0 | _ => oack end.

Lemma wrq_body_completes E c dest data neg mr oack evs x :
  negotiate (req_options (sc_request c)) (sc_cfg c) None false = Ok neg →
  pack_oack (neg_reply neg) = Ok oack → announced neg data →
  env_open E (dest ++ u ".part") = None →
  0 < neg_blksize neg → neg_windowsize neg ≤ 65536 →
  sc_max_wrq_size c = 0 ∨ zlen data ≤ sc_max_wrq_size c →
  sc_allow_rollover c = true ∨ block_count data (neg_blksize neg) ≤ 65535 →
  get_max_retries c = Ok mr → x_transferred x = 0 →
  sender_run data (neg_blksize neg) (Z.max 1 (neg_windowsize neg)) mr 1 0 evs →
  ∃ evs' x' acks, wrq_body E c false dest evs x = (Ret tt, evs', x') ∧
    dict_get dest (x_fs x') = Some data ∧ x_transferred x' = zlen data ∧
    x_sent x' = x_sent x ++ wrq_answer neg oack :: acks ∧
    Forall (ack_below (block_count data (neg_blksize neg) + 1)) acks ∧ x_locks x' = x_locks x.
Proof.
  intros Hneg Hoack Han Ho Hb Hw Hmax Hroll Hmr Ht Hrun.
  unfold wrq_body, mbind, M_bind, modify, lift. rewrite Hneg.
  destruct (check_advertised_passes c neg data evs (set_sizes (neg_blksize neg) (neg_windowsize neg) x)
    Han Hb Hmax Hroll) as (x1 & -> & Hs1 & Ht1 & _ & Hl1). cbn [set_sizes x_sent x_transferred x_locks] in *.
  destruct (recv_file_completes E c dest neg data mr evs (send true (wrq_answer neg oack) x1))
    as (evs' & x' & acks & Hr & Hd & Hp & Hs & Ha & Hl); [done..|cbn; congruence|done|].
  exists evs', x', acks. split_and!; [|done|done| |done|by rewrite Hl].
  - unfold wrq_answer in Hr. destruct (neg_reply neg); [unfold mret, M_ret|rewrite Hoack]; by rewrite Hr.
  - rewrite Hs. cbn [x_sent send on_sent on_stats]. by rewrite Hs1, <- app_assoc.
Qed.



