(* ===== verification/Locked.v ===== *)
(** * What a session does with its lock (src/tftp/session.py)

    A handler either fails before it asks for the lock of its file, whatever
    happens later, or does everything else under that lock.  So a session that
    is waiting holds the lock, and when it ends it gives it back to the table
    as the other sessions have left it - which is the only thing about a
    session the others can change. *)

From S2P Require Import Prelude Python Constants Wire Options Stats FileLock.
From S2P Require Import Cache Paths Session SessionLife.
Open Scope Z_scope.

(** The environment of a session when it runs again: the other sessions have
    moved the lock table on. *)
Definition left_by (others : gmap (list Z) Entry → gmap (list Z) Entry) (E : env) : env :=
  mkEnv (env_read E) (env_upload E) (env_open E) others.

Lemma left_by_same E : left_by (env_others E) E = E.
Proof. by destruct E. Qed.

Section locked.
Context `{OsPath}.

Definition request_handler (E : env) (c : config) : M unit :=
  if req_opcode (sc_request c) =? OP_RRQ then run_rrq E c else run_wrq E c.

(** The handler raises before it takes the lock. *)
Definition refused_early (c : config) : Prop :=
  ∃ k e, ∀ E evs x, request_handler E c evs x = (Exc e, evs, on_stats (bump k 1) x).

(** The handler is one body under the lock. *)
Definition one_body (c : config) : Prop :=
  ∃ k (body : env → M unit), (∀ E, framed (body E)) ∧ (∀ oth E, body (left_by oth E) = body E) ∧
    end_counter k = false ∧
    ∀ E evs x, request_handler E c evs x =
      lock_to_tftp (_ ← with_lock E (request_mode c) (req_filename (sc_request c)) (body E); completed) evs
        (on_stats (bump k 1) x).

Lemma request_handler_cases c : refused_early c ∨ one_body c.
Proof.
  unfold refused_early, one_body, request_handler, request_mode.
  destruct (req_opcode (sc_request c) =? OP_RRQ).
  - unfold run_rrq, modify, mbind at 1 2, M_bind at 1 2. destruct (negb (mode_ok _)).
    + left. exists tftp_rrq. eexists. reflexivity.
    + right. exists tftp_rrq, (λ E, rrq_body E c). split_and!; [intros; apply framed_rrq_body|done..].
  - unfold run_wrq, modify, mbind at 1 3, M_bind at 1 3.
    repeat match goal with
    | |- context [if ?b then raise _ else _] => destruct b; [left; exists tftp_wrq; eexists; reflexivity|]
    end.
    unfold mbind at 1 2, M_bind at 1 2, lift at 1 2.
    match goal with |- context [safe_join ?r ?n] => destruct (safe_join r n) as [p|e] end.
    + right. eexists tftp_wrq, (λ E, wrq_body E c (is_ftp_name c (req_filename (sc_request c))) p).
      split_and!; [intros; apply framed_wrq_body|done..].
    + left. exists tftp_wrq. eexists. reflexivity.
Qed.

(** ** The lock is held from the first step to the last *)

(** The lock table after a step, of a session that has taken its lock. *)
Definition table_after (E : env) (c : config) (o : outcome unit) (l : gmap (list Z) Entry) : gmap (list Z) Entry :=
  match o with
  | Blocked => l
  | _ => release (request_mode c) (req_filename (sc_request c)) (env_others E l)
  end.

Lemma handler_table E c evs x l :
  one_body c → Forall event_ok evs → acquire (request_mode c) (req_filename (sc_request c)) (x_locks x) = (Ok tt, l) →
  x_locks (request_handler E c evs x).2 = table_after E c (request_handler E c evs x).1.1 l.
Proof.
  intros (k & body & Hf & _ & _ & Hrun) Hev Ha. rewrite Hrun.
  unfold lock_to_tftp, mbind, M_bind, with_lock. cbn [x_locks on_stats]. rewrite Ha.
  destruct (body E evs _) as [[o evs1] x1] eqn:Hb. destruct (Hf E _ _ _ _ _ Hb Hev) as ([Hl _ _] & _).
  cbn [x_locks set_locks] in Hl. destruct o as [[]|[]| |]; cbn [fst snd table_after x_locks set_locks set_state on_stats completed modify]; by rewrite Hl.
Qed.

(** What [_safe_run] does about an exception. *)
Definition report (e : exc) : M unit :=
  match e with
  | TFTPError code msg =>
      _ ← send_error code msg; _ ← modify (set_state msg);
      if is_server_fault code msg then _ ← modify set_fault; modify (on_stats (bump tftp_sessions_failed 1))
      else mret tt
  | _ =>
      let msg := u "server error: " ++ exc_str e in
      _ ← send_error ERR_UNDEFINED msg; _ ← modify (set_state msg);
      _ ← modify set_fault; modify (on_stats (bump tftp_sessions_failed 1))
  end.

Lemma safe_run_report E c evs x :
  safe_run E c evs x = match request_handler E c evs x with
                       | (Exc e, evs1, x1) => report e evs1 x1
                       | r => r
                       end.
Proof.
  unfold safe_run. fold (request_handler E c). destruct (request_handler E c evs x) as [[[]] ?]; try done.
  by destruct e.
Qed.

Lemma send_error_locks code msg evs x :
  let '(o, evs', x') := send_error code msg evs x in o ≠ Blocked ∧ x_locks x' = x_locks x.
Proof. unfold send_error, mbind, M_bind, lift, modify. by destruct (pack_error code msg). Qed.

(** It ends, and leaves the table alone. *)
Lemma report_locks e evs x : (report e evs x).1.1 ≠ Blocked ∧ x_locks (report e evs x).2 = x_locks x.
Proof.
  assert (∀ code msg (rest : M unit), (∀ evs x, (rest evs x).1.1 ≠ Blocked ∧ x_locks (rest evs x).2 = x_locks x) →
    let r := (_ ← send_error code msg; rest) evs x in r.1.1 ≠ Blocked ∧ x_locks r.2 = x_locks x) as Hsend.
  { intros code msg rest Hrest. cbv zeta. unfold mbind, M_bind. pose proof (send_error_locks code msg evs x) as Hs.
    destruct (send_error code msg evs x) as [[[] evs'] x']; destruct Hs as [Ho Hl]; try done.
    destruct (Hrest evs' x') as [H1 H2]. split; [done|congruence]. }
  destruct e; apply Hsend; intros; try done. by case_match.
Qed.

(** A session that waits holds its lock; from then on the table is the one it
    took the lock on until it ends, and then the one it was left, less its
    lock. *)
Lemma waiting_holds E c evs x :
  (safe_run E c evs x).1.1 = Blocked →
  ∃ l, acquire (request_mode c) (req_filename (sc_request c)) (x_locks x) = (Ok tt, l) ∧
    ∀ E' evs', Forall event_ok evs' →
      x_locks (safe_run E' c evs' x).2 = table_after E' c (safe_run E' c evs' x).1.1 l.
Proof.
  intros Hb. assert ((request_handler E c evs x).1.1 = Blocked) as Hh.
  { rewrite safe_run_report in Hb. destruct (request_handler E c evs x) as [[[]] ?]; try done.
    by destruct (report_locks e l s). }
  destruct (request_handler_cases c) as [(k & e & He)|Hone]; [by rewrite He in Hh|].
  destruct (acquire (request_mode c) (req_filename (sc_request c)) (x_locks x)) as [[[]|e] l] eqn:Ha.
  - exists l. split; [done|]. intros E' evs' Hev. pose proof (handler_table E' c evs' x l Hone Hev Ha) as Ht.
    rewrite safe_run_report. destruct (request_handler E' c evs' x) as [[o1 evs1] x1].
    cbn [fst snd] in Ht. destruct o1; try done. destruct (report_locks e evs1 x1) as [Hn ->]. rewrite Ht.
    by destruct (report e evs1 x1) as [[[]] ?].
  - exfalso. destruct Hone as (k & body & _ & _ & _ & Hrun). rewrite Hrun in Hh. revert Hh.
    unfold lock_to_tftp, mbind, M_bind, with_lock. cbn [x_locks on_stats]. rewrite Ha. by destruct e.
Qed.

(** ** Nothing else depends on the others *)

Definition but_locks (x x' : sess) : Prop := set_locks ∅ x = set_locks ∅ x'.

Definition alike (r r' : outcome unit * list event * sess) : Prop := r.1 = r'.1 ∧ but_locks r.2 r'.2.

Lemma report_alike e evs x x' : but_locks x x' → alike (report e evs x) (report e evs x').
Proof.
  unfold but_locks, alike. intros Hx. destruct x, x'. cbn in Hx. injection Hx as -> -> -> -> -> -> -> -> -> ->.
  destruct e; cbn -[pack_error]; unfold send_error, mbind, M_bind, lift, modify;
    (destruct (pack_error _ _); [|done]); try done. by case_match.
Qed.

Lemma handler_alike oth E c evs x : alike (request_handler E c evs x) (request_handler (left_by oth E) c evs x).
Proof.
  destruct (request_handler_cases c) as [(k & e & He)|(k & body & _ & Hbody & _ & Hrun)]; [by rewrite !He|].
  rewrite !Hrun, Hbody. unfold lock_to_tftp, mbind, M_bind, with_lock, completed.
  destruct (acquire _ _ _) as [[[]|e] l]; [|by destruct e].
  destruct (body E evs _) as [[o evs1] x1]. by destruct o as [[]|[]| |].
Qed.

Lemma safe_run_others oth E c evs x : alike (safe_run E c evs x) (safe_run (left_by oth E) c evs x).
Proof.
  rewrite !safe_run_report. destruct (handler_alike oth E c evs x) as [H1 H2].
  destruct (request_handler E c evs x) as [[o evs1] x1], (request_handler (left_by oth E) c evs x) as [[o' evs1'] x1'].
  cbn [fst snd] in H1, H2. injection H1 as <- <-. destruct o; try by split. by apply report_alike.
Qed.
End locked.
