(* ===== verification/Counted.v ===== *)
(** * Sessions write the counters and never read them (src/tftp/session.py, src/core/stats.py)

    [STATS] is one object for all sessions.  A session only bumps it: started
    on counters that are further ahead, it does exactly the same and leaves
    them as much further ahead.  So what a session adds to the counters is its
    own, whatever the others add in between. *)

From S2P Require Import Prelude Python Constants Wire Options Stats FileLock.
From S2P Require Import Cache Paths Session SessionLife Locked.
Open Scope Z_scope.

(** The same state, with counters ahead by [d]. *)
Definition ahead (d : counter → Z) (x x' : sess) : Prop :=
  ∃ st, x' = on_stats (λ _, st) x ∧ ∀ k, counter_get st k = counter_get (x_stats x) k + d k.

Definition shifts (f : sess → sess) : Prop := ∀ d x x', ahead d x x' → ahead d (f x) (f x').

Lemma shifts_id : shifts id.
Proof. by intros d x x'. Qed.

Lemma shifts_comp f g : shifts f → shifts g → shifts (λ x, g (f x)).
Proof. intros Hf Hg d x x' Hx. by apply Hg, Hf. Qed.

Lemma shifts_bump k n : shifts (on_stats (bump k n)).
Proof.
  intros d x x' (st & -> & Hst). exists (bump k n st). split; [done|]. intros k'. cbn [x_stats on_stats].
  rewrite !counter_get_bump, Hst. lia.
Qed.

(** The state changes that do not concern the counters. *)
Ltac shifts_tac := intros d x x' (st & -> & Hst); exists st; split; [reflexivity|exact Hst].

Lemma shifts_sent f : shifts (on_sent f).
Proof. shifts_tac. Qed.
Lemma shifts_state s : shifts (set_state s).
Proof. shifts_tac. Qed.
Lemma shifts_fault : shifts set_fault.
Proof. shifts_tac. Qed.
Lemma shifts_total n : shifts (set_total n).
Proof. shifts_tac. Qed.
Lemma shifts_sizes b w : shifts (set_sizes b w).
Proof. shifts_tac. Qed.
Lemma shifts_transferred n : shifts (set_transferred n).
Proof. shifts_tac. Qed.
Lemma shifts_fs f : shifts (on_fs f).
Proof. shifts_tac. Qed.
Lemma shifts_locks l : shifts (set_locks l).
Proof. shifts_tac. Qed.

Lemma shifts_send b p : shifts (send b p).
Proof. destruct b; [apply (shifts_comp (on_sent _)); [apply shifts_sent|apply shifts_bump]|apply shifts_sent]. Qed.

Create HintDb counted.
#[export] Hint Resolve shifts_id shifts_bump shifts_sent shifts_state shifts_fault shifts_total shifts_sizes
  shifts_transferred shifts_fs shifts_locks shifts_send : counted.

Lemma shifts_blocks data b bns : shifts (send_blocks data b bns).
Proof.
  unfold send_blocks. induction bns as [|bn bns IH]; cbn; [apply shifts_id|].
  apply (shifts_comp (send true _)); [apply shifts_send|apply IH].
Qed.

Lemma shifts_write tmp p : shifts (write_payload tmp p).
Proof.
  intros d x x' Hx. unfold write_payload.
  assert (∀ f, x_transferred (on_fs f x') = x_transferred (on_fs f x)) as -> by (by destruct Hx as (st & -> & _)).
  apply shifts_bump, shifts_transferred. by apply shifts_fs.
Qed.
#[export] Hint Resolve shifts_blocks shifts_write : counted.

Lemma drain_ahead d n tmp e w x x' :
  ahead d x x' → (drain n tmp e w x).1 = (drain n tmp e w x').1 ∧ ahead d (drain n tmp e w x).2 (drain n tmp e w x').2.
Proof.
  revert e w x x'. induction n as [|n IH]; intros e w x x' Hx; cbn [drain]; [done|].
  destruct (dict_get e w) as [buf|]; [|done]. by apply IH, shifts_write.
Qed.

(** ** Computations *)

Definition matches {A} (d : counter → Z) (r r' : outcome A * list event * sess) : Prop :=
  r.1 = r'.1 ∧ ahead d r.2 r'.2.

Definition blind {A} (m : M A) : Prop := ∀ d evs x x', ahead d x x' → matches d (m evs x) (m evs x').

Lemma blind_ret {A} (a : A) : blind (mret a).
Proof. by intros d evs x x'. Qed.
Lemma blind_raise {A} e : blind (raise (A := A) e).
Proof. by intros d evs x x'. Qed.
Lemma blind_lift {A} (r : pyres A) : blind (lift r).
Proof. intros d evs x x'. by destruct r. Qed.
Lemma blind_modify f : shifts f → blind (modify f).
Proof. intros Hf d evs x x' Hx. split; [done|]. by apply Hf. Qed.

Lemma blind_bind {A B} (m : M A) (f : A → M B) : blind m → (∀ a, blind (f a)) → blind (m ≫= f).
Proof.
  intros Hm Hf d evs x x' Hx. unfold mbind, M_bind. destruct (Hm d evs x x' Hx) as [H1 H2].
  destruct (m evs x) as [[o e] y], (m evs x') as [[o' e'] y']. cbn in H1, H2. injection H1 as <- <-.
  destruct o; try by split. by apply Hf.
Qed.

Lemma blind_with_lock {A} E m f (body : M A) : blind body → blind (with_lock E m f body).
Proof.
  intros Hb d evs x x' Hx. unfold with_lock. assert (x_locks x' = x_locks x) as -> by (by destruct Hx as (st & -> & _)).
  destruct (acquire m f (x_locks x)) as [[[]|e] l]; [|split; [done|by apply shifts_locks]].
  destruct (Hb d evs _ _ (shifts_locks l d x x' Hx)) as [H1 H2].
  destruct (body evs (set_locks l x)) as [[o e] y], (body evs (set_locks l x')) as [[o' e'] y'].
  cbn in H1, H2. injection H1 as <- <-.
  assert (x_locks y' = x_locks y) as Hl by (by destruct H2 as (st & -> & _)).
  destruct o; (split; [done|]); cbn [snd]; rewrite ?Hl; [by apply shifts_locks..|done].
Qed.

Lemma blind_lock_to_tftp {A} (body : M A) : blind body → blind (lock_to_tftp body).
Proof.
  intros Hb d evs x x' Hx. unfold lock_to_tftp. destruct (Hb d evs x x' Hx) as [H1 H2].
  destruct (body evs x) as [[o e] y], (body evs x') as [[o' e'] y']. cbn in H1, H2. injection H1 as <- <-.
  destruct o as [a|[]| |]; by split.
Qed.

(** The cache counts its hits and misses, and does not look at them either. *)
Lemma get_or_load_ahead (d : counter → Z) read f c st st' :
  (∀ k, counter_get st' k = counter_get st k + d k) →
  (get_or_load read f c st).1 = (get_or_load read f c st').1 ∧
  ∀ k, counter_get (get_or_load read f c st').2 k = counter_get (get_or_load read f c st).2 k + d k.
Proof.
  intros Hst. assert (∀ b n k, counter_get (bump b n st') k = counter_get (bump b n st) k + d k) as Hb.
  { intros b n k. rewrite !counter_get_bump, Hst. lia. }
  assert (∀ r c2, (cache_load_done f r c2 st).1 = (cache_load_done f r c2 st').1 ∧
    ∀ k, counter_get (cache_load_done f r c2 st').2 k = counter_get (cache_load_done f r c2 st).2 k + d k) as Hd.
  { intros r c2. unfold cache_load_done. destruct r as [[dt|]|]; (split; [done|]); cbn [snd]; auto. }
  assert ((cache_request f c st).1 = (cache_request f c st').1 ∧
    ((cache_request f c st).2 = st ∧ (cache_request f c st').2 = st' ∨
     (cache_request f c st).2 = bump cache_hits 1 st ∧ (cache_request f c st').2 = bump cache_hits 1 st')) as [H1 H2].
  { unfold cache_request. destruct (c_enabled c); [destruct (cache_peek f c) as [[dt|] c2]|]; try (split; [done|by right]);
      (case_decide; (split; [done|by left])). }
  unfold get_or_load. destruct (cache_request f c st) as [[o c1] s1], (cache_request f c st') as [[o' c1'] s1'].
  cbn [fst snd] in H1, H2. injection H1 as <- <-. destruct H2 as [[-> ->]|[-> ->]], o; try (split; [done|by auto]); auto.
  all: unfold cache_load_done; destruct (read f) as [[dt|]|]; (split; [done|]); cbn [snd]; intros k;
    rewrite ?counter_get_bump, ?Hst; lia.
Qed.

Lemma blind_cached_read E f : blind (cached_read E f).
Proof.
  intros d evs x x' (st & -> & Hst). unfold cached_read. cbn [x_cache x_stats on_stats].
  destruct (get_or_load_ahead d (env_read E) f (x_cache x) (x_stats x) st Hst) as [H1 H2].
  destruct (get_or_load _ _ _ (x_stats x)) as [[o c] s1], (get_or_load _ _ _ st) as [[o' c'] s1'].
  cbn [fst snd] in H1, H2. injection H1 as <- <-. split; [done|]. exists s1'. by split.
Qed.

Lemma blind_ftp_upload E f p : blind (ftp_upload E f p).
Proof.
  intros d evs x x' Hx. unfold ftp_upload. assert (x_fs x' = x_fs x) as -> by (by destruct Hx as (st & -> & _)). cbv zeta.
  destruct (match env_upload _ _ _ with Ok b => b | _ => false end); (split; [done|by apply shifts_fs]).
Qed.

(** ** The loops *)

Lemma blind_send_loop data b w mr total la r : blind (prim (λ evs x, send_loop data b w mr total evs x la r)).
Proof.
  intros d evs x x' Hx. unfold prim. revert x x' la r Hx. induction evs as [|ev evs IH]; intros x x' la r Hx; cbn [send_loop];
    (destruct (la <? total); [|by split]); cbv zeta;
    pose proof (shifts_blocks data b (zrange (la + 1) (Z.min (la + 1 + w - 1) total + 1)) d x x' Hx) as Hx1; [by split|].
  destruct ev as [p| |]; [|destruct (mr <? r + 1); [by split|by apply IH]|by split].
  destruct (peek_opcode p) as [op|]; [|by split]. destruct (op =? OP_ERROR); [by split|].
  destruct (negb _); [by apply IH|]. destruct (parse_ack p) as [ack|]; [|by split].
  destruct (find_block _ _ _); [|by apply IH]. by apply IH, shifts_transferred.
Qed.

Lemma blind_recv_loop tmp b w mr mx ro ex r win : blind (prim (λ evs x, recv_loop tmp b w mr mx ro evs x ex r win)).
Proof.
  intros d evs x x' Hx. unfold prim. revert x x' ex r win Hx.
  induction evs as [|ev evs IH]; intros x x' ex r win Hx; [by split|]. cbn [recv_loop].
  pose proof (λ q, shifts_send true q d x x' Hx) as Hs.
  destruct ev as [p| |]; [|destruct (mr <? r + 1); [by split|by apply IH]|by split].
  destruct (peek_opcode p) as [op|]; [|by split]. destruct (op =? OP_ERROR); [by split|].
  destruct (negb _); [by apply IH|]. destruct (parse_data p) as [dt|]; [|by split].
  destruct (find_block _ _ _) as [m|]; [|by apply IH]. destruct (m =? ex); [|by apply IH].
  assert (x_transferred x' = x_transferred x) as -> by (by destruct Hx as (st & -> & _)).
  destruct (negb (mx =? 0) && _); [by split|]. cbv zeta.
  pose proof (shifts_write tmp (data_payload dt) d x x' Hx) as Hw. destruct (negb ro && _); [by split|].
  destruct (drain_ahead d (length win) tmp (ex + 1) win _ _ Hw) as [H1 H2].
  destruct (drain _ _ _ _ (write_payload tmp (data_payload dt) x)) as [[e1 w1] y],
    (drain _ _ _ _ (write_payload tmp (data_payload dt) x')) as [[e1' w1'] y'].
  cbn [fst snd] in H1, H2. injection H1 as <- <-.
  destruct (zlen _ <? b); [split; [done|by apply shifts_send]|by apply IH, shifts_send].
Qed.

Lemma blind_oack_loop oack n : blind (oack_loop oack n).
Proof.
  induction n as [|n IH]; intros d evs x x' Hx; cbn [oack_loop]; [by split|]. cbv zeta.
  pose proof (shifts_send true oack d x x' Hx) as Hs.
  destruct evs as [|[p| |] evs]; [by split| |by apply IH|by split]. destruct (peek_opcode p) as [op|]; [|by split].
  destruct (op =? OP_ACK); [destruct (parse_ack p) as [a|]; [destruct (ack_block a =? 0)|]|]; try (by split);
    (destruct (op =? OP_ERROR); [by split|by apply IH]).
Qed.

(** Composes the property of a computation from its parts. *)
Ltac blind_tac :=
  repeat first
    [ apply blind_send_loop | apply blind_recv_loop | apply blind_oack_loop | apply blind_cached_read
    | apply blind_ftp_upload | apply blind_with_lock | apply blind_lock_to_tftp
    | apply blind_bind; [|intros ?] | apply blind_ret | apply blind_lift | apply blind_raise
    | apply blind_modify; solve [auto with counted]
    | case_goal ].

Section session.
Context `{OsPath}.

Lemma blind_handler E c : blind (request_handler E c).
Proof.
  unfold request_handler, run_rrq, run_wrq, rrq_body, wrq_body, send_oack_await_ack, send_file, check_advertised, recv_file, completed.
  blind_tac.
Qed.

Lemma blind_report e : blind (report e).
Proof. unfold report, send_error. blind_tac. Qed.

Lemma blind_safe_run E c : blind (safe_run E c).
Proof.
  intros d evs x x' Hx. rewrite !safe_run_report. destruct (blind_handler E c d evs x x' Hx) as [H1 H2].
  destruct (request_handler E c evs x) as [[o e] y], (request_handler E c evs x') as [[o' e'] y'].
  cbn [fst snd] in H1, H2. injection H1 as <- <-. destruct o; try by split. by apply blind_report.
Qed.

(** ** Counters of others *)

(** The counters a session would have to be started on to have brought them to
    [st] by now. *)
Definition rewound (E : env) (c : config) (evs : list event) (x0 : sess) (st : list (counter * Z)) : list (counter * Z) :=
  map (λ k, (k, counter_get st k - (counter_get (x_stats (safe_run E c evs x0).2) k - counter_get (x_stats x0) k)))
    all_counters.

Lemma counter_get_all (f : counter → Z) k : counter_get (map (λ k, (k, f k)) all_counters) k = f k.
Proof. by destruct k. Qed.

Lemma on_stats_ahead st x : ahead (λ k, counter_get st k - counter_get (x_stats x) k) x (on_stats (λ _, st) x).
Proof. exists st. split; [done|]. intros k. lia. Qed.

(** Rewinding works: with these counters the session is where it is, and the
    counters are where the others have brought them. *)
Lemma rewound_now E c evs x0 st :
  let r := safe_run E c evs x0 in
  let r' := safe_run E c evs (on_stats (λ _, rewound E c evs x0 st) x0) in
  r'.1 = r.1 ∧ (∃ st', r'.2 = on_stats (λ _, st') r.2) ∧ ∀ k, counter_get (x_stats r'.2) k = counter_get st k.
Proof.
  destruct (blind_safe_run E c _ evs x0 _ (on_stats_ahead (rewound E c evs x0 st) x0)) as [H1 (st' & H2 & H3)].
  cbv zeta. split_and!; [done|by exists st'|]. intros k. rewrite H2. cbn [x_stats on_stats]. rewrite H3.
  unfold rewound. rewrite counter_get_all. lia.
Qed.
End session.
