(* ===== verification/Keeps.v ===== *)
(** * What the parts of a session leave alone (src/tftp/session.py)

    A relation between states that every packet sent, every block written and
    every counter bumped keeps is kept by the loops of a transfer and by what is
    composed of them.  Two relations matter to the other files: the cache is
    consulted in the first step of a session only, and a session that is not
    finished does not call itself done. *)

From S2P Require Import Prelude Python Constants Wire Options Stats FileLock.
From S2P Require Import Cache Paths Session SessionLife Locked.
Open Scope Z_scope.

(** A relation the small steps of a transfer keep. *)
Class Kept (R : sess → sess → Prop) : Prop := {
  kept_preorder :: PreOrder R;
  kept_sent f x : R x (on_sent f x);
  kept_bump k n x : R x (on_stats (bump k n) x);
  kept_transferred n x : R x (set_transferred n x);
  kept_fs f x : R x (on_fs f x);
}.

Section keeps.
Context (R : sess → sess → Prop) `{!Kept R}.

Definition keeps {A} (m : M A) : Prop := ∀ evs x, R x (m evs x).2.

Lemma kept_send b p x : R x (send b p x).
Proof. destruct b; cbn; [etrans; [apply kept_sent|apply kept_bump]|apply kept_sent]. Qed.

Lemma kept_write tmp p x : R x (write_payload tmp p x).
Proof. unfold write_payload. etrans; [apply kept_fs|]. etrans; [apply kept_transferred|apply kept_bump]. Qed.

Lemma kept_blocks data b bns x : R x (send_blocks data b bns x).
Proof.
  unfold send_blocks. revert x. induction bns as [|bn bns IH]; intros x; cbn [fold_left]; [done|].
  etrans; [apply kept_send|apply IH].
Qed.

Lemma kept_drain n tmp e w x : R x (drain n tmp e w x).2.
Proof.
  revert e w x. induction n as [|n IH]; intros e w x; cbn [drain]; [done|].
  destruct (dict_get e w) as [buf|]; [|done]. etrans; [apply kept_write|apply IH].
Qed.

Lemma keeps_bind {A B} (m : M A) (f : A → M B) : keeps m → (∀ a, keeps (f a)) → keeps (m ≫= f).
Proof.
  intros Hm Hf evs x. unfold mbind, M_bind. pose proof (Hm evs x) as H1. destruct (m evs x) as [[[a|e| |] evs'] x'];
    cbn [snd] in *; [|done..]. etrans; [exact H1|apply Hf].
Qed.

Lemma keeps_ret {A} (a : A) : keeps (mret a).
Proof. by intros evs x. Qed.
Lemma keeps_raise {A} e : keeps (raise (A := A) e).
Proof. by intros evs x. Qed.
Lemma keeps_lift {A} (r : pyres A) : keeps (lift r).
Proof. intros evs x. by destruct r. Qed.
Lemma keeps_modify f : (∀ x, R x (f x)) → keeps (modify f).
Proof. intros Hf evs x. apply Hf. Qed.

Lemma keeps_send_loop data b w mr total la r : keeps (prim (λ evs x, send_loop data b w mr total evs x la r)).
Proof.
  intros evs x. unfold prim. revert x la r. induction evs as [|ev evs IH]; intros x la r; cbn [send_loop];
    (destruct (la <? total); [|done]); cbv zeta; [apply kept_blocks|].
  set (x1 := send_blocks _ _ _ x). assert (R x x1) as H1 by apply kept_blocks. clearbody x1.
  assert (∀ x2 la r, R x x2 → R x (send_loop data b w mr total evs x2 la r).2) as Hnext.
  { intros x2 la' r' H2. etrans; [exact H2|apply IH]. }
  destruct ev as [p| |]; [|destruct (mr <? r + 1); [done|by apply Hnext]|done].
  destruct (peek_opcode p) as [op|]; [|done]. destruct (op =? OP_ERROR); [done|].
  destruct (negb _); [by apply Hnext|]. destruct (parse_ack p) as [ack|]; [|done].
  destruct (find_block _ _ _); apply Hnext; [|done]. etrans; [exact H1|apply kept_transferred].
Qed.

Lemma keeps_recv_loop tmp b w mr mx ro ex r win :
  keeps (prim (λ evs x, recv_loop tmp b w mr mx ro evs x ex r win)).
Proof.
  intros evs x. unfold prim. revert x ex r win. induction evs as [|ev evs IH]; intros x ex r win; [done|]. cbn [recv_loop].
  assert (∀ x2 ex r win, R x x2 → R x (recv_loop tmp b w mr mx ro evs x2 ex r win).2) as Hnext.
  { intros x2 ex' r' win' H2. etrans; [exact H2|apply IH]. }
  destruct ev as [p| |]; [|destruct (mr <? r + 1); [done|apply Hnext, kept_send]|done].
  destruct (peek_opcode p) as [op|]; [|done]. destruct (op =? OP_ERROR); [done|]. destruct (negb _); [by apply Hnext|].
  destruct (parse_data p) as [d|]; [|done]. destruct (find_block _ _ _) as [m|]; [|apply Hnext, kept_send].
  destruct (m =? ex); [|apply Hnext, kept_send]. destruct (negb (mx =? 0) && _); [done|]. cbv zeta.
  destruct (negb ro && _); [apply kept_write|].
  pose proof (kept_drain (length win) tmp (ex + 1) win (write_payload tmp (data_payload d) x)) as Hd.
  destruct (drain _ _ _ _ _) as [[ex' win'] x']. cbn [snd] in Hd.
  assert (∀ q, R x (send true q x')) as Hq.
  { intros q. etrans; [apply kept_write|]. etrans; [exact Hd|apply kept_send]. }
  destruct (zlen _ <? b); [apply Hq|apply Hnext, Hq].
Qed.

Lemma keeps_oack_loop oack n : keeps (oack_loop oack n).
Proof.
  induction n as [|n IH]; intros evs x; cbn [oack_loop]; [done|]. cbv zeta.
  assert (∀ evs, R x (oack_loop oack n evs (send true oack x)).2) as Hnext by (intros ?; etrans; [apply kept_send|apply IH]).
  pose proof (kept_send true oack x) as Hs.
  destruct evs as [|[p| |] evs]; [done| |apply Hnext|done]. destruct (peek_opcode p) as [op|]; [|done].
  destruct (op =? OP_ACK); [destruct (parse_ack p) as [a|]; [destruct (ack_block a =? 0)|]|]; try done;
    (destruct (op =? OP_ERROR); [done|apply Hnext]).
Qed.

Lemma keeps_ftp_upload E f p : keeps (ftp_upload E f p).
Proof.
  intros evs x. unfold ftp_upload. cbv zeta.
  destruct (match env_upload _ _ _ with Ok b => b | _ => false end); apply kept_fs.
Qed.
End keeps.

(** Composes the property of a computation from its parts; the state changes
    that are left depend on the relation. *)
Ltac keeps_tac solve_change :=
  repeat first
    [ apply keeps_send_loop | apply keeps_recv_loop | apply keeps_oack_loop | apply keeps_ftp_upload
    | lazymatch goal with |- Kept _ => apply _ end
    | apply keeps_bind; [| |intros ?] | apply keeps_ret | apply keeps_raise | apply keeps_lift
    | apply keeps_modify; intros ?; solve [apply kept_send | apply kept_bump | apply kept_fs | solve_change]
    | case_goal ].

(** ** The cache is consulted once *)

Definition same_cache (x x' : sess) : Prop := x_cache x' = x_cache x.

#[export] Instance same_cache_kept : Kept same_cache.
Proof. split; try done. split; [done|intros x y z; unfold same_cache; congruence]. Qed.

Lemma keeps_locked E m f (body : M unit) evs x :
  let '(r, l) := acquire m f (x_locks x) in
  x_cache (lock_to_tftp (_ ← with_lock E m f body; completed) evs x).2 =
  match r with Ok _ => x_cache (body evs (set_locks l x)).2 | Raise _ => x_cache x end.
Proof.
  unfold lock_to_tftp, mbind, M_bind, with_lock. destruct (acquire m f (x_locks x)) as [[[]|e] l]; [|by destruct e].
  by destruct (body evs (set_locks l x)) as [[[[]|[]| |] ?] ?].
Qed.

Lemma rrq_body_cache E c evs x :
  x_cache (rrq_body E c evs x).2 = (get_or_load (env_read E) (req_filename (sc_request c)) (x_cache x) (x_stats x)).1.2.
Proof.
  unfold rrq_body, mbind at 1, M_bind at 1, cached_read. destruct (get_or_load _ _ _ _) as [[o ch] st]. cbn [fst snd].
  assert (∀ m : M unit, keeps same_cache m → x_cache (m evs (set_cache ch (on_stats (λ _, st) x))).2 = ch) as Hm
    by (intros m Hm; exact (Hm _ _)).
  apply Hm. unfold send_oack_await_ack, send_file. keeps_tac ltac:(exact eq_refl).
Qed.

Lemma wrq_body_cache E c is_ftp p evs x : x_cache (wrq_body E c is_ftp p evs x).2 = x_cache x.
Proof.
  assert (keeps same_cache (wrq_body E c is_ftp p)) as Hk; [|exact (Hk evs x)].
  unfold wrq_body, check_advertised, recv_file. keeps_tac ltac:(exact eq_refl).
Qed.

Lemma report_cache e evs x : x_cache (report e evs x).2 = x_cache x.
Proof.
  assert (keeps same_cache (report e)) as Hk; [|exact (Hk evs x)]. unfold report, send_error. keeps_tac ltac:(exact eq_refl).
Qed.

Section once.
Context `{OsPath}.

(** What the cache is after a session depends on what it finds when it starts
    and not on what happens later. *)
Lemma later_turns_keep_cache E c evs evs' x :
  x_cache (safe_run E c evs x).2 = x_cache (safe_run E c evs' x).2.
Proof.
  assert (x_cache (request_handler E c evs x).2 = x_cache (request_handler E c evs' x).2) as Hh.
  { unfold request_handler. destruct (req_opcode (sc_request c) =? OP_RRQ).
    - unfold run_rrq, modify, mbind at 1 3, M_bind at 1 3. destruct (negb (mode_ok _)); [done|].
      pose proof (λ evs, keeps_locked E Rd (req_filename (sc_request c)) (rrq_body E c) evs (on_stats (bump tftp_rrq 1) x)) as Hl.
      destruct (acquire _ _ _) as [[[]|e] l]; rewrite !Hl; [by rewrite !rrq_body_cache|done].
    - unfold run_wrq, modify, mbind at 1 4, M_bind at 1 4.
      repeat match goal with |- context [if ?b then raise _ else _] => destruct b; [done|] end.
      unfold mbind at 1 3, M_bind at 1 3, lift at 1 2.
      match goal with |- context [safe_join ?r ?n] => destruct (safe_join r n) as [p|e]; [|done] end.
      match goal with |- context [wrq_body E c ?i p] =>
        pose proof (λ evs, keeps_locked E Wr (req_filename (sc_request c)) (wrq_body E c i p) evs
          (on_stats (bump tftp_wrq 1) x)) as Hl end.
      destruct (acquire _ _ _) as [[[]|e] l]; rewrite !Hl; [by rewrite !wrq_body_cache|done]. }
  rewrite !safe_run_report.
  destruct (request_handler E c evs x) as [[o e1] y], (request_handler E c evs' x) as [[o' e1'] y']. cbn [snd] in Hh.
  destruct o, o'; cbn [snd]; rewrite ?report_cache; done.
Qed.

Lemma get_or_load_inv read f c st : cache_inv c → cache_inv (get_or_load read f c st).1.2.
Proof.
  intros Hc. unfold get_or_load. destruct (cache_request_cases f c st) as [(d & _ & _ & ->)|[[_ ->]|[Hni ->]]].
  - by apply cache_peek_inv.
  - by apply cache_load_done_inv.
  - apply cache_load_done_inv, set_inflight_inv; [|done]. apply NoDup_app.
    split_and!; [apply Hc| |apply NoDup_singleton]. by intros x Hx ->%list_elem_of_singleton.
Qed.

(** A session leaves the cache in order. *)
Lemma safe_run_cache_inv E c evs x : cache_inv (x_cache x) → cache_inv (x_cache (safe_run E c evs x).2).
Proof.
  intros Hc. rewrite safe_run_report. assert (cache_inv (x_cache (request_handler E c evs x).2)) as Hh.
  { destruct (request_handler_cases c) as [(k & e & He)|_]; [by rewrite He|]. unfold request_handler.
    destruct (req_opcode (sc_request c) =? OP_RRQ).
    - unfold run_rrq, modify, mbind at 1, M_bind at 1. destruct (negb (mode_ok _)); [done|].
      pose proof (keeps_locked E Rd (req_filename (sc_request c)) (rrq_body E c) evs (on_stats (bump tftp_rrq 1) x)) as Hl.
      destruct (acquire _ _ _) as [[[]|e] l]; rewrite Hl; [rewrite rrq_body_cache; by apply get_or_load_inv|done].
    - unfold run_wrq, modify, mbind at 1, M_bind at 1.
      repeat match goal with |- context [if ?b then raise _ else _] => destruct b; [done|] end.
      unfold mbind at 1, M_bind at 1, lift at 1.
      match goal with |- context [safe_join ?r ?n] => destruct (safe_join r n) as [p|e]; [|done] end.
      match goal with |- context [wrq_body E c ?i p] =>
        pose proof (keeps_locked E Wr (req_filename (sc_request c)) (wrq_body E c i p) evs
          (on_stats (bump tftp_wrq 1) x)) as Hl end.
      destruct (acquire _ _ _) as [[[]|e] l]; rewrite Hl; [by rewrite wrq_body_cache|done]. }
  destruct (request_handler E c evs x) as [[[] rest] y]; cbn [snd] in *; try done. by rewrite report_cache.
Qed.
End once.

(** ** A session that is not finished is not done *)

(** The states a transfer goes through. *)
Definition under_way (x x' : sess) : Prop :=
  x_state x' = x_state x ∨ x_state x' = u "transferring" ∨ x_state x' = u "receiving".

#[export] Instance under_way_kept : Kept under_way.
Proof.
  split; try (intros; by left). split; [by left|]. intros x y z H1 [H2|H2]; [unfold under_way; by rewrite H2|by right].
Qed.

Lemma rrq_body_under_way E c : keeps under_way (rrq_body E c).
Proof.
  unfold rrq_body, send_oack_await_ack, send_file. apply keeps_bind; [apply _| |intros ?].
  - intros evs x. unfold cached_read. destruct (get_or_load _ _ _ _) as [[? ?] ?]. by left.
  - keeps_tac ltac:(solve [by left|right; by left]).
Qed.

Lemma wrq_body_under_way E c is_ftp p : keeps under_way (wrq_body E c is_ftp p).
Proof. unfold wrq_body, check_advertised, recv_file. keeps_tac ltac:(solve [by left|right; by right]). Qed.

Section unfinished.
Context `{OsPath}.

Lemma locked_under_way E m f (body : M unit) evs x :
  keeps under_way body →
  let '(o, _, x') := lock_to_tftp (_ ← with_lock E m f body; completed) evs x in o ≠ Ret tt → under_way x x'.
Proof.
  intros Hb. unfold lock_to_tftp, mbind, M_bind, with_lock.
  destruct (acquire m f (x_locks x)) as [[[]|e] l]; [|destruct e; by left].
  specialize (Hb evs (set_locks l x)). destruct (body evs (set_locks l x)) as [[[[]|[]| |] ?] ?]; intros Ho; first [exact Hb|by destruct Ho].
Qed.

(** A session that waits or was cancelled does not say "done". *)
Lemma unfinished_not_done E c evs x :
  x_state x = u "init" →
  let '(o, _, x') := safe_run E c evs x in (o = Blocked ∨ o = Cancelled) → x_state x' ≠ u "done".
Proof.
  intros Hx. rewrite safe_run_report.
  assert (let '(o, _, x') := request_handler E c evs x in o ≠ Ret tt → under_way x x') as Hh.
  { unfold request_handler. destruct (req_opcode (sc_request c) =? OP_RRQ).
    - unfold run_rrq, modify, mbind at 1, M_bind at 1. destruct (negb (mode_ok _)); [by left|].
      exact (locked_under_way E Rd _ _ evs (on_stats (bump tftp_rrq 1) x) (rrq_body_under_way E c)).
    - unfold run_wrq, modify, mbind at 1, M_bind at 1.
      repeat match goal with |- context [if ?b then raise _ else _] => destruct b; [by left|] end.
      unfold mbind at 1, M_bind at 1, lift at 1.
      match goal with |- context [safe_join ?r ?n] => destruct (safe_join r n) as [p|e]; [|by left] end.
      exact (locked_under_way E Wr _ _ evs (on_stats (bump tftp_wrq 1) x) (wrq_body_under_way E c _ p)). }
  destruct (request_handler E c evs x) as [[o rest] x'].
  assert (o ≠ Ret tt → x_state x' ≠ u "done") as Hs.
  { intros [Hu|[Hu|Hu]]%Hh; rewrite Hu, ?Hx; discriminate. }
  destruct o as [[]|e| |]; try (intros _; by apply Hs).
  - by intros [|].
  - destruct (report_locks e rest x') as [Hn _]. destruct (report e rest x') as [[o2 r2] x2] eqn:Hr. cbn in Hn.
    intros [?|Hc]; [done|]. exfalso. revert Hr. unfold report, send_error, mbind, M_bind, lift, modify. subst o2.
    destruct e; (destruct (pack_error _ _); [|done]); try done. by case_match.
Qed.
End unfinished.
