(* ===== verification/Termination.v ===== *)
(** * Sessions end (src/tftp/session.py)

    However long a client keeps a session busy, once it falls silent the
    session ends: [max_retries + 1] timeouts in a row are enough from any point
    of a download or an upload; and so is a cancellation. *)

From S2P Require Import Prelude Python Constants Wire Options Stats FileLock.
From S2P Require Import Cache Paths Session Download Upload SessionLife.
Open Scope Z_scope.

(** The number of timeouts in a row no session survives. *)
Definition patience (c : config) : nat :=
  match get_max_retries c with Ok mr => S (Z.to_nat mr) | Raise _ => 1%nat end.

(** Events no loop with [mr] retries goes on after. *)
Definition stopper (mr : Z) (tail : list event) : Prop :=
  tail = [Cancel] ∨ ∃ n, (Z.to_nat mr < n)%nat ∧ tail = replicate n Timeout.

Section termination.
Context (tail : list event).

(** Events with this end. *)
Definition silent_end (evs : list event) : Prop := ∃ pre, evs = pre ++ tail.

(** The computation never waits for more than such events, and leaves the
    silence to what follows when it returns. *)
Definition ends {A} (m : M A) : Prop :=
  ∀ evs x, silent_end evs →
    match m evs x with
    | (Blocked, _, _) => False
    | (Ret _, evs', _) => silent_end evs'
    | _ => True
    end.

Lemma ends_bind {A B} (m : M A) (f : A → M B) : ends m → (∀ a, ends (f a)) → ends (m ≫= f).
Proof.
  intros Hm Hf evs x He. specialize (Hm evs x He). unfold mbind, M_bind.
  destruct (m evs x) as [[[a|e| |] evs'] x']; try done. by apply Hf.
Qed.

Lemma ends_ret {A} (a : A) : ends (mret a).
Proof. by intros evs x He. Qed.
Lemma ends_raise {A} e : ends (raise (A := A) e).
Proof. by intros evs x He. Qed.
Lemma ends_lift {A} (r : pyres A) : ends (lift r).
Proof. intros evs x He. by destruct r. Qed.
Lemma ends_modify f : ends (modify f).
Proof. by intros evs x He. Qed.

Lemma ends_with_lock {A} E m f (body : M A) : ends body → ends (with_lock E m f body).
Proof.
  intros Hb evs x He. unfold with_lock. destruct (acquire m f (x_locks x)) as [[[]|e] l]; [|done].
  specialize (Hb evs (set_locks l x) He). by destruct (body evs (set_locks l x)) as [[[] evs'] x'].
Qed.

Lemma ends_lock_to_tftp {A} (body : M A) : ends body → ends (lock_to_tftp body).
Proof.
  intros Hb evs x He. specialize (Hb evs x He). unfold lock_to_tftp.
  destruct (body evs x) as [[[a|e| |] evs'] x']; try done. by destruct e.
Qed.

Lemma ends_cached_read E f : ends (cached_read E f).
Proof. intros evs x He. unfold cached_read. by destruct (get_or_load _ _ _ _) as [[? ?] ?]. Qed.

Section loops.
Context (mr : Z) (enough : stopper mr tail).

(** Only timeouts are left: the download gives up. *)
Lemma send_loop_silence data b w total k x la r :
  0 ≤ r → mr < r + Z.of_nat k → (1 ≤ k)%nat → la < total →
  ∃ e evs' x', send_loop data b w mr total (replicate k Timeout) x la r = (Exc e, evs', x').
Proof.
  intros Hr Hk H1 Hla. revert x r Hr Hk. induction k as [|k IH]; intros x r Hr Hk; [lia|].
  cbn [replicate send_loop]. rewrite (proj2 (Z.ltb_lt _ _) Hla). destruct (Z.ltb_spec mr (r + 1)); [by eauto|].
  apply IH; lia.
Qed.

Lemma send_loop_ends data b w total la r :
  0 ≤ r → ends (prim (λ evs x, send_loop data b w mr total evs x la r)).
Proof.
  intros Hr evs x [pre ->]. unfold prim. revert x la r Hr. induction pre as [|ev pre IH]; intros x la r Hr.
  - cbn [app]. destruct (Z.ltb_spec la total) as [Hla|Hla].
    + destruct enough as [Ht|(n & Hn & Ht)]; rewrite Ht; clear Ht.
      * cbn. by rewrite (proj2 (Z.ltb_lt _ _) Hla).
      * destruct (send_loop_silence data b w total n x la r) as (e & evs' & x' & ->); [lia..|done].
    + assert (send_loop data b w mr total tail x la r = (Ret tt, tail, x)) as ->.
      { destruct tail; cbn; by rewrite (proj2 (Z.ltb_ge _ _) Hla). }
      by exists [].
  - cbn [app send_loop]. destruct (la <? total); [|by exists (ev :: pre)].
    destruct ev as [p| |]; [|destruct (mr <? r + 1); [done|apply IH; lia]|done].
    destruct (peek_opcode p) as [op|]; [|done]. destruct (op =? OP_ERROR); [done|].
    destruct (negb (op =? OP_ACK)); [by apply IH|]. destruct (parse_ack p); [|done].
    destruct (find_block _ _ _); by apply IH.
Qed.

Lemma recv_loop_silence tmp b w mx ro k x ex r win :
  0 ≤ r → mr < r + Z.of_nat k → (1 ≤ k)%nat →
  ∃ e evs' x', recv_loop tmp b w mr mx ro (replicate k Timeout) x ex r win = (Exc e, evs', x').
Proof.
  intros Hr Hk H1. revert x r Hr Hk. induction k as [|k IH]; intros x r Hr Hk; [lia|].
  cbn [replicate recv_loop]. destruct (Z.ltb_spec mr (r + 1)); [by eauto|]. apply IH; lia.
Qed.

Lemma recv_loop_ends tmp b w mx ro ex r win :
  0 ≤ r → ends (prim (λ evs x, recv_loop tmp b w mr mx ro evs x ex r win)).
Proof.
  intros Hr evs x [pre ->]. unfold prim. revert x ex r win Hr. induction pre as [|ev pre IH]; intros x ex r win Hr.
  - cbn [app]. destruct enough as [Ht|(n & Hn & Ht)]; rewrite Ht; clear Ht; [done|].
    destruct (recv_loop_silence tmp b w mx ro n x ex r win) as (e & evs' & x' & ->); [lia..|done].
  - cbn [app recv_loop]. destruct ev as [p| |]; [|destruct (mr <? r + 1); [done|apply IH; lia]|done].
    destruct (peek_opcode p) as [op|]; [|done]. destruct (op =? OP_ERROR); [done|].
    destruct (negb (op =? OP_DATA)); [by apply IH|]. destruct (parse_data p) as [d|]; [|done].
    destruct (find_block _ _ _) as [m|]; [|by apply IH]. destruct (m =? ex); [|by apply IH].
    destruct (negb (mx =? 0) && _); [done|]. destruct (negb ro && _); [done|].
    destruct (drain _ _ _ _ _) as [[ex' win'] x']. destruct (zlen _ <? b); [by exists pre|by apply IH].
Qed.

(** The OACK is answered, or its attempts run out in the silence. *)
Lemma oack_loop_ends oack k evs x :
  (k ≤ Z.to_nat mr)%nat → silent_end evs →
  match oack_loop oack k evs x with
  | (Blocked, _, _) => False
  | (Ret ok, evs', _) => if ok then silent_end evs' else True
  | _ => True
  end.
Proof.
  intros Hk [pre ->]. revert pre x Hk. induction k as [|k IH]; intros pre x Hk; [done|]. cbn [oack_loop].
  destruct pre as [|ev pre].
  - clear IH. cbn [app]. destruct enough as [Ht|(n & Hn & Ht)]; rewrite Ht; clear Ht; [done|].
    destruct n as [|m]; [lia|]. cbn [replicate].
    assert (∀ k m x, (k ≤ m)%nat → ∃ evs' x', oack_loop oack k (replicate m Timeout) x = (Ret false, evs', x')) as Hs.
    { clear. induction k as [|k IH]; intros m x Hk; cbn [oack_loop]; [by eauto|].
      destruct m as [|m]; [lia|]. cbn [replicate]. apply IH. lia. }
    destruct (Hs k m (send true oack x)) as (evs' & x' & ->); [lia|done].
  - cbn [app]. destruct ev as [p| |]; [|apply IH; lia|done].
    destruct (peek_opcode p) as [op|]; [|done].
    assert (match (if op =? OP_ERROR then (Exc (client_error p), pre ++ tail, send true oack x)
                   else oack_loop oack k (pre ++ tail) (send true oack x)) with
      | (Blocked, _, _) => False | (Ret ok, evs', _) => if ok then silent_end evs' else True | _ => True end) as Hnext.
    { destruct (op =? OP_ERROR); [done|]. apply IH. lia. }
    destruct (op =? OP_ACK); [|done]. destruct (parse_ack p) as [a|]; [|done].
    destruct (ack_block a =? 0); [by exists pre|done].
Qed.
End loops.

Section session.
Context `{OsPath} (E : env) (c : config) (enough : ∀ mr, get_max_retries c = Ok mr → stopper mr tail).

(** A computation that first reads [max_retries]. *)
Lemma ends_retries {A} (f : Z → M A) :
  (∀ mr, stopper mr tail → ends (f mr)) → ends (mr ← lift (get_max_retries c); f mr).
Proof.
  intros Hf evs x He. unfold mbind, M_bind, lift. destruct (get_max_retries c) as [mr|e] eqn:Hm; [|done].
  by apply Hf; [apply enough|].
Qed.

Lemma send_file_ends data neg : ends (send_file c data neg).
Proof.
  unfold send_file. apply ends_bind; [apply ends_modify|]. intros _. cbv zeta. apply ends_retries. intros mr Hmr.
  apply ends_bind; [apply ends_lift|]. intros q. by apply send_loop_ends.
Qed.

Lemma recv_file_ends dest neg : ends (recv_file E c dest neg).
Proof.
  unfold recv_file. apply ends_bind; [apply ends_modify|]. intros _. apply ends_retries. intros mr Hmr. cbv zeta.
  repeat (apply ends_bind; [apply ends_lift || apply ends_modify|intros _]).
  apply ends_bind; [by apply recv_loop_ends|]. intros _. apply ends_modify.
Qed.

(** The OACK exchange and what follows a positive answer. *)
Lemma oack_then_ends neg (f : M unit) e :
  ends f → ends (ok ← send_oack_await_ack c neg; if negb ok then raise e else f).
Proof.
  intros Hf evs x He. unfold send_oack_await_ack, mbind, M_bind, lift.
  destruct (pack_oack (neg_reply neg)) as [oack|]; [|done].
  destruct (get_max_retries c) as [mr|] eqn:Hm; [|done].
  pose proof (oack_loop_ends mr (enough mr eq_refl) oack (Z.to_nat mr) evs x (le_n _) He) as Ho.
  destruct (oack_loop oack (Z.to_nat mr) evs x) as [[[ok|e'| |] evs'] x']; try done.
  destruct ok; cbn [negb]; [by apply Hf|done].
Qed.

Lemma rrq_body_ends : ends (rrq_body E c).
Proof.
  unfold rrq_body. cbv zeta. apply ends_bind; [apply ends_cached_read|]. intros [data|]; [|apply ends_raise].
  destruct (negb _ && _); [apply ends_raise|].
  apply ends_bind; [apply ends_modify|intros _]. apply ends_bind; [apply ends_lift|intros neg].
  apply ends_bind; [apply ends_modify|intros _]. apply ends_bind; [apply ends_lift|intros q].
  destruct (negb _ && _); [apply ends_raise|].
  destruct (neg_reply neg); [apply send_file_ends|]. apply oack_then_ends, send_file_ends.
Qed.

Lemma completed_ends : ends completed.
Proof. unfold completed. repeat (apply ends_bind; [apply ends_modify|intros _]). apply ends_modify. Qed.

Lemma run_rrq_ends : ends (run_rrq E c).
Proof.
  unfold run_rrq. apply ends_bind; [apply ends_modify|intros _]. cbv zeta.
  destruct (negb _); [apply ends_raise|]. apply ends_lock_to_tftp.
  apply ends_bind; [apply ends_with_lock, rrq_body_ends|intros _; apply completed_ends].
Qed.

Lemma ftp_upload_ends f p : ends (ftp_upload E f p).
Proof. intros evs x He. unfold ftp_upload. cbv zeta. by destruct (match env_upload _ _ _ with Ok b => b | _ => false end). Qed.

Lemma check_advertised_ends neg : ends (check_advertised c neg).
Proof.
  unfold check_advertised. destruct (advertised_size neg); [|apply ends_ret].
  apply ends_bind; [apply ends_modify|intros _]. destruct (negb _ && _); [apply ends_raise|].
  destruct (negb _); [|apply ends_ret]. apply ends_bind; [apply ends_lift|intros q].
  destruct (_ <? _); [apply ends_raise|apply ends_ret].
Qed.

Lemma wrq_body_ends is_ftp p : ends (wrq_body E c is_ftp p).
Proof.
  unfold wrq_body. apply ends_bind; [apply ends_lift|intros neg]. apply ends_bind; [apply ends_modify|intros _].
  apply ends_bind; [apply check_advertised_ends|intros _].
  apply ends_bind; [destruct (neg_reply neg); [apply ends_ret|apply ends_lift]|intros first].
  apply ends_bind; [apply ends_modify|intros _]. apply ends_bind; [apply recv_file_ends|intros _].
  destruct is_ftp; [apply ftp_upload_ends|apply ends_ret].
Qed.

Lemma run_wrq_ends : ends (run_wrq E c).
Proof.
  unfold run_wrq. apply ends_bind; [apply ends_modify|intros _]. cbv zeta.
  repeat (match goal with |- ends (if ?b then _ else _) => destruct b; [apply ends_raise|] end).
  apply ends_bind; [apply ends_lift|intros p]. apply ends_lock_to_tftp.
  apply ends_bind; [apply ends_with_lock, wrq_body_ends|intros _; apply completed_ends].
Qed.

Lemma send_error_ends code msg : ends (send_error code msg).
Proof. unfold send_error. repeat (apply ends_bind; [apply ends_lift || apply ends_modify|intros]). apply ends_modify. Qed.
End session.
End termination.

(** ** The exception handlers do not wait *)

(** The computation never waits for an event. *)
Definition prompt {A} (m : M A) : Prop := ∀ evs x, (m evs x).1.1 ≠ Blocked.

Lemma prompt_bind {A B} (m : M A) (f : A → M B) : prompt m → (∀ a, prompt (f a)) → prompt (m ≫= f).
Proof.
  intros Hm Hf evs x. specialize (Hm evs x). unfold mbind, M_bind.
  destruct (m evs x) as [[[a|e| |] evs'] x']; try done. apply Hf.
Qed.
Lemma prompt_modify f : prompt (modify f).
Proof. done. Qed.
Lemma prompt_ret {A} (a : A) : prompt (mret a).
Proof. done. Qed.
Lemma prompt_lift {A} (r : pyres A) : prompt (lift r).
Proof. intros evs x. by destruct r. Qed.

Create HintDb prompt.
#[export] Hint Resolve prompt_bind prompt_modify prompt_ret prompt_lift : prompt.

Lemma send_error_prompt code msg : prompt (send_error code msg).
Proof. unfold send_error. eauto with prompt. Qed.
#[export] Hint Resolve send_error_prompt : prompt.

(** The loops of the body and the handlers after it. *)
Lemma safe_run_stops `{OsPath} tail (E : env) (c : config) evs x :
  (∀ mr, get_max_retries c = Ok mr → stopper mr tail) → (safe_run E c (evs ++ tail) x).1.1 ≠ Blocked.
Proof.
  intros Hstop. assert (ends tail (if req_opcode (sc_request c) =? OP_RRQ then run_rrq E c else run_wrq E c)) as Hends.
  { destruct (req_opcode _ =? OP_RRQ); [by apply run_rrq_ends|by apply run_wrq_ends]. }
  specialize (Hends (evs ++ tail) x (ex_intro _ evs eq_refl)). unfold safe_run.
  destruct ((if req_opcode (sc_request c) =? OP_RRQ then run_rrq E c else run_wrq E c)
    (evs ++ tail) x) as [[[a|e| |] evs'] x']; try done.
  assert (∀ m : M unit, prompt m → (m evs' x').1.1 ≠ Blocked) as Hp by (intros m Hm; apply Hm).
  destruct e; apply Hp; try (by eauto 10 with prompt).
  apply prompt_bind; [auto with prompt|intros _]. apply prompt_bind; [auto with prompt|intros _].
  destruct (is_server_fault _ _); eauto with prompt.
Qed.

Lemma patience_stops c mr : get_max_retries c = Ok mr → stopper mr (replicate (patience c) Timeout).
Proof. intros Hm. right. exists (patience c). split; [|done]. unfold patience. rewrite Hm. lia. Qed.

(** [C8] Every session ends: whatever packets, timeouts and cancellations came
    before, once the client is silent for max_retries + 1 timeouts in a row the
    session is over, and so it is once it is cancelled, for every file,
    configuration and point of the transfer, the exchange of the OACK, the
    upload's receive loop and the error replies included. *)
Theorem session_terminates `{OsPath} (E : env) (c : config) evs x :
  (safe_run E c (evs ++ replicate (patience c) Timeout) x).1.1 ≠ Blocked ∧
  (safe_run E c (evs ++ [Cancel]) x).1.1 ≠ Blocked.
Proof. split; apply safe_run_stops; [apply patience_stops|by left]. Qed.

(** The upload of a client that sends one block and disappears. *)
Lemma session_terminates_witness :
  let c := mkConfig (u "5e55") (mkRequest 2 (u "lab/fw") (u "octet") [(u "blksize", u "8")]) []
             (u "C:\up") true 0 100 0 false (u "f::") false in
  patience c = 6%nat ∧
  (safe_run (H := lexical_paths) demo_env c
     ([Timeout; Pkt (pack_data 1 [1; 2; 3; 4; 5; 6; 7; 8])] ++ replicate 6 Timeout) demo_sess).1.1 ≠ Blocked ∧
  (safe_run (H := lexical_paths) demo_env c
     ([Timeout; Pkt (pack_data 1 [1; 2; 3; 4; 5; 6; 7; 8])] ++ replicate 5 Timeout) demo_sess).1.1 = Blocked.
Proof.
  intros c. assert (patience c = 6%nat) as Hp by (vm_compute; reflexivity).
  split; [exact Hp|]. split; [|vm_compute; reflexivity]. rewrite <- Hp.
  exact (proj1 (session_terminates (H := lexical_paths) demo_env c _ demo_sess)).
Defined.
