(* ===== verification/Online.v ===== *)
(** * Sessions are online (src/tftp/session.py)

    A coroutine acts on what it has received, not on what it will receive:
    while it waits, what it has sent stays sent, and once it has ended further
    events change nothing.  This is what allows a suspended session to be
    described by the events it has had. *)

From S2P Require Import Prelude Python Constants Wire Options Stats FileLock.
From S2P Require Import Cache Paths Session Download Upload SessionLife Locked Termination.
Open Scope Z_scope.

(** The packets of the first state were sent on the way to the second. *)
Definition sent_before (x x' : sess) : Prop := x_sent x `prefix_of` x_sent x'.

#[export] Instance sent_before_preorder : PreOrder sent_before.
Proof. unfold sent_before. split; [intros x; reflexivity|intros x y z; apply transitivity]. Qed.

Lemma sent_before_same x x' : x_sent x' = x_sent x → sent_before x x'.
Proof. unfold sent_before. by intros ->. Qed.

Lemma sent_before_send b p x : sent_before x (send b p x).
Proof. destruct b; by exists [p]. Qed.

Lemma sent_before_blocks data b bns x : sent_before x (send_blocks data b bns x).
Proof. unfold sent_before. rewrite send_blocks_sent. by eexists. Qed.

#[export] Hint Resolve sent_before_send sent_before_blocks : nishro.

(** How a run on some events, from a state, relates to the run on more. *)
Definition continues {A} (l : list event) (x : sess) (r1 r2 : outcome A * list event * sess) : Prop :=
  sent_before x r1.2 ∧
  match r1 with
  | (Blocked, _, xb) => sent_before xb r2.2
  | (o, evs', x') => r2 = (o, evs' ++ l, x')
  end.

Definition online {A} (m : M A) : Prop := ∀ evs l x, continues l x (m evs x) (m (evs ++ l) x).

Lemma continues_later {A} l x x' (r1 r2 : outcome A * list event * sess) :
  sent_before x x' → continues l x' r1 r2 → continues l x r1 r2.
Proof. intros Hx [H1 H2]. split; [by etrans|done]. Qed.

Lemma continues_end {A} l x (o : outcome A) evs x' :
  o ≠ Blocked → sent_before x x' → continues l x (o, evs, x') (o, evs ++ l, x').
Proof. intros Ho Hx. split; [done|]. by destruct o. Qed.

(** The computation is over. *)
Ltac ended := apply continues_end; [done|first [eassumption | by apply sent_before_same | auto with nishro]].

Lemma online_sent {A} (m : M A) evs x : online m → sent_before x (m evs x).2.
Proof. intros Hm. apply (Hm evs [] x). Qed.

Lemma online_bind {A B} (m : M A) (f : A → M B) : online m → (∀ a, online (f a)) → online (m ≫= f).
Proof.
  intros Hm Hf evs l x. destruct (Hm evs l x) as [H1 H2]. unfold mbind, M_bind.
  destruct (m evs x) as [[[a|e| |] evs'] x']; cbn [snd] in *.
  - rewrite H2. by apply (continues_later _ _ x'), Hf.
  - rewrite H2. ended.
  - rewrite H2. ended.
  - split; [done|]. destruct (m (evs ++ l) x) as [[[a|e| |] evs2] x2]; cbn [snd] in *; try done.
    etrans; [exact H2|by apply online_sent].
Qed.

Lemma online_ret {A} (a : A) : online (mret a).
Proof. intros evs l x. ended. Qed.
Lemma online_raise {A} e : online (raise (A := A) e).
Proof. intros evs l x. ended. Qed.
Lemma online_lift {A} (r : pyres A) : online (lift r).
Proof. intros evs l x. destruct r; ended. Qed.
Lemma online_modify f : (∀ x, sent_before x (f x)) → online (modify f).
Proof. intros Hf evs l x. by apply continues_end. Qed.

Lemma online_with_lock {A} E m f (body : M A) : online body → online (with_lock E m f body).
Proof.
  intros Hb evs l x. unfold with_lock. destruct (acquire m f (x_locks x)) as [[[]|e] lk]; [|ended].
  destruct (Hb evs l (set_locks lk x)) as [H1 H2].
  destruct (body evs (set_locks lk x)) as [[[a|e| |] evs'] x']; cbn [snd] in *.
  1-3: rewrite H2; ended.
  split; [done|]. by destruct (body (evs ++ l) (set_locks lk x)) as [[[a|e| |] evs2] x2].
Qed.

Lemma online_lock_to_tftp {A} (body : M A) : online body → online (lock_to_tftp body).
Proof.
  intros Hb evs l x. destruct (Hb evs l x) as [H1 H2]. unfold lock_to_tftp.
  destruct (body evs x) as [[[a|e| |] evs'] x']; cbn [snd] in *.
  1, 3: rewrite H2; ended.
  - rewrite H2. destruct e; ended.
  - split; [done|]. destruct (body (evs ++ l) x) as [[[a|[]| |] evs2] x2]; exact H2.
Qed.

Lemma online_cached_read E f : online (cached_read E f).
Proof. intros evs l x. unfold cached_read. destruct (get_or_load _ _ _ _) as [[? ?] ?]. ended. Qed.

Lemma online_ftp_upload E f p : online (ftp_upload E f p).
Proof.
  intros evs l x. unfold ftp_upload. cbv zeta.
  destruct (match env_upload _ _ _ with Ok b => b | _ => false end); ended.
Qed.

(** ** The loops *)

Section send.
Context (data : list Z) (b w mr total : Z).

Definition sent_window (la : Z) (x : sess) : sess :=
  if la <? total then send_blocks data b (zrange (la + 1) (Z.min (la + 1 + w - 1) total + 1)) x else x.

Lemma sent_window_before la x : sent_before x (sent_window la x).
Proof. unfold sent_window. destruct (la <? total); [apply sent_before_blocks|done]. Qed.

Lemma send_loop_first evs x la r : sent_before (sent_window la x) (send_loop data b w mr total evs x la r).2.
Proof.
  revert x la r. induction evs as [|ev evs IH]; intros x la r; cbn [send_loop].
  { unfold sent_window. by destruct (la <? total). }
  unfold sent_window. destruct (la <? total); [|done]. cbv zeta.
  set (x1 := send_blocks _ _ _ x).
  assert (∀ x2 la' r', x_sent x2 = x_sent x1 → sent_before x1 (send_loop data b w mr total evs x2 la' r').2) as Hnext.
  { intros x2 la' r' Hx. etrans; [|apply IH]. etrans; [by apply (sent_before_same x1 x2)|apply sent_window_before]. }
  destruct ev as [p| |]; [|destruct (mr <? r + 1); [done|by apply Hnext]|done].
  destruct (peek_opcode p) as [op|]; [|done]. destruct (op =? OP_ERROR); [done|].
  destruct (negb _); [by apply Hnext|]. destruct (parse_ack p) as [ack|]; [|done].
  destruct (find_block _ _ _); by apply Hnext.
Qed.

Lemma online_send_loop la r : online (prim (λ evs x, send_loop data b w mr total evs x la r)).
Proof.
  intros evs l x. unfold prim. revert x la r. induction evs as [|ev evs IH]; intros x la r.
  - cbn [app]. pose proof (send_loop_first l x la r) as Hf. unfold sent_window in Hf.
    cbn [send_loop]. destruct (la <? total) eqn:Hla.
    + split; [apply sent_before_blocks|]. exact Hf.
    + split; [done|]. destruct l; cbn; by rewrite Hla.
  - cbn [app send_loop]. destruct (la <? total); [|apply (continues_end l x (Ret tt) (ev :: evs)); done]. cbv zeta.
    apply (continues_later _ _ (send_blocks data b (zrange (la + 1) (Z.min (la + 1 + w - 1) total + 1)) x));
      [apply sent_before_blocks|].
    destruct ev as [p| |]; [|destruct (mr <? r + 1); [ended|apply IH]|ended].
    destruct (peek_opcode p) as [op|]; [|ended].
    destruct (op =? OP_ERROR); [ended|]. destruct (negb _); [apply IH|].
    destruct (parse_ack p) as [ack|]; [|ended]. destruct (find_block _ _ _); [|apply IH].
    eapply continues_later, IH. by apply sent_before_same.
Qed.
End send.

Lemma drain_sent n tmp e w x : x_sent (drain n tmp e w x).2 = x_sent x.
Proof.
  revert e w x. induction n as [|n IH]; intros e w x; cbn [drain]; [done|].
  destruct (dict_get e w) as [buf|]; [|done]. by rewrite IH.
Qed.

Section recv.
Context (tmp : list Z) (b w mr mx : Z) (ro : bool).

Lemma recv_loop_sent evs x ex r win : sent_before x (recv_loop tmp b w mr mx ro evs x ex r win).2.
Proof.
  revert x ex r win. induction evs as [|ev evs IH]; intros x ex r win; [done|]. cbn [recv_loop].
  assert (∀ x1 ex r win, sent_before x x1 → sent_before x (recv_loop tmp b w mr mx ro evs x1 ex r win).2) as Hnext.
  { intros x1 ex' r' win' Hx. etrans; [exact Hx|apply IH]. }
  destruct ev as [p| |]; [|destruct (mr <? r + 1); [done|apply Hnext, sent_before_send]|done].
  destruct (peek_opcode p) as [op|]; [|done]. destruct (op =? OP_ERROR); [done|]. destruct (negb _); [by apply Hnext|].
  destruct (parse_data p) as [d|]; [|done]. destruct (find_block _ _ _) as [m|]; [|apply Hnext, sent_before_send].
  destruct (m =? ex); [|apply Hnext, sent_before_send]. destruct (negb (mx =? 0) && _); [done|]. cbv zeta.
  destruct (negb ro && _); [by apply sent_before_same|].
  pose proof (drain_sent (length win) tmp (ex + 1) win (write_payload tmp (data_payload d) x)) as Hd.
  destruct (drain _ _ _ _ _) as [[ex' win'] x']. cbn [snd] in Hd.
  assert (∀ q, sent_before x (send true q x')) as Hq.
  { intros q. etrans; [by apply (sent_before_same x x')|apply sent_before_send]. }
  destruct (zlen _ <? b); [apply Hq|apply Hnext, Hq].
Qed.

Lemma online_recv_loop ex r win : online (prim (λ evs x, recv_loop tmp b w mr mx ro evs x ex r win)).
Proof.
  intros evs l x. unfold prim. revert x ex r win. induction evs as [|ev evs IH]; intros x ex r win.
  { split; [done|]. apply recv_loop_sent. }
  cbn [app recv_loop].
  assert (∀ x1 ex r win, sent_before x x1 → continues l x (recv_loop tmp b w mr mx ro evs x1 ex r win)
    (recv_loop tmp b w mr mx ro (evs ++ l) x1 ex r win)) as Hnext.
  { intros x1 ex' r' win' Hx. eapply continues_later; [exact Hx|apply IH]. }
  destruct ev as [p| |]; [| |ended].
  2: { destruct (mr <? r + 1); [ended|apply Hnext, sent_before_send]. }
  destruct (peek_opcode p) as [op|]; [|ended]. destruct (op =? OP_ERROR); [ended|].
  destruct (negb _); [by apply Hnext|]. destruct (parse_data p) as [d|]; [|ended].
  destruct (find_block _ _ _) as [m|]; [|apply Hnext, sent_before_send].
  destruct (m =? ex); [|apply Hnext, sent_before_send]. destruct (negb (mx =? 0) && _); [ended|].
  cbv zeta. destruct (negb ro && _); [ended|].
  pose proof (drain_sent (length win) tmp (ex + 1) win (write_payload tmp (data_payload d) x)) as Hd.
  destruct (drain _ _ _ _ _) as [[ex' win'] x']. cbn [snd] in Hd.
  assert (∀ q, sent_before x (send true q x')) as Hq.
  { intros q. etrans; [by apply (sent_before_same x x')|apply sent_before_send]. }
  destruct (zlen _ <? b); [ended|apply Hnext, Hq].
Qed.
End recv.

Lemma oack_loop_sent oack n evs x :
  sent_before (match n with O => x | S _ => send true oack x end) (oack_loop oack n evs x).2.
Proof.
  revert evs x. induction n as [|n IH]; intros evs x; [done|]. cbn [oack_loop]. set (x1 := send true oack x).
  assert (∀ evs, sent_before x1 (oack_loop oack n evs x1).2) as Hnext.
  { intros evs'. etrans; [|apply IH]. destruct n; [done|apply sent_before_send]. }
  destruct evs as [|[p| |] evs]; [done| |apply Hnext|done]. destruct (peek_opcode p) as [op|]; [|done].
  destruct (op =? OP_ACK); [destruct (parse_ack p) as [a|]; [destruct (ack_block a =? 0)|]|]; try done;
    (destruct (op =? OP_ERROR); [done|apply Hnext]).
Qed.

Lemma online_oack_loop oack n : online (oack_loop oack n).
Proof.
  induction n as [|n IH]; intros evs l x; cbn [oack_loop]; [ended|]. cbv zeta.
  destruct evs as [|ev evs]; cbn [app].
  { split; [apply sent_before_send|]. apply (oack_loop_sent oack (S n) l x). }
  apply (continues_later _ _ (send true oack x)); [apply sent_before_send|].
  destruct ev as [p| |]; [|apply IH|ended]. destruct (peek_opcode p) as [op|]; [|ended].
  destruct (op =? OP_ACK); [destruct (parse_ack p) as [a|]; [destruct (ack_block a =? 0)|]|];
    try (ended); (destruct (op =? OP_ERROR); [ended|apply IH]).
Qed.

(** ** The whole session *)

(** Composes the property of a computation from its parts. *)
Ltac online_tac :=
  repeat first
    [ apply online_send_loop | apply online_recv_loop | apply online_oack_loop | apply online_cached_read
    | apply online_ftp_upload | apply online_with_lock | apply online_lock_to_tftp
    | apply online_bind; [|intros ?] | apply online_ret | apply online_lift | apply online_raise
    | apply online_modify; intros ?; first [apply sent_before_send | by apply sent_before_same]
    | case_goal ].

Lemma online_run_rrq E c : online (run_rrq E c).
Proof. unfold run_rrq, rrq_body, send_oack_await_ack, send_file, completed. online_tac. Qed.

Lemma online_run_wrq `{OsPath} E c : online (run_wrq E c).
Proof. unfold run_wrq, wrq_body, check_advertised, recv_file, completed. online_tac. Qed.

Lemma online_safe_run `{OsPath} E c : online (safe_run E c).
Proof.
  intros evs l x. unfold safe_run.
  assert (online (if req_opcode (sc_request c) =? OP_RRQ then run_rrq E c else run_wrq E c)) as Hm.
  { destruct (req_opcode _ =? OP_RRQ); [apply online_run_rrq|apply online_run_wrq]. }
  destruct (Hm evs l x) as [H1 H2]. set (m := if _ =? OP_RRQ then _ else _) in *. clearbody m. clear Hm.
  assert (∀ e, ∃ h : M unit, online h ∧ ∀ evs x,
    match e with
    | TFTPError code msg =>
        (_ ← send_error code msg; _ ← modify (set_state msg);
         if is_server_fault code msg then _ ← modify set_fault; modify (on_stats (bump tftp_sessions_failed 1))
         else mret tt) evs x
    | e => (_ ← send_error ERR_UNDEFINED (u "server error: " ++ exc_str e);
            _ ← modify (set_state (u "server error: " ++ exc_str e)); _ ← modify set_fault;
            modify (on_stats (bump tftp_sessions_failed 1))) evs x
    end = h evs x) as Hh.
  { intros e. unfold send_error. destruct e; eexists; (split; [|intros ? ?; reflexivity]); online_tac. }
  destruct (m evs x) as [[o evs'] x']. cbn [fst snd] in *. destruct o as [a|e| |].
  - rewrite H2. ended.
  - rewrite H2. destruct (Hh e) as (h & Hon & Heq). pose proof (Hon evs' l x') as Hc. rewrite <- !Heq in Hc.
    apply (continues_later _ _ x'); [done|]. destruct e; exact Hc.
  - rewrite H2. ended.
  - split; [done|]. destruct (m (evs ++ l) x) as [[o2 evs2] x2]. cbn [snd] in H2.
    destruct o2 as [a|e| |]; try exact H2. destruct (Hh e) as (h & Hon & Heq). etrans; [exact H2|].
    pose proof (online_sent h evs2 x2 Hon) as Hs. rewrite <- Heq in Hs. destruct e; exact Hs.
Qed.


(** Events that are all consumed: until the last one, the session waits. *)
Lemma safe_run_waits `{OsPath} E c evs later x o x' :
  safe_run E c (evs ++ later) x = (o, [], x') → o ≠ Blocked → later ≠ [] → (safe_run E c evs x).1.1 = Blocked.
Proof.
  intros Hr Ho Hl. destruct (online_safe_run E c evs later x) as [_ Hc]. rewrite Hr in Hc.
  destruct (safe_run E c evs x) as [[o1 rest] x1]. destruct o1; [..|done]; injection Hc as _ Hc _;
    symmetry in Hc; by apply app_eq_nil in Hc as [_ ->].
Qed.

(** ** A cancellation is the end, and the only way to be cancelled *)

(** With no event it is not cancelled; and when it waits, the next event is
    used up, and cancels it exactly if it is a cancellation. *)
Definition heeds {A} (m : M A) : Prop :=
  (∀ x, let '(o, rest, _) := m [] x in rest = [] ∧ o ≠ Cancelled) ∧
  (∀ evs ev x, (m evs x).1.1 = Blocked →
     let '(o, rest, _) := m (evs ++ [ev]) x in rest = [] ∧ (o = Cancelled ↔ ev = Cancel)).

(** A computation that never waits. *)
Lemma heeds_instant {A} (m : M A) :
  (∀ evs x, (m evs x).1.1 ≠ Blocked ∧ (m evs x).1.1 ≠ Cancelled ∧ (m evs x).1.2 = evs) → heeds m.
Proof.
  intros Hm. split.
  - intros x. destruct (Hm [] x) as (_ & Hc & He). by destruct (m [] x) as [[o rest] x'].
  - intros evs ev x Hb. by destruct (Hm evs x).
Qed.

Lemma heeds_bind {A B} (m : M A) (f : A → M B) :
  online m → heeds m → (∀ a, heeds (f a)) → heeds (m ≫= f).
Proof.
  intros Hon [H1 H2] Hf. split; [intros x|intros evs ev x]; unfold mbind, M_bind.
  - specialize (H1 x). destruct (m [] x) as [[o rest] x']. destruct H1 as [-> Ho].
    destruct o; try done. apply (Hf a).
  - specialize (H2 evs ev x). destruct (Hon evs [ev] x) as [_ Hc]. destruct (m evs x) as [[o rest] x'].
    destruct o as [a|e| |]; try done.
    + rewrite Hc. apply (Hf a).
    + intros _. specialize (H2 eq_refl). destruct (m (evs ++ [ev]) x) as [[o2 rest2] x2]. destruct H2 as [-> H2].
      destruct o2 as [a|e| |]; try (split; [done|]; naive_solver).
      assert (ev ≠ Cancel) as Hev by naive_solver. pose proof (proj1 (Hf a) x2) as Hfa.
      destruct (f a [] x2) as [[o3 rest3] x3]. destruct Hfa as [-> H3]. by split; [|split].
Qed.

Lemma heeds_with_lock {A} E m f (body : M A) : heeds body → heeds (with_lock E m f body).
Proof.
  intros [H1 H2]. split; [intros x|intros evs ev x]; unfold with_lock;
    (destruct (acquire m f (x_locks x)) as [[[]|e] l]; [|done]).
  - specialize (H1 (set_locks l x)). by destruct (body [] (set_locks l x)) as [[[] rest] x'].
  - specialize (H2 evs ev (set_locks l x)). destruct (body evs (set_locks l x)) as [[[] rest] x']; try done.
    intros _. specialize (H2 eq_refl). by destruct (body (evs ++ [ev]) (set_locks l x)) as [[[] rest2] x2].
Qed.

Lemma heeds_lock_to_tftp {A} (body : M A) : heeds body → heeds (lock_to_tftp body).
Proof.
  intros [H1 H2]. split; [intros x|intros evs ev x]; unfold lock_to_tftp.
  - specialize (H1 x). destruct (body [] x) as [[[a|[]| |] rest] x']; destruct H1; by split.
  - specialize (H2 evs ev x). destruct (body evs x) as [[[a|[]| |] rest] x']; try done. intros _.
    specialize (H2 eq_refl). destruct (body (evs ++ [ev]) x) as [[[a|[]| |] rest2] x2]; destruct H2; split; naive_solver.
Qed.

(** ** The loops *)

Lemma heeds_send_loop data b w mr total la r : heeds (prim (λ evs x, send_loop data b w mr total evs x la r)).
Proof.
  split; [intros x; unfold prim; cbn; by destruct (la <? total)|]. intros evs ev x. unfold prim. revert x la r.
  induction evs as [|e evs IH]; intros x la r; cbn [app send_loop];
    (destruct (la <? total) eqn:Hla; [|done]); cbv zeta.
  - intros _. destruct ev as [p| |]; repeat case_match; simplify_eq; by split; [|split].
  - destruct e as [p| |]; [|destruct (mr <? r + 1); [done|apply IH]|done].
    destruct (peek_opcode p) as [op|]; [|done]. destruct (op =? OP_ERROR); [done|].
    destruct (negb _); [apply IH|]. destruct (parse_ack p) as [ack|]; [|done].
    destruct (find_block _ _ _); apply IH.
Qed.

Lemma heeds_recv_loop tmp b w mr mx ro ex r win :
  heeds (prim (λ evs x, recv_loop tmp b w mr mx ro evs x ex r win)).
Proof.
  split; [intros x; by split|]. intros evs ev x. unfold prim. revert x ex r win.
  induction evs as [|e evs IH]; intros x ex r win; cbn [app recv_loop].
  - intros _. destruct ev as [p| |]; repeat case_match; simplify_eq; by split; [|split].
  - destruct e as [p| |]; [|destruct (mr <? r + 1); [done|apply IH]|done].
    destruct (peek_opcode p) as [op|]; [|done]. destruct (op =? OP_ERROR); [done|].
    destruct (negb _); [apply IH|]. destruct (parse_data p) as [d|]; [|done].
    destruct (find_block _ _ _) as [m|]; [|apply IH]. destruct (m =? ex); [|apply IH].
    destruct (negb (mx =? 0) && _); [done|]. cbv zeta. destruct (negb ro && _); [done|].
    destruct (drain _ _ _ _ _) as [[ex' win'] x']. destruct (zlen _ <? b); [done|apply IH].
Qed.

Lemma oack_loop_idle oack n x : let '(o, rest, _) := oack_loop oack n [] x in rest = [] ∧ o ≠ Cancelled.
Proof. by destruct n. Qed.

Lemma heeds_oack_loop oack n : heeds (oack_loop oack n).
Proof.
  split; [apply oack_loop_idle|]. induction n as [|n IH]; intros evs ev x; [done|]. cbn [oack_loop]. cbv zeta.
  assert (ev ≠ Cancel → let '(o, rest, _) := oack_loop oack n [] (send true oack x) in
    rest = [] ∧ (o = Cancelled ↔ ev = Cancel)) as Hlast.
  { intros Hev. pose proof (oack_loop_idle oack n (send true oack x)) as Hi.
    destruct (oack_loop oack n [] _) as [[o rest] x']. destruct Hi. by split; [|split]. }
  destruct evs as [|e evs]; cbn [app].
  - intros _. destruct ev as [p| |]; [|by apply Hlast|by split; [|split]].
    destruct (peek_opcode p) as [op|]; [|by split; [|split]].
    destruct (op =? OP_ACK); [destruct (parse_ack p) as [a|]; [destruct (ack_block a =? 0)|]|]; try (by split; [|split]);
      (destruct (op =? OP_ERROR); [by split; [|split]|by apply Hlast]).
  - destruct e as [p| |]; [|apply IH|done]. destruct (peek_opcode p) as [op|]; [|done].
    destruct (op =? OP_ACK); [destruct (parse_ack p) as [a|]; [destruct (ack_block a =? 0)|]|]; try done;
      (destruct (op =? OP_ERROR); [done|apply IH]).
Qed.

Lemma heeds_lift {A} (r : pyres A) : heeds (lift r).
Proof. apply heeds_instant. intros evs x. by destruct r. Qed.

Lemma heeds_cached_read E f : heeds (cached_read E f).
Proof. apply heeds_instant. intros evs x. unfold cached_read. by destruct (get_or_load _ _ _ _) as [[? ?] ?]. Qed.

Lemma heeds_ftp_upload E f p : heeds (ftp_upload E f p).
Proof.
  apply heeds_instant. intros evs x. unfold ftp_upload.
  by destruct (match env_upload _ _ _ with Ok b => b | _ => false end).
Qed.

(** Composes the property of a computation from its parts. *)
Ltac heeds_tac :=
  repeat first
    [ apply heeds_send_loop | apply heeds_recv_loop | apply heeds_oack_loop | apply heeds_cached_read
    | apply heeds_ftp_upload | apply heeds_with_lock | apply heeds_lock_to_tftp | apply heeds_lift
    | apply heeds_bind; [solve [online_tac]| |intros ?]
    | case_goal
    | apply heeds_instant; intros ? ?; by split_and! ].

Lemma heeds_handler `{OsPath} E c : heeds (request_handler E c).
Proof.
  unfold request_handler, run_rrq, run_wrq, rrq_body, wrq_body, send_oack_await_ack, send_file, check_advertised, recv_file, completed.
  heeds_tac.
Qed.

(** Handling an exception neither waits nor consumes events. *)
Lemma report_instant `{OsPath} e evs x :
  (report e evs x).1.1 ≠ Blocked ∧ (report e evs x).1.1 ≠ Cancelled ∧ (report e evs x).1.2 = evs.
Proof.
  unfold report, send_error, mbind, M_bind, lift, modify.
  destruct e; (destruct (pack_error _ _); [|done]); try done. by case_match.
Qed.

Lemma safe_run_heeds `{OsPath} E c : heeds (safe_run E c).
Proof.
  destruct (heeds_handler E c) as [H1 H2]. split; [intros x|intros evs ev x]; rewrite !safe_run_report.
  - specialize (H1 x). destruct (request_handler E c [] x) as [[[] rest] x']; try done. destruct H1 as [-> _].
    destruct (report_instant e [] x') as (_ & H3 & H4). by destruct (report e [] x') as [[o r] y].
  - specialize (H2 evs ev x). destruct (request_handler E c evs x) as [[o rest] x']. destruct o; try done.
    { intros Hb. by destruct (report_instant e rest x'). }
    intros _. specialize (H2 eq_refl). destruct (request_handler E c (evs ++ [ev]) x) as [[o2 rest2] x2].
    destruct H2 as [-> H2]. destruct o2; try by split.
    destruct (report_instant e [] x2) as (_ & H3 & H4). destruct (report e [] x2) as [[o r] y]. cbn in H3, H4.
    split; [done|]. naive_solver.
Qed.
