(* ===== verification/Server.v ===== *)
(** * The TFTP dispatcher (src/tftp/server.py)

    Packets are routed to the session whose key matches all five fields of the
    flow; new requests pass the access lists and become a task that waits for
    a free slot, takes a transfer identifier (TID) and starts a session.  No
    operation suspends between its checks and its effects ([_tid_lock] is never
    contended because nothing awaits under it), so each is one atomic step; a
    task that waits for a slot is polled. *)

From S2P Require Import Prelude Python Constants Wire Options Stats Acl Frame FileLock Cache Paths Session.
Open Scope Z_scope.

Record SessionKey := mkKey {
  k_client_mac : list Z;
  k_client_ip : list Z;
  k_client_port : Z;
  k_server_port : Z;
  k_vlan_id : option Z;
}.

#[export] Instance SessionKey_eq_dec : EqDecision SessionKey.
Proof. solve_decision. Defined.

(** A running transfer as the dispatcher sees it. *)
Record session := mkSession {
  s_config : Session.config;
  s_template : template;
  s_kind : list Z;
  s_queue : list (list Z);
}.

(** A row of [session_history], less its time and speed columns. *)
Record history_row := mkRow {
  h_id : list Z; h_kind : list Z; h_filename : list Z; h_key : SessionKey;
  h_blksize : Z; h_windowsize : Z; h_transferred : Z; h_total : option Z;
  h_state : list Z; h_fault : bool;
}.

(** The arguments of [daily_stats.record]. *)
Record daily_call := mkDaily {
  dc_success : bool; dc_fault : bool; dc_sent : Z; dc_received : Z;
  dc_filename : list Z; dc_mac : list Z;
}.

(** An [_accept] task: not started yet, or waiting for a slot with the values
    it read when it started. *)
Inductive task :=
| Fresh (p : ParsedPacket) (req : Request)
| Waiting (p : ParsedPacket) (req : Request) (files_cfg : pyval) (max_conc timeout_ms : Z).

Record server := mkServer {
  sv_ip : list Z;
  sv_mac : list Z;
  sv_cfg : list (list Z * pyval);
  sv_acl : ACL;
  sv_sessions : list (SessionKey * session);
  sv_tids : list Z;
  sv_history : list history_row;
  sv_stats : list (counter * Z);
  sv_daily : list daily_call;
  sv_out : list ether;
  sv_tasks : list task;
}.

Definition on_server (sessions : list (SessionKey * session)) (tids : list Z) (s : server) : server :=
  mkServer (sv_ip s) (sv_mac s) (sv_cfg s) (sv_acl s) sessions tids (sv_history s) (sv_stats s)
    (sv_daily s) (sv_out s) (sv_tasks s).
Definition sv_bump (k : counter) (s : server) : server :=
  mkServer (sv_ip s) (sv_mac s) (sv_cfg s) (sv_acl s) (sv_sessions s) (sv_tids s) (sv_history s)
    (bump k 1 (sv_stats s)) (sv_daily s) (sv_out s) (sv_tasks s).
Definition sv_emit (e : ether) (s : server) : server :=
  mkServer (sv_ip s) (sv_mac s) (sv_cfg s) (sv_acl s) (sv_sessions s) (sv_tids s) (sv_history s)
    (sv_stats s) (sv_daily s) (sv_out s ++ [e]) (sv_tasks s).
Definition sv_spawn (t : task) (s : server) : server :=
  mkServer (sv_ip s) (sv_mac s) (sv_cfg s) (sv_acl s) (sv_sessions s) (sv_tids s) (sv_history s)
    (sv_stats s) (sv_daily s) (sv_out s) (sv_tasks s ++ [t]).

(** [update]. *)
Definition server_update (ip mac : str) (cfg : list (str * pyval)) (s : server) : server :=
  mkServer ip mac cfg (sv_acl s) (sv_sessions s) (sv_tids s) (sv_history s) (sv_stats s)
    (sv_daily s) (sv_out s) (sv_tasks s).

(** [int(self.cfg.get("listen_port", TFTP_DEFAULT_LISTEN_PORT))]. *)
Definition listen_port (s : server) : pyres Z :=
  py_int (cfg_get (sv_cfg s) (u "listen_port") (VInt TFTP_DEFAULT_LISTEN_PORT)).

Definition udp_ports (p : ParsedPacket) : Z * Z :=
  match p_upper p with UUdp sport dport _ => (sport, dport) | _ => (0, 0) end.

(** [_send_error_on_request]. *)
Definition send_error_on_request (p : ParsedPacket) (code : Z) (msg : str) (s : server)
  : pyres unit * server :=
  match pack_error code msg, listen_port s with
  | Raise e, _ => (Raise e, s)
  | Ok _, Raise e => (Raise e, s)
  | Ok payload, Ok lp =>
      let frame := build_udp_frame (p_eth_src p) (sv_mac s) (p_vlan_id p) (p_vlan_pcp p) (p_vlan_dei p)
                     (sv_ip s) (p_ip_src p) lp (udp_ports p).1 payload in
      (Ok tt, sv_bump tftp_errors (sv_emit frame s))
  end.

(** The key a packet of a running transfer has. *)
Definition probe_key (p : ParsedPacket) (sport dport : Z) : SessionKey :=
  mkKey (p_eth_src p) (p_ip_src p) sport dport (p_vlan_id p).

Definition denial_counter (d : denial) : counter :=
  match d with DenyVlan => vlan_denied | DenyIp => ip_denied end.

Definition session_feed (payload : bytes) (ss : session) : session :=
  mkSession (s_config ss) (s_template ss) (s_kind ss) (feed (s_queue ss) payload).

(** [handle]. *)
Definition handle (p : ParsedPacket) (s : server) : pyres bool * server :=
  match p_upper p with
  | UUdp sport dport payload =>
      if negb (bool_decide (p_ip_dst p = sv_ip s)) then (Ok false, s)
      else match listen_port s with
      | Raise e => (Raise e, s)
      | Ok lp =>
          let key := probe_key p sport dport in
          match dict_get key (sv_sessions s) with
          | Some ss => (Ok true, on_server (dict_set key (session_feed payload ss) (sv_sessions s)) (sv_tids s) s)
          | None =>
              if negb (dport =? lp) then (Ok true, s)
              else match acl_check (sv_acl s) (u "tftp") (p_vlan_id p) (p_ip_src p) with
              | Some d => (Ok true, sv_bump (denial_counter d) (sv_bump acl_denied s))
              | None =>
                  match parse_request payload with
                  | Ok req => (Ok true, sv_spawn (Fresh p req) s)
                  | Raise (TFTPError code msg) =>
                      let '(r, s) := send_error_on_request p code msg s in
                      (_ ← r; Ok true, s)
                  | Raise e => (Raise e, s)
                  end
              end
          end
      end
  | _ => (Ok false, s)
  end.

(** [_alloc_tid] with the values [random.randint] returns, in order. *)
Definition alloc_tid (rand : list Z) (s : server) : pyres Z * server :=
  match listen_port s with
  | Raise e => (Raise e, s)
  | Ok listen =>
      match List.find (λ t, negb (bool_decide (t ∈ sv_tids s)) && negb (t =? listen)) (take 1000 rand) with
      | Some t => (Ok t, on_server (sv_sessions s) (sv_tids s ++ [t]) s)
      | None => (Raise (RuntimeError (u "exhausted TID pool")), s)
      end
  end.

(** [int(files_cfg.get(k, dflt) or 0)]. *)
Definition size_limit (files : pyval) (k : str) (dflt : Z) : pyres Z :=
  v ← py_get files k (VInt dflt); py_int (py_or v (VInt 0)).

(** The constructor arguments [_accept] reads from the configuration. *)
Definition session_config (cfg : list (str * pyval)) (files : pyval) (req : Request) (id : str)
  : pyres Session.config :=
  root ← py_get files (u "write_root") (VStr WRITE_ROOT_DEFAULT);
  let enable_writes := truthy (cfg_get cfg (u "enable_writes") (VBool false)) in
  legacy ← size_limit files (u "max_file_size") 0;
  max_rrq ← size_limit files (u "max_rrq_size") legacy;
  max_wrq ← size_limit files (u "max_wrq_size") legacy;
  max_ftp ← size_limit files (u "max_ftp_size") legacy;
  wrq_ftp ← py_get files (u "allow_wrq_ftp") (VBool false);
  prefix ← get_block files (u "ftp_prefix");
  enabled ← py_get prefix (u "enabled") VNone;
  trigger ← (if truthy enabled
             then v ← py_get prefix (u "trigger") (VStr FTP_PREFIX_TRIGGER); Ok (py_str v)
             else Ok []);
  let rollover := truthy (cfg_get cfg (u "allow_block_rollover") (VBool true)) in
  Ok (mkConfig id req cfg (py_str root) enable_writes max_rrq max_wrq max_ftp (truthy wrq_ftp)
        trigger rollover).

Section accept.
(** [socket.inet_aton] and [float(v)] in milliseconds. *)
Context (inet_aton : list Z → pyres (list Z)) (float_ms : pyval → pyres Z).

(** The rest of [_accept] once there is a slot. *)
Definition start_session (p : ParsedPacket) (req : Request) (files : pyval) (rand : list Z) (id : str) (s : server)
  : pyres unit * server :=
  match alloc_tid rand s with
  | (Raise e, s) => (Raise e, s)
  | (Ok tid, s) =>
      let '(sport, _) := udp_ports p in
      let key := mkKey (p_eth_src p) (p_ip_src p) sport tid (p_vlan_id p) in
      match (c ← session_config (sv_cfg s) files req id;
             t ← build_fastpath_template inet_aton (k_client_mac key) (sv_mac s) (k_vlan_id key)
                   (p_vlan_pcp p) (p_vlan_dei p) (sv_ip s) (k_client_ip key) tid sport;
             Ok (c, t)) with
      | Raise e => (Raise e, s)
      | Ok (c, t) =>
          let kind := if req_opcode req =? OP_RRQ then u "read" else u "write" in
          let s := on_server (dict_set key (mkSession c t kind []) (sv_sessions s)) (sv_tids s) s in
          (Ok tt, sv_bump tftp_sessions_total s)
      end
  end.

Inductive progress := Finished (r : pyres unit) | Suspended (t : task).

(** The body of the [while len(self.sessions) >= max_conc] loop. *)
Definition poll (p : ParsedPacket) (req : Request) (files : pyval) (max_conc timeout_ms elapsed_ms : Z)
    (rand : list Z) (id : str) (s : server) : progress * server :=
  if max_conc <=? zlen (sv_sessions s) then
    if timeout_ms <? elapsed_ms then
      let '(r, s) := send_error_on_request p ERR_UNDEFINED (u "server busy") s in (Finished r, s)
    else (Suspended (Waiting p req files max_conc timeout_ms), s)
  else let '(r, s) := start_session p req files rand id s in (Finished r, s).

(** [_accept], from its start or from the [asyncio.sleep] it waits in. *)
Definition accept (t : task) (elapsed_ms : Z) (rand : list Z) (id : str) (s : server)
  : progress * server :=
  match t with
  | Waiting p req files max_conc timeout_ms =>
      poll p req files max_conc timeout_ms elapsed_ms rand id s
  | Fresh p req =>
      match (sess_cfg ← get_block (VDict (sv_cfg s)) (u "sessions");
             files ← get_block (VDict (sv_cfg s)) (u "files");
             mc ← get_int sess_cfg (u "max_concurrent") SESSIONS_MAX_CONCURRENT_DEFAULT;
             pol ← py_get sess_cfg (u "overflow_policy") (VStr (u "reject"));
             qt ← (v ← py_get sess_cfg (u "queue_timeout") (VInt (SESSIONS_QUEUE_TIMEOUT_DEFAULT_MS / 1000));
                   float_ms v);
             Ok (files, mc, lower (py_str pol), qt)) with
      | Raise e => (Finished (Raise e), s)
      | Ok (files, mc, policy, qt) =>
          if (mc <=? zlen (sv_sessions s)) && bool_decide (policy = u "reject") then
            let '(r, s) := send_error_on_request p ERR_UNDEFINED (u "server busy") s in (Finished r, s)
          else poll p req files mc qt elapsed_ms rand id s
      end
  end.
End accept.

(** [deque(maxlen=100).appendleft]. *)
Definition HISTORY_MAX : nat := 100.

(** [_on_complete] for the session with this key and the state it ended in. *)
Definition on_complete (key : SessionKey) (ss : session) (x : Session.sess) (s : server) : server :=
  let success := bool_decide (x_state x = u "done") in
  let filename := req_filename (sc_request (s_config ss)) in
  let row := mkRow (sc_id (s_config ss)) (s_kind ss) filename key (x_blksize x) (x_windowsize x)
               (x_transferred x) (x_total x) (x_state x) (x_fault x) in
  let sent := if bool_decide (s_kind ss = u "RRQ") then x_transferred x else 0 in
  let received := if bool_decide (s_kind ss = u "WRQ") then x_transferred x else 0 in
  mkServer (sv_ip s) (sv_mac s) (sv_cfg s) (sv_acl s)
    (dict_del key (sv_sessions s)) (filter (λ t, t ≠ k_server_port key) (sv_tids s))
    (take HISTORY_MAX (row :: sv_history s)) (sv_stats s)
    (sv_daily s ++ [mkDaily success (x_fault x) sent received filename (k_client_mac key)])
    (sv_out s) (sv_tasks s).

(** [shutdown]: the tasks of the sessions are cancelled and forgotten. *)
Definition server_shutdown (s : server) : server := on_server [] (sv_tids s) s.

(** ** The running server *)

Definition set_tasks (ts : list task) (s : server) : server :=
  mkServer (sv_ip s) (sv_mac s) (sv_cfg s) (sv_acl s) (sv_sessions s) (sv_tids s) (sv_history s)
    (sv_stats s) (sv_daily s) (sv_out s) ts.

(** The keys of the second table that the first does not have. *)
Definition new_keys (s s' : server) : list SessionKey :=
  filter (λ k, k ∉ dict_keys (sv_sessions s)) (dict_keys (sv_sessions s')).

(** [random.randint(TFTP_TID_MIN, TFTP_TID_MAX)]. *)
Definition randint_ok (t : Z) : Prop := TFTP_TID_MIN ≤ t ≤ TFTP_TID_MAX.

Section system.
Context (inet_aton : list Z → pyres (list Z)) (float_ms : pyval → pyres Z).
(** The configurations a reload may bring. *)
Context (cfg_ok : list (list Z * pyval) → Prop).

(** The server and the keys of the session tasks that have started and not
    ended: a session leaves the table at [shutdown], its task ends later. *)
Inductive server_step : server * list SessionKey → server * list SessionKey → Prop :=
| step_handle p r s s' rn :
    handle p s = (r, s') → server_step (s, rn) (s', rn)
| step_accept ts1 t ts2 el rand id pr s s' rn :
    sv_tasks s = ts1 ++ t :: ts2 → Forall randint_ok rand →
    accept inet_aton float_ms t el rand id (set_tasks (ts1 ++ ts2) s) = (pr, s') →
    server_step (s, rn)
      (match pr with Finished _ => s' | Suspended t' => sv_spawn t' s' end, rn ++ new_keys s s')
| step_complete rn1 key rn2 ss x s :
    server_step (s, rn1 ++ key :: rn2) (on_complete key ss x s, rn1 ++ rn2)
| step_update ip mac cfg s rn :
    cfg_ok cfg → server_step (s, rn) (server_update ip mac cfg s, rn)
| step_shutdown s rn :
    server_step (s, rn) (server_shutdown s, rn).

Definition server_init (ip mac : str) (cfg : list (str * pyval)) (a : ACL) : server :=
  mkServer ip mac cfg a [] [] [] Counters_init [] [] [].

Definition server_reachable (ip mac : str) (cfg : list (str * pyval)) (a : ACL)
  : server * list SessionKey → Prop := rtc server_step (server_init ip mac cfg a, []).

(** ** Transfer identifiers *)

Record sv_inv (st : server * list SessionKey) : Prop := {
  iv_tids : NoDup (sv_tids st.1);
  iv_range : Forall randint_ok (sv_tids st.1);
  iv_ports : NoDup (map k_server_port st.2);
  iv_pool : ∀ k, k ∈ st.2 → k_server_port k ∈ sv_tids st.1;
  iv_keys : NoDup (dict_keys (sv_sessions st.1));
  iv_sub : ∀ k, k ∈ dict_keys (sv_sessions st.1) → k ∈ st.2;
  iv_history : (length (sv_history st.1) ≤ HISTORY_MAX)%nat;
}.

(** The fields the invariant reads. *)
Definition same_core (s s' : server) : Prop :=
  dict_keys (sv_sessions s') = dict_keys (sv_sessions s) ∧ sv_tids s' = sv_tids s ∧
  sv_history s' = sv_history s.

Lemma sv_inv_same s s' rn : same_core s s' → sv_inv (s, rn) → sv_inv (s', rn).
Proof. intros (Hk & Ht & Hh) [H1 H2 H3 H4 H5 H6 H7]. cbn in *. split; cbn; rewrite ?Hk, ?Ht, ?Hh; done. Qed.

Lemma same_core_error p code msg s : same_core s (send_error_on_request p code msg s).2.
Proof. unfold send_error_on_request. by destruct (pack_error code msg), (listen_port s). Qed.

Lemma dict_keys_feed key ss (d : list (SessionKey * session)) :
  dict_get key d = Some ss → ∀ v, dict_keys (dict_set key v d) = dict_keys d.
Proof. intros Hg v. rewrite dict_keys_set. unfold dict_mem. by rewrite Hg. Qed.

Lemma handle_same p s : same_core s (handle p s).2.
Proof.
  unfold handle. destruct (p_upper p) as [| |sport dport payload| |]; try done.
  destruct (negb _); [done|]. destruct (listen_port s); [|done].
  destruct (dict_get _ _) as [ss|] eqn:Hg.
  { split; [|done]. cbn [snd sv_sessions on_server]. by eapply dict_keys_feed. }
  destruct (negb _); [done|]. destruct (acl_check _ _ _ _); [done|].
  destruct (parse_request payload) as [|e]; [done|]. destruct e as [code msg| | | | | | | | | |]; try done.
  pose proof (same_core_error p code msg s). by destruct (send_error_on_request _ _ _ _).
Qed.

(** What admitting a request does to the table and the pool. *)
Lemma start_session_cases p req files rand id s r s' :
  start_session inet_aton p req files rand id s = (r, s') → Forall randint_ok rand →
  sv_history s' = sv_history s ∧ sv_tasks s' = sv_tasks s ∧ sv_cfg s' = sv_cfg s ∧
  ((sv_sessions s' = sv_sessions s ∧ sv_tids s' = sv_tids s) ∨
   ∃ t, (t ∉ sv_tids s) ∧ randint_ok t ∧ sv_tids s' = sv_tids s ++ [t] ∧
     (sv_sessions s' = sv_sessions s ∨
      ∃ key ss, k_server_port key = t ∧ sv_sessions s' = dict_set key ss (sv_sessions s))).
Proof.
  unfold start_session, alloc_tid. intros Ha Hr. destruct (listen_port s) as [lp|]; [|injection Ha as <- <-; split_and!; [done..|by left]].
  destruct (List.find _ _) as [t|] eqn:Hf; [|injection Ha as <- <-; split_and!; [done..|by left]].
  apply List.find_some in Hf as [Hin Ht]. apply list_elem_of_In in Hin. zbool.
  assert (t ∉ sv_tids s) as Hni by by eapply bool_decide_eq_false_1.
  assert (randint_ok t) as Hok.
  { apply (proj1 (Forall_forall _ _) Hr). rewrite <- (take_drop 1000 rand). apply elem_of_app. by left. }
  destruct (udp_ports p) as [sport dport].
  destruct (session_config _ _ _ _ ≫= _) as [[c tm]|]; injection Ha as <- <-; (split_and!; [done..|]);
    right; exists t; (split_and!; [done..|]); [|by left].
  right. do 2 eexists. split; [|reflexivity]. done.
Qed.

Lemma accept_cases t el rand id s pr s' :
  accept inet_aton float_ms t el rand id s = (pr, s') →
  (same_core s s' ∧ sv_tasks s' = sv_tasks s ∧ sv_cfg s' = sv_cfg s) ∨
  ∃ p req files mc r, start_session inet_aton p req files rand id s = (r, s') ∧ pr = Finished r ∧
    zlen (sv_sessions s) < mc ∧
    (match t with
     | Waiting _ _ _ mc' _ => mc = mc'
     | Fresh _ _ => (sess_cfg ← get_block (VDict (sv_cfg s)) (u "sessions");
                     get_int sess_cfg (u "max_concurrent") SESSIONS_MAX_CONCURRENT_DEFAULT) = Ok mc
     end).
Proof.
  assert (∀ p code msg, same_core s (send_error_on_request p code msg s).2 ∧
    sv_tasks (send_error_on_request p code msg s).2 = sv_tasks s ∧
    sv_cfg (send_error_on_request p code msg s).2 = sv_cfg s) as He.
  { intros p code msg. split; [apply same_core_error|]. unfold send_error_on_request.
    by destruct (pack_error code msg), (listen_port s). }
  assert (∀ p req files mc qt, poll inet_aton p req files mc qt el rand id s = (pr, s') →
    (same_core s s' ∧ sv_tasks s' = sv_tasks s ∧ sv_cfg s' = sv_cfg s) ∨
    ∃ r, start_session inet_aton p req files rand id s = (r, s') ∧ pr = Finished r ∧ zlen (sv_sessions s) < mc)
    as Hpoll.
  { intros p req files mc qt. unfold poll. destruct (Z.leb_spec mc (zlen (sv_sessions s))).
    - destruct (qt <? el); [|by intros [= <- <-]; left].
      specialize (He p ERR_UNDEFINED (u "server busy")).
      destruct (send_error_on_request _ _ _ _). intros [= <- <-]. by left.
    - destruct (start_session _ _ _ _ _ _ _) as [r s1]. intros [= <- <-]. right. by exists r. }
  destruct t as [p req|p req files mc qt]; cbn [accept].
  - destruct (get_block (VDict (sv_cfg s)) (u "sessions")) as [sc|]; cbn [mbind pyres_bind];
      [|by intros [= <- <-]; left].
    destruct (get_block (VDict (sv_cfg s)) (u "files")) as [files|]; [|by intros [= <- <-]; left].
    destruct (get_int sc _ _) as [mc|]; [|by intros [= <- <-]; left].
    destruct (py_get sc (u "overflow_policy") _) as [pol|]; [|by intros [= <- <-]; left].
    destruct (py_get sc (u "queue_timeout") _) as [qv|]; [|by intros [= <- <-]; left].
    cbn [mbind pyres_bind]. destruct (float_ms qv) as [qt|]; cbn [mbind pyres_bind];
      [|by intros [= <- <-]; left].
    destruct (_ && _).
    + specialize (He p ERR_UNDEFINED (u "server busy")).
      destruct (send_error_on_request _ _ _ _). intros [= <- <-]. by left.
    + intros Hp. destruct (Hpoll _ _ _ _ _ Hp) as [?|(r & Ha & -> & Hlt)]; [by left|].
      right. by exists p, req, files, mc, r.
  - intros Hp. destruct (Hpoll _ _ _ _ _ Hp) as [?|(r & Ha & -> & Hlt)]; [by left|].
    right. by exists p, req, files, mc, r.
Qed.

Lemma new_keys_same s s' : dict_keys (sv_sessions s') = dict_keys (sv_sessions s) → new_keys s s' = [].
Proof.
  intros Hk. unfold new_keys. rewrite Hk. generalize (dict_keys (sv_sessions s)). intros ks.
  assert (∀ l, (∀ k, k ∈ l → k ∈ ks) → filter (λ k, k ∉ ks) l = []) as H; [|by apply H].
  induction l as [|k l IH]; intros Hl; [done|]. rewrite filter_cons, decide_False.
  - apply IH. intros k' Hk'. apply Hl. by right.
  - intros Hn. apply Hn, Hl. by left.
Qed.

Lemma new_keys_set s s' key ss :
  key ∉ dict_keys (sv_sessions s) → sv_sessions s' = dict_set key ss (sv_sessions s) →
  new_keys s s' = [key].
Proof.
  intros Hk Hs. unfold new_keys. rewrite Hs, dict_set_new by done.
  assert (dict_keys (sv_sessions s ++ [(key, ss)]) = dict_keys (sv_sessions s) ++ [key]) as ->
    by (unfold dict_keys; by rewrite map_app).
  rewrite filter_app. rewrite filter_cons, filter_nil, decide_True by done.
  pose proof (new_keys_same s s eq_refl) as Hn. unfold new_keys in Hn. by rewrite Hn.
Qed.

Lemma sv_inv_tid s s' rn t :
  sv_inv (s, rn) → (t ∉ sv_tids s) → randint_ok t → sv_tids s' = sv_tids s ++ [t] →
  sv_history s' = sv_history s → sv_sessions s' = sv_sessions s → sv_inv (s', rn).
Proof.
  intros [H1 H2 H3 H4 H5 H6 H7] Hn Hr Ht Hh Hs. cbn [fst snd] in *.
  split; cbn [fst snd]; rewrite ?Ht, ?Hh, ?Hs; try done.
  - apply NoDup_app. split_and!; [done| |apply NoDup_singleton]. by intros x Hx ->%list_elem_of_singleton.
  - apply Forall_app. by repeat constructor; try apply Hr.
  - intros k Hk. apply elem_of_app. left. by apply H4.
Qed.

Lemma sv_inv_start s s' rn key ss t :
  sv_inv (s, rn) → (t ∉ sv_tids s) → randint_ok t → k_server_port key = t →
  sv_tids s' = sv_tids s ++ [t] → sv_history s' = sv_history s →
  sv_sessions s' = dict_set key ss (sv_sessions s) → sv_inv (s', rn ++ new_keys s s').
Proof.
  intros Hinv Hn Hr Hp Ht Hh Hs. pose proof Hinv as [H1 H2 H3 H4 H5 H6 H7]. cbn [fst snd] in *.
  assert (key ∉ rn) as Hkr by (intros Hin%H4; congruence).
  assert (key ∉ dict_keys (sv_sessions s)) as Hks by (intros Hin; by apply Hkr, H6).
  rewrite (new_keys_set s s' key ss) by done.
  split; cbn [fst snd]; rewrite ?Ht, ?Hh, ?Hs; try done.
  - apply NoDup_app. split_and!; [done| |apply NoDup_singleton]. by intros x Hx ->%list_elem_of_singleton.
  - apply Forall_app. by repeat constructor; try apply Hr.
  - rewrite map_app. apply NoDup_app. split_and!; [done| |apply NoDup_singleton].
    intros x Hx Hx'. cbn in Hx'. apply list_elem_of_singleton in Hx' as ->.
    apply list_elem_of_fmap in Hx as (k & Hk & Hin%H4). congruence.
  - intros k [Hk| ->%list_elem_of_singleton]%elem_of_app; apply elem_of_app;
      [left; by apply H4|right; by apply list_elem_of_singleton].
  - by apply dict_set_NoDup.
  - intros k. rewrite dict_set_new by done. unfold dict_keys. rewrite map_app. cbn.
    rewrite !elem_of_app. intros [?|?]; [left; by apply H6|by right].
Qed.

Lemma sv_inv_complete s rn1 key rn2 ss x :
  sv_inv (s, rn1 ++ key :: rn2) → sv_inv (on_complete key ss x s, rn1 ++ rn2).
Proof.
  intros [H1 H2 H3 H4 H5 H6 H7]. cbn [fst snd] in *.
  rewrite map_app in H3. cbn [map] in H3.
  assert (k_server_port key ∉ map k_server_port (rn1 ++ rn2)) as Hni.
  { apply (NoDup_Permutation_proper _ _ (Permutation_sym (Permutation_middle _ _ _))), NoDup_cons in H3
      as [Hn _]. by rewrite map_app. }
  assert (NoDup (map k_server_port (rn1 ++ rn2))) as Hnd.
  { apply (NoDup_Permutation_proper _ _ (Permutation_sym (Permutation_middle _ _ _))), NoDup_cons in H3
      as [_ Hn]. by rewrite map_app. }
  assert (∀ k, k ∈ rn1 ++ rn2 → k ∈ rn1 ++ key :: rn2) as Hsub by set_solver.
  split; cbn [fst snd on_complete sv_tids sv_sessions sv_history].
  - by apply NoDup_filter.
  - apply Forall_forall. intros t Ht. apply list_elem_of_filter in Ht as [_ Ht].
    by apply (proj1 (Forall_forall _ _) H2).
  - done.
  - intros k Hk. apply list_elem_of_filter. split; [|by apply H4, Hsub].
    intros Heq. apply Hni. rewrite <- Heq. apply list_elem_of_fmap. by exists k.
  - by apply dict_del_NoDup.
  - intros k Hk. assert (k ≠ key) as Hne.
    { intros ->. exact (proj1 (dict_get_None _ _) (dict_get_del_eq key _ H5) Hk). }
    apply dict_keys_del_sub, H6 in Hk. set_solver.
  - rewrite length_take. unfold HISTORY_MAX. lia.
Qed.

Lemma server_step_inv st st' : server_step st st' → sv_inv st → sv_inv st'.
Proof.
  intros Hst Hinv. destruct Hst as [p r s s' rn Hh|ts1 t ts2 el rand id pr s s' rn Hts Hr Ha
    |rn1 key rn2 ss x s|ip mac cfg s rn _|s rn].
  - pose proof (handle_same p s) as Hs. rewrite Hh in Hs. by eapply sv_inv_same.
  - assert (sv_inv (s', rn ++ new_keys s s')) as Hi.
    { destruct (accept_cases _ _ _ _ _ _ _ Ha) as [[Hsame _]|(p & req & files & mc & r & Had & _)].
      - rewrite new_keys_same by apply Hsame. rewrite app_nil_r.
        eapply (sv_inv_same s); [exact Hsame|done].
      - apply start_session_cases in Had as (Hh & _ & _ & [[Hs Ht]|(tid & Hn & Hok & Ht & Hs)]); [| |done].
        + rewrite new_keys_same by (by rewrite Hs). rewrite app_nil_r. eapply sv_inv_same, Hinv.
          unfold same_core. by rewrite Hs, Ht, Hh.
        + destruct Hs as [Hs|(key & ss & Hp & Hs)].
          * rewrite new_keys_same by (by rewrite Hs). rewrite app_nil_r.
            by eapply (sv_inv_tid s).
          * by eapply (sv_inv_start s). }
    destruct pr; [done|]. by eapply sv_inv_same, Hi.
  - by apply sv_inv_complete.
  - by eapply sv_inv_same, Hinv.
  - destruct Hinv as [H1 H2 H3 H4 H5 H6 H7]. cbn in *. split; cbn; try done; [apply NoDup_nil_2|].
    intros k Hk. by apply not_elem_of_nil in Hk.
Qed.

Lemma server_reachable_inv ip mac cfg a st : server_reachable ip mac cfg a st → sv_inv st.
Proof.
  intros Hr. assert (sv_inv (server_init ip mac cfg a, [])) as H0.
  { split; cbn; try apply NoDup_nil_2; try done; try set_solver; lia. }
  revert Hr H0. unfold server_reachable. induction 1; eauto using server_step_inv.
Qed.

(** ** The session cap *)

(** [max_concurrent] as [_accept] reads it. *)
Definition cap_of (cfg : list (str * pyval)) : pyres Z :=
  sess_cfg ← get_block (VDict cfg) (u "sessions");
  get_int sess_cfg (u "max_concurrent") SESSIONS_MAX_CONCURRENT_DEFAULT.

Record cap_inv (N : Z) (s : server) : Prop := {
  cp_cfg : cap_of (sv_cfg s) = Ok N;
  cp_tasks : ∀ p req files mc qt, Waiting p req files mc qt ∈ sv_tasks s → mc = N;
  cp_sessions : zlen (sv_sessions s) ≤ Z.max 0 N;
}.

Lemma zlen_keys (d : list (SessionKey * session)) : zlen d = zlen (dict_keys d).
Proof. unfold zlen, dict_keys. by rewrite length_map. Qed.

Lemma handle_tasks p s :
  sv_cfg (handle p s).2 = sv_cfg s ∧
  ∀ t, t ∈ sv_tasks (handle p s).2 → t ∈ sv_tasks s ∨ ∃ req, t = Fresh p req.
Proof.
  unfold handle. destruct (p_upper p) as [| |sport dport payload| |]; try (by auto).
  destruct (negb _); [by auto|]. destruct (listen_port s) eqn:Hlp; [|by auto].
  destruct (dict_get _ _); [by auto|]. destruct (negb _); [by auto|].
  destruct (acl_check _ _ _ _); [by auto|]. destruct (parse_request payload) as [req|e].
  - split; [done|]. cbn. intros t [?| ->%list_elem_of_singleton]%elem_of_app; eauto.
  - destruct e as [code msg| | | | | | | | | |]; try (by auto). unfold send_error_on_request.
    destruct (pack_error code msg); cbn; rewrite ?Hlp; by auto.
Qed.

Lemma accept_suspended t el rand id s pr s' t' :
  accept inet_aton float_ms t el rand id s = (pr, s') → pr = Suspended t' →
  ∃ p req files mc qt, t' = Waiting p req files mc qt ∧
    match t with Waiting _ _ _ mc' _ => mc = mc' | Fresh _ _ => cap_of (sv_cfg s) = Ok mc end.
Proof.
  assert (∀ p req files mc qt, poll inet_aton p req files mc qt el rand id s = (Suspended t', s') →
    t' = Waiting p req files mc qt) as Hpoll.
  { intros p req files mc qt. unfold poll. destruct (mc <=? _).
    - destruct (qt <? el); [by destruct (send_error_on_request _ _ _ _)|by intros [= <- <-]].
    - by destruct (start_session _ _ _ _ _ _ _). }
  intros Ha ->. destruct t as [p req|p req files mc qt]; cbn [accept] in Ha.
  - unfold cap_of.
    destruct (get_block (VDict (sv_cfg s)) (u "sessions")) as [sc|]; cbn [mbind pyres_bind] in *; [|done].
    destruct (get_block (VDict (sv_cfg s)) (u "files")) as [files|]; [|done].
    destruct (get_int sc _ _) as [mc|]; [|done].
    destruct (py_get sc (u "overflow_policy") _) as [pol|]; [|done].
    destruct (py_get sc (u "queue_timeout") _) as [qv|]; cbn [mbind pyres_bind] in Ha; [|done].
    destruct (float_ms qv) as [qt|]; cbn [mbind pyres_bind] in Ha; [|done].
    destruct (_ && _); [by destruct (send_error_on_request _ _ _ _)|].
    apply Hpoll in Ha. by exists p, req, files, mc, qt.
  - apply Hpoll in Ha. by exists p, req, files, mc, qt.
Qed.

Lemma cap_step N st st' :
  (∀ cfg, cfg_ok cfg → cap_of cfg = Ok N) →
  server_step st st' → sv_inv st → cap_inv N st.1 → cap_inv N st'.1.
Proof.
  intros Hcfg Hst Hinv [Hc Ht Hl]. destruct Hst as [p r s s' rn Hh
    |ts1 t ts2 el rand id pr s s' rn Hts Hr Ha|rn1 key rn2 ss x s|ip mac cfg s rn Hok|s rn];
    cbn [fst] in *.
  - pose proof (handle_same p s) as (Hk & _). destruct (handle_tasks p s) as [Hc' Ht'].
    rewrite Hh in Hk, Hc', Ht'. cbn [snd] in *. split; [by rewrite Hc'| |].
    + intros q req files mc qt [?|[req' ?]]%Ht'; [by eapply Ht|done].
    + by rewrite zlen_keys, Hk, <- zlen_keys.
  - assert (∀ t', t' ∈ ts1 ++ ts2 → t' ∈ sv_tasks s) as Hsub by (rewrite Hts; set_solver).
    assert (match t with Waiting _ _ _ mc _ => mc = N | Fresh _ _ => True end) as Htn.
    { destruct t as [|q req files mc qt]; [done|]. apply (Ht q req files mc qt). rewrite Hts. set_solver. }
    pose proof (accept_suspended _ _ _ _ _ _ _ (match pr with Suspended t' => t' | _ => t end) Ha) as Hsus.
    assert (sv_cfg s' = sv_cfg s ∧ sv_tasks s' = ts1 ++ ts2 ∧ zlen (sv_sessions s') ≤ Z.max 0 N)
      as (Hc' & Ht' & Hl').
    { destruct (accept_cases _ _ _ _ _ _ _ Ha) as [([Hk _] & Hta & Hcf)|
        (p & req & files & mc & r & Had & _ & Hlt & Hmc)].
      - split_and!; [done..|]. rewrite zlen_keys, Hk, <- zlen_keys. exact Hl.
      - apply start_session_cases in Had as (_ & Hta & Hcf & Hcases); [|done]. split_and!; [done..|].
        assert (mc = N) as ->.
        { destruct t; [|congruence]. unfold cap_of in Hc. cbn [sv_cfg set_tasks] in Hmc.
          rewrite Hc in Hmc. by injection Hmc. }
        cbn [sv_sessions set_tasks] in *.
        destruct Hcases as [[Hs _]|(tid & _ & _ & _ & [Hs|(key & ss & _ & Hs)])]; rewrite Hs; try lia.
        rewrite zlen_keys, dict_keys_set. destruct (dict_mem _ _); [rewrite <- zlen_keys; lia|].
        rewrite zlen_app, <- zlen_keys. change (zlen [key]) with 1. lia. }
    destruct pr as [r|t'].
    + split; [by rewrite Hc'| |done]. intros q req files mc qt Hin. rewrite Ht' in Hin.
      by eapply Ht, Hsub.
    + destruct (Hsus eq_refl) as (q & req & files & mc & qt & -> & Hmc).
      assert (mc = N) as ->.
      { destruct t; [|congruence]. cbn [sv_cfg set_tasks] in Hmc. rewrite Hc in Hmc. by injection Hmc. }
      split; [by cbn; rewrite Hc'| |exact Hl'].
      intros q' req' files' mc' qt'. cbn [sv_tasks sv_spawn]. rewrite Ht'.
      intros [Hin|Hin%list_elem_of_singleton]%elem_of_app; [by eapply Ht, Hsub|congruence].
  - split; [done|done|]. cbn [sv_sessions on_complete]. pose proof (iv_keys _ Hinv) as Hnd. cbn in Hnd.
    assert (zlen (dict_del key (sv_sessions s)) ≤ zlen (sv_sessions s)) as Hle; [|cbn; lia].
    generalize (sv_sessions s). intros d. induction d as [|[k v] d IH]; cbn [dict_del]; [done|].
    case_decide; rewrite ?zlen_cons in *; lia.
  - split; [by apply Hcfg|exact Ht|exact Hl].
  - split; [done|done|]. cbn. change (zlen []) with 0. lia.
Qed.
End system.

(** [C14] Transfers never share an identifier: in every reachable state of the
    server the running sessions have pairwise different TIDs, all between
    10000 and 65500; every session packets can be routed to is running, under
    one key only; and the history never holds more than 100 rows. *)
Theorem server_tids_distinct inet_aton float_ms cfg_ok ip mac cfg a s rn :
  server_reachable inet_aton float_ms cfg_ok ip mac cfg a (s, rn) →
  NoDup (map k_server_port rn) ∧
  (∀ k, k ∈ rn → 10000 ≤ k_server_port k ≤ 65500) ∧
  NoDup (dict_keys (sv_sessions s)) ∧
  (∀ k, k ∈ dict_keys (sv_sessions s) → k ∈ rn) ∧
  (length (sv_history s) ≤ 100)%nat.
Proof.
  intros [H1 H2 H3 H4 H5 H6 H7]%server_reachable_inv. cbn [fst snd] in *.
  split_and!; [done| |done|done|done].
  intros k Hk. by apply (proj1 (Forall_forall _ _) H2), H4.
Qed.

(** A client, its request, and the server it reaches. *)
Definition demo_packet (sport : Z) : ParsedPacket :=
  mkParsed (u "aa:bb:cc:dd:ee:01") (u "02:00:00:00:00:01") (Some 7) 3 0 33024 (u "10.0.0.2") (u "10.0.0.1") 17
    (UUdp sport 69 (be16 OP_RRQ ++ u "fw" ++ [0] ++ u "octet" ++ [0])).
Definition demo_aton (ip : str) : pyres bytes := Ok [10; 0; 0; 1].
Definition demo_float (v : pyval) : pyres Z :=
  match v with VInt z => Ok (z * 1000) | _ => Raise (TypeError (u "float() argument")) end.
Definition demo_acl : ACL := mkACL (u "disabled") [] [] (u "disabled") [] [].
Definition demo_cfg : list (str * pyval) := [(u "sessions", VDict [(u "max_concurrent", VInt 1)])].
Definition demo_server : server := server_init (u "10.0.0.1") (u "02:00:00:00:00:01") demo_cfg demo_acl.

(** One request handled and accepted. *)
Definition demo_key : SessionKey :=
  mkKey (u "aa:bb:cc:dd:ee:01") (u "10.0.0.2") 1234 20000 (Some 7).
Definition demo_started : server :=
  (accept demo_aton demo_float
     (Fresh (demo_packet 1234) (mkRequest 1 (u "fw") (u "octet") [])) 0 [20000] (u "id1") demo_server).2.

Lemma demo_reach cfg_ok :
  server_reachable demo_aton demo_float cfg_ok (u "10.0.0.1") (u "02:00:00:00:00:01") demo_cfg demo_acl
    (demo_started, [demo_key]).
Proof.
  eapply rtc_l.
  { apply (step_handle _ _ _ (demo_packet 1234) (Ok true)). vm_compute. reflexivity. }
  eapply rtc_l; [|apply rtc_refl].
  refine (eq_rect _ (λ y, server_step _ _ _ _ y)
    (step_accept demo_aton demo_float cfg_ok [] (Fresh (demo_packet 1234) (mkRequest 1 (u "fw") (u "octet") []))
       [] 0 [20000] (u "id1") _ _ demo_started [] _ _ _) _ _).
  - reflexivity.
  - repeat constructor; vm_compute; discriminate.
  - vm_compute. reflexivity.
  - vm_compute. reflexivity.
Qed.

Lemma server_tids_distinct_witness :
  dict_keys (sv_sessions demo_started) = [demo_key] ∧
  10000 ≤ k_server_port demo_key ≤ 65500.
Proof.
  split; [vm_compute; reflexivity|].
  apply (server_tids_distinct demo_aton demo_float (λ _, True) _ _ _ _ demo_started [demo_key]
    (demo_reach _)). by left.
Defined.

(** [C15] The concurrency cap holds: while the configuration's
    [sessions.max_concurrent] is [N], no sequence of packets, waiting requests,
    completions, reloads and shutdowns leaves more than [N] sessions in the
    table, whatever the overflow policy. *)
Theorem server_cap inet_aton float_ms N ip mac cfg a s rn :
  cap_of cfg = Ok N →
  server_reachable inet_aton float_ms (λ cfg, cap_of cfg = Ok N) ip mac cfg a (s, rn) →
  zlen (sv_sessions s) ≤ Z.max 0 N.
Proof.
  intros Hcap Hr.
  cut (∀ st0 st, rtc (server_step inet_aton float_ms (λ cfg, cap_of cfg = Ok N)) st0 st →
         sv_inv st0 → cap_inv N st0.1 → cap_inv N st.1).
  { intros H. apply (cp_sessions N s). apply (H _ _ Hr).
    - by eapply (server_reachable_inv inet_aton float_ms (λ _, True)), rtc_refl.
    - split; [done|intros * Hin; by apply not_elem_of_nil in Hin|]. cbn. change (zlen []) with 0. lia. }
  clear. intros st0 st Hrtc. induction Hrtc as [|st0 st1 st Hst Hrtc IH]; intros Hi Hc; [done|].
  apply IH; [by eapply server_step_inv|].
  apply (cap_step inet_aton float_ms (λ cfg, cap_of cfg = Ok N) N st0 st1); [by intros cfg|done..].
Qed.

Lemma server_cap_witness : zlen (sv_sessions demo_started) ≤ Z.max 0 1.
Proof.
  apply (server_cap demo_aton demo_float 1 (u "10.0.0.1") (u "02:00:00:00:00:01") demo_cfg demo_acl _ [demo_key]).
  - vm_compute. reflexivity.
  - apply demo_reach.
Defined.

(** A session's entry after a packet. *)
Lemma handle_get p s key :
  let hit := match p_upper p with
             | UUdp sport dport payload =>
                 if decide (p_ip_dst p = sv_ip s ∧
                            mkKey (p_eth_src p) (p_ip_src p) sport dport (p_vlan_id p) = key)
                 then Some payload else None
             | _ => None
             end in
  ∀ lp, listen_port s = Ok lp →
  dict_get key (sv_sessions (handle p s).2) =
  match dict_get key (sv_sessions s), hit with
  | Some ss, Some payload =>
      Some (mkSession (s_config ss) (s_template ss) (s_kind ss)
              (if decide (zlen (s_queue ss) < 256) then s_queue ss ++ [payload] else s_queue ss))
  | r, _ => r
  end.
Proof.
  intros hit lp Hlp. subst hit. unfold handle.
  assert (∀ code msg, sv_sessions (send_error_on_request p code msg s).2 = sv_sessions s) as Herr.
  { intros code msg. unfold send_error_on_request. rewrite Hlp. by destruct (pack_error code msg). }
  destruct (p_upper p) as [| |sport dport payload| |];
    try (cbn [snd]; by destruct (dict_get key (sv_sessions s))).
  destruct (decide (p_ip_dst p = sv_ip s)) as [Hip|Hip].
  2: { rewrite bool_decide_eq_false_2 by done. cbn [negb snd]. rewrite decide_False by naive_solver.
       by destruct (dict_get key (sv_sessions s)). }
  rewrite bool_decide_eq_true_2 by done. cbn [negb]. rewrite Hlp.
  change (mkKey _ _ _ _ _) with (probe_key p sport dport).
  destruct (dict_get (probe_key p sport dport) (sv_sessions s)) as [ss|] eqn:Hg.
  - cbn [snd sv_sessions on_server]. rewrite dict_get_set.
    destruct (decide (key = probe_key p sport dport)) as [->|Hne].
    + rewrite Hg, decide_True by done. unfold session_feed, feed.
      destruct (Z.leb_spec TFTP_SESSION_QUEUE_MAX (zlen (s_queue ss))) as [Hq|Hq];
        unfold TFTP_SESSION_QUEUE_MAX in Hq; [rewrite decide_False by lia|rewrite decide_True by lia]; done.
    + rewrite decide_False by naive_solver. by destruct (dict_get key (sv_sessions s)).
  - assert (match dict_get key (sv_sessions s),
      (if decide (p_ip_dst p = sv_ip s ∧ probe_key p sport dport = key) then Some payload else None) with
      | Some ss, Some payload => Some (mkSession (s_config ss) (s_template ss) (s_kind ss)
          (if decide (zlen (s_queue ss) < 256) then s_queue ss ++ [payload] else s_queue ss))
      | r, _ => r end = dict_get key (sv_sessions s)) as ->.
    { destruct (dict_get key (sv_sessions s)) eqn:Hk; [|done]. rewrite decide_False; [done|].
      intros [_ <-]. congruence. }
    destruct (negb _); [done|]. destruct (acl_check _ _ _ _); [done|].
    destruct (parse_request payload) as [|e]; [done|]. destruct e as [code msg| | | | | | | | | |]; try done.
    specialize (Herr code msg). destruct (send_error_on_request _ _ _ _) as [r s']. cbn in *. by rewrite Herr.
Qed.

(** [C16] Packets reach only the transfer they belong to: a packet changes the
    inbox of a session exactly when it is UDP to the server's address and its
    MAC, IP and port, the server port and the VLAN all match the session's; it
    then appends the payload, unless 256 packets already wait; every other
    session is left alone, and none appears or disappears. *)
Theorem handle_isolation p s key :
  let hit := match p_upper p with
             | UUdp sport dport payload =>
                 if decide (p_ip_dst p = sv_ip s ∧
                            mkKey (p_eth_src p) (p_ip_src p) sport dport (p_vlan_id p) = key)
                 then Some payload else None
             | _ => None
             end in
  ∀ lp, listen_port s = Ok lp →
  dict_get key (sv_sessions (handle p s).2) =
  match dict_get key (sv_sessions s), hit with
  | Some ss, Some payload =>
      Some (mkSession (s_config ss) (s_template ss) (s_kind ss)
              (if decide (zlen (s_queue ss) < 256) then s_queue ss ++ [payload] else s_queue ss))
  | r, _ => r
  end.
Proof. exact (handle_get p s key). Qed.

Lemma handle_isolation_witness :
  let p := mkParsed (u "aa:bb:cc:dd:ee:01") [] (Some 7) 3 0 0 (u "10.0.0.2") (u "10.0.0.1") 17
             (UUdp 1234 20000 [0; 4; 0; 1]) in
  ∃ ss, dict_get demo_key (sv_sessions (handle p demo_started).2) = Some ss ∧ s_queue ss = [[0; 4; 0; 1]].
Proof.
  intros p. eexists. split.
  - refine (eq_trans (handle_isolation p demo_started demo_key 69 _) _); vm_compute; reflexivity.
  - reflexivity.
Defined.

(** The daily chart's byte totals stay at zero: sessions are of kind "read" or
    "write", and the callback asks for "RRQ" and "WRQ". *)
Lemma daily_bytes_are_zero key ss x s :
  s_kind ss = u "read" ∨ s_kind ss = u "write" →
  ∃ d, sv_daily (on_complete key ss x s) = sv_daily s ++ [d] ∧ dc_sent d = 0 ∧ dc_received d = 0.
Proof.
  intros Hk. eexists. split; [reflexivity|]. cbn [dc_sent dc_received].
  destruct Hk as [-> | ->]; rewrite !bool_decide_eq_false_2 by str_ne; done.
Qed.

(** A request that cannot be turned into a session - here a size limit that is
    not a number - raises after its TID was taken, and nothing gives the TID
    back: no session has it, and no later request can. *)
Lemma failed_start_keeps_tid :
  let cfg := demo_cfg ++ [(u "files", VDict [(u "max_rrq_size", VStr (u "none"))])] in
  let s := server_init (u "10.0.0.1") (u "02:00:00:00:00:01") cfg demo_acl in
  let '(pr, s') := accept demo_aton demo_float (Fresh (demo_packet 1234) (mkRequest 1 (u "fw") (u "octet") []))
                     0 [20000] (u "id1") s in
  (∃ e, pr = Finished (Raise e)) ∧ sv_sessions s' = [] ∧ sv_tids s' = [20000] ∧
  (alloc_tid [20000] s').1 = Raise (RuntimeError (u "exhausted TID pool")).
Proof. vm_compute. split_and!; try reflexivity. by eexists. Qed.
