(* ===== verification/System.v ===== *)
(** * The running server (src/tftp/server.py with src/tftp/session.py)

    The dispatcher of Server.v and the coroutines of Session.v together: each
    entry of the session table has a task that runs [_safe_run], suspended in
    its queue; tasks of different sessions interleave with packets, requests
    waiting for a slot, reloads and the shutdown in any order.  The shared
    objects a session finds when it starts - counters, cache, locks, files -
    and its environment are arbitrary, so nothing here depends on them. *)

From S2P Require Import Prelude Python Constants Wire Options Stats Acl Frame FileLock Cache Paths Session.
From S2P Require Import Download Upload SessionLife Locked Counted Termination Online Server.
Open Scope Z_scope.

(** A task: created by [start] and not yet run, or suspended after the events
    it has consumed. *)
Inductive run_state :=
| Created
| Running (E : env) (x0 : sess) (evs : list event).

Record run := mkRun { r_sess : session; r_cancelled : bool; r_state : run_state }.

Record system := mkSystem { sy_server : server; sy_runs : list (SessionKey * run) }.

(** [SessionInfo] of a new session, with the shared objects as they are. *)
Definition fresh_sess (stats : list (counter * Z)) (cache : FileCache) (locks : gmap (list Z) Entry)
    (fs : list (list Z * list Z)) : sess :=
  mkSess [] stats (u "init") false 0 None 512 1 cache locks fs.

(** What a step does, for the record of a run of the system. *)
Inductive label :=
| LPacket (p : ParsedPacket)
| LAccept
| LBegin (key : SessionKey)
| LNever (key : SessionKey)
| LEvent (key : SessionKey) (ev : event)
| LUpdate
| LShutdown.

Definition queue_of (s : server) (key : SessionKey) : list bytes :=
  from_option s_queue [] (dict_get key (sv_sessions s)).

(** [await self.queue.get()]. *)
Definition set_queue (key : SessionKey) (q : list bytes) (s : server) : server :=
  match dict_get key (sv_sessions s) with
  | Some ss => on_server (dict_set key (mkSession (s_config ss) (s_template ss) (s_kind ss) q) (sv_sessions s))
                 (sv_tids s) s
  | None => s
  end.

(** The tasks of the sessions that were added to the table. *)
Definition new_runs (s s' : server) : list (SessionKey * run) :=
  omap (λ k, (λ ss, (k, mkRun ss false Created)) <$> dict_get k (sv_sessions s')) (new_keys s s').

(** A task that runs again finds the counters where the others have brought
    them; as it does not read them (Counted.v), its state may be described from
    any start. *)
Definition moved (st : list (counter * Z)) (x0 : sess) : sess := on_stats (λ _, st) x0.

Lemma moved_same x0 : moved (x_stats x0) x0 = x0.
Proof. by destruct x0. Qed.

Definition cancel_run (r : run) : run := mkRun (r_sess r) true (r_state r).

Section system.
Context `{OsPath} (inet_aton : list Z → pyres (list Z)) (float_ms : pyval → pyres Z).

(** The task goes on with its events: it is suspended again, or it is over and
    [_safe_run] calls [on_complete] in its [finally]. *)
Definition advance (key : SessionKey) (r : run) (E : env) (x0 : sess) (evs : list event) (s : server)
    (rs : list (SessionKey * run)) : system :=
  match safe_run E (s_config (r_sess r)) evs x0 with
  | (Blocked, _, _) => mkSystem s (dict_set key (mkRun (r_sess r) (r_cancelled r) (Running E x0 evs)) rs)
  | (_, _, x) => mkSystem (on_complete key (r_sess r) x s) (dict_del key rs)
  end.

Inductive sys_step : label → system → system → Prop :=
| sy_packet p r s s' rs :
    handle p s = (r, s') → sys_step (LPacket p) (mkSystem s rs) (mkSystem s' rs)
| sy_accept ts1 t ts2 el rand id pr s s' rs :
    sv_tasks s = ts1 ++ t :: ts2 → Forall randint_ok rand →
    accept inet_aton float_ms t el rand id (set_tasks (ts1 ++ ts2) s) = (pr, s') →
    sys_step LAccept (mkSystem s rs)
      (mkSystem (match pr with Finished _ => s' | Suspended t' => sv_spawn t' s' end) (rs ++ new_runs s s'))
| sy_begin key r E stats cache locks fs s rs :
    dict_get key rs = Some r → r_state r = Created → r_cancelled r = false →
    sys_step (LBegin key) (mkSystem s rs) (advance key r E (fresh_sess stats cache locks fs) [] s rs)
| sy_never key r s rs :   (* cancelled before its first step: the coroutine never runs *)
    dict_get key rs = Some r → r_state r = Created → r_cancelled r = true →
    sys_step (LNever key) (mkSystem s rs) (mkSystem s (dict_del key rs))
| sy_receive key r E oth st x0 evs p q s rs :
    dict_get key rs = Some r → r_state r = Running E x0 evs → r_cancelled r = false →
    queue_of s key = p :: q →
    sys_step (LEvent key (Pkt p)) (mkSystem s rs) (advance key r (left_by oth E) (moved st x0) (evs ++ [Pkt p]) (set_queue key q s) rs)
| sy_timeout key r E oth st x0 evs s rs :
    dict_get key rs = Some r → r_state r = Running E x0 evs → r_cancelled r = false →
    queue_of s key = [] →
    sys_step (LEvent key Timeout) (mkSystem s rs) (advance key r (left_by oth E) (moved st x0) (evs ++ [Timeout]) s rs)
| sy_cancel key r E oth st x0 evs s rs :
    dict_get key rs = Some r → r_state r = Running E x0 evs → r_cancelled r = true →
    sys_step (LEvent key Cancel) (mkSystem s rs) (advance key r (left_by oth E) (moved st x0) (evs ++ [Cancel]) s rs)
| sy_update ip mac cfg s rs :
    sys_step LUpdate (mkSystem s rs) (mkSystem (server_update ip mac cfg s) rs)
| sy_shutdown s rs :
    sys_step LShutdown (mkSystem s rs) (mkSystem (server_shutdown s) (prod_map id cancel_run <$> rs)).

Inductive sys_run : list label → system → system → Prop :=
| sys_nil sy : sys_run [] sy sy
| sys_cons l ls sy1 sy2 sy3 : sys_step l sy1 sy2 → sys_run ls sy2 sy3 → sys_run (l :: ls) sy1 sy3.

Lemma sys_run_app ls1 ls2 sy1 sy2 sy3 : sys_run ls1 sy1 sy2 → sys_run ls2 sy2 sy3 → sys_run (ls1 ++ ls2) sy1 sy3.
Proof. intros H1 H2. induction H1 as [|l ls sa sb sc Hs _ IH]; [done|]. cbn. econstructor; [exact Hs|auto]. Qed.

Lemma sys_run_one l sy1 sy2 : sys_step l sy1 sy2 → sys_run [l] sy1 sy2.
Proof. intros Hs. econstructor; [exact Hs|constructor]. Qed.

(** Induction on the last step. *)
Lemma sys_run_rev_ind (P : list label → system → Prop) sy0 :
  P [] sy0 →
  (∀ ls l sy1 sy2, sys_run ls sy0 sy1 → P ls sy1 → sys_step l sy1 sy2 → P (ls ++ [l]) sy2) →
  ∀ ls sy, sys_run ls sy0 sy → P ls sy.
Proof.
  intros H0 Hs.
  assert (∀ ls2 sy1 sy, sys_run ls2 sy1 sy → ∀ ls1, sys_run ls1 sy0 sy1 → P ls1 sy1 → P (ls1 ++ ls2) sy) as Hall.
  { induction 1 as [sy|l ls sa sb sc Hl _ IH]; intros ls1 H1 HP; [by rewrite app_nil_r|].
    rewrite cons_middle, app_assoc. apply IH; [|by eapply Hs].
    eapply sys_run_app; [exact H1|by apply sys_run_one]. }
  intros ls sy Hr. apply (Hall ls sy0 sy Hr []); [constructor|done].
Qed.

Definition sys_init (ip mac : str) (cfg : list (str * pyval)) (a : ACL) : system :=
  mkSystem (server_init ip mac cfg a) [].

(** ** Table and tasks agree *)

(** The session of the task as the table holds it. *)
Definition same_session (ss ss' : session) : Prop :=
  s_config ss = s_config ss' ∧ s_template ss = s_template ss' ∧ s_kind ss = s_kind ss'.

(** A task that is not cancelled is in the table; a cancelled one is not. *)
Definition listed (s : server) (k : SessionKey) (r : run) : Prop :=
  if r_cancelled r then dict_get k (sv_sessions s) = None
  else ∃ ss, dict_get k (sv_sessions s) = Some ss ∧ same_session ss (r_sess r).

(** A suspended task waits for an event. *)
Definition waits (r : run) : Prop :=
  match r_state r with
  | Created => True
  | Running E x0 evs => (safe_run E (s_config (r_sess r)) evs x0).1.1 = Blocked
  end.

Record sys_inv (sy : system) : Prop := {
  in_server : sv_inv (sy_server sy, dict_keys (sy_runs sy));
  in_listed : ∀ k r, dict_get k (sy_runs sy) = Some r → listed (sy_server sy) k r;
  in_waits : ∀ k r, dict_get k (sy_runs sy) = Some r → waits r;
}.

Lemma sys_inv_keys sy : sys_inv sy → NoDup (dict_keys (sy_runs sy)).
Proof. intros [Hs _ _]. by eapply NoDup_fmap_1, (iv_ports _ Hs). Qed.

(** Where a key is. *)
Lemma dict_split {A} (k : SessionKey) (v : A) d :
  dict_get k d = Some v → ∃ d1 d2, d = d1 ++ (k, v) :: d2 ∧ dict_del k d = d1 ++ d2.
Proof.
  induction d as [|[k' v'] d IH]; cbn; [done|]. case_decide as Hk; [intros [= ->]; subst; by exists [], d|].
  intros (d1 & d2 & -> & ->)%IH. by exists ((k', v') :: d1), d2.
Qed.

Lemma listed_same s s' k r :
  dict_get k (sv_sessions s') = dict_get k (sv_sessions s) → listed s k r → listed s' k r.
Proof. unfold listed. by intros ->. Qed.

Lemma same_session_refl ss : same_session ss ss.
Proof. by split_and!. Qed.

(** A packet changes queues only. *)
Lemma handle_sessions p s k :
  match dict_get k (sv_sessions s) with
  | Some ss => ∃ ss', dict_get k (sv_sessions (handle p s).2) = Some ss' ∧ same_session ss' ss
  | None => dict_get k (sv_sessions (handle p s).2) = None
  end.
Proof.
  destruct (listen_port s) as [lp|e] eqn:Hlp.
  - rewrite (handle_get p s k lp Hlp). destruct (dict_get k (sv_sessions s)) as [ss|]; [|done].
    destruct (match p_upper p with UUdp _ _ _ => _ | _ => _ end); eexists; (split; [reflexivity|by split_and!]).
  - assert (sv_sessions (handle p s).2 = sv_sessions s) as ->.
    { unfold handle. rewrite Hlp. destruct (p_upper p); try done. by destruct (negb _). }
    destruct (dict_get k (sv_sessions s)) as [ss|]; [exists ss; by split_and!|done].
Qed.

Lemma set_queue_sessions key q s k :
  match dict_get k (sv_sessions s) with
  | Some ss => ∃ ss', dict_get k (sv_sessions (set_queue key q s)) = Some ss' ∧ same_session ss' ss ∧
                 s_queue ss' = if decide (k = key) then q else s_queue ss
  | None => dict_get k (sv_sessions (set_queue key q s)) = None
  end.
Proof.
  unfold set_queue. destruct (dict_get key (sv_sessions s)) as [ss0|] eqn:Hk; cbn [sv_sessions on_server].
  - rewrite dict_get_set. destruct (decide (k = key)) as [->|]; [rewrite Hk; eexists; by split_and!|].
    destruct (dict_get k (sv_sessions s)) as [ss|]; [exists ss; by split_and!|done].
  - destruct (dict_get k (sv_sessions s)) as [ss|] eqn:Hs; [|done]. exists ss. split_and!; try done.
    case_decide; [congruence|done].
Qed.

Lemma set_queue_same key q s : same_core s (set_queue key q s).
Proof.
  unfold set_queue. destruct (dict_get key (sv_sessions s)) eqn:Hk; [|done].
  split; [|done]. cbn. by eapply dict_keys_feed.
Qed.

Lemma listed_sessions s s' k r :
  match dict_get k (sv_sessions s) with
  | Some ss => ∃ ss', dict_get k (sv_sessions s') = Some ss' ∧ same_session ss' ss
  | None => dict_get k (sv_sessions s') = None
  end → listed s k r → listed s' k r.
Proof.
  unfold listed. destruct (r_cancelled r).
  - by intros H1 H2; rewrite H2 in H1.
  - intros H1 (ss & Hs & Hc & Ht & Hkd). rewrite Hs in H1. destruct H1 as (ss' & Hs' & Hc' & Ht' & Hk').
    exists ss'. split; [done|]. split_and!; congruence.
Qed.

Lemma sv_inv_drop s rn1 key rn2 :
  key ∉ dict_keys (sv_sessions s) → sv_inv (s, rn1 ++ key :: rn2) → sv_inv (s, rn1 ++ rn2).
Proof.
  intros Hn [H1 H2 H3 H4 H5 H6 H7]. cbn [fst snd] in *. split; cbn [fst snd]; try done.
  - rewrite map_app in *. cbn [map] in H3.
    apply (NoDup_Permutation_proper _ _ (Permutation_sym (Permutation_middle _ _ _))), NoDup_cons in H3 as [_ H3]. done.
  - intros k Hk. apply H4. set_solver.
  - intros k Hk. pose proof (H6 k Hk) as Hin. assert (k ≠ key) by (by intros ->). set_solver.
Qed.

(** Both outcomes of a step of a task. *)
Lemma advance_inv key r E x0 evs s rs :
  sys_inv (mkSystem s rs) → dict_get key rs = Some r →
  sys_inv (advance key r E x0 evs s rs).
Proof.
  intros Hinv Hg. pose proof (sys_inv_keys _ Hinv) as Hnd. destruct Hinv as [Hs Hl Hw]. cbn in *.
  unfold advance. destruct (safe_run _ _ _ _) as [[o evs'] x] eqn:Hrun.
  assert (∀ x, sys_inv (mkSystem (on_complete key (r_sess r) x s) (dict_del key rs))) as Hend.
  { clear x Hrun. intros x. split; cbn [sy_server sy_runs].
    - destruct (dict_split _ _ _ Hg) as (rs1 & rs2 & -> & ->). unfold dict_keys in *. rewrite map_app in *.
      cbn [map fst] in *. by apply sv_inv_complete.
    - intros k r' Hk. destruct (decide (k = key)) as [->|Hne]; [by rewrite dict_get_del_eq in Hk|].
      rewrite dict_get_del_ne in Hk by done. apply (listed_same s); [|by apply Hl].
      cbn [sv_sessions on_complete]. by rewrite dict_get_del_ne.
    - intros k r' Hk. destruct (decide (k = key)) as [->|Hne]; [by rewrite dict_get_del_eq in Hk|].
      rewrite dict_get_del_ne in Hk by done. by eapply Hw. }
  destruct o; try apply Hend. split; cbn [sy_server sy_runs].
  - rewrite dict_keys_set. unfold dict_mem. by rewrite Hg.
  - intros k r'. rewrite dict_get_set. case_decide as Hk; [|by apply Hl]. intros [= <-]. subst k.
    exact (Hl key r Hg).
  - intros k r'. rewrite dict_get_set. case_decide as Hk; [|by apply Hw]. intros [= <-].
    unfold waits. cbn. by rewrite Hrun.
Qed.

(** ** What a step leaves alone *)

(** The number of sessions started, as the counters have it. *)
Definition started_total (s : server) : Z := counter_get (sv_stats s) tftp_sessions_total.

(** The table, the records of ended sessions and the number of started ones. *)
Definition untouched (s s' : server) : Prop :=
  sv_sessions s' = sv_sessions s ∧ sv_daily s' = sv_daily s ∧ started_total s' = started_total s.

Lemma untouched_error p code msg s : untouched s (send_error_on_request p code msg s).2.
Proof.
  unfold send_error_on_request. destruct (pack_error code msg), (listen_port s); split_and!; try done.
  unfold started_total. cbn [snd sv_stats sv_bump sv_emit]. by rewrite counter_get_bump_ne.
Qed.

Lemma handle_untouched p s :
  sv_daily (handle p s).2 = sv_daily s ∧ started_total (handle p s).2 = started_total s.
Proof.
  unfold handle. destruct (p_upper p) as [| |sport dport payload| |]; try done.
  destruct (negb _); [done|]. destruct (listen_port s); [|done]. destruct (dict_get _ _); [done|].
  destruct (negb _); [done|]. destruct (acl_check _ _ _ _) as [d|].
  { split; [done|]. unfold started_total. cbn [snd sv_stats sv_bump]. by rewrite !counter_get_bump_ne by (by destruct d). }
  destruct (parse_request payload) as [|e]; [done|]. destruct e as [code msg| | | | | | | | | |]; try done.
  pose proof (untouched_error p code msg s) as (_ & Hd & Ht). destruct (send_error_on_request _ _ _ _). by split.
Qed.

(** The frames of the session go to the client of its key. *)
Definition addressed (key : SessionKey) (ss : session) : Prop := ∃ mac ip pcp dei,
  build_fastpath_template inet_aton (k_client_mac key) mac (k_vlan_id key) pcp dei ip (k_client_ip key)
    (k_server_port key) (k_client_port key) = Ok (s_template ss).

(** What [start_session] does. *)
Definition started (ts : list task) (s s' : server) : Prop := ∃ key ss,
  sv_sessions s' = dict_set key ss (sv_sessions s) ∧ (k_server_port key ∉ sv_tids s) ∧
  s_queue ss = [] ∧ addressed key ss ∧ sv_daily s' = sv_daily s ∧ started_total s' = started_total s + 1 ∧
  s' = sv_bump tftp_sessions_total (on_server (dict_set key ss (sv_sessions s))
         (sv_tids s ++ [k_server_port key]) (set_tasks ts s)).

(** Admitting a request: nothing happens to the table, or [start_session] adds
    an entry under a new TID and counts it. *)
Lemma accept_effect ts t el rand id pr s s' :
  Forall randint_ok rand → accept inet_aton float_ms t el rand id (set_tasks ts s) = (pr, s') →
  untouched s s' ∨ started ts s s'.
Proof.
  intros Hr.
  assert (∀ p req files r s1, start_session inet_aton p req files rand id (set_tasks ts s) = (r, s1) → untouched s s1 ∨ started ts s s1) as Hstart.
  { intros p req files r s1. unfold start_session, alloc_tid.
    destruct (listen_port (set_tasks ts s)); [|by intros [= _ <-]; left].
    destruct (List.find _ _) as [tid|] eqn:Hf; [|by intros [= _ <-]; left].
    apply List.find_some in Hf as [_ Hf]. apply andb_true_iff in Hf as [Hf _].
    destruct (udp_ports p) as [sport dport].
    destruct (session_config _ _ _ _) as [c|]; cbn [mbind pyres_bind]; [|by intros [= _ <-]; left].
    destruct (build_fastpath_template _ _ _ _ _ _ _ _ _ _) as [tm|] eqn:Htm; cbn [mbind pyres_bind];
      [|by intros [= _ <-]; left].
    intros [= _ <-]. right. do 2 eexists. split; [reflexivity|]. split_and!; [|done| |done| |reflexivity].
    - apply negb_true_iff, bool_decide_eq_false_1 in Hf. exact Hf.
    - do 4 eexists. exact Htm.
    - unfold started_total. cbn [sv_stats sv_bump on_server set_tasks]. by rewrite counter_get_bump, decide_True. }
  assert (∀ p code msg r s1, send_error_on_request p code msg (set_tasks ts s) = (r, s1) → untouched s s1) as Herr.
  { intros p code msg r s1 He. pose proof (untouched_error p code msg (set_tasks ts s)) as Hu. by rewrite He in Hu. }
  assert (∀ p req files mc qt, poll inet_aton p req files mc qt el rand id (set_tasks ts s) = (pr, s') → untouched s s' ∨ started ts s s') as Hpoll.
  { intros p req files mc qt. unfold poll. destruct (mc <=? _).
    - destruct (qt <? el); [|by intros [= _ <-]; left].
      destruct (send_error_on_request _ _ _ _) as [r s1] eqn:He. intros [= _ <-]. left. by eapply Herr.
    - destruct (start_session _ _ _ _ _ _ _) as [r s1] eqn:Hs. intros [= _ <-]. by eapply Hstart. }
  destruct t as [p req|p req files mc qt]; cbn [accept]; [|by apply Hpoll].
  destruct (_ ≫= _) as [[[[files mc] policy] qt]|]; [|by intros [= _ <-]; left].
  destruct (_ && _); [|by apply Hpoll].
  destruct (send_error_on_request _ _ _ _) as [r s1] eqn:He. intros [= _ <-]. left. by eapply Herr.
Qed.

Lemma new_runs_same s s' : dict_keys (sv_sessions s') = dict_keys (sv_sessions s) → new_runs s s' = [].
Proof. intros Hk. unfold new_runs. by rewrite new_keys_same. Qed.

Lemma new_runs_set s s' key ss :
  key ∉ dict_keys (sv_sessions s) → sv_sessions s' = dict_set key ss (sv_sessions s) →
  new_runs s s' = [(key, mkRun ss false Created)].
Proof.
  intros Hk Hs. unfold new_runs. rewrite (new_keys_set s s' key ss) by done. cbn.
  by rewrite Hs, dict_get_set_eq.
Qed.

Lemma dict_keys_new_runs s s' : dict_keys (new_runs s s') = new_keys s s'.
Proof.
  unfold new_runs, new_keys, dict_keys.
  assert (∀ l, (∀ k, k ∈ l → k ∈ map fst (sv_sessions s')) →
    map fst (omap (λ k, (λ ss, (k, mkRun ss false Created)) <$> dict_get k (sv_sessions s')) l) = l) as Hl.
  { induction l as [|k l IH]; intros Hin; cbn; [done|].
    destruct (dict_get k (sv_sessions s')) as [ss|] eqn:Hg; cbn.
    - f_equal. apply IH. intros k' Hk'. apply Hin. by right.
    - exfalso. by apply (proj1 (dict_get_None _ _) Hg), Hin, list_elem_of_here. }
  apply Hl. intros k Hk. by apply list_elem_of_filter in Hk as [_ Hk].
Qed.

Lemma runs_snoc (rs : list (SessionKey * run)) key r :
  key ∉ dict_keys rs → rs ++ [(key, r)] = dict_set key r rs.
Proof. intros Hk. by rewrite dict_set_new. Qed.

(** The key of a new TID belongs to no task and to no entry. *)
Lemma fresh_key s rs key :
  sys_inv (mkSystem s rs) → (k_server_port key ∉ sv_tids s) →
  (key ∉ dict_keys rs) ∧ (key ∉ dict_keys (sv_sessions s)).
Proof.
  intros [Hi _ _] Hn. assert (key ∉ dict_keys rs) as Hk by (intros Hin%(iv_pool _ Hi); done).
  split; [done|]. intros Hin%(iv_sub _ Hi). done.
Qed.

(** The inbox is shorter. *)
Lemma set_queue_inv key q s rs : sys_inv (mkSystem s rs) → sys_inv (mkSystem (set_queue key q s) rs).
Proof.
  intros [Hi Hl Hw]. split; cbn in *; [|intros k r' Hk|done].
  - apply (sv_inv_same s); [apply set_queue_same|done].
  - apply (listed_sessions s); [|by apply Hl]. pose proof (set_queue_sessions key q s k) as Hs.
    destruct (dict_get k (sv_sessions s)); [destruct Hs as (ss' & ? & ? & _); by exists ss'|done].
Qed.

Lemma dict_get_cancel k r (rs : list (SessionKey * run)) :
  dict_get k (prod_map id cancel_run <$> rs) = Some r → ∃ r0, dict_get k rs = Some r0 ∧ r = cancel_run r0.
Proof. induction rs as [|[k' r'] rs IH]; cbn; [done|]. case_decide; [intros [= <-]; by exists r'|apply IH]. Qed.

(** A task more, or none. *)
Lemma accept_inv ts1 t ts2 el rand id pr s s' rs :
  sv_tasks s = ts1 ++ t :: ts2 → Forall randint_ok rand →
  accept inet_aton float_ms t el rand id (set_tasks (ts1 ++ ts2) s) = (pr, s') → sys_inv (mkSystem s rs) →
  sys_inv (mkSystem (match pr with Finished _ => s' | Suspended t' => sv_spawn t' s' end) (rs ++ new_runs s s')).
Proof.
  intros Hts Hr Ha Hinv. pose proof Hinv as [Hi Hl Hw]. cbn [sy_server sy_runs] in *.
  assert (∀ k, dict_get k (sv_sessions (match pr with Finished _ => s' | Suspended t' => sv_spawn t' s' end))
               = dict_get k (sv_sessions s')) as Hget by by destruct pr.
  destruct (accept_effect _ _ _ _ _ _ _ _ Hr Ha) as [(Hs & _)|(key & ss & Hs & Hn & _)]; split; cbn [sy_server sy_runs].
  1, 4: unfold dict_keys; rewrite map_app; fold (dict_keys (new_runs s s')); rewrite dict_keys_new_runs;
    by eapply (server_step_inv inet_aton float_ms (λ _, True)), Hi; eapply step_accept.
  1, 2: rewrite (new_runs_same s s'), app_nil_r by (by rewrite Hs); try done.
  - intros k r Hk. apply (listed_same s); [|by apply Hl]. by rewrite Hget, Hs.
  - destruct (fresh_key s rs key Hinv Hn) as [Hkr Hks]. rewrite (new_runs_set s s' key ss), runs_snoc by done.
    intros k r. rewrite dict_get_set. case_decide as Hk.
    + intros [= <-]. subst. exists ss. rewrite Hget, Hs, dict_get_set_eq. by split_and!.
    + intros Hg. apply (listed_same s); [|by apply Hl]. by rewrite Hget, Hs, dict_get_set, decide_False.
  - destruct (fresh_key s rs key Hinv Hn) as [Hkr Hks]. rewrite (new_runs_set s s' key ss), runs_snoc by done.
    intros k r. rewrite dict_get_set. case_decide; [by intros [= <-]|by apply Hw].
Qed.

(** A task that never ran is gone. *)
Lemma never_inv key r s rs :
  dict_get key rs = Some r → r_cancelled r = true → sys_inv (mkSystem s rs) → sys_inv (mkSystem s (dict_del key rs)).
Proof.
  intros Hg Hca Hinv. pose proof (sys_inv_keys _ Hinv) as Hnd. destruct Hinv as [Hi Hl Hw]. cbn [sy_server sy_runs] in *.
  assert (dict_get key (sv_sessions s) = None) as Hno.
  { pose proof (Hl key r Hg) as Hx. unfold listed in Hx. by rewrite Hca in Hx. }
  assert (∀ k r', dict_get k (dict_del key rs) = Some r' → dict_get k rs = Some r') as Hdel.
  { intros k r'. destruct (decide (k = key)) as [->|]; [by rewrite dict_get_del_eq|by rewrite dict_get_del_ne]. }
  split; cbn [sy_server sy_runs]; [|intros k r' Hk; by apply Hl, Hdel|intros k r' Hk; by eapply Hw, Hdel].
  destruct (dict_split _ _ _ Hg) as (rs1 & rs2 & -> & ->). unfold dict_keys in *. rewrite map_app in *.
  cbn [map fst] in *. apply (sv_inv_drop s _ key); [|done]. by apply dict_get_None.
Qed.

Lemma shutdown_inv s rs :
  sys_inv (mkSystem s rs) → sys_inv (mkSystem (server_shutdown s) (prod_map id cancel_run <$> rs)).
Proof.
  intros [Hi Hl Hw]. cbn [sy_server sy_runs] in *.
  assert (dict_keys (prod_map id cancel_run <$> rs) = dict_keys rs) as Hkeys.
  { unfold dict_keys. clear. induction rs as [|[k r] rs IH]; cbn; [done|]. by f_equal. }
  split; cbn [sy_server sy_runs].
  - rewrite Hkeys. eapply (server_step_inv inet_aton float_ms (λ _, True)), Hi. apply step_shutdown.
  - intros k r (r0 & _ & ->)%dict_get_cancel. done.
  - intros k r (r0 & Hr0 & ->)%dict_get_cancel. apply Hw in Hr0. exact Hr0.
Qed.

Lemma sys_step_inv l sy sy' : sys_step l sy sy' → sys_inv sy → sys_inv sy'.
Proof.
  intros Hst Hinv. destruct Hst; try (by apply advance_inv).
  - pose proof Hinv as [Hi Hl Hw]. split; cbn; [|intros k r' Hk|done].
    + apply (sv_inv_same s); [|done]. pose proof (handle_same p s) as Hs. by rewrite H0 in Hs.
    + apply (listed_sessions s); [|by apply Hl]. pose proof (handle_sessions p s k) as Hs. by rewrite H0 in Hs.
  - by eapply accept_inv.
  - by eapply never_inv.
  - by apply advance_inv; [apply set_queue_inv|].
  - destruct Hinv as [Hi Hl Hw]. split; cbn; [by apply (sv_inv_same s)|intros k r' Hk; by apply (listed_same s), Hl|done].
  - by apply shutdown_inv.
Qed.

Lemma sys_init_inv ip mac cfg a : sys_inv (sys_init ip mac cfg a).
Proof.
  split; cbn; [|done|done]. by eapply (server_reachable_inv inet_aton float_ms (λ _, True)), rtc_refl.
Qed.

Lemma sys_run_inv ls sy0 sy : sys_run ls sy0 sy → sys_inv sy0 → sys_inv sy.
Proof. induction 1; eauto using sys_step_inv. Qed.

(** ** Every started session is accounted for *)

Definition is_never (l : label) : bool := match l with LNever _ => true | _ => false end.

(** Sessions counted as started, less those running and those recorded. *)
Definition unaccounted (sy : system) : Z :=
  started_total (sy_server sy) - zlen (sy_runs sy) - zlen (sv_daily (sy_server sy)).

Lemma zlen_dict_del {A} key (r : A) (rs : list (SessionKey * A)) :
  dict_get key rs = Some r → zlen (dict_del key rs) = zlen rs - 1.
Proof. intros (d1 & d2 & -> & ->)%dict_split. rewrite !zlen_app, zlen_cons. lia. Qed.

Lemma zlen_dict_set {A} key (r r' : A) (rs : list (SessionKey * A)) :
  dict_get key rs = Some r → zlen (dict_set key r' rs) = zlen rs.
Proof.
  intros Hg. induction rs as [|[k v] rs IH]; cbn in *; [done|].
  case_decide; rewrite !zlen_cons; [done|]. by rewrite IH.
Qed.

Lemma advance_accounts key r E x0 evs s rs :
  dict_get key rs = Some r → unaccounted (advance key r E x0 evs s rs) = unaccounted (mkSystem s rs).
Proof.
  intros Hg. unfold advance, unaccounted, started_total.
  destruct (safe_run _ _ _ _) as [[[] evs'] x]; cbn [sy_server sy_runs sv_stats sv_daily on_complete];
    rewrite ?(zlen_dict_set key r), ?(zlen_dict_del key r), ?zlen_app, ?zlen_cons, ?zlen_nil by done; lia.
Qed.

Lemma sys_step_accounts l sy sy' :
  sys_step l sy sy' → sys_inv sy → unaccounted sy' = unaccounted sy + Z.b2z (is_never l).
Proof.
  intros Hst Hinv. destruct Hst as [p r s s' rs Hh|ts1 t ts2 el rand id pr s s' rs Hts Hr Ha
    |key r E stats cache locks fs s rs Hg Hc Hca|key r s rs Hg Hc Hca|key r E oth st x0 evs p q s rs Hg Hc Hca Hq
    |key r E oth st x0 evs s rs Hg Hc Hca Hq|key r E oth st x0 evs s rs Hg Hc Hca|ip mac cfg s rs|s rs];
    cbn [is_never Z.b2z]; rewrite ?Z.add_0_r, ?advance_accounts by done; try done.
  - destruct (handle_untouched p s) as [Hd Ht]. rewrite Hh in Hd, Ht. unfold unaccounted. cbn in *. by rewrite Hd, Ht.
  - assert (∀ s0, unaccounted (mkSystem (match pr with Finished _ => s' | Suspended t' => sv_spawn t' s' end) s0) =
      unaccounted (mkSystem s' s0)) as -> by by destruct pr.
    unfold unaccounted. cbn [sy_server sy_runs]. rewrite zlen_app.
    destruct (accept_effect _ _ _ _ _ _ _ _ Hr Ha) as [(Hs & -> & ->)|(key & ss & Hs & Hn & _ & _ & -> & -> & _)].
    + rewrite (new_runs_same s s') by (by rewrite Hs). rewrite zlen_nil. lia.
    + destruct (fresh_key s rs key Hinv Hn) as [_ Hks]. rewrite (new_runs_set s s' key ss), zlen_cons, zlen_nil by done. lia.
  - unfold unaccounted. cbn [sy_server sy_runs]. rewrite (zlen_dict_del key r) by done. lia.
  - unfold set_queue. by destruct (dict_get key (sv_sessions s)).
  - unfold unaccounted, zlen. cbn. by rewrite length_fmap.
Qed.

Lemma sys_run_unaccounted ip mac cfg a ls sy :
  sys_run ls (sys_init ip mac cfg a) sy → unaccounted sy = zlen (List.filter is_never ls).
Proof.
  revert ls sy. refine (sys_run_rev_ind _ _ _ _); [done|]. intros ls1 l sy1 sy2 Hr1 IH Hst.
  rewrite (sys_step_accounts _ _ _ Hst), IH by (by eapply sys_run_inv, sys_init_inv).
  rewrite List.filter_app, zlen_app. cbn. by destruct (is_never l).
Qed.

(** [C9] Every started session is accounted for: whatever packets, admissions,
    events of the transfers, reloads and shutdowns came in whatever order, the
    number of sessions counted as started is the number of tasks alive plus the
    number of ended sessions recorded plus the number of tasks cancelled before
    their first step; the session table lists exactly the tasks that are not
    cancelled; and every task that has begun is waiting for an event. *)
Theorem system_accounts ip mac cfg a ls s rs :
  sys_run ls (sys_init ip mac cfg a) (mkSystem s rs) →
  started_total s = zlen rs + zlen (sv_daily s) + zlen (List.filter is_never ls) ∧
  (∀ k, k ∈ dict_keys (sv_sessions s) ↔ ∃ r, dict_get k rs = Some r ∧ r_cancelled r = false) ∧
  (∀ k r E x0 evs, dict_get k rs = Some r → r_state r = Running E x0 evs →
     (safe_run E (s_config (r_sess r)) evs x0).1.1 = Blocked).
Proof.
  intros Hr. pose proof (sys_run_inv _ _ _ Hr (sys_init_inv ip mac cfg a)) as [Hi Hl Hw]. cbn [sy_server sy_runs] in *.
  split_and!.
  - apply sys_run_unaccounted in Hr. unfold unaccounted in Hr. cbn [sy_server sy_runs] in Hr. lia.
  - intros k. split.
    + intros Hk. pose proof (iv_sub _ Hi k Hk) as Hin. cbn [snd] in Hin.
      destruct (dict_get k rs) as [r|] eqn:Hg; [|by apply dict_get_None in Hg].
      exists r. split; [done|]. specialize (Hl k r Hg). unfold listed in Hl.
      destruct (r_cancelled r); [|done]. by apply dict_get_None in Hl.
    + intros (r & Hg & Hc). specialize (Hl k r Hg). unfold listed in Hl. rewrite Hc in Hl.
      destruct Hl as (ss & Hs & _). destruct (decide (k ∈ dict_keys (sv_sessions s))) as [|Hn]; [done|].
      apply dict_get_None in Hn. congruence.
  - intros k r E x0 evs Hg Hst. specialize (Hw k r Hg). unfold waits in Hw. by rewrite Hst in Hw.
Qed.

(** ** A session hears its client and nobody else *)

Definition payload_for (key : SessionKey) (p : ParsedPacket) : list bytes :=
  match p_upper p with
  | UUdp sport dport payload => if decide (probe_key p sport dport = key) then [payload] else []
  | _ => []
  end.

(** The payloads of the client of [key], in the order they came in. *)
Definition arrivals (key : SessionKey) (ls : list label) : list bytes :=
  mjoin ((λ l, match l with LPacket p => payload_for key p | _ => [] end) <$> ls).

(** The packets among the events a task has had. *)
Definition consumed (evs : list event) : list bytes :=
  mjoin ((λ ev, match ev with Pkt p => [p] | _ => [] end) <$> evs).

Definition received (r : run) : list bytes :=
  match r_state r with Created => [] | Running _ _ evs => consumed evs end.

(** What each task has received and has waiting comes from [f], and its frames
    go back to the same client. *)
Definition sees (f : SessionKey → list bytes) (sy : system) : Prop :=
  ∀ k r, dict_get k (sy_runs sy) = Some r →
    (received r ++ queue_of (sy_server sy) k) `sublist_of` f k ∧ addressed k (r_sess r).

Lemma handle_queue p s k :
  ∃ suf, queue_of (handle p s).2 k = queue_of s k ++ suf ∧ suf `sublist_of` payload_for k p.
Proof.
  assert (sv_sessions (handle p s).2 = sv_sessions s → ∃ suf, queue_of (handle p s).2 k = queue_of s k ++ suf ∧
    suf `sublist_of` payload_for k p) as Hsame.
  { unfold queue_of. intros ->. exists []. split; [by rewrite app_nil_r|apply sublist_nil_l]. }
  destruct (listen_port s) as [lp|e] eqn:Hlp.
  - unfold queue_of. rewrite (handle_get p s k lp Hlp). unfold payload_for, probe_key.
    assert (∀ (q : list bytes) l, ∃ suf : list bytes, q = q ++ suf ∧ suf `sublist_of` l) as Hnil.
    { intros q l. exists []. split; [by rewrite app_nil_r|apply sublist_nil_l]. }
    destruct (dict_get k (sv_sessions s)) as [ss|]; cbn [from_option]; [|apply Hnil].
    destruct (p_upper p) as [| |sport dport payload| |]; try apply Hnil.
    destruct (decide _) as [[_ Hk]|]; [rewrite (decide_True _ _ Hk)|apply Hnil]. cbn [from_option s_queue].
    destruct (decide (zlen (s_queue ss) < 256)); [by exists [payload]|apply Hnil].
  - apply Hsame. unfold handle. rewrite Hlp. destruct (p_upper p); try done. by destruct (negb _).
Qed.

Lemma queue_of_set_queue key q s k p :
  queue_of s key = p :: q → queue_of (set_queue key q s) k = if decide (k = key) then q else queue_of s k.
Proof.
  intros Hq. pose proof (set_queue_sessions key q s k) as Hs. unfold queue_of in *.
  destruct (dict_get k (sv_sessions s)) as [ss|] eqn:Hk.
  - destruct Hs as (ss' & -> & _ & Hq'). exact Hq'.
  - rewrite Hs. case_decide; [subst|done]. by rewrite Hk in Hq.
Qed.

Lemma advance_sees f key r E x0 evs s rs :
  sys_inv (mkSystem s rs) → dict_get key rs = Some r →
  (∀ k r', dict_get k rs = Some r' → k ≠ key → (received r' ++ queue_of s k) `sublist_of` f k ∧ addressed k (r_sess r')) →
  (consumed evs ++ queue_of s key) `sublist_of` f key ∧ addressed key (r_sess r) →
  sees f (advance key r E x0 evs s rs).
Proof.
  intros Hinv%sys_inv_keys Hg Hoth Hkey k r'. cbn [sy_runs] in Hinv. unfold advance.
  assert (∀ x, dict_get k (dict_del key rs) = Some r' →
    (received r' ++ queue_of (on_complete key (r_sess r) x s) k) `sublist_of` f k ∧ addressed k (r_sess r')) as Hend.
  { intros x. destruct (decide (k = key)) as [->|Hne]; [by rewrite dict_get_del_eq|]. rewrite dict_get_del_ne by done.
    intros Hk. unfold queue_of. cbn [sv_sessions on_complete]. rewrite dict_get_del_ne by done. by apply Hoth. }
  destruct (safe_run _ _ _ _) as [[[] evs'] x]; cbn [sy_runs sy_server]; try apply Hend.
  rewrite dict_get_set. case_decide as Hk; [intros [= <-]; subst k; exact Hkey|]. intros Hr'. by apply Hoth.
Qed.

Lemma consumed_snoc evs ev : consumed (evs ++ [ev]) = consumed evs ++ consumed [ev].
Proof. unfold consumed. by rewrite fmap_app, join_app. Qed.
Lemma arrivals_snoc k ls l : arrivals k (ls ++ [l]) = arrivals k ls ++ arrivals k [l].
Proof. unfold arrivals. by rewrite fmap_app, join_app. Qed.

Lemma sees_weaken f f' sy : (∀ k, f k `sublist_of` f' k) → sees f sy → sees f' sy.
Proof. intros Hf Hs k r [H1 H2]%Hs. split; [by etrans|done]. Qed.

Lemma sys_step_sees f l sy sy' :
  sys_step l sy sy' → sys_inv sy → sees f sy → sees (λ k, f k ++ arrivals k [l]) sy'.
Proof.
  intros Hst Hinv Hs. pose proof (sys_inv_keys _ Hinv) as Hnd.
  assert (sees (λ k, f k ++ arrivals k [l]) sy) as Hs' by (eapply sees_weaken, Hs; intros k; by apply sublist_inserts_r).
  destruct Hst as [p r s s' rs Hh|ts1 t ts2 el rand id pr s s' rs Hts Hr Ha
    |key r E stats cache locks fs s rs Hg Hc Hca|key r s rs Hg Hc Hca|key r E oth st x0 evs p q s rs Hg Hc Hca Hq
    |key r E oth st x0 evs s rs Hg Hc Hca Hq|key r E oth st x0 evs s rs Hg Hc Hca|ip mac cfg s rs|s rs];
    cbn [sy_server sy_runs] in *.
  - intros k r' [H1 H2]%Hs. split; [|done]. destruct (handle_queue p s k) as (suf & Hq & Hsub).
    rewrite Hh in Hq. cbn in Hq |- *. rewrite Hq, app_assoc. apply sublist_app; [done|].
    unfold arrivals. cbn. by rewrite app_nil_r.
  - clear Hs. assert (∀ k, queue_of (match pr with Finished _ => s' | Suspended t' => sv_spawn t' s' end) k = queue_of s' k)
      as Hq by by destruct pr.
    destruct (accept_effect _ _ _ _ _ _ _ _ Hr Ha) as [(Hu & _)|(key & ss & Hu & Hn & Hq0 & Hadr & _)]; intros k r'; cbn [sy_runs sy_server]; rewrite Hq.
    + rewrite (new_runs_same s s'), app_nil_r by (by rewrite Hu). unfold queue_of. rewrite Hu. apply Hs'.
    + destruct (fresh_key s rs key Hinv Hn) as [Hkr Hks].
      rewrite (new_runs_set s s' key ss), runs_snoc by done. rewrite dict_get_set. unfold queue_of. rewrite Hu, dict_get_set.
      case_decide; [intros [= <-]; subst; cbn; rewrite Hq0; split; [apply sublist_nil_l|done]|apply Hs'].
  - apply advance_sees; [done|done|intros; by apply Hs'|]. pose proof (Hs' key r Hg) as Hx.
    unfold received in Hx. by rewrite Hc in Hx.
  - intros k r' Hk. apply Hs'. cbn in *. destruct (decide (k = key)) as [->|Hne];
      [by rewrite dict_get_del_eq in Hk|by rewrite dict_get_del_ne in Hk].
  - apply advance_sees; [by apply set_queue_inv|done| |].
    + intros k r' Hk Hne. rewrite (queue_of_set_queue key q s k p Hq), decide_False by done. by apply Hs'.
    + rewrite (queue_of_set_queue key q s key p Hq), decide_True by done. rewrite consumed_snoc, <- app_assoc.
      pose proof (Hs' key r Hg) as Hx. unfold received in Hx. cbn [sy_server] in Hx. rewrite Hc, Hq in Hx. exact Hx.
  - apply advance_sees; [done|done|intros; by apply Hs'|]. rewrite consumed_snoc, app_nil_r.
    pose proof (Hs' key r Hg) as Hx. unfold received in Hx. by rewrite Hc in Hx.
  - apply advance_sees; [done|done|intros; by apply Hs'|]. rewrite consumed_snoc, app_nil_r.
    pose proof (Hs' key r Hg) as Hx. unfold received in Hx. by rewrite Hc in Hx.
  - exact Hs'.
  - intros k r (r0 & Hr0 & ->)%dict_get_cancel. cbn [sy_server].
    destruct (Hs' k r0 Hr0) as [H1 H2]. split; [|done]. etrans; [|exact H1].
    apply sublist_app; [done|apply sublist_nil_l].
Qed.

Lemma sys_run_sees ip mac cfg a ls sy : sys_run ls (sys_init ip mac cfg a) sy → sees (λ k, arrivals k ls) sy.
Proof.
  revert ls sy. refine (sys_run_rev_ind _ _ _ _); [done|]. intros ls1 l sy1 sy2 Hr1 IH Hl.
  pose proof (sys_step_sees _ _ _ _ Hl (sys_run_inv _ _ _ Hr1 (sys_init_inv ip mac cfg a)) IH) as Hs.
  eapply sees_weaken, Hs. intros k. by rewrite arrivals_snoc.
Qed.

(** [C10] Transfers do not mix: in every state the system can reach, the
    packets a running session has consumed followed by the ones in its inbox
    are a subsequence of the payloads sent to the server with exactly the
    session's MAC, IP, port, server port and VLAN, in the order they came in and
    none of them twice; and the frames the session sends are addressed to that
    MAC, VLAN, IP and port and come from the session's server port. *)
Theorem session_sees_only_its_client ip mac cfg a ls s rs key r E x0 evs :
  sys_run ls (sys_init ip mac cfg a) (mkSystem s rs) →
  dict_get key rs = Some r → r_state r = Running E x0 evs →
  (consumed evs ++ queue_of s key) `sublist_of` arrivals key ls ∧ addressed key (r_sess r).
Proof.
  intros Hr Hg Hst.
  pose proof (sys_run_sees _ _ _ _ _ _ Hr key r Hg) as Hx. unfold received in Hx. by rewrite Hst in Hx.
Qed.

(** ** Without new packets the system comes to rest *)

(** Steps of the transfers themselves. *)
Definition quiet (l : label) : Prop :=
  match l with LBegin _ | LNever _ | LEvent _ _ => True | _ => False end.

(** The timeouts in a row at the end of a task's events. *)
Definition silence (evs : list event) : nat :=
  fold_left (λ n ev, match ev with Timeout => S n | _ => 0%nat end) evs 0%nat.

(** The steps a task still has at most when no packet comes in. *)
Definition rank (s : server) (kr : SessionKey * run) : nat :=
  let n := length (queue_of s kr.1) in
  let pt := patience (s_config (r_sess kr.2)) in
  if r_cancelled kr.2 then 1%nat
  else match r_state kr.2 with
       | Created => S (n + pt)
       | Running _ _ evs => match n with O => (pt - silence evs)%nat | S _ => (n + pt)%nat end
       end.

Definition remaining (sy : system) : nat := sum_list_with (rank (sy_server sy)) (sy_runs sy).

Lemma silence_snoc evs ev :
  silence (evs ++ [ev]) = match ev with Timeout => S (silence evs) | _ => 0%nat end.
Proof. unfold silence. by rewrite fold_left_app. Qed.

Lemma silence_tail evs : ∃ pre, evs = pre ++ replicate (silence evs) Timeout.
Proof.
  induction evs as [|ev evs IH] using rev_ind; [by exists []|]. rewrite silence_snoc. destruct IH as [pre Hpre].
  destruct ev as [p| |]; [exists (evs ++ [Pkt p]); by rewrite app_nil_r| |exists (evs ++ [Cancel]); by rewrite app_nil_r].
  exists pre. rewrite replicate_S_end, app_assoc. by rewrite <- Hpre.
Qed.

(** A task that waits has patience left. *)
Lemma blocked_patience E c evs x : (safe_run E c evs x).1.1 = Blocked → (silence evs < patience c)%nat.
Proof.
  intros Hb. destruct (decide (silence evs < patience c)%nat) as [|Hn]; [done|]. exfalso.
  destruct (silence_tail evs) as [pre Hpre].
  replace (silence evs) with (silence evs - patience c + patience c)%nat in Hpre by lia.
  rewrite replicate_add, app_assoc in Hpre. rewrite Hpre in Hb. revert Hb. apply safe_run_stops, patience_stops.
Qed.

Lemma dict_set_split {A} (k : SessionKey) (v v' : A) d :
  dict_get k d = Some v → NoDup (dict_keys d) →
  ∃ d1 d2, d = d1 ++ (k, v) :: d2 ∧ dict_del k d = d1 ++ d2 ∧ dict_set k v' d = d1 ++ (k, v') :: d2 ∧
    Forall (λ kv, kv.1 ≠ k) (d1 ++ d2).
Proof.
  induction d as [|[k' w] d IH]; cbn; [done|]. intros Hg [Hk Hnd]%NoDup_cons. case_decide as Hkk.
  - injection Hg as ->. subst k'. exists [], d. split_and!; [done..|]. apply Forall_forall. intros [k' w'] Hin Heq.
    cbn in Heq. subst k'. apply Hk, list_elem_of_fmap. by exists (k, w').
  - destruct (IH Hg Hnd) as (d1 & d2 & -> & -> & -> & Hne). exists ((k', w) :: d1), d2. split_and!; [done..|].
    by constructor.
Qed.

(** A step of a task with less work after it. *)
Lemma advance_remaining s0 key r E x0 evs s rs :
  NoDup (dict_keys rs) → dict_get key rs = Some r → (0 < rank s0 (key, r))%nat →
  (∀ k, k ≠ key → queue_of s k = queue_of s0 k) →
  ((safe_run E (s_config (r_sess r)) evs x0).1.1 = Blocked →
   (rank s (key, mkRun (r_sess r) (r_cancelled r) (Running E x0 evs)) < rank s0 (key, r))%nat) →
  (remaining (advance key r E x0 evs s rs) < remaining (mkSystem s0 rs))%nat.
Proof.
  intros Hnd Hg Hpos Hq Hlt.
  destruct (dict_set_split key r (mkRun (r_sess r) (r_cancelled r) (Running E x0 evs)) rs Hg Hnd)
    as (d1 & d2 & -> & Hdel & Hset & Hne).
  assert (∀ s', (∀ k, k ≠ key → queue_of s' k = queue_of s0 k) →
    sum_list_with (rank s') (d1 ++ d2) = sum_list_with (rank s0) (d1 ++ d2)) as Hsum.
  { intros s' Hq'. clear - Hne Hq'. induction Hne as [|[k r'] d Hk _ IH]; [done|].
    cbn [sum_list_with]. rewrite IH. unfold rank. cbn [fst snd] in *. by rewrite Hq'. }
  assert (∀ s' r', sum_list_with (rank s') (d1 ++ (key, r') :: d2)
    = (rank s' (key, r') + sum_list_with (rank s') (d1 ++ d2))%nat) as Hmid.
  { intros s' r'. rewrite !sum_list_with_app. cbn [sum_list_with]. lia. }
  unfold advance, remaining. rewrite Hset, Hdel.
  destruct (safe_run _ _ _ _) as [[o evs'] x]; cbn [fst] in Hlt.
  assert (∀ x, sum_list_with (rank (on_complete key (r_sess r) x s)) (d1 ++ d2) = sum_list_with (rank s0) (d1 ++ d2)) as Hend.
  { intros x'. apply Hsum. intros k Hk. rewrite <- Hq by done. unfold queue_of. cbn [sv_sessions on_complete].
    by rewrite dict_get_del_ne. }
  destruct o; cbn [sy_server sy_runs]; rewrite ?Hmid, ?Hend, ?(Hsum s Hq); [lia|lia|lia|].
  specialize (Hlt eq_refl). lia.
Qed.

Lemma rank_pos s rs k r : sys_inv (mkSystem s rs) → dict_get k rs = Some r → (0 < rank s (k, r))%nat.
Proof.
  intros [_ _ Hw] Hg. specialize (Hw k r Hg). unfold rank, waits in *. cbn [fst snd] in *. destruct (r_cancelled r); [lia|].
  destruct (r_state r) as [|E x0 evs]; [lia|]. apply blocked_patience in Hw. destruct (length _); lia.
Qed.

Lemma sys_step_remaining l sy sy' : sys_step l sy sy' → sys_inv sy → quiet l → (remaining sy' < remaining sy)%nat.
Proof.
  intros Hst Hinv Hl. pose proof (sys_inv_keys _ Hinv) as Hnd. pose proof Hinv as [_ _ Hw].
  destruct Hst as [| |key r E stats cache locks fs s rs Hg Hc Hca|key r s rs Hg Hc Hca|key r E oth st x0 evs p q s rs Hg Hc Hca Hq
    |key r E oth st x0 evs s rs Hg Hc Hca Hq|key r E oth st x0 evs s rs Hg Hc Hca| |]; try done; cbn [sy_server sy_runs] in *;
    pose proof (rank_pos s rs key r Hinv Hg) as Hpos.
  2: { destruct (dict_split _ _ _ Hg) as (d1 & d2 & -> & Hdel). unfold remaining. cbn [sy_server sy_runs]. rewrite Hdel.
       rewrite !sum_list_with_app. cbn [sum_list_with]. lia. }
  all: apply advance_remaining; try done.
  - intros _. unfold rank. cbn [fst snd r_cancelled r_state r_sess]. rewrite Hca, Hc. destruct (length _); cbn; lia.
  - intros k Hk. by rewrite (queue_of_set_queue key q s k p Hq), decide_False.
  - intros _. unfold rank. cbn [fst snd r_cancelled r_state r_sess].
    rewrite Hca, Hc, (queue_of_set_queue key q s key p Hq), decide_True, Hq, silence_snoc by done.
    cbn [length]. destruct (length q); lia.
  - intros Hb%blocked_patience. unfold rank. cbn [fst snd r_cancelled r_state r_sess]. rewrite Hca, Hc, Hq.
    rewrite silence_snoc in *. cbn [length]. lia.
  - intros Hb. exfalso. revert Hb. apply safe_run_stops. by left.
Qed.

(** Some transfer can go on. *)
Lemma sys_progress sy : sy_runs sy ≠ [] → sys_inv sy → ∃ l sy', quiet l ∧ sys_step l sy sy'.
Proof.
  destruct sy as [s [|[k r] rs]]; [done|]. intros _ Hinv.
  assert (dict_get k ((k, r) :: rs) = Some r) as Hg by (cbn; by rewrite decide_True).
  destruct (r_state r) as [|E x0 evs] eqn:Hst, (r_cancelled r) eqn:Hc.
  - eexists (LNever k), _. split; [done|]. by eapply sy_never.
  - eexists (LBegin k), _. split; [done|].
    by apply (sy_begin k r demo_env Counters_init (FileCache_init 0 0 true) ∅ []).
  - eexists (LEvent k Cancel), _. split; [done|]. by apply (sy_cancel k r E id (x_stats x0) x0 evs).
  - destruct (queue_of s k) as [|p q] eqn:Hq.
    + eexists (LEvent k Timeout), _. split; [done|]. by apply (sy_timeout k r E id (x_stats x0) x0 evs).
    + eexists (LEvent k (Pkt p)), _. split; [done|]. by apply (sy_receive k r E id (x_stats x0) x0 evs p q).
Qed.

Lemma quiet_bound ls sy sy' :
  sys_run ls sy sy' → sys_inv sy → Forall quiet ls → (length ls + remaining sy' ≤ remaining sy)%nat.
Proof.
  induction 1 as [sy|l ls sy1 sy2 sy3 Hst _ IH]; intros Hinv Hq; [cbn; lia|].
  apply Forall_cons in Hq as [Hl Hls]. pose proof (sys_step_remaining _ _ _ Hst Hinv Hl).
  specialize (IH (sys_step_inv _ _ _ Hst Hinv) Hls). cbn [length]. lia.
Qed.

(** [C11] The server comes to rest: from every state it can reach, once no more
    packets come in, the steps of the transfers - starting, taking packets from
    their inboxes, timing out, being cancelled - are bounded by [remaining], in
    whatever order they interleave; while a task is alive one of them is
    possible; so when they stop no task is left and the session table is
    empty. *)
Theorem system_drains ip mac cfg a ls0 sy ls sy' :
  sys_run ls0 (sys_init ip mac cfg a) sy → sys_run ls sy sy' → Forall quiet ls →
  (length ls + remaining sy' ≤ remaining sy)%nat ∧
  ((∀ l sy'', sys_step l sy' sy'' → ¬ quiet l) → sy_runs sy' = [] ∧ sv_sessions (sy_server sy') = []).
Proof.
  intros Hr Hr' Hq. pose proof (sys_run_inv _ _ _ Hr (sys_init_inv ip mac cfg a)) as Hinv.
  split; [by apply quiet_bound|]. intros Hstop. pose proof (sys_run_inv _ _ _ Hr' Hinv) as Hinv'.
  destruct (decide (dict_keys (sy_runs sy') = [])) as [Hk|Hk].
  - assert (sy_runs sy' = []) as Hruns by (by destruct (sy_runs sy')). split; [done|].
    destruct (sv_sessions (sy_server sy')) as [|[k ss] d] eqn:Hs; [done|]. exfalso.
    pose proof (iv_sub _ (in_server _ Hinv') k) as Hsub. cbn [fst snd] in Hsub. rewrite Hs, Hk in Hsub.
    by apply not_elem_of_nil in Hsub; [|left].
  - exfalso. destruct (sys_progress sy') as (l & sy'' & Hl & Hst); [intros He; by rewrite He in Hk|done|].
    by apply (Hstop l sy'' Hst).
Qed.

(** ** A download through the whole server *)

Lemma dict_set_set {A} (k : SessionKey) (v w : A) d : dict_set k w (dict_set k v d) = dict_set k w d.
Proof.
  induction d as [|[k' v'] d IH]; cbn; [by rewrite decide_True|].
  case_decide; cbn; [by rewrite decide_True|]. rewrite decide_False by done. by rewrite IH.
Qed.

Lemma dict_set_same {A} (k : SessionKey) (v : A) d : dict_get k d = Some v → dict_set k v d = d.
Proof. induction d as [|[k' v'] d IH]; cbn; [done|]. case_decide; [intros [= ->]; by subst|]. intros Hg. by rewrite IH. Qed.

Lemma dict_del_set_new {A} (k : SessionKey) (v : A) d : k ∉ dict_keys d → dict_del k (dict_set k v d) = d.
Proof.
  intros Hk. rewrite dict_set_new by done. induction d as [|[k' v'] d IH]; cbn; [by rewrite decide_True|].
  apply not_elem_of_cons in Hk as [Hne Hk]. rewrite decide_False by done. by rewrite IH.
Qed.

Lemma filter_without {A} `{EqDecision A} (t : A) (ts : list A) : t ∉ ts → filter (λ t', t' ≠ t) ts = ts.
Proof.
  induction ts as [|t' ts IH]; [done|]. intros [Hne Hn]%not_elem_of_cons.
  rewrite filter_cons_True by done. by rewrite IH.
Qed.

(** A packet of the client of a session, and what happens when it arrives or
    fails to. *)
Definition client_packet (s : server) (key : SessionKey) (payload : bytes) : ParsedPacket :=
  mkParsed (k_client_mac key) (sv_mac s) (k_vlan_id key) 0 0 2048 (k_client_ip key) (sv_ip s) 17
    (UUdp (k_client_port key) (k_server_port key) payload).

Definition exchange (s : server) (key : SessionKey) (ev : event) : list label :=
  match ev with
  | Pkt payload => [LPacket (client_packet s key payload); LEvent key ev]
  | _ => [LEvent key ev]
  end.

Lemma deliver s key ss payload lp :
  listen_port s = Ok lp → dict_get key (sv_sessions s) = Some ss → s_queue ss = [] →
  ∃ s', handle (client_packet s key payload) s = (Ok true, s') ∧ queue_of s' key = [payload] ∧ set_queue key [] s' = s.
Proof.
  intros Hlp Hg Hq. unfold handle. cbn [client_packet p_upper p_ip_dst].
  rewrite bool_decide_eq_true_2, Hlp by done. cbn [negb].
  assert (probe_key (client_packet s key payload) (k_client_port key) (k_server_port key) = key) as Hkey by by destruct key.
  rewrite Hkey, Hg. eexists. split; [reflexivity|].
  unfold queue_of, set_queue. cbn [sv_sessions on_server]. rewrite dict_get_set_eq. unfold session_feed. rewrite Hq.
  change (feed [] payload) with [payload]. split; [done|].
  rewrite dict_set_set, dict_set_same; [by destruct s|]. rewrite Hg. f_equal. destruct ss. cbn in *. by subst.
Qed.

Section drive.
Context (s : server) (rs : list (SessionKey * run)) (key : SessionKey) (ss : session) (E : env) (x0 : sess).
Context (lp : Z) (Hlp : listen_port s = Ok lp) (Hg : dict_get key (sv_sessions s) = Some ss) (Hq : s_queue ss = []).
Context (Hnew : key ∉ dict_keys rs).

Definition driven (evs : list event) : system := mkSystem s (dict_set key (mkRun ss false (Running E x0 evs)) rs).

Lemma advance_driven evs later r x' :
  r_sess r = ss → r_cancelled r = false → safe_run E (s_config ss) (evs ++ later) x0 = (Ret tt, [], x') →
  advance key r E x0 evs s (dict_set key r rs) =
  match later with [] => mkSystem (on_complete key ss x' s) rs | _ => driven evs end.
Proof.
  intros Hr Hc Hrun. unfold advance. rewrite Hr, Hc, dict_set_set, dict_del_set_new by done. destruct later as [|ev later].
  - rewrite app_nil_r in Hrun. by rewrite Hrun.
  - assert ((safe_run E (s_config ss) evs x0).1.1 = Blocked) as Hb by (by eapply safe_run_waits).
    destruct (safe_run E (s_config ss) evs x0) as [[o evs'] x]. cbn in Hb. by subst o.
Qed.

(** The client's answers, one after the other. *)
Lemma drive evs later x' :
  later ≠ [] → Forall (λ ev, ev ≠ Cancel) later → safe_run E (s_config ss) (evs ++ later) x0 = (Ret tt, [], x') →
  sys_run (mjoin (exchange s key <$> later)) (driven evs) (mkSystem (on_complete key ss x' s) rs).
Proof.
  revert evs. induction later as [|ev later IH]; intros evs Hne Hc Hrun; [done|]. clear Hne.
  apply Forall_cons in Hc as [Hev Hc]. rewrite (cons_middle ev), app_assoc in Hrun.
  set (r := mkRun ss false (Running E x0 evs)).
  assert (dict_get key (dict_set key r rs) = Some r) as Hr by apply dict_get_set_eq.
  assert (∀ evs s rs, advance key r (left_by (env_others E) E) (moved (x_stats x0) x0) evs s rs
    = advance key r E x0 evs s rs) as Hsame by (by rewrite left_by_same, moved_same).
  assert (sys_run (exchange s key ev) (driven evs) (advance key r E x0 (evs ++ [ev]) s (dict_set key r rs))) as Hstep.
  { destruct ev as [payload| |]; cbn [exchange]; [| |done].
    - destruct (deliver s key ss payload lp Hlp Hg Hq) as (s' & Hh & Hq' & Hs').
      eapply sys_cons; [exact (sy_packet _ _ _ _ _ Hh)|]. eapply sys_cons; [|apply sys_nil].
      rewrite <- Hs' at 1. rewrite <- Hsame. by eapply sy_receive.
    - eapply sys_cons; [|apply sys_nil]. rewrite <- Hsame. eapply sy_timeout; try done. unfold queue_of. by rewrite Hg. }
  cbn [fmap list_fmap mjoin list_join]. rewrite (advance_driven _ later r x') in Hstep by done.
  eapply sys_run_app; [exact Hstep|]. destruct later as [|ev' later]; [apply sys_nil|]. by apply IH.
Qed.
End drive.

Lemma client_run_events data b w mr la evs bns la' :
  client_run data b w mr la evs bns la' → Forall (λ ev, ev ≠ Cancel) evs ∧ (la < la' → evs ≠ []).
Proof.
  induction 1 as [la|la k c evs bns la' Hla Hk Hc _ [IH _]]; [split; [constructor|lia]|]. split.
  - apply Forall_app. split; [|by constructor]. apply Forall_replicate. done.
  - intros _ He. by apply app_eq_nil in He as [_ ?].
Qed.

Lemma oack_answer_events neg : Forall (λ ev, ev ≠ Cancel) (oack_answer neg).
Proof. unfold oack_answer. destruct (neg_reply neg); by repeat constructor. Qed.

(** The request is turned into a task, and the task into a session. *)
Lemma request_enters s rs p req el rand id s1 key ss :
  sys_inv (mkSystem s rs) → handle p s = (Ok true, sv_spawn (Fresh p req) s) → Forall randint_ok rand →
  accept inet_aton float_ms (Fresh p req) el rand id s = (Finished (Ok tt), s1) →
  dict_get key (sv_sessions s) = None → dict_get key (sv_sessions s1) = Some ss →
  sys_run [LPacket p; LAccept] (mkSystem s rs) (mkSystem s1 (dict_set key (mkRun ss false Created) rs)) ∧
  (key ∉ dict_keys rs) ∧ s_queue ss = [] ∧ (k_server_port key ∉ sv_tids s) ∧
  s1 = sv_bump tftp_sessions_total (on_server (dict_set key ss (sv_sessions s)) (sv_tids s ++ [k_server_port key]) s).
Proof.
  intros Hinv Hh Hr Ha Hno Hyes.
  assert (set_tasks (sv_tasks s ++ []) (sv_spawn (Fresh p req) s) = s) as Hs by (rewrite app_nil_r; by destruct s).
  assert (accept inet_aton float_ms (Fresh p req) el rand id (set_tasks (sv_tasks s) s) = (Finished (Ok tt), s1)) as Ha'.
  { rewrite <- Ha. by destruct s. }
  destruct (accept_effect _ _ _ _ _ _ _ _ Hr Ha') as [(Hu & _)|(key' & ss' & Hu & Hn & Hq & _ & _ & _ & Hs1)].
  { rewrite Hu, Hno in Hyes. done. }
  assert (key' = key ∧ ss' = ss) as [-> ->].
  { rewrite Hu, dict_get_set in Hyes. case_decide; [|congruence]. by injection Hyes as ->. }
  destruct (fresh_key s rs key Hinv Hn) as [Hkr Hks]. split_and!; [|done..|by rewrite Hs1; destruct s].
  eapply sys_cons; [exact (sy_packet _ _ _ _ _ Hh)|]. eapply sys_cons; [|apply sys_nil].
  rewrite <- runs_snoc, <- (new_runs_set (sv_spawn (Fresh p req) s) s1 key ss) by done.
  exact (sy_accept (sv_tasks s) (Fresh p req) [] el rand id (Finished (Ok tt)) (sv_spawn (Fresh p req) s) s1 rs
    eq_refl Hr (eq_trans (f_equal (accept inet_aton float_ms (Fresh p req) el rand id) Hs) Ha)).
Qed.

(** [C3] A download through the whole server: when a read request is accepted
    in a state the system can reach, and its client answers the OACK and every
    window within the retry budget, the packets and timeouts of the client
    drive the system to a state in which the session has sent the OACK and
    exactly the DATA packets of the client's run, its record is the newest row
    of the history, done with the whole file transferred, the success is
    reported to the daily statistics, and the session table, the transfer
    identifiers, the waiting requests and the other tasks are as they were. *)
Theorem rrq_end_to_end ip mac cfg a ls0 s rs p req lp el rand id s1 key ss E stats cache locks fs data neg mr evs bns l :
  let c := s_config ss in
  let f := req_filename (sc_request c) in
  sys_run ls0 (sys_init ip mac cfg a) (mkSystem s rs) → listen_port s = Ok lp →
  handle p s = (Ok true, sv_spawn (Fresh p req) s) → Forall randint_ok rand →
  accept inet_aton float_ms (Fresh p req) el rand id s = (Finished (Ok tt), s1) →
  dict_get key (sv_sessions s) = None → dict_get key (sv_sessions s1) = Some ss →
  req_opcode (sc_request c) = OP_RRQ → mode_ok (req_mode (sc_request c)) = true →
  acquire Rd f locks = (Ok tt, l) → env_read E f = Ok (Some data) →
  (dict_get f (c_entries cache) = None ∨ dict_get f (c_entries cache) = Some data) →
  (rrq_limit c f = 0 ∨ zlen data ≤ rrq_limit c f) →
  negotiate (req_options (sc_request c)) (sc_cfg c) (Some (zlen data)) true = Ok neg →
  0 < neg_blksize neg → neg_windowsize neg ≤ 65536 →
  (sc_allow_rollover c = true ∨ block_count data (neg_blksize neg) ≤ 65535) →
  get_max_retries c = Ok mr → 0 < mr →
  client_run data (neg_blksize neg) (Z.max 1 (neg_windowsize neg)) mr 0 evs bns
    (block_count data (neg_blksize neg)) →
  ∃ oack x' s', pack_oack (neg_reply neg) = Ok oack ∧
    sys_run ([LPacket p; LAccept; LBegin key] ++ mjoin (exchange s1 key <$> oack_answer neg ++ evs))
      (mkSystem s rs) (mkSystem s' rs) ∧
    safe_run E c (oack_answer neg ++ evs) (fresh_sess stats cache locks fs) = (Ret tt, [], x') ∧
    x_sent x' = oack_packets neg oack ++ map (data_packet data (neg_blksize neg)) bns ∧
    sv_sessions s' = sv_sessions s ∧ sv_tids s' = sv_tids s ∧ sv_tasks s' = sv_tasks s ∧
    (∃ row, sv_history s' = take 100 (row :: sv_history s) ∧ h_key row = key ∧ h_filename row = f ∧
       h_state row = u "done" ∧ h_transferred row = zlen data) ∧
    (∃ d, sv_daily s' = sv_daily s ++ [d] ∧ dc_success d = true ∧ dc_filename d = f).
Proof.
  intros c f Hr Hlp Hh Hrand Ha Hno Hyes Hop Hmode Hacq Hread Hcache Hlim Hneg Hb Hw Hroll Hmr H0 Hrun.
  pose proof (sys_run_inv _ _ _ Hr (sys_init_inv ip mac cfg a)) as Hinv.
  destruct (request_enters s rs p req el rand id s1 key ss) as (Hadm & Hkr & Hq & Htid & Hs1); [done..|].
  destruct (rrq_run_completes E c data neg mr evs bns (fresh_sess stats cache locks fs) l)
    as (oack & x' & Hoack & Hsafe & Hsent & Htrans & Hstate); [done..|].
  destruct (client_run_events _ _ _ _ _ _ _ _ Hrun) as [Hev Hne].
  destruct (block_count_bounds data _ Hb) as (H1 & _).
  assert (oack_answer neg ++ evs ≠ []) as Hne'.
  { intros He. apply app_eq_nil in He as [_ He]. revert He. apply Hne. lia. }
  assert (listen_port s1 = Ok lp) as Hlp1 by (by rewrite Hs1).
  exists oack, x', (on_complete key ss x' s1).
  split_and!; [done| |exact Hsafe|exact Hsent| | |by rewrite Hs1| |].
  - cbn [app]. change (?a :: ?b :: ?m) with ([a; b] ++ m). eapply sys_run_app; [exact Hadm|].
    eapply sys_cons; [apply (sy_begin key (mkRun ss false Created) E stats cache locks fs); [by rewrite dict_get_set_eq|done..]|].
    rewrite (advance_driven s1 rs key ss E _ Hkr [] (oack_answer neg ++ evs) _ x') by done.
    destruct (oack_answer neg ++ evs) as [|ev later] eqn:He; [done|].
    apply (drive s1 rs key ss E _ lp Hlp1 Hyes Hq Hkr []); [done| |done].
    rewrite <- He. apply Forall_app. split; [apply oack_answer_events|done].
  - rewrite Hs1. cbn [sv_sessions on_complete sv_bump on_server]. apply dict_del_set_new. by apply dict_get_None.
  - rewrite Hs1. cbn [sv_tids on_complete sv_bump on_server]. rewrite filter_app, filter_cons_False, filter_nil, app_nil_r by auto.
    by apply filter_without.
  - eexists. split; [by rewrite Hs1|]. cbn. by split_and!.
  - eexists. split; [by rewrite Hs1|]. cbn [dc_success dc_filename]. split; [|done]. by rewrite bool_decide_eq_true_2.
Qed.
End system.

(** ** A sample run

    The request of [demo_packet], the session it starts and its first
    answers. *)

Definition demo_session : session :=
  from_option id (mkSession (demo_config 1) (mkTemplate [] [] [] 0 0) [] []) (dict_get demo_key (sv_sessions demo_started)).
Definition demo_x0 : sess := fresh_sess Counters_init (FileCache_init 100 100 true) ∅ [].
Definition demo_system : system := sys_init (u "10.0.0.1") (u "02:00:00:00:00:01") demo_cfg demo_acl.
Definition demo_running (evs : list event) : system :=
  mkSystem demo_started [(demo_key, mkRun demo_session false (Running demo_env demo_x0 evs))].

Lemma demo_admitted :
  sys_run (H := lexical_paths) demo_aton demo_float [LPacket (demo_packet 1234); LAccept]
    demo_system (mkSystem demo_started [(demo_key, mkRun demo_session false Created)]).
Proof.
  destruct (request_enters (H := lexical_paths) demo_aton demo_float demo_server [] (demo_packet 1234)
    (mkRequest 1 (u "fw") (u "octet") []) 0 [20000] (u "id1") demo_started demo_key demo_session) as [Hr _].
  - exact (sys_init_inv (H := lexical_paths) demo_aton demo_float (u "10.0.0.1") (u "02:00:00:00:00:01") demo_cfg demo_acl).
  - vm_compute. reflexivity.
  - repeat constructor; vm_compute; discriminate.
  - vm_compute. reflexivity.
  - reflexivity.
  - vm_compute. reflexivity.
  - exact Hr.
Qed.

Lemma demo_begun :
  sys_run (H := lexical_paths) demo_aton demo_float [LPacket (demo_packet 1234); LAccept; LBegin demo_key]
    demo_system (demo_running []).
Proof.
  refine (sys_run_app _ _ [LPacket (demo_packet 1234); LAccept] [LBegin demo_key] _ _ _ demo_admitted _).
  apply sys_run_one. refine (eq_rect _ (sys_step _ _ (LBegin demo_key) _)
    (sy_begin _ _ demo_key (mkRun demo_session false Created) demo_env Counters_init
      (FileCache_init 100 100 true) ∅ [] _ _ _ _ _) _ _); vm_compute; reflexivity.
Qed.

Lemma system_accounts_witness :
  started_total demo_started = zlen (sy_runs (demo_running [])) + zlen (sv_daily demo_started) + 0.
Proof.
  exact (proj1 (system_accounts (H := lexical_paths) demo_aton demo_float (u "10.0.0.1") (u "02:00:00:00:00:01")
    demo_cfg demo_acl _ demo_started _ demo_begun)).
Defined.

(** The client's first ACK is in the inbox. *)
Definition demo_acked : server := (handle (client_packet demo_started demo_key (pack_ack 1)) demo_started).2.

Lemma session_sees_only_its_client_witness :
  queue_of demo_acked demo_key = [pack_ack 1] ∧
  (consumed [] ++ queue_of demo_acked demo_key) `sublist_of`
    arrivals demo_key [LPacket (demo_packet 1234); LAccept; LBegin demo_key;
                       LPacket (client_packet demo_started demo_key (pack_ack 1))].
Proof.
  split; [vm_compute; reflexivity|].
  eapply (session_sees_only_its_client (H := lexical_paths) demo_aton demo_float (u "10.0.0.1") (u "02:00:00:00:00:01")
    demo_cfg demo_acl _ demo_acked (sy_runs (demo_running [])) demo_key
    (mkRun demo_session false (Running demo_env demo_x0 []))); [|reflexivity|reflexivity].
  refine (sys_run_app _ _ [_; _; _] [_] _ _ _ demo_begun _). apply sys_run_one.
  apply (sy_packet _ _ _ (Ok true)). vm_compute. reflexivity.
Defined.

Lemma system_drains_witness :
  remaining (demo_running []) = 6%nat ∧
  (1 + remaining (demo_running [Timeout]) ≤ remaining (demo_running []))%nat.
Proof.
  split; [vm_compute; reflexivity|].
  refine (proj1 (system_drains (H := lexical_paths) demo_aton demo_float (u "10.0.0.1") (u "02:00:00:00:00:01")
    demo_cfg demo_acl _ _ [LEvent demo_key Timeout] _ demo_begun _ _)); [|by repeat constructor].
  apply sys_run_one. refine (eq_rect _ (sys_step _ _ (LEvent demo_key Timeout) _)
    (sy_timeout _ _ demo_key (mkRun demo_session false (Running demo_env demo_x0 [])) demo_env id Counters_init demo_x0 [] _ _ _ _ _ _) _ _);
    vm_compute; reflexivity.
Defined.

(** The file [1; 2; 3] in one block. *)
Lemma rrq_end_to_end_witness :
  ∃ oack x' s', pack_oack [] = Ok oack ∧
    sys_run (H := lexical_paths) demo_aton demo_float
      ([LPacket (demo_packet 1234); LAccept; LBegin demo_key] ++
       mjoin (exchange demo_started demo_key <$> [Pkt (pack_ack 1)])) demo_system (mkSystem s' []) ∧
    x_sent x' = [pack_data 1 [1; 2; 3]] ∧ sv_sessions s' = [] ∧ sv_tids s' = [].
Proof.
  destruct (rrq_end_to_end (H := lexical_paths) demo_aton demo_float (u "10.0.0.1") (u "02:00:00:00:00:01") demo_cfg demo_acl
    [] demo_server [] (demo_packet 1234) (mkRequest 1 (u "fw") (u "octet") []) 69 0 [20000] (u "id1") demo_started
    demo_key demo_session demo_env Counters_init (FileCache_init 100 100 true) ∅ [] [1; 2; 3]
    (mkNegotiated 512 1 3 (Some 3) []) 5 [Pkt (pack_ack 1)] [1] (acquire_read (u "fw") ∅).2)
    as (oack & x' & s' & Ho & Hr & _ & Hs & H1 & H2 & _);
    try (vm_compute; reflexivity).
  - apply sys_nil.
  - repeat constructor; vm_compute; discriminate.
  - by left.
  - by left.
  - vm_compute. discriminate.
  - left. vm_compute. reflexivity.
  - apply (cr_round [1; 2; 3] 512 1 5 0 0 1 [] []); [reflexivity|discriminate| |apply cr_done].
    apply (bool_decide_unpack _). vm_compute. exact I.
  - exists oack, x', s'. split_and!; [done|exact Hr| |done|done].
    rewrite Hs. vm_compute. reflexivity.
Defined.
