(* ===== verification/Shared.v ===== *)
(** * The objects all transfers share (src/main.py, src/tftp/server.py, src/tftp/session.py)

    The server hands one [FileLockManager] and one [FileCache] to every session,
    and every session counts in the one [STATS].  This file runs the system of
    System.v on these objects: a task that begins finds them as they are, a task
    that runs again finds them as the other tasks have left them, and what it
    does to them is what the next one finds.

    [STATS] is kept as two ledgers, the bumps of the dispatcher ([sv_stats] of
    the server) and those of the sessions ([w_stats]); what is shown is their
    sum. *)

From S2P Require Import Prelude Python Constants Wire Options Stats Acl Frame FileLock Cache Paths Session.
From S2P Require Import SessionLife Locked Counted Keeps Termination Online Server System.
Open Scope Z_scope.

Record objects := mkWorld {
  w_locks : gmap (list Z) Entry;
  w_stats : list (counter * Z);
  w_cache : FileCache;
}.

Record shared := mkShared { sh_system : system; sh_world : objects }.

Definition set_w_cache (c : FileCache) (w : objects) : objects := mkWorld (w_locks w) (w_stats w) c.

(** What wakes a task up, and the server after it has taken a packet. *)
Inductive wakes (key : SessionKey) (r : run) (s : server) : event → server → Prop :=
| wake_packet p q : r_cancelled r = false → queue_of s key = p :: q → wakes key r s (Pkt p) (set_queue key q s)
| wake_timeout : r_cancelled r = false → queue_of s key = [] → wakes key r s Timeout s
| wake_cancel : r_cancelled r = true → wakes key r s Cancel s.

(** The steps of a task, as opposed to those of the server. *)
Definition is_turn (l : label) : bool := match l with LBegin _ | LEvent _ _ => true | _ => false end.

Section shared.
Context `{OsPath} (inet_aton : list Z → pyres (list Z)) (float_ms : pyval → pyres Z).

(** The first step of a task, up to its first suspension: it takes the lock,
    consults the cache and sends its first packets. *)
Definition first_turn (key : SessionKey) (r : run) (E : env) (fs : list (str * bytes)) (s : server)
    (rs : list (SessionKey * run)) (w : objects) : shared :=
  let E := left_by id E in
  let x0 := fresh_sess (w_stats w) (w_cache w) (w_locks w) fs in
  let x := (safe_run E (s_config (r_sess r)) [] x0).2 in
  mkShared (advance key r E x0 [] s rs) (mkWorld (x_locks x) (x_stats x) (x_cache x)).

(** A later step, up to the next suspension or the end, where the lock goes
    back to the table.  The cache is consulted in the first step only
    ([later_turns_keep_cache]). *)
Definition next_turn (key : SessionKey) (r : run) (E : env) (x0 : sess) (evs : list event) (ev : event) (s : server)
    (rs : list (SessionKey * run)) (w : objects) : shared :=
  let c := s_config (r_sess r) in
  let x0 := moved (rewound E c evs x0 (w_stats w)) x0 in
  let E := left_by (λ _, w_locks w) E in
  let '(o, _, x) := safe_run E c (evs ++ [ev]) x0 in
  mkShared (advance key r E x0 (evs ++ [ev]) s rs)
    (mkWorld (match o with Blocked => w_locks w | _ => x_locks x end) (x_stats x) (w_cache w)).

Inductive sh_step : label → shared → shared → Prop :=
| sh_packet p sy sy' w :
    sys_step inet_aton float_ms (LPacket p) sy sy' → sh_step (LPacket p) (mkShared sy w) (mkShared sy' w)
| sh_accept sy sy' w :
    sys_step inet_aton float_ms LAccept sy sy' → sh_step LAccept (mkShared sy w) (mkShared sy' w)
| sh_begin key r E fs s rs w :
    dict_get key rs = Some r → r_state r = Created → r_cancelled r = false →
    sh_step (LBegin key) (mkShared (mkSystem s rs) w) (first_turn key r E fs s rs w)
| sh_never key sy sy' w :
    sys_step inet_aton float_ms (LNever key) sy sy' → sh_step (LNever key) (mkShared sy w) (mkShared sy' w)
| sh_event key r E x0 evs ev s s1 rs w :
    dict_get key rs = Some r → r_state r = Running E x0 evs → wakes key r s ev s1 →
    sh_step (LEvent key ev) (mkShared (mkSystem s rs) w) (next_turn key r E x0 evs ev s1 rs w)
| sh_update sy sy' w mb mf en :   (* a reload: the settings and the cache limits *)
    sys_step inet_aton float_ms LUpdate sy sy' →
    sh_step LUpdate (mkShared sy w) (mkShared sy' (set_w_cache (cache_update mb mf en (w_cache w)) w))
| sh_invalidate sy sy' w f :   (* the panel drops cached files; the settings stay *)
    sys_step inet_aton float_ms LUpdate sy sy' →
    sh_step LUpdate (mkShared sy w) (mkShared sy' (set_w_cache (cache_invalidate f (w_cache w)) w))
| sh_shutdown sy sy' w :
    sys_step inet_aton float_ms LShutdown sy sy' → sh_step LShutdown (mkShared sy w) (mkShared sy' w).

Inductive sh_run (sh0 : shared) : list label → shared → Prop :=
| sh_nil : sh_run sh0 [] sh0
| sh_snoc ls l sh1 sh2 : sh_run sh0 ls sh1 → sh_step l sh1 sh2 → sh_run sh0 (ls ++ [l]) sh2.

Definition sh_init (ip mac : str) (cfg : list (str * pyval)) (a : ACL) (c : FileCache) : shared :=
  mkShared (sys_init ip mac cfg a) (mkWorld ∅ Counters_init c).

(** ** It is the system of System.v *)

Lemma sh_step_sys l sh sh' : sh_step l sh sh' → sys_step inet_aton float_ms l (sh_system sh) (sh_system sh').
Proof.
  intros Hst. destruct Hst as [| |key r E fs s rs w Hg Hc Hca| |key r E x0 evs ev s s1 rs w Hg Hc Hw| | |];
    cbn [sh_system first_turn]; try done; [by apply sy_begin|].
  unfold next_turn. cbv zeta. destruct (safe_run _ _ (evs ++ [ev]) _) as [[o rest] x]. cbn [sh_system].
  destruct Hw; [by eapply sy_receive|by apply sy_timeout|by apply sy_cancel].
Qed.

Lemma sh_run_sys sh0 ls sh :
  sh_run sh0 ls sh → sys_run inet_aton float_ms ls (sh_system sh0) (sh_system sh).
Proof.
  induction 1 as [|ls l sh1 sh2 _ IH Hst]; [constructor|].
  eapply sys_run_app; [exact IH|]. by apply sys_run_one, sh_step_sys.
Qed.

(** What the invariants of System.v say of the tasks. *)
Lemma sh_run_facts ip mac cfg a c ls sh :
  sh_run (sh_init ip mac cfg a c) ls sh →
  sys_inv (sh_system sh) ∧ sees inet_aton (λ k, arrivals k ls) (sh_system sh).
Proof.
  intros Hr%sh_run_sys. cbn [sh_init sh_system] in Hr.
  split; [exact (sys_run_inv _ _ _ _ _ Hr (sys_init_inv inet_aton float_ms ip mac cfg a))|].
  exact (sys_run_sees _ _ _ _ _ _ _ _ Hr).
Qed.

(** ** Payloads are octets *)

Definition octets (l : label) : Prop :=
  match l with
  | LPacket p => match p_upper p with UUdp _ _ payload => bytes_ok payload | _ => True end
  | _ => True
  end.

Lemma arrivals_octets key ls : Forall octets ls → Forall bytes_ok (arrivals key ls).
Proof.
  induction 1 as [|l ls Hl _ IH]; [constructor|]. change (arrivals key (l :: ls)) with
    ((match l with LPacket p => payload_for key p | _ => [] end) ++ arrivals key ls).
  apply Forall_app. split; [|done]. destruct l as [p| | | | | |]; try constructor. unfold payload_for, octets in *.
  destruct (p_upper p); try constructor. case_decide; by repeat constructor.
Qed.

Lemma consumed_octets evs : Forall bytes_ok (consumed evs) → Forall event_ok evs.
Proof.
  induction evs as [|ev evs IH]; [constructor|]. change (consumed (ev :: evs)) with
    ((match ev with Pkt p => [p] | _ => [] end) ++ consumed evs).
  intros [H1 H2]%Forall_app. constructor; [|by apply IH]. destruct ev; try done. by apply Forall_cons in H1 as [? _].
Qed.

(** The events of a task that is woken up are what its client sent. *)
Lemma woken_octets f s rs key r E x0 evs ev s1 :
  sees inet_aton f (mkSystem s rs) → Forall bytes_ok (f key) →
  dict_get key rs = Some r → r_state r = Running E x0 evs → wakes key r s ev s1 → Forall event_ok (evs ++ [ev]).
Proof.
  intros Hs Hok Hg Hst Hw. destruct (Hs key r Hg) as [Hsub _]. cbn [sy_server] in Hsub. unfold received in Hsub.
  rewrite Hst in Hsub. apply consumed_octets. rewrite consumed_snoc.
  assert (Forall bytes_ok (consumed evs ++ queue_of s key)) as [H1 H2]%Forall_app.
  { rewrite Forall_forall in Hok |- *. eauto using elem_of_sublist. }
  apply Forall_app. split; [done|]. destruct Hw as [p q _ Hq| |]; [|constructor..].
  rewrite Hq in H2. apply Forall_cons in H2 as [H2 _]. cbn. by repeat constructor.
Qed.

(** ** The step of a waiting task, once and for all *)

(** A task that waits, woken by an event, on the objects as they are now. *)
Record woken (rs : list (SessionKey * run)) (key : SessionKey) (r : run) (E : env) (x0 : sess) (evs : list event)
    (ev : event) : Prop := {
  wk_keys : NoDup (dict_keys rs);
  wk_get : dict_get key rs = Some r;
  wk_state : r_state r = Running E x0 evs;
  wk_blocked : (safe_run E (s_config (r_sess r)) evs x0).1.1 = Blocked;
  wk_events : Forall event_ok (evs ++ [ev]);
}.

Lemma sh_run_woken ip mac cfg a c ls s rs w key r E x0 evs ev s1 :
  sh_run (sh_init ip mac cfg a c) ls (mkShared (mkSystem s rs) w) → Forall octets ls →
  dict_get key rs = Some r → r_state r = Running E x0 evs → wakes key r s ev s1 →
  woken rs key r E x0 evs ev.
Proof.
  intros Hr Hok Hg Hst Hw. destruct (sh_run_facts _ _ _ _ _ _ _ Hr) as [Hinv Hsees].
  pose proof (in_waits _ Hinv key r Hg) as Hb. unfold waits in Hb. rewrite Hst in Hb.
  split; [exact (sys_inv_keys _ Hinv)|done|done|exact Hb|].
  exact (woken_octets _ s rs key r E x0 evs ev s1 Hsees (arrivals_octets key ls Hok) Hg Hst Hw).
Qed.

(** ** The cache of all transfers *)

(** The cache stays in order: its byte counter is the sum of what it holds and
    no file is in it twice, whatever the transfers, reloads and invalidations
    were. *)
Theorem shared_cache_inv ip mac cfg a mb mf en ls sh :
  sh_run (sh_init ip mac cfg a (FileCache_init mb mf en)) ls sh → cache_inv (w_cache (sh_world sh)).
Proof.
  induction 1 as [|ls l sh1 sh2 _ IH Hst]; [split; [apply NoDup_nil_2|done|apply NoDup_nil_2]|].
  destruct Hst as [| |key r E fs s rs w _ _ _| |key r E x0 evs ev s s1 rs w _ _ _|sy sy' w mb' mf' en' _|sy sy' w f _|];
    cbn [sh_world w_cache first_turn set_w_cache] in *; try done.
  - by apply safe_run_cache_inv.
  - unfold next_turn. cbv zeta. by destruct (safe_run _ _ (evs ++ [ev]) _) as [[o rest] x].
  - by apply cache_update_inv.
  - by apply cache_invalidate_inv.
Qed.
End shared.

(** ** A sample run: the download of [demo_begun] on an empty table *)

Definition demo_cache : FileCache := FileCache_init 100 100 true.
Definition demo_world : objects :=
  sh_world (first_turn (H := lexical_paths) demo_key (mkRun demo_session false Created) demo_env [] demo_started
    [(demo_key, mkRun demo_session false Created)] (mkWorld ∅ Counters_init demo_cache)).

Lemma demo_shared_run :
  sh_run (H := lexical_paths) demo_aton demo_float
    (sh_init (u "10.0.0.1") (u "02:00:00:00:00:01") demo_cfg demo_acl demo_cache)
    [LPacket (demo_packet 1234); LAccept; LBegin demo_key] (mkShared (demo_running []) demo_world).
Proof.
  pose proof demo_admitted as Hr. inversion Hr as [|l ls sy1 sy2 sy3 H1 Hr1]; subst.
  inversion Hr1 as [|l ls sy4 sy5 sy6 H2 Hr2]; subst. inversion Hr2; subst.
  refine (sh_snoc _ _ _ [LPacket (demo_packet 1234); LAccept] (LBegin demo_key) _ _
    (sh_snoc _ _ _ [LPacket (demo_packet 1234)] LAccept _ _ (sh_snoc _ _ _ [] (LPacket (demo_packet 1234)) _ _ (sh_nil _ _ _)
      (sh_packet _ _ _ _ _ _ H1)) (sh_accept _ _ _ _ _ H2)) _).
  refine (eq_rect _ (sh_step _ _ (LBegin demo_key) _)
    (sh_begin _ _ demo_key (mkRun demo_session false Created) demo_env [] demo_started
      [(demo_key, mkRun demo_session false Created)] (mkWorld ∅ Counters_init demo_cache) _ _ _) _ _); vm_compute; reflexivity.
Qed.

(** The client acknowledges the only block. *)
Definition demo_final : shared :=
  next_turn (H := lexical_paths) demo_key (mkRun demo_session false (Running (left_by id demo_env) demo_x0 [])) (left_by id demo_env)
    demo_x0 [] (Pkt (pack_ack 1)) (set_queue demo_key [] demo_acked) (sy_runs (demo_running [])) demo_world.

Lemma demo_final_run :
  sh_run (H := lexical_paths) demo_aton demo_float
    (sh_init (u "10.0.0.1") (u "02:00:00:00:00:01") demo_cfg demo_acl demo_cache)
    [LPacket (demo_packet 1234); LAccept; LBegin demo_key; LPacket (client_packet demo_started demo_key (pack_ack 1));
     LEvent demo_key (Pkt (pack_ack 1))] demo_final.
Proof.
  refine (sh_snoc _ _ _ [_; _; _; _] (LEvent demo_key (Pkt (pack_ack 1))) _ _
    (sh_snoc _ _ _ [_; _; _] (LPacket (client_packet demo_started demo_key (pack_ack 1))) _
      (mkShared (mkSystem demo_acked (sy_runs (demo_running []))) demo_world) demo_shared_run _) _).
  - apply sh_packet, (sy_packet _ _ _ (Ok true)). vm_compute. reflexivity.
  - apply (sh_event _ _ demo_key (mkRun demo_session false (Running (left_by id demo_env) demo_x0 [])));
      [reflexivity|reflexivity|]. apply wake_packet; [reflexivity|]. vm_compute. reflexivity.
Qed.
