(* ===== verification/Exclusion.v ===== *)
(** * One lock table for all transfers (src/core/file_lock.py in src/tftp/session.py)

    Which transfers hold which locks when all of them work on one table. *)

From S2P Require Import Prelude Python Constants Wire Options Stats Acl Frame FileLock Cache Paths Session.
From S2P Require Import SessionLife Locked Counted Termination Online Server System Shared.
Open Scope Z_scope.

(** The lock a task holds: a task that has begun and not ended is inside its
    [async with]. *)
Definition holding (r : run) : option (list Z * mode) :=
  match r_state r with
  | Created => None
  | Running _ _ _ => Some (req_filename (sc_request (s_config (r_sess r))), request_mode (s_config (r_sess r)))
  end.

Definition holders_of (rs : list (SessionKey * run)) : holders := omap (λ kr, holding kr.2) rs.

Section exclusion.
Context `{OsPath} (inet_aton : list Z → pyres (list Z)) (float_ms : pyval → pyres Z).

(** ** The table represents the tasks that have begun *)

Lemma held_perm p m hs hs' : hs ≡ₚ hs' → held p m hs = held p m hs'.
Proof. induction 1 as [|[q n] l l' _ IH|[q n] [q' n'] l|]; cbn; lia. Qed.

Lemma lock_inv_perm t hs hs' : hs ≡ₚ hs' → lock_inv (t, hs) → lock_inv (t, hs').
Proof.
  intros Hp [Ht Hex]. cbn [fst snd] in *. split; cbn [fst snd]; intros p; [rewrite Ht; unfold entry_of|specialize (Hex p)];
    by rewrite <- !(held_perm p _ _ _ Hp).
Qed.

Lemma holders_of_app rs1 rs2 : holders_of (rs1 ++ rs2) = holders_of rs1 ++ holders_of rs2.
Proof. apply omap_app. Qed.

(** What a state of the system says about its locks. *)
Definition locks_ok (sh : shared) : Prop := lock_inv (w_locks (sh_world sh), holders_of (sy_runs (sh_system sh))).

(** Beginning: the lock is granted, and held if the task waits. *)
Lemma begin_locks key r E fs s rs w :
  NoDup (dict_keys rs) → dict_get key rs = Some r → r_state r = Created → locks_ok (mkShared (mkSystem s rs) w) →
  locks_ok (first_turn key r E fs s rs w).
Proof.
  intros Hnd Hg Hc Hinv. unfold locks_ok, first_turn, advance in *. cbn [sh_world sh_system sy_runs w_locks] in *.
  set (E' := left_by id E). set (x0 := fresh_sess _ _ _ _). set (c := s_config (r_sess r)).
  destruct (dict_set_split key r (mkRun (r_sess r) (r_cancelled r) (Running E' x0 [])) rs Hg Hnd)
    as (d1 & d2 & Hrs & Hdel & Hset & _).
  assert (holders_of rs = holders_of (d1 ++ d2)) as Hh.
  { rewrite Hrs, !holders_of_app. f_equal. cbn. unfold holding at 1. by rewrite Hc. }
  destruct (safe_run E' c [] x0) as [[o evs'] x] eqn:Hrun. cbn [snd].
  destruct (session_releases_lock E' c [] x0 o evs' x (holders_of rs) (holders_of rs)) as [Hwait Hend];
    [constructor|done|exact Hinv|done|].
  assert (o ≠ Blocked → lock_inv (x_locks x, holders_of (d1 ++ d2))) as Hend'.
  { intros Ho. rewrite <- Hh. by destruct (Hend Ho). }
  rewrite Hset, Hdel. destruct o; cbn [sy_runs]; try by apply Hend'.
  destruct (Hwait eq_refl) as [_ Hl]. eapply lock_inv_perm, Hl. rewrite Hh, !holders_of_app. cbn.
  apply Permutation_middle.
Qed.

(** Going on: the lock stays held, or goes back to the table of the others. *)
Lemma event_locks key r E x0 evs ev s s1 rs w :
  woken rs key r E x0 evs ev → locks_ok (mkShared (mkSystem s rs) w) → locks_ok (next_turn key r E x0 evs ev s1 rs w).
Proof.
  intros [Hnd Hg Hc Hb Hev] Hinv. unfold locks_ok, next_turn, advance in *. cbv zeta. cbn [sh_world sh_system sy_runs] in Hinv.
  set (c := s_config (r_sess r)) in *. set (x1 := moved _ x0). set (E' := left_by (λ _, w_locks w) E).
  assert ((safe_run E c evs x1).1.1 = Blocked) as Hb1.
  { destruct (rewound_now E c evs x0 (w_stats w)) as [H1 _]. unfold x1, moved. by rewrite H1. }
  destruct (dict_set_split key r (mkRun (r_sess r) (r_cancelled r) (Running E' x1 (evs ++ [ev]))) rs Hg Hnd)
    as (d1 & d2 & Hrs & Hdel & Hset & _).
  assert (holding r = Some (req_filename (sc_request c), request_mode c)) as Hr by (unfold holding; by rewrite Hc).
  assert (∀ r', holding r' = holding r → holders_of (d1 ++ (key, r') :: d2) = holders_of rs) as Hsame.
  { intros r' Hr'. rewrite Hrs, !holders_of_app. f_equal. cbn. by rewrite Hr'. }
  destruct (waiting_holds E c evs x1 Hb1) as (l & _ & Htable). specialize (Htable E' (evs ++ [ev]) Hev).
  destruct (safe_run E' c (evs ++ [ev]) x1) as [[o evs'] x]. cbn [fst snd sh_world sh_system w_locks] in *. rewrite Hset, Hdel.
  assert (lock_inv (release (request_mode c) (req_filename (sc_request c)) (w_locks w), holders_of (d1 ++ d2))) as Hend.
  { rewrite holders_of_app. apply release_inv. rewrite <- (Hsame r), holders_of_app in Hinv by done. cbn in Hinv.
    by rewrite Hr in Hinv. }
  destruct o; cbn [sy_runs]; try (rewrite Htable; exact Hend). rewrite Hsame; [done|]. by rewrite Hr.
Qed.

Lemma holders_of_others l sy sy' :
  sys_step inet_aton float_ms l sy sy' → is_turn l = false → holders_of (sy_runs sy') = holders_of (sy_runs sy).
Proof.
  intros Hst Hl. destruct Hst as [| ts1 t ts2 el rand id pr s s' rs Hts Hr Ha| |key r s rs Hg Hc Hca| | | | |s rs];
    try done; cbn [sy_runs].
  - rewrite holders_of_app. replace (holders_of (new_runs s s')) with (@nil (list Z * mode)); [by rewrite app_nil_r|].
    unfold new_runs, holders_of. induction (new_keys s s') as [|k ks IH]; [done|].
    cbn. by destruct (dict_get k (sv_sessions s')).
  - destruct (dict_split _ _ _ Hg) as (d1 & d2 & -> & ->). rewrite !holders_of_app. f_equal. cbn.
    unfold holding at 1. by rewrite Hc.
  - clear. unfold holders_of. induction rs as [|[k r] rs IH]; [done|]. cbn. by rewrite IH.
Qed.

Lemma sh_run_locks ip mac cfg a c ls sh :
  sh_run inet_aton float_ms (sh_init ip mac cfg a c) ls sh → Forall octets ls → locks_ok sh.
Proof.
  induction 1 as [|ls l sh1 sh2 Hr IH Hst]; [intros _; apply lock_inv_init|].
  intros [Hls _]%Forall_app. specialize (IH Hls). destruct (sh_run_facts _ _ _ _ _ _ _ _ _ Hr) as [Hinv _].
  pose proof (sys_inv_keys _ Hinv) as Hnd.
  destruct Hst as [p sy sy' w Hs|sy sy' w Hs|key r E fs s rs w Hg Hc Hca|key sy sy' w Hs
    |key r E x0 evs ev s s1 rs w Hg Hc Hw|sy sy' w mb mf en Hs|sy sy' w f Hs|sy sy' w Hs];
    try (unfold locks_ok in *; cbn [sh_system sh_world w_locks set_w_cache] in *; by rewrite (holders_of_others _ _ _ Hs)).
  - by apply begin_locks.
  - eapply event_locks, IH. by eapply sh_run_woken.
Qed.

(** Two tasks that have begun are two holders. *)
Lemma holders_two rs k1 k2 r1 r2 h1 h2 :
  k1 ≠ k2 → dict_get k1 rs = Some r1 → dict_get k2 rs = Some r2 → holding r1 = Some h1 → holding r2 = Some h2 →
  ∃ hs, holders_of rs ≡ₚ h1 :: h2 :: hs.
Proof.
  intros Hne H1 H2 Hh1 Hh2.
  assert (∀ k r h rs, dict_get k rs = Some r → holding r = Some h → holders_of rs ≡ₚ h :: holders_of (dict_del k rs)) as Hone.
  { clear. intros k r h rs (d1 & d2 & -> & ->)%dict_split Hh. rewrite !holders_of_app. cbn. rewrite Hh.
    symmetry. apply Permutation_middle. }
  exists (holders_of (dict_del k2 (dict_del k1 rs))). rewrite (Hone k1 r1 h1 rs) by done. constructor.
  apply (Hone k2 r2); [by rewrite dict_get_del_ne|done].
Qed.

(** [C7] A file is written by one transfer alone: with the one lock table all
    sessions share, in every state the server can reach by packets, admissions,
    transfers beginning, going on, failing, being cancelled and ending in any
    order, the table has for every file exactly the transfers that have begun
    and not ended; two of them that asked for the same name are both downloads;
    a lock is granted exactly when no begun transfer of that name is in its way;
    and when no transfer is left the table is empty. *)
Theorem transfers_exclusive ip mac cfg a c ls s rs w :
  sh_run inet_aton float_ms (sh_init ip mac cfg a c) ls (mkShared (mkSystem s rs) w) → Forall octets ls →
  let t := w_locks w in
  (∀ f, t !! f = entry_of f (holders_of rs)) ∧
  (∀ k1 k2 r1 r2 f m1 m2, k1 ≠ k2 → dict_get k1 rs = Some r1 → dict_get k2 rs = Some r2 →
     holding r1 = Some (f, m1) → holding r2 = Some (f, m2) → m1 = Rd ∧ m2 = Rd) ∧
  (∀ f m, (∃ t', acquire m f t = (Ok tt, t')) ↔ grants f m (holders_of rs)) ∧
  (rs = [] → t = ∅).
Proof.
  intros Hr Hok t. pose proof (sh_run_locks _ _ _ _ _ _ _ Hr Hok) as Hinv.
  unfold locks_ok in Hinv. cbn [sh_world sh_system sy_runs] in Hinv. fold t in Hinv.
  pose proof Hinv as [Ht Hex]. cbn [fst snd] in Ht, Hex. split_and!.
  - done.
  - intros k1 k2 r1 r2 f m1 m2 Hne H1 H2 Hh1 Hh2. destruct (holders_two _ _ _ _ _ _ _ Hne H1 H2 Hh1 Hh2) as [hs Hp].
    specialize (Hex f). rewrite !(held_perm f _ _ _ Hp), !held_cons in Hex. held_arith.
    destruct m1, m2; repeat case_decide; naive_solver lia.
  - intros f m. destruct (acquire_spec _ f m Hinv) as [[Hg (t2 & Ha & _)]|[Hg (msg & t2 & Ha & _)]]; cbn [fst snd] in *;
      rewrite Ha; [by split; [|eauto]|split; [by intros (? & [=])|done]].
  - intros ->. apply map_eq. intros f. by rewrite Ht.
Qed.
End exclusion.

(** The download of [demo_begun] holds its file: an upload of it is refused, a
    second download is not. *)
Lemma transfers_exclusive_witness :
  let t := (acquire_read (u "fw") ∅).2 in
  t !! u "fw" = Some (mkEntry 1 false) ∧
  ((∃ t', acquire Rd (u "fw") t = (Ok tt, t')) ↔ grants (u "fw") Rd [(u "fw", Rd)]) ∧
  ((∃ t', acquire Wr (u "fw") t = (Ok tt, t')) ↔ grants (u "fw") Wr [(u "fw", Rd)]).
Proof.
  intros t.
  destruct (transfers_exclusive (H := lexical_paths) demo_aton demo_float (u "10.0.0.1") (u "02:00:00:00:00:01") demo_cfg demo_acl
    _ _ _ _ demo_world demo_shared_run) as (Ht & _ & Hg & _).
  - repeat constructor; vm_compute; repeat constructor; discriminate.
  - split; [rewrite Ht; vm_compute; reflexivity|]. split; [apply (Hg (u "fw") Rd)|apply (Hg (u "fw") Wr)].
Defined.

(** The lock is that of the name in the request, not of the file: a name and
    the same name with a slash in front are one file and two locks, so both can
    be written at once. *)
Lemma two_names_one_file :
  let t := (acquire_write (u "fw") ∅).2 in
  safe_join (H := lexical_paths) (u "/srv") (u "fw") = safe_join (H := lexical_paths) (u "/srv") (u "/fw") ∧
  (acquire_write (u "/fw") t).1 = Ok tt ∧ (acquire_write (u "fw") t).1 ≠ Ok tt.
Proof. vm_compute. by split_and!. Qed.
