(* ===== verification/Ledger.v ===== *)
(** * The counters of all transfers add up (src/core/stats.py, src/tftp/session.py, src/tftp/server.py)

    The session counters of the dashboard against the sessions there were. *)

From S2P Require Import Prelude Python Constants Wire Options Stats Acl Frame FileLock Cache Paths Session.
From S2P Require Import SessionLife Locked Counted Keeps Termination Online Server System Shared.
Open Scope Z_scope.

Definition is_cancel (l : label) : bool := match l with LEvent _ Cancel => true | _ => false end.

(** The records of the daily statistics that are a success, and that blame the
    server. *)
Definition successes (d : list daily_call) : Z := zlen (List.filter dc_success d).
Definition faults (d : list daily_call) : Z := zlen (List.filter dc_fault d).

(** What one session has added to a counter. *)
Definition added (x0 x : sess) (k : counter) : Z := counter_get (x_stats x) k - counter_get (x_stats x0) k.

(** What a session that ended as [x] adds to the totals. *)
Record ends (cancelled : bool) (x0 x : sess) : Prop := {
  en_once : added x0 x tftp_sessions_completed + added x0 x tftp_errors + Z.b2z cancelled = 1;
  en_failed : added x0 x tftp_sessions_failed = Z.b2z (x_fault x);
  en_done : added x0 x tftp_sessions_completed ≤ Z.b2z (bool_decide (x_state x = u "done"));
  en_only : Z.b2z (bool_decide (x_state x = u "done")) ≤ added x0 x tftp_sessions_completed + added x0 x tftp_errors;
}.

(** What a task adds in a step that leaves it waiting, or ends it. *)
Definition turn_adds (o : outcome unit) (x0 x : sess) : Prop :=
  match o with
  | Blocked => ∀ k, end_counter k = true → added x0 x k = 0
  | Exc _ => False
  | Ret _ => ends false x0 x
  | Cancelled => ends true x0 x
  end.

Definition was_cancelled (o : outcome unit) : bool := match o with Cancelled => true | _ => false end.

Section ledger.
Context `{OsPath} (inet_aton : list Z → pyres (list Z)) (float_ms : pyval → pyres Z).

Lemma session_adds E c evs x0 :
  Forall event_ok evs → x_fault x0 = false → x_state x0 = u "init" →
  let '(o, _, x) := safe_run E c evs x0 in turn_adds o x0 x.
Proof.
  intros Hev Hf Hs. pose proof (unfinished_not_done E c evs x0 Hs) as Hnd.
  destruct (safe_run E c evs x0) as [[o rest] x] eqn:Hrun.
  destruct (safe_run_cases _ _ _ _ _ _ _ Hev Hrun) as (o1 & x1 & [_ Hf1 Hends Hst _] & Hx). rewrite Hf in Hf1.
  assert (∀ k, end_counter k = true → added x0 x1 k =
    if decide (k = tftp_sessions_completed ∧ o1 = Ret tt) then 1 else 0) as Ha.
  { intros k Hk. unfold added. rewrite Hends by done. lia. }
  destruct o1 as [[]|e| |].
  - destruct Hx as [-> ->]. cbn [turn_adds].
    split; rewrite ?Ha, ?Hf1, ?(Hst eq_refl) by done; repeat case_decide; repeat case_bool_decide; naive_solver lia.
  - destruct Hx as (-> & code & msg & fault & [_ _ Hfault Hc _] & _). cbn [turn_adds].
    assert (∀ k, end_counter k = true → added x0 x k = (if decide (k = tftp_errors) then 1
      else if decide (k = tftp_sessions_failed) then (if fault then 1 else 0) else 0)) as Hk.
    { intros k Hk. specialize (Ha k Hk). unfold added in *. rewrite Hc by done. rewrite no_completion in Ha by done. lia. }
    split; rewrite ?Hk, ?Hfault, ?Hf1 by done; repeat case_decide; try done; destruct fault;
      try (destruct (bool_decide _)); done || (cbn; lia).
  - destruct Hx as [-> ->]. cbn [turn_adds].
    split; rewrite ?Ha, ?Hf1 by done; rewrite ?bool_decide_eq_false_2 by auto; repeat case_decide; naive_solver lia.
  - destruct Hx as [-> ->]. intros k Hk. rewrite Ha by done. case_decide; naive_solver.
Qed.

(** ** The books *)

(** Every task started on a fresh [SessionInfo]. *)
Definition fresh_starts (rs : list (SessionKey * run)) : Prop := ∀ k r E x0 evs,
  dict_get k rs = Some r → r_state r = Running E x0 evs → x_state x0 = u "init" ∧ x_fault x0 = false.

Record books (cancels : Z) (daily : list daily_call) (st : list (counter * Z)) : Prop := {
  bk_once : zlen daily = counter_get st tftp_sessions_completed + counter_get st tftp_errors + cancels;
  bk_failed : counter_get st tftp_sessions_failed = faults daily;
  bk_done : counter_get st tftp_sessions_completed ≤ successes daily ≤
            counter_get st tftp_sessions_completed + counter_get st tftp_errors;
}.

Lemma zlen_filter_snoc {A} (f : A → bool) l a : zlen (List.filter f (l ++ [a])) = zlen (List.filter f l) + Z.b2z (f a).
Proof. rewrite List.filter_app, zlen_app. cbn. by destruct (f a). Qed.

(** One session more. *)
Lemma books_ends n cancelled daily x0 x dc :
  books n daily (x_stats x0) → ends cancelled x0 x → dc_success dc = bool_decide (x_state x = u "done") →
  dc_fault dc = x_fault x → books (n + Z.b2z cancelled) (daily ++ [dc]) (x_stats x).
Proof.
  intros [H1 H2 H3] [E1 E2 E3 E4] Hs Hf. unfold added in *. split; unfold successes, faults in *.
  - rewrite zlen_app, zlen_cons, zlen_nil. lia.
  - rewrite zlen_filter_snoc, Hf. lia.
  - rewrite zlen_filter_snoc, Hs. lia.
Qed.

Lemma books_same n daily st st' :
  (∀ k, end_counter k = true → counter_get st' k = counter_get st k) → books n daily st → books n daily st'.
Proof. intros Hst [H1 H2 H3]. by split; rewrite !Hst. Qed.

(** The step of a task, from a start whose counters agree with the books. *)
Lemma advance_books n key r E x0 evs s rs :
  Forall event_ok evs → x_fault x0 = false → x_state x0 = u "init" → books n (sv_daily s) (x_stats x0) →
  let '(o, _, x) := safe_run E (s_config (r_sess r)) evs x0 in
  books (n + Z.b2z (was_cancelled o)) (sv_daily (sy_server (advance key r E x0 evs s rs))) (x_stats x).
Proof.
  intros Hev Hf Hs Hb. pose proof (session_adds E (s_config (r_sess r)) evs x0 Hev Hf Hs) as Ha. unfold advance.
  destruct (safe_run E (s_config (r_sess r)) evs x0) as [[o rest] x]. destruct o; cbn [turn_adds] in Ha; try done.
  - by eapply (books_ends n false).
  - by eapply (books_ends n true).
  - rewrite Z.add_0_r. eapply books_same, Hb. intros k Hk. specialize (Ha k Hk). unfold added in Ha. lia.
Qed.

(** The counters of a waiting task, rewound, are those of the sessions now. *)
Lemma rewound_books n E c evs x0 st daily :
  Forall event_ok evs → x_fault x0 = false → x_state x0 = u "init" → (safe_run E c evs x0).1.1 = Blocked →
  books n daily st → books n daily (x_stats (moved (rewound E c evs x0 st) x0)).
Proof.
  intros Hev Hf Hs Hb Hbk. destruct (rewound_now E c evs x0 st) as (H1 & _ & H3).
  pose proof (session_adds E c evs (moved (rewound E c evs x0 st) x0) Hev Hf Hs) as Ha. unfold moved in *.
  destruct (safe_run E c evs (on_stats _ x0)) as [[o rest] x]. cbn [fst snd] in *. rewrite <- H1 in Hb. cbn in Hb. subst o.
  eapply books_same, Hbk. intros k Hk. specialize (Ha k Hk). unfold added in Ha. rewrite H3 in Ha. lia.
Qed.

Lemma advance_fresh key r E x0 evs s rs :
  NoDup (dict_keys rs) → x_state x0 = u "init" → x_fault x0 = false → fresh_starts rs →
  fresh_starts (sy_runs (advance key r E x0 evs s rs)).
Proof.
  intros Hnd Hs Hf Hrs. unfold advance.
  assert (fresh_starts (dict_del key rs)) as Hdel.
  { intros k r' E' y evs' Hg. destruct (decide (k = key)) as [->|Hne]; [by rewrite dict_get_del_eq in Hg|].
    rewrite dict_get_del_ne in Hg by done. by apply (Hrs k). }
  destruct (safe_run E (s_config (r_sess r)) evs x0) as [[[] rest] x]; cbn [sy_runs]; try exact Hdel.
  intros k r' E' y evs'. rewrite dict_get_set. case_decide; [|apply Hrs]. intros [= <-] [= <- <- <-]. done.
Qed.

Lemma others_books l sy sy' :
  sys_step inet_aton float_ms l sy sy' → is_turn l = false → sys_inv sy →
  sv_daily (sy_server sy') = sv_daily (sy_server sy) ∧ (fresh_starts (sy_runs sy) → fresh_starts (sy_runs sy')).
Proof.
  intros Hst Hl Hinv. pose proof (sys_inv_keys _ Hinv) as Hnd.
  destruct Hst as [p r s s' rs Hh|ts1 t ts2 el rand id pr s s' rs Hts Hr Ha| |key r s rs Hg Hc Hca| | | | |s rs];
    try done; cbn [sy_runs sy_server] in *.
  - destruct (handle_untouched p s) as [Hd _]. rewrite Hh in Hd. done.
  - assert (sv_daily (match pr with Finished _ => s' | Suspended t' => sv_spawn t' s' end) = sv_daily s') as -> by by destruct pr.
    destruct (accept_effect _ _ _ _ _ _ _ _ _ _ Hr Ha) as [(Hs & -> & _)|(key & ss & Hs & Hn & _ & _ & -> & _)]; (split; [done|]).
    + by rewrite (new_runs_same s s'), app_nil_r by (by rewrite Hs).
    + destruct (fresh_key s rs key Hinv Hn) as [Hkr Hks]. rewrite (new_runs_set s s' key ss), runs_snoc by done.
      intros Hf k r E x0 evs. rewrite dict_get_set. case_decide; [by intros [= <-]|apply Hf].
  - split; [done|]. intros Hf k r' E x0 evs Hk. destruct (decide (k = key)) as [->|Hne];
      [by rewrite dict_get_del_eq in Hk|rewrite dict_get_del_ne in Hk by done; by apply (Hf k)].
  - split; [done|]. intros Hf k r E x0 evs (r0 & Hr0 & ->)%dict_get_cancel. apply (Hf k r0 E x0 evs Hr0).
Qed.

Definition cancels (ls : list label) : Z := zlen (List.filter is_cancel ls).

Lemma sh_run_books ip mac cfg a c ls sh :
  sh_run inet_aton float_ms (sh_init ip mac cfg a c) ls sh → Forall octets ls →
  fresh_starts (sy_runs (sh_system sh)) ∧
  books (cancels ls) (sv_daily (sy_server (sh_system sh))) (w_stats (sh_world sh)).
Proof.
  induction 1 as [|ls l sh1 sh2 Hr IH Hst]; [intros _; by split|].
  intros [Hls _]%Forall_app. destruct (IH Hls) as [Hf Hb]. destruct (sh_run_facts _ _ _ _ _ _ _ _ _ Hr) as [Hinv _].
  pose proof (sys_inv_keys _ Hinv) as Hnd.
  assert (cancels (ls ++ [l]) = cancels ls + Z.b2z (is_cancel l)) as -> by apply zlen_filter_snoc.
  assert (∀ sy', sys_step inet_aton float_ms l (sh_system sh1) sy' → is_turn l = false →
    fresh_starts (sy_runs sy') ∧ books (cancels ls + Z.b2z (is_cancel l)) (sv_daily (sy_server sy')) (w_stats (sh_world sh1))) as Hothers.
  { intros sy' Hs Hl. destruct (others_books _ _ _ Hs Hl Hinv) as [-> Hfr]. split; [auto|].
    assert (is_cancel l = false) as -> by by destruct l. by rewrite Z.add_0_r. }
  destruct Hst as [p sy sy' w Hs|sy sy' w Hs|key r E fs s rs w Hg Hc Hca|key sy sy' w Hs
    |key r E x0 evs ev s s1 rs w Hg Hc Hw|sy sy' w mb mf en Hs|sy sy' w f Hs|sy sy' w Hs];
    try (by apply Hothers); clear Hothers; cbn [sh_system sh_world sy_runs sy_server] in *.
  - split; [by apply advance_fresh|]. unfold first_turn. cbn [sh_system sh_world w_stats].
    set (E' := left_by id E). set (x0 := fresh_sess _ _ _ _).
    pose proof (advance_books (cancels ls) key r E' x0 [] s rs (Forall_nil_2 _) eq_refl eq_refl Hb) as Ha.
    pose proof (proj1 (safe_run_heeds E' (s_config (r_sess r))) x0) as Hh.
    destruct (safe_run E' (s_config (r_sess r)) [] x0) as [[o rest] x]. cbn [snd is_cancel] in *.
    destruct o; try done. by destruct Hh.
  - pose proof (sh_run_woken _ _ _ _ _ _ _ _ _ _ _ _ _ _ _ _ _ _ Hr Hls Hg Hc Hw) as [_ _ _ Hbl Hev].
    destruct (Hf key r E x0 evs Hg Hc) as [Hi Hfa]. apply Forall_app in Hev as Hev0. destruct Hev0 as [Hev0 _].
    pose proof (rewound_books _ E (s_config (r_sess r)) evs x0 (w_stats w) _ Hev0 Hfa Hi Hbl Hb) as Hb1.
    unfold next_turn. cbv zeta. set (x1 := moved _ x0) in *. set (E' := left_by _ E).
    assert (sv_daily s1 = sv_daily s) as Hd.
    { destruct Hw; try done. unfold set_queue. by destruct (dict_get key (sv_sessions s)). }
    rewrite <- Hd in Hb1.
    pose proof (advance_books (cancels ls) key r E' x1 (evs ++ [ev]) s1 rs Hev Hfa Hi Hb1) as Ha.
    assert ((safe_run E' (s_config (r_sess r)) evs x1).1.1 = Blocked) as Hbl1.
    { destruct (safe_run_others (λ _, w_locks w) E (s_config (r_sess r)) evs x1) as [Ho _]. fold E' in Ho. rewrite <- Ho.
      destruct (rewound_now E (s_config (r_sess r)) evs x0 (w_stats w)) as [H1 _]. unfold x1, moved. by rewrite H1. }
    pose proof (proj2 (safe_run_heeds E' (s_config (r_sess r))) evs ev x1 Hbl1) as Hh.
    assert (fresh_starts (sy_runs (advance key r E' x1 (evs ++ [ev]) s1 rs))) as Hfr by (by apply advance_fresh).
    destruct (safe_run E' (s_config (r_sess r)) (evs ++ [ev]) x1) as [[o rest] x]. cbn [sh_system sh_world w_stats].
    split; [done|]. destruct Hh as [_ Hh].
    replace (is_cancel (LEvent key ev)) with (was_cancelled o); [done|].
    destruct o, ev; cbn; try done; naive_solver.
Qed.

(** [C6] The counters add up: with all sessions counting in the one [STATS], in
    every state the server can reach, the sessions started are those alive,
    those completed, those ended with an ERROR packet, those cancelled and those
    cancelled before their first step, each counted once; the daily statistics
    have one record for each that ended, and blame the server in exactly as many
    as there are failed sessions; and every completed session is recorded as a
    success, and nothing else except perhaps a session that ended with an ERROR
    packet. *)
Theorem counters_add_up ip mac cfg a c ls s rs w :
  sh_run inet_aton float_ms (sh_init ip mac cfg a c) ls (mkShared (mkSystem s rs) w) → Forall octets ls →
  let n := counter_get (w_stats w) in
  started_total s = zlen rs + n tftp_sessions_completed + n tftp_errors + cancels ls + zlen (List.filter is_never ls) ∧
  zlen (sv_daily s) = n tftp_sessions_completed + n tftp_errors + cancels ls ∧
  n tftp_sessions_failed = faults (sv_daily s) ∧
  n tftp_sessions_completed ≤ successes (sv_daily s) ≤ n tftp_sessions_completed + n tftp_errors.
Proof.
  intros Hr Hok n. destruct (sh_run_books _ _ _ _ _ _ _ Hr Hok) as [_ [H1 H2 H3]]. cbn [sh_system sh_world sy_server] in *.
  apply sh_run_sys in Hr. apply sys_run_unaccounted in Hr. unfold unaccounted in Hr. cbn [sh_system sy_server sy_runs] in Hr.
  fold n in H1, H2, H3. split_and!; [lia|done|done|lia|lia].
Qed.
End ledger.

(** The download of [demo_final_run]: one session started, completed and
    recorded. *)
Lemma counters_add_up_witness :
  let s := sy_server (sh_system demo_final) in
  let n := counter_get (w_stats (sh_world demo_final)) in
  n tftp_sessions_completed = 1 ∧ started_total s = 0 + n tftp_sessions_completed + n tftp_errors + 0 + 0 ∧
  zlen (sv_daily s) = n tftp_sessions_completed + n tftp_errors + 0.
Proof.
  intros s n. split; [vm_compute; reflexivity|].
  destruct (counters_add_up (H := lexical_paths) demo_aton demo_float (u "10.0.0.1") (u "02:00:00:00:00:01") demo_cfg demo_acl
    demo_cache _ s (sy_runs (sh_system demo_final)) (sh_world demo_final) demo_final_run) as (H1 & H2 & _).
  - repeat constructor; vm_compute; repeat constructor; discriminate.
  - split; [exact H1|exact H2].
Defined.

(** A session's state is the message of the error that ended it, and "done" is
    how [_on_complete] recognises success: a client that gives up with an ERROR
    packet saying "done" is recorded as a success, with an error counted and no
    completion. *)
Lemma client_error_recorded_as_success :
  ∃ pkt x, pack_error 0 (u "done") = Ok pkt ∧
    safe_run (H := lexical_paths) demo_env (demo_config 1) [Pkt pkt] demo_sess = (Ret tt, [], x) ∧
    counter_get (x_stats x) tftp_sessions_completed = 0 ∧ counter_get (x_stats x) tftp_errors = 1 ∧
    dc_success <$> sv_daily (on_complete demo_key demo_session x demo_started) = [true].
Proof. do 2 eexists. split_and!; vm_compute; reflexivity. Qed.
