(* ===== verification/Network.v ===== *)
(** * Responders and dispatch (src/network/arp_responder.py,
    src/network/icmp_responder.py, src/network/sniffer.py and the dispatch loop
    of src/main.py)

    The responders and the TFTP server share the counters and the bridge, so
    they all act on the [server] record of Server.v. *)

From S2P Require Import Prelude Python Constants Wire Options Stats Acl Frame Server.
Open Scope Z_scope.

(** An [ArpResponder] or [IcmpResponder]: the addresses it answers for and
    the access lists. *)
Record responder := mkResponder { rs_ip : list Z; rs_mac : list Z; rs_acl : ACL }.

(** [update]. *)
Definition responder_update (ip mac : str) (r : responder) : responder := mkResponder ip mac (rs_acl r).

(** The common tail of the two handlers: the access list, then the reply. *)
Definition respond (r : responder) (service : str) (p : ParsedPacket) (src_ip : str)
    (requests replies : counter) (reply : ether) (s : server) : bool * server :=
  let s := sv_bump requests s in
  match acl_check (rs_acl r) service (p_vlan_id p) src_ip with
  | Some d => (true, sv_bump (denial_counter d) (sv_bump acl_denied s))
  | None => (true, sv_bump replies (sv_emit reply s))
  end.

(** [ArpResponder.handle]. *)
Definition arp_handle (r : responder) (p : ParsedPacket) (s : server) : bool * server :=
  match p_upper p with
  | UArp op spa tpa _ _ =>
      if negb (op =? 1) || negb (bool_decide (tpa = rs_ip r)) then (false, s)
      else respond r (u "arp") p spa arp_requests arp_replies (build_arp_reply p (rs_mac r) (rs_ip r)) s
  | _ => (false, s)
  end.

Definition ICMP_ECHO_REQUEST : Z := 8.

(** [IcmpResponder.handle]. *)
Definition icmp_handle (r : responder) (p : ParsedPacket) (s : server) : bool * server :=
  match p_upper p with
  | UIcmp ty _ _ _ _ =>
      if negb (ty =? ICMP_ECHO_REQUEST) || negb (bool_decide (p_ip_dst p = rs_ip r)) then (false, s)
      else respond r (u "icmp") p (p_ip_src p) icmp_requests icmp_replies
             (build_icmp_echo_reply p (rs_mac r) (rs_ip r)) s
  | _ => (false, s)
  end.

(** The body of [_dispatch_loop]; an exception of [tftp.handle] is logged and
    swallowed. *)
Definition dispatch (arp icmp : responder) (p : ParsedPacket) (s : server) : server :=
  match arp_handle arp p s with
  | (true, s) => s
  | (false, s) =>
      match icmp_handle icmp p s with
      | (true, s) => s
      | (false, s) => (handle p s).2
      end
  end.

(** ** The receive queue *)

(** The queue between the capture thread and the loop, and [_drops]. *)
Record bridge := mkBridge { br_queue : list ParsedPacket; br_drops : Z }.

(** [_on_packet] followed by [_enqueue] on the loop. *)
Definition on_packet (queue_max : Z) (pkt : option ether) (b : bridge) : bridge :=
  match parse pkt with
  | None => b
  | Some p => if (0 <? queue_max) && (queue_max <=? zlen (br_queue b)) then mkBridge (br_queue b) (br_drops b + 1)
              else mkBridge (br_queue b ++ [p]) (br_drops b)
  end.

(** One round of [packets] and [_dispatch_loop]. *)
Definition pump (arp icmp : responder) (b : bridge) (s : server) : bridge * server :=
  match br_queue b with
  | [] => (b, s)
  | p :: q => (mkBridge q (br_drops b), dispatch arp icmp p s)
  end.

(** ** Replies *)

(** The reply's own view of the frame it answers: addresses swapped, the same
    802.1Q tag or none. *)
Definition answers (r : responder) (p reply : ParsedPacket) : Prop :=
  p_eth_dst reply = p_eth_src p ∧ p_eth_src reply = rs_mac r ∧
  p_vlan_id reply = p_vlan_id p ∧
  (p_vlan_id p ≠ None → p_vlan_pcp reply = p_vlan_pcp p ∧ p_vlan_dei reply = p_vlan_dei p).

Lemma answers_wrap r p ty l :
  ∃ reply, parse (Some (vlan_wrap (rs_mac r) (p_eth_src p) (p_vlan_id p) (p_vlan_pcp p) (p_vlan_dei p) ty l))
           = Some reply ∧ answers r p reply ∧
    (∀ src dst proto ttl i, l = IP src dst proto ttl i → p_ip_src reply = src ∧ p_ip_dst reply = dst) ∧
    p_upper reply = match l with
                    | ARP op hwsrc psrc hwdst pdst => UArp op psrc pdst hwsrc hwdst
                    | IP _ _ _ _ (ICMP t c id seq pl) => UIcmp t c (default 0 id) (default 0 seq) pl
                    | IP _ _ _ _ (UDP sp dp len pl) => UUdp sp dp (udp_payload len pl)
                    | IP _ _ _ _ OtherInner => UIpOther
                    | OtherLayer => UOther
                    end.
Proof.
  unfold answers, vlan_wrap, parse. destruct (p_vlan_id p) as [v|] eqn:Hv, l as [| src dst proto ttl []|];
    eexists; (split; [reflexivity|]); cbn; rewrite ?Hv; (split_and!; try done); naive_solver.
Qed.

(** The frames a step adds to those already sent. *)
Definition emitted (s s' : server) (fs : list ether) : Prop := sv_out s' = sv_out s ++ fs.

(** ARP: the server answers exactly the requests for its own address that
    the access lists allow for "arp", each with one frame: an ARP reply to the
    asker with its hardware and protocol addresses, announcing the virtual MAC
    for the virtual IP, under the asker's 802.1Q tag.  Everything else ARP
    carries leaves the wire silent, and no ARP packet touches the transfers. *)
Theorem arp_replies_exactly arp icmp p s op spa tpa sha tha :
  p_upper p = UArp op spa tpa sha tha →
  let s' := dispatch arp icmp p s in
  sv_sessions s' = sv_sessions s ∧ sv_tasks s' = sv_tasks s ∧
  if decide (op = 1 ∧ tpa = rs_ip arp ∧ acl_check (rs_acl arp) (u "arp") (p_vlan_id p) spa = None)
  then ∃ frame reply, emitted s s' [frame] ∧ parse (Some frame) = Some reply ∧ answers arp p reply ∧
         p_upper reply = UArp 2 (rs_ip arp) spa (rs_mac arp) sha
  else emitted s s' [].
Proof.
  intros Hup. cbn zeta. unfold dispatch, arp_handle, icmp_handle, handle, respond, emitted. rewrite Hup.
  destruct (Z.eqb_spec op 1) as [->|Hop]; cbn [negb orb].
  2: { rewrite decide_False by naive_solver. by rewrite app_nil_r. }
  case_bool_decide as Htpa; cbn [negb].
  2: { rewrite decide_False by naive_solver. by rewrite app_nil_r. }
  destruct (acl_check _ _ _ _) as [d|] eqn:Hacl.
  - rewrite decide_False by naive_solver. cbn. by rewrite app_nil_r.
  - rewrite decide_True by done. cbn. unfold build_arp_reply. rewrite Hup. split_and!; [done..|].
    destruct (answers_wrap arp p ETHERTYPE_ARP (ARP 2 (rs_mac arp) (rs_ip arp) sha spa))
      as (reply & Hp & Ha & _ & Hu).
    by do 2 eexists.
Qed.

Lemma arp_replies_exactly_witness :
  let r := mkResponder (u "10.0.0.1") (u "02:00:00:00:00:01") demo_acl in
  let p := mkParsed (u "aa:bb:cc:dd:ee:01") (u "ff:ff:ff:ff:ff:ff") (Some 7) 3 0 0 [] [] 0
             (UArp 1 (u "10.0.0.2") (u "10.0.0.1") (u "aa:bb:cc:dd:ee:01") []) in
  ∃ frame reply, emitted demo_server (dispatch r r p demo_server) [frame] ∧
    parse (Some frame) = Some reply ∧ p_vlan_id reply = Some 7.
Proof.
  intros r p.
  destruct (arp_replies_exactly r r p demo_server 1 _ _ _ _ eq_refl) as (_ & _ & Hd).
  rewrite decide_True in Hd by (split_and!; vm_compute; reflexivity).
  destruct Hd as (frame & reply & He & Hp & (_ & _ & Hv & _) & _). by exists frame, reply.
Defined.

(** Ping: the server answers exactly the echo requests to its own address
    that the access lists allow for "icmp", each with one frame: an echo reply
    with the same identifier, sequence number and payload, from the virtual IP
    to the sender, under the sender's 802.1Q tag; and no ICMP packet touches
    the transfers. *)
Theorem icmp_replies_exactly arp icmp p s ty code id seq payload :
  p_upper p = UIcmp ty code id seq payload →
  let s' := dispatch arp icmp p s in
  sv_sessions s' = sv_sessions s ∧ sv_tasks s' = sv_tasks s ∧
  if decide (ty = 8 ∧ p_ip_dst p = rs_ip icmp ∧
             acl_check (rs_acl icmp) (u "icmp") (p_vlan_id p) (p_ip_src p) = None)
  then ∃ frame reply, emitted s s' [frame] ∧ parse (Some frame) = Some reply ∧ answers icmp p reply ∧
         p_ip_src reply = rs_ip icmp ∧ p_ip_dst reply = p_ip_src p ∧
         p_upper reply = UIcmp 0 0 id seq payload
  else emitted s s' [].
Proof.
  intros Hup. cbn zeta. unfold dispatch, arp_handle, icmp_handle, handle, respond, emitted. rewrite Hup.
  unfold ICMP_ECHO_REQUEST. destruct (Z.eqb_spec ty 8) as [->|Hop]; cbn [negb orb].
  2: { rewrite decide_False by naive_solver. by rewrite app_nil_r. }
  case_bool_decide as Hdst; cbn [negb].
  2: { rewrite decide_False by naive_solver. by rewrite app_nil_r. }
  destruct (acl_check _ _ _ _) as [d|] eqn:Hacl.
  - rewrite decide_False by naive_solver. cbn. by rewrite app_nil_r.
  - rewrite decide_True by done. cbn. unfold build_icmp_echo_reply. rewrite Hup. split_and!; [done..|].
    destruct (answers_wrap icmp p ETHERTYPE_IPV4 (IP (rs_ip icmp) (p_ip_src p) 1 IP_DEFAULT_TTL
      (ICMP 0 0 (Some id) (Some seq) payload))) as (reply & Hp & Ha & Hi & Hu).
    destruct (Hi _ _ _ _ _ eq_refl) as [Hs Hd]. by do 2 eexists.
Qed.

Lemma icmp_replies_exactly_witness :
  let r := mkResponder (u "10.0.0.1") (u "02:00:00:00:00:01") demo_acl in
  let p := mkParsed (u "aa:bb:cc:dd:ee:01") (u "02:00:00:00:00:01") None 0 0 0 (u "10.0.0.2") (u "10.0.0.1") 1
             (UIcmp 8 0 77 3 [1; 2; 3]) in
  ∃ frame reply, emitted demo_server (dispatch r r p demo_server) [frame] ∧
    parse (Some frame) = Some reply ∧ p_upper reply = UIcmp 0 0 77 3 [1; 2; 3].
Proof.
  intros r p.
  destruct (icmp_replies_exactly r r p demo_server 8 0 77 3 [1; 2; 3] eq_refl) as (_ & _ & Hd).
  rewrite decide_True in Hd by (split_and!; vm_compute; reflexivity).
  destruct Hd as (frame & reply & He & Hp & _ & _ & _ & Hu). by exists frame, reply.
Defined.

(** The queue is bounded and every frame it cannot take is counted. *)
Lemma on_packet_bounded queue_max pkt b :
  0 < queue_max → zlen (br_queue b) ≤ queue_max →
  zlen (br_queue (on_packet queue_max pkt b)) ≤ queue_max ∧
  (zlen (br_queue (on_packet queue_max pkt b)) + br_drops (on_packet queue_max pkt b)
   = zlen (br_queue b) + br_drops b + match parse pkt with Some _ => 1 | None => 0 end).
Proof.
  intros H0 Hl. unfold on_packet. destruct (parse pkt); [|lia].
  destruct (Z.ltb_spec 0 queue_max), (Z.leb_spec queue_max (zlen (br_queue b))); cbn;
    rewrite ?zlen_app; change (zlen [p]) with 1; try lia.
Qed.
