(* ===== verification/Bridge.v ===== *)
(** * The capture and send sockets ([L2Bridge] of src/network/sniffer.py)

    Opening and closing the socket and the sniffer, the two send paths, and the
    way of a captured frame through the bounded queue to the dispatch loop. *)

From S2P Require Import Prelude Python Constants Wire Options Stats Acl Frame Server Network.
Open Scope Z_scope.

(** ** Sockets *)

(** [_send_sock] and [_sniffer] as the handle they hold, the handles the
    operating system has open, and the bytes put on the wire. *)
Record sockets := mkSockets {
  so_sock : option nat;
  so_sniffer : option nat;
  so_open : list nat;
  so_next : nat;
  so_wire : list (list Z);
}.

Definition sockets_init : sockets := mkSockets None None [] 0 [].

(** [start]: [sock] and [sniff] say what opening the socket and starting the
    sniffer raise. *)
Definition bridge_start (sock sniff : option exc) : eff sockets unit := λ s,
  match sock with
  | Some e => (Raise e, s)
  | None =>
      let h := so_next s in
      let s := mkSockets (Some h) (Some (h + 1)%nat) (h :: so_open s) (h + 2)%nat (so_wire s) in
      match sniff with
      | Some e => (Raise e, s)
      | None => (Ok tt, mkSockets (so_sock s) (so_sniffer s) ((h + 1)%nat :: so_open s) (so_next s) (so_wire s))
      end
  end.

(** Closing a handle; an exception is swallowed, and the library releases the
    handle either way. *)
Definition close_handle (o : option nat) (l : list nat) : list nat :=
  match o with Some h => filter (λ x, x ≠ h) l | None => l end.

(** [stop]. *)
Definition bridge_stop (s : sockets) : sockets :=
  mkSockets None None (close_handle (so_sock s) (close_handle (so_sniffer s) (so_open s))) (so_next s) (so_wire s).

(** [send] and [send_bytes]: nothing before [start] and after [stop]; a failing
    driver call is logged. *)
Definition bridge_send (fails : bool) (raw : bytes) (s : sockets) : sockets :=
  match so_sock s with
  | None => s
  | Some _ => if fails then s else mkSockets (so_sock s) (so_sniffer s) (so_open s) (so_next s) (so_wire s ++ [raw])
  end.

Inductive socket_op :=
| SStart (sock sniff : option exc)
| SStop
| SSend (fails : bool) (raw : list Z).

Definition socket_step (s : sockets) (op : socket_op) : sockets :=
  match op with
  | SStart a b => (bridge_start a b s).2
  | SStop => bridge_stop s
  | SSend fails raw => bridge_send fails raw s
  end.

(** A bridge is started once per life, as [Nishro.run] does: a start follows
    nothing but stops. *)
Fixpoint started_once (opened : bool) (ops : list socket_op) : Prop :=
  match ops with
  | [] => True
  | SStart a _ :: ops' => opened = false ∧ started_once (match a with None => true | Some _ => false end) ops'
  | SStop :: ops' => started_once false ops'
  | SSend _ _ :: ops' => started_once opened ops'
  end.

(** Everything open is held by the bridge. *)
Definition held (s : sockets) : Prop :=
  (∀ h, h ∈ so_open s → so_sock s = Some h ∨ so_sniffer s = Some h) ∧ ∀ h, h ∈ so_open s → (h < so_next s)%nat.

Lemma stop_closes s : held s → so_open (bridge_stop s) = [].
Proof.
  intros [Hh _]. cbn. destruct (close_handle _ _) as [|h l] eqn:E; [done|]. exfalso.
  assert (h ∈ close_handle (so_sock s) (close_handle (so_sniffer s) (so_open s))) as Hin
    by (rewrite E; apply list_elem_of_here).
  assert (∀ o x k, x ∈ close_handle o k → x ∈ k ∧ o ≠ Some x) as Hc.
  { intros [o|] x k; cbn; [|done]. rewrite list_elem_of_filter. intros [Hx Hk]. split; [done|congruence]. }
  apply Hc in Hin as [Hin H1]. apply Hc in Hin as [Hin H2]. by destruct (Hh h Hin).
Qed.

(** No handle is lost: whatever fails on the way - the socket, the sniffer, a
    frame -, when the bridge is stopped after any use nothing stays open. *)
Lemma bridge_releases ops :
  started_once false ops → so_open (bridge_stop (fold_left socket_step ops sockets_init)) = [].
Proof.
  intros Ho. apply stop_closes.
  assert (∀ s opened, held s → (opened = false → so_open s = []) → started_once opened ops →
            held (fold_left socket_step ops s)) as Hall.
  { clear Ho. induction ops as [|op ops IH]; intros s opened Hs Hop Ho; cbn [fold_left]; [done|].
    destruct op as [a b| |fails raw]; cbn [started_once] in Ho.
    - destruct Ho as [-> Ho]. destruct a as [e|]; [by apply (IH _ false)|].
      apply (IH _ true); [|done|done]. specialize (Hop eq_refl). cbn [socket_step bridge_start].
      destruct b; cbn; split; cbn; rewrite Hop; intros h; rewrite ?elem_of_cons, elem_of_nil; intuition (subst; auto); lia.
    - apply (IH _ false); [|intros _; by apply stop_closes|done].
      cbn [socket_step]. split; intros h; rewrite (stop_closes s Hs); by intros ?%not_elem_of_nil.
    - apply (IH _ opened); [| |done]; cbn [socket_step]; unfold bridge_send; destruct (so_sock s) eqn:E; try done;
        destruct fails; try done. destruct Hs as [H1 H2]. split; cbn; [|done]. by rewrite <- E. }
  apply (Hall _ false); [|done|done]. split; intros h; cbn; by intros ?%not_elem_of_nil.
Qed.

(** A bridge that is not open sends nothing. *)
Lemma closed_is_silent fails raw s : so_wire (bridge_send fails raw (bridge_stop s)) = so_wire s.
Proof. done. Qed.

(** ** From the wire to the server *)

Inductive bridge_op :=
| Capture (pkt : option ether)
| Pump.

Section receive.
Context (queue_max : Z) (queue_bounded : 0 < queue_max) (arp icmp : responder).

Definition bridge_step (st : bridge * server) (op : bridge_op) : bridge * server :=
  match op with
  | Capture pkt => (on_packet queue_max pkt st.1, st.2)
  | Pump => pump arp icmp st.1 st.2
  end.

(** The packets [parse] understands, in order of capture. *)
Definition captured (ops : list bridge_op) : list ParsedPacket :=
  omap (λ op, match op with Capture pkt => parse pkt | Pump => None end) ops.

(** Every frame is dispatched once, waits, or is counted: after any mixture of
    captures and rounds of the dispatch loop, what was dispatched and what
    waits are, in the order of capture, the frames captured less those dropped,
    each of which is counted; the server's state is that of dispatching exactly
    these frames one after the other; and never more than [queue_max] wait. *)
Theorem receive_accounts ops s0 :
  ∃ out, let '(b, s) := fold_left bridge_step ops (mkBridge [] 0, s0) in
    s = fold_left (λ s p, dispatch arp icmp p s) out s0 ∧
    sublist (out ++ br_queue b) (captured ops) ∧
    zlen (captured ops) = zlen (out ++ br_queue b) + br_drops b ∧
    zlen (br_queue b) ≤ queue_max.
Proof.
  induction ops as [|op ops IH] using rev_ind.
  { exists []. cbn. split_and!; [done|constructor|done|unfold zlen; cbn; lia]. }
  destruct IH as (out & IH). rewrite fold_left_app. cbn [fold_left].
  assert (captured (ops ++ [op]) = captured ops ++ captured [op]) as -> by apply omap_app.
  destruct (fold_left bridge_step ops (mkBridge [] 0, s0)) as [b s].
  destruct IH as (Hs & Hsub & Hlen & Hmax).
  destruct op as [pkt|]; cbn [bridge_step fst snd].
  - exists out. unfold on_packet. unfold captured at 2 4. cbn [omap list_omap].
    destruct (parse pkt) as [p|]; [|rewrite app_nil_r; by split_and!].
    destruct (Z.ltb_spec 0 queue_max); [|lia]. destruct (Z.leb_spec queue_max (zlen (br_queue b))); cbn [andb br_queue br_drops].
    + split_and!; try done; [by apply sublist_inserts_r|]. rewrite zlen_app, zlen_cons, zlen_nil. lia.
    + rewrite app_assoc. split_and!; [done|by apply sublist_app| |]; rewrite ?zlen_app, ?zlen_cons, ?zlen_nil in *; lia.
  - unfold captured at 2 4. cbn [omap list_omap]. rewrite app_nil_r. unfold pump.
    destruct (br_queue b) as [|p q] eqn:Hq; [exists out; rewrite Hq; by split_and!|].
    exists (out ++ [p]). cbn [br_queue br_drops]. rewrite <- app_assoc. cbn [app].
    split_and!; try done; [by rewrite fold_left_app, <- Hs|]. unfold zlen in *. cbn in Hmax. lia.
Qed.
End receive.
