(* ===== verification/Source.v ===== *)
(** * File sources (src/files/source.py, src/files/local_source.py,
    src/files/ftp_source.py)

    The three implementations of the [FileSource] interface: a local folder,
    an FTP server and the router that picks one by the shape of the name.  The
    operating system's files, the FTP client library and [urlparse] are
    parameters. *)

From S2P Require Import Prelude Python Constants Wire Options Stats FileLock Cache Acl Paths Session.
Open Scope Z_scope.

(** The interface: [read] and [size] by logical name. *)
Class FileSource (S : Type) := {
  source_read : S → list Z → pyres (option (list Z));
  source_size : S → list Z → pyres (option Z);
}.

(** ** Local folder *)

(** The disk: [os.path.isfile], [os.walk] as (directory, file names) pairs in
    order, reading a file and [os.path.getsize] ([None] for an [OSError]). *)
Record disk := mkDisk {
  dk_isfile : list Z → bool;
  dk_walk : list Z → list (list Z * list (list Z));
  dk_read : list Z → option (list Z);
  dk_size : list Z → option Z;
}.

Record LocalSource := mkLocal { ls_root : list Z; ls_recursive : bool }.

Section local.
Context `{OsPath} (d : disk).

(** [__init__]. *)
Definition local_init (root : str) (recursive : bool) : LocalSource := mkLocal (os_abspath root) recursive.

(** [os.path.join(root, *parts)]. *)
Definition join_parts (root : str) (parts : list str) : str := fold_left os_join parts root.

(** The first directory of the walk that holds the name. *)
Definition find_basename (ls : LocalSource) (basename : str) : option str :=
  match List.find (λ e, bool_decide (basename ∈ e.2)) (dk_walk d (ls_root ls)) with
  | Some (dirpath, _) => Some (os_abspath (os_join dirpath basename))
  | None => None
  end.

(** [_resolve]. *)
Definition local_resolve (ls : LocalSource) (filename : str) : option str :=
  let parts := filter (λ p, p ≠ [] ∧ p ≠ u ".") (split_on SLASH (cleaned_name filename)) in
  if existsb (λ p, bool_decide (p = dotdot)) parts then None
  else match last parts with
  | None => None
  | Some basename =>
      let direct := os_abspath (join_parts (ls_root ls) parts) in
      if under (ls_root ls) direct && dk_isfile d direct then Some direct
      else if negb (ls_recursive ls) then None
      else find_basename ls basename
  end.

Definition local_read (ls : LocalSource) (filename : str) : pyres (option bytes) :=
  Ok (p ← local_resolve ls filename; dk_read d p).

Definition local_size (ls : LocalSource) (filename : str) : pyres (option Z) :=
  Ok (p ← local_resolve ls filename; dk_size d p).

#[export] Instance local_is_source : FileSource LocalSource :=
  {| source_read := local_read; source_size := local_size |}.
End local.

(** ** FTP server *)

Record FtpSource := mkFtp {
  ftp_host : list Z; ftp_port : Z; ftp_user : list Z; ftp_password : list Z; ftp_root : list Z;
}.

(** [__init__]: the root is absolute. *)
Definition ftp_init (host : str) (port : Z) (user password root : str) : FtpSource :=
  mkFtp host port user password (if starts_with (u "/") root then root else u "/" ++ root).

(** How a call of the FTP client library fails: a timeout, an error of the
    operating system, a reply the library raises as [StatusCodeError], or any
    other exception. *)
Inductive ftp_failure :=
| FtpTimeout (message : list Z)
| FtpOSError (message : list Z)
| FtpStatus (message : list Z)
| FtpOther (e : exc).

(** The aioftp calls, by the account they are made with: connecting and
    logging in, then the bytes of a download stream, the dictionary of [stat]
    and the upload of a local file's contents. *)
Record ftp_client := mkClient {
  cl_connect : list Z → Z → option ftp_failure;
  cl_login : FtpSource → option ftp_failure;
  cl_download : FtpSource → list Z → ftp_failure + list Z;
  cl_stat : FtpSource → list Z → ftp_failure + pyval;
  cl_upload : FtpSource → list Z → list Z → option ftp_failure;
}.

(** A failure that no handler catches ([TimeoutError] is an [OSError]). *)
Definition uncaught (f : ftp_failure) : exc :=
  match f with
  | FtpTimeout m | FtpOSError m => OSError m
  | FtpStatus m => RuntimeError m
  | FtpOther e => e
  end.

Section ftp.
Context (cl : ftp_client).

(** [_connect]. *)
Definition ftp_connect (s : FtpSource) : option ftp_failure :=
  match cl_connect cl (ftp_host s) (ftp_port s) with
  | Some f => Some f
  | None => cl_login cl s
  end.

(** What [read], [size] and [upload_file] do before their own command: join
    the path and connect, giving up with [dflt] on the failures they expect. *)
Definition ftp_session {A} (s : FtpSource) (filename : str) (dflt : A) (k : str → pyres A) : pyres A :=
  match ftp_join (ftp_root s) filename with
  | Raise _ => Ok dflt
  | Ok path =>
      match ftp_connect s with
      | Some (FtpOther e) => Raise e
      | Some _ => Ok dflt
      | None => k path
      end
  end.

(** [read]. *)
Definition ftp_read (s : FtpSource) (filename : str) : pyres (option bytes) :=
  ftp_session s filename None (λ path,
    match cl_download cl s path with
    | inl (FtpStatus _ | FtpTimeout _) => Ok None
    | inl f => Raise (uncaught f)
    | inr data => Ok (Some data)
    end).

(** [size]. *)
Definition ftp_size (s : FtpSource) (filename : str) : pyres (option Z) :=
  ftp_session s filename None (λ path,
    match cl_stat cl s path with
    | inl (FtpStatus _) => Ok None
    | inl f => Raise (uncaught f)
    | inr info =>
        if truthy info then
          match (v ← py_get info (u "size") VNone; py_int v) with
          | Ok n => Ok (Some n)
          | Raise (TypeError _ | ValueError _) => Ok None
          | Raise e => Raise e
          end
        else Ok None
    end).

(** [upload_file], given the contents of the local file. *)
Definition upload_file (s : FtpSource) (filename : str) (data : bytes) : pyres bool :=
  ftp_session s filename false (λ path,
    match cl_upload cl s path data with
    | None => Ok true
    | Some (FtpStatus _ | FtpTimeout _) => Ok false
    | Some f => Raise (uncaught f)
    end).

(** The control connection of an operation. *)
Inductive ftp_conn := NotOpened | Opened | Closed.

(** [_safe_quit], given how [quit] failed, if it did, and whether [close]
    worked. *)
Definition safe_quit (quit : option ftp_failure) (close_ok : bool) (c : ftp_conn) : ftp_conn :=
  match quit with None => Closed | Some _ => if close_ok then Closed else c end.

(** [_connect] and what it leaves open. *)
Definition open_client (s : FtpSource) : option ftp_failure * ftp_conn :=
  match cl_connect cl (ftp_host s) (ftp_port s) with
  | Some f => (Some f, NotOpened)
  | None => (cl_login cl s, Opened)
  end.

(** [ftp_session] with its connection: the [finally] of the operation. *)
Definition ftp_session_conn {A} (quit : option ftp_failure) (close_ok : bool) (s : FtpSource) (filename : str) (dflt : A)
    (k : str → pyres A) : pyres A * ftp_conn :=
  match ftp_join (ftp_root s) filename with
  | Raise _ => (Ok dflt, NotOpened)
  | Ok path =>
      match open_client s with
      | (Some (FtpOther e), c) => (Raise e, c)
      | (Some _, c) => (Ok dflt, c)
      | (None, c) => (k path, safe_quit quit close_ok c)
      end
  end.

(** Whatever the command does, an operation that got a client gives the
    connection back, and its result does not depend on how that went; a
    connection whose login failed stays open. *)
Lemma ftp_session_closes {A} quit close_ok s filename (dflt : A) k :
  quit = None ∨ close_ok = true →
  let '(r, c) := ftp_session_conn quit close_ok s filename dflt k in
  r = ftp_session s filename dflt k ∧
  (c = Opened ↔ (∃ path, ftp_join (ftp_root s) filename = Ok path) ∧
                cl_connect cl (ftp_host s) (ftp_port s) = None ∧ cl_login cl s ≠ None).
Proof.
  intros Hq. unfold ftp_session_conn, ftp_session, open_client, ftp_connect.
  destruct (ftp_join _ _) as [path|]; [|by split; [|split; [|intros ([? ?] & _)]]].
  destruct (cl_connect cl _ _) as [f|]; [by destruct f; (split; [|split; [|intros (_ & ? & _)]])|].
  destruct (cl_login cl s) as [f|]; [by destruct f; (split; [|split; [eauto|]])|].
  split; [done|]. split; [|by intros (_ & _ & ?)]. unfold safe_quit. destruct Hq as [-> | ->]; [done|by destruct quit].
Qed.

#[export] Instance ftp_is_source : FileSource FtpSource :=
  {| source_read := ftp_read; source_size := ftp_size |}.
End ftp.

(** ** Router *)

(** What [urlparse] returns; reading the port of an URL can raise. *)
Record url := mkUrl {
  url_scheme : list Z; url_host : option (list Z); url_port : pyres (option Z); url_path : list Z;
}.

Record RouterSource := mkRouter {
  rt_local : LocalSource;
  rt_primary : option FtpSource;
  rt_prefix : option FtpSource;
  rt_trigger : list Z;
  rt_folder : list Z;
  rt_pad : Z;
}.

Inductive route := ToLocal (inner : list Z) | ToFtp (s : FtpSource) (inner : list Z) | NoRoute.

(** [digits.zfill(n)] for a string of digits. *)
Definition zfill (n : Z) (s : str) : str := replicate (Z.to_nat (n - zlen s)) 48 ++ s.

(** [rest.split("/", 1)] when it has two parts. *)
Fixpoint split_once (c : Z) (s : str) : option (str * str) :=
  match s with
  | [] => None
  | x :: s' => if x =? c then Some ([], s')
               else '(a, b) ← split_once c s'; Some (x :: a, b)
  end.

Definition rewrite_prefix (r : RouterSource) (filename : str) : option str :=
  let rest := replace_chr BACKSLASH SLASH (drop (length (rt_trigger r)) filename) in
  '(digits, tail) ← split_once SLASH rest;
  if negb (isdigit digits) then None
  else Some (rt_folder r ++ zfill (rt_pad r) digits ++ [SLASH] ++ tail).

Definition ftp_for_host (r : RouterSource) (host : str) (port : Z) : FtpSource :=
  let anonymous := ftp_init host port (u "anonymous") (u "anonymous@") (u "/") in
  match rt_primary r with
  | Some p => if bool_decide (lower host = lower (ftp_host p)) && (port =? ftp_port p) then p else anonymous
  | None => anonymous
  end.

Section router.
(** [urlparse]; [None] when it raises. *)
Variable urlparse : list Z → option url.

(** [_parse_ftp_url]. *)
Definition parse_ftp_url (s : str) : pyres (option (str * Z * str)) :=
  match urlparse s with
  | None => Ok None
  | Some w =>
      if negb (bool_decide (lower (url_scheme w) = u "ftp")) then Ok None
      else match url_host w with
           | None | Some [] => Ok None
           | Some host =>
               port ← url_port w;
               Ok (Some (host,
                 match port with Some p => if p =? 0 then FTP_DEFAULT_PORT else p | None => FTP_DEFAULT_PORT end,
                 match url_path w with [] => u "/" | p => p end))
           end
  end.

(** [self.prefix_ftp and self.trigger and filename.startswith(self.trigger)]. *)
Definition triggered (r : RouterSource) (filename : str) : option FtpSource :=
  match rt_prefix r, rt_trigger r with
  | Some s, _ :: _ => if starts_with (rt_trigger r) filename then Some s else None
  | _, _ => None
  end.

(** [_resolve]. *)
Definition resolve (r : RouterSource) (filename : str) : pyres route :=
  if starts_with (u "ftp://") (lower filename) then
    parsed ← parse_ftp_url filename;
    match parsed with
    | None => Ok NoRoute
    | Some (host, port, path) => Ok (ToFtp (ftp_for_host r host port) (lstrip SLASH path))
    end
  else match triggered r filename with
  | Some s => Ok (match rewrite_prefix r filename with Some p => ToFtp s p | None => NoRoute end)
  | None => Ok (ToLocal filename)
  end.

Context `{OsPath} (d : disk) (cl : ftp_client).

Definition router_read (r : RouterSource) (filename : str) : pyres (option bytes) :=
  rt ← resolve r filename;
  match rt with
  | NoRoute => Ok None
  | ToLocal inner => local_read d (rt_local r) inner
  | ToFtp s inner => ftp_read cl s inner
  end.

Definition router_size (r : RouterSource) (filename : str) : pyres (option Z) :=
  rt ← resolve r filename;
  match rt with
  | NoRoute => Ok None
  | ToLocal inner => local_size d (rt_local r) inner
  | ToFtp s inner => ftp_size cl s inner
  end.

(** [upload], given the contents of the local file. *)
Definition router_upload (r : RouterSource) (filename : str) (data : bytes) : pyres bool :=
  if starts_with (u "ftp://") (lower filename) then
    parsed ← parse_ftp_url filename;
    match parsed with
    | None => Ok false
    | Some (host, port, path) => upload_file cl (ftp_for_host r host port) (lstrip SLASH path) data
    end
  else match triggered r filename with
  | Some s => match rewrite_prefix r filename with
              | Some p => upload_file cl s p data
              | None => Ok false
              end
  | None => Ok false
  end.

#[export] Instance router_is_source : FileSource RouterSource :=
  {| source_read := router_read; source_size := router_size |}.

(** ** Construction *)

(** [str(cfg.get(k, dflt))]. *)
Definition get_str (v : pyval) (k dflt : str) : pyres str :=
  x ← py_get v k (VStr dflt); Ok (py_str x).
Definition get_num (v : pyval) (k : str) (dflt : Z) : pyres Z :=
  x ← py_get v k (VInt dflt); py_int x.

(** The [FtpSource] a configuration block describes. *)
Definition ftp_of_block (v : pyval) : pyres FtpSource :=
  host ← get_str v (u "host") [];
  port ← get_num v (u "port") FTP_DEFAULT_PORT;
  user ← get_str v (u "user") FTP_DEFAULT_USER;
  password ← get_str v (u "password") FTP_DEFAULT_PASSWORD;
  root ← get_str v (u "root") FTP_DEFAULT_ROOT;
  Ok (ftp_init host port user password root).

(** [RouterSource.__init__]. *)
Definition router_init (local : LocalSource) (primary : option FtpSource) (prefix_cfg : pyval)
  : pyres RouterSource :=
  enabled ← (if truthy prefix_cfg then py_get prefix_cfg (u "enabled") VNone else Ok VNone);
  if truthy enabled then
    trigger ← get_str prefix_cfg (u "trigger") FTP_PREFIX_TRIGGER;
    folder ← get_str prefix_cfg (u "folder_prefix") FTP_PREFIX_FOLDER;
    pad ← get_num prefix_cfg (u "digit_pad") FTP_PREFIX_DIGIT_PAD;
    s ← ftp_of_block prefix_cfg;
    Ok (mkRouter local primary (Some s) trigger folder pad)
  else Ok (mkRouter local primary None [] [] 4).

(** [build_source]. *)
Definition build_source (cfg : pyval) : pyres RouterSource :=
  files ← get_block cfg (u "files");
  local_cfg ← get_block files (u "local");
  rootv ← py_get local_cfg (u "root") (VStr LOCAL_ROOT_DEFAULT);
  root ← (match rootv with
          | VStr p => Ok p
          | _ => Raise (TypeError (u "expected str, bytes or os.PathLike object, not " ++ type_name rootv))
          end);
  recursive ← py_get local_cfg (u "recursive") (VBool true);
  ftp_cfg ← get_block files (u "ftp");
  host ← py_get ftp_cfg (u "host") VNone;
  primary ← (if truthy host then s ← ftp_of_block ftp_cfg; Ok (Some s) else Ok None);
  prefix_cfg ← get_block files (u "ftp_prefix");
  router_init (local_init root (truthy recursive)) primary prefix_cfg.

(** ** Routing *)

(** The session and the router were built from the same configuration: the
    trigger is the router's, and is empty when there is no prefix server. *)
Definition same_trigger (r : RouterSource) (c : config) : Prop :=
  rt_trigger r = sc_ftp_trigger c ∧ (rt_prefix r = None → rt_trigger r = []).

(** The three places that decide by the shape of a name agree: a name the
    session takes for FTP ([_is_ftp_name]) is one the router never looks up on
    the local disk, and every other name is looked up there unchanged; and an
    upload goes exactly to the server and path a download of the same name
    would come from, and nowhere for a local name. *)
Theorem routing_agrees r c filename data :
  same_trigger r c →
  (is_ftp_name c filename = false → resolve r filename = Ok (ToLocal filename)) ∧
  (is_ftp_name c filename = true → ∀ inner, resolve r filename ≠ Ok (ToLocal inner)) ∧
  router_upload r filename data
  = rt ← resolve r filename;
    match rt with ToFtp s inner => upload_file cl s inner data | _ => Ok false end.
Proof.
  intros [Ht Hp]. unfold is_ftp_name, resolve, router_upload. rewrite <- Ht.
  destruct (starts_with (u "ftp://") (lower filename)).
  - split; [done|]. split.
    + intros _ inner. destruct (parse_ftp_url filename) as [[[[h p] q]|]|]; done.
    + destruct (parse_ftp_url filename) as [[[[h p] q]|]|]; done.
  - assert (triggered r filename = match rt_trigger r with
      | [] => None | t => if starts_with t filename then rt_prefix r else None end) as ->.
    { unfold triggered. destruct (rt_prefix r), (rt_trigger r); try done.
      by specialize (Hp eq_refl). }
    destruct (rt_trigger r) as [|t0 ts] eqn:E; [done|].
    destruct (starts_with (t0 :: ts) filename) eqn:Es; [|done].
    destruct (rt_prefix r) as [s|]; [|by specialize (Hp eq_refl)].
    split; [done|]. split; [intros _ inner|]; by destruct (rewrite_prefix r filename).
Qed.
End router.

Definition demo_disk : disk := mkDisk (λ _, false) (λ _, []) (λ _, None) (λ _, None).
Definition demo_client : ftp_client := 
  mkClient (λ _ _, None) (λ _, None) (λ _ _, inr [1]) (λ _ _, inr VNone) (λ _ _ _, None).
Definition demo_router : RouterSource :=
  mkRouter (mkLocal (u "C:\tftp_root") true) None
    (Some (ftp_init (u "10.9.9.9") 21 (u "share") (u "shared") (u "/"))) (u "f::") (u "BDCOM") 4.

Lemma routing_agrees_witness :
  resolve (λ _, None) demo_router (u "f::45/fw\a.bin")
    = Ok (ToFtp (ftp_init (u "10.9.9.9") 21 (u "share") (u "shared") (u "/")) (u "BDCOM0045/fw/a.bin")) ∧
  resolve (λ _, None) demo_router (u "fw.bin") = Ok (ToLocal (u "fw.bin")).
Proof.
  split; [vm_compute; reflexivity|].
  apply (routing_agrees (λ _, None) demo_client demo_router (demo_config 1) (u "fw.bin") []);
    [by split|vm_compute; reflexivity].
Defined.

(** The short form is rewritten to the folder of the padded employee number. *)
Lemma prefix_rewritten r digits tail :
  digits ≠ [] → Forall (λ c, is_digit c = true) digits →
  rewrite_prefix r (rt_trigger r ++ digits ++ SLASH :: tail)
  = Some (rt_folder r ++ zfill (rt_pad r) digits ++ SLASH :: replace_chr BACKSLASH SLASH tail).
Proof.
  intros Hne Hd. unfold rewrite_prefix. rewrite drop_app_length.
  assert (replace_chr BACKSLASH SLASH (digits ++ SLASH :: tail)
    = digits ++ SLASH :: replace_chr BACKSLASH SLASH tail) as ->.
  { unfold replace_chr. rewrite map_app. cbn [map]. f_equal.
    clear Hne. induction Hd as [|c ds Hc Hds IH]; [done|]. cbn. rewrite IH. f_equal.
      unfold is_digit in Hc. unfold BACKSLASH. destruct (Z.eqb_spec c 92); [lia|done]. }
  assert (split_once SLASH (digits ++ SLASH :: replace_chr BACKSLASH SLASH tail)
    = Some (digits, replace_chr BACKSLASH SLASH tail)) as ->.
  { clear Hne. induction Hd as [|c ds Hc Hds IH]; cbn [app split_once]; [done|]. rewrite IH.
    unfold is_digit in Hc. unfold SLASH. destruct (Z.eqb_spec c 47); [lia|done]. }
  cbn [mbind option_bind]. unfold isdigit. destruct digits as [|c ds]; [done|].
  assert (forallb is_digit (c :: ds) = true) as ->.
  { apply forallb_forall. intros x Hx. apply list_elem_of_In in Hx.
    by apply (proj1 (Forall_forall _ _) Hd). }
  done.
Qed.
