(* ===== verification/Auth.v ===== *)
(** * Admin authentication (src/core/auth.py and the login endpoints of
    src/web/app.py)

    The credential file, the session tokens with their sliding expiry and the
    WebSocket reference counts.  The handlers contain no [await] between their
    checks and their effects, so each is one atomic step.  Times are in
    milliseconds; salts and tokens are the values [secrets] returns. *)

From S2P Require Import Prelude Python.
Open Scope Z_scope.

Definition TOKEN_TTL : Z := 600000.

(** [auth.json]: absent, not a JSON object, or a record. *)
Inductive credfile :=
| NoFile
| Unreadable
| Creds (username salt hash : list Z).

Record auth := mkAuth {
  a_file : credfile;
  a_tokens : list (list Z * Z);
  a_refs : list (list Z * Z);
}.

Definition set_tokens (ts : list (str * Z)) (a : auth) : auth := mkAuth (a_file a) ts (a_refs a).
Definition set_refs (rs : list (str * Z)) (a : auth) : auth := mkAuth (a_file a) (a_tokens a) rs.
Definition set_file (f : credfile) (a : auth) : auth := mkAuth f (a_tokens a) (a_refs a).

Definition nonempty (s : str) : bool := match s with [] => false | _ => true end.

Section kdf.
(** [hashlib.pbkdf2_hmac("sha256", password, salt, ITERATIONS)]. *)
Variable kdf : list Z → list Z → list Z.

Definition has_password (a : auth) : bool :=
  match a_file a with
  | NoFile | Unreadable => false
  | Creds user salt hash => nonempty user && nonempty hash && nonempty salt
  end.

Definition save_creds (user password salt : str) (a : auth) : auth :=
  set_file (Creds user salt (kdf password salt)) a.

Definition setup_initial (user password salt : str) (a : auth) : bool * auth :=
  if has_password a then (false, a)
  else if negb (nonempty user) || negb (nonempty password) then (false, a)
  else (true, save_creds user password salt a).

Definition verify (user password : str) (a : auth) : bool :=
  if negb (has_password a) then false
  else match a_file a with
       | Creds user' salt hash => bool_decide (user = user') && bool_decide (kdf password salt = hash)
       | _ => false
       end.

(** ** Tokens *)

Definition create_token (token : str) (now : Z) (a : auth) : auth :=
  set_tokens (dict_set token (now + TOKEN_TTL) (a_tokens a)) a.

Definition check_token (token : str) (now : Z) (a : auth) : bool * auth :=
  if negb (nonempty token) then (false, a)
  else match dict_get token (a_tokens a) with
       | None => (false, a)
       | Some expiry =>
           if expiry <? now then (false, set_tokens (dict_del token (a_tokens a)) a)
           else (true, set_tokens (dict_set token (now + TOKEN_TTL) (a_tokens a)) a)
       end.

Definition revoke_token (token : str) (a : auth) : auth :=
  mkAuth (a_file a) (dict_del token (a_tokens a)) (dict_del token (a_refs a)).

Definition ws_attach (token : str) (now : Z) (a : auth) : bool * auth :=
  if negb (nonempty token) then (false, a)
  else
    let drop := mkAuth (a_file a) (dict_del token (a_tokens a)) (dict_del token (a_refs a)) in
    match dict_get token (a_tokens a) with
    | None => (false, drop)
    | Some expiry =>
        if expiry <? now then (false, drop)
        else (true, set_refs (dict_set token (default 0 (dict_get token (a_refs a)) + 1) (a_refs a)) a)
    end.

Definition ws_detach (token : str) (a : auth) : auth :=
  if negb (nonempty token) then a
  else
    let n := default 0 (dict_get token (a_refs a)) - 1 in
    if n <=? 0 then mkAuth (a_file a) (dict_del token (a_tokens a)) (dict_del token (a_refs a))
    else set_refs (dict_set token n (a_refs a)) a.

(** The tokens that have not expired. *)
Definition live (now : Z) (ts : list (str * Z)) : list (str * Z) := filter (λ te, te.2 >= now) ts.

Definition cleanup_expired (now : Z) (a : auth) : auth := set_tokens (live now (a_tokens a)) a.

Definition has_active_session (now : Z) (a : auth) : bool * auth :=
  let a := set_tokens (live now (a_tokens a)) a in
  (match a_tokens a with [] => false | _ => true end, a).

Definition change_password (old new_user new_password salt : str) (a : auth) : pyres bool * auth :=
  match a_file a with
  | NoFile => (Raise (OSError (u "No such file or directory")), a)
  | Unreadable => (Raise (ValueError (u "auth.json")), a)
  | Creds user _ _ =>
      if negb (verify user old a) then (Ok false, a)
      else (Ok true, set_tokens [] (save_creds (if nonempty new_user then new_user else user)
                                      new_password salt a))
  end.

(** ** Endpoints *)

(** What a handler answers: success with or without a new token, or a status
    code. *)
Inductive reply := Granted (token : list Z) | Done | Status (code : Z).

Definition api_login (user password token : str) (now : Z) (a : auth) : reply * auth :=
  if negb (verify user password a) then (Status 401, a)
  else match has_active_session now a with
       | (true, a) => (Status 409, a)
       | (false, a) => (Granted token, create_token token now a)
       end.

Definition api_logout (token : str) (a : auth) : reply * auth :=
  (Done, if nonempty token then revoke_token token a else a).

Definition api_auth_setup (user password salt token : str) (now : Z) (a : auth) : reply * auth :=
  if has_password a then (Status 409, a)
  else
    let user := strip_ws user in
    if negb (nonempty user) || (zlen password <? 4) then (Status 400, a)
    else match setup_initial user password salt a with
         | (false, a) => (Status 500, a)
         | (true, a) => (Granted token, create_token token now a)
         end.

(** [_require_admin]: whether the request may go on. *)
Definition require_admin (required : bool) (token : str) (now : Z) (a : auth) : bool * auth :=
  if required then check_token token now a else (true, a).

Definition api_change_password (required : bool) (token old new_user new_password salt : str) (now : Z)
    (a : auth) : pyres reply * auth :=
  match require_admin required token now a with
  | (false, a) => (Ok (Status 401), a)
  | (true, a) =>
      match change_password old new_user new_password salt a with
      | (Ok true, a) => (Ok Done, a)
      | (Ok false, a) => (Ok (Status 400), a)
      | (Raise e, a) => (Raise e, a)
      end
  end.

(** ** The running panel *)

Inductive auth_op :=
| OLogin (user password token : list Z)
| OLogout (token : list Z)
| OSetup (user password salt token : list Z)
| OChange (required : bool) (token old new_user new_password salt : list Z)
| OCheck (token : list Z)
| OAttach (token : list Z)
| ODetach (token : list Z)
| OCleanup.

Definition auth_step (now : Z) (op : auth_op) (a : auth) : auth :=
  match op with
  | OLogin user pw tok => (api_login user pw tok now a).2
  | OLogout tok => (api_logout tok a).2
  | OSetup user pw salt tok => (api_auth_setup user pw salt tok now a).2
  | OChange rq tok old nu np salt => (api_change_password rq tok old nu np salt now a).2
  | OCheck tok => (check_token tok now a).2
  | OAttach tok => (ws_attach tok now a).2
  | ODetach tok => ws_detach tok a
  | OCleanup => cleanup_expired now a
  end.

(** Operations at their times. *)
Definition auth_run (a : auth) (ops : list (Z * auth_op)) : auth :=
  fold_left (λ a o, auth_step o.1 o.2 a) ops a.

(** The token an operation issues, or lets pass and so renews. *)
Definition step_grants (now : Z) (op : auth_op) (a : auth) : list (Z * list Z) :=
  match op with
  | OLogin user pw tok => match (api_login user pw tok now a).1 with Granted t => [(now, t)] | _ => [] end
  | OSetup user pw salt tok =>
      match (api_auth_setup user pw salt tok now a).1 with Granted t => [(now, t)] | _ => [] end
  | OCheck tok => if (check_token tok now a).1 then [(now, tok)] else []
  | OChange true tok _ _ _ _ => if (check_token tok now a).1 then [(now, tok)] else []
  | _ => []
  end.

(** Every issue and every check that passed, with its time. *)
Fixpoint grants_of (a : auth) (ops : list (Z * auth_op)) : list (Z * list Z) :=
  match ops with
  | [] => []
  | (now, op) :: ops' => step_grants now op a ++ grants_of (auth_step now op a) ops'
  end.

(** ** One admin at a time *)

Lemma elem_of_del (t t' : str) (e : Z) ts : (t', e) ∈ dict_del t ts → (t', e) ∈ ts.
Proof.
  induction ts as [|[k v] ts IH]; cbn; [done|]. case_decide; rewrite !elem_of_cons; naive_solver.
Qed.

Lemma elem_of_set (t t' : str) (e e' : Z) ts :
  (t', e') ∈ dict_set t e ts → (t', e') ∈ ts ∨ (t', e') = (t, e).
Proof.
  induction ts as [|[k v] ts IH]; cbn; [rewrite list_elem_of_singleton; auto|].
  case_decide; rewrite !elem_of_cons; naive_solver.
Qed.

(** PBKDF2 returns a digest of 32 bytes. *)
Hypothesis kdf_nonempty : ∀ p s, kdf p s ≠ [].

(** [secrets.token_bytes(32)] is not empty. *)
Definition salt_ok (op : auth_op) : Prop :=
  match op with
  | OSetup _ _ salt _ | OChange _ _ _ _ _ salt => salt ≠ []
  | _ => True
  end.

Record one_admin (a : auth) : Prop := {
  oa_one : (length (a_tokens a) ≤ 1)%nat;
  oa_none : has_password a = false → a_tokens a = [];
}.

Lemma length_dict_del (t : str) (ts : list (str * Z)) : (length (dict_del t ts) ≤ length ts)%nat.
Proof. induction ts as [|[k v] ts IH]; cbn; [done|]. case_decide; cbn; lia. Qed.

Lemma length_dict_set_some (t : str) (e v : Z) (ts : list (str * Z)) :
  dict_get t ts = Some v → length (dict_set t e ts) = length ts.
Proof.
  induction ts as [|[k w] ts IH]; cbn; [done|]. case_decide; [done|]. cbn. intros Hg. by rewrite IH.
Qed.

Lemma length_live now ts : (length (live now ts) ≤ length ts)%nat.
Proof. apply length_filter. Qed.

Lemma one_admin_shrink a f ts rs :
  one_admin a → (length ts ≤ length (a_tokens a))%nat →
  has_password (mkAuth f ts rs) = has_password a → one_admin (mkAuth f ts rs).
Proof.
  intros [H1 H2] Hl Hp. split; [cbn; lia|]. rewrite Hp. intros Hn. cbn.
  rewrite (H2 Hn) in Hl. by destruct ts; [|cbn in Hl; lia].
Qed.

Lemma check_token_one tok now a : one_admin a → one_admin (check_token tok now a).2.
Proof.
  intros Ha. unfold check_token. destruct (negb _); [done|].
  destruct (dict_get tok (a_tokens a)) as [e|] eqn:Hg; [|done].
  destruct (e <? now); apply one_admin_shrink with a; auto using length_dict_del.
  by rewrite (length_dict_set_some _ _ e).
Qed.

Lemma create_token_one tok now a :
  a_tokens a = [] → has_password a = true → one_admin (create_token tok now a).
Proof. intros Ht Hp. split; cbn [create_token set_tokens a_tokens]; rewrite Ht; [done|].
  unfold has_password in *. cbn. by rewrite Hp. Qed.

Lemma auth_step_one now op a : salt_ok op → one_admin a → one_admin (auth_step now op a).
Proof.
  intros Hs Ha. destruct op as [user pw tok|tok|user pw salt tok|rq tok old nu np salt|tok|tok|tok|];
    cbn [auth_step].
  - unfold api_login, verify. destruct (negb (has_password a)) eqn:Hp; [done|]. zbool.
    destruct (negb _); [done|]. unfold has_active_session.
    pose proof (one_admin_shrink a (a_file a) (live now (a_tokens a)) (a_refs a) Ha
      (length_live _ _) eq_refl) as Hl.
    cbn [set_tokens a_tokens]. destruct (live now (a_tokens a)) eqn:E; [|exact Hl].
    by apply create_token_one.
  - unfold api_logout. cbn [snd]. destruct (nonempty tok); [|done].
    apply one_admin_shrink with a; auto using length_dict_del.
  - unfold api_auth_setup, setup_initial. destruct (has_password a) eqn:Hp; [done|].
    destruct (negb (nonempty (strip_ws user)) || _) eqn:Hu; [done|]. zbool.
    destruct (nonempty pw) eqn:Hpw; cbn [negb orb snd]; [|by rewrite orb_true_r].
    rewrite H. cbn [negb orb snd]. apply create_token_one; [by apply Ha|].
    unfold has_password, save_creds. cbn [a_file set_file]. rewrite H.
    pose proof (kdf_nonempty pw salt). cbn in Hs. by destruct (kdf pw salt), salt.
  - unfold api_change_password, require_admin.
    assert (one_admin (if rq then check_token tok now a else (true, a)).2) as Hc
      by (destruct rq; [by apply check_token_one|done]).
    destruct (if rq then check_token tok now a else (true, a)) as [[] a1]; [|done]. cbn [snd] in Hc.
    unfold change_password. destruct (a_file a1) as [| |cu cs ch] eqn:Hf; [done..|].
    destruct (negb _); [done|]. split; cbn; [lia|done].
  - by apply check_token_one.
  - unfold ws_attach. destruct (negb _); [done|].
    destruct (dict_get tok (a_tokens a)) as [e|]; [destruct (e <? now)|];
      apply one_admin_shrink with a; auto using length_dict_del.
  - unfold ws_detach. destruct (negb _); [done|]. destruct (_ <=? 0);
      apply one_admin_shrink with a; auto using length_dict_del.
  - apply one_admin_shrink with a; auto using length_live.
Qed.

(** [C35] There is never more than one admin session: from a start without
    tokens, and whatever sequence of logins, logouts, first-run setups, password
    changes, checks, WebSocket openings and closings and clean-ups happens, at
    most one token is outstanding. *)
Theorem single_admin a ops :
  a_tokens a = [] → Forall (λ o, salt_ok o.2) ops →
  (length (a_tokens (auth_run a ops)) ≤ 1)%nat.
Proof.
  intros Ht Hops. apply oa_one. assert (one_admin a) as Ha by (split; [rewrite Ht; cbn; lia|done]).
  clear Ht. revert a Ha. induction Hops as [|[now op] ops Ho Hops IH]; intros a Ha; [done|].
  cbn [auth_run fold_left]. apply IH. by apply auth_step_one.
Qed.

(** ** Idle sessions expire *)

Lemma check_token_tokens tok now a t e :
  (t, e) ∈ a_tokens (check_token tok now a).2 →
  (t, e) ∈ a_tokens a ∨ ((check_token tok now a).1 = true ∧ t = tok ∧ e = now + TOKEN_TTL).
Proof.
  unfold check_token. destruct (negb _); [by left|].
  destruct (dict_get tok (a_tokens a)) as [ex|]; [|by left]. destruct (ex <? now); cbn; intros Hin.
  - left. exact (elem_of_del _ _ _ _ Hin).
  - apply elem_of_set in Hin as [?|[= -> ->]]; auto.
Qed.

Lemma live_tokens now ts t e : (t, e) ∈ live now ts → (t, e) ∈ ts.
Proof. unfold live. by intros [_ ?]%list_elem_of_filter. Qed.

(** A token in the table was there before, or the step granted it. *)
Lemma auth_step_tokens now op a t e :
  (t, e) ∈ a_tokens (auth_step now op a) →
  (t, e) ∈ a_tokens a ∨ ((now, t) ∈ step_grants now op a ∧ e = now + TOKEN_TTL).
Proof.
  assert (∀ tok a1, (t, e) ∈ a_tokens (create_token tok now a1) →
    (t, e) ∈ a_tokens a1 ∨ (t = tok ∧ e = now + TOKEN_TTL)) as Hcr.
  { intros tok a1 Hin. apply elem_of_set in Hin as [?|[= -> ->]]; auto. }
  destruct op as [user pw tok|tok|user pw salt tok|rq tok old nu np salt|tok|tok|tok|];
    cbn [auth_step step_grants].
  - unfold api_login. destruct (negb _); [by left|]. unfold has_active_session.
    cbn [set_tokens a_tokens]. destruct (live now (a_tokens a)) eqn:E; cbn [fst snd]; intros Hin.
    + apply Hcr in Hin as [Hin|[-> ->]]; [|right; split; [cbn; by apply list_elem_of_singleton|done]].
      cbn in Hin. by apply not_elem_of_nil in Hin.
    + left. eapply live_tokens. by rewrite E.
  - unfold api_logout. cbn [snd]. destruct (nonempty tok); [|by left]. intros Hin. left. exact (elem_of_del _ _ _ _ Hin).
  - unfold api_auth_setup, setup_initial. destruct (has_password a); [by left|].
    destruct (_ || _); [by left|]. destruct (_ || _); cbn [fst snd]; [by left|]. intros Hin.
    apply Hcr in Hin as [?|[-> ->]]; [by left|right; split; [cbn; by apply list_elem_of_singleton|done]].
  - unfold api_change_password, require_admin.
    assert (∀ a1, (t, e) ∈ a_tokens (change_password old nu np salt a1).2 → (t, e) ∈ a_tokens a1) as Hch.
    { intros a1. unfold change_password. destruct (a_file a1); [done..|]. destruct (negb _); [done|].
      cbn. intros Hin. by apply not_elem_of_nil in Hin. }
    assert (∀ a1, (t, e) ∈ a_tokens (match change_password old nu np salt a1 with
        | (Ok true, a) => (Ok Done, a) | (Ok false, a) => (Ok (Status 400), a)
        | (Raise e, a) => (Raise e, a) end).2 → (t, e) ∈ a_tokens a1) as Hch2.
    { intros a1 Hin. apply Hch. by destruct (change_password _ _ _ _ a1) as [[[]|] ?]. }
    destruct rq; [|by left; apply Hch2].
    pose proof (check_token_tokens tok now a t e) as Hck.
    destruct (check_token tok now a) as [[] a1]; cbn [fst snd] in Hck |- *; intros Hin;
      [apply Hch2 in Hin|]; apply Hck in Hin as [?|(? & -> & ->)]; auto; [|done].
    right. split; [cbn; by apply list_elem_of_singleton|done].
  - intros Hin. apply check_token_tokens in Hin as [?|(-> & -> & ->)]; [by left|].
    right. split; [cbn; by apply list_elem_of_singleton|done].
  - unfold ws_attach. destruct (negb _); [by left|].
    destruct (dict_get tok (a_tokens a)) as [ex|]; [destruct (ex <? now)|]; cbn; intros Hin; left;
      (done || exact (elem_of_del _ _ _ _ Hin)).
  - unfold ws_detach. destruct (negb _); [by left|]. destruct (_ <=? 0); cbn; intros Hin; left;
      (done || exact (elem_of_del _ _ _ _ Hin)).
  - intros Hin. left. exact (live_tokens _ _ _ _ Hin).
Qed.

Lemma auth_run_tokens a ops t e :
  (t, e) ∈ a_tokens (auth_run a ops) → (t, e) ∈ a_tokens a ∨ (e - TOKEN_TTL, t) ∈ grants_of a ops.
Proof.
  revert a. induction ops as [|[now op] ops IH]; intros a; cbn [auth_run fold_left grants_of]; [by left|].
  intros Hin. apply IH in Hin as [Hin|Hin]; [|right; apply elem_of_app; by right].
  apply auth_step_tokens in Hin as [?|[Hg ->]]; [by left|]. right. apply elem_of_app. left.
  by rewrite Z.add_simpl_r.
Qed.

(** Idle admin sessions expire: a request is let through with a token only
    if that same token was issued to a login or setup, or used in a request that
    was let through, within the ten minutes before. *)
Theorem token_idle_timeout a ops tok now :
  a_tokens a = [] → (check_token tok now (auth_run a ops)).1 = true →
  ∃ t0, (t0, tok) ∈ grants_of a ops ∧ now - t0 ≤ 10 * 60 * 1000.
Proof.
  intros Ha Hc. unfold check_token in Hc. destruct (negb _); [done|].
  destruct (dict_get tok (a_tokens (auth_run a ops))) as [e|] eqn:Hg; [|done].
  destruct (Z.ltb_spec e now) as [|Hle]; [done|].
  apply dict_get_Some_in, auth_run_tokens in Hg as [Hin|Hg].
  - rewrite Ha in Hin. by apply not_elem_of_nil in Hin.
  - exists (e - TOKEN_TTL). split; [done|]. unfold TOKEN_TTL. lia.
Qed.
End kdf.

(** A stand-in key derivation for the samples. *)
Definition demo_kdf (p s : str) : bytes := 1 :: p ++ s.
Definition demo_auth : auth := mkAuth NoFile [] [].
Definition demo_ops : list (Z * auth_op) :=
  [(0, OSetup (u "admin") (u "secret") [7] (u "t1")); (1000, OLogin (u "admin") (u "secret") (u "t2"));
   (2000, OCheck (u "t1")); (602001, OLogin (u "admin") (u "secret") (u "t3"))].

Lemma single_admin_witness :
  (∀ p s, demo_kdf p s ≠ []) ∧
  a_tokens (auth_run demo_kdf demo_auth demo_ops) = [(u "t3", 1202001)] ∧
  (length (a_tokens (auth_run demo_kdf demo_auth demo_ops)) ≤ 1)%nat.
Proof.
  assert (∀ p s, demo_kdf p s ≠ []) as Hk by done. split; [done|]. split; [vm_compute; reflexivity|].
  apply (single_admin demo_kdf Hk); [reflexivity|]. repeat constructor; done.
Defined.

Lemma token_idle_timeout_witness :
  ∃ t0, (t0, u "t3") ∈ grants_of demo_kdf demo_auth demo_ops ∧ 700000 - t0 ≤ 10 * 60 * 1000.
Proof. apply (token_idle_timeout demo_kdf); vm_compute; reflexivity. Defined.

(** Detaching a WebSocket from a token that has no count - one opened before a
    restart, or with a token that was logged in elsewhere - revokes the token. *)
Lemma detach_untracked_revokes :
  let a := create_token (u "t") 0 demo_auth in
  (check_token (u "t") 1 a).1 = true ∧ (check_token (u "t") 1 (ws_detach (u "t") a)).1 = false.
Proof. split; vm_compute; reflexivity. Qed.

(** A password change accepts the empty password. *)
Lemma change_to_empty_password :
  let a := auth_run demo_kdf demo_auth [(0, OSetup (u "admin") (u "secret") [7] (u "t1"))] in
  let r := api_change_password demo_kdf true (u "t1") (u "secret") [] [] [8] 1000 a in
  r.1 = Ok Done ∧ verify demo_kdf (u "admin") [] r.2 = true.
Proof. split; vm_compute; reflexivity. Qed.
