(* ===== verification/Users.v ===== *)
(** * Employee names (src/core/users.py)

    The map from employee numbers to names that the web panel edits, its file,
    and the two places that read the employee number out of a file name:
    [UserStore.resolve_filename] and [_extract_user_id] of
    src/core/daily_stats.py. *)

From S2P Require Import Prelude Python Collections.
Open Scope Z_scope.

(** ** The number in a file name *)

(** The group of [re.match(r"^f::(\d{2,3})/", filename)].  Names come out of
    requests decoded as ASCII, so [\d] stands for the ten digits. *)
Definition prefix_id (filename : str) : option str :=
  if starts_with (u "f::") filename then
    match drop 3 filename with
    | a :: b :: c :: rest =>
        if is_digit a && is_digit b then
          if c =? 47 then Some [a; b]
          else if is_digit c then
            match rest with
            | d :: _ => if d =? 47 then Some [a; b; c] else None
            | [] => None
            end
          else None
        else None
    | _ => None
    end
  else None.

(** [_extract_user_id]: [str(int(m.group(1)))]. *)
Definition extract_user_id (filename : str) : pyres (option str) :=
  match prefix_id filename with
  | None => Ok None
  | Some ds => n ← int_of_str ds; Ok (Some (z_str n))
  end.

(** ** The store *)

Section store.
Context `{Codec}.

Record UserStore := mkUsers {
  us_users : list (list Z * list Z);
  us_file : option text;
}.

(** [_load]: whatever is not a JSON object counts as empty. *)
Definition users_load (file : option text) : list (str * str) :=
  match file with
  | None => []
  | Some t =>
      match loads t with
      | Ok (VDict d) => dict_of (map (λ kv, (kv.1, py_str kv.2)) d)
      | _ => []
      end
  end.

Definition users_init (file : option text) : UserStore := mkUsers (users_load file) file.

(** [_save]; [ok] says whether the file could be written. *)
Definition users_save (ok : bool) (s : UserStore) : UserStore :=
  if ok then mkUsers (us_users s) (Some (dumps (VDict (map (λ kv, (kv.1, VStr kv.2)) (us_users s)))))
  else s.

Definition users_get (id : str) (s : UserStore) : option str := dict_get id (us_users s).

Definition users_set (ok : bool) (id name : str) (s : UserStore) : UserStore :=
  users_save ok (mkUsers (dict_set id name (us_users s)) (us_file s)).

Definition users_delete (ok : bool) (id : str) (s : UserStore) : bool * UserStore :=
  if dict_mem id (us_users s)
  then (true, users_save ok (mkUsers (dict_del id (us_users s)) (us_file s)))
  else (false, s).

Definition users_replace_all (ok : bool) (mapping : list (str * pyval)) (s : UserStore) : UserStore :=
  users_save ok (mkUsers (dict_of (map (λ kv, (kv.1, py_str kv.2)) mapping)) (us_file s)).

(** [resolve_filename]. *)
Definition resolve_filename (filename : str) (s : UserStore) : option str :=
  match prefix_id filename with
  | None => None
  | Some ds =>
      let eid := match lstrip 48 ds with [] => u "0" | e => e end in
      users_get eid s
  end.

(** ** The file follows the map *)

Inductive user_op :=
| OpSet (id name : list Z)
| OpDelete (id : list Z)
| OpReplace (mapping : list (list Z * pyval)).

Definition user_step (s : UserStore) (op : user_op) : UserStore :=
  match op with
  | OpSet id name => users_set true id name s
  | OpDelete id => (users_delete true id s).2
  | OpReplace m => users_replace_all true m s
  end.

Definition in_sync (s : UserStore) : Prop :=
  NoDup (dict_keys (us_users s)) ∧ users_load (us_file s) = us_users s.

Lemma dict_keys_map {A B} (f : A → B) (d : list (str * A)) :
  dict_keys (map (λ kv, (kv.1, f kv.2)) d) = dict_keys d.
Proof. unfold dict_keys. rewrite map_map. done. Qed.

Lemma users_save_sync us f : NoDup (dict_keys us) → in_sync (users_save true (mkUsers us f)).
Proof.
  intros Hnd. split; [done|]. cbn [us_file us_users users_save users_load].
  rewrite loads_dumps.
  - rewrite map_map. assert (map (λ kv, (kv.1, py_str (VStr kv.2))) us = us) as Hid.
    { rewrite <- (map_id us) at 2. apply map_ext. by intros []. }
    cbn [fst snd]. rewrite Hid. by apply dict_of_id.
  - apply val_ok_dict. rewrite (dict_keys_map VStr). split; [done|].
    apply Forall_forall. by intros kv (x & -> & _)%list_elem_of_fmap.
Qed.

Lemma users_init_sync file : in_sync (users_init file).
Proof.
  split; [|done]. cbn. destruct file as [t|]; [|constructor].
  unfold users_load. destruct (loads t) as [[]|]; try constructor. apply dict_of_NoDup.
Qed.

Lemma user_step_sync s op : in_sync s → in_sync (user_step s op).
Proof.
  intros [Hn Hl]. destruct op as [id name|id|m]; cbn [user_step].
  - by apply users_save_sync, dict_set_NoDup.
  - unfold users_delete. destruct (dict_mem id _); [|done]. by apply users_save_sync, dict_del_NoDup.
  - by apply users_save_sync, dict_of_NoDup.
Qed.

(** The names survive a restart: whatever file the store started from and
    whatever edits followed, a store that reads the file back has exactly the
    names the running one has, and no number twice. *)
Theorem users_persist file ops :
  let s := fold_left user_step ops (users_init file) in
  us_users (users_init (us_file s)) = us_users s ∧ NoDup (dict_keys (us_users s)).
Proof.
  assert (∀ s, in_sync s → in_sync (fold_left user_step ops s)) as Hs.
  { induction ops as [|op ops IH]; intros s Hs; [done|]. by apply IH, user_step_sync. }
  destruct (Hs _ (users_init_sync file)) as [Hn Hl]. done.
Qed.

(** ** The two readers of the number agree *)

(** Two or three digits, as a number without leading zeros. *)
Definition short_id_ok (ds : str) : bool :=
  match int_of_str ds with
  | Ok n => bool_decide (z_str n = match lstrip 48 ds with [] => u "0" | e => e end)
  | Raise _ => false
  end.

Lemma short_ids_ok :
  forallb (λ a, forallb (λ b, short_id_ok [a; b] &&
    forallb (λ c, short_id_ok [a; b; c]) (zrange 48 58)) (zrange 48 58)) (zrange 48 58) = true.
Proof. vm_compute. reflexivity. Qed.

Lemma is_digit_range c : is_digit c = true → In c (zrange 48 58).
Proof. unfold is_digit. intros Hc. zbool. apply list_elem_of_In, elem_of_zrange. lia. Qed.

Lemma prefix_id_short filename ds : prefix_id filename = Some ds → short_id_ok ds = true.
Proof.
  pose proof short_ids_ok as Hall. rewrite forallb_forall in Hall.
  unfold prefix_id. destruct (starts_with _ _); [|done].
  destruct (drop 3 filename) as [|a [|b [|c rest]]]; try done.
  destruct (is_digit a && is_digit b) eqn:Hab; [|done]. apply andb_prop in Hab as [Ha Hb].
  specialize (Hall a (is_digit_range _ Ha)). rewrite forallb_forall in Hall.
  specialize (Hall b (is_digit_range _ Hb)). apply andb_prop in Hall as [H2 H3].
  rewrite forallb_forall in H3.
  destruct (c =? 47); [by intros [= <-]|]. destruct (is_digit c) eqn:Hc; [|done].
  destruct rest as [|d rest]; [done|]. destruct (d =? 47); [|done]. intros [= <-].
  by apply H3, is_digit_range.
Qed.

Lemma extract_user_id_spec filename :
  extract_user_id filename
  = Ok (ds ← prefix_id filename; Some (match lstrip 48 ds with [] => u "0" | e => e end)).
Proof.
  unfold extract_user_id. destruct (prefix_id filename) as [ds|] eqn:Hp; [|done].
  apply prefix_id_short in Hp. unfold short_id_ok in Hp. destruct (int_of_str ds) as [n|]; [|done].
  apply bool_decide_eq_true_1 in Hp. cbn. by rewrite Hp.
Qed.

(** The dashboard and the daily statistics agree on who asked for a file:
    [_extract_user_id] never raises, it finds a number exactly when the name
    has the form "f::NN/..." or "f::NNN/...", and [resolve_filename] answers
    with the name stored under that very number, and with none when there is
    no number. *)
Theorem user_ids_agree filename s :
  ∃ id, extract_user_id filename = Ok id ∧
    (id = None ↔ prefix_id filename = None) ∧
    resolve_filename filename s = (i ← id; users_get i s).
Proof.
  rewrite extract_user_id_spec. unfold resolve_filename.
  destruct (prefix_id filename) as [ds|]; eexists; done.
Qed.

Lemma extract_user_id_ne filename :
  ∃ id, extract_user_id filename = Ok id ∧ ∀ i, id = Some i → i ≠ [].
Proof.
  rewrite extract_user_id_spec. eexists. split; [done|].
  destruct (prefix_id filename) as [ds|]; cbn; [|done]. intros i [= <-]. by destruct (lstrip 48 ds).
Qed.
End store.

Example prefix_id_3 : prefix_id (u "f::045/fw.bin") = Some (u "045").
Proof. reflexivity. Qed.

(** Two edits of a store that starts without a file. *)
Lemma users_persist_witness :
  let s := fold_left (@user_step plain_codec) [OpSet (u "42") (u "Ann"); OpDelete (u "7")]
             (@users_init plain_codec None) in
  us_users (@users_init plain_codec (us_file s)) = [(u "42", u "Ann")].
Proof.
  intros s. etransitivity; [exact (proj1 (@users_persist plain_codec None
    [OpSet (u "42") (u "Ann"); OpDelete (u "7")]))|]. vm_compute. reflexivity.
Defined.
