(* ===== verification/Calendar.v ===== *)
(** * Dates

    The part of Python's [datetime.date] that src/core/daily_stats.py uses:
    [date.today() - timedelta(days=n)] and [isoformat()].  The point of the
    file is that the texts compare as the dates do, which the pruning of old
    days relies on. *)

From S2P Require Import Prelude Python Collections.
Open Scope Z_scope.

Record date := mkDate { d_year : Z; d_month : Z; d_day : Z }.

#[export] Instance date_eq_dec : EqDecision date.
Proof. solve_decision. Defined.

Definition is_leap (y : Z) : bool :=
  (y mod 4 =? 0) && (negb (y mod 100 =? 0) || (y mod 400 =? 0)).

Definition days_in_month (y m : Z) : Z :=
  if m =? 2 then (if is_leap y then 29 else 28)
  else if (m =? 4) || (m =? 6) || (m =? 9) || (m =? 11) then 30 else 31.

Definition date_ok (d : date) : Prop :=
  1 ≤ d_year d ≤ 9999 ∧ 1 ≤ d_month d ≤ 12 ∧ 1 ≤ d_day d ≤ days_in_month (d_year d) (d_month d).

(** A day the system clock can show. *)
Definition clock_ok (d : date) : Prop := date_ok d ∧ 1970 ≤ d_year d.

(** [d - timedelta(days=1)]. *)
Definition prev_day (d : date) : date :=
  if 1 <? d_day d then mkDate (d_year d) (d_month d) (d_day d - 1)
  else if 1 <? d_month d
       then mkDate (d_year d) (d_month d - 1) (days_in_month (d_year d) (d_month d - 1))
       else mkDate (d_year d - 1) 12 31.

(** [d - timedelta(days=n)]. *)
Fixpoint days_before (n : nat) (d : date) : date :=
  match n with
  | O => d
  | S n' => days_before n' (prev_day d)
  end.

Definition date_ltb (a b : date) : bool :=
  (d_year a <? d_year b) ||
  ((d_year a =? d_year b) &&
   ((d_month a <? d_month b) || ((d_month a =? d_month b) && (d_day a <? d_day b)))).

(** [str(n).zfill(w)] of a number. *)
Definition pad (w : nat) (n : Z) : str :=
  let s := nat_str n in replicate (w - length s) 48 ++ s.

(** [isoformat()]. *)
Definition isoformat (d : date) : str :=
  pad 4 (d_year d) ++ u "-" ++ pad 2 (d_month d) ++ u "-" ++ pad 2 (d_day d).

Arguments isoformat : simpl never.
Arguments pad : simpl never.

(** ** The texts are ordered as the dates *)

Lemma zrange_all (P : Z → bool) a b x :
  forallb P (zrange a b) = true → a ≤ x < b → P x = true.
Proof. intros Hall Hx. rewrite forallb_forall in Hall. by apply Hall, list_elem_of_In, elem_of_zrange. Qed.

Lemma pad2_order a b : 0 ≤ a < 100 → 0 ≤ b < 100 → a < b → str_ltb (pad 2 a) (pad 2 b) = true.
Proof.
  intros Ha Hb Hab.
  assert (forallb (λ a, forallb (λ b, negb (a <? b) || str_ltb (pad 2 a) (pad 2 b)) (zrange 0 100))
            (zrange 0 100) = true) as Hall by (vm_compute; reflexivity).
  apply (zrange_all _ _ _ a) in Hall; [|done]. apply (zrange_all _ _ _ b) in Hall; [|done].
  cbn beta in Hall. destruct (Z.ltb_spec a b); [exact Hall|lia].
Qed.

Lemma length_pad2 a : 0 ≤ a < 100 → length (pad 2 a) = 2%nat.
Proof.
  intros Ha. assert (forallb (λ a, bool_decide (length (pad 2 a) = 2%nat)) (zrange 0 100) = true)
    as Hall by (vm_compute; reflexivity).
  by apply (zrange_all _ _ _ a), bool_decide_eq_true_1 in Hall.
Qed.

Lemma pad4_split y : 0 ≤ y < 10000 → pad 4 y = pad 2 (y / 100) ++ pad 2 (y mod 100).
Proof.
  intros Hy.
  assert (forallb (λ y, bool_decide (pad 4 y = pad 2 (y / 100) ++ pad 2 (y mod 100))) (zrange 0 10000)
    = true) as Hall by (vm_compute; reflexivity).
  by apply (zrange_all _ _ _ y), bool_decide_eq_true_1 in Hall.
Qed.

Lemma date_ok_small d : date_ok d →
  0 ≤ d_year d / 100 < 100 ∧ 0 ≤ d_year d mod 100 < 100 ∧ 0 ≤ d_month d < 100 ∧ 0 ≤ d_day d < 100.
Proof.
  intros (Hy & Hm & Hd). split_and!; try lia.
  - apply Z.div_pos; lia.
  - apply Z.div_lt_upper_bound; lia.
  - apply Z.mod_pos_bound. lia.
  - apply Z.mod_pos_bound. lia.
  - unfold days_in_month in Hd. repeat case_hyp Hd; lia.
Qed.

Lemma isoformat_lt a b :
  date_ok a → date_ok b → date_ltb a b = true → str_ltb (isoformat a) (isoformat b) = true.
Proof.
  intros Ha Hb Hlt. destruct (date_ok_small a Ha) as (A1 & A2 & A3 & A4).
  destruct (date_ok_small b Hb) as (B1 & B2 & B3 & B4).
  unfold isoformat. destruct Ha as (Hya & _), Hb as (Hyb & _). rewrite !pad4_split, <- !app_assoc by lia.
  assert (∀ x y s t, 0 ≤ x < 100 → 0 ≤ y < 100 → x < y → str_ltb (pad 2 x ++ s) (pad 2 y ++ t) = true) as Hp.
  { intros x y s t Hx Hy Hxy. apply str_ltb_app_lt; [by rewrite !length_pad2|by apply pad2_order]. }
  unfold date_ltb in Hlt. apply orb_prop in Hlt as [Hlt|Hlt]; zbool.
  - assert (d_year a / 100 ≤ d_year b / 100) as Hdiv by (apply Z.div_le_mono; lia).
    destruct (decide (d_year a / 100 = d_year b / 100)) as [Heq|]; [|apply Hp; lia].
    rewrite Heq, str_ltb_app. apply Hp; [lia..|].
    pose proof (Z.div_mod (d_year a) 100). pose proof (Z.div_mod (d_year b) 100). lia.
  - match goal with H : d_year a = d_year b |- _ => rewrite H end. rewrite !str_ltb_app.
    match goal with H : _ || _ = true |- _ => apply orb_prop in H as [H|H] end; zbool; [by apply Hp|].
    match goal with H : d_month a = d_month b |- _ => rewrite H end. rewrite !str_ltb_app.
    rewrite <- (app_nil_r (pad 2 (d_day a))), <- (app_nil_r (pad 2 (d_day b))). by apply Hp.
Qed.

Lemma date_trichotomy a b : date_ltb a b = true ∨ a = b ∨ date_ltb b a = true.
Proof.
  destruct a as [y m d], b as [y' m' d']. unfold date_ltb. cbn [d_year d_month d_day].
  destruct (Z.lt_trichotomy y y') as [H|[->|H]].
  - left. destruct (Z.ltb_spec y y'); [done|lia].
  - rewrite Z.ltb_irrefl, Z.eqb_refl. cbn [orb andb].
    destruct (Z.lt_trichotomy m m') as [H|[->|H]].
    + left. destruct (Z.ltb_spec m m'); [done|lia].
    + rewrite Z.ltb_irrefl, Z.eqb_refl. cbn [orb andb].
      destruct (Z.lt_trichotomy d d') as [H|[->|H]]; [left; by apply Z.ltb_lt|by right; left|].
      right; right. by apply Z.ltb_lt.
    + right; right. destruct (Z.ltb_spec m' m); [done|lia].
  - right; right. destruct (Z.ltb_spec y' y); [done|lia].
Qed.

Lemma isoformat_order a b :
  date_ok a → date_ok b → str_ltb (isoformat a) (isoformat b) = date_ltb a b.
Proof.
  intros Ha Hb. destruct (date_ltb a b) eqn:E; [by apply isoformat_lt|].
  destruct (str_ltb (isoformat a) (isoformat b)) eqn:Es; [|done]. exfalso.
  destruct (date_trichotomy a b) as [|[->|Hba]]; [congruence|by rewrite str_ltb_irrefl in Es|].
  apply isoformat_lt in Hba; [|done..]. pose proof (str_ltb_trans _ _ _ Es Hba) as Hc.
  by rewrite str_ltb_irrefl in Hc.
Qed.

Lemma isoformat_inj a b : date_ok a → date_ok b → isoformat a = isoformat b → a = b.
Proof.
  intros Ha Hb Heq. destruct (date_trichotomy a b) as [Hc|[|Hc]]; [|done|];
    apply isoformat_lt in Hc; try done; by rewrite Heq, str_ltb_irrefl in Hc.
Qed.

(** ** Counting back *)

Lemma days_in_month_pos y m : 28 ≤ days_in_month y m.
Proof. unfold days_in_month. repeat case_goal; lia. Qed.

Lemma prev_day_ok d : date_ok d → 2 ≤ d_year d → date_ok (prev_day d) ∧ d_year d - 1 ≤ d_year (prev_day d) ≤ d_year d.
Proof.
  intros (Hy & Hm & Hd) H2. unfold prev_day, date_ok.
  destruct (Z.ltb_spec 1 (d_day d)); cbn; [lia|]. destruct (Z.ltb_spec 1 (d_month d)); cbn; [|lia].
  pose proof (days_in_month_pos (d_year d) (d_month d - 1)). lia.
Qed.

(** There is no date between a day and the day before it. *)
Lemma prev_day_adjacent d t :
  date_ok d → date_ok t → date_ltb d t = true → date_ltb (prev_day t) d = false.
Proof.
  intros (Hy & Hm & Hd) (Hy' & Hm' & Hd') Hlt. apply not_true_iff_false. intros Hgt.
  assert (d_day d ≤ 31) as H31 by (unfold days_in_month in Hd; repeat case_hyp Hd; lia).
  unfold date_ltb, prev_day in *.
  repeat (rewrite ?orb_true_iff, ?andb_true_iff, ?Z.ltb_lt, ?Z.eqb_eq in Hlt).
  destruct (Z.ltb_spec 1 (d_day t)); [|destruct (Z.ltb_spec 1 (d_month t))];
    cbn [d_year d_month d_day] in Hgt;
    rewrite ?orb_true_iff, ?andb_true_iff, ?Z.ltb_lt, ?Z.eqb_eq,
      ?orb_true_iff, ?andb_true_iff, ?Z.ltb_lt, ?Z.eqb_eq in Hgt; try lia.
  assert (d_year d = d_year t ∧ d_month d = d_month t - 1) as [Ey Em] by lia.
  rewrite Ey, Em in Hd. lia.
Qed.

Lemma date_ltb_irrefl d : date_ltb d d = false.
Proof. unfold date_ltb. by rewrite !Z.ltb_irrefl, !andb_false_r. Qed.

Lemma days_before_ok n t :
  date_ok t → Z.of_nat n < d_year t → date_ok (days_before n t).
Proof.
  revert t. induction n as [|n IH]; intros t Ht Hn; cbn; [done|].
  destruct (prev_day_ok t Ht) as [Hok Hy]; [lia|]. apply IH; [done|lia].
Qed.

Lemma prev_day_lt t : date_ok t → date_ltb (prev_day t) t = true.
Proof.
  intros (Hy & Hm & Hd). unfold prev_day, date_ltb.
  destruct (Z.ltb_spec 1 (d_day t)); [|destruct (Z.ltb_spec 1 (d_month t))]; cbn [d_year d_month d_day];
    rewrite ?Z.ltb_irrefl, ?Z.eqb_refl; cbn [orb andb].
  - apply Z.ltb_lt. lia.
  - apply orb_true_iff. left. apply Z.ltb_lt. lia.
  - apply orb_true_iff. left. apply Z.ltb_lt. lia.
Qed.

Lemma date_ltb_trans a b c : date_ltb a b = true → date_ltb b c = true → date_ltb a c = true.
Proof.
  unfold date_ltb. rewrite !orb_true_iff, !andb_true_iff, !orb_true_iff, !andb_true_iff, !Z.ltb_lt, !Z.eqb_eq.
  lia.
Qed.

(** The dates from [n] days ago until today are the days counted back. *)
Lemma days_window n t d :
  date_ok t → date_ok d → Z.of_nat n < d_year t →
  date_ltb d (days_before n t) = false → date_ltb t d = false →
  ∃ i, (i ≤ n)%nat ∧ d = days_before i t.
Proof.
  revert t. induction n as [|n IH]; intros t Ht Hd Hn Hlo Hhi; cbn [days_before] in Hlo.
  - exists 0%nat. split; [done|]. destruct (date_trichotomy d t) as [|[->|]]; congruence || done.
  - destruct (date_trichotomy d t) as [Hlt|[->|]]; [|by exists 0%nat; split; [lia|]|congruence].
    destruct (prev_day_ok t Ht) as [Hok Hy]; [lia|].
    destruct (IH (prev_day t)) as (i & Hi & ->); [done|done|lia|done|by apply prev_day_adjacent|].
    exists (S i). split; [lia|done].
Qed.

Lemma days_before_le n t :
  date_ok t → Z.of_nat n < d_year t → date_ltb t (days_before n t) = false.
Proof.
  intros Ht Hn. apply not_true_iff_false. revert t Ht Hn. induction n as [|n IH]; intros t Ht Hn; cbn.
  - by rewrite date_ltb_irrefl.
  - destruct (prev_day_ok t Ht) as [Hok Hy]; [lia|]. intros Hlt.
    apply (IH (prev_day t)); [done|lia|]. eapply date_ltb_trans; [by apply prev_day_lt|done].
Qed.
