(* ===== verification/Daily.v ===== *)
(** * Daily statistics (src/core/daily_stats.py)

    Per-day session totals with the sets of employees, devices and web visitors
    seen on each day, pruned to 180 days and kept in a JSON file.  A day is its
    ISO text; [date.today()] and [time.monotonic()] (in milliseconds) are
    arguments.  Whether the file could be written is an argument too: the
    source swallows the failure. *)

From S2P Require Import Prelude Python Collections Wire Stats Users Calendar.
Open Scope Z_scope.

Definition FLUSH_INTERVAL_MS : Z := 5000.
Definition RETAIN_DAYS : nat := 180.

Record bucket := mkBucket {
  b_total : Z; b_completed : Z; b_failed : Z; b_sent : Z; b_received : Z;
}.

Definition zero_bucket : bucket := mkBucket 0 0 0 0 0.

Abbreviation day_sets := (list (list Z * gset (list Z))) (only parsing).

Section daily.
Context `{Codec}.

Record daily := mkDailyStats {
  dl_data : list (list Z * bucket);
  dl_users : day_sets;
  dl_devices : day_sets;
  dl_visitors : day_sets;
  dl_dirty : bool;
  dl_last_flush : Z;
  dl_file : option text;
}.

Definition set_data (d : list (str * bucket)) (s : daily) : daily :=
  mkDailyStats d (dl_users s) (dl_devices s) (dl_visitors s) (dl_dirty s) (dl_last_flush s) (dl_file s).
Definition set_users (d : day_sets) (s : daily) : daily :=
  mkDailyStats (dl_data s) d (dl_devices s) (dl_visitors s) (dl_dirty s) (dl_last_flush s) (dl_file s).
Definition set_devices (d : day_sets) (s : daily) : daily :=
  mkDailyStats (dl_data s) (dl_users s) d (dl_visitors s) (dl_dirty s) (dl_last_flush s) (dl_file s).
Definition set_visitors (d : day_sets) (s : daily) : daily :=
  mkDailyStats (dl_data s) (dl_users s) (dl_devices s) d (dl_dirty s) (dl_last_flush s) (dl_file s).
Definition set_dirty (s : daily) : daily :=
  mkDailyStats (dl_data s) (dl_users s) (dl_devices s) (dl_visitors s) true (dl_last_flush s) (dl_file s).

(** ** Loading *)

(** [int(v.get(kk, 0) or 0)]. *)
Definition int_field (v : list (str * pyval)) (k : str) : pyres Z :=
  py_int (py_or (default (VInt 0) (dict_get k v)) (VInt 0)).

Definition load_bucket (v : list (str * pyval)) : pyres bucket :=
  a ← int_field v (u "total"); b ← int_field v (u "completed"); c ← int_field v (u "failed");
  d ← int_field v (u "bytes_sent"); e ← int_field v (u "bytes_received");
  Ok (mkBucket a b c d e).

(** [{str(x) for x in v if x}] if [v] is a list. *)
Definition load_set (norm : str → str) (v : option pyval) : option (gset (list Z)) :=
  match v with
  | Some (VList l) => Some (list_to_set (map (λ x, norm (py_str x)) (List.filter truthy l)))
  | _ => None
  end.

Definition put_set (k : str) (s : option (gset (list Z))) (d : day_sets) : day_sets :=
  match s with Some s => dict_set k s d | None => d end.

Definition load_day (k : str) (v : pyval) (s : daily) : pyres daily :=
  match v with
  | VDict v =>
      b ← load_bucket v;
      let s := set_data (dict_set k b (dl_data s)) s in
      let s := set_users (put_set k (load_set id (dict_get (u "users") v)) (dl_users s)) s in
      let s := set_devices (put_set k (load_set lower (dict_get (u "devices") v)) (dl_devices s)) s in
      Ok (set_visitors (put_set k (load_set id (dict_get (u "visitors") v)) (dl_visitors s)) s)
  | _ => Ok s
  end.

(** The loop of [_load]: an exception ends it and keeps what was read. *)
Fixpoint load_days (d : list (str * pyval)) (s : daily) : daily :=
  match d with
  | [] => s
  | (k, v) :: d' => match load_day k v s with Ok s' => load_days d' s' | Raise _ => s end
  end.

(** [DailyStats(path)]. *)
Definition daily_init (file : option text) : daily :=
  let s := mkDailyStats [] [] [] [] false 0 file in
  match file with
  | None => s
  | Some t =>
      match loads t with
      | Ok raw => match py_or raw (VDict []) with VDict d => load_days d s | _ => s end
      | Raise _ => s
      end
  end.

(** ** Writing *)

Definition bucket_items (b : bucket) : list (str * pyval) :=
  [(u "total", VInt (b_total b)); (u "completed", VInt (b_completed b)); (u "failed", VInt (b_failed b));
   (u "bytes_sent", VInt (b_sent b)); (u "bytes_received", VInt (b_received b))].

(** A set that is there and not empty, as a sorted list. *)
Definition set_items (name : str) (s : option (gset (list Z))) : list (str * pyval) :=
  match s with
  | Some s => if decide (s = ∅) then [] else [(name, VList (map VStr (sorted_strs (elements s))))]
  | None => []
  end.

Definition day_items (k : str) (s : daily) : list (str * pyval) :=
  match dict_get k (dl_data s) with Some b => bucket_items b | None => [] end ++
  set_items (u "users") (dict_get k (dl_users s)) ++
  set_items (u "devices") (dict_get k (dl_devices s)) ++
  set_items (u "visitors") (dict_get k (dl_visitors s)).

Definition all_days (s : daily) : list str :=
  remove_dups (dict_keys (dl_data s) ++ dict_keys (dl_devices s)
                ++ dict_keys (dl_visitors s) ++ dict_keys (dl_users s)).

Definition flush_value (s : daily) : pyval :=
  VDict (sort_dict (map (λ k, (k, VDict (sort_dict (day_items k s)))) (all_days s))).

(** [_flush_locked]. *)
Definition flush_locked (ok : bool) (now : Z) (s : daily) : daily :=
  if ok then mkDailyStats (dl_data s) (dl_users s) (dl_devices s) (dl_visitors s) false now
               (Some (dumps (flush_value s)))
  else s.

(** [_maybe_flush_locked]. *)
Definition maybe_flush (force ok : bool) (now : Z) (s : daily) : daily :=
  if negb (dl_dirty s) then s
  else if force || (FLUSH_INTERVAL_MS <=? now - dl_last_flush s) then flush_locked ok now s else s.

(** ** Recording *)

(** [_prune_locked]. *)
Definition cutoff (today : date) : str := isoformat (days_before RETAIN_DAYS today).

Definition stale_days (today : date) (s : daily) : list str :=
  List.filter (λ k, str_ltb k (cutoff today)) (dict_keys (dl_data s)).

Definition drop_day (s : daily) (k : str) : daily :=
  set_visitors (dict_del k (dl_visitors s))
    (set_devices (dict_del k (dl_devices s))
      (set_users (dict_del k (dl_users s)) (set_data (dict_del k (dl_data s)) s))).

Definition prune (today : date) (s : daily) : daily := fold_left drop_day (stale_days today s) s.

(** [d.setdefault(k, set()).add(x)]. *)
Definition add_to (k x : str) (d : day_sets) : day_sets :=
  dict_set k ({[x]} ∪ default ∅ (dict_get k d)) d.

Definition bucket_record (success fault : bool) (sent received : Z) (b : bucket) : bucket :=
  mkBucket (b_total b + 1)
    (b_completed b + if success then 1 else 0)
    (b_failed b + if negb success && fault then 1 else 0)
    (b_sent b + sent) (b_received b + received).

(** [record], with the wrapper of the module around it that swallows an
    exception; [today] is read once for the bucket and once for the pruning. *)
Definition daily_record (success fault : bool) (sent received : Z) (filename client_mac : str)
    (today today' : date) (now : Z) (ok : bool) (s : daily) : daily :=
  let k := isoformat today in
  let b := default zero_bucket (dict_get k (dl_data s)) in
  let s := set_data (dict_set k (bucket_record success fault sent received b) (dl_data s)) s in
  match extract_user_id filename with
  | Raise _ => s
  | Ok uid =>
      let s := match uid with Some i => set_users (add_to k i (dl_users s)) s | None => s end in
      let s := match client_mac with [] => s | m => set_devices (add_to k (lower m) (dl_devices s)) s end in
      maybe_flush false ok now (prune today' (set_dirty s))
  end.

(** [record_visitor]. *)
Definition daily_visitor (ip : str) (today today' : date) (now : Z) (ok : bool) (s : daily) : daily :=
  match ip with
  | [] => s
  | _ =>
      let k := isoformat today in
      if decide (ip ∈ default ∅ (dict_get k (dl_visitors s))) then s
      else maybe_flush false ok now
             (prune today' (set_dirty (set_visitors (add_to k ip (dl_visitors s)) s)))
  end.

(** [flush]. *)
Definition daily_flush (now : Z) (ok : bool) (s : daily) : daily := maybe_flush true ok now s.

(** ** What the web panel shows *)

Definition bucket_of (s : daily) (k : str) : bucket := default zero_bucket (dict_get k (dl_data s)).
Definition set_of (d : day_sets) (k : str) : gset (list Z) := default ∅ (dict_get k d).

(** A row of the chart: date, totals and the number of employees. *)
Definition daily_row (s : daily) (d : date) : list Z * bucket * nat :=
  let k := isoformat d in (k, bucket_of s k, size (set_of (dl_users s) k)).

(** [recent]: oldest first. *)
Definition recent (days : Z) (today : date) (s : daily) : list (list Z * bucket * nat) :=
  let n := Z.to_nat (Z.max 1 (Z.min days (Z.of_nat RETAIN_DAYS))) in
  map (λ i, daily_row s (days_before i today)) (rev (seq 0 n)).

(** [today]. *)
Definition today_row (today : date) (s : daily) : list Z * bucket * nat * nat * nat :=
  let k := isoformat today in
  (daily_row s today, size (set_of (dl_devices s) k), size (set_of (dl_visitors s) k)).

(** [user_counts]. *)
Definition user_counts (today : date) (s : daily) : nat * nat :=
  (size (set_of (dl_users s) (isoformat today)), size (⋃ (map snd (dl_users s)))).

(** [reach_counts]. *)
Definition reach_counts (today : date) (s : daily) : nat * nat :=
  (size (set_of (dl_visitors s) (isoformat today)), size (set_of (dl_devices s) (isoformat today))).

(** ** Operations *)

Inductive daily_op :=
| DRecord (success fault : bool) (sent received : Z) (filename client_mac : list Z)
| DVisitor (ip : list Z)
| DFlush.

(** An operation at a moment that does not straddle midnight. *)
Definition daily_step (op : daily_op) (today : date) (now : Z) (ok : bool) (s : daily) : daily :=
  match op with
  | DRecord success fault sent received filename mac =>
      daily_record success fault sent received filename mac today today now ok s
  | DVisitor ip => daily_visitor ip today today now ok s
  | DFlush => daily_flush now ok s
  end.

(** ** The state stays well formed *)

(** The members a set of the given kind may have. *)
Definition members (P : str → Prop) (d : day_sets) : Prop :=
  NoDup (dict_keys d) ∧ ∀ k S x, dict_get k d = Some S → x ∈ S → P x.

Record daily_wf (s : daily) : Prop := {
  wf_data : NoDup (dict_keys (dl_data s));
  wf_users : members (λ x, x ≠ []) (dl_users s);
  wf_devices : members (λ x, x ≠ [] ∧ lower x = x) (dl_devices s);
  wf_visitors : members (λ x, x ≠ []) (dl_visitors s);
}.

Lemma members_set P k S d :
  members P d → (∀ x, x ∈ S → P x) → members P (dict_set k S d).
Proof.
  intros [Hn Hm] HS. split; [by apply dict_set_NoDup|]. intros k' S' x. rewrite dict_get_set.
  case_decide; [intros [= <-]; apply HS|apply Hm].
Qed.

Lemma members_del P k d : members P d → members P (dict_del k d).
Proof.
  intros [Hn Hm]. split; [by apply dict_del_NoDup|]. intros k' S x Hg.
  destruct (decide (k' = k)) as [->|Hne]; [by rewrite dict_get_del_eq in Hg|].
  rewrite dict_get_del_ne in Hg by done. by apply (Hm k').
Qed.

Lemma members_add P k x d : members P d → P x → members P (add_to k x d).
Proof.
  intros Hm Hx. apply members_set; [done|]. intros y [->%elem_of_singleton|Hy]%elem_of_union; [done|].
  destruct (dict_get k d) as [S|] eqn:Hg; cbn in Hy; [|set_solver]. by apply (proj2 Hm k S).
Qed.

Lemma members_put P k norm v d :
  members P d → (∀ y, truthy y = true → P (norm (py_str y))) → members P (put_set k (load_set norm v) d).
Proof.
  intros Hm Hn. destruct v as [[]|]; cbn [load_set put_set]; try done. apply members_set; [done|].
  intros x Hx. apply elem_of_list_to_set, list_elem_of_fmap in Hx as (y & -> & Hy).
  apply Hn. by apply list_elem_of_In, filter_In in Hy as [_ Hy].
Qed.

Lemma py_str_truthy v : truthy v = true → py_str v ≠ [].
Proof.
  destruct v as [|[]|z|s| |]; cbn [py_str py_repr truthy]; try done.
  - intros _. unfold z_str. destruct (z <? 0); [done|apply nat_str_ne].
  - intros Hs. by apply negb_true_iff, bool_decide_eq_false_1 in Hs.
Qed.

Lemma wf_set_data d s : daily_wf s → NoDup (dict_keys d) → daily_wf (set_data d s).
Proof. intros [????] ?. by split. Qed.
Lemma wf_set_users d s : daily_wf s → members (λ x, x ≠ []) d → daily_wf (set_users d s).
Proof. intros [????] ?. by split. Qed.
Lemma wf_set_devices d s :
  daily_wf s → members (λ x, x ≠ [] ∧ lower x = x) d → daily_wf (set_devices d s).
Proof. intros [????] ?. by split. Qed.
Lemma wf_set_visitors d s : daily_wf s → members (λ x, x ≠ []) d → daily_wf (set_visitors d s).
Proof. intros [????] ?. by split. Qed.

Lemma wf_set_dirty s : daily_wf s → daily_wf (set_dirty s).
Proof. by intros [??? ?]. Qed.

Lemma wf_flush ok now s : daily_wf s → daily_wf (flush_locked ok now s).
Proof. intros [????]. by destruct ok. Qed.

Lemma wf_maybe_flush force ok now s : daily_wf s → daily_wf (maybe_flush force ok now s).
Proof. intros. unfold maybe_flush. repeat case_goal; auto using wf_flush. Qed.

Lemma wf_drop_day s k : daily_wf s → daily_wf (drop_day s k).
Proof. intros [????]. split; [by apply dict_del_NoDup|by apply members_del..]. Qed.

Lemma wf_prune t s : daily_wf s → daily_wf (prune t s).
Proof.
  unfold prune. generalize (stale_days t s). intros ks. revert s.
  induction ks as [|k ks IH]; intros s Hs; cbn; [done|]. by apply IH, wf_drop_day.
Qed.

Lemma lower_nil s : lower s = [] → s = [].
Proof. by destruct s. Qed.

Lemma prune_dirty t s : dl_dirty (prune t s) = dl_dirty s.
Proof.
  unfold prune. generalize (stale_days t s). intros ks. revert s.
  induction ks as [|k ks IH]; intros s; cbn; [done|]. by rewrite IH.
Qed.

(** Recording ends with a flush that is tried on a changed, well-formed
    state. *)
Lemma record_flushes success fault sent received f m t t' now s :
  daily_wf s → ∃ s1, daily_wf s1 ∧ dl_dirty s1 = true ∧
    ∀ ok, daily_record success fault sent received f m t t' now ok s = maybe_flush false ok now s1.
Proof.
  intros Hs. unfold daily_record. destruct (extract_user_id_ne f) as (uid & -> & Hi).
  set (s1 := set_data _ s). assert (daily_wf s1) as H1.
  { apply wf_set_data; [done|]. apply dict_set_NoDup, Hs. }
  clearbody s1. set (s2 := match uid with Some i => _ | None => s1 end).
  assert (daily_wf s2) as H2.
  { destruct uid as [i|]; [|done]. apply wf_set_users; [done|]. apply members_add; [apply H1|by apply Hi]. }
  clearbody s2. eexists. split_and!; [| |intros; reflexivity]; [|by rewrite prune_dirty].
  apply wf_prune, wf_set_dirty. destruct m as [|c m]; [done|]. apply wf_set_devices; [done|].
  apply members_add; [apply H2|]. split; [done|apply lower_idem].
Qed.

Lemma visitor_flushes ip t t' now s :
  daily_wf s → (∀ ok, daily_visitor ip t t' now ok s = s) ∨
    ∃ s1, daily_wf s1 ∧ dl_dirty s1 = true ∧ ∀ ok, daily_visitor ip t t' now ok s = maybe_flush false ok now s1.
Proof.
  intros Hs. unfold daily_visitor. destruct ip as [|c ip]; [by left|]. case_decide; [by left|]. right.
  eexists. split_and!; [| |intros; reflexivity]; [|by rewrite prune_dirty].
  apply wf_prune, wf_set_dirty, wf_set_visitors; [done|]. apply members_add; [apply Hs|done].
Qed.

Lemma wf_step op t now ok s : daily_wf s → daily_wf (daily_step op t now ok s).
Proof.
  intros Hs. destruct op; cbn [daily_step]; [| |by apply wf_maybe_flush].
  - destruct (record_flushes success fault sent received filename client_mac t t now s Hs) as (s1 & ? & _ & ->).
    by apply wf_maybe_flush.
  - destruct (visitor_flushes ip t t now s Hs) as [->|(s1 & ? & _ & ->)]; [done|]. by apply wf_maybe_flush.
Qed.

Lemma wf_load_days d s : daily_wf s → daily_wf (load_days d s).
Proof.
  revert s. induction d as [|[k v] d IH]; intros s Hs; cbn [load_days]; [done|].
  destruct (load_day k v s) as [s'|] eqn:Hl; [|done]. apply IH. unfold load_day in Hl.
  destruct v; simplify_eq; try done. destruct (load_bucket _); simplify_eq/=.
  assert (∀ y, truthy y = true → lower (py_str y) ≠ []) as Hne
    by (intros y Hy ?%lower_nil; by apply (py_str_truthy y)).
  apply wf_set_visitors; [apply wf_set_devices; [apply wf_set_users; [apply wf_set_data; [done|]|]|]|];
    destruct Hs; [by apply dict_set_NoDup|..]; (apply members_put; [done|]);
    intros y Hy; first [by apply (py_str_truthy y)|split; [by apply Hne|apply lower_idem]].
Qed.

Lemma wf_init file : daily_wf (daily_init file).
Proof.
  assert (∀ f, daily_wf (mkDailyStats [] [] [] [] false 0 f)) as He.
  { intros f. split; [constructor| | |]; (split; [constructor|done]). }
  unfold daily_init. destruct file as [t|]; [|done]. destruct (loads t) as [raw|]; [|done].
  destruct (py_or raw _); auto using wf_load_days.
Qed.

(** ** A restart shows what was flushed *)

Definition view_eq (s s' : daily) : Prop :=
  ∀ k, bucket_of s k = bucket_of s' k ∧ set_of (dl_users s) k = set_of (dl_users s') k ∧
       set_of (dl_devices s) k = set_of (dl_devices s') k ∧
       set_of (dl_visitors s) k = set_of (dl_visitors s') k.

(** The keys of the sets of a day, without and with the five totals. *)
Lemma set_items_key name o kv : kv ∈ set_items name o → kv.1 = name.
Proof.
  destruct o as [S|]; cbn; [|by intros ?%elem_of_nil]. case_decide; [by intros ?%elem_of_nil|].
  by intros ->%list_elem_of_singleton.
Qed.

Lemma set_items_get name o k :
  dict_get k (set_items name o) =
  if decide (k = name) then (S ← o; if decide (S = ∅) then None else Some (VList (map VStr (sorted_strs (elements S)))))
  else None.
Proof.
  destruct o as [S|]; cbn; [|by case_decide]. case_decide; cbn; by repeat case_decide.
Qed.

Lemma dict_get_app {A} k (d1 d2 : list (str * A)) :
  dict_get k (d1 ++ d2) = match dict_get k d1 with Some v => Some v | None => dict_get k d2 end.
Proof. induction d1 as [|[k' v] d1 IH]; cbn; [done|]. by case_decide. Qed.

Lemma NoDup_set_items name o : NoDup (dict_keys (set_items name o)).
Proof. destruct o; cbn; [|constructor]. case_decide; cbn; [constructor|apply NoDup_singleton]. Qed.

(** Two dictionaries without a common key. *)
Lemma NoDup_keys_app {A} (d1 d2 : list (str * A)) :
  NoDup (dict_keys d1) → NoDup (dict_keys d2) → (∀ k, k ∈ dict_keys d1 → dict_get k d2 = None) →
  NoDup (dict_keys (d1 ++ d2)).
Proof.
  intros H1 H2 Hd. unfold dict_keys. rewrite map_app. apply NoDup_app. split_and!; [done| |done].
  intros k Hk. by apply dict_get_None, Hd.
Qed.

Lemma set_items_keys name o k : k ∈ dict_keys (set_items name o) → k = name.
Proof. intros (kv & -> & Hkv)%list_elem_of_fmap. by apply set_items_key in Hkv. Qed.

Lemma NoDup_day_items k s : NoDup (dict_keys (day_items k s)).
Proof.
  unfold day_items.
  assert (∀ k b, k ∈ dict_keys (bucket_items b) →
    k ∈ [u "total"; u "completed"; u "failed"; u "bytes_sent"; u "bytes_received"]) as Hb by done.
  repeat apply NoDup_keys_app; try apply NoDup_set_items.
  - destruct (dict_get k (dl_data s)); [|constructor]. cbn. by apply (bool_decide_unpack _); vm_compute.
  - intros k' ->%set_items_keys. by rewrite set_items_get, decide_False by str_ne.
  - intros k' ->%set_items_keys. by rewrite dict_get_app, !set_items_get, !decide_False by str_ne.
  - intros k' Hk'. destruct (dict_get k (dl_data s)); [|by apply elem_of_nil in Hk'].
    apply Hb in Hk'. rewrite !dict_get_app, !set_items_get.
    repeat (apply elem_of_cons in Hk' as [->|Hk']; [by rewrite !decide_False by str_ne|]).
    by apply elem_of_nil in Hk'.
Qed.

(** What [_load] makes of the totals of a day it wrote. *)
Lemma load_bucket_items k s :
  load_bucket (sort_dict (day_items k s)) = Ok (bucket_of s k).
Proof.
  assert (∀ f, f ∈ [u "total"; u "completed"; u "failed"; u "bytes_sent"; u "bytes_received"] →
    int_field (sort_dict (day_items k s)) f
    = Ok (default 0 (b ← dict_get k (dl_data s); v ← dict_get f (bucket_items b);
                     match v with VInt z => Some z | _ => None end))) as Hf.
  { intros f Hf. unfold int_field. rewrite sort_dict_get by apply NoDup_day_items. unfold day_items.
    rewrite !dict_get_app, !set_items_get.
    destruct (dict_get k (dl_data s)) as [b|];
      repeat (apply elem_of_cons in Hf as [->|Hf]; [|]); try (by apply elem_of_nil in Hf).
    all: rewrite ?decide_False by str_ne; try done.
    all: cbn [mbind option_bind]; match goal with |- context [dict_get ?f (bucket_items ?b)] =>
      let v := eval vm_compute in (dict_get f (bucket_items b)) in
      change (dict_get f (bucket_items b)) with v end.
    all: cbn [default mbind option_bind from_option id]; apply py_int_or_0. }
  unfold load_bucket. rewrite !Hf by (apply (bool_decide_unpack _); vm_compute; exact I).
  unfold bucket_of. destruct (dict_get k (dl_data s)) as [[]|]; done.
Qed.

Lemma load_set_items (norm : str → str) o :
  (∀ S x, o = Some S → x ∈ S → x ≠ [] ∧ norm x = x) →
  default ∅ (load_set norm (S ← o; if decide (S = ∅) then None
                             else Some (VList (map VStr (sorted_strs (elements S))))))
  = default ∅ o.
Proof.
  intros Hn. destruct o as [S|]; cbn; [|done]. case_decide as He; cbn; [by subst|].
  apply set_eq. intros x. rewrite elem_of_list_to_set, list_elem_of_fmap. split.
  - intros (y & -> & Hy). apply list_elem_of_In, filter_In in Hy as [Hy _].
    apply list_elem_of_In, list_elem_of_fmap in Hy as (z & -> & Hz).
    apply elem_of_sort_by, elem_of_elements in Hz. cbn. by destruct (Hn S z eq_refl Hz) as [_ ->].
  - intros Hx. destruct (Hn S x eq_refl Hx) as [Hne Hnx]. exists (VStr x). split; [done|].
    apply list_elem_of_In, filter_In. split.
    + apply list_elem_of_In, list_elem_of_fmap. exists x. split; [done|].
      by apply elem_of_sort_by, elem_of_elements.
    + cbn. by rewrite bool_decide_eq_false_2.
Qed.

Lemma day_items_set (k : str) (s : daily) (name : str) (d : list (str * gset (list Z))) :
  (name = u "users" ∧ d = dl_users s) ∨ (name = u "devices" ∧ d = dl_devices s) ∨
  (name = u "visitors" ∧ d = dl_visitors s) →
  dict_get name (sort_dict (day_items k s))
  = S ← dict_get k d; if decide (S = ∅) then None
                      else Some (VList (map VStr (sorted_strs (elements S)))).
Proof.
  intros Hn. rewrite sort_dict_get by apply NoDup_day_items. unfold day_items.
  rewrite !dict_get_app, !set_items_get.
  assert (dict_get name (match dict_get k (dl_data s) with Some b => bucket_items b | None => [] end) = None) as ->.
  { destruct (dict_get k (dl_data s)); [|done]. apply dict_get_None.
    destruct Hn as [[-> _]|[[-> _]|[-> _]]]; apply (bool_decide_unpack _); vm_compute; exact I. }
  destruct Hn as [[-> ->]|[[-> ->]|[-> ->]]];
    repeat (rewrite decide_False by str_ne); rewrite decide_True by done;
    match goal with |- context [dict_get k ?d] => destruct (dict_get k d) as [S|] end;
    cbn; try done; by case_decide.
Qed.

Lemma set_of_put norm k k' v d :
  set_of (put_set k (load_set norm v) d) k'
  = if decide (k' = k) then default (set_of d k) (load_set norm v) else set_of d k'.
Proof.
  unfold put_set, set_of. destruct (load_set norm v); cbn; [rewrite dict_get_set|]; by case_decide; subst.
Qed.

(** Reading back the days in [ks], in that order, over a state without them. *)
Lemma load_days_view s ks s0 :
  daily_wf s → NoDup ks →
  (∀ k, k ∈ ks → bucket_of s0 k = zero_bucket ∧ set_of (dl_users s0) k = ∅ ∧
                 set_of (dl_devices s0) k = ∅ ∧ set_of (dl_visitors s0) k = ∅) →
  let s1 := load_days (map (λ k, (k, VDict (sort_dict (day_items k s)))) ks) s0 in
  ∀ k, let src := if decide (k ∈ ks) then s else s0 in
    bucket_of s1 k = bucket_of src k ∧ set_of (dl_users s1) k = set_of (dl_users src) k ∧
    set_of (dl_devices s1) k = set_of (dl_devices src) k ∧
    set_of (dl_visitors s1) k = set_of (dl_visitors src) k.
Proof.
  intros [Hd Hu Hv Hw] Hnd. revert s0. induction Hnd as [|k0 ks Hni Hnd IH]; intros s0 H0 s1 k.
  { subst s1. by rewrite decide_False by apply not_elem_of_nil. }
  subst s1. cbn [map load_days]. unfold load_day. rewrite load_bucket_items. cbn [mbind pyres_bind].
  rewrite (day_items_set k0 s (u "users") (dl_users s)) by (by left).
  rewrite (day_items_set k0 s (u "devices") (dl_devices s)) by (by right; left).
  rewrite (day_items_set k0 s (u "visitors") (dl_visitors s)) by (by right; right).
  match goal with |- context [load_days _ ?y] => set (s2 := y) end.
  assert (∀ k', bucket_of s2 k' = bucket_of (if decide (k' = k0) then s else s0) k' ∧
    set_of (dl_users s2) k' = set_of (dl_users (if decide (k' = k0) then s else s0)) k' ∧
    set_of (dl_devices s2) k' = set_of (dl_devices (if decide (k' = k0) then s else s0)) k' ∧
    set_of (dl_visitors s2) k' = set_of (dl_visitors (if decide (k' = k0) then s else s0)) k') as H2.
  { intros k'. subst s2. destruct (H0 k0 (list_elem_of_here _ _)) as (_ & E1 & E2 & E3).
    cbn [dl_users dl_devices dl_visitors set_visitors set_devices set_users set_data]. rewrite !set_of_put.
    unfold bucket_of at 1. cbn [dl_data set_visitors set_devices set_users set_data]. rewrite dict_get_set.
    destruct (decide (k' = k0)) as [->|]; [|done]. rewrite E1, E2, E3, !load_set_items; [done|..].
    - intros S x HS Hx. split; [by apply (proj2 Hw k0 S)|done].
    - intros S x HS Hx. by apply (proj2 Hv k0 S).
    - intros S x HS Hx. split; [by apply (proj2 Hu k0 S)|done]. }
  clearbody s2. specialize (IH s2).
  destruct (IH) with (k := k) as (I1 & I2 & I3 & I4).
  { intros k' Hk'. destruct (H2 k') as (-> & -> & -> & ->).
    rewrite !decide_False by (by intros ->). apply H0. by apply elem_of_cons; right. }
  rewrite I1, I2, I3, I4. destruct (H2 k) as (J1 & J2 & J3 & J4).
  destruct (decide (k ∈ ks)) as [Hin|Hin].
  - rewrite decide_True by (by apply elem_of_cons; right). done.
  - rewrite J1, J2, J3, J4. destruct (decide (k = k0)) as [->|Hne].
    + by rewrite decide_True by apply list_elem_of_here.
    + by rewrite decide_False by (by intros [?|?]%elem_of_cons).
Qed.

(** The text [_flush_locked] writes is read back whole. *)
Lemma flush_value_keys s :
  ∃ ks, ks ≡ₚ all_days s ∧
        flush_value s = VDict (map (λ k, (k, VDict (sort_dict (day_items k s)))) ks).
Proof.
  unfold flush_value, sort_dict at 1.
  match goal with |- context [sort_by ?le (map ?f ?l)] =>
    destruct (Permutation_map_inv _ _ (sort_by_Permutation le (map f l))) as (ks & Heq & Hp) end.
  exists ks. split; [done|]. by rewrite Heq.
Qed.

Lemma set_items_ok name o kv : kv ∈ set_items name o → val_ok kv.2.
Proof.
  destruct o as [S|]; cbn; [|by intros ?%elem_of_nil]. case_decide; [by intros ?%elem_of_nil|].
  intros ->%list_elem_of_singleton. apply val_ok_list, Forall_forall.
  by intros v (x & -> & _)%list_elem_of_fmap.
Qed.

Lemma bucket_items_ok b kv : kv ∈ bucket_items b → val_ok kv.2.
Proof.
  unfold bucket_items. intros Hkv.
  repeat (apply elem_of_cons in Hkv as [->|Hkv]; [done|]). by apply elem_of_nil in Hkv.
Qed.

Lemma flush_value_ok s : val_ok (flush_value s).
Proof.
  destruct (flush_value_keys s) as (ks & Hp & ->). apply val_ok_dict. split.
  - unfold dict_keys. rewrite map_map, map_id, Hp. apply NoDup_remove_dups.
  - apply Forall_forall. intros kv (k & -> & _)%list_elem_of_fmap. cbn [snd].
    apply val_ok_dict. split; [apply sort_dict_NoDup, NoDup_day_items|].
    apply Forall_forall. intros kv Hkv%elem_of_sort_by. unfold day_items in Hkv.
    repeat (apply elem_of_app in Hkv as [Hkv|Hkv]); eauto using set_items_ok.
    destruct (dict_get k (dl_data s)); [by eapply bucket_items_ok|by apply elem_of_nil in Hkv].
Qed.

Lemma not_in_days s k : k ∉ all_days s →
  bucket_of s k = zero_bucket ∧ set_of (dl_users s) k = ∅ ∧ set_of (dl_devices s) k = ∅ ∧
  set_of (dl_visitors s) k = ∅.
Proof.
  unfold all_days. rewrite elem_of_remove_dups, !elem_of_app. intros Hk.
  assert (∀ A (d : list (str * A)), k ∉ dict_keys d → dict_get k d = None) as Hn
    by (intros; by apply dict_get_None).
  unfold bucket_of, set_of. rewrite !Hn; [done|tauto..].
Qed.

Lemma flush_view s : daily_wf s → view_eq (daily_init (Some (dumps (flush_value s)))) s.
Proof.
  intros Hwf k. unfold daily_init. rewrite loads_dumps by apply flush_value_ok.
  destruct (flush_value_keys s) as (ks & Hp & ->).
  assert (py_or (VDict (map (λ k, (k, VDict (sort_dict (day_items k s)))) ks)) (VDict [])
          = VDict (map (λ k, (k, VDict (sort_dict (day_items k s)))) ks)) as -> by (by destruct ks).
  cbv beta iota. match goal with |- context [load_days _ ?x] => set (s0 := x) end.
  destruct (load_days_view s ks s0 Hwf) with (k := k) as (-> & -> & -> & ->).
  - rewrite Hp. apply NoDup_remove_dups.
  - done.
  - destruct (decide (k ∈ ks)) as [|Hni]; [done|]. rewrite Hp in Hni.
    by destruct (not_in_days s k Hni) as (-> & -> & -> & ->).
Qed.

(** Equal views show the same to the web panel. *)
Lemma elem_of_union_days (d : day_sets) x :
  NoDup (dict_keys d) → x ∈ ⋃ (map snd d) ↔ ∃ k, x ∈ set_of d k.
Proof.
  intros Hnd. rewrite elem_of_union_list. split.
  - intros (S & ([k S'] & -> & Hin)%list_elem_of_fmap & Hx). exists k. unfold set_of.
    by rewrite (dict_get_in k S' d Hnd Hin).
  - intros (k & Hx). unfold set_of in Hx. destruct (dict_get k d) as [S|] eqn:Hg; [|by cbn in Hx; set_solver].
    exists S. split; [|done]. apply list_elem_of_fmap. exists (k, S). split; [done|]. by apply dict_get_Some_in.
Qed.

Lemma views_shown s s' :
  daily_wf s → daily_wf s' → view_eq s s' →
  ∀ today days,
    recent days today s = recent days today s' ∧ today_row today s = today_row today s' ∧
    user_counts today s = user_counts today s' ∧ reach_counts today s = reach_counts today s'.
Proof.
  intros Hs Hs' Hv today days.
  assert (∀ d, daily_row s d = daily_row s' d) as Hrow.
  { intros d. unfold daily_row. by destruct (Hv (isoformat d)) as (-> & -> & _ & _). }
  unfold today_row, user_counts, reach_counts.
  destruct (Hv (isoformat today)) as (_ & -> & -> & ->). rewrite Hrow. split_and!; try done.
  - unfold recent. apply map_ext. auto.
  - f_equal. f_equal. apply set_eq. intros x. destruct (wf_users _ Hs), (wf_users _ Hs').
    rewrite !elem_of_union_days by done. split; intros (k & Hx); exists k; destruct (Hv k) as (_ & E & _).
    + by rewrite <- E.
    + by rewrite E.
Qed.

(** A sequence of operations, each with its day, time and whether the disk
    takes a write. *)
Definition daily_run (ops : list (daily_op * date * Z * bool)) (s : daily) : daily :=
  fold_left (λ s '(op, today, now, ok), daily_step op today now ok s) ops s.

(** A state that owes the disk nothing has its views in the file. *)
Definition synced (s : daily) : Prop :=
  daily_wf s ∧ (dl_dirty s = false → view_eq (daily_init (dl_file s)) s).

Lemma synced_maybe_flush force ok now s : synced s → synced (maybe_flush force ok now s).
Proof.
  intros [Hw Hs]. split; [by apply wf_maybe_flush|]. unfold maybe_flush.
  destruct (dl_dirty s) eqn:Hd; cbn [negb]; [|by auto]. case_goal; [|congruence].
  destruct ok; cbn [flush_locked]; [|congruence]. intros _ k. exact (flush_view s Hw k).
Qed.

Lemma synced_step op t now ok s : synced s → synced (daily_step op t now ok s).
Proof.
  intros Hs. destruct op; cbn [daily_step]; [| |by apply synced_maybe_flush].
  - destruct (record_flushes success fault sent received filename client_mac t t now s (proj1 Hs))
      as (s1 & ? & ? & ->). apply synced_maybe_flush. split; [done|congruence].
  - destruct (visitor_flushes ip t t now s (proj1 Hs)) as [->|(s1 & ? & ? & ->)]; [done|].
    apply synced_maybe_flush. split; [done|congruence].
Qed.

Lemma init_fields file : dl_file (daily_init file) = file ∧ dl_dirty (daily_init file) = false.
Proof.
  assert (∀ d s, dl_file (load_days d s) = dl_file s ∧ dl_dirty (load_days d s) = dl_dirty s) as Hl.
  { induction d as [|[k v] d IH]; intros s; cbn [load_days]; [done|].
    destruct (load_day k v s) as [s'|] eqn:Hd; [|done]. destruct (IH s') as [-> ->].
    unfold load_day in Hd. destruct v; simplify_eq; try done. by destruct (load_bucket _); simplify_eq/=. }
  unfold daily_init. destruct file as [t|]; [|done]. destruct (loads t) as [raw|]; [|done].
  by destruct (py_or raw _).
Qed.

Lemma synced_run ops file : synced (daily_run ops (daily_init file)).
Proof.
  assert (synced (daily_init file)) as Hi.
  { split; [apply wf_init|]. intros _. by rewrite (proj1 (init_fields file)). }
  unfold daily_run. revert Hi. generalize (daily_init file). induction ops as [|[[[op t] now] ok] ops IH];
    intros s Hs; cbn; [done|]. by apply IH, synced_step.
Qed.

(** [C26] After any run from any file - readable or not, with disk errors and
    clock jumps on the way - and a final flush that reaches the disk, a new
    process that loads the file shows the web panel exactly what the old one
    showed: the chart, today's row and the employee, device and visitor
    counts. *)
Theorem daily_restart (file : option text) ops now :
  let s := daily_run ops (daily_init file) in
  let s' := daily_init (dl_file (daily_flush now true s)) in
  ∀ today days,
    recent days today s' = recent days today s ∧ today_row today s' = today_row today s ∧
    user_counts today s' = user_counts today s ∧ reach_counts today s' = reach_counts today s.
Proof.
  intros s s'. destruct (synced_run ops file) as [Hw Hs]. fold s in Hw, Hs.
  apply views_shown; [apply wf_init|done|]. subst s'. unfold daily_flush, maybe_flush.
  destruct (dl_dirty s); cbn [negb orb flush_locked dl_file]; [by apply flush_view|by apply Hs].
Qed.

(** ** What pruning keeps *)

Lemma drop_days_get ks s k :
  daily_wf s →
  let s' := fold_left drop_day ks s in
  dict_get k (dl_data s') = (if decide (k ∈ ks) then None else dict_get k (dl_data s)) ∧
  dict_get k (dl_users s') = (if decide (k ∈ ks) then None else dict_get k (dl_users s)) ∧
  dict_get k (dl_devices s') = (if decide (k ∈ ks) then None else dict_get k (dl_devices s)) ∧
  dict_get k (dl_visitors s') = (if decide (k ∈ ks) then None else dict_get k (dl_visitors s)).
Proof.
  revert s. induction ks as [|k0 ks IH]; intros s Hw s'.
  { subst s'. by rewrite !decide_False by apply not_elem_of_nil. }
  subst s'. cbn [fold_left]. destruct (IH (drop_day s k0) (wf_drop_day s k0 Hw)) as (-> & -> & -> & ->).
  cbn [drop_day dl_data dl_users dl_devices dl_visitors set_data set_users set_devices set_visitors].
  destruct (decide (k ∈ ks)) as [|Hni]; [by rewrite !decide_True by (by apply elem_of_cons; right)|].
  destruct (decide (k = k0)) as [->|Hne].
  - destruct Hw as [? [? _] [? _] [? _]]. rewrite !dict_get_del_eq by done.
    by rewrite !decide_True by apply list_elem_of_here.
  - rewrite !dict_get_del_ne by done. by rewrite !decide_False by (by intros [?|?]%elem_of_cons).
Qed.

Lemma stale_days_spec t s k :
  k ∈ stale_days t s ↔ k ∈ dict_keys (dl_data s) ∧ str_ltb k (cutoff t) = true.
Proof. unfold stale_days. by rewrite list_elem_of_In, filter_In, <- list_elem_of_In. Qed.

(** The totals before the cut-off go. *)
Lemma prune_data_get t s k :
  daily_wf s →
  dict_get k (dl_data (prune t s)) = if str_ltb k (cutoff t) then None else dict_get k (dl_data s).
Proof.
  intros Hw. unfold prune. destruct (drop_days_get (stale_days t s) s k Hw) as (-> & _).
  case_decide as Hk; rewrite stale_days_spec in Hk; [by destruct Hk as [_ ->]|].
  destruct (str_ltb k (cutoff t)); [|done]. apply dict_get_None. tauto.
Qed.

(** A day of a set goes with its totals: it is stale and has a bucket. *)
Definition dropped (t : date) (s : daily) (k : str) : bool :=
  str_ltb k (cutoff t) && bool_decide (k ∈ dict_keys (dl_data s)).

Lemma prune_sets_get t s k :
  daily_wf s →
  dict_get k (dl_users (prune t s)) = (if dropped t s k then None else dict_get k (dl_users s)) ∧
  dict_get k (dl_devices (prune t s)) = (if dropped t s k then None else dict_get k (dl_devices s)) ∧
  dict_get k (dl_visitors (prune t s)) = (if dropped t s k then None else dict_get k (dl_visitors s)).
Proof.
  intros Hw. unfold prune. destruct (drop_days_get (stale_days t s) s k Hw) as (_ & -> & -> & ->).
  assert ((if decide (k ∈ stale_days t s) then true else false) = dropped t s k) as He.
  { unfold dropped. destruct (decide (k ∈ stale_days t s)) as [Hk|Hk]; rewrite stale_days_spec in Hk.
    - destruct Hk as [? ->]. by rewrite bool_decide_eq_true_2.
    - destruct (str_ltb k (cutoff t)); [|done]. by rewrite bool_decide_eq_false_2 by tauto. }
  rewrite <- He. by destruct (decide (k ∈ stale_days t s)).
Qed.

Lemma maybe_flush_same force ok now s :
  let s' := maybe_flush force ok now s in
  dl_data s' = dl_data s ∧ dl_users s' = dl_users s ∧ dl_devices s' = dl_devices s ∧
  dl_visitors s' = dl_visitors s.
Proof.
  unfold maybe_flush. destruct (negb (dl_dirty s)); [done|]. case_goal; [|done]. by destruct ok.
Qed.

Lemma cutoff_order t d :
  clock_ok t → date_ok d → str_ltb (isoformat d) (cutoff t) = date_ltb d (days_before RETAIN_DAYS t).
Proof.
  intros [Ht Hy] Hd. unfold cutoff. apply isoformat_order; [done|]. apply days_before_ok; [done|].
  unfold RETAIN_DAYS. lia.
Qed.

Lemma today_kept t : clock_ok t → str_ltb (isoformat t) (cutoff t) = false.
Proof.
  intros [Ht Hy]. rewrite cutoff_order by done. apply days_before_le; [done|]. unfold RETAIN_DAYS. lia.
Qed.

Lemma dropped_keys t s k : dropped t s k = true → str_ltb k (cutoff t) = true ∧ k ∈ dict_keys (dl_data s).
Proof. unfold dropped. by intros [? ?%bool_decide_eq_true_1]%andb_true_iff. Qed.

(** The views after pruning and a possible flush. *)
Lemma pruned_views ok now t s k :
  daily_wf s →
  let s' := maybe_flush false ok now (prune t (set_dirty s)) in
  bucket_of s' k = (if str_ltb k (cutoff t) then zero_bucket else bucket_of s k) ∧
  set_of (dl_users s') k = (if dropped t s k then ∅ else set_of (dl_users s) k) ∧
  set_of (dl_devices s') k = (if dropped t s k then ∅ else set_of (dl_devices s) k) ∧
  set_of (dl_visitors s') k = (if dropped t s k then ∅ else set_of (dl_visitors s) k).
Proof.
  intros Hw%wf_set_dirty s'. subst s'. unfold bucket_of, set_of.
  destruct (maybe_flush_same false ok now (prune t (set_dirty s))) as (-> & -> & -> & ->).
  rewrite (prune_data_get t _ k Hw). destruct (prune_sets_get t _ k Hw) as (-> & -> & ->).
  unfold dropped. cbn [dl_data dl_users dl_devices dl_visitors set_dirty].
  split; [by destruct (str_ltb k (cutoff t))|]. by destruct (str_ltb k (cutoff t) && _).
Qed.

Lemma bucket_of_set k k' b s :
  bucket_of (set_data (dict_set k b (dl_data s)) s) k' = if decide (k' = k) then b else bucket_of s k'.
Proof. unfold bucket_of. cbn [dl_data set_data]. rewrite dict_get_set. by case_decide. Qed.

Lemma set_of_add k k' x d :
  set_of (add_to k x d) k' = if decide (k' = k) then {[x]} ∪ set_of d k else set_of d k'.
Proof. unfold set_of, add_to. rewrite dict_get_set. by case_decide; subst. Qed.

(** The state [record] prunes. *)
Definition recorded success fault sent received (uid : option str) (mac : str) (k : str) (s : daily) : daily :=
  let s1 := set_data (dict_set k (bucket_record success fault sent received (bucket_of s k)) (dl_data s)) s in
  let s2 := match uid with Some i => set_users (add_to k i (dl_users s1)) s1 | None => s1 end in
  match mac with [] => s2 | m => set_devices (add_to k (lower m) (dl_devices s2)) s2 end.

Lemma recorded_fields success fault sent received uid mac k s :
  let s' := recorded success fault sent received uid mac k s in
  dl_data s' = dict_set k (bucket_record success fault sent received (bucket_of s k)) (dl_data s) ∧
  dl_users s' = (match uid with Some i => add_to k i (dl_users s) | None => dl_users s end) ∧
  dl_devices s' = (match mac with [] => dl_devices s | m => add_to k (lower m) (dl_devices s) end) ∧
  dl_visitors s' = dl_visitors s ∧ dl_file s' = dl_file s.
Proof. unfold recorded. by destruct uid, mac. Qed.

Lemma wf_recorded success fault sent received uid mac k s :
  daily_wf s → (∀ i, uid = Some i → i ≠ []) → daily_wf (recorded success fault sent received uid mac k s).
Proof.
  intros [Hd Hu Hv Hz] Hi. destruct (recorded_fields success fault sent received uid mac k s) as (E1 & E2 & E3 & E4 & _).
  split; [rewrite E1; by apply dict_set_NoDup|rewrite E2|rewrite E3|by rewrite E4].
  - destruct uid; [|done]. apply members_add; auto.
  - destruct mac; [done|]. apply members_add; [done|]. split; [done|apply lower_idem].
Qed.

Lemma daily_record_eq success fault sent received f mac t t' now s :
  ∃ uid, extract_user_id f = Ok uid ∧ (∀ i, uid = Some i → i ≠ []) ∧
    ∀ ok, daily_record success fault sent received f mac t t' now ok s
          = maybe_flush false ok now
              (prune t' (set_dirty (recorded success fault sent received uid mac (isoformat t) s))).
Proof.
  unfold daily_record. destruct (extract_user_id_ne f) as (uid & -> & Hi). exists uid. by split_and!.
Qed.

(** [C27] Recording a finished session counts it in today's bucket and nowhere
    else - one more in total, in completed or (a server fault) in failed, its
    bytes added -, adds the employee the file name gives and the lower-cased
    MAC to today's sets, leaves every other day as it was, and drops exactly
    the totals more than 180 days old with their sets. *)
Theorem daily_record_exact file ops success fault sent received filename mac t now ok k :
  clock_ok t →
  let s := daily_run ops (daily_init file) in
  let s' := daily_record success fault sent received filename mac t t now ok s in
  let today := bool_decide (k = isoformat t) in
  let b := bucket_of s k in
  bucket_of s' k
  = (if today then
       mkBucket (b_total b + 1) (if success then b_completed b + 1 else b_completed b)
         (if negb success && fault then b_failed b + 1 else b_failed b) (b_sent b + sent) (b_received b + received)
     else if str_ltb k (cutoff t) then zero_bucket else bucket_of s k) ∧
  set_of (dl_users s') k
  = (if today then match extract_user_id filename with Ok (Some i) => {[i]} | _ => ∅ end ∪ set_of (dl_users s) k
     else if dropped t s k then ∅ else set_of (dl_users s) k) ∧
  set_of (dl_devices s') k
  = (if today then match mac with [] => ∅ | m => {[lower m]} end ∪ set_of (dl_devices s) k
     else if dropped t s k then ∅ else set_of (dl_devices s) k) ∧
  set_of (dl_visitors s') k = (if dropped t s k then ∅ else set_of (dl_visitors s) k).
Proof.
  intros Ht s s' today b. destruct (synced_run ops file) as [Hw _]. fold s in Hw. clearbody s.
  destruct (daily_record_eq success fault sent received filename mac t t now s) as (uid & Hx & Hi & Heq).
  subst s'. rewrite Heq, Hx. set (r := recorded success fault sent received uid mac (isoformat t) s).
  destruct (pruned_views ok now t r k) as (-> & -> & -> & ->); [by apply wf_recorded|].
  pose proof (today_kept t Ht) as Hk.
  destruct (recorded_fields success fault sent received uid mac (isoformat t) s) as (E1 & E2 & E3 & E4 & _).
  fold r in E1, E2, E3, E4.
  assert (bucket_of r k = if decide (k = isoformat t) then bucket_record success fault sent received (bucket_of s k)
                          else bucket_of s k) as ->.
  { unfold bucket_of at 1. rewrite E1, dict_get_set. case_decide; by subst. }
  rewrite E2, E3, E4. subst today.
  destruct (decide (k = isoformat t)) as [->|Hne].
  - rewrite bool_decide_eq_true_2 by done. unfold dropped. rewrite Hk. cbn [andb]. split_and!; [| | |done].
    + unfold bucket_record, b. destruct success, fault; cbn [negb andb]; by rewrite ?Z.add_0_r.
    + destruct uid; [by rewrite set_of_add, decide_True by done|]. set_solver.
    + destruct mac; [set_solver|]. by rewrite set_of_add, decide_True by done.
  - rewrite bool_decide_eq_false_2 by done. assert (dropped t r k = dropped t s k) as ->.
    { unfold dropped. rewrite E1. f_equal. apply bool_decide_ext. rewrite elem_of_dict_keys_set. tauto. }
    split_and!; [done| | |done]; f_equal.
    + destruct uid; [by rewrite set_of_add, decide_False by done|done].
    + destruct mac; [done|by rewrite set_of_add, decide_False by done].
Qed.

(** ** What every reachable state keeps *)

(** Whether some dictionary has an entry for the day. *)
Definition has_day (s : daily) (k : str) : Prop :=
  dict_get k (dl_data s) ≠ None ∨ dict_get k (dl_users s) ≠ None ∨
  dict_get k (dl_devices s) ≠ None ∨ dict_get k (dl_visitors s) ≠ None.

(** Employees and devices have entries on days with totals only. *)
Definition sets_counted (s : daily) : Prop :=
  ∀ k, dict_get k (dl_users s) ≠ None ∨ dict_get k (dl_devices s) ≠ None → dict_get k (dl_data s) ≠ None.

Definition bucket_ok (b : bucket) : Prop :=
  0 ≤ b_completed b ∧ 0 ≤ b_failed b ∧ b_completed b + b_failed b ≤ b_total b.

Lemma dict_set_has {A} k v (d : list (str * A)) k' : dict_get k' (dict_set k v d) ≠ None ↔ k' = k ∨ dict_get k' d ≠ None.
Proof. rewrite dict_get_set. case_decide; naive_solver. Qed.

Lemma put_set_has k o d k' : dict_get k' (put_set k o d) ≠ None → k' = k ∨ dict_get k' d ≠ None.
Proof. destruct o; cbn; [by rewrite dict_set_has|by right]. Qed.

(** Loading adds the days of the file, each with its totals. *)
Lemma load_days_has d s :
  sets_counted s →
  sets_counted (load_days d s) ∧ ∀ k, has_day (load_days d s) k → k ∈ dict_keys d ∨ has_day s k.
Proof.
  revert s. induction d as [|[k0 v] d IH]; intros s Hs; cbn [load_days]; [split; [done|by right]|].
  destruct (load_day k0 v s) as [s'|] eqn:Hl; [|split; [done|by right]].
  assert (sets_counted s' ∧ ∀ k, has_day s' k → k = k0 ∨ has_day s k) as [Hs' Hh].
  { unfold load_day in Hl. destruct v; simplify_eq; try (split; [done|by right]).
    destruct (load_bucket _); simplify_eq/=. split.
    - intros k Hk. cbn [dl_data dl_users dl_devices set_visitors set_devices set_users set_data] in *.
      rewrite dict_set_has. destruct Hk as [Hk|Hk]; apply put_set_has in Hk as [?|?]; auto.
    - unfold has_day. cbn [dl_data dl_users dl_devices dl_visitors set_visitors set_devices set_users set_data].
      intros k. rewrite dict_set_has. intros [Hk|[Hk|[Hk|Hk]]]; try (apply put_set_has in Hk); tauto. }
  destruct (IH s' Hs') as [Hc Hk]. split; [done|]. intros k [?|[->|?]%Hh]%Hk; [left|left|by right].
  - by apply elem_of_cons; right.
  - apply list_elem_of_here.
Qed.

Lemma init_has file : sets_counted (daily_init file).
Proof.
  unfold daily_init. destruct file as [t|]; [|by intros k [?|?]]. destruct (loads t) as [raw|]; [|by intros k [?|?]].
  destruct (py_or raw _); try (by intros k [?|?]). apply load_days_has. by intros k [?|?].
Qed.

Lemma elem_of_all_days s k : k ∈ all_days s ↔ has_day s k.
Proof.
  unfold all_days, has_day. rewrite elem_of_remove_dups, !elem_of_app.
  assert (∀ A (d : list (str * A)), k ∈ dict_keys d ↔ dict_get k d ≠ None) as Hd.
  { intros A d. rewrite dict_get_None. destruct (decide (k ∈ dict_keys d)); tauto. }
  rewrite !Hd. tauto.
Qed.

Lemma flush_has s k : has_day (daily_init (Some (dumps (flush_value s)))) k → has_day s k.
Proof.
  unfold daily_init. rewrite loads_dumps by apply flush_value_ok.
  destruct (flush_value_keys s) as (ks & Hp & ->).
  assert (py_or (VDict (map (λ k, (k, VDict (sort_dict (day_items k s)))) ks)) (VDict [])
          = VDict (map (λ k, (k, VDict (sort_dict (day_items k s)))) ks)) as -> by (by destruct ks).
  cbv beta iota. intros [Hk|Hk]%load_days_has; [|unfold has_day in Hk; cbn in Hk; tauto|by intros ? [?|?]].
  unfold dict_keys in Hk. rewrite map_map, map_id, Hp in Hk. by apply elem_of_all_days.
Qed.

(** The invariant at a day [t]: proper totals, and no day after [t]. *)
Record daily_inv (t : date) (s : daily) : Prop := {
  inv_wf : daily_wf s;
  inv_counted : sets_counted s;
  inv_buckets : ∀ k, bucket_ok (bucket_of s k);
  inv_past : ∀ k, has_day s k → ∃ d, k = isoformat d ∧ date_ok d ∧ date_ltb t d = false;
}.

Lemma inv_flushed t s : daily_inv t s → daily_inv t (daily_init (Some (dumps (flush_value s)))).
Proof.
  intros [Hw Hc Hb Hp]. split; [apply wf_init|apply init_has| |].
  - intros k. by destruct (flush_view s Hw k) as (-> & _).
  - intros k Hk%flush_has. by apply Hp.
Qed.

Lemma inv_later t t' s :
  date_ltb t' t = false → daily_inv t s → daily_inv t' s.
Proof.
  intros Hle [Hw Hc Hb Hp]. split; [done..|]. intros k (d & -> & Hd & Hlt)%Hp. exists d. split_and!; [done..|].
  apply not_true_iff_false. intros Hgt. destruct (date_trichotomy t t') as [Ht|[->|Ht]]; [|congruence..].
  assert (date_ltb t d = true); [by eapply date_ltb_trans|congruence].
Qed.

Lemma inv_same t s s' :
  dl_data s' = dl_data s → dl_users s' = dl_users s → dl_devices s' = dl_devices s →
  dl_visitors s' = dl_visitors s → daily_inv t s → daily_inv t s'.
Proof.
  intros E1 E2 E3 E4 [[????] Hc Hb Hp]. split.
  - split; by rewrite ?E1, ?E2, ?E3, ?E4.
  - unfold sets_counted. by rewrite E1, E2, E3.
  - unfold bucket_of. by rewrite E1.
  - unfold has_day. by rewrite E1, E2, E3, E4.
Qed.

Lemma inv_prune t t' s : daily_inv t s → daily_inv t (prune t' s).
Proof.
  intros [Hw Hc Hb Hp].
  assert (∀ k, dict_get k (dl_data (prune t' s)) ≠ None → dict_get k (dl_data s) ≠ None) as Hd.
  { intros k. rewrite prune_data_get by done. by case_goal. }
  split; [by apply wf_prune| | |].
  - intros k. destruct (prune_sets_get t' s k Hw) as (-> & -> & _). rewrite prune_data_get by done.
    unfold dropped. destruct (str_ltb k (cutoff t')); cbn [andb]; [|apply Hc].
    destruct (decide (k ∈ dict_keys (dl_data s))) as [Hk|Hk].
    + rewrite bool_decide_eq_true_2 by done. naive_solver.
    + rewrite bool_decide_eq_false_2 by done. intros Hx%Hc. by apply dict_get_None in Hk.
  - intros k. unfold bucket_of. rewrite prune_data_get by done. case_goal; [done|apply Hb].
  - intros k Hk. apply Hp. unfold has_day in *. rewrite prune_data_get in Hk by done.
    destruct (prune_sets_get t' s k Hw) as (Eu & Ed & Ev). rewrite Eu, Ed, Ev in Hk.
    destruct (dropped t' s k), (str_ltb k (cutoff t')); tauto.
Qed.

(** What is on the disk can be restarted from. *)
Definition daily_good (t : date) (s : daily) : Prop :=
  daily_inv t s ∧ daily_inv t (daily_init (dl_file s)).

Lemma good_maybe_flush t force ok now s : daily_good t s → daily_good t (maybe_flush force ok now s).
Proof.
  intros [Hs Hf]. destruct (maybe_flush_same force ok now s) as (E1 & E2 & E3 & E4).
  split; [by apply (inv_same t s)|]. unfold maybe_flush. destruct (negb (dl_dirty s)); [done|].
  case_goal; [|done]. destruct ok; cbn [flush_locked dl_file]; [by apply inv_flushed|done].
Qed.

Lemma prune_file t s : dl_file (prune t s) = dl_file s.
Proof.
  unfold prune. generalize (stale_days t s). intros ks. revert s.
  induction ks as [|k ks IH]; intros s; cbn; [done|]. by rewrite IH.
Qed.

Lemma inv_dirty t s : daily_inv t s → daily_inv t (set_dirty s).
Proof. by apply inv_same. Qed.

Lemma bucket_record_ok success fault sent received b :
  bucket_ok b → bucket_ok (bucket_record success fault sent received b).
Proof. unfold bucket_ok. destruct success, fault; cbn; lia. Qed.

Lemma add_to_has k x d k' : dict_get k' (add_to k x d) ≠ None ↔ k' = k ∨ dict_get k' d ≠ None.
Proof. apply dict_set_has. Qed.

Lemma inv_recorded t success fault sent received uid mac s :
  clock_ok t → (∀ i, uid = Some i → i ≠ []) → daily_inv t s →
  daily_inv t (recorded success fault sent received uid mac (isoformat t) s).
Proof.
  intros [Ht _] Hi [Hw Hc Hb Hp].
  destruct (recorded_fields success fault sent received uid mac (isoformat t) s) as (E1 & E2 & E3 & E4 & _).
  split; [by apply wf_recorded|..].
  - intros k. rewrite E1, E2, E3, dict_set_has.
    specialize (Hc k). destruct uid, mac; rewrite ?add_to_has; tauto.
  - intros k. unfold bucket_of. rewrite E1, dict_get_set. case_decide; [|apply Hb].
    apply bucket_record_ok, Hb.
  - intros k Hk. assert (k = isoformat t ∨ has_day s k) as [->|Hk'].
    { unfold has_day in *. rewrite E1, E2, E3, E4, dict_set_has in Hk.
      destruct uid, mac; rewrite ?add_to_has in Hk; tauto. }
    + exists t. split_and!; [done..|apply date_ltb_irrefl].
    + by apply Hp.
Qed.

Lemma inv_visited t ip s :
  clock_ok t → ip ≠ [] → daily_inv t s →
  daily_inv t (set_visitors (add_to (isoformat t) ip (dl_visitors s)) s).
Proof.
  intros [Ht _] Hip [Hw Hc Hb Hp]. split; [|done..|].
  - apply wf_set_visitors; [done|]. apply members_add; [apply Hw|done].
  - intros k Hk. assert (k = isoformat t ∨ has_day s k) as [->|Hk'].
    { unfold has_day in *. cbn [dl_data dl_users dl_devices dl_visitors set_visitors] in Hk.
      rewrite add_to_has in Hk. tauto. }
    + exists t. split_and!; [done..|apply date_ltb_irrefl].
    + by apply Hp.
Qed.

Lemma recorded_file success fault sent received uid mac k s :
  dl_file (recorded success fault sent received uid mac k s) = dl_file s.
Proof. apply recorded_fields. Qed.

Lemma good_step t op now ok s : clock_ok t → daily_good t s → daily_good t (daily_step op t now ok s).
Proof.
  intros Ht Hg. destruct op; cbn [daily_step]; [| |by apply good_maybe_flush].
  - destruct (daily_record_eq success fault sent received filename client_mac t t now s) as (uid & _ & Hi & ->).
    apply good_maybe_flush. split; [by apply inv_prune, inv_dirty, inv_recorded; [..|apply Hg]|].
    rewrite prune_file. cbn [dl_file set_dirty]. rewrite recorded_file. apply Hg.
  - unfold daily_visitor. destruct ip as [|c ip]; [done|]. case_decide; [done|].
    apply good_maybe_flush. split; [by apply inv_prune, inv_dirty, inv_visited; [..|apply Hg]|].
    rewrite prune_file. apply Hg.
Qed.

(** The states of the program over days that do not go back, with restarts. *)
Inductive daily_reach : date → daily → Prop :=
| reach_start t : clock_ok t → daily_reach t (daily_init None)
| reach_step t t' s op now ok :
    daily_reach t s → clock_ok t' → date_ltb t' t = false → daily_reach t' (daily_step op t' now ok s)
| reach_restart t s : daily_reach t s → daily_reach t (daily_init (dl_file s)).

Lemma reach_good t s : daily_reach t s → clock_ok t ∧ daily_good t s.
Proof.
  induction 1 as [t Ht|t t' s op now ok _ [_ IH] Ht Hle|t s _ [Ht IH]].
  - assert (daily_inv t (daily_init None)) as Hi; [|by split; [|split]].
    split; [apply wf_init|apply init_has|done|]. unfold has_day. cbn. tauto.
  - split; [done|]. apply good_step; [done|]. destruct IH. split; by eapply inv_later.
  - split; [done|]. split; [apply IH|]. rewrite (proj1 (init_fields _)). apply IH.
Qed.

(** The days left after pruning are among 181. *)
Lemma pruned_length t s : clock_ok t → daily_inv t s → (length (dl_data (prune t s)) ≤ 181)%nat.
Proof.
  intros [Ht Hy] Hi. pose proof (inv_prune t t s Hi) as [Hw _ _ Hp].
  replace (length (dl_data (prune t s))) with (length (dict_keys (dl_data (prune t s))))
    by apply length_map.
  replace 181%nat with (length (map (λ i, isoformat (days_before i t)) (seq 0 181)))
    by (by rewrite length_map, length_seq).
  apply submseteq_length, NoDup_submseteq; [apply Hw|]. intros k Hk.
  assert (dict_get k (dl_data (prune t s)) ≠ None) as Hg by (by rewrite dict_get_None; intros []).
  destruct (Hp k) as (d & -> & Hd & Hle); [by left|].
  rewrite prune_data_get in Hg by apply Hi. destruct (str_ltb (isoformat d) (cutoff t)) eqn:Hc; [done|].
  rewrite cutoff_order in Hc by done. assert (Z.of_nat RETAIN_DAYS < d_year t) as Hr by (unfold RETAIN_DAYS; lia).
  destruct (days_window RETAIN_DAYS t d Ht Hd Hr Hc Hle) as (i & Hlt & ->).
  apply list_elem_of_fmap. exists i. split; [done|]. apply elem_of_seq. unfold RETAIN_DAYS in Hlt. lia.
Qed.

(** From an empty start, over days that do not go back, with any restarts
    and disk failures: on every day completed and failed sessions together
    are no more than the total and none is negative, an employee or a device
    is noted on counted days only, and whenever a session is recorded the
    store is left with at most 181 days (today and the 180 before it). *)
Theorem daily_invariant t s :
  daily_reach t s →
  (∀ k, bucket_ok (bucket_of s k)) ∧ sets_counted s ∧
  ∀ success fault sent received filename mac now ok,
    (length (dl_data (daily_step (DRecord success fault sent received filename mac) t now ok s)) ≤ 181)%nat.
Proof.
  intros [Ht [Hi _]]%reach_good. split_and!; [apply Hi|apply Hi|]. intros. cbn [daily_step].
  destruct (daily_record_eq success fault sent received filename mac t t now s) as (uid & _ & Hn & ->).
  destruct (maybe_flush_same false ok now
    (prune t (set_dirty (recorded success fault sent received uid mac (isoformat t) s)))) as (-> & _).
  apply pruned_length; [done|]. by apply inv_dirty, inv_recorded.
Qed.

(** Visitors of a day without a session outlive the retention period. *)
Lemma prune_keeps_visitors t s k :
  daily_wf s → dict_get k (dl_data s) = None → set_of (dl_visitors (prune t s)) k = set_of (dl_visitors s) k.
Proof.
  intros Hw Hk. unfold set_of. destruct (prune_sets_get t s k Hw) as (_ & _ & ->).
  unfold dropped. rewrite bool_decide_eq_false_2 by (by apply dict_get_None). by rewrite andb_false_r.
Qed.
End daily.

Lemma clock_2026 : clock_ok (mkDate 2026 4 15).
Proof. unfold clock_ok, date_ok. cbn. lia. Qed.

(** A failed session of a store that is one day old. *)
Lemma daily_record_exact_witness :
  let t := mkDate 2026 4 15 in
  let s := @daily_run plain_codec
             [(DRecord true false 700 0 (u "f::042/fw.bin") (u "AA:BB"), mkDate 2026 4 14, 9000, true)]
             (daily_init None) in
  let s' := @daily_record plain_codec false true 5 0 (u "x.bin") [] t t 9900 true s in
  bucket_of s' (isoformat t) = mkBucket 1 0 1 5 0 ∧
  bucket_of s' (isoformat (mkDate 2026 4 14)) = mkBucket 1 1 0 700 0.
Proof.
  intros t s s'. split.
  - etransitivity; [apply (@daily_record_exact plain_codec); exact clock_2026|]. vm_compute. reflexivity.
  - etransitivity; [apply (@daily_record_exact plain_codec); exact clock_2026|]. vm_compute. reflexivity.
Defined.

(** The store after its first session. *)
Lemma daily_invariant_witness :
  bucket_ok (bucket_of (@daily_step plain_codec (DRecord true false 700 0 (u "fw.bin") []) (mkDate 2026 4 15) 9000 true
               (daily_init None)) (isoformat (mkDate 2026 4 15))).
Proof.
  apply (@daily_invariant plain_codec (mkDate 2026 4 15)).
  eapply (@reach_step plain_codec (mkDate 2026 4 15)); [|exact clock_2026|vm_compute; reflexivity].
  apply (@reach_start plain_codec). exact clock_2026.
Defined.


(** One session of an employee on a day of 2026, and the restart after it. *)
Lemma daily_restart_witness :
  let t := mkDate 2026 4 15 in
  let s := @daily_run plain_codec
             [(DRecord true false 700 0 (u "f::042/fw.bin") (u "AA:BB"), t, 9000, true);
              (DVisitor (u "10.0.0.9"), t, 9001, false)] (daily_init None) in
  let s' := @daily_init plain_codec (dl_file (daily_flush 9100 true s)) in
  recent 1 t s' = [(u "2026-04-15", mkBucket 1 1 0 700 0, 1%nat)] ∧ reach_counts t s' = (1, 1)%nat.
Proof.
  intros t s s'.
  destruct (@daily_restart plain_codec None
    [(DRecord true false 700 0 (u "f::042/fw.bin") (u "AA:BB"), t, 9000, true);
     (DVisitor (u "10.0.0.9"), t, 9001, false)] 9100 t 1) as (Hr & _ & _ & Hc).
  split; [etransitivity; [exact Hr|]|etransitivity; [exact Hc|]]; vm_compute; reflexivity.
Defined.
