(* ===== verification/Config.v ===== *)
(** * The configuration store (src/core/config.py)

    The YAML file, the snapshot every component reads, and the subscribers that
    are told about a change.  A subscriber is known by its identity; what its
    callback does to the store and to the rest of the program ([W]) and whether
    it raises is the parameter [call].  The lock makes each operation atomic;
    the callbacks run outside it. *)

From S2P Require Import Prelude Python Collections.
Open Scope Z_scope.

Section config.
Context `{Codec}.

Record Config := mkConfig {
  c_file : option text;
  c_data : pyval;
  c_subscribers : list nat;
}.

Definition set_subscribers (l : list nat) (c : Config) : Config := mkConfig (c_file c) (c_data c) l.

(** [subscribe]. *)
Definition subscribe (cb : nat) (c : Config) : Config := set_subscribers (c_subscribers c ++ [cb]) c.

(** [unsubscribe]. *)
Definition unsubscribe (cb : nat) (c : Config) : Config :=
  set_subscribers (remove_first cb (c_subscribers c)) c.

(** [clear_subscribers]. *)
Definition clear_subscribers (c : Config) : Config := set_subscribers [] c.

(** [get(path..., default=d)]. *)
Fixpoint node_get (node : pyval) (path : list str) (d : pyval) : pyval :=
  match path with
  | [] => node
  | k :: path' =>
      match node with
      | VDict kvs => match dict_get k kvs with Some v => node_get v path' d | None => d end
      | _ => d
      end
  end.

Definition config_get (path : list str) (d : pyval) (c : Config) : pyval := node_get (c_data c) path d.

Section callbacks.
Context {W : Type} (call : nat → Config * W → bool * (Config * W)).

(** [_fire]: the list is copied first; an exception is printed and dropped. *)
Definition notify (s : Config * W) (cb : nat) : Config * W :=
  match call cb s with
  | (true, s') => s'   (* raised: what it did before stays done *)
  | (false, s') => s'
  end.

Definition fire (s : Config * W) : Config * W := fold_left notify (c_subscribers s.1) s.

(** [reload]. *)
Definition config_reload (s : Config * W) : pyres unit * (Config * W) :=
  match c_file s.1 with
  | None => (Raise (OSError (u "config file not found")), s)
  | Some t =>
      match loads t with
      | Raise e => (Raise e, s)
      | Ok v => (Ok tt, fire (mkConfig (c_file s.1) (py_or v (VDict [])) (c_subscribers s.1), s.2))
      end
  end.

(** [save]; [ok] says whether the temporary file was written and renamed. *)
Definition config_save (ok : bool) (new_data : pyval) (s : Config * W) : pyres unit * (Config * W) :=
  if ok then (Ok tt, fire (mkConfig (Some (dumps new_data)) new_data (c_subscribers s.1), s.2))
  else (Raise (OSError (u "write failed")), s).

(** [Config(path)]: nobody subscribes before the first load. *)
Definition config_init (file : option text) (w : W) : pyres unit * (Config * W) :=
  config_reload (mkConfig file (VDict []) [], w).
End callbacks.
End config.

(** ** Changes and their notifications *)

(** The operations on the store. *)
Inductive config_op :=
| CReload
| CSave (ok : bool) (v : pyval)
| CSubscribe (cb : nat)
| CUnsubscribe (cb : nat)
| CClear.

Section properties.
Context `{Codec} {W : Type} (call : nat → Config * W → bool * (Config * W)).

Definition config_step (s : Config * W) (op : config_op) : Config * W :=
  match op with
  | CReload => (config_reload call s).2
  | CSave ok v => (config_save call ok v s).2
  | CSubscribe cb => (subscribe cb s.1, s.2)
  | CUnsubscribe cb => (unsubscribe cb s.1, s.2)
  | CClear => (clear_subscribers s.1, s.2)
  end.

(** Callbacks that may subscribe, unsubscribe and change the program, but leave
    the file and the data of the store alone. *)
Definition readers (call : nat → Config * W → bool * (Config * W)) : Prop :=
  ∀ cb s, c_file (call cb s).2.1 = c_file s.1 ∧ c_data (call cb s).2.1 = c_data s.1.

Lemma notify_eq s cb : notify call s cb = (call cb s).2.
Proof. unfold notify. by destruct (call cb s) as [[] ?]. Qed.

Lemma fire_readers s :
  readers call → c_file (fire call s).1 = c_file s.1 ∧ c_data (fire call s).1 = c_data s.1.
Proof.
  intros Hr. unfold fire. generalize (c_subscribers s.1). intros l. revert s.
  induction l as [|cb l IH]; intros s; cbn [fold_left]; [done|].
  destruct (IH (notify call s cb)) as [-> ->]. rewrite notify_eq. apply Hr.
Qed.

(** The data in memory is what the file says. *)
Definition loaded (c : Config) : Prop :=
  match c_file c with
  | Some t => match loads t with Ok v => py_or v (VDict []) = c_data c | Raise _ => False end
  | None => False
  end.

Lemma loaded_same c c' : c_file c' = c_file c → c_data c' = c_data c → loaded c → loaded c'.
Proof. unfold loaded. by intros -> ->. Qed.

Lemma loaded_step s op :
  readers call → (∀ ok v, op = CSave ok v → val_ok v ∧ ∃ d, v = VDict d) →
  loaded s.1 → loaded (config_step s op).1.
Proof.
  intros Hr Hv Hl. destruct op as [|ok v|cb|cb|]; cbn [config_step]; try done.
  - unfold config_reload. destruct (c_file s.1) as [t|] eqn:Hf; [|done].
    destruct (loads t) as [v|] eqn:Hlo; [|done]. cbn [snd].
    destruct (fire_readers (mkConfig (Some t) (py_or v (VDict [])) (c_subscribers s.1), s.2) Hr) as [Ef Ed].
    eapply loaded_same; [exact Ef|exact Ed|]. unfold loaded. cbn. by rewrite Hlo.
  - unfold config_save. destruct ok; [|done]. cbn [snd].
    destruct (Hv true v eq_refl) as [Hok [d ->]].
    destruct (fire_readers (mkConfig (Some (dumps (VDict d))) (VDict d) (c_subscribers s.1), s.2) Hr) as [Ef Ed].
    eapply loaded_same; [exact Ef|exact Ed|]. unfold loaded. cbn [c_file c_data fst]. rewrite loads_dumps by done.
    by destruct d.
Qed.

(** What the panel saves is what a restart reads: after any sequence of
    reloads, saves of well-formed dictionaries (some failing on disk) and
    subscription changes on a store that was loaded, with callbacks that do
    not rewrite the configuration themselves, loading the file again gives
    exactly the snapshot in memory. *)
Theorem config_save_reload (s : Config * W) (ops : list config_op) (w : W) :
  readers call → loaded s.1 →
  (∀ ok v, CSave ok v ∈ ops → val_ok v ∧ ∃ d, v = VDict d) →
  let s' := fold_left config_step ops s in
  config_init call (c_file s'.1) w = (Ok tt, (mkConfig (c_file s'.1) (c_data s'.1) [], w)).
Proof.
  intros Hr Hl Hv s'. assert (loaded s'.1) as Hl'.
  { subst s'. revert s Hl Hv. induction ops as [|op ops IH]; intros s Hl Hv; cbn [fold_left]; [done|].
    apply IH.
    - apply loaded_step; [done| |done]. intros ok v ->. eapply Hv, list_elem_of_here.
    - intros ok v Hin. by eapply Hv, list_elem_of_further. }
  unfold config_init, config_reload, loaded in *. cbn [c_file fst]. destruct (c_file s'.1) as [t|]; [|done].
  destruct (loads t) as [v|]; [|done]. by rewrite Hl'.
Qed.

(** [C37] A save swaps the data in first and then calls every subscriber of that
    moment exactly once, in the order of subscription and with the new data,
    although callbacks raise, subscribe and unsubscribe while they run; so
    does a reload.  A save that fails on disk and a reload of an unreadable
    file raise, keep the old data and call nobody. *)
Theorem config_notifies (trace : W → list (nat * pyval)) (s : Config * W) :
  readers call → (∀ cb s, trace (call cb s).2.2 = trace s.2 ++ [(cb, c_data s.1)]) →
  (∀ v, let r := config_save call true v s in
     r.1 = Ok tt ∧ c_data r.2.1 = v ∧ trace r.2.2 = trace s.2 ++ map (λ cb, (cb, v)) (c_subscribers s.1)) ∧
  (∀ v, ∃ e, config_save call false v s = (Raise e, s)) ∧
  match c_file s.1 ≫= (λ t, match loads t with Ok v => Some (py_or v (VDict [])) | Raise _ => None end) with
  | Some v => let r := config_reload call s in
      r.1 = Ok tt ∧ c_data r.2.1 = v ∧ trace r.2.2 = trace s.2 ++ map (λ cb, (cb, v)) (c_subscribers s.1)
  | None => ∃ e, config_reload call s = (Raise e, s)
  end.
Proof.
  intros Hr Ht.
  assert (∀ s v, c_data s.1 = v →
    trace (fire call s).2 = trace s.2 ++ map (λ cb, (cb, v)) (c_subscribers s.1)) as Hf.
  { intros s0 v Hd. unfold fire. generalize (c_subscribers s0.1). intros l. revert s0 Hd.
    induction l as [|cb l IH]; intros s0 Hd; cbn [fold_left map]; [by rewrite app_nil_r|].
    rewrite notify_eq, IH, Ht, <- app_assoc by (destruct (Hr cb s0) as [_ ->]; done). by rewrite Hd. }
  split_and!.
  - intros v r. subst r. cbn [config_save fst snd]. split_and!; [done|by rewrite (proj2 (fire_readers _ Hr))|].
    exact (Hf (mkConfig (Some (dumps v)) v (c_subscribers s.1), s.2) v eq_refl).
  - intros v. by eexists.
  - unfold config_reload. destruct (c_file s.1) as [t|]; cbn [mbind option_bind]; [|by eexists].
    destruct (loads t) as [v|]; [|by eexists]. cbn [fst snd].
    split_and!; [done|by rewrite (proj2 (fire_readers _ Hr))|].
    exact (Hf (mkConfig (Some t) (py_or v (VDict [])) (c_subscribers s.1), s.2) _ eq_refl).
Qed.
End properties.

(** Two subscribers: the first raises and unsubscribes the second, both note
    what they see. *)
Definition demo_call (cb : nat) (s : @Config plain_codec * list (nat * pyval)) :=
  (bool_decide (cb = 0%nat),
   ((if decide (cb = 0%nat) then unsubscribe 1 s.1 else s.1), s.2 ++ [(cb, c_data s.1)])).

Lemma demo_readers : @readers plain_codec _ demo_call.
Proof. intros cb s. unfold demo_call. by case_decide. Qed.

Lemma config_notifies_witness :
  let s := (@mkConfig plain_codec (Some VNone) (VDict []) [0; 1]%nat, []) in
  let v := VDict [(u "a", VInt 1)] in
  (config_save demo_call true v s).2.2 = [(0%nat, v); (1%nat, v)].
Proof.
  intros s v.
  exact (proj2 (proj2 (proj1 (@config_notifies plain_codec _ demo_call (λ w, w) s demo_readers
    (λ cb s, eq_refl)) v))).
Defined.

Lemma config_save_reload_witness :
  let s := (@mkConfig plain_codec (Some VNone) (VDict []) [0; 1]%nat, []) in
  let s' := fold_left (config_step demo_call) [CSave true (VDict [(u "a", VInt 1)]); CReload] s in
  config_init demo_call (c_file s'.1) []
  = (Ok tt, (@mkConfig plain_codec (Some (VDict [(u "a", VInt 1)])) (VDict [(u "a", VInt 1)]) [], [])).
Proof.
  intros s s'. exact (@config_save_reload plain_codec _ demo_call s
    [CSave true (VDict [(u "a", VInt 1)]); CReload] [] demo_readers eq_refl
    (ltac:(intros ok v [[= -> ->]|[Hn|Hn%elem_of_nil]%elem_of_cons]%elem_of_cons; [|done|done];
           split; [|by eexists]; split; [apply NoDup_singleton|done]))).
Defined.
