(* ===== verification/Logger.v ===== *)
(** * Logging (src/core/logger.py)

    The ring buffer behind the log viewer with its listeners, the set-up of the
    root logger that a configuration reload repeats, and the log endpoint of
    src/web/app.py.  A record carries its formatted message, or the exception
    that formatting raises. *)

From S2P Require Import Prelude Python Constants Collections.
Open Scope Z_scope.

(** ** The ring buffer *)

Record entry := mkEntry { en_time : Z; en_level : list Z; en_logger : list Z; en_message : list Z }.

(** [MemoryRingHandler]; a listener is known by its identity. *)
Record ring := mkRing { r_capacity : nat; r_buffer : list entry; r_listeners : list nat }.

(** [deque(maxlen=capacity)] refuses a negative length. *)
Definition ring_init (capacity : Z) : pyres ring :=
  if capacity <? 0 then Raise (ValueError (u "maxlen must be non-negative"))
  else Ok (mkRing (Z.to_nat capacity) [] []).

(** A log record as the handlers get it. *)
Record record := mkRecord {
  rec_levelno : Z; rec_time : Z; rec_level : list Z; rec_logger : list Z; rec_message : pyres (list Z);
}.

Definition entry_of (r : record) : option entry :=
  match rec_message r with
  | Ok m => Some (mkEntry (rec_time r) (rec_level r) (rec_logger r) m)
  | Raise _ => None
  end.

(** [emit]: the new buffer, and the calls of the listeners; an exception of a
    listener is dropped, one of the message goes to [handleError]. *)
Definition ring_emit (rec : record) (r : ring) : list (nat * entry) * ring :=
  match entry_of rec with
  | None => ([], r)
  | Some e =>
      (map (λ l, (l, e)) (r_listeners r),
       mkRing (r_capacity r) (deque_append (r_capacity r) e (r_buffer r)) (r_listeners r))
  end.

Definition ring_snapshot (r : ring) : list entry := r_buffer r.

Definition add_listener (l : nat) (r : ring) : ring :=
  mkRing (r_capacity r) (r_buffer r) (r_listeners r ++ [l]).

Definition remove_listener (l : nat) (r : ring) : ring :=
  mkRing (r_capacity r) (r_buffer r) (remove_first l (r_listeners r)).

(** ** Setting up the root logger *)

Inductive handler :=
| HConsole
| HFile (path : list Z) (rotating : option (Z * Z))
| HMemory (id : nat).

#[export] Instance handler_eq_dec : EqDecision handler.
Proof. solve_decision. Defined.

(** The root logger and [_memory_handler], which is known by its number. *)
Record logging := mkLogging {
  lg_level : Z; lg_handlers : list handler; lg_memory : option (nat * ring);
}.

(** The upper-case names of the module [logging]. *)
Inductive level_attr := LvlNum (n : Z) | LvlText (s : list Z) | LvlOther.

Definition logging_attrs : list (str * level_attr) :=
  [(u "NOTSET", LvlNum 0); (u "DEBUG", LvlNum 10); (u "INFO", LvlNum 20); (u "WARNING", LvlNum 30);
   (u "WARN", LvlNum 30); (u "ERROR", LvlNum 40); (u "CRITICAL", LvlNum 50); (u "FATAL", LvlNum 50);
   (u "BASIC_FORMAT", LvlText (u "%(levelname)s:%(name)s:%(message)s")); (u "_STYLES", LvlOther)].

(** [root.setLevel(getattr(logging, name, logging.INFO))]. *)
Definition level_of (name : str) : pyres Z :=
  match default (LvlNum 20) (dict_get name logging_attrs) with
  | LvlNum n => Ok n
  | LvlText s => Raise (ValueError (u "Unknown level: " ++ repr_str s))
  | LvlOther => Raise (TypeError (u "Level not an integer or a valid string"))
  end.

Fixpoint drop_while (p : Z → bool) (s : str) : str :=
  match s with c :: s' => if p c then drop_while p s' else s | [] => [] end.

Definition one_of (cs : str) (c : Z) : bool := existsb (Z.eqb c) cs.
Definition is_word (c : Z) : bool :=
  is_digit c || ((65 <=? c) && (c <=? 90)) || ((97 <=? c) && (c <=? 122)) || (c =? 95).

(** A [*] or digits. *)
Definition skip_width (s : str) : str :=
  match s with c :: s' => if c =? 42 then s' else drop_while is_digit s | [] => [] end.

(** What follows "%(" in a field of a format string. *)
Definition field_at (s : str) : bool :=
  match s with
  | c :: _ =>
      is_word c &&
      match drop_while is_word s with
      | d :: s1 =>
          (d =? 41) &&
          let s2 := skip_width (drop_while (one_of (u "#0+ -")) s1) in
          let s3 := match s2 with
                    | p :: q :: s2' => if (p =? 46) && ((q =? 42) || is_digit q) then skip_width (q :: s2') else s2
                    | _ => s2
                    end in
          match s3 with x :: _ => one_of (u "diouxefgcrsa%") (chr_lower x) | [] => false end
      | [] => false
      end
  | [] => false
  end.

(** The search of [PercentStyle.validation_pattern]. *)
Fixpoint has_field (s : str) : bool :=
  match s with
  | 37 :: ((40 :: s2) as s1) => field_at s2 || has_field s1
  | _ :: s1 => has_field s1
  | [] => false
  end.

(** [logging.Formatter(fmt)]. *)
Definition formatter (fmt : pyval) : pyres unit :=
  if negb (truthy fmt) then Ok tt
  else match fmt with
       | VStr s => if has_field s then Ok tt
                   else Raise (ValueError (u "Invalid format '" ++ s ++ u "' for '%' style"))
       | _ => Raise (TypeError (u "expected string or bytes-like object"))
       end.

(** The file handler; [fs] is the exception the file system raises, if any. *)
Definition file_handler (cfg : pyval) (fs : option exc) : pyres (list handler) :=
  file_path ← py_get cfg (u "file") VNone;
  rotate ← (λ v, py_or v (VDict [])) <$> py_get cfg (u "rotate") (VDict []);
  if negb (truthy file_path) then Ok []
  else match file_path with
       | VStr path =>
           match fs with
           | Some e => Raise e
           | None =>
               en ← py_get rotate (u "enabled") (VBool true);
               if truthy en then
                 mb ← py_get rotate (u "max_bytes") (VInt LOG_ROTATE_BYTES);
                 mb ← py_int mb;
                 bc ← py_get rotate (u "backup_count") (VInt LOG_ROTATE_BACKUPS);
                 bc ← py_int bc;
                 Ok [HFile path (Some (mb, bc))]
               else Ok [HFile path None]
           end
       | _ => Raise (TypeError (u "expected str, bytes or os.PathLike object"))
       end.

Definition memory_ring (cfg : pyval) : pyres ring :=
  n ← py_get cfg (u "memory_buffer") (VInt LOG_MEMORY_BUFFER);
  n ← py_int n;
  ring_init n.

(** The checks before anything is touched: the level and the format. *)
Definition logging_level (cfg : pyval) : pyres Z :=
  lv ← py_get cfg (u "level") (VStr (u "INFO"));
  fmt ← py_get cfg (u "format") (VStr LOG_FORMAT_DEFAULT);
  _ ← formatter fmt;
  level_of (upper (py_str lv)).

(** [setup_logging]: an exception leaves the handlers added so far. *)
Definition setup_logging (cfg : pyval) (fs : option exc) (lg : logging) : pyres unit * logging :=
  match logging_level cfg with
  | Raise e => (Raise e, lg)
  | Ok level =>
      match file_handler cfg fs with
      | Raise e => (Raise e, mkLogging level [HConsole] (lg_memory lg))
      | Ok fh =>
          match memory_ring cfg with
          | Raise e => (Raise e, mkLogging level (HConsole :: fh) (lg_memory lg))
          | Ok r =>
              let id := match lg_memory lg with Some (n, _) => S n | None => 0%nat end in
              (Ok tt, mkLogging level (HConsole :: fh ++ [HMemory id]) (Some (id, r)))
          end
      end
  end.

(** [get_memory_handler]. *)
Definition get_memory_handler (lg : logging) : pyres ring :=
  match lg_memory lg with
  | Some (_, r) => Ok r
  | None => Raise (RuntimeError (u "logging not initialised - call setup_logging first"))
  end.

(** A record on its way to the handlers of the root logger: what the listeners
    are called with, and the new state. *)
Definition log_record (rec : record) (lg : logging) : list (nat * entry) * logging :=
  if rec_levelno rec <? lg_level lg then ([], lg)
  else match lg_memory lg with
       | Some (id, r) =>
           if decide (HMemory id ∈ lg_handlers lg)
           then let '(calls, r') := ring_emit rec r in
                (calls, mkLogging (lg_level lg) (lg_handlers lg) (Some (id, r')))
           else ([], lg)
       | None => ([], lg)
       end.

(** [GET /api/logs]. *)
Definition api_logs (limit : Z) (level : option str) (r : ring) : list entry :=
  let items := ring_snapshot r in
  let items := match level with
               | Some lv => if bool_decide (lv = []) || bool_decide (upper lv = u "ALL") then items
                            else List.filter (λ e, bool_decide (en_level e = upper lv)) items
               | None => items
               end in
  py_slice items (- limit) (zlen items).

(** ** What the ring buffer holds *)

Lemma ring_emit_spec rec r es :
  r_buffer r = lastn (r_capacity r) es →
  let r' := (ring_emit rec r).2 in
  r_capacity r' = r_capacity r ∧ r_buffer r' = lastn (r_capacity r) (es ++ omap entry_of [rec]).
Proof.
  intros Hb. unfold ring_emit. cbn. destruct (entry_of rec) as [e|]; cbn; [|by rewrite app_nil_r].
  by rewrite Hb, lastn_append.
Qed.

(** The records that get past the level of the root logger. *)
Definition heard (level : Z) (recs : list record) : list entry :=
  omap entry_of (List.filter (λ r, level <=? rec_levelno r) recs).

Definition log_all (recs : list record) (lg : logging) : logging :=
  fold_left (λ lg rec, (log_record rec lg).2) recs lg.

Lemma log_all_spec recs level hs id r es :
  HMemory id ∈ hs → r_buffer r = lastn (r_capacity r) es →
  ∃ r', log_all recs (mkLogging level hs (Some (id, r))) = mkLogging level hs (Some (id, r')) ∧
        r_capacity r' = r_capacity r ∧ r_buffer r' = lastn (r_capacity r) (es ++ heard level recs).
Proof.
  intros Hin. unfold log_all, heard. revert r es. induction recs as [|rec recs IH]; intros r es Hb; cbn [fold_left].
  { exists r. by rewrite app_nil_r. }
  unfold log_record at 2. cbn [lg_level lg_memory lg_handlers List.filter]. rewrite Z.ltb_antisym.
  destruct (level <=? rec_levelno rec); cbn [negb snd]; [|by apply IH].
  rewrite decide_True by done. destruct (ring_emit_spec rec r es Hb) as [Hc Hb'].
  destruct (ring_emit rec r) as [calls r1]. cbn [snd] in *.
  destruct (IH r1 (es ++ omap entry_of [rec])) as (r' & -> & Hc' & Hr'); [by rewrite Hc|].
  exists r'. split_and!; [done|congruence|]. rewrite Hr', Hc, <- app_assoc. f_equal. f_equal.
  cbn. by destruct (entry_of rec).
Qed.

(** After a successful set-up the log viewer sees what is logged: for any
    records logged from then on, the buffer holds exactly the last
    [memory_buffer] of those at or above the configured level whose message
    could be formatted, in order - and never more than that many. *)
Theorem logging_captures cfg fs lg lg' recs :
  setup_logging cfg fs lg = (Ok tt, lg') →
  ∃ level r0 r, logging_level cfg = Ok level ∧ memory_ring cfg = Ok r0 ∧
    get_memory_handler (log_all recs lg') = Ok r ∧
    ring_snapshot r = lastn (r_capacity r0) (heard level recs) ∧
    (length (ring_snapshot r) ≤ r_capacity r0)%nat.
Proof.
  unfold setup_logging. destruct (logging_level cfg) as [level|]; [|done].
  destruct (file_handler cfg fs) as [fh|]; [|done]. destruct (memory_ring cfg) as [r0|] eqn:Hm; [|done].
  intros [= <-]. exists level, r0.
  assert (r_buffer r0 = []) as Hb.
  { unfold memory_ring in Hm. inv_ok. unfold ring_init in Hm. by case_hyp Hm; simplify_eq. }
  destruct (log_all_spec recs level (HConsole :: fh ++ [HMemory (match lg_memory lg with Some (n, _) => S n | None => 0%nat end)])
    (match lg_memory lg with Some (n, _) => S n | None => 0%nat end) r0 []) as (r & -> & Hc & Hr).
  - apply elem_of_cons. right. apply elem_of_app. right. by apply list_elem_of_singleton.
  - by rewrite Hb.
  - exists r. split_and!; [done..|]. unfold ring_snapshot. rewrite Hr, length_lastn. lia.
Qed.

(** ** What a listener hears *)

Inductive ring_op :=
| REmit (rec : record)
| RAdd (l : nat)
| RRemove (l : nat).

Definition ring_step (op : ring_op) (r : ring) : list (nat * entry) * ring :=
  match op with
  | REmit rec => ring_emit rec r
  | RAdd l => ([], add_listener l r)
  | RRemove l => ([], remove_listener l r)
  end.

Fixpoint ring_run (ops : list ring_op) (r : ring) : list (nat * entry) * ring :=
  match ops with
  | [] => ([], r)
  | op :: ops' =>
      let '(calls, r1) := ring_step op r in
      let '(calls', r2) := ring_run ops' r1 in (calls ++ calls', r2)
  end.

(** What listener [l] was called with. *)
Definition calls_to (l : nat) (calls : list (nat * entry)) : list entry :=
  omap (λ c, if decide (c.1 = l) then Some c.2 else None) calls.

Arguments calls_to : simpl never.

Definition emitted (ops : list ring_op) : list entry :=
  omap (λ op, match op with REmit rec => entry_of rec | _ => None end) ops.

(** Operations in which [l] is neither added nor removed. *)
Definition others (l : nat) (ops : list ring_op) : Prop :=
  Forall (λ op, match op with REmit _ => True | RAdd l' | RRemove l' => l' ≠ l end) ops.

Lemma ring_run_app ops1 ops2 r :
  ring_run (ops1 ++ ops2) r
  = let '(c1, r1) := ring_run ops1 r in let '(c2, r2) := ring_run ops2 r1 in (c1 ++ c2, r2).
Proof.
  revert r. induction ops1 as [|op ops1 IH]; intros r; cbn; [by destruct (ring_run ops2 r)|].
  destruct (ring_step op r) as [c r1]. rewrite IH. destruct (ring_run ops1 r1) as [c1 r2].
  destruct (ring_run ops2 r2). by rewrite app_assoc.
Qed.

Lemma calls_to_app l c1 c2 : calls_to l (c1 ++ c2) = calls_to l c1 ++ calls_to l c2.
Proof. apply omap_app. Qed.

(** How often [l] listens. *)
Abbreviation times l ls := (length (List.filter (Nat.eqb l) ls)).

Lemma calls_to_map l e ls :
  calls_to l (map (λ l', (l', e)) ls) = replicate (times l ls) e.
Proof.
  induction ls as [|l' ls IH]; cbn; [done|]. unfold calls_to in *. cbn. rewrite IH.
  destruct (Nat.eqb_spec l l') as [->|Hne]; [by rewrite decide_True|]. by rewrite decide_False by congruence.
Qed.

Lemma times_remove l l' ls : l' ≠ l → times l (remove_first l' ls) = times l ls.
Proof.
  intros Hne. induction ls as [|y ls IH]; cbn; [done|]. case_decide as Hy.
  - subst y. by rewrite (proj2 (Nat.eqb_neq l l')) by congruence.
  - cbn. destruct (l =? y)%nat; cbn; by rewrite IH.
Qed.

(** While others come and go, [l] gets every entry as often as it listens. *)
Lemma ring_run_others l ops r n :
  others l ops → times l (r_listeners r) = n →
  times l (r_listeners (ring_run ops r).2) = n ∧
  calls_to l (ring_run ops r).1 = concat (map (replicate n) (emitted ops)).
Proof.
  intros Ho. revert r. induction Ho as [|op ops Hop Ho IH]; intros r Hn; cbn [ring_run]; [done|].
  assert (times l (r_listeners (ring_step op r).2) = n ∧
    calls_to l (ring_step op r).1 = concat (map (replicate n) (emitted [op]))) as [H1 H2].
  { destruct op as [rec|l'|l']; cbn [ring_step fst snd].
    - unfold ring_emit, emitted. cbn. destruct (entry_of rec) as [e|]; cbn; [|done].
      by rewrite calls_to_map, app_nil_r, Hn.
    - split; [|done]. cbn. rewrite List.filter_app, length_app, Hn. cbn.
      by rewrite (proj2 (Nat.eqb_neq l l')) by congruence; cbn; lia.
    - split; [|done]. cbn. by rewrite times_remove. }
  destruct (ring_step op r) as [c r1]. cbn [fst snd] in *. destruct (IH r1 H1) as [H3 H4].
  destruct (ring_run ops r1) as [c' r2]. cbn [fst snd] in *. split; [done|].
  rewrite calls_to_app, H2, H4, <- concat_app, <- map_app. f_equal. f_equal.
  unfold emitted. cbn. by destruct op as [rec| |]; cbn; try destruct (entry_of rec).
Qed.

(** A live viewer misses nothing and repeats nothing: a listener that is
    added once and removed once is called with exactly the entries logged in
    between, each once and in order, whatever other listeners do. *)
Theorem ring_listener_exact l r before during after :
  l ∉ r_listeners r → others l before → others l during → others l after →
  calls_to l (ring_run (before ++ RAdd l :: during ++ RRemove l :: after) r).1 = emitted during.
Proof.
  intros Hl Hb Hd Ha.
  assert (∀ ls, l ∉ ls ↔ times l ls = 0%nat) as Htimes.
  { induction ls as [|y ls IH]; cbn; [split; [done|intros _; apply not_elem_of_nil]|].
    rewrite not_elem_of_cons, IH. destruct (Nat.eqb_spec l y); cbn; naive_solver. }
  assert (∀ (es : list entry), concat (map (replicate 0) es) = []) as H0 by (by induction es).
  assert (∀ (es : list entry), concat (map (replicate 1) es) = es) as H1
    by (induction es as [|e es IH]; cbn; [done|by f_equal]).
  rewrite ring_run_app. destruct (ring_run_others l before r 0 Hb) as [Hn Hc]; [by apply Htimes|].
  destruct (ring_run before r) as [c1 r1]. cbn [fst snd] in *. cbn [ring_run ring_step app].
  rewrite ring_run_app.
  destruct (ring_run_others l during (add_listener l r1) 1 Hd) as [Hn2 Hc2].
  { cbn. rewrite List.filter_app, length_app, Hn. cbn. by rewrite Nat.eqb_refl. }
  destruct (ring_run during (add_listener l r1)) as [c2 r2]. cbn [fst snd ring_run ring_step] in *.
  destruct (ring_run_others l after (remove_listener l r2) 0 Ha) as [_ Hc3].
  { cbn. revert Hn2. clear. induction (r_listeners r2) as [|y ls IH]; cbn; [done|].
    destruct (Nat.eqb_spec l y) as [->|Hne]; cbn; [rewrite decide_True by done; lia|].
    rewrite decide_False by done. cbn. by rewrite (proj2 (Nat.eqb_neq l y)). }
  destruct (ring_run after (remove_listener l r2)) as [c3 r3]. cbn [fst snd app] in *.
  by rewrite !calls_to_app, Hc, Hc2, Hc3, !H0, H1, app_nil_r.
Qed.

(** ** Reloads *)

(** A reload replaces the ring: the lines kept so far and the listeners of
    open viewers are gone. *)
Lemma reload_drops_listeners cfg fs lg lg' :
  setup_logging cfg fs lg = (Ok tt, lg') →
  ∃ r, get_memory_handler lg' = Ok r ∧ r_buffer r = [] ∧ r_listeners r = [].
Proof.
  unfold setup_logging. destruct (logging_level cfg) as [level|]; [|done].
  destruct (file_handler cfg fs) as [fh|]; [|done]. destruct (memory_ring cfg) as [r0|] eqn:Hm; [|done].
  intros [= <-]. exists r0. split; [done|]. unfold memory_ring in Hm. inv_ok.
  unfold ring_init in Hm. by case_hyp Hm; simplify_eq.
Qed.

(** A value that is not a number detaches the ring: later records are lost to
    the viewer although it still has a buffer to show. *)
Lemma bad_buffer_stops_capture level r rec :
  let lg := (setup_logging (VDict [(u "memory_buffer", VStr (u "many"))]) None
               (mkLogging level [HConsole; HMemory 0] (Some (0%nat, r)))).2 in
  get_memory_handler lg = Ok r ∧ log_record rec lg = ([], lg).
Proof.
  cbv zeta. match goal with |- context [setup_logging ?c ?f ?g] =>
    let v := eval vm_compute in (setup_logging c f g).2 in change (setup_logging c f g).2 with v end.
  split; [done|]. unfold log_record. by case_goal.
Qed.

Lemma logging_captures_witness :
  let cfg := VDict [(u "level", VStr (u "info")); (u "memory_buffer", VInt 1)] in
  let rec n m := mkRecord n 0 (u "X") (u "nishro") (Ok m) in
  let lg := (setup_logging cfg None (mkLogging 30 [] None)).2 in
  let recs := [rec 20 (u "a"); rec 10 (u "b"); rec 40 (u "c")] in
  ∃ r, get_memory_handler (log_all recs lg) = Ok r ∧ ring_snapshot r = [mkEntry 0 (u "X") (u "nishro") (u "c")].
Proof.
  intros cfg rec lg recs.
  destruct (logging_captures cfg None (mkLogging 30 [] None) lg recs) as (lv & r0 & r & Hl & Hm & Hg & Hs & _).
  - vm_compute. reflexivity.
  - exists r. split; [exact Hg|]. rewrite Hs. vm_compute in Hl. injection Hl as <-.
    vm_compute in Hm. injection Hm as <-. vm_compute. reflexivity.
Defined.

Lemma ring_listener_exact_witness :
  let rec m := REmit (mkRecord 20 0 (u "INFO") (u "nishro") (Ok m)) in
  calls_to 7 (ring_run ([rec (u "a"); RAdd 3] ++ RAdd 7 :: [rec (u "b"); RRemove 3; rec (u "c")] ++ RRemove 7 :: [rec (u "d")])
                (mkRing 2 [] [])).1
  = [mkEntry 0 (u "INFO") (u "nishro") (u "b"); mkEntry 0 (u "INFO") (u "nishro") (u "c")].
Proof.
  intros rec. etransitivity.
  - apply ring_listener_exact; [apply not_elem_of_nil|repeat constructor; lia..].
  - reflexivity.
Defined.
