(* ===== verification/App.v ===== *)
(** * The application (src/main.py)

    [Nishro] wires the components together: it is built from the configuration,
    follows configuration changes in place where it can, and asks for a
    rebuild where it cannot.  The adapters the capture library reports and the
    exceptions of the log file and the capture socket are arguments. *)

From S2P Require Import Prelude Python Collections Constants Wire Options Stats FileLock Cache.
From S2P Require Import Paths Acl Frame Session Server Network Source Config Logger.
Open Scope Z_scope.

(** ** Adapters *)

(** A row of [get_windows_if_list()]. *)
Record nic := mkNic { nic_guid : list Z; nic_name : list Z; nic_mac : list Z; nic_index : pyval }.

(** [_nic_real_mac]. *)
Definition nic_real_mac (nics : pyres (list nic)) (iface : str) : str :=
  if bool_decide (iface = []) then []
  else match nics with
       | Raise _ => []
       | Ok l =>
           match List.find (λ n, (negb (bool_decide (nic_guid n = [])) && contains (nic_guid n) iface)
                                 || (negb (bool_decide (nic_name n = [])) && bool_decide (nic_name n = iface))) l with
           | Some n => lower (nic_mac n)
           | None => []
           end
       end.

(** [_resolve_mac]. *)
Definition resolve_mac (nics : pyres (list nic)) (iface : str) (override : pyval) : pyres str :=
  if truthy override then py_lower override else Ok (nic_real_mac nics iface).

(** The prompt of [_interactive_nic_select]: the adapters by index, the marked
    default, and the answers until one is accepted. *)
Definition nic_key (n : nic) : Z :=
  match py_int (py_or (nic_index n) (VInt 0)) with Ok z => z | Raise _ => 0 end.

Definition nic_order (nics : list nic) : list nic := sort_by (λ a b, nic_key a <=? nic_key b) nics.

Definition npf (n : nic) : str := u "\Device\NPF_" ++ nic_guid n.

Fixpoint default_idx (preselected : str) (i : Z) (nics : list nic) : Z :=
  match nics with
  | [] => -1
  | n :: nics' =>
      let later := default_idx preselected (i + 1) nics' in
      if 0 <=? later then later
      else if negb (bool_decide (preselected = [])) && negb (bool_decide (nic_guid n = []))
              && contains (nic_guid n) preselected then i else -1
  end.

(** The choice a line of input makes; [None] asks again. *)
Definition choose (nics : list nic) (dflt : Z) (line : str) : option str :=
  let raw := strip_ws line in
  choice ← (if bool_decide (raw = []) && (0 <=? dflt) then Some dflt
            else match int_of_str raw with Ok z => Some z | Raise _ => None end);
  if (0 <=? choice) && (choice <? zlen nics) then
    n ← nics !! Z.to_nat choice;
    if bool_decide (nic_guid n = []) then None else Some (npf n)
  else None.

(** [_interactive_nic_select], given the lines typed: an error without
    adapters, [None] while no line was accepted. *)
Definition interactive_nic_select (nics : list nic) (preselected : str) (lines : list str) : pyres (option str) :=
  match nics with
  | [] => Raise (RuntimeError (u "no network adapters found - is Npcap installed?"))
  | _ =>
      let nics := nic_order nics in
      let dflt := default_idx preselected 0 nics in
      Ok (fold_left (λ r line, match r with Some x => Some x | None => choose nics dflt line end) lines None)
  end.

(** ** Critical settings *)

Definition empty_dict : pyval := VDict [].

(** [cfg.get(k, default={}) or {}]. *)
Definition block (data : pyval) (path : list str) : pyval := py_or (node_get data path empty_dict) empty_dict.

Definition engine_mode (data : pyval) : pyres str :=
  py_lower (py_or (node_get data [u "tftp"; u "engine"] (VStr (u "python"))) (VStr (u "python"))).

(** [_snapshot_critical]. *)
Record critical := mkCritical {
  cr_nic : pyval; cr_ip : pyval; cr_mac : pyval; cr_promisc : bool;
  cr_host : pyval; cr_port : Z; cr_engine : list Z;
}.

Definition snapshot_critical (data : pyval) : pyres critical :=
  let net := block data [u "network"] in
  let web := block data [u "web"] in
  nicv ← py_get net (u "nic") (VStr []);
  ipv ← py_get net (u "virtual_ip") (VStr []);
  macv ← py_get net (u "virtual_mac") VNone;
  prom ← py_get net (u "promiscuous") (VBool true);
  host ← py_get web (u "host") (VStr WEB_HOST_DEFAULT);
  portv ← py_get web (u "port") (VInt WEB_PORT_DEFAULT);
  port ← py_int (py_or portv (VInt WEB_PORT_DEFAULT));
  engine ← engine_mode data;
  Ok (mkCritical (py_or nicv (VStr [])) (py_or ipv (VStr [])) (py_or (py_or macv (VStr [])) (VStr []))
        (truthy prom) (py_or host (VStr WEB_HOST_DEFAULT)) port engine).

(** [new_critical == self._prev_critical]. *)
Definition critical_eqb (a b : critical) : bool :=
  py_eqb (cr_nic a) (cr_nic b) && py_eqb (cr_ip a) (cr_ip b) && py_eqb (cr_mac a) (cr_mac b)
  && Bool.eqb (cr_promisc a) (cr_promisc b) && py_eqb (cr_host a) (cr_host b)
  && (cr_port a =? cr_port b) && bool_decide (cr_engine a = cr_engine b).

(** ** The instance *)

(** [core] is the list of configurations sent to a running C engine; the TFTP
    server comes with the source it reads from.  The access lists are one
    object shared by the instance, the responders and the server. *)
Record nishro := mkNishro {
  n_dead : bool;
  n_restart : bool;
  n_critical : critical;
  n_engine : list Z;
  n_core : option (list pyval);
  n_nic_error : option (list Z);
  n_iface : list Z;
  n_ip : list Z;
  n_mac : list Z;
  n_bridge : bool;
  n_acl : ACL;
  n_cache : FileCache;
  n_source : RouterSource;
  n_tftp : option (server * RouterSource);
  n_arp : option responder;
  n_icmp : option responder;
}.

(** The error a start without a usable adapter shows. *)
Definition start_error (iface ip mac override real : str) : option str :=
  if bool_decide (iface = []) then
    Some (u "No network adapter is configured. Open Admin Config and select one.")
  else if bool_decide (ip = []) then
    Some (u "No virtual IP is configured. Open Admin Config and set network.virtual_ip.")
  else if bool_decide (mac = []) then
    Some (u "Could not resolve a MAC for adapter " ++ repr_str iface
          ++ u ". Pick a different adapter or set network.virtual_mac manually.")
  else if negb (bool_decide (override = [])) && negb (bool_decide (real = []))
          && negb (bool_decide (override = real)) then
    Some (u "Configured Virtual MAC (" ++ override ++ u ") does not belong to the selected adapter (real MAC "
          ++ real ++ u "). Clear the Virtual MAC field in Admin Config to use the adapter's own MAC, or the network switch will drop every reply we send.")
  else None.

(** [{**tftp_cfg, "sessions": ..., "files": ...}]. *)
Definition merged_cfg (data : pyval) : pyres (list (str * pyval)) :=
  match block data [u "tftp"] with
  | VDict d => Ok (dict_set (u "files") (block data [u "files"]) (dict_set (u "sessions") (block data [u "sessions"]) d))
  | v => Raise (TypeError (u "'" ++ type_name v ++ u "' object is not a mapping"))
  end.

Section app.
Context `{OsPath}.

Definition cache_num (cache_cfg : pyval) (k : str) (dflt : Z) : pyres Z :=
  v ← py_get cache_cfg k (VInt dflt); py_int v.

Definition cache_flag (cache_cfg : pyval) (dflt : bool) : pyres bool :=
  v ← py_get cache_cfg (u "enabled") (VBool dflt); Ok (truthy v).

(** [Nishro.__init__]. *)
Definition nishro_init (nics : pyres (list nic)) (data : pyval) : pyres nishro :=
  crit ← snapshot_critical data;
  engine ← engine_mode data;
  let net := block data [u "network"] in
  nicv ← py_get net (u "nic") (VStr []);
  let iface := py_str (py_or nicv (VStr [])) in
  ipv ← py_get net (u "virtual_ip") (VStr []);
  let ip := py_str (py_or ipv (VStr [])) in
  macv ← py_get net (u "virtual_mac") VNone;
  mac ← resolve_mac nics iface macv;
  let override := match py_or macv (VStr []) with VStr s => lower s | _ => [] end in
  let err := start_error iface ip mac override (nic_real_mac nics iface) in
  if bool_decide (engine = u "c") then
    acl ← acl_reload data;
    let cache_cfg := block data [u "files"; u "cache"] in
    mb ← cache_num cache_cfg (u "max_bytes") CACHE_TOTAL_BYTES_DEFAULT;
    mf ← cache_num cache_cfg (u "max_file_bytes") CACHE_PER_FILE_BYTES_DEFAULT;
    source ← build_source data;
    Ok (mkNishro false false crit engine None err iface ip mac false acl
          (FileCache_init mb mf false) source None None None)
  else
    let bridge := negb (bool_decide (iface = [])) && match err with None => true | Some _ => false end in
    acl ← acl_reload data;
    let cache_cfg := node_get data [u "files"; u "cache"] empty_dict in
    mb ← cache_num cache_cfg (u "max_bytes") CACHE_TOTAL_BYTES_DEFAULT;
    mf ← cache_num cache_cfg (u "max_file_bytes") CACHE_PER_FILE_BYTES_DEFAULT;
    en ← cache_flag cache_cfg false;
    source ← build_source data;
    merged ← merged_cfg data;
    Ok (mkNishro false false crit engine None err iface ip mac bridge acl (FileCache_init mb mf en) source
          (if bridge then Some (server_init ip mac merged acl, source) else None)
          (if bridge then Some (mkResponder ip mac acl) else None)
          (if bridge then Some (mkResponder ip mac acl) else None)).

(** ** Following a configuration change *)

Definition set_restart (n : nishro) : nishro :=
  mkNishro (n_dead n) true (n_critical n) (n_engine n) (n_core n) (n_nic_error n) (n_iface n) (n_ip n) (n_mac n)
    (n_bridge n) (n_acl n) (n_cache n) (n_source n) (n_tftp n) (n_arp n) (n_icmp n).
Definition set_core (c : option (list pyval)) (n : nishro) : nishro :=
  mkNishro (n_dead n) (n_restart n) (n_critical n) (n_engine n) c (n_nic_error n) (n_iface n) (n_ip n) (n_mac n)
    (n_bridge n) (n_acl n) (n_cache n) (n_source n) (n_tftp n) (n_arp n) (n_icmp n).
Definition set_addr (ip mac : str) (n : nishro) : nishro :=
  mkNishro (n_dead n) (n_restart n) (n_critical n) (n_engine n) (n_core n) (n_nic_error n) (n_iface n) ip mac
    (n_bridge n) (n_acl n) (n_cache n) (n_source n) (n_tftp n) (n_arp n) (n_icmp n).
Definition set_arp (r : option responder) (n : nishro) : nishro :=
  mkNishro (n_dead n) (n_restart n) (n_critical n) (n_engine n) (n_core n) (n_nic_error n) (n_iface n) (n_ip n) (n_mac n)
    (n_bridge n) (n_acl n) (n_cache n) (n_source n) (n_tftp n) r (n_icmp n).
Definition set_icmp (r : option responder) (n : nishro) : nishro :=
  mkNishro (n_dead n) (n_restart n) (n_critical n) (n_engine n) (n_core n) (n_nic_error n) (n_iface n) (n_ip n) (n_mac n)
    (n_bridge n) (n_acl n) (n_cache n) (n_source n) (n_tftp n) (n_arp n) r.
Definition set_cache (c : FileCache) (n : nishro) : nishro :=
  mkNishro (n_dead n) (n_restart n) (n_critical n) (n_engine n) (n_core n) (n_nic_error n) (n_iface n) (n_ip n) (n_mac n)
    (n_bridge n) (n_acl n) c (n_source n) (n_tftp n) (n_arp n) (n_icmp n).
Definition set_source (r : RouterSource) (n : nishro) : nishro :=
  mkNishro (n_dead n) (n_restart n) (n_critical n) (n_engine n) (n_core n) (n_nic_error n) (n_iface n) (n_ip n) (n_mac n)
    (n_bridge n) (n_acl n) (n_cache n) r (n_tftp n) (n_arp n) (n_icmp n).
Definition set_tftp (t : option (server * RouterSource)) (n : nishro) : nishro :=
  mkNishro (n_dead n) (n_restart n) (n_critical n) (n_engine n) (n_core n) (n_nic_error n) (n_iface n) (n_ip n) (n_mac n)
    (n_bridge n) (n_acl n) (n_cache n) (n_source n) t (n_arp n) (n_icmp n).

Definition server_set_acl (a : ACL) (s : server) : server :=
  mkServer (sv_ip s) (sv_mac s) (sv_cfg s) a (sv_sessions s) (sv_tids s) (sv_history s) (sv_stats s)
    (sv_daily s) (sv_out s) (sv_tasks s).
Definition responder_set_acl (a : ACL) (r : responder) : responder := mkResponder (rs_ip r) (rs_mac r) a.

(** A change of the shared access lists is seen by everybody who holds them. *)
Definition share_acl (a : ACL) (n : nishro) : nishro :=
  mkNishro (n_dead n) (n_restart n) (n_critical n) (n_engine n) (n_core n) (n_nic_error n) (n_iface n) (n_ip n) (n_mac n)
    (n_bridge n) a (n_cache n) (n_source n)
    (prod_map (server_set_acl a) id <$> n_tftp n) (responder_set_acl a <$> n_arp n) (responder_set_acl a <$> n_icmp n).

(** [self.acl.reload(cfg.data)]. *)
Definition reload_acl (data : pyval) : eff nishro unit := λ n,
  let '(r, a) := acl_reload_in_place data (n_acl n) in (r, share_acl a n).

(** An address of the configuration as the responders compare it with the
    addresses of packets; a value that is no text equals none of them. *)
Definition addr_of (v : pyval) : str := match v with VStr s => s | _ => -1 :: py_repr v end.

(** [new_mac.lower() if isinstance(new_mac, str) else new_mac]. *)
Definition mac_of (v : pyval) : str := match v with VStr s => lower s | _ => addr_of v end.

(** [x.update(...)] of a component that may be [None]. *)
Definition no_update : exc := AttributeError (u "'NoneType' object has no attribute 'update'").
Definition need {A} (o : option A) : pyres A := match o with Some a => Ok a | None => Raise no_update end.

(** [_core_cfg_data]. *)
Definition core_cfg_data (n : nishro) (data : pyval) : pyres pyval :=
  match data with
  | VDict d =>
      match py_or (default empty_dict (dict_get (u "network") d)) empty_dict with
      | VDict net =>
          let net := if truthy (default VNone (dict_get (u "virtual_mac") net)) then net
                     else dict_set (u "virtual_mac") (VStr (n_mac n)) net in
          Ok (VDict (dict_set (u "network") (VDict net) d))
      | v => Raise (TypeError (u "'" ++ type_name v ++ u "' object is not iterable"))
      end
  | v => Raise (TypeError (u "'" ++ type_name v ++ u "' object is not iterable"))
  end.

(** The C engine reading the whole configuration again. *)
Definition push_to_core (data : pyval) : eff nishro unit :=
  core ← reading n_core;
  match core with
  | None => mret tt
  | Some sent =>
      n ← reading id;
      cfg ← lift_res (core_cfg_data n data);
      assign (set_core (Some (sent ++ [cfg])))
  end.

(** The responders take over the addresses. *)
Definition reload_network (data : pyval) : eff nishro unit :=
  let net := node_get data [u "network"] empty_dict in
  n ← reading id;
  ipv ← lift_res (py_get net (u "virtual_ip") (VStr (n_ip n)));
  macv ← lift_res (py_get net (u "virtual_mac") VNone);
  let ip := addr_of ipv in
  let mac := mac_of (py_or macv (VStr (n_mac n))) in
  _ ← assign (set_addr ip mac);
  arp ← lift_res (need (n_arp n));
  _ ← assign (set_arp (Some (responder_update ip mac arp)));
  icmp ← lift_res (need (n_icmp n));
  assign (set_icmp (Some (responder_update ip mac icmp))).

Definition reload_cache (data : pyval) : eff nishro unit :=
  let cache_cfg := block data [u "files"; u "cache"] in
  c ← reading n_cache;
  mb ← lift_res (cache_num cache_cfg (u "max_bytes") (c_max_bytes c));
  mf ← lift_res (cache_num cache_cfg (u "max_file_bytes") (c_max_file_bytes c));
  en ← lift_res (cache_flag cache_cfg (c_enabled c));
  assign (set_cache (cache_update mb mf en c)).

(** The new source, and the server that follows. *)
Definition reload_tftp (data : pyval) : eff nishro unit :=
  source ← lift_res (build_source data);
  _ ← assign (set_source source);
  merged ← lift_res (merged_cfg data);
  n ← reading id;
  t ← lift_res (need (n_tftp n));
  assign (set_tftp (Some (server_set_acl (n_acl n) (server_update (n_ip n) (n_mac n) merged t.1), source))).

(** The part of [_on_config_change] after the restart decision and the
    logging. *)
Definition apply_config (data : pyval) : eff nishro unit :=
  engine ← reading n_engine;
  if bool_decide (engine = u "c") then push_to_core data
  else
    _ ← reload_acl data;
    _ ← reload_network data;
    _ ← reload_cache data;
    reload_tftp data.

(** [_on_config_change]: the instance and the logging of the process. *)
Definition on_config_change (fs : option exc) (data : pyval) (s : nishro * logging)
  : pyres unit * (nishro * logging) :=
  let '(n, lg) := s in
  if n_dead n then (Ok tt, s)
  else match snapshot_critical data with
       | Raise e => (Raise e, s)
       | Ok new =>
           if negb (critical_eqb new (n_critical n)) then (Ok tt, (set_restart n, lg))
           else
             let lg := (setup_logging (block data [u "logging"]) fs lg).2 in
             let '(r, n) := apply_config data n in (r, (n, lg))
       end.

(** ** Starting and stopping the engine *)

(** The head of [run]: what the start of the C engine or of the capture socket
    raised, if anything. *)
Definition start_engine (failure : option str) (data : pyval) (n : nishro) : nishro :=
  let set_err e core bridge tftp :=
    mkNishro (n_dead n) (n_restart n) (n_critical n) (n_engine n) core e (n_iface n) (n_ip n) (n_mac n)
      bridge (n_acl n) (n_cache n) (n_source n) tftp (n_arp n) (n_icmp n) in
  match n_nic_error n with
  | Some _ => n
  | None =>
      if bool_decide (n_engine n = u "c") then
        match core_cfg_data n data, failure with
        | Ok cfg, None => set_core (Some [cfg]) n
        | Raise e, _ => set_err (Some (u "C engine failed to start: " ++ exc_str e)) None (n_bridge n) (n_tftp n)
        | Ok _, Some e => set_err (Some (u "C engine failed to start: " ++ e)) None (n_bridge n) (n_tftp n)
        end
      else if negb (n_bridge n) then n
      else match failure with
           | None => n
           | Some e =>
               set_err (Some (u "Could not open adapter " ++ repr_str (n_iface n) ++ u ": " ++ e
                              ++ u ". Open Admin Config and pick a different adapter.")) (n_core n) false None
           end
  end.

(** The tail of [run]: the instance is dead, its sessions are cancelled, the
    socket is closed and its totals join the carry-over.  [c_stats] are the last
    totals of the C engine; [stats] are the counters of the process when no
    server holds them. *)
Definition stop_engine (c_stats : list (str * pyval)) (stats : list (counter * Z)) (carry : list (str * Z))
    (n : nishro) : nishro * list (counter * Z) * list (str * Z) :=
  let dead tftp bridge := mkNishro true (n_restart n) (n_critical n) (n_engine n) None (n_nic_error n) (n_iface n)
    (n_ip n) (n_mac n) bridge (n_acl n) (n_cache n) (n_source n) tftp (n_arp n) (n_icmp n) in
  if bool_decide (n_engine n = u "c") then
    (dead (n_tftp n) (n_bridge n), stats, match n_core n with Some _ => stop_c_engine c_stats carry | None => carry end)
  else match n_tftp n with
       | Some (sv, src) =>
           let '(cs, carry) := stop_python_engine (sv_stats sv) carry in
           (dead (Some (server_shutdown sv, src)) false, cs, carry)
       | None =>
           let '(cs, carry) := stop_python_engine stats carry in (dead None false, cs, carry)
       end.

(** ** A change in place makes what a fresh start would make *)

Definition server_settings (t : server * RouterSource) :=
  (sv_ip t.1, sv_mac t.1, sv_cfg t.1, sv_acl t.1, t.2).

(** Everything the configuration determines in an instance. *)
Definition settings (n : nishro) :=
  (n_engine n, n_iface n, n_ip n, n_mac n, n_acl n,
   (c_max_bytes (n_cache n), c_max_file_bytes (n_cache n), c_enabled (n_cache n)),
   n_source n, server_settings <$> n_tftp n, n_arp n, n_icmp n).

(** What is in progress: sessions with their TIDs and inboxes, counters, loads
    of the cache. *)
Definition in_progress (n : nishro) :=
  ((λ t : server * RouterSource, (sv_sessions t.1, sv_tids t.1, sv_history t.1, sv_stats t.1, sv_tasks t.1)) <$> n_tftp n,
   c_inflight (n_cache n)).

Lemma init_inv nics data n :
  nishro_init nics data = Ok n →
  snapshot_critical data = Ok (n_critical n) ∧ n_engine n = cr_engine (n_critical n) ∧
  n_iface n = py_str (cr_nic (n_critical n)) ∧ n_ip n = py_str (cr_ip (n_critical n)) ∧
  ∃ m, cr_mac (n_critical n) = VStr m ∧
    n_mac n = (if bool_decide (m = []) then nic_real_mac nics (n_iface n) else lower m) ∧
    n_nic_error n = start_error (n_iface n) (n_ip n) (n_mac n) (lower m) (nic_real_mac nics (n_iface n)).
Proof.
  unfold nishro_init. intros Hi.
  apply pyres_bind_Ok in Hi as (crit & Hc & Hi). apply pyres_bind_Ok in Hi as (engine & He & Hi).
  cbv zeta in Hi.
  apply pyres_bind_Ok in Hi as (nicv & Hn & Hi). apply pyres_bind_Ok in Hi as (ipv & Hip & Hi).
  apply pyres_bind_Ok in Hi as (macv & Hmac & Hi). apply pyres_bind_Ok in Hi as (mac & Hr & Hi).
  pose proof Hc as Hc'. unfold snapshot_critical in Hc. cbv zeta in Hc. rewrite Hn, Hip, Hmac in Hc.
  cbn [mbind pyres_bind] in Hc.
  repeat (apply pyres_bind_Ok in Hc as (? & ? & Hc)). 
  rewrite He in *. injection Hc as <-. simplify_eq.
  assert (∃ m, py_or (py_or macv (VStr [])) (VStr []) = VStr m ∧
    match py_or macv (VStr []) with VStr s => lower s | _ => [] end = lower m ∧
    mac = if bool_decide (m = []) then nic_real_mac nics (py_str (py_or nicv (VStr []))) else lower m) as (m & Hm & Ho & Hmm).
  { unfold resolve_mac in Hr. unfold py_or at 2 3. destruct (truthy macv) eqn:Ht.
    - destruct macv; try done. cbn in Hr. injection Hr as <-. exists s. unfold py_or. rewrite Ht. split_and!; try done.
      cbn in Ht. by apply negb_true_iff in Ht as ->.
    - injection Hr as <-. by exists []. }
  rewrite Ho in Hi. clear Ho.
  match type of Hi with context [bool_decide (?e = u "c")] => destruct (bool_decide (e = u "c")) end.
  - repeat (apply pyres_bind_Ok in Hi as (? & ? & Hi)). injection Hi as <-. cbn. split_and!; try done. by exists m.
  - repeat (apply pyres_bind_Ok in Hi as (? & ? & Hi)). injection Hi as <-. cbn. split_and!; try done. by exists m.
Qed.

Lemma init_python nics data n :
  nishro_init nics data = Ok n → n_engine n ≠ u "c" →
  acl_reload data = Ok (n_acl n) ∧
  (let cache_cfg := node_get data [u "files"; u "cache"] empty_dict in
   cache_num cache_cfg (u "max_bytes") CACHE_TOTAL_BYTES_DEFAULT = Ok (c_max_bytes (n_cache n)) ∧
   cache_num cache_cfg (u "max_file_bytes") CACHE_PER_FILE_BYTES_DEFAULT = Ok (c_max_file_bytes (n_cache n)) ∧
   cache_flag cache_cfg false = Ok (c_enabled (n_cache n))) ∧
  build_source data = Ok (n_source n) ∧
  n_bridge n = negb (bool_decide (n_iface n = [])) && match n_nic_error n with None => true | Some _ => false end ∧
  ∃ merged, merged_cfg data = Ok merged ∧
    n_tftp n = (if n_bridge n then Some (server_init (n_ip n) (n_mac n) merged (n_acl n), n_source n) else None) ∧
    n_arp n = (if n_bridge n then Some (mkResponder (n_ip n) (n_mac n) (n_acl n)) else None) ∧
    n_icmp n = n_arp n.
Proof.
  intros Hi Hne. destruct (init_inv _ _ _ Hi) as (_ & He & _). unfold nishro_init in Hi.
  apply pyres_bind_Ok in Hi as (crit & Hc & Hi). apply pyres_bind_Ok in Hi as (engine & Hen & Hi).
  cbv zeta in Hi.
  apply pyres_bind_Ok in Hi as (nicv & Hn & Hi). apply pyres_bind_Ok in Hi as (ipv & Hip & Hi).
  apply pyres_bind_Ok in Hi as (macv & Hmac & Hi). apply pyres_bind_Ok in Hi as (mac & Hr & Hi).
  case_bool_decide as Hd.
  { exfalso. apply Hne. repeat (apply pyres_bind_Ok in Hi as (? & ? & Hi)). by injection Hi as <-. }
  apply pyres_bind_Ok in Hi as (acl & Ha & Hi). apply pyres_bind_Ok in Hi as (mb & Hmb & Hi).
  apply pyres_bind_Ok in Hi as (mf & Hmf & Hi). apply pyres_bind_Ok in Hi as (en & Hf & Hi).
  apply pyres_bind_Ok in Hi as (source & Hs & Hi). apply pyres_bind_Ok in Hi as (merged & Hm & Hi).
  injection Hi as <-. split_and!; try done. by exists merged.
Qed.

Lemma reload_acl_ok data n a : acl_reload data = Ok a → reload_acl data n = (Ok tt, share_acl a n).
Proof.
  intros Ha. unfold reload_acl. pose proof (acl_reload_in_place_spec data (n_acl n)) as Hs. rewrite Ha in Hs.
  by rewrite Hs.
Qed.

Lemma reload_network_ok data n ip macv arp icmp :
  let net := node_get data [u "network"] empty_dict in
  py_get net (u "virtual_ip") (VStr (n_ip n)) = Ok (VStr ip) → py_get net (u "virtual_mac") VNone = Ok macv →
  n_arp n = Some arp → n_icmp n = Some icmp →
  let mac := mac_of (py_or macv (VStr (n_mac n))) in
  reload_network data n
  = (Ok tt, set_icmp (Some (responder_update ip mac icmp))
              (set_arp (Some (responder_update ip mac arp)) (set_addr ip mac n))).
Proof.
  intros net Hip Hmac Harp Hicmp mac. unfold reload_network. cbv zeta.
  rewrite eff_bind_reading, eff_bind_lift_res. cbn [id]. fold net. rewrite Hip, eff_bind_lift_res, Hmac, eff_bind_assign.
  cbn [addr_of id]. by rewrite eff_bind_lift_res, Harp; cbn [need]; rewrite eff_bind_assign, eff_bind_lift_res, Hicmp.
Qed.

Lemma reload_cache_ok data n mb mf en :
  let cache_cfg := block data [u "files"; u "cache"] in
  cache_num cache_cfg (u "max_bytes") (c_max_bytes (n_cache n)) = Ok mb →
  cache_num cache_cfg (u "max_file_bytes") (c_max_file_bytes (n_cache n)) = Ok mf →
  cache_flag cache_cfg (c_enabled (n_cache n)) = Ok en →
  reload_cache data n = (Ok tt, set_cache (cache_update mb mf en (n_cache n)) n).
Proof.
  intros cfg H1 H2 H3. unfold reload_cache. cbv zeta. fold cfg.
  by rewrite eff_bind_reading, eff_bind_lift_res, H1, eff_bind_lift_res, H2, eff_bind_lift_res, H3.
Qed.

Lemma reload_tftp_ok data n source merged t :
  build_source data = Ok source → merged_cfg data = Ok merged → n_tftp n = Some t →
  reload_tftp data n
  = (Ok tt, set_tftp (Some (server_set_acl (n_acl n) (server_update (n_ip n) (n_mac n) merged t.1), source))
              (set_source source n)).
Proof.
  intros H1 H2 H3. unfold reload_tftp.
  rewrite eff_bind_lift_res, H1, eff_bind_assign, eff_bind_lift_res, H2, eff_bind_reading, eff_bind_lift_res.
  cbn [id n_tftp set_source]. by rewrite H3.
Qed.

(** An instance with its adapter open, started from [data0], whatever sessions,
    counters and cached files it has by now. *)
Definition started (nics : pyres (list nic)) (data0 : pyval) (n : nishro) : Prop :=
  ∃ n0, nishro_init nics data0 = Ok n0 ∧ n_bridge n0 = true ∧ n_engine n0 ≠ u "c" ∧
    n_dead n = false ∧ n_critical n = n_critical n0 ∧ n_engine n = n_engine n0 ∧ n_iface n = n_iface n0 ∧
    n_ip n = n_ip n0 ∧ n_mac n = n_mac n0 ∧ is_Some (n_arp n) ∧ is_Some (n_icmp n) ∧ is_Some (n_tftp n).

(** The adapter and the address are written as texts. *)
Definition text_addresses (c : critical) : Prop := (∃ s, cr_nic c = VStr s) ∧ ∃ s, cr_ip c = VStr s.

(** The configuration names the three cache settings. *)
Definition cache_explicit (data : pyval) : Prop :=
  ∃ d, node_get data [u "files"; u "cache"] empty_dict = VDict d ∧
    u "max_bytes" ∈ dict_keys d ∧ u "max_file_bytes" ∈ dict_keys d ∧ u "enabled" ∈ dict_keys d.

Lemma dict_get_key {A} k (d : list (str * A)) : k ∈ dict_keys d → ∃ v, dict_get k d = Some v.
Proof. intros Hk. destruct (dict_get k d) eqn:Hg; [by eexists|]. by apply dict_get_None in Hg. Qed.

(** With the settings named, what a missing one defaults to does not matter. *)
Lemma cache_defaults data mb mf en mb' mf' en' :
  cache_explicit data →
  let fresh := node_get data [u "files"; u "cache"] empty_dict in
  let cfg := block data [u "files"; u "cache"] in
  cache_num cfg (u "max_bytes") mb = cache_num fresh (u "max_bytes") mb' ∧
  cache_num cfg (u "max_file_bytes") mf = cache_num fresh (u "max_file_bytes") mf' ∧
  cache_flag cfg en = cache_flag fresh en'.
Proof.
  intros (d & Hd & (v1 & H1)%dict_get_key & (v2 & H2)%dict_get_key & (v3 & H3)%dict_get_key). cbv zeta.
  unfold block. rewrite Hd. assert (py_or (VDict d) empty_dict = VDict d) as -> by (by destruct d).
  unfold cache_num, cache_flag. cbn [py_get]. by rewrite H1, H2, H3.
Qed.

(** Equal critical settings with text addresses are the same addresses. *)
Lemma critical_same a b :
  critical_eqb a b = true → text_addresses b → (∃ m, cr_mac b = VStr m) →
  cr_nic a = cr_nic b ∧ cr_ip a = cr_ip b ∧ cr_mac a = cr_mac b ∧ cr_engine a = cr_engine b.
Proof.
  unfold critical_eqb. rewrite !andb_true_iff. intros ((((((H1 & H2) & H3) & _) & _) & _) & H7) [[s1 E1] [s2 E2]] [m Em].
  rewrite E1 in *. rewrite E2 in *. rewrite Em in *. apply py_eqb_str in H1, H2, H3.
  by apply bool_decide_eq_true_1 in H7.
Qed.

(** The address of a configuration whose critical settings name one. *)
Lemma network_get data c ip :
  snapshot_critical data = Ok c → cr_ip c = VStr ip → ip ≠ [] →
  let net := node_get data [u "network"] empty_dict in
  (∀ dflt, py_get net (u "virtual_ip") dflt = Ok (VStr ip)) ∧
  ∃ macv, py_get net (u "virtual_mac") VNone = Ok macv ∧ cr_mac c = py_or (py_or macv (VStr [])) (VStr []).
Proof.
  unfold snapshot_critical. cbv zeta. intros Hc Hip Hne.
  apply pyres_bind_Ok in Hc as (nicv & Hn & Hc). apply pyres_bind_Ok in Hc as (ipv & Hi & Hc).
  apply pyres_bind_Ok in Hc as (macv & Hm & Hc).
  repeat (apply pyres_bind_Ok in Hc as (? & ? & Hc)). injection Hc as <-. cbn [cr_ip cr_mac] in *.
  unfold block, py_or in Hi, Hm. destruct (truthy (node_get data [u "network"] empty_dict)).
  2:{ cbn in Hi. injection Hi as <-. cbn in Hip. by simplify_eq. }
  destruct (node_get data [u "network"] empty_dict) as [| | | | |d]; cbn [py_get] in Hi, Hm; try done.
  destruct (dict_get (u "virtual_ip") d) as [v|] eqn:Hg; cbn [default] in Hi; injection Hi as <-.
  - split; [|by exists macv]. intros dflt. cbn [py_get]. rewrite Hg. cbn [default].
    unfold py_or in Hip. destruct (truthy v); simplify_eq; done.
  - cbn in Hip. by simplify_eq.
Qed.

Lemma start_ok_ip iface ip mac o real : start_error iface ip mac o real = None → ip ≠ [].
Proof. unfold start_error. by repeat case_bool_decide. Qed.

Lemma nic_real_mac_lower nics iface : lower (nic_real_mac nics iface) = nic_real_mac nics iface.
Proof.
  unfold nic_real_mac. case_goal; [done|]. destruct nics as [l|]; [|done].
  destruct (List.find _ l); [apply lower_idem|done].
Qed.

(** Instances of equal critical settings, with the same adapters, have the same
    addresses. *)
Lemma init_same nics data data0 n n0 :
  nishro_init nics data = Ok n → nishro_init nics data0 = Ok n0 →
  critical_eqb (n_critical n) (n_critical n0) = true → text_addresses (n_critical n0) →
  n_engine n = n_engine n0 ∧ n_iface n = n_iface n0 ∧ n_ip n = n_ip n0 ∧ n_mac n = n_mac n0 ∧
  n_nic_error n = n_nic_error n0 ∧ cr_ip (n_critical n) = VStr (n_ip n0).
Proof.
  intros (_ & He & Hf & Hi & m & Hm & Hmac & Herr)%init_inv (_ & He0 & Hf0 & Hi0 & m0 & Hm0 & Hmac0 & Herr0)%init_inv Hc Ht.
  destruct (critical_same _ _ Hc Ht) as (E1 & E2 & E3 & E4); [by eexists|]. destruct Ht as [_ [s Es]].
  assert (m = m0) as -> by congruence.
  assert (n_iface n = n_iface n0) as Ef by congruence. assert (n_ip n = n_ip n0) as Ei by congruence.
  assert (n_mac n = n_mac n0) as Em by (rewrite Hmac, Hmac0; by rewrite Ef).
  split_and!; [congruence|done..|rewrite Herr, Herr0; congruence|]. rewrite E2, Hi0, Es. done.
Qed.

Lemma apply_config_python data n n1 n2 n3 n4 :
  n_engine n ≠ u "c" → reload_acl data n = (Ok tt, n1) → reload_network data n1 = (Ok tt, n2) →
  reload_cache data n2 = (Ok tt, n3) → reload_tftp data n3 = (Ok tt, n4) → apply_config data n = (Ok tt, n4).
Proof.
  intros Hne H1 H2 H3 H4. unfold apply_config. rewrite eff_bind_reading, bool_decide_eq_false_2 by done.
  unfold mbind, eff_bind. by rewrite H1, H2, H3, H4.
Qed.


End app.

(** ** The process: instances that follow one another *)

(** All instances built so far, the logging and the counters of the process. *)
Record process := mkProcess {
  p_instances : list nishro;
  p_logging : logging;
  p_stats : list (counter * Z);
  p_carry : list (list Z * Z);
}.

Section process.
Context `{Codec} `{OsPath} (fs : option exc).

(** The subscription of instance [id]: [nishro._on_config_change]. *)
Definition callback (id : nat) (s : Config * process) : bool * (Config * process) :=
  let '(c, p) := s in
  match p_instances p !! id with
  | None => (false, s)
  | Some n =>
      let '(r, (n', lg)) := on_config_change fs (c_data c) (n, p_logging p) in
      (match r with Ok _ => false | Raise _ => true end,
       (c, mkProcess (<[id := n']> (p_instances p)) lg (p_stats p) (p_carry p)))
  end.

(** Where [run] lets the panel listen; it reads the two settings again, after
    the engine has started and outside its [try]. *)
Definition web_address (data : pyval) : pyres (pyval * Z) :=
  let web := block data [u "web"] in
  host ← py_get web (u "host") (VStr WEB_HOST_DEFAULT);
  portv ← py_get web (u "port") (VInt WEB_PORT_DEFAULT);
  port ← py_int portv;
  Ok (host, port).

(** The constructor and [run] up to its [asyncio.wait]: an exception ends the
    program. *)
Definition instance_up (nics : pyres (list nic)) (data : pyval) : pyres nishro :=
  n ← nishro_init nics data; _ ← web_address data; Ok n.

Lemma instance_up_init nics data n : instance_up nics data = Ok n → nishro_init nics data = Ok n.
Proof. unfold instance_up. intros (n' & Hi & (a & _ & [= <-])%pyres_bind_Ok)%pyres_bind_Ok. done. Qed.

(** The head of a round of [_amain] and of [run]: a failed reload is logged and
    the old data used; [None] when the constructor raises, which ends the
    process. *)
Definition round_start (nics : pyres (list nic)) (failure : option str) (s : Config * process)
  : option (Config * process) :=
  let '(c, p) := (config_reload callback (clear_subscribers s.1, s.2)).2 in
  match instance_up nics (c_data c) with
  | Raise _ => None
  | Ok n =>
      Some (subscribe (length (p_instances p)) c,
            mkProcess (p_instances p ++ [start_engine failure (c_data c) n]) (p_logging p) (p_stats p) (p_carry p))
  end.

(** The end of [run]: the last instance stops and unsubscribes. *)
Definition round_stop (c_stats : list (str * pyval)) (s : Config * process) : Config * process :=
  let '(c, p) := s in
  let id := (length (p_instances p) - 1)%nat in
  match p_instances p !! id with
  | None => s
  | Some n =>
      let '(n', stats, carry) := stop_engine c_stats (p_stats p) (p_carry p) n in
      (unsubscribe id c, mkProcess (<[id := n']> (p_instances p)) (p_logging p) stats carry)
  end.

(** What can happen to the process: the panel saves or reloads the
    configuration, the running instance works, and an instance asked to
    restart is replaced. *)
Inductive app_step : Config * process → Config * process → Prop :=
| app_save ok v s : app_step s (config_save callback ok v s).2
| app_reload s : app_step s (config_reload callback s).2
| app_work c p ds n n' stats :
    p_instances p = ds ++ [n] → n_dead n' = n_dead n → n_restart n' = n_restart n →
    n_critical n' = n_critical n →
    app_step (c, p) (c, mkProcess (ds ++ [n']) (p_logging p) stats (p_carry p))
| app_round c p ds n nics failure c_stats s' :
    p_instances p = ds ++ [n] → n_restart n = true →
    round_start nics failure (round_stop c_stats (c, p)) = Some s' →
    app_step (c, p) s'.

(** From the first round. *)
Definition app_reachable (s : Config * process) : Prop :=
  ∃ c lg nics failure s0,
    round_start nics failure (c, mkProcess [] lg Counters_init carry_init) = Some s0 ∧ rtc app_step s0 s.

(** One live instance, the last one, which is the only subscriber. *)
Definition one_live (s : Config * process) : Prop :=
  ∃ ds n, p_instances s.2 = ds ++ [n] ∧ Forall (λ d, n_dead d = true) ds ∧ n_dead n = false ∧
          c_subscribers s.1 = [length ds].

Lemma init_live nics data n : nishro_init nics data = Ok n → n_dead n = false ∧ n_restart n = false.
Proof.
  unfold nishro_init. intros Hi. cbv zeta in Hi. do 6 apply pyres_bind_Ok in Hi as (? & ? & Hi).
  case_bool_decide; repeat (apply pyres_bind_Ok in Hi as (? & ? & Hi)); by injection Hi as <-.
Qed.

Lemma start_engine_live failure data n :
  n_dead (start_engine failure data n) = n_dead n ∧ n_restart (start_engine failure data n) = n_restart n.
Proof. unfold start_engine. destruct (n_nic_error n); [done|]. by repeat case_match. Qed.

(** What a configuration change never touches. *)
Definition frame (n' n : nishro) : Prop :=
  n_dead n' = n_dead n ∧ n_critical n' = n_critical n ∧ n_restart n' = n_restart n.

Lemma apply_config_frame data n : frame (apply_config data n).2 n.
Proof.
  assert (∀ n1 n2 n3, frame n1 n2 → frame n2 n3 → frame n1 n3) as Htr
    by (unfold frame; intros ??? (?&?&?) (?&?&?); split_and!; congruence).
  assert (∀ (m : eff nishro unit) (k : unit → eff nishro unit) n,
    (∀ n, frame (m n).2 n) → (∀ n, frame (k tt n).2 n) → frame ((m ≫= k) n).2 n) as Hb.
  { intros m k n0 Hm Hk. unfold mbind, eff_bind. specialize (Hm n0). destruct (m n0) as [[[]|e] n1]; [|done].
    eapply Htr; [apply Hk|done]. }
  unfold apply_config. rewrite eff_bind_reading. generalize (n_engine n). intros e. revert n. case_goal; intros n.
  - unfold push_to_core, mbind, eff_bind, reading, lift_res, assign. destruct (n_core n); [|done].
    by destruct (core_cfg_data _ data).
  - revert n. intros n. apply Hb; [clear n|clear n; intros n; apply Hb; [clear n|clear n; intros n; apply Hb; clear n]].
    + intros n1. unfold reload_acl. by destruct (acl_reload_in_place data (n_acl n1)).
    + intros n1. unfold reload_network, mbind, eff_bind, reading, lift_res, assign. cbv zeta.
      destruct (py_get _ _ _); [|done]. destruct (py_get _ _ _); [|done]. cbn [id].
      destruct (n_arp n1); [|done]. cbn. by destruct (n_icmp n1).
    + intros n1. unfold reload_cache, mbind, eff_bind, reading, lift_res, assign. cbv zeta.
      destruct (cache_num _ _ _); [|done]. destruct (cache_num _ _ _); [|done]. by destruct (cache_flag _ _).
    + intros n1. unfold reload_tftp, mbind, eff_bind, reading, lift_res, assign. cbv zeta.
      destruct (build_source data); [|done]. destruct (merged_cfg data); [|done]. cbn. by destruct (n_tftp n1).
Qed.

Lemma on_config_change_frame data n lg :
  n_dead (on_config_change fs data (n, lg)).2.1 = n_dead n ∧
  n_critical (on_config_change fs data (n, lg)).2.1 = n_critical n.
Proof.
  unfold on_config_change. destruct (n_dead n) eqn:Hd; [done|]. destruct (snapshot_critical data); [|done].
  case_goal; [done|]. pose proof (apply_config_frame data n) as (H1 & H2 & _).
  destruct (apply_config data n). cbn in *. by rewrite H1, H2.
Qed.

(** Notifying the one subscriber. *)
Lemma fire_one c p ds n :
  p_instances p = ds ++ [n] → c_subscribers c = [length ds] →
  fire callback (c, p)
  = (c, mkProcess (ds ++ [(on_config_change fs (c_data c) (n, p_logging p)).2.1])
          (on_config_change fs (c_data c) (n, p_logging p)).2.2 (p_stats p) (p_carry p)).
Proof.
  intros Hp Hs. unfold fire. cbn [fst]. rewrite Hs. cbn [fold_left]. rewrite notify_eq. unfold callback.
  rewrite Hp, lookup_app_r, Nat.sub_diag by lia. cbn [lookup list_lookup].
  destruct (on_config_change fs (c_data c) (n, p_logging p)) as [r [n' lg]]. cbn [fst snd].
  by rewrite insert_app_r_alt, Nat.sub_diag by lia.
Qed.

Lemma one_live_fire c p : one_live (c, p) → one_live (fire callback (c, p)).
Proof.
  intros (ds & n & Hp & Hd & Hn & Hs). cbn in *. rewrite (fire_one c p ds n Hp Hs).
  eexists ds, _. split_and!; [done|done| |done].
  by rewrite (proj1 (on_config_change_frame (c_data c) n (p_logging p))).
Qed.

(** A round leaves the new instance as the only live one. *)
Lemma round_start_live nics failure s s' :
  Forall (λ d, n_dead d = true) (p_instances s.2) → round_start nics failure s = Some s' → one_live s'.
Proof.
  intros Hd. unfold round_start, config_reload. cbn [fst c_file clear_subscribers set_subscribers].
  assert (∀ c p, p_instances p = p_instances s.2 → c_subscribers c = [] →
    match instance_up nics (c_data c) with
    | Ok n => Some (subscribe (length (p_instances p)) c,
        mkProcess (p_instances p ++ [start_engine failure (c_data c) n]) (p_logging p) (p_stats p) (p_carry p))
    | Raise _ => None end = Some s' → one_live s') as Hend.
  { intros c p Hp Hc. destruct (instance_up nics (c_data c)) as [n|] eqn:Hi; [|done]. apply instance_up_init in Hi. intros [= <-].
    exists (p_instances p), (start_engine failure (c_data c) n). cbn. rewrite Hc, Hp. split_and!; try done.
    by rewrite (proj1 (start_engine_live _ _ _)), (proj1 (init_live _ _ _ Hi)). }
  destruct (c_file s.1) as [t|]; [|by apply Hend]. destruct (loads t) as [v|]; [|by apply Hend].
  cbn [snd]. unfold fire. cbn [fst c_subscribers fold_left]. by apply Hend.
Qed.

Lemma round_stop_dead c_stats c p ds n :
  p_instances p = ds ++ [n] → Forall (λ d, n_dead d = true) ds →
  Forall (λ d, n_dead d = true) (p_instances (round_stop c_stats (c, p)).2).
Proof.
  intros Hp Hd. unfold round_stop. rewrite Hp, length_app, Nat.add_sub, lookup_app_r, Nat.sub_diag by lia.
  cbn [lookup list_lookup]. destruct (stop_engine c_stats (p_stats p) (p_carry p) n) as [[n' st] ca] eqn:Hs.
  cbn [snd p_instances]. rewrite insert_app_r_alt, Nat.sub_diag by lia. apply Forall_app. split; [done|].
  cbn. constructor; [|constructor]. unfold stop_engine in Hs. cbv zeta in Hs.
  case_hyp Hs; [by simplify_eq|]. destruct (n_tftp n) as [[sv src]|]; destruct (stop_python_engine _ _); by simplify_eq.
Qed.

Lemma one_live_step s s' : app_step s s' → one_live s → one_live s'.
Proof.
  intros Hst Hl. destruct Hst as [ok v [c p]|[c p]|c p ds n n' stats Hp Hd _ _|c p ds n nics failure c_stats s' Hp _ Hr].
  - unfold config_save. destruct ok; [|done]. apply one_live_fire.
    destruct Hl as (ds & n & ? & ? & ? & ?). by exists ds, n.
  - unfold config_reload. cbn [fst]. destruct (c_file c) as [t|]; [|done]. destruct (loads t) as [v|]; [|done].
    apply one_live_fire. destruct Hl as (ds & n & ? & ? & ? & ?). by exists ds, n.
  - destruct Hl as (ds' & n0 & Hp' & Hds & Hn & Hs). cbn [fst snd] in *. rewrite Hp in Hp'.
    apply app_inj_tail in Hp' as [-> ->]. exists ds', n'. split_and!; try done. congruence.
  - eapply round_start_live; [|exact Hr]. destruct Hl as (ds' & n0 & Hp' & Hds & Hn & Hs). cbn [snd] in *.
    rewrite Hp in Hp'. apply app_inj_tail in Hp' as [-> ->]. by eapply round_stop_dead.
Qed.

Lemma reachable_live s : app_reachable s → one_live s.
Proof.
  intros (c & lg & nics & failure & s0 & Hr & Hrtc).
  assert (one_live s0) as Hl by (eapply round_start_live; [|exact Hr]; constructor).
  clear Hr. induction Hrtc as [|s s1 s2 Hs _ IH]; [done|]. by apply IH, (one_live_step s).
Qed.

(** [C19] Through any number of restarts exactly one instance is alive, the last
    one built, and it alone subscribes to the configuration: a save that
    reaches the disk is handled once, by that instance with the saved data,
    and touches no earlier instance. *)
Theorem app_single_instance s :
  app_reachable s →
  ∃ ds n, p_instances s.2 = ds ++ [n] ∧ Forall (λ d, n_dead d = true) ds ∧ n_dead n = false ∧
    c_subscribers s.1 = [length ds] ∧
    ∀ v, let r := on_config_change fs v (n, p_logging s.2) in
      config_save callback true v s
      = (Ok tt, (mkConfig (Some (dumps v)) v [length ds],
                 mkProcess (ds ++ [r.2.1]) r.2.2 (p_stats s.2) (p_carry s.2))).
Proof.
  intros (ds & n & Hp & Hd & Hn & Hs)%reachable_live. exists ds, n. split_and!; try done.
  intros v r. destruct s as [c p]. cbn [fst snd] in *. unfold config_save. f_equal. cbn [fst snd].
  rewrite Hs. by rewrite (fire_one (mkConfig (Some (dumps v)) v [length ds]) p ds n Hp eq_refl).
Qed.

(** A round that starts from a saved file. *)
Lemma round_start_saved nics failure c p v d :
  c_file c = Some (dumps v) → val_ok v → v = VDict d →
  round_start nics failure (c, p)
  = match instance_up nics v with
    | Raise _ => None
    | Ok n => Some (mkConfig (c_file c) v [length (p_instances p)],
        mkProcess (p_instances p ++ [start_engine failure v n]) (p_logging p) (p_stats p) (p_carry p))
    end.
Proof.
  intros Hf Hok Hv. unfold round_start, config_reload. cbn [fst snd c_file clear_subscribers set_subscribers].
  rewrite Hf, loads_dumps by done. unfold fire. cbn.
  assert (py_or v (VDict []) = v) as -> by (subst v; by destruct d). done.
Qed.

End process.

(** ** The prompt for an adapter *)

(** What the prompt returns is a listed adapter with a GUID, and it is the
    choice of the first line that names one. *)
Lemma nic_select_valid nics preselected lines dev :
  interactive_nic_select nics preselected lines = Ok (Some dev) →
  (∃ n, n ∈ nics ∧ nic_guid n ≠ [] ∧ dev = npf n) ∧
  let dflt := default_idx preselected 0 (nic_order nics) in
  ∃ before line after, lines = before ++ line :: after ∧
    Forall (λ l, choose (nic_order nics) dflt l = None) before ∧ choose (nic_order nics) dflt line = Some dev.
Proof.
  intros Hs. destruct nics as [|n0 nics]; [done|]. unfold interactive_nic_select in Hs. cbv zeta in *.
  set (sorted := nic_order (n0 :: nics)) in *. set (dflt := default_idx preselected 0 sorted) in *.
  injection Hs as Hs.
  assert (∃ before line after, lines = before ++ line :: after ∧
    Forall (λ l, choose sorted dflt l = None) before ∧ choose sorted dflt line = Some dev) as Hl.
  { induction lines as [|l lines IH]; cbn [fold_left] in Hs; [done|]. destruct (choose sorted dflt l) as [x|] eqn:Hc.
    - exists [], l, lines. split_and!; [done|constructor|]. rewrite Hc. clear -Hs.
      induction lines as [|l' lines IH]; cbn in Hs; [done|]. by apply IH.
    - destruct (IH Hs) as (b & l' & a & -> & Hb & Hd). exists (l :: b), l', a. split_and!; [done|by constructor|done]. }
  split; [|done]. destruct Hl as (_ & line & _ & _ & _ & Hc). unfold choose in Hc. cbv zeta in Hc.
  apply bind_Some in Hc as (choice & _ & Hc). case_hyp Hc; [|done].
  apply bind_Some in Hc as (n & Hn & Hc). case_bool_decide; [done|]. injection Hc as <-. exists n.
  split_and!; [|done|done]. apply list_elem_of_lookup_2 in Hn. by apply elem_of_sort_by in Hn.
Qed.

(** ** A concrete configuration *)

Definition demo_nics : pyres (list nic) := Ok [mkNic (u "{7A}") (u "Ethernet") (u "02:AA") (VInt 3)].

(** A configuration with a VLAN list and a block size; [port] is the panel's. *)
Definition demo_data (blksize port vlan : Z) : pyval :=
  VDict [(u "network", VDict [(u "nic", VStr (u "\Device\NPF_{7A}")); (u "virtual_ip", VStr (u "10.0.0.1"))]);
         (u "web", VDict [(u "port", VInt port)]);
         (u "tftp", VDict [(u "defaults", VDict [(u "blksize", VInt blksize)])]);
         (u "files", VDict [(u "cache", VDict [(u "max_bytes", VInt 4096); (u "max_file_bytes", VInt 512);
                                               (u "enabled", VBool true)])]);
         (u "security", VDict [(u "vlan_acl", VDict [(u "mode", VStr (u "whitelist"));
                                                     (u "list", VList [VInt vlan]);
                                                     (u "apply_to", VList [VStr (u "tftp")])])])].

Definition demo_logging : logging := mkLogging 20 [] None.

Definition the_instance (r : pyres nishro) : nishro :=
  match r with
  | Ok n => n
  | Raise _ => mkNishro true true (mkCritical VNone VNone VNone true VNone 0 []) [] None None [] [] [] false
                 (mkACL [] [] [] [] [] []) (FileCache_init 0 0 false)
                 (mkRouter (mkLocal [] false) None None [] [] 0) None None None
  end.

Definition demo_instance (blksize port vlan : Z) : nishro :=
  the_instance (nishro_init (H := lexical_paths) demo_nics (demo_data blksize port vlan)).


(** The process after its first round. *)
Definition demo_process : @Config plain_codec * process :=
  (@mkConfig plain_codec (Some (demo_data 512 8011 5)) (demo_data 512 8011 5) [0%nat],
   mkProcess [demo_instance 512 8011 5] demo_logging Counters_init carry_init).

Lemma demo_reachable : app_reachable (H := plain_codec) (H0 := lexical_paths) None demo_process.
Proof.
  exists (@mkConfig plain_codec (Some (demo_data 512 8011 5)) (VDict []) []), demo_logging, demo_nics, None, demo_process.
  split; [vm_compute; reflexivity|constructor].
Qed.

Lemma app_single_instance_witness :
  c_subscribers demo_process.1 = [0%nat] ∧
  ∃ n, (config_save (H := plain_codec) (callback (H := plain_codec) (H0 := lexical_paths) None) true (demo_data 512 8011 6)
          demo_process).2.2
       = mkProcess [n] (on_config_change (H := lexical_paths) None (demo_data 512 8011 6)
                          (demo_instance 512 8011 5, demo_logging)).2.2 Counters_init carry_init.
Proof.
  destruct (app_single_instance (H := plain_codec) (H0 := lexical_paths) None demo_process demo_reachable)
    as (ds & n & Hp & _ & _ & Hs & Hv).
  assert (ds = [] ∧ n = demo_instance 512 8011 5) as [-> ->].
  { apply app_inj_tail. cbn [demo_process snd p_instances] in Hp. symmetry. exact Hp. }
  split; [exact Hs|]. eexists. rewrite (Hv (demo_data 512 8011 6)). reflexivity.
Defined.

Lemma demo_data_ok b p v : val_ok (demo_data b p v).
Proof. unfold demo_data. cbn. split_and!; try done; apply (bool_decide_unpack _); vm_compute; exact I. Qed.


(** ** Behaviour that differs from what is intended *)

(** Without an adapter the responders do not exist: every later change of a
    non-critical setting raises after the access lists, and the panel keeps the
    old cache limits and sources. *)
Lemma degraded_reload_raises :
  let data vlan := VDict [(u "security", VDict [(u "vlan_acl", VDict [(u "list", VList [VInt vlan])])])] in
  let n := the_instance (nishro_init (H := lexical_paths) demo_nics (data 1)) in
  (on_config_change (H := lexical_paths) None (data 2) (n, demo_logging)).1 = Raise no_update.
Proof. vm_compute. reflexivity. Qed.

(** [files.cache: null] stops the Python engine from starting, while the same
    value is accepted by a change in place and by the C engine. *)
Lemma null_cache_block_raises :
  let data engine := VDict [(u "tftp", VDict [(u "engine", VStr engine)]); (u "files", VDict [(u "cache", VNone)])] in
  (∃ e, nishro_init (H := lexical_paths) demo_nics (data (u "python")) = Raise e) ∧
  ∃ n, nishro_init (H := lexical_paths) demo_nics (data (u "c")) = Ok n.
Proof. split; eexists; vm_compute; reflexivity. Qed.

(** A cache limit taken out of the configuration stays in force until the next
    start, which uses the default. *)
Lemma removed_cache_limit_stays :
  let data cache := VDict [(u "network", VDict [(u "nic", VStr (u "\Device\NPF_{7A}"));
                                                (u "virtual_ip", VStr (u "10.0.0.1"))]);
                           (u "files", VDict [(u "cache", VDict cache)])] in
  let start cache := the_instance (nishro_init (H := lexical_paths) demo_nics (data cache)) in
  let n' := (on_config_change (H := lexical_paths) None (data []) (start [(u "max_bytes", VInt 4096)], demo_logging)).2.1 in
  c_max_bytes (n_cache n') = 4096 ∧ c_max_bytes (n_cache (start [])) = CACHE_TOTAL_BYTES_DEFAULT.
Proof. vm_compute. split; reflexivity. Qed.

(** [web.port: null] counts as the default when the constructor looks at it and
    raises when [run] does: the program ends, with the engine started. *)
Lemma null_port_ends_program :
  let data := VDict [(u "web", VDict [(u "port", VNone)])] in
  (∃ n, nishro_init (H := lexical_paths) demo_nics data = Ok n ∧ cr_port (n_critical n) = WEB_PORT_DEFAULT) ∧
  ∃ e, instance_up (H0 := lexical_paths) demo_nics data = Raise e.
Proof. split; [eexists; split|eexists]; vm_compute; reflexivity. Qed.
