(* ===== verification/Engine.v ===== *)
(** * The C engine's supervisor (src/core/engine.py)

    Python's side of the protocol with nishro_core.exe: the translation of the
    configuration, the events the child reports - counters and the life of its
    sessions - and what the web panel reads from them.  The rate of a transfer
    over a sliding window of two seconds is computed in the same way by
    [SessionInfo] of src/tftp/session.py and is modelled here too.  Times are
    in milliseconds; [float] of a dynamic value is a parameter. *)

From S2P Require Import Prelude Python Collections Constants Wire Options Stats Frame Acl Session Server.
Open Scope Z_scope.

(** ** The sliding window *)

Definition SPEED_WINDOW_MS : Z := 2000.

(** The loop that drops old samples: the second one must be in the window, or
    be the last. *)
Fixpoint trim (cutoff : Z) (samples : list (Z * Z)) : list (Z * Z) :=
  match samples with
  | s0 :: (((t1, _) :: _ :: _) as rest) => if t1 <? cutoff then trim cutoff rest else samples
  | _ => samples
  end.

(** A sample is added and the window moved; the rate is bytes over
    milliseconds since its first sample, as a numerator and a denominator (0
    when no time has passed). *)
Definition add_sample (now done : Z) (samples : list (Z * Z)) : list (Z * Z) * (Z * Z) :=
  let samples := trim (now - SPEED_WINDOW_MS) (samples ++ [(now, done)]) in
  (samples, match samples with (t0, b0) :: _ => (done - b0, now - t0) | [] => (0, 0) end).

(** [a < b] of two rates with positive denominators. *)
Definition rate_ltb (a b : Z * Z) : bool := a.1 * b.2 <? b.1 * a.2.

(** [SessionInfo.speed]: the samples and [max_speed] before and after, and the
    rate in bytes per second, a fraction. *)
Definition info_speed (last_update started bytes : Z) (st : list (Z * Z) * (Z * Z)) : list (Z * Z) * (Z * Z) * (Z * Z) :=
  let '(samples, max_speed) := st in
  let samples := match samples with [] => [(started, 0)] | _ => samples end in
  let '(samples, (db, dt)) := add_sample last_update bytes samples in
  let spd := if 0 <? dt then (db * 1000, dt) else (0, 1) in
  (samples, if rate_ltb max_speed spd then spd else max_speed, spd).

(** The peak a session shows is a peak: it never falls and the rate never
    exceeds it. *)
Lemma info_speed_peak last_update started bytes samples mx samples' mx' spd :
  0 < mx.2 → info_speed last_update started bytes (samples, mx) = (samples', mx', spd) →
  0 < mx'.2 ∧ 0 < spd.2 ∧ rate_ltb mx' mx = false ∧ rate_ltb mx' spd = false.
Proof.
  intros Hm. unfold info_speed. destruct (add_sample _ _ _) as [l [db dt]]. intros [= _ <- <-].
  assert (0 < (if 0 <? dt then (db * 1000, dt) else (0, 1)).2) as Hs by (destruct (Z.ltb_spec 0 dt); cbn; lia).
  destruct (rate_ltb mx _) eqn:E; split_and!; try done; unfold rate_ltb in *;
    rewrite ?Z.ltb_ge, ?Z.ltb_lt in *; nia.
Qed.

(** [SessionInfo.progress]. *)
Definition info_progress (bytes : Z) (total : option Z) : Z * Z :=
  match total with Some t => if t =? 0 then (0, 1) else (bytes, t) | None => (0, 1) end.

(** ** The configuration for the child *)

(** [int(d.get(k, dflt) or dflt)]. *)
Definition num_or (d : pyval) (k : str) (dflt : Z) : pyres Z :=
  v ← py_get d k (VInt dflt); py_int (py_or v (VInt dflt)).

(** [bool(d.get(k, dflt))]. *)
Definition flag_or (d : pyval) (k : str) (dflt : bool) : pyres pyval :=
  v ← py_get d k (VBool dflt); Ok (VBool (truthy v)).

(** [_limpair]. *)
Definition limpair (limits defaults : pyval) (key_min key_max dflt_key : str) : pyres pyval :=
  mn ← num_or limits key_min 0;
  mx ← num_or limits key_max 0;
  df ← num_or defaults dflt_key 0;
  Ok (VDict [(u "min", VInt mn); (u "max", VInt mx); (u "default", VInt df)]).

(** The rules of one access list, unless it is disabled. *)
Definition core_rules (acl : pyval) : pyres (list pyval) :=
  mode ← py_get acl (u "mode") VNone;
  if py_eqb (py_or mode (VStr (u "disabled"))) (VStr (u "disabled")) then Ok []
  else l ← py_get acl (u "list") (VList []); py_iter (py_or l (VList [])).

Definition core_network (net : pyval) : pyres pyval :=
  nic ← py_get net (u "nic") (VStr []);
  ip ← py_get net (u "virtual_ip") (VStr []);
  mac ← py_get net (u "virtual_mac") VNone;
  prom ← flag_or net (u "promiscuous") true;
  Ok (VDict [(u "nic", py_or nic (VStr [])); (u "virtual_ip", py_or ip (VStr []));
             (u "virtual_mac", py_or mac (VStr [])); (u "promiscuous", prom)]).

Definition core_tftp (tftp limits defaults : pyval) : pyres pyval :=
  port ← num_or tftp (u "listen_port") 69;
  wrq ← flag_or tftp (u "enable_writes") false;
  bs ← limpair limits defaults (u "blksize_min") (u "blksize_max") (u "blksize");
  ws ← limpair limits defaults (u "windowsize_min") (u "windowsize_max") (u "windowsize");
  tm ← limpair limits defaults (u "timeout_min") (u "timeout_max") (u "timeout");
  Ok (VDict [(u "port", VInt port); (u "wrq_enabled", wrq);
             (u "options", VDict [(u "blksize", bs); (u "windowsize", ws); (u "timeout", tm)])]).

Definition core_ftp (ftpp : pyval) : pyres pyval :=
  host ← py_get ftpp (u "host") VNone;
  host' ← py_get ftpp (u "host") (VStr []);
  port ← num_or ftpp (u "port") 21;
  user ← py_get ftpp (u "user") (VStr []);
  pass ← py_get ftpp (u "password") (VStr []);
  root ← py_get ftpp (u "root") (VStr (u "/"));
  Ok (VDict [(u "enabled", VBool (truthy host)); (u "host", host'); (u "port", VInt port);
             (u "user", user); (u "pass", pass); (u "root", root)]).

Definition core_files (files local ftpp prefix : pyval) (folder_fmt : str) : pyres pyval :=
  rrq ← py_get local (u "root") (VStr (u "./tftp_root"));
  wrq ← py_get files (u "write_root") (VStr (u "./tftp_uploads"));
  rec ← flag_or local (u "recursive") true;
  mr ← num_or files (u "max_rrq_size") 0;
  mw ← num_or files (u "max_wrq_size") 0;
  mf ← num_or files (u "max_ftp_size") 0;
  aw ← flag_or files (u "allow_wrq_ftp") false;
  en ← flag_or prefix (u "enabled") false;
  tr ← py_get prefix (u "trigger") (VStr (u "f::"));
  ftp ← core_ftp ftpp;
  Ok (VDict [(u "rrq_root", rrq); (u "wrq_root", wrq); (u "rrq_recursive", rec);
             (u "max_rrq_size", VInt mr); (u "max_wrq_size", VInt mw); (u "max_ftp_size", VInt mf);
             (u "allow_wrq_ftp", aw);
             (u "prefix", VDict [(u "enabled", en); (u "trigger", tr); (u "folder_fmt", VStr folder_fmt)]);
             (u "ftp", ftp)]).

(** [_yaml_to_core_cfg]. *)
Definition yaml_to_core_cfg (cfg : pyval) : pyres pyval :=
  net ← get_block cfg (u "network");
  tftp ← get_block cfg (u "tftp");
  files ← get_block cfg (u "files");
  local ← get_block files (u "local");
  ftpp ← get_block files (u "ftp");
  prefix ← get_block files (u "ftp_prefix");
  sess ← get_block cfg (u "sessions");
  sec ← get_block cfg (u "security");
  logc ← get_block cfg (u "logging");
  defaults ← get_block tftp (u "defaults");
  limits ← get_block tftp (u "limits");
  vlan_acl ← get_block sec (u "vlan_acl");
  ip_acl ← get_block sec (u "ip_acl");
  vrules ← core_rules vlan_acl;
  irules ← core_rules ip_acl;
  folder ← py_get prefix (u "folder_prefix") (VStr (u "BDCOM"));
  pad ← num_or prefix (u "digit_pad") 4;
  cnet ← core_network net;
  ctftp ← core_tftp tftp limits defaults;
  cfiles ← core_files files local ftpp prefix (py_str folder ++ u "%0" ++ z_str pad ++ u "u");
  mx ← num_or sess (u "max_concurrent") 64;
  lv ← py_get logc (u "level") (VStr (u "INFO"));
  level ← py_lower (py_or lv (VStr (u "INFO")));
  Ok (VDict [(u "network", cnet); (u "tftp", ctftp); (u "files", cfiles);
             (u "sessions", VDict [(u "max", VInt mx)]);
             (u "security", VDict [(u "default_allow", VBool true); (u "rules", VList (vrules ++ irules))]);
             (u "logging", VDict [(u "level", VStr level)])]).

(** [push_config]: the line written to the child's standard input, if it runs;
    a closed pipe is only logged. *)
Definition push_config (running : bool) (cfg : pyval) : pyres (option pyval) :=
  if running then v ← yaml_to_core_cfg cfg; Ok (Some (VDict [(u "op", VStr (u "config")); (u "data", v)]))
  else Ok None.

(** ** Sessions of the child *)

(** The dictionary of a session, its private samples and its progress. *)
Record core_session := mkCore {
  cs_fields : list (list Z * pyval);
  cs_samples : option (list (Z * Z));
  cs_progress : Z * Z;
}.

Definition field (s : core_session) (k : str) : pyval := default VNone (dict_get k (cs_fields s)).
Definition set_field (k : str) (v : pyval) (s : core_session) : core_session :=
  mkCore (dict_set k v (cs_fields s)) (cs_samples s) (cs_progress s).

(** [d.update(ev)]. *)
Definition dict_update (ev d : list (str * pyval)) : list (str * pyval) :=
  fold_left (λ d kv, dict_set kv.1 kv.2 d) ev d.

(** [int(s.get(k) or 0)]. *)
Definition int_or_0 (s : core_session) (k : str) : pyres Z := py_int (py_or (field s k) (VInt 0)).

Record engine := mkEngine {
  e_stats : list (list Z * pyval);
  e_sessions : list (Z * core_session);
  e_history : list (list (list Z * pyval) * (Z * Z));
  e_daily : list daily_call;
  e_ready : bool;
}.

Definition engine_init : engine := mkEngine [] [] [] [] false.

Definition ENGINE_HISTORY_MAX : nat := 100.

Definition set_sessions (ss : list (Z * core_session)) (e : engine) : engine :=
  mkEngine (e_stats e) ss (e_history e) (e_daily e) (e_ready e).

(** [{k: v for k, v in s.items() if not k.startswith("_")}]. *)
Definition public_row (s : core_session) : list (list Z * pyval) * (Z * Z) :=
  (List.filter (λ kv, negb (starts_with (u "_") kv.1)) (cs_fields s), cs_progress s).

Section engine.
Context (float_ms : pyval → pyres Z).

(** [_compute_derived]. *)
Definition compute_derived (now : Z) : eff core_session unit :=
  s ← reading id;
  total ← lift_res (int_or_0 s (u "total_bytes"));
  done ← lift_res (int_or_0 s (u "bytes_transferred"));
  _ ← assign (λ s, mkCore (cs_fields s) (cs_samples s) (if 0 <? total then (done, total) else (0, 1)));
  started ← lift_res (if truthy (field s (u "started_at")) then float_ms (field s (u "started_at")) else Ok now);
  _ ← assign (set_field (u "duration_ms") (VInt (Z.max (now - started) 0)));
  let '(samples, (db, dt)) := add_sample now done (default [(started, 0)] (cs_samples s)) in
  let speed := if 0 <? dt then Z.max db 0 * 1000 / dt else 0 in
  _ ← assign (λ s, mkCore (cs_fields s) (Some samples) (cs_progress s));
  _ ← assign (set_field (u "speed") (VInt speed));
  peak ← lift_res (int_or_0 s (u "max_speed"));
  assign (set_field (u "max_speed") (VInt (if peak <? speed then speed else peak))).

(** The derived fields of the session stored under [id]. *)
Definition derive (id now : Z) : eff engine unit := λ e,
  match dict_get id (e_sessions e) with
  | None => (Ok tt, e)
  | Some s => let '(r, s') := compute_derived now s in (r, set_sessions (dict_set id s' (e_sessions e)) e)
  end.

(** [int(ev["id"])]. *)
Definition event_id (ev : list (str * pyval)) : pyres Z :=
  match dict_get (u "id") ev with Some v => py_int v | None => Raise (KeyError (u "'id'")) end.

Definition text_of (v : pyval) : str := if truthy v then py_str v else [].

(** The end of a session that is known: history and daily statistics. *)
Definition finish (ev : list (str * pyval)) (s : core_session) (e : engine) : pyres unit * engine :=
  let s := mkCore (dict_update ev (cs_fields s)) (cs_samples s) (cs_progress s) in
  match py_int (py_or (py_or (field s (u "max_speed")) (field s (u "speed"))) (VInt 0)) with
  | Raise x => (Raise x, e)
  | Ok speed =>
      let s := set_field (u "speed") (VInt speed) s in
      let e := mkEngine (e_stats e) (e_sessions e)
                 (deque_appendleft ENGINE_HISTORY_MAX (public_row s) (e_history e)) (e_daily e) (e_ready e) in
      match int_or_0 s (u "bytes_transferred") with
      | Raise x => (Raise x, e)
      | Ok bt =>
          let kind_up := upper (py_str (default (VStr []) (dict_get (u "kind") (cs_fields s)))) in
          let call := mkDaily (truthy (default VNone (dict_get (u "ok") ev)))
                        (truthy (default VNone (dict_get (u "server_fault") ev)))
                        (if bool_decide (kind_up = u "RRQ") then bt else 0)
                        (if bool_decide (kind_up = u "WRQ") then bt else 0)
                        (text_of (field s (u "filename"))) (text_of (field s (u "client_mac"))) in
          (Ok tt, mkEngine (e_stats e) (e_sessions e) (e_history e) (e_daily e ++ [call]) (e_ready e))
      end
  end.

(** [_on_event]; "hello", "bye" and unknown events are only logged. *)
Definition on_event (now : Z) (ev : list (str * pyval)) (e : engine) : pyres unit * engine :=
  match default VNone (dict_get (u "ev") ev) with
  | VStr kind =>
      if bool_decide (kind = u "stat") then
        (Ok tt, mkEngine ev (e_sessions e) (e_history e) (e_daily e) (e_ready e))
      else if bool_decide (kind = u "session_start") then
        match event_id ev with
        | Raise x => (Raise x, e)
        | Ok id => derive id now (set_sessions (dict_set id (mkCore ev None (0, 1)) (e_sessions e)) e)
        end
      else if bool_decide (kind = u "session_progress") then
        match event_id ev with
        | Raise x => (Raise x, e)
        | Ok id =>
            match dict_get id (e_sessions e) with
            | None => (Ok tt, e)
            | Some s =>
                let s := mkCore (dict_update ev (cs_fields s)) (cs_samples s) (cs_progress s) in
                derive id now (set_sessions (dict_set id s (e_sessions e)) e)
            end
        end
      else if bool_decide (kind = u "session_end") then
        match event_id ev with
        | Raise x => (Raise x, e)
        | Ok id =>
            match dict_get id (e_sessions e) with
            | None => (Ok tt, e)
            | Some s => finish ev s (set_sessions (dict_del id (e_sessions e)) e)
            end
        end
      else if bool_decide (kind = u "ready") then
        (Ok tt, mkEngine (e_stats e) (e_sessions e) (e_history e) (e_daily e) true)
      else (Ok tt, e)
  | _ => (Ok tt, e)
  end.

(** [_reader]: a line that is no JSON is a log line; an exception of an event
    ends the task, and with it the reading ([false]). *)
Definition reader_line (now : Z) (line : option pyval) (st : bool * engine) : bool * engine :=
  let '(reading, e) := st in
  if negb reading then st
  else match line with
       | None => st
       | Some (VDict ev) => match on_event now ev e with (Ok _, e') => (true, e') | (Raise _, e') => (false, e') end
       | Some _ => (false, e)
       end.

Definition reader (lines : list (Z * option pyval)) (e : engine) : bool * engine :=
  fold_left (λ st l, reader_line l.1 l.2 st) lines (true, e).

(** [active_sessions]: every session is refreshed, then shown. *)
Fixpoint refresh (now : Z) (ss : list (Z * core_session)) : pyres (list (list (str * pyval) * (Z * Z))) * list (Z * core_session) :=
  match ss with
  | [] => (Ok [], [])
  | (id, s) :: ss' =>
      match compute_derived now s with
      | (Raise x, s') => (Raise x, (id, s') :: ss')
      | (Ok _, s') => let '(r, ss'') := refresh now ss' in (rows ← r; Ok (public_row s' :: rows), (id, s') :: ss'')
      end
  end.

Definition active_sessions (now : Z) (e : engine) : pyres (list (list (str * pyval) * (Z * Z))) * engine :=
  let '(r, ss) := refresh now (e_sessions e) in (r, set_sessions ss e).
End engine.

(** ** The window *)

Lemma trim_spec cutoff samples :
  ∃ dropped, samples = dropped ++ trim cutoff samples ∧
    (samples ≠ [] → trim cutoff samples ≠ []) ∧
    (dropped ≠ [] → ∃ t b rest, trim cutoff samples = (t, b) :: rest ∧ t < cutoff) ∧
    match trim cutoff samples with _ :: (t1, _) :: _ :: _ => cutoff ≤ t1 | _ => True end.
Proof.
  induction samples as [|s0 rest IH]; [by exists []|].
  destruct rest as [|[t1 b1] [|s2 rest]]; [by exists []..|].
  change (trim cutoff (s0 :: (t1, b1) :: s2 :: rest))
    with (if t1 <? cutoff then trim cutoff ((t1, b1) :: s2 :: rest) else s0 :: (t1, b1) :: s2 :: rest).
  destruct (Z.ltb_spec t1 cutoff) as [Hlt|Hge].
  - destruct IH as (dr & Heq & Hne & Hd & Hw). exists (s0 :: dr). split_and!.
    + rewrite <- app_comm_cons. by f_equal.
    + intros _. by apply Hne.
    + intros _. destruct dr as [|x dr]; [|by apply Hd]. rewrite app_nil_l in Heq. rewrite <- Heq. by eauto.
    + done.
  - exists []. by split_and!.
Qed.

(** The peak of a session. *)
Definition peak (s : core_session) : Z :=
  match field s (u "max_speed") with VInt z => z | _ => 0 end.
Definition speed (s : core_session) : Z :=
  match field s (u "speed") with VInt z => z | _ => 0 end.

(** The numbers of a session or an event are integers, or absent. *)
Definition num_keys : list str :=
  [u "total_bytes"; u "bytes_transferred"; u "started_at"; u "max_speed"; u "speed"].

Definition is_num (o : option pyval) : bool :=
  match o with None | Some (VInt _) => true | Some _ => false end.

Definition nums_ok (d : list (str * pyval)) : bool := forallb (λ k, is_num (dict_get k d)) num_keys.

Lemma nums_ok_get d k : nums_ok d = true → k ∈ num_keys → is_num (dict_get k d) = true.
Proof. unfold nums_ok. rewrite forallb_forall. intros Hn Hk. by apply Hn, list_elem_of_In. Qed.

Lemma nums_ok_set k v d : nums_ok d = true → (∃ z, v = VInt z) → nums_ok (dict_set k v d) = true.
Proof.
  intros Hn [z ->]. unfold nums_ok. apply forallb_forall. intros k' Hk'. rewrite dict_get_set.
  case_decide; [done|]. by apply nums_ok_get, list_elem_of_In.
Qed.

Lemma dict_get_update k ev d :
  dict_get k (dict_update ev d) = dict_get k d ∨ ∃ v, dict_get k (dict_update ev d) = Some v ∧ (k, v) ∈ ev.
Proof.
  unfold dict_update. revert d. induction ev as [|[k' v'] ev IH]; intros d; cbn [fold_left fst snd]; [by left|].
  destruct (IH (dict_set k' v' d)) as [->|(v & -> & Hin)].
  - cbn [fst snd]. rewrite dict_get_set. case_decide; [|by left]. subst. right. exists v'. split; [done|apply list_elem_of_here].
  - right. exists v. split; [done|]. by apply elem_of_cons; right.
Qed.

Lemma nums_ok_update ev d :
  NoDup (dict_keys ev) → nums_ok ev = true → nums_ok d = true → nums_ok (dict_update ev d) = true.
Proof.
  intros Hnd He Hd. unfold nums_ok. apply forallb_forall. intros k Hk%list_elem_of_In.
  destruct (dict_get_update k ev d) as [->|(v & -> & Hin)]; [by apply nums_ok_get|].
  rewrite <- (dict_get_in k v ev Hnd Hin). by apply nums_ok_get.
Qed.

Lemma num_key k : bool_decide (k ∈ num_keys) = true → k ∈ num_keys.
Proof. apply bool_decide_eq_true_1. Qed.

Lemma nums_ok_int s k :
  nums_ok (cs_fields s) = true → bool_decide (k ∈ num_keys) = true →
  int_or_0 s k = Ok (match field s k with VInt z => z | _ => 0 end).
Proof.
  intros Hn Hk%num_key. pose proof (nums_ok_get _ _ Hn Hk) as Hg. unfold int_or_0, field.
  destruct (dict_get k (cs_fields s)) as [[| |z| | |]|]; try done. apply py_int_or_0.
Qed.

Section tracking.
Context (float_ms : pyval → pyres Z) (float_int : ∀ z, float_ms (VInt z) = Ok (z * 1000)).

(** A refresh of a session with proper numbers. *)
Lemma compute_derived_ok now s :
  nums_ok (cs_fields s) = true →
  ∃ s', compute_derived float_ms now s = (Ok tt, s') ∧ nums_ok (cs_fields s') = true ∧
    let done := match field s (u "bytes_transferred") with VInt z => z | _ => 0 end in
    let started := match field s (u "started_at") with VInt z => if z =? 0 then now else z * 1000 | _ => now end in
    let '(samples, (db, dt)) := add_sample now done (default [(started, 0)] (cs_samples s)) in
    cs_samples s' = Some samples ∧ speed s' = (if 0 <? dt then Z.max db 0 * 1000 / dt else 0) ∧
    peak s' = Z.max (peak s) (speed s').
Proof.
  intros Hn. unfold compute_derived. rewrite eff_bind_reading. cbn [id].
  rewrite eff_bind_lift_res, nums_ok_int by (done || vm_compute; reflexivity).
  rewrite eff_bind_lift_res, nums_ok_int by (done || vm_compute; reflexivity).
  rewrite eff_bind_assign, eff_bind_lift_res.
  pose proof (nums_ok_get _ (u "started_at") Hn ltac:(apply num_key; vm_compute; reflexivity)) as Hst.
  assert ((if truthy (field s (u "started_at")) then float_ms (field s (u "started_at")) else Ok now)
    = Ok (match field s (u "started_at") with VInt z => if z =? 0 then now else z * 1000 | _ => now end)) as ->.
  { unfold field. destruct (dict_get (u "started_at") (cs_fields s)) as [[| |z| | |]|]; try done.
    cbn. destruct (z =? 0); [done|]. by rewrite float_int. }
  rewrite eff_bind_assign. cbv zeta. destruct (add_sample _ _ _) as [samples [db dt]].
  rewrite !eff_bind_assign, eff_bind_lift_res, nums_ok_int by (done || vm_compute; reflexivity).
  eexists. split; [reflexivity|]. cbn [cs_fields cs_samples set_field]. split.
  { repeat (apply nums_ok_set; [|by eexists]). done. }
  split; [done|]. unfold speed, peak, field. cbn [cs_fields set_field].
  rewrite !dict_get_set_eq. rewrite (dict_get_set_ne (u "max_speed")) by str_ne.
  rewrite dict_get_set_eq. cbn [default from_option id]. split; [done|].
  generalize (if 0 <? dt then Z.max db 0 * 1000 / dt else 0). intros sp.
  match goal with |- context [?a <? sp] => destruct (Z.ltb_spec a sp) end; lia.
Qed.

(** The rate shown for a transfer of the C engine is a proper average: for
    a session whose numbers are integers a refresh never fails; the rate is
    never negative, is the bytes since the first sample kept over the time
    since then, samples are only dropped from the old end and only when the
    window that is left is longer than two seconds, and the peak never falls
    and is never below the rate. *)
Theorem core_speed_window now s :
  nums_ok (cs_fields s) = true →
  ∃ s' samples, compute_derived float_ms now s = (Ok tt, s') ∧ cs_samples s' = Some samples ∧
    0 ≤ speed s' ≤ peak s' ∧ peak s ≤ peak s' ∧
    ∃ dropped t0 b0 rest, samples = (t0, b0) :: rest ∧
      (let done := match field s (u "bytes_transferred") with VInt z => z | _ => 0 end in
       speed s' = (if 0 <? now - t0 then Z.max (done - b0) 0 * 1000 / (now - t0) else 0) ∧
       ∃ started, default [(started, 0)] (cs_samples s) ++ [(now, done)] = dropped ++ samples) ∧
      (dropped ≠ [] → SPEED_WINDOW_MS < now - t0).
Proof.
  intros Hn. destruct (compute_derived_ok now s Hn) as (s' & Hc & _ & H). cbv zeta in H.
  set (done := match field s (u "bytes_transferred") with VInt z => z | _ => 0 end) in *.
  set (started := match field s (u "started_at") with VInt z => if z =? 0 then now else z * 1000 | _ => now end) in *.
  unfold add_sample in H. set (l := default [(started, 0)] (cs_samples s) ++ [(now, done)]) in *.
  destruct (trim_spec (now - SPEED_WINDOW_MS) l) as (dr & Heq & Hne & Hd & _).
  destruct (trim (now - SPEED_WINDOW_MS) l) as [|[t0 b0] rest] eqn:Ht.
  { exfalso. apply Hne; [|done]. subst l. by destruct (default _ _). }
  destruct H as (Hs & Hsp & Hp). exists s', ((t0, b0) :: rest). split_and!; try done.
  - rewrite Hsp. destruct (Z.ltb_spec 0 (now - t0)); [|done]. apply Z.div_pos; lia.
  - lia.
  - lia.
  - exists dr, t0, b0, rest. split; [done|]. split.
    + split; [done|]. by exists started.
    + intros Hdr. destruct (Hd Hdr) as (t & b & r & [= <- <- <-] & Hlt). lia.
Qed.

(** ** The sessions of the child *)

(** What the events say, without the details: the live sessions and the ends
    of sessions that were live, with their outcome. *)
Inductive session_event :=
| AStart (id : Z)
| AProgress (id : Z)
| AEnd (id : Z) (ok fault : bool)
| AOther.

Definition flag (ev : list (str * pyval)) (k : str) : bool := truthy (default VNone (dict_get k ev)).

Definition abstract (ev : list (str * pyval)) : session_event :=
  match dict_get (u "ev") ev, dict_get (u "id") ev with
  | Some (VStr kind), Some (VInt id) =>
      if bool_decide (kind = u "session_start") then AStart id
      else if bool_decide (kind = u "session_progress") then AProgress id
      else if bool_decide (kind = u "session_end") then AEnd id (flag ev (u "ok")) (flag ev (u "server_fault"))
      else AOther
  | _, _ => AOther
  end.

Definition spec_step (st : gset Z * list (bool * bool)) (a : session_event) : gset Z * list (bool * bool) :=
  let '(live, ends) := st in
  match a with
  | AStart id => ({[id]} ∪ live, ends)
  | AProgress _ | AOther => st
  | AEnd id ok fault => if decide (id ∈ live) then (live ∖ {[id]}, ends ++ [(ok, fault)]) else st
  end.

Definition spec_run (evs : list (list (str * pyval))) : gset Z * list (bool * bool) :=
  fold_left spec_step (map abstract evs) (∅, []).

(** An event as the child writes it: no key twice, integer numbers, and an
    integer id where there must be one. *)
Definition event_ok (ev : list (str * pyval)) : bool :=
  bool_decide (NoDup (dict_keys ev)) && nums_ok ev &&
  match dict_get (u "ev") ev with
  | Some (VStr kind) =>
      negb (bool_decide (kind ∈ [u "session_start"; u "session_progress"; u "session_end"]))
      || match dict_get (u "id") ev with Some (VInt _) => true | _ => false end
  | _ => true
  end.

Record tracks (e : engine) (st : gset Z * list (bool * bool)) : Prop := {
  tr_live : ∀ id, id ∈ dict_keys (e_sessions e) ↔ id ∈ st.1;
  tr_nodup : NoDup (dict_keys (e_sessions e));
  tr_nums : ∀ id s, dict_get id (e_sessions e) = Some s → nums_ok (cs_fields s) = true;
  tr_daily : map (λ c, (dc_success c, dc_fault c)) (e_daily e) = st.2;
  tr_history : length (e_history e) = Nat.min ENGINE_HISTORY_MAX (length st.2);
}.

Lemma tracks_sessions e st id s live :
  tracks e st → nums_ok (cs_fields s) = true → live = {[id]} ∪ st.1 →
  tracks (set_sessions (dict_set id s (e_sessions e)) e) (live, st.2).
Proof.
  intros [Hl Hn Hu Hd Hh] Hs ->. split; cbn [e_sessions set_sessions e_daily e_history fst snd]; try done.
  - intros id'. rewrite elem_of_dict_keys_set, Hl. set_solver.
  - by apply dict_set_NoDup.
  - intros id' s'. rewrite dict_get_set. case_decide; [by intros [= <-]|apply Hu].
Qed.

Lemma derive_tracks id now e st :
  tracks e st → id ∈ dict_keys (e_sessions e) →
  ∃ e', derive float_ms id now e = (Ok tt, e') ∧ tracks e' st.
Proof.
  intros Ht Hid. unfold derive. destruct (dict_get id (e_sessions e)) as [s|] eqn:Hg.
  2:{ by apply dict_get_None in Hg. }
  destruct (compute_derived_ok now s (tr_nums _ _ Ht _ _ Hg)) as (s' & -> & Hn & _).
  eexists. split; [reflexivity|]. destruct st as [live ends]. apply (tracks_sessions e (live, ends)); [done..|].
  apply (tr_live _ _ Ht) in Hid. cbn [fst] in *. set_solver.
Qed.

Lemma finish_ok ev s e :
  NoDup (dict_keys ev) → nums_ok ev = true → nums_ok (cs_fields s) = true →
  ∃ row call, finish ev s e
    = (Ok tt, mkEngine (e_stats e) (e_sessions e) (deque_appendleft ENGINE_HISTORY_MAX row (e_history e))
                (e_daily e ++ [call]) (e_ready e)) ∧
    dc_success call = flag ev (u "ok") ∧ dc_fault call = flag ev (u "server_fault").
Proof.
  intros Hnd He Hs. unfold finish. set (s1 := mkCore _ _ _).
  assert (nums_ok (cs_fields s1) = true) as H1 by (by apply nums_ok_update).
  assert (∃ z, py_int (py_or (py_or (field s1 (u "max_speed")) (field s1 (u "speed"))) (VInt 0)) = Ok z) as [z ->].
  { pose proof (nums_ok_get _ (u "max_speed") H1 ltac:(apply num_key; vm_compute; reflexivity)) as Hm.
    pose proof (nums_ok_get _ (u "speed") H1 ltac:(apply num_key; vm_compute; reflexivity)) as Hp.
    unfold field. destruct (dict_get (u "max_speed") (cs_fields s1)) as [[| |m| | |]|]; try done;
      destruct (dict_get (u "speed") (cs_fields s1)) as [[| |p| | |]|]; try done; cbn [default from_option id];
      unfold py_or at 2; cbn [truthy]; try destruct (negb (m =? 0)); eexists; apply py_int_or_0 || reflexivity. }
  assert (nums_ok (cs_fields (set_field (u "speed") (VInt z) s1)) = true) as H2
    by (apply nums_ok_set; [done|by eexists]).
  rewrite nums_ok_int by (done || vm_compute; reflexivity). eexists _, _. split; [reflexivity|done].
Qed.

Lemma on_event_tracks now ev e st :
  event_ok ev = true → tracks e st →
  ∃ e', on_event float_ms now ev e = (Ok tt, e') ∧ tracks e' (spec_step st (abstract ev)).
Proof.
  unfold event_ok. rewrite !andb_true_iff. intros [[Hnd%bool_decide_eq_true_1 Hnum] Hid] Ht.
  assert (∀ e', e_sessions e' = e_sessions e → e_daily e' = e_daily e → e_history e' = e_history e →
    tracks e' st) as Hsame.
  { intros e' E1 E2 E3. destruct Ht. split; by rewrite ?E1, ?E2, ?E3. }
  destruct st as [live ends]. unfold on_event, abstract.
  destruct (dict_get (u "ev") ev) as [[| | |kind| |]|] eqn:Hev; try (eexists; split; [reflexivity|]; by apply Hsame).
  cbn [default from_option id].
  assert (kind ∈ [u "session_start"; u "session_progress"; u "session_end"] →
    ∃ i, event_id ev = Ok i ∧ dict_get (u "id") ev = Some (VInt i)) as Hi.
  { intros Hk. rewrite bool_decide_eq_true_2 in Hid by done. cbn [negb orb] in Hid. unfold event_id.
    destruct (dict_get (u "id") ev) as [[| |z| | |]|]; try done. by exists z. }
  destruct (decide (kind = u "session_start")) as [Hk|Hk1].
  { destruct Hi as (i & Hei & ->); [rewrite Hk, !elem_of_cons; tauto|]. subst kind.
    rewrite bool_decide_eq_false_2 by str_ne. rewrite bool_decide_eq_true_2 by done. rewrite Hei.
    eapply derive_tracks; [apply (tracks_sessions e (live, ends)); done|].
    cbn [e_sessions set_sessions]. apply elem_of_dict_keys_set. by left. }
  destruct (decide (kind = u "session_progress")) as [Hk|Hk2].
  { destruct Hi as (i & Hei & ->); [rewrite Hk, !elem_of_cons; tauto|]. subst kind.
    rewrite !bool_decide_eq_false_2 by str_ne. rewrite bool_decide_eq_true_2 by done. rewrite Hei.
    destruct (dict_get i (e_sessions e)) as [s|] eqn:Hg; [|eexists; split; [reflexivity|done]].
    eapply derive_tracks.
    - apply (tracks_sessions e (live, ends)); [done|apply nums_ok_update; try done; by eapply (tr_nums _ _ Ht)|].
      apply dict_get_Some_key, (tr_live _ _ Ht) in Hg. cbn [fst] in *. set_solver.
    - cbn [e_sessions set_sessions]. apply elem_of_dict_keys_set. by left. }
  destruct (decide (kind = u "session_end")) as [Hk|Hk3].
  { destruct Hi as (i & Hei & ->); [rewrite Hk, !elem_of_cons; tauto|]. subst kind.
    rewrite !bool_decide_eq_false_2 by str_ne. rewrite bool_decide_eq_true_2 by done. rewrite Hei.
    pose proof (tr_live _ _ Ht i) as Hl. cbn [spec_step fst] in *.
    destruct (dict_get i (e_sessions e)) as [s|] eqn:Hg.
    - apply dict_get_Some_key in Hg as Hin. rewrite decide_True by (by apply Hl).
      destruct (finish_ok ev s (set_sessions (dict_del i (e_sessions e)) e) Hnd Hnum (tr_nums _ _ Ht _ _ Hg))
        as (row & call & -> & Hc1 & Hc2).
      eexists. split; [reflexivity|]. destruct Ht as [H1 H2 H3 H4 H5]. split; cbn [e_sessions set_sessions e_daily e_history fst snd] in *.
      + intros j. destruct (decide (j = i)) as [->|Hne].
        * split; [|set_solver]. intros Hj. exfalso. apply dict_get_del_eq with (k := i) in H2.
          by apply dict_get_None in H2.
        * rewrite elem_of_difference, <- H1, elem_of_singleton. split; [intros Hj; split; [by eapply dict_keys_del_sub|done]|].
          intros [Hj _]. destruct (dict_get j (e_sessions e)) eqn:Hgj; [|by apply dict_get_None in Hgj].
          rewrite <- (dict_get_del_ne i j) in Hgj by done. by eapply dict_get_Some_key.
      + by apply dict_del_NoDup.
      + intros j sj. destruct (decide (j = i)) as [->|Hne]; [by rewrite dict_get_del_eq|].
        rewrite dict_get_del_ne by done. apply H3.
      + by rewrite map_app, H4; cbn; rewrite Hc1, Hc2.
      + unfold deque_appendleft. rewrite length_take, length_app. cbn [length]. rewrite H5. lia.
    - apply dict_get_None in Hg. rewrite decide_False by (by rewrite <- Hl). eexists. split; [reflexivity|done]. }
  rewrite !(bool_decide_eq_false_2 (kind = u "session_start")), !(bool_decide_eq_false_2 (kind = u "session_progress")),
    !(bool_decide_eq_false_2 (kind = u "session_end")) by done.
  assert (match dict_get (u "id") ev with Some (VInt _) => AOther | _ => AOther end = AOther) as ->
    by (by destruct (dict_get (u "id") ev) as [[]|]).
  repeat case_goal; (eexists; split; [reflexivity|]; by apply Hsame).
Qed.

End tracking.

Definition demo_float (v : pyval) : pyres Z :=
  match v with VInt z => Ok (z * 1000) | _ => Raise (TypeError (u "float")) end.

Definition demo_event (kind : str) (id done : Z) : list (str * pyval) :=
  [(u "ev", VStr kind); (u "id", VInt id); (u "kind", VStr (u "read")); (u "filename", VStr (u "fw.bin"));
   (u "bytes_transferred", VInt done); (u "total_bytes", VInt 4096); (u "started_at", VInt 10); (u "ok", VBool true)].

Lemma core_speed_window_witness :
  let s := mkCore (demo_event (u "session_start") 1 2048) None (0, 1) in
  ∃ s', compute_derived demo_float 12000 s = (Ok tt, s') ∧ 0 ≤ speed s' ≤ peak s'.
Proof.
  intros s. destruct (core_speed_window demo_float (λ z, eq_refl) 12000 s) as (s' & samples & Hc & _ & Hb & _).
  - vm_compute. reflexivity.
  - exists s'. split; [exact Hc|exact Hb].
Defined.


(** ** Behaviour that differs from what is intended *)

(** The child names its transfers "read" and "write"; the byte totals of the
    daily statistics look for "RRQ" and "WRQ" and stay at zero. *)
Lemma core_daily_bytes_are_zero :
  let e := (reader demo_float [(10000, Some (VDict (demo_event (u "session_start") 1 0)));
                               (10400, Some (VDict (demo_event (u "session_end") 1 4096)))] engine_init).2 in
  map (λ c, (dc_sent c, dc_received c)) (e_daily e) = [(0, 0)].
Proof. vm_compute. reflexivity. Qed.

(** One event without an id ends the reading for good. *)
Lemma missing_id_stops_reader lines e :
  (reader demo_float ((0, Some (VDict [(u "ev", VStr (u "session_end"))])) :: lines) e) = (false, e).
Proof.
  unfold reader. cbn [fold_left fst snd reader_line negb]. induction lines as [|l lines IH]; [done|exact IH].
Qed.

(** The child is not told whether a list allows or denies: a list of allowed
    VLANs and the same list of denied ones translate to the same rules. *)
Lemma core_rules_lose_mode (l : list pyval) (mode : str) :
  mode ≠ [] → mode ≠ u "disabled" → core_rules (VDict [(u "mode", VStr mode); (u "list", VList l)]) = Ok l.
Proof.
  intros Hne Hd. unfold core_rules.
  assert (py_get (VDict [(u "mode", VStr mode); (u "list", VList l)]) (u "mode") VNone = Ok (VStr mode)) as -> by done.
  cbn [mbind pyres_bind]. assert (py_or (VStr mode) (VStr (u "disabled")) = VStr mode) as ->.
  { unfold py_or. cbn [truthy]. by rewrite bool_decide_eq_false_2. }
  assert (py_eqb (VStr mode) (VStr (u "disabled")) = false) as -> by (by cbn [py_eqb]; rewrite bool_decide_eq_false_2).
  by destruct l.
Qed.

(** Without [max_concurrent] the child serves 64 sessions, the Python engine
    100. *)
Lemma core_session_default :
  ∃ v, yaml_to_core_cfg (VDict []) = Ok v ∧
    (match v with VDict d => dict_get (u "sessions") d | _ => None end) = Some (VDict [(u "max", VInt 64)]) ∧ SESSIONS_MAX_CONCURRENT_DEFAULT = 100.
Proof. eexists. split; [vm_compute; reflexivity|]. vm_compute. split; reflexivity. Qed.
