(* ===== verification/Supervisor.v ===== *)
(** * Processes and tasks of the application (src/core/engine.py, src/main.py)

    The child process of the C engine - [CoreEngine.start], [push_config] and
    [stop] and the use [Nishro.run] makes of them - and the three tasks
    [Nishro.run] waits for until it shuts the instance down.  Whether the
    executable exists, whether the system spawns it, whether the pipe takes a
    line and whether the child obeys the stop command are arguments. *)

From S2P Require Import Prelude Python Collections Paths Engine.
Open Scope Z_scope.

(** ** The child process *)

(** A process as the system sees it: alive, gone by itself or killed; our end
    of its standard input open or closed; and the lines it was sent. *)
Inductive status := Alive | Exited | Killed.
Record child := mkChild { ch_status : status; ch_stdin : bool; ch_lines : list pyval }.

Definition ch_alive (c : child) : bool := match ch_status c with Alive => true | _ => false end.

(** [CoreEngine]: [proc] and whether [_reader_task] still runs. *)
Record core_engine := mkCoreEngine { co_proc : option nat; co_reader : option bool }.

(** All processes spawned so far, and [Nishro.core]. *)
Record world := mkWorld { w_children : list child; w_core : option core_engine }.

Definition world_init : world := mkWorld [] None.

Section supervisor.
Context `{OsPath}.

(** What [_core_exe_path] asks: the two directories of a frozen program, the
    root of the sources, and the files there are. *)
Record install := mkInstall {
  in_frozen : option (list Z * list Z);
  in_root : list Z;
  in_exists : list Z → bool;
}.

(** [_core_exe_path]. *)
Definition core_exe_path (i : install) : str :=
  let name := u "nishro_core.exe" in
  let dev := os_join (os_join (os_join (in_root i) (u "c_core")) (u "bin")) name in
  match in_frozen i with
  | Some (meipass, exe_dir) =>
      if in_exists i (os_join meipass name) then os_join meipass name
      else if in_exists i (os_join exe_dir name) then os_join exe_dir name else dev
  | None => dev
  end.

Definition on_child (i : nat) (f : child → child) (w : world) : world :=
  mkWorld (alter f i (w_children w)) (w_core w).
Definition with_core (c : option core_engine) (w : world) : world := mkWorld (w_children w) c.

(** A line for the child, if its end of the pipe is there. *)
Definition write_line (line : pyval) (c : child) : child :=
  if ch_alive c && ch_stdin c then mkChild (ch_status c) (ch_stdin c) (ch_lines c ++ [line]) else c.

(** [push_config]: a broken pipe is only logged. *)
Definition core_push (cfg : pyval) : eff world unit := λ w,
  match w_core w ≫= co_proc with
  | None => (Ok tt, w)
  | Some i =>
      match push_config true cfg with
      | Raise e => (Raise e, w)
      | Ok None => (Ok tt, w)
      | Ok (Some line) => (Ok tt, on_child i (write_line line) w)
      end
  end.

(** [create_subprocess_exec] and the task that reads the output. *)
Definition spawn (w : world) : world :=
  mkWorld (w_children w ++ [mkChild Alive true []]) (Some (mkCoreEngine (Some (length (w_children w))) (Some true))).

(** [start]; [refused] is what [create_subprocess_exec] raised, if anything. *)
Definition core_start (i : install) (refused : option exc) (cfg : pyval) : eff world unit :=
  let exe := core_exe_path i in
  if negb (in_exists i exe) then lift_res (Raise (RuntimeError (u "nishro_core.exe not found at " ++ exe)))
  else match refused with
       | Some e => lift_res (Raise e)
       | None => _ ← assign spawn; core_push cfg
       end.

(** The child goes away, if it was not gone. *)
Definition end_child (st : status) (c : child) : child :=
  if ch_alive c then mkChild st (ch_stdin c) (ch_lines c) else c.

(** The stop command and the closing of the pipe. *)
Definition ask_stop (c : child) : child :=
  if ch_stdin c then
    let c := write_line (VDict [(u "op", VStr (u "stop"))]) c in mkChild (ch_status c) false (ch_lines c)
  else c.

(** [stop]: whether the child [obeys] within three seconds or is killed, it is
    waited for. *)
Definition core_stop (obeys : bool) (w : world) : world :=
  match w_core w with
  | None => w
  | Some c =>
      let w := match co_proc c with
               | None => w
               | Some i =>
                   on_child i (end_child (if obeys then Exited else Killed)) (on_child i ask_stop w)
               end in
      with_core (Some (mkCoreEngine None ((λ _, false) <$> co_reader c))) w
  end.

(** The head of [run] in C mode: a fresh [CoreEngine], dropped if its start
    raises; the message is [nic_error]. *)
Definition run_core (i : install) (refused : option exc) (cfg : pyval) (w : world) : option str * world :=
  match core_start i refused cfg (with_core (Some (mkCoreEngine None None)) w) with
  | (Ok _, w) => (None, w)
  | (Raise e, w) => (Some (u "C engine failed to start: " ++ exc_str e), with_core None w)
  end.

(** ** Nobody is left behind *)

(** What happens to the children while instances follow one another: the [run]
    of the last instance has stopped its engine before the next one starts. *)
Inductive sup_op :=
| SRun (i : install) (refused : option exc) (cfg : pyval)
| SPush (cfg : pyval)
| SExit (i : nat)
| SStop (obeys : bool).

Definition sup_step (w : world) (op : sup_op) : world :=
  match op with
  | SRun i refused cfg => (run_core i refused cfg (core_stop true w)).2
  | SPush cfg => (core_push cfg w).2
  | SExit i => on_child i (end_child Exited) w
  | SStop obeys => core_stop obeys w
  end.

(** The process the supervisor holds. *)
Definition held (w : world) : option nat := w_core w ≫= co_proc.

(** Every child that is alive is held. *)
Definition no_orphans (w : world) : Prop :=
  ∀ i c, w_children w !! i = Some c → ch_alive c = true → held w = Some i.

Lemma alive_alter f i w j c :
  (∀ c, ch_alive (f c) = true → ch_alive c = true) → w_children (on_child i f w) !! j = Some c → ch_alive c = true →
  ∃ c0, w_children w !! j = Some c0 ∧ ch_alive c0 = true.
Proof.
  intros Hf. cbn. destruct (decide (i = j)) as [->|Hne].
  - rewrite list_lookup_alter, decide_True by done. intros (c0 & Hc0 & ->)%fmap_Some. eauto.
  - rewrite list_lookup_alter_ne by done. eauto.
Qed.

Lemma no_orphans_alter f i w :
  (∀ c, ch_alive (f c) = true → ch_alive c = true) → no_orphans w → no_orphans (on_child i f w).
Proof. intros Hf Hw j c Hj Hc. destruct (alive_alter f i w j c Hf Hj Hc) as (c0 & H0 & H1). exact (Hw j c0 H0 H1). Qed.

Lemma ask_stop_alive c : ch_alive (ask_stop c) = ch_alive c.
Proof. unfold ask_stop, write_line. destruct (ch_stdin c); [|done]. by destruct (_ && _). Qed.

Lemma end_child_alive st c : st ≠ Alive → ch_alive (end_child st c) = false.
Proof. intros Hst. unfold end_child. destruct (ch_alive c) eqn:Hc; [|done]. by destruct st. Qed.

Lemma write_line_alive l c : ch_alive (write_line l c) = ch_alive c.
Proof. unfold write_line. by destruct (_ && _). Qed.

(** Nothing is alive after [stop], if nothing but the held child was. *)
Lemma core_stop_dead obeys w j c :
  no_orphans w → w_children (core_stop obeys w) !! j = Some c → ch_alive c = false.
Proof.
  intros Hw Hj. destruct (ch_alive c) eqn:Hc; [exfalso|done]. unfold core_stop in Hj.
  destruct (w_core w) as [co|] eqn:Hco.
  2: { pose proof (Hw j c Hj Hc) as Hh. unfold held in Hh. by rewrite Hco in Hh. }
  assert (held w = co_proc co) as Hheld by (unfold held; by rewrite Hco). cbn [with_core w_children] in Hj.
  destruct (co_proc co) as [i|] eqn:Hp; [|by rewrite (Hw j c Hj Hc) in Hheld].
  cbn [w_children on_child] in Hj. destruct (decide (i = j)) as [->|Hne].
  - rewrite list_lookup_alter, decide_True in Hj by done. apply fmap_Some in Hj as (c0 & _ & ->).
    by rewrite end_child_alive in Hc by (by destruct obeys).
  - rewrite !list_lookup_alter_ne in Hj by done. rewrite (Hw j c Hj Hc) in Hheld. congruence.
Qed.

Lemma spawn_no_orphans w : (∀ j c, w_children w !! j = Some c → ch_alive c = false) → no_orphans (spawn w).
Proof.
  intros Hw j c Hj Hc. cbn in Hj. apply lookup_app_Some in Hj as [Hj|[Hle Hj]].
  - by rewrite (Hw j c Hj) in Hc.
  - unfold held. cbn. f_equal. apply list_lookup_singleton_Some in Hj as [Hj _]. lia.
Qed.

Lemma core_push_no_orphans cfg w : no_orphans w → no_orphans (core_push cfg w).2.
Proof.
  intros Hw. unfold core_push. destruct (_ ≫= _) as [i|]; [|done]. destruct (push_config true cfg) as [[line|]|]; [|done..].
  apply no_orphans_alter; [|done]. intros c. by rewrite write_line_alive.
Qed.

(** The configurations the engine is started with can be translated. *)
Definition translatable (op : sup_op) : Prop :=
  match op with SRun _ _ cfg => ∃ v, yaml_to_core_cfg cfg = Ok v | _ => True end.

Lemma sup_step_no_orphans w op : translatable op → no_orphans w → no_orphans (sup_step w op).
Proof.
  intros Hop Hw. destruct op as [i refused cfg|cfg|i|obeys]; cbn [sup_step].
  - assert (∀ co j c, w_children (with_core co (core_stop true w)) !! j = Some c → ch_alive c = false) as Hdead.
    { intros co j c. apply (core_stop_dead true w j c Hw). }
    assert (∀ co, no_orphans (with_core co (core_stop true w))) as Hnone.
    { intros co j c Hj Hc. by rewrite (Hdead co j c Hj) in Hc. }
    destruct Hop as [v Hv]. unfold run_core, core_start. destruct (negb _); [apply Hnone|].
    destruct refused as [e|]; [apply Hnone|]. rewrite eff_bind_assign.
    pose proof (core_push_no_orphans cfg _ (spawn_no_orphans _ (Hdead (Some (mkCoreEngine None None))))) as Hp.
    unfold core_push, push_config in *. cbn [w_core spawn mbind option_bind co_proc] in *.
    rewrite Hv in *. exact Hp.
  - by apply core_push_no_orphans.
  - apply no_orphans_alter; [|exact Hw]. intros c. by rewrite end_child_alive.
  - intros j c Hj Hc. by rewrite (core_stop_dead obeys w j c Hw Hj) in Hc.
Qed.

(** [C21] The supervisor keeps its child: whatever instances of the application
    start and stop, configurations are pushed and children exit, obey the stop
    command or have to be killed, every child process that is alive is the one
    the current [CoreEngine] holds - so at most one is alive - and after [stop]
    none is, nothing is held and no reader task runs; provided the
    configurations the engine is started with can be translated. *)
Theorem engine_no_orphans ops obeys :
  Forall translatable ops →
  let w := fold_left sup_step ops world_init in
  (∀ i j ci cj, w_children w !! i = Some ci → w_children w !! j = Some cj →
     ch_alive ci = true → ch_alive cj = true → i = j ∧ held w = Some i) ∧
  let w' := core_stop obeys w in
  (∀ i c, w_children w' !! i = Some c → ch_alive c = false) ∧ held w' = None ∧
  match w_core w' with Some c => co_reader c ≠ Some true | None => True end.
Proof.
  intros Hops w. assert (no_orphans w) as Hw.
  { subst w. assert (no_orphans world_init) as H0 by done. revert H0. generalize world_init as w.
    induction Hops as [|op ops Hop _ IH]; intros w Hw; cbn [fold_left]; [done|]. by apply IH, sup_step_no_orphans. }
  split; [|split; [by intros i c; apply core_stop_dead|]].
  - intros i j ci cj Hi Hj Hci Hcj. pose proof (Hw i ci Hi Hci) as Hhi. pose proof (Hw j cj Hj Hcj) as Hhj.
    split; [congruence|done].
  - unfold core_stop, held. destruct (w_core w) as [c|] eqn:Hc; [|by rewrite Hc]. cbn. by destruct (co_reader c).
Qed.

(** A start that fails after the child was spawned leaves it behind: [run] only
    forgets the engine, so nothing can stop the child any more. *)
Lemma failed_start_orphans i cfg e w obeys :
  in_exists i (core_exe_path i) = true → yaml_to_core_cfg cfg = Raise e →
  let w' := core_stop obeys (run_core i None cfg w).2 in
  ∃ c, w_children w' !! length (w_children w) = Some c ∧ ch_alive c = true ∧ held w' = None.
Proof.
  intros Hex Hcfg w'. subst w'. unfold run_core, core_start. rewrite Hex. cbn [negb]. rewrite eff_bind_assign.
  unfold core_push, push_config. cbn [w_core spawn with_core mbind option_bind co_proc w_children]. rewrite Hcfg.
  cbn [mbind pyres_bind snd with_core core_stop w_core w_children]. exists (mkChild Alive true []).
  split; [|by split]. exact (list_lookup_middle (w_children w) [] _ _ eq_refl).
Qed.
End supervisor.

(** Two rounds: the first child has to be killed, the second is alive. *)
Lemma engine_no_orphans_witness :
  let i := mkInstall None (u "C:\nishro") (λ _, true) in
  let ops := [SRun i None (VDict []); SPush (VDict []); SStop false; SRun i None (VDict [])] in
  let w := fold_left (sup_step (H := lexical_paths)) ops world_init in
  map ch_status (w_children w) = [Killed; Alive] ∧ held (core_stop true w) = None.
Proof.
  intros i ops w. split; [vm_compute; reflexivity|].
  refine (proj1 (proj2 (proj2 (engine_no_orphans (H := lexical_paths) ops true _)))).
  repeat constructor; by eexists; vm_compute.
Defined.

(** ** The three tasks of [run] *)

(** Where [run] is: in [asyncio.wait], in [gather] with the decision it took,
    or past its [finally] with the value it returns. *)
Inductive phase := Watching | Draining (restart : bool) | Over (restart : bool).

(** The dispatch and the web task have ended, [_restart_requested] is set,
    uvicorn's [should_exit]. *)
Record waiting := mkWaiting {
  wt_dispatch : bool; wt_web : bool; wt_requested : bool; wt_should_exit : bool; wt_phase : phase;
}.

Definition waiting_init : waiting := mkWaiting false false false false Watching.

Inductive wait_event :=
| EDispatch    (* the dispatch task ends: the loop raised or the C engine exited *)
| EWeb         (* the web task ends *)
| ERequest     (* a critical setting changed *)
| EWake        (* the event loop resumes [run] *)
| EInterrupt.  (* the task of [run] is cancelled: Ctrl-C *)

(** [asyncio.wait(..., FIRST_COMPLETED)] returns when a task has ended; the
    cancelled tasks end at once, the web task in its own time. *)
Definition wait_step (s : waiting) (ev : wait_event) : waiting :=
  match wt_phase s, ev with
  | Over _, _ => s
  | ph, EDispatch => mkWaiting true (wt_web s) (wt_requested s) (wt_should_exit s) ph
  | ph, EWeb => mkWaiting (wt_dispatch s) true (wt_requested s) (wt_should_exit s) ph
  | ph, ERequest => mkWaiting (wt_dispatch s) (wt_web s) true (wt_should_exit s) ph
  | Watching, EWake =>
      if wt_dispatch s || wt_web s || wt_requested s then
        let restart := wt_requested s in
        mkWaiting true (wt_web s) (wt_requested s) (if restart then true else wt_should_exit s) (Draining restart)
      else s
  | Draining r, EWake =>
      if wt_web s then mkWaiting (wt_dispatch s) (wt_web s) (wt_requested s) (wt_should_exit s) (Over r) else s
  | Watching, EInterrupt => mkWaiting (wt_dispatch s) (wt_web s) (wt_requested s) (wt_should_exit s) (Over false)
  | Draining r, EInterrupt => mkWaiting (wt_dispatch s) (wt_web s) (wt_requested s) (wt_should_exit s) (Over r)
  end.

Definition run_wait (evs : list wait_event) : waiting := fold_left wait_step evs waiting_init.

#[export] Instance wait_event_eq_dec : EqDecision wait_event.
Proof. solve_decision. Defined.

(** A task ends, or a restart is asked for. *)
Definition completion (ev : wait_event) : Prop := ev = EDispatch ∨ ev = EWeb ∨ ev = ERequest.

Lemma bool_decide_snoc (ev ev' : wait_event) evs :
  bool_decide (ev ∈ evs ++ [ev']) = bool_decide (ev ∈ evs) || bool_decide (ev' = ev).
Proof.
  destruct (decide (ev' = ev)) as [->|Hne].
  - rewrite (bool_decide_eq_true_2 (ev = ev)), orb_true_r by done. apply bool_decide_eq_true_2. set_solver.
  - rewrite (bool_decide_eq_false_2 (ev' = ev)), orb_false_r by done. apply bool_decide_ext. set_solver.
Qed.

(** Until [run] is resumed, the tasks that have ended pile up. *)
Lemma watching evs :
  Forall completion evs →
  run_wait evs = mkWaiting (bool_decide (EDispatch ∈ evs)) (bool_decide (EWeb ∈ evs)) (bool_decide (ERequest ∈ evs))
                   false Watching.
Proof.
  unfold run_wait. induction evs as [|ev evs IH] using rev_ind; intros Hc; [done|].
  apply Forall_app in Hc as [Hc Hev]. rewrite fold_left_app, IH by done. cbn [fold_left].
  rewrite !bool_decide_snoc. apply Forall_inv in Hev.
  destruct Hev as [-> | [-> | ->]]; cbn; by rewrite ?orb_true_r, ?orb_false_r.
Qed.

(** Once the decision is taken, only the web task matters. *)
Lemma draining mid d w rq ex r :
  EInterrupt ∉ mid →
  let s := fold_left wait_step mid (mkWaiting d w rq ex (Draining r)) in
  wt_should_exit s = ex ∧ (wt_phase s = Over r ∨ wt_phase s = Draining r ∧ wt_web s = w || bool_decide (EWeb ∈ mid)).
Proof.
  induction mid as [|ev mid IH] using rev_ind; intros Hn s.
  { subst s. cbn. split; [done|]. right. by rewrite bool_decide_eq_false_2, orb_false_r by apply not_elem_of_nil. }
  apply not_elem_of_app in Hn as [Hn Hev]. subst s. rewrite fold_left_app. cbn [fold_left].
  destruct (IH Hn) as [Hex Hph]. destruct (fold_left wait_step mid _) as [d' w' rq' ex' ph']. cbn in Hex, Hph. subst ex'.
  destruct Hph as [-> |[-> ->]]; [destruct ev; (split; [|left]); done|]. rewrite bool_decide_snoc.
  destruct ev; cbn; try (by split; [|right; rewrite ?orb_true_r, ?orb_false_r]); [|by apply not_elem_of_cons in Hev as []].
  destruct (w || bool_decide (EWeb ∈ mid)) eqn:Hw; cbn; (split; [done|]); [by left|right].
  split; [done|]. by rewrite orb_false_r.
Qed.

(** The restart is decided when [run] wakes up: after the first tasks have
    ended, in whatever order, [run] returns [True] exactly if a restart had been
    asked for by then, and exactly then it has told the web server to exit;
    whatever ends or is asked for later changes nothing, and [run] does return
    once the web server has ended. *)
Theorem restart_decided_at_wake pre mid :
  Forall completion pre → pre ≠ [] → (EInterrupt ∉ mid) → EWeb ∈ pre ++ mid →
  let s := run_wait (pre ++ EWake :: mid ++ [EWake]) in
  wt_phase s = Over (bool_decide (ERequest ∈ pre)) ∧ wt_should_exit s = bool_decide (ERequest ∈ pre).
Proof.
  intros Hpre Hne Hmid Hweb s. subst s. unfold run_wait. rewrite fold_left_app. fold (run_wait pre).
  rewrite watching by done. cbn [fold_left]. rewrite fold_left_app.
  assert (bool_decide (EDispatch ∈ pre) || bool_decide (EWeb ∈ pre) || bool_decide (ERequest ∈ pre) = true) as Hany.
  { destruct pre as [|ev pre]; [done|]. apply Forall_inv in Hpre.
    assert (bool_decide (ev ∈ ev :: pre) = true) as Hin by (apply bool_decide_eq_true_2; by left).
    destruct Hpre as [-> | [-> | ->]]; rewrite Hin; by rewrite ?orb_true_l, ?orb_true_r. }
  cbn [wait_step wt_phase wt_dispatch wt_web wt_requested wt_should_exit]. rewrite Hany.
  set (r := bool_decide (ERequest ∈ pre)). replace (if r then true else false) with r by (by destruct r).
  destruct (draining mid true (bool_decide (EWeb ∈ pre)) r r r Hmid) as [Hex Hph].
  destruct (fold_left wait_step mid _) as [d w rq ex ph]. cbn in Hex, Hph |- *. subst ex.
  destruct Hph as [-> |[-> ->]]; [done|]. cbn.
  assert (bool_decide (EWeb ∈ pre) || bool_decide (EWeb ∈ mid) = true) as ->; [|done].
  apply elem_of_app in Hweb as [Hw|Hw]; rewrite (bool_decide_eq_true_2 _ Hw); by rewrite ?orb_true_r.
Qed.

Lemma restart_decided_at_wake_witness :
  wt_phase (run_wait ([ERequest] ++ EWake :: [EWeb] ++ [EWake])) = Over true.
Proof.
  refine (proj1 (restart_decided_at_wake [ERequest] [EWeb] _ _ _ _)).
  - constructor; [right; by right|constructor].
  - done.
  - apply (bool_decide_unpack _). vm_compute. exact I.
  - apply (bool_decide_unpack _). vm_compute. exact I.
Defined.

(** When the engine ends by itself, [run] keeps waiting for a web server nobody
    told to exit, and the critical changes made there are not followed. *)
Lemma restart_lost_after_engine_exit mid :
  (EInterrupt ∉ mid) → (EWeb ∉ mid) →
  let s := run_wait ([EDispatch] ++ EWake :: mid) in
  wt_phase s = Draining false ∧ wt_should_exit s = false.
Proof.
  intros Hi Hw s. subst s. unfold run_wait. cbn [app fold_left].
  destruct (draining mid true false false false false Hi) as [Hex Hph]. split; [|exact Hex].
  assert (∀ l w0, EInterrupt ∉ l → EWeb ∉ l → wt_web w0 = false → wt_phase w0 = Draining false →
    wt_phase (fold_left wait_step l w0) = Draining false) as Hstay; [|by apply Hstay].
  clear. induction l as [|ev l IH]; intros w0 Hi Hw H1 H2; cbn [fold_left]; [done|].
  apply not_elem_of_cons in Hi as [Hi0 Hi], Hw as [Hw0 Hw].
  apply IH; [done|done|..]; unfold wait_step; rewrite H2; destruct ev; try done; by rewrite H1.
Qed.

(** Ctrl-C while a restart drains is swallowed: [run] still returns [True], and
    [_amain] builds the next instance. *)
Lemma interrupt_lost_while_draining : wt_phase (run_wait [ERequest; EWake; EInterrupt]) = Over true.
Proof. reflexivity. Qed.
