(* ===== verification/Settings.v ===== *)
(** * Settings of the web panel (src/web/app.py)

    The view settings every browser gets - tabs, chart colours, statistics
    windows - read out of whatever the configuration holds, and the endpoint
    with which an administrator changes them. *)

From S2P Require Import Prelude Python Collections Constants Config.
Open Scope Z_scope.

Definition ALL_VIEW_TABS : list str := [u "dashboard"; u "sessions"; u "files"; u "stats"; u "logs"].
Definition DEFAULT_COMPLETED : str := u "#3fb950".
Definition DEFAULT_FAILED : str := u "#1f6feb".

Definition is_hex (c : Z) : bool :=
  is_digit c || ((65 <=? c) && (c <=? 70)) || ((97 <=? c) && (c <=? 102)).

(** [re.match(r"^#[0-9a-fA-F]{6}$", v)]: [$] also matches before a final line
    feed. *)
Definition hex_color (s : str) : bool :=
  match s with
  | c :: r => (c =? 35) && forallb is_hex (take 6 r) && (zlen (take 6 r) =? 6)
              && (bool_decide (drop 6 r = []) || bool_decide (drop 6 r = [10]))
  | [] => false
  end.

(** [_clean_chart_colors]: the colours for "completed" and "failed". *)
Definition clean_color (raw : pyval) (k dflt : str) : str :=
  match raw with
  | VDict d => match dict_get k d with Some (VStr s) => if hex_color s then s else dflt | _ => dflt end
  | _ => dflt
  end.

Definition clean_chart_colors (raw : pyval) : str * str :=
  (clean_color raw (u "completed") DEFAULT_COMPLETED, clean_color raw (u "failed") DEFAULT_FAILED).

(** [_clamp_int]. *)
Definition clamp_int (raw : pyval) (dflt lo hi : Z) : Z :=
  Z.max lo (Z.min hi (match py_int raw with Ok v => v | Raise _ => dflt end)).

(** [[t for t in l if t in _ALL_VIEW_TABS]], with the dashboard first when it
    is missing. *)
Definition known_tabs (l : list pyval) : list str :=
  omap (λ v, match v with VStr s => if decide (s ∈ ALL_VIEW_TABS) then Some s else None | _ => None end) l.

Definition with_dashboard (tabs : list str) : list str :=
  if decide (u "dashboard" ∈ tabs) then tabs else u "dashboard" :: tabs.

Definition clean_tabs (raw : pyval) : list str :=
  with_dashboard (match raw with VList l => known_tabs l | _ => ALL_VIEW_TABS end).

Record ui_settings := mkUi {
  ui_tabs : list (list Z);
  ui_auth_required : bool;
  ui_has_password : bool;
  ui_colors : list Z * list Z;
  ui_recent_sec : Z;
  ui_long_hours : Z;
}.

#[export] Instance ui_settings_eq_dec : EqDecision ui_settings.
Proof. solve_decision. Defined.

Definition web_get (data : pyval) (k : str) (dflt : pyval) : pyval := node_get data [u "web"; k] dflt.

(** [_auth_required]. *)
Definition auth_required (data : pyval) : bool := truthy (web_get data (u "require_auth") (VBool false)).

(** [_ui_settings]. *)
Definition ui_of (data : pyval) (has_password : bool) : ui_settings :=
  mkUi (clean_tabs (web_get data (u "visible_tabs") VNone)) (auth_required data) has_password
    (clean_chart_colors (web_get data (u "daily_chart_colors") VNone))
    (clamp_int (web_get data (u "stats_recent_window_sec") (VInt 60)) 60 10 600)
    (clamp_int (web_get data (u "stats_long_window_hours") (VInt 12)) 12 1 48).

(** ** Changing them *)

(** The endpoint answers with a status: 400 for a payload of the wrong shape;
    any other exception is an internal error. *)
Inductive http_error := BadRequest | InternalError.

Definition set_if (payload : list (str * pyval)) (k : str) (f : pyval → option pyval) (web : list (str * pyval))
  : option (list (str * pyval)) :=
  match dict_get k payload with
  | None => Some web
  | Some v => v' ← f v; Some (dict_set k v' web)
  end.

Definition post_tabs (v : pyval) : option pyval :=
  match v with VList l => Some (VList (map VStr (with_dashboard (known_tabs l)))) | _ => None end.

Definition post_colors (v : pyval) : option pyval :=
  match v with
  | VDict _ => let '(c, f) := clean_chart_colors v in
               Some (VDict [(u "completed", VStr c); (u "failed", VStr f)])
  | _ => None
  end.

(** [api_ui_settings_post] up to the save: the configuration it writes. *)
Definition ui_settings_post (payload : list (str * pyval)) (data : pyval) : http_error + pyval :=
  match data with
  | VDict d =>
      match py_or (default (VDict []) (dict_get (u "web") d)) (VDict []) with
      | VDict web =>
          match (web ← set_if payload (u "visible_tabs") post_tabs web;
                 web ← set_if payload (u "daily_chart_colors") post_colors web;
                 web ← set_if payload (u "stats_recent_window_sec") (λ v, Some (VInt (clamp_int v 60 10 600))) web;
                 set_if payload (u "stats_long_window_hours") (λ v, Some (VInt (clamp_int v 12 1 48))) web) with
          | Some web => inr (VDict (dict_set (u "web") (VDict web) d))
          | None => inl BadRequest
          end
      | _ => inl InternalError
      end
  | _ => inl InternalError
  end.

(** ** Every configuration gives proper settings *)

Lemma with_dashboard_in tabs : u "dashboard" ∈ with_dashboard tabs.
Proof. unfold with_dashboard. case_decide; [done|]. apply list_elem_of_here. Qed.

Lemma with_dashboard_known tabs :
  Forall (λ t, t ∈ ALL_VIEW_TABS) tabs → Forall (λ t, t ∈ ALL_VIEW_TABS) (with_dashboard tabs).
Proof. unfold with_dashboard. intros Ht. case_decide; [done|]. constructor; [apply list_elem_of_here|done]. Qed.

Lemma known_tabs_known l : Forall (λ t, t ∈ ALL_VIEW_TABS) (known_tabs l).
Proof.
  apply Forall_forall. intros t (v & _ & Hv)%list_elem_of_omap. destruct v; try done.
  by case_decide; simplify_eq.
Qed.

Lemma clean_tabs_known raw : Forall (λ t, t ∈ ALL_VIEW_TABS) (clean_tabs raw).
Proof.
  apply with_dashboard_known. destruct raw; try (by apply Forall_forall). apply known_tabs_known.
Qed.

Lemma clamp_int_range raw dflt lo hi : lo ≤ hi → lo ≤ clamp_int raw dflt lo hi ≤ hi.
Proof. unfold clamp_int. lia. Qed.

Lemma clean_color_hex raw k dflt : hex_color dflt = true → hex_color (clean_color raw k dflt) = true.
Proof.
  intros Hd. unfold clean_color. destruct raw; try done. destruct (dict_get k d) as [[]|]; try done. by case_goal.
Qed.

(** "#" and six hexadecimal digits, with or without a line feed behind them. *)
Definition color_text (s : str) : Prop :=
  ∃ ds, length ds = 6%nat ∧ Forall (λ c, 48 ≤ c ≤ 57 ∨ 65 ≤ c ≤ 70 ∨ 97 ≤ c ≤ 102) ds ∧
    (s = u "#" ++ ds ∨ s = u "#" ++ ds ++ [10]).

Lemma hex_color_text s : hex_color s = true → color_text s.
Proof.
  destruct s as [|c r]; [done|]. cbn [hex_color]. rewrite !andb_true_iff, orb_true_iff, !bool_decide_eq_true, !Z.eqb_eq.
  intros [[[-> Hh] Hl] Hr]. exists (take 6 r). unfold zlen in Hl. split; [lia|]. split.
  - apply Forall_forall. intros d Hd. rewrite forallb_forall in Hh.
    specialize (Hh d (proj1 (list_elem_of_In _ _) Hd)). unfold is_hex, is_digit in Hh. lia.
  - rewrite <- (take_drop 6 r) at 1 3. destruct Hr as [-> | ->]; [left; by rewrite app_nil_r|by right].
Qed.


(** ** What is posted is what is shown *)

Lemma known_tabs_id tabs : Forall (λ t, t ∈ ALL_VIEW_TABS) tabs → known_tabs (map VStr tabs) = tabs.
Proof. induction 1 as [|t tabs Ht _ IH]; cbn; [done|]. rewrite decide_True by done. by f_equal. Qed.

Lemma with_dashboard_idem tabs : with_dashboard (with_dashboard tabs) = with_dashboard tabs.
Proof. unfold with_dashboard at 1. by rewrite decide_True by apply with_dashboard_in. Qed.

Lemma post_tabs_shown v v' : post_tabs v = Some v' → clean_tabs v' = clean_tabs v.
Proof.
  destruct v; try done. intros [= <-]. unfold clean_tabs.
  rewrite known_tabs_id by apply with_dashboard_known, known_tabs_known. apply with_dashboard_idem.
Qed.

Lemma post_colors_shown v v' : post_colors v = Some v' → clean_chart_colors v' = clean_chart_colors v.
Proof.
  destruct v; try done. unfold post_colors, clean_chart_colors.
  pose proof (clean_color_hex (VDict d) (u "completed") DEFAULT_COMPLETED eq_refl) as Hc.
  pose proof (clean_color_hex (VDict d) (u "failed") DEFAULT_FAILED eq_refl) as Hf.
  revert Hc Hf. generalize (clean_color (VDict d) (u "completed") DEFAULT_COMPLETED)
    (clean_color (VDict d) (u "failed") DEFAULT_FAILED). intros c f Hc Hf [= <-].
  transitivity (if hex_color c then c else DEFAULT_COMPLETED, if hex_color f then f else DEFAULT_FAILED);
    [reflexivity|by rewrite Hc, Hf].
Qed.

Lemma clamp_shown v dflt lo hi : lo ≤ hi → clamp_int (VInt (clamp_int v dflt lo hi)) dflt lo hi = clamp_int v dflt lo hi.
Proof. intros Hl. pose proof (clamp_int_range v dflt lo hi Hl). unfold clamp_int at 1. cbn. lia. Qed.

Lemma set_if_get payload k f web web' k' :
  set_if payload k f web = Some web' →
  dict_get k' web' = (if decide (k' = k) then match dict_get k payload with Some v => f v | None => dict_get k' web end
                      else dict_get k' web).
Proof.
  unfold set_if. destruct (dict_get k payload) as [v|].
  - intros (v' & Hv & [= <-])%bind_Some. rewrite dict_get_set. case_decide; [by rewrite Hv|done].
  - intros [= <-]. by case_decide.
Qed.

(** The web block of a configuration, as [node_get] sees it. *)
Lemma web_get_block d web k dflt :
  py_or (default (VDict []) (dict_get (u "web") d)) (VDict []) = VDict web →
  web_get (VDict d) k dflt = default dflt (dict_get k web).
Proof.
  unfold web_get. cbn [node_get]. destruct (dict_get (u "web") d) as [v|]; cbn [default from_option id].
  - unfold py_or. destruct (truthy v) eqn:Ht; intros E.
    + subst v. by destruct (dict_get k web).
    + injection E as <-. by destruct v as [| | | | |[]].
  - cbn. by intros [= <-].
Qed.

(** The settings endpoint takes effect and nothing else changes: after a
    post that is accepted the settings shown are the cleaned values posted,
    and for the keys not posted those shown before; the password requirement
    and every other block of the configuration stay as they were.  A post is
    refused exactly when the tabs are no list or the colours no object. *)
Theorem ui_settings_post_shown payload d has_password :
  (∃ web, py_or (default (VDict []) (dict_get (u "web") d)) (VDict []) = VDict web) →
  let old := ui_of (VDict d) has_password in
  let posted {A} k (f : pyval → A) (o : A) := match dict_get k payload with Some v => f v | None => o end in
  match ui_settings_post payload (VDict d) with
  | inr data' =>
      ui_of data' has_password
      = mkUi (posted (u "visible_tabs") clean_tabs (ui_tabs old)) (ui_auth_required old) has_password
          (posted (u "daily_chart_colors") clean_chart_colors (ui_colors old))
          (posted (u "stats_recent_window_sec") (λ v, clamp_int v 60 10 600) (ui_recent_sec old))
          (posted (u "stats_long_window_hours") (λ v, clamp_int v 12 1 48) (ui_long_hours old)) ∧
      ∀ k path dflt, k ≠ u "web" → node_get data' (k :: path) dflt = node_get (VDict d) (k :: path) dflt
  | inl e => e = BadRequest ∧
      (posted (u "visible_tabs") post_tabs (Some VNone) = None ∨
       posted (u "daily_chart_colors") post_colors (Some VNone) = None)
  end.
Proof.
  intros [web Hw] old posted. unfold ui_settings_post. rewrite Hw.
  destruct (set_if payload (u "visible_tabs") post_tabs web) as [w1|] eqn:H1; cbn [mbind option_bind].
  2:{ split; [done|]. left. unfold set_if in H1. subst posted. cbn beta.
      destruct (dict_get (u "visible_tabs") payload) as [v|]; [|done]. by destruct (post_tabs v). }
  destruct (set_if payload (u "daily_chart_colors") post_colors w1) as [w2|] eqn:H2; cbn [mbind option_bind].
  2:{ split; [done|]. right. unfold set_if in H2. subst posted. cbn beta.
      destruct (dict_get (u "daily_chart_colors") payload) as [v|]; [|done]. by destruct (post_colors v). }
  destruct (set_if payload (u "stats_recent_window_sec") _ w2) as [w3|] eqn:H3; cbn [mbind option_bind].
  2:{ unfold set_if in H3. by destruct (dict_get (u "stats_recent_window_sec") payload). }
  destruct (set_if payload (u "stats_long_window_hours") _ w3) as [w4|] eqn:H4.
  2:{ unfold set_if in H4. by destruct (dict_get (u "stats_long_window_hours") payload). }
  split.
  - assert (∀ k dflt, web_get (VDict (dict_set (u "web") (VDict w4) d)) k dflt = default dflt (dict_get k w4)) as Hg.
    { intros k dflt. apply web_get_block. rewrite dict_get_set_eq. by destruct w4. }
    subst old posted. unfold ui_of, auth_required. rewrite !Hg, !(web_get_block d web) by done.
    cbn [ui_tabs ui_auth_required ui_colors ui_recent_sec ui_long_hours].
    f_equal; rewrite ?(set_if_get _ _ _ _ _ _ H4), ?(set_if_get _ _ _ _ _ _ H3), ?(set_if_get _ _ _ _ _ _ H2),
      ?(set_if_get _ _ _ _ _ _ H1); repeat (rewrite decide_False by str_ne); try rewrite decide_True by done; try done.
    + unfold set_if in H1. destruct (dict_get (u "visible_tabs") payload) as [v|]; [|done].
      apply bind_Some in H1 as (v' & Hv & _). rewrite Hv. by apply post_tabs_shown.
    + unfold set_if in H2. destruct (dict_get (u "daily_chart_colors") payload) as [v|]; [|done].
      apply bind_Some in H2 as (v' & Hv & _). rewrite Hv. by apply post_colors_shown.
    + destruct (dict_get (u "stats_recent_window_sec") payload) as [v|]; [|done]. by apply clamp_shown.
    + destruct (dict_get (u "stats_long_window_hours") payload) as [v|]; [|done]. by apply clamp_shown.
  - intros k path dflt Hk. cbn [node_get]. by rewrite dict_get_set_ne.
Qed.

Lemma ui_settings_post_shown_witness :
  let d := [(u "web", VDict [(u "port", VInt 80)]); (u "tftp", VDict [])] in
  let payload := [(u "visible_tabs", VList [VStr (u "logs"); VInt 3]); (u "stats_recent_window_sec", VInt 5)] in
  ∃ data', ui_settings_post payload (VDict d) = inr data' ∧
    ui_of data' true = mkUi [u "dashboard"; u "logs"] false true (DEFAULT_COMPLETED, DEFAULT_FAILED) 10 12.
Proof.
  intros d payload. pose proof (ui_settings_post_shown payload d true) as Hs. cbv zeta in Hs.
  destruct (ui_settings_post payload (VDict d)) as [e|data'] eqn:He; [vm_compute in He; discriminate He|].
  exists data'. split; [reflexivity|]. destruct Hs as [-> _]; [by eexists|]. vm_compute. reflexivity.
Defined.

(** The pattern lets a colour end in a line feed. *)
Lemma color_with_newline : hex_color (u "#3fb950" ++ [10]) = true.
Proof. reflexivity. Qed.
