(* ===== verification/WebAdmin.v ===== *)
(** * The administrator's endpoints (src/web/app.py)

    Saving the configuration, the access lists, the UI settings and the
    employee names, emptying the cache, changing the password, and the
    connections that carry a token: who may change what.  The panel's stores
    are those of Auth.v, Config.v, Users.v and Cache.v; [now] is the clock, [ok]
    whether the disk took the write. *)

From S2P Require Import Prelude Python Collections Stats Cache Auth Users Config Settings.
Open Scope Z_scope.

(** [_get_token]: the cookie, or what follows "Bearer " in the header; an
    absent one is the empty text. *)
Definition get_token (cookie header : str) : str :=
  if nonempty cookie then cookie
  else if starts_with (u "Bearer ") header then drop 7 header else [].

(** What a request asks for.  [bad] of a WebSocket says whether
    [float(web.stats_interval)] raises; a socket is closed by its position
    among the open ones. *)
Inductive body :=
| RConfig (ok : bool) (new_cfg : pyval)
| RAcl (ok : bool) (payload : pyval)
| RUi (ok : bool) (payload : list (list Z * pyval))
| RUsers (ok : bool) (payload : list (list Z * pyval))
| RInvalidate (filename : option (list Z))
| RPassword (old new_user new_password salt : list Z)
| RStatus
| RLogin (user password token : list Z)
| RLogout
| RSetup (user password salt token : list Z)
| RWsOpen (bad : bool)
| RWsClose (i : nat).

Record request := mkReq { rq_now : Z; rq_cookie : list Z; rq_header : list Z; rq_body : body }.

Definition rq_token (r : request) : str := get_token (rq_cookie r) (rq_header r).

Section panel.
Context `{Codec} {W : Type} (call : nat → Config * W → bool * (Config * W)) (kdf : str → str → str).

(** What the endpoints share: the configuration with the rest of the process,
    the stores, the cache and its counters, and the open sockets with whether
    they count for their token. *)
Record panel := mkPanel {
  pn_cfg : Config * W;
  pn_auth : auth;
  pn_users : UserStore;
  pn_cache : FileCache;
  pn_stats : list (counter * Z);
  pn_sockets : list (list Z * bool);
}.

Definition set_cfg (c : Config * W) (p : panel) : panel :=
  mkPanel c (pn_auth p) (pn_users p) (pn_cache p) (pn_stats p) (pn_sockets p).
Definition set_auth (a : auth) (p : panel) : panel :=
  mkPanel (pn_cfg p) a (pn_users p) (pn_cache p) (pn_stats p) (pn_sockets p).
Definition set_users_store (us : UserStore) (p : panel) : panel :=
  mkPanel (pn_cfg p) (pn_auth p) us (pn_cache p) (pn_stats p) (pn_sockets p).
Definition set_cache_stats (c : FileCache) (cs : list (counter * Z)) (p : panel) : panel :=
  mkPanel (pn_cfg p) (pn_auth p) (pn_users p) c cs (pn_sockets p).
Definition set_sockets (l : list (str * bool)) (p : panel) : panel :=
  mkPanel (pn_cfg p) (pn_auth p) (pn_users p) (pn_cache p) (pn_stats p) l.

Definition panel_data (p : panel) : pyval := c_data (pn_cfg p).1.

(** [_require_admin(request)] in front of a handler. *)
Definition guarded (r : request) (m : panel → reply * panel) (p : panel) : reply * panel :=
  match require_admin (auth_required (panel_data p)) (rq_token r) (rq_now r) (pn_auth p) with
  | (false, a) => (Status 401, set_auth a p)
  | (true, a) => m (set_auth a p)
  end.

(** [state.config.save(v)] with the answer for an exception; the reload hook
    does nothing. *)
Definition save_or (code : Z) (ok : bool) (v : pyval) (p : panel) : reply * panel :=
  match config_save call ok v (pn_cfg p) with
  | (Ok _, c) => (Done, set_cfg c p)
  | (Raise _, c) => (Status code, set_cfg c p)
  end.

Definition api_config_post (r : request) (ok : bool) (new_cfg : pyval) : panel → reply * panel :=
  guarded r (save_or 400 ok new_cfg).

Definition api_acl_post (r : request) (ok : bool) (payload : pyval) : panel → reply * panel :=
  guarded r (λ p, match panel_data p with
                  | VDict d => save_or 500 ok (VDict (dict_set (u "security") payload d)) p
                  | _ => (Status 500, p)
                  end).

Definition api_ui_settings_post (r : request) (ok : bool) (payload : list (str * pyval)) : panel → reply * panel :=
  guarded r (λ p, match ui_settings_post payload (panel_data p) with
                  | inl BadRequest => (Status 400, p)
                  | inl InternalError => (Status 500, p)
                  | inr data => save_or 500 ok data p
                  end).

Definition api_users_post (r : request) (ok : bool) (payload : list (str * pyval)) : panel → reply * panel :=
  guarded r (λ p, (Done, set_users_store (users_replace_all ok payload (pn_users p)) p)).

(** [api_cache_invalidate] also resets the two counters of the cache. *)
Definition api_cache_invalidate (r : request) (filename : option str) : panel → reply * panel :=
  guarded r (λ p, (Done, set_cache_stats (cache_invalidate filename (pn_cache p))
                           (dict_set cache_misses 0 (dict_set cache_hits 0 (pn_stats p))) p)).

(** [api_auth_status]: authenticated, required, has_password. *)
Definition api_auth_status (r : request) (p : panel) : (bool * bool * bool) * panel :=
  let has_pw := has_password (pn_auth p) in
  if negb (auth_required (panel_data p)) then ((true, false, has_pw), p)
  else let '(ok, a) := check_token (rq_token r) (rq_now r) (pn_auth p) in ((ok, true, has_pw), set_auth a p).

(** The head of [ws_stream]: the token of the cookie is counted before the
    interval is read, and not released when that fails. *)
Definition ws_open (r : request) (bad : bool) (p : panel) : panel :=
  let '(attached, a) := ws_attach (rq_cookie r) (rq_now r) (pn_auth p) in
  let p := set_auth a p in
  if bad then p else set_sockets (pn_sockets p ++ [(rq_cookie r, attached)]) p.

(** Its end. *)
Definition ws_close (i : nat) (p : panel) : panel :=
  match (pn_sockets p !! i : option (str * bool)) with
  | None => p
  | Some (token, attached) =>
      let p := set_sockets (delete i (pn_sockets p)) p in
      if attached then set_auth (ws_detach token (pn_auth p)) p else p
  end.

(** A handler that only concerns the password store. *)
Definition on_auth {A} (f : auth → A * auth) (p : panel) : A * panel :=
  let '(x, a) := f (pn_auth p) in (x, set_auth a p).

Definition panel_handle (r : request) (p : panel) : reply * panel :=
  match rq_body r with
  | RConfig ok v => api_config_post r ok v p
  | RAcl ok v => api_acl_post r ok v p
  | RUi ok v => api_ui_settings_post r ok v p
  | RUsers ok v => api_users_post r ok v p
  | RInvalidate f => api_cache_invalidate r f p
  | RPassword old nu np salt =>
      match on_auth (api_change_password kdf (auth_required (panel_data p)) (rq_token r) old nu np salt (rq_now r)) p with
      | (Ok x, p) => (x, p)
      | (Raise _, p) => (Status 500, p)
      end
  | RStatus => (Done, (api_auth_status r p).2)
  | RLogin user pw token => on_auth (api_login kdf user pw token (rq_now r)) p
  | RLogout => on_auth (api_logout (rq_token r)) p
  | RSetup user pw salt token => on_auth (api_auth_setup kdf user pw salt token (rq_now r)) p
  | RWsOpen bad => (Done, ws_open r bad p)
  | RWsClose i => (Done, ws_close i p)
  end.

Definition panel_run (p : panel) (rs : list request) : panel := fold_left (λ p r, (panel_handle r p).2) rs p.

(** The requests [_require_admin] stands in front of. *)
Definition admin_only (b : body) : bool :=
  match b with
  | RConfig _ _ | RAcl _ _ | RUi _ _ | RUsers _ _ | RInvalidate _ | RPassword _ _ _ _ => true
  | _ => false
  end.

(** ** Without a token nothing changes *)

(** A request whose token is not outstanding and, if it is a login, whose
    password is wrong. *)
Definition outsider (a : auth) (r : request) : Prop :=
  (rq_cookie r ∉ dict_keys (a_tokens a)) ∧ (rq_token r ∉ dict_keys (a_tokens a)) ∧
  match rq_body r with RLogin user pw _ => verify kdf user pw a = false | _ => True end.

Lemma check_unknown token now a : token ∉ dict_keys (a_tokens a) → check_token token now a = (false, a).
Proof.
  intros Ht%dict_get_None. unfold check_token. rewrite Ht. by destruct (negb _).
Qed.

Lemma guarded_unknown r m p :
  auth_required (panel_data p) = true → rq_token r ∉ dict_keys (a_tokens (pn_auth p)) →
  guarded r m p = (Status 401, set_auth (pn_auth p) p).
Proof. intros Hr Ht. unfold guarded, require_admin. by rewrite Hr, check_unknown. Qed.

Lemma revoke_unknown token a :
  token ∉ dict_keys (a_tokens a) →
  mkAuth (a_file a) (dict_del token (a_tokens a)) (dict_del token (a_refs a))
  = mkAuth (a_file a) (a_tokens a) (dict_del token (a_refs a)).
Proof. intros Ht%dict_get_None. f_equal. by apply dict_del_notin. Qed.

(** What an outsider cannot touch, and the sockets an outsider has. *)
Definition untouched (p p' : panel) : Prop :=
  pn_cfg p' = pn_cfg p ∧ pn_users p' = pn_users p ∧ pn_cache p' = pn_cache p ∧ pn_stats p' = pn_stats p ∧
  a_file (pn_auth p') = a_file (pn_auth p) ∧ a_tokens (pn_auth p') = a_tokens (pn_auth p).

Definition unattached (p : panel) : Prop := Forall (λ s, s.2 = false) (pn_sockets p).

Lemma outsider_step r p :
  auth_required (panel_data p) = true → has_password (pn_auth p) = true → unattached p → outsider (pn_auth p) r →
  untouched p (panel_handle r p).2 ∧ unattached (panel_handle r p).2 ∧
  (admin_only (rq_body r) = true → (panel_handle r p).1 = Status 401).
Proof.
  intros Hr Hp Hs (Hc & Ht & Hl). unfold panel_handle.
  destruct (rq_body r) eqn:Hb; cbn [admin_only];
    unfold api_config_post, api_acl_post, api_ui_settings_post, api_users_post, api_cache_invalidate;
    try (rewrite guarded_unknown by done; by split_and!).
  - unfold on_auth, api_change_password, require_admin. rewrite Hr, check_unknown by done. by split_and!.
  - unfold api_auth_status. rewrite Hr, check_unknown by done. by split_and!.
  - unfold on_auth, api_login. rewrite Hl. by split_and!.
  - unfold on_auth, api_logout, revoke_token. rewrite revoke_unknown by done.
    by destruct (nonempty (rq_token r)); split_and!.
  - unfold on_auth, api_auth_setup. rewrite Hp. by split_and!.
  - unfold ws_open, ws_attach. rewrite (proj2 (dict_get_None _ _) Hc), revoke_unknown by done.
    unfold unattached in *. destruct (negb _), bad; split_and!; try done; cbn;
      (apply Forall_app; split; [done|by repeat constructor]).
  - unfold ws_close. destruct (pn_sockets p !! i) as [[token attached]|] eqn:Hi; [|by split_and!].
    assert (attached = false) as -> by exact (Forall_lookup_1 _ _ _ _ Hs Hi).
    split_and!; try done. unfold unattached. cbn. by apply Forall_delete.
Qed.

Lemma untouched_outsider p q r :
  untouched p q → outsider (pn_auth p) r → outsider (pn_auth q) r.
Proof.
  intros (_ & _ & _ & _ & H5 & H6) (Hc & Ht & Hl). unfold outsider. rewrite H6. split_and!; [done..|].
  destruct (rq_body r); try done. unfold verify, has_password in *. by rewrite H5.
Qed.

Lemma untouched_guard p q :
  untouched p q → auth_required (panel_data q) = auth_required (panel_data p) ∧
  has_password (pn_auth q) = has_password (pn_auth p).
Proof. intros (H1 & _ & _ & _ & H5 & _). unfold panel_data, has_password. by rewrite H1, H5. Qed.

Lemma outsider_run rs p :
  auth_required (panel_data p) = true → has_password (pn_auth p) = true → unattached p →
  Forall (outsider (pn_auth p)) rs →
  untouched p (panel_run p rs) ∧ unattached (panel_run p rs).
Proof.
  intros Hr Hp Hs Ho. unfold panel_run. induction rs as [|r rs IH] using rev_ind; [by split_and!|].
  apply Forall_app in Ho as [Ho Hlast]. apply Forall_cons in Hlast as [Hlast _].
  destruct (IH Ho) as (Hu & Hs'). rewrite fold_left_app. cbn [fold_left].
  set (q := fold_left (λ p r, (panel_handle r p).2) rs p) in *.
  destruct (untouched_guard p q Hu) as [E1 E2].
  destruct (outsider_step r q) as (Hv & Gs & _); [by rewrite E1|by rewrite E2|done|exact (untouched_outsider p q r Hu Hlast)|].
  split; [|done]. unfold untouched in *. intuition congruence.
Qed.


(** ** With one, the request does what it says *)

(** The request passes [_require_admin]. *)
Definition allowed (r : request) (p : panel) : Prop :=
  (require_admin (auth_required (panel_data p)) (rq_token r) (rq_now r) (pn_auth p)).1 = true.

Lemma guarded_allowed r m p :
  allowed r p → ∃ a, guarded r m p = m (set_auth a p).
Proof.
  unfold allowed, guarded. destruct (require_admin _ _ _ _) as [ok a]. cbn. intros ->. by exists a.
Qed.

Lemma save_or_ok code v p :
  readers call → (save_or code true v p).1 = Done ∧ panel_data (save_or code true v p).2 = v ∧
  c_file (pn_cfg (save_or code true v p).2).1 = Some (dumps v).
Proof.
  intros Hr. unfold save_or, config_save, panel_data.
  destruct (fire_readers call (mkConfig (Some (dumps v)) v (c_subscribers (pn_cfg p).1), (pn_cfg p).2) Hr) as [Hf Hd].
  by split_and!.
Qed.

(** An accepted request takes effect, in memory and in the file: a posted
    configuration becomes the configuration, posted access lists replace the
    "security" block and no other, posted names become the names, and an
    emptied cache is empty with its counters at zero. *)
Lemma admin_posts_take_effect r p :
  readers call → allowed r p →
  match rq_body r with
  | RConfig true v =>
      (panel_handle r p).1 = Done ∧ panel_data (panel_handle r p).2 = v ∧
      c_file (pn_cfg (panel_handle r p).2).1 = Some (dumps v)
  | RAcl true v =>
      ∀ d, panel_data p = VDict d →
        (panel_handle r p).1 = Done ∧ node_get (panel_data (panel_handle r p).2) [u "security"] VNone = v ∧
        ∀ k path dflt, k ≠ u "security" →
          node_get (panel_data (panel_handle r p).2) (k :: path) dflt = node_get (panel_data p) (k :: path) dflt
  | RUsers true m =>
      (panel_handle r p).1 = Done ∧ pn_users (panel_handle r p).2 = users_replace_all true m (pn_users p)
  | RInvalidate None =>
      (panel_handle r p).1 = Done ∧ c_entries (pn_cache (panel_handle r p).2) = [] ∧
      counter_get (pn_stats (panel_handle r p).2) cache_hits = 0 ∧
      counter_get (pn_stats (panel_handle r p).2) cache_misses = 0
  | _ => True
  end.
Proof.
  intros Hr Ha. unfold panel_handle. destruct (rq_body r) eqn:Hb; try done.
  - destruct ok; [|done]. unfold api_config_post. destruct (guarded_allowed r (save_or 400 true new_cfg) p Ha) as [a ->].
    by apply save_or_ok.
  - destruct ok; [|done]. intros d Hd. unfold api_acl_post.
    match goal with |- context [guarded r ?m p] => destruct (guarded_allowed r m p Ha) as [a ->] end.
    change (panel_data (set_auth a p)) with (panel_data p). rewrite Hd.
    destruct (save_or_ok 500 (VDict (dict_set (u "security") payload d)) (set_auth a p) Hr) as (H1 & H2 & _).
    rewrite H1, H2. split_and!; [done| |].
    + cbn [node_get]. by rewrite dict_get_set_eq.
    + intros k path dflt Hk. cbn [node_get]. by rewrite dict_get_set_ne.
  - destruct ok; [|done]. unfold api_users_post.
    match goal with |- context [guarded r ?m p] => by destruct (guarded_allowed r m p Ha) as [a ->] end.
  - destruct filename; [done|]. unfold api_cache_invalidate.
    match goal with |- context [guarded r ?m p] => destruct (guarded_allowed r m p Ha) as [a ->] end.
    split_and!; try done; unfold counter_get; cbn [pn_stats set_cache_stats snd].
    + by rewrite dict_get_set_ne, dict_get_set_eq.
    + by rewrite dict_get_set_eq.
Qed.
End panel.

(** ** A visitor of a protected panel *)

Definition demo_panel : @panel plain_codec unit :=
  mkPanel (mkConfig None (VDict [(u "web", VDict [(u "require_auth", VBool true)])]) [], tt)
    (mkAuth (Creds (u "root") (u "s") (u "pws")) [(u "t1", 1000)] []) (mkUsers [] None)
    (FileCache_init 0 0 false) Counters_init [].

Definition demo_visitor : list request :=
  [mkReq 5 [] (u "Bearer t2") (RConfig true (VDict [])); mkReq 6 [] [] (RLogin (u "root") (u "guess") (u "t3"));
   mkReq 7 (u "t3") [] (RWsOpen false); mkReq 8 [] [] (RSetup (u "me") (u "mine") [] (u "t4"));
   mkReq 9 [] [] (RWsClose 0)].

