(* ===== verification/WebFiles.v ===== *)
(** * File endpoints of the web panel (src/web/app.py)

    Creating, uploading, renaming, deleting and copying below the folder TFTP
    reads from ("local") and the folder it uploads to ("wrq").  An endpoint is a
    function from what it asks the file system to the changes it makes and its
    answer.  The path functions are those of the operating system. *)

From S2P Require Import Prelude Python Collections Constants Wire Paths Config.
Open Scope Z_scope.

(** [os.path.relpath] ([None] across drives), [os.path.dirname] and
    [os.path.basename]. *)
Class OsPathParts `{OsPath} := {
  os_relpath : list Z → list Z → option (list Z);
  os_dirname : list Z → list Z;
  os_basename : list Z → list Z;
}.

(** [os.path.exists], [isdir], [islink], [isfile], sizes and [os.walk]. *)
Record fs_query := mkFsQuery {
  q_exists : list Z → bool; q_isdir : list Z → bool; q_islink : list Z → bool; q_isfile : list Z → bool;
  q_size : list Z → option Z; q_walk : list Z → list (list Z * list (list Z));
}.

(** A change of the file system. *)
Inductive fs_act :=
| Makedirs (p : list Z)
| WriteFile (p : list Z) (data : list Z)
| ReplaceFile (src dst : list Z)
| Rmtree (p : list Z)
| RemoveFile (p : list Z)
| Copytree (src dst : list Z)
| CopyFile (src dst : list Z)
| Download (remote dst : list Z).

(** The paths a change creates, overwrites or deletes. *)
Definition touched (a : fs_act) : list str :=
  match a with
  | Makedirs p | WriteFile p _ | Rmtree p | RemoveFile p => [p]
  | ReplaceFile src dst => [src; dst]
  | Copytree _ dst | CopyFile _ dst | Download _ dst => [dst]
  end.

(** An answer: fine, an HTTP status, or an exception that becomes status 500. *)
Inductive answer := Good | Status (code : Z) | Crash.

Section endpoints.
Context `{OsPathParts} (q : fs_query) (data : pyval).

(** [_tree_root]. *)
Definition tree_root (tree : str) : answer + str :=
  let text v := match v with VStr s => inr s | _ => inl Crash end in
  if bool_decide (tree = u "local") then
    text (node_get data [u "files"; u "local"; u "root"] (VStr LOCAL_ROOT_DEFAULT))
  else if bool_decide (tree = u "wrq") then
    text (node_get data [u "files"; u "write_root"] (VStr WRITE_ROOT_DEFAULT))
  else inl (Status 400).

(** [_safe_target]. *)
Definition web_target (tree rel : str) : answer + (str * str) :=
  match tree_root tree with
  | inl a => inl a
  | inr root => match safe_target root rel with Some bt => inr bt | None => inl (Status 400) end
  end.

(** [_safe_target(tree, os.path.relpath(dst, base).replace(os.sep, "/"))]. *)
Definition recheck (tree dst base : str) : answer + unit :=
  match os_relpath dst base with
  | None => inl Crash
  | Some rel => match web_target tree (replace_chr BACKSLASH SLASH rel) with inl a => inl a | inr _ => inr tt end
  end.

(** The size limit of a copy: [int(cfg.get(k, legacy) or 0)]. *)
Definition size_cap (k : str) : pyres Z :=
  lv ← Ok (node_get data [u "files"; u "max_copy_size"] (VInt (500 * 1024 * 1024)));
  legacy ← py_int (py_or lv (VInt 0));
  py_int (py_or (node_get data [u "files"; k] (VInt legacy)) (VInt 0)).

(** [_measure_size]. *)
Definition measure_size (path : str) : Z :=
  if q_isfile q path then default 0 (q_size q path)
  else fold_left Z.add
         (concat (map (λ e, map (λ f, default 0 (q_size q (os_join e.1 f))) e.2) (q_walk q path))) 0.

(** The endpoints; [os_fails] is whether the change raises an [OSError]. *)
Definition act (os_fails : bool) (acts : list fs_act) : list fs_act * answer :=
  (acts, if os_fails then Status 400 else Good).

Definition fs_mkdir (os_fails : bool) (tree path : str) : list fs_act * answer :=
  match rstrip SLASH (lstrip SLASH path) with
  | [] => ([], Status 400)
  | _ => match web_target tree path with
         | inl a => ([], a)
         | inr (_, target) => act os_fails [Makedirs target]
         end
  end.

(** The upload loop: the bytes written, and whether the limit was crossed. *)
Fixpoint upload_loop (max_bytes written : Z) (acc : list Z) (chunks : list (list Z)) : list Z * bool :=
  match chunks with
  | [] => (acc, false)
  | c :: chunks' =>
      let written := written + zlen c in
      if negb (max_bytes =? 0) && (max_bytes <? written) then (acc, true)
      else upload_loop max_bytes written (acc ++ c) chunks'
  end.

Definition fs_upload (os_fails : bool) (path filename : str) (chunks : list bytes) : list fs_act * answer :=
  match web_target (u "local") path with
  | inl a => ([], a)
  | inr (base, target_dir) =>
      if negb (q_isdir q target_dir) then ([], Status 400)
      else
        let name := os_basename filename in
        if bool_decide (name ∈ [[]; u "."; u ".."]) then ([], Status 400)
        else
          let dst := os_join target_dir name in
          match recheck (u "local") dst base with
          | inl a => ([], a)
          | inr _ =>
              match py_int (py_or (node_get data [u "files"; u "max_upload_size"] (VInt 0)) (VInt 0)) with
              | Raise _ => ([], Crash)
              | Ok max_bytes =>
                  let '(content, over) := upload_loop max_bytes 0 [] chunks in
                  if over then ([WriteFile dst content; RemoveFile dst], Status 413)
                  else act os_fails [WriteFile dst content]
              end
          end
  end.

Definition fs_rename (os_fails : bool) (tree path new_name : str) : list fs_act * answer :=
  let new_name := strip_ws new_name in
  if bool_decide (path = []) || bool_decide (new_name = []) then ([], Status 400)
  else if existsb (Z.eqb SLASH) new_name || existsb (Z.eqb BACKSLASH) new_name
          || bool_decide (new_name ∈ [u "."; u ".."]) then ([], Status 400)
  else match web_target tree path with
       | inl a => ([], a)
       | inr (base, src) =>
           if negb (q_exists q src) then ([], Status 404)
           else
             let dst := os_join (os_dirname src) new_name in
             match recheck tree dst base with
             | inl a => ([], a)
             | inr _ => act os_fails [ReplaceFile src dst]
             end
       end.

(** [shutil.rmtree] for a real directory, [os.remove] otherwise. *)
Definition delete_acts (p : str) : list fs_act :=
  if q_isdir q p && negb (q_islink q p) then [Rmtree p] else [RemoveFile p].

Definition fs_delete (os_fails : bool) (tree path : str) : list fs_act * answer :=
  match rstrip SLASH (lstrip SLASH path) with
  | [] => ([], Status 400)
  | _ => match web_target tree path with
         | inl a => ([], a)
         | inr (base, target) =>
             if bool_decide (target = base) then ([], Status 400)
             else if negb (q_exists q target) then ([], Status 404)
             else act os_fails (delete_acts target)
         end
  end.

(** [_do_copy]. *)
Definition copy_acts (src dst : str) : list fs_act :=
  if q_isdir q src && negb (q_islink q src) then
    (if q_exists q dst then delete_acts dst else []) ++ [Copytree src dst]
  else (if q_isdir q dst then [Rmtree dst] else []) ++ [CopyFile src dst].

(** [s.rstrip(os.sep)]. *)
Definition rstrip_sep (s : str) : str := match os_sep with c :: _ => rstrip c s | [] => s end.

Definition fs_copy (os_fails : bool) (src_path dst_dir : str) : list fs_act * answer :=
  if bool_decide (src_path = []) then ([], Status 400)
  else match web_target (u "wrq") src_path, web_target (u "local") dst_dir with
  | inl a, _ => ([], a)
  | inr _, inl a => ([], a)
  | inr (_, src), inr (dst_base, dst_parent) =>
      if negb (q_exists q src) then ([], Status 404)
      else if negb (q_isdir q dst_parent) then ([], Status 400)
      else match size_cap (u "max_copy_size_local") with
      | Raise _ => ([], Crash)
      | Ok max_bytes =>
          if negb (max_bytes =? 0) && (max_bytes <? measure_size src) then ([], Status 413)
          else
            let dst := os_join dst_parent (os_basename (rstrip_sep src)) in
            match recheck (u "local") dst dst_base with
            | inl a => ([], a)
            | inr _ => act os_fails (copy_acts src dst)
            end
      end
  end.

(** ** Copies from the FTP server *)

(** An entry of a recursive FTP listing: path, directory or file, and size. *)
Record ftp_entry := mkFtpEntry { fe_path : list Z; fe_dir : bool; fe_size : pyval }.

(** [_ftp_measure] counts what can be read as a number. *)
Definition ftp_measure (l : list ftp_entry) : Z :=
  fold_left Z.add
    (map (λ e, if fe_dir e then 0 else match py_int (fe_size e) with Ok z => z | Raise _ => 0 end) l) 0.

(** Where [_ftp_download_tree] puts an entry; [None] skips it. *)
Definition ftp_tree_target (remote local : str) (e : ftp_entry) : option str :=
  let rel := replace_chr BACKSLASH SLASH (fe_path e) in
  let base := rstrip SLASH remote in
  let place rel := Some (os_join local (match os_sep with c :: _ => replace_chr SLASH c rel | [] => rel end)) in
  if starts_with (base ++ [SLASH]) rel then place (drop (length base + 1) rel)
  else if bool_decide (rel = base) then None
  else place rel.

Definition ftp_tree_acts (remote local : str) (l : list ftp_entry) : list fs_act :=
  Makedirs local ::
  concat (map (λ e, match ftp_tree_target remote local e with
                    | None => []
                    | Some t => if fe_dir e then [Makedirs t]
                                else [Makedirs (match os_dirname t with [] => u "." | d => d end); Download (fe_path e) t]
                    end) l).

(** The remote path of a request: [(root.rstrip("/") + "/" + path.lstrip("/")).rstrip("/") or "/"]. *)
Definition remote_path (ftp_root path : str) : str :=
  match rstrip SLASH (rstrip SLASH ftp_root ++ [SLASH] ++ lstrip SLASH path) with [] => [SLASH] | p => p end.

(** The last segment: [path.rstrip("/").rsplit("/", 1)[-1]]. *)
Definition last_segment (path : str) : str := default [] (last (split_on SLASH (rstrip SLASH path))).

(** [api_fs_copy_ftp], given the host and root of the configuration; the
    server's answer is the listing of a directory or the size of a file, or an
    exception. *)
Definition fs_copy_ftp (host ftp_root src_path dst_dir : str) (is_dir : bool) (reply : option (list ftp_entry * pyval))
  : list fs_act * answer :=
  if bool_decide (src_path = []) then ([], Status 400)
  else if bool_decide (host = []) then ([], Status 400)
  else match web_target (u "local") dst_dir with
  | inl a => ([], a)
  | inr (dst_base, dst_parent) =>
      if negb (q_isdir q dst_parent) then ([], Status 400)
      else match size_cap (u "max_copy_size_ftp") with
      | Raise _ => ([], Crash)
      | Ok max_bytes =>
          let src_abs := remote_path ftp_root src_path in
          let name := last_segment src_path in
          if bool_decide (name = []) then ([], Status 400)
          else
            let dst := os_join dst_parent name in
            match recheck (u "local") dst dst_base with
            | inl a => ([], a)
            | inr _ =>
                match reply with
                | None => ([], Status 500)
                | Some (listing, size) =>
                    let total := if is_dir then ftp_measure listing
                                 else match py_int size with Ok z => z | Raise _ => 0 end in
                    if negb (max_bytes =? 0) && (max_bytes <? total) then ([], Status 413)
                    else if is_dir then
                      ((if q_exists q dst then delete_acts dst else []) ++ ftp_tree_acts src_abs dst listing, Good)
                    else ((if q_isdir q dst then [Rmtree dst] else []) ++ [Download src_abs dst], Good)
                end
            end
      end
  end.
End endpoints.

(** ** Changes stay below the two folders *)

Inductive fs_request :=
| ReqMkdir (tree path : list Z)
| ReqUpload (path filename : list Z) (chunks : list (list Z))
| ReqRename (tree path new_name : list Z)
| ReqDelete (tree path : list Z)
| ReqCopy (src_path dst_dir : list Z)
| ReqCopyFtpFile (host ftp_root src_path dst_dir : list Z) (size : option pyval).

Section containment.
Context `{OsPathParts} (q : fs_query) (data : pyval) (os_fails : bool).

Definition fs_handle (r : fs_request) : list fs_act * answer :=
  match r with
  | ReqMkdir tree path => fs_mkdir data os_fails tree path
  | ReqUpload path filename chunks => fs_upload q data os_fails path filename chunks
  | ReqRename tree path new_name => fs_rename q data os_fails tree path new_name
  | ReqDelete tree path => fs_delete q data os_fails tree path
  | ReqCopy src dst => fs_copy q data os_fails src dst
  | ReqCopyFtpFile host root src dst size => fs_copy_ftp q data host root src dst false (pair [] <$> size)
  end.

(** Windows: the separator is a backslash, [os.path.abspath] resolves every
    [".."], and [os.path.relpath] leads back to where it points. *)
Hypothesis sep_backslash : os_sep = [BACKSLASH].
Hypothesis abspath_resolves : ∀ p, dotdot ∉ split_on BACKSLASH (os_abspath p).
Hypothesis relpath_back : ∀ dst base rel, os_relpath dst base = Some rel →
  os_abspath (os_join base (cleaned_name (replace_chr BACKSLASH SLASH rel))) = os_abspath dst.

(** The path, or the absolute path it stands for, is one of the two roots or
    lies below it. *)
Definition contained (p : str) : Prop :=
  ∃ tree root x, tree_root data tree = inr root ∧ (x = p ∨ x = os_abspath p) ∧ below (os_abspath root) x.

Lemma web_target_inv tree rel base target :
  web_target data tree rel = inr (base, target) →
  ∃ root, tree_root data tree = inr root ∧ base = os_abspath root ∧ below base target ∧
          target = os_abspath (os_join base (cleaned_name rel)).
Proof.
  unfold web_target. destruct (tree_root data tree) as [a|root]; [done|].
  destruct (safe_target root rel) as [[b t]|] eqn:Hs; [|done]. intros [= -> ->]. exists root.
  destruct (safe_target_contained sep_backslash abspath_resolves _ _ _ _ Hs) as [-> Hb]. split_and!; try done.
  unfold safe_target in Hs. by case_hyp Hs; simplify_eq.
Qed.

Lemma web_target_contained tree rel base target :
  web_target data tree rel = inr (base, target) → contained target.
Proof. intros (root & Hr & -> & Hb & _)%web_target_inv. exists tree, root, target. auto. Qed.

Lemma recheck_contained tree rel base target dst :
  web_target data tree rel = inr (base, target) → recheck data tree dst base = inr tt → contained dst.
Proof.
  intros (root & Hr & Hbase & _)%web_target_inv. unfold recheck.
  destruct (os_relpath dst base) as [r|] eqn:Hrel; [|done].
  destruct (web_target data tree (replace_chr BACKSLASH SLASH r)) as [|[b t]] eqn:Ht; [done|]. intros _.
  apply web_target_inv in Ht as (root' & Hr' & -> & Hb & Et). assert (root' = root) as -> by congruence.
  exists tree, root, t. split_and!; [done| |done]. right. rewrite Et, <- Hbase. by apply relpath_back.
Qed.

Lemma delete_acts_contained p : contained p → Forall (λ a, Forall contained (touched a)) (delete_acts q p).
Proof. intros Hp. unfold delete_acts. case_goal; repeat constructor; done. Qed.

Lemma copy_acts_contained src dst :
  contained dst → Forall (λ a, Forall contained (touched a)) (copy_acts q src dst).
Proof.
  intros Hd. unfold copy_acts. case_goal; apply Forall_app; (split; [|by repeat constructor]); case_goal;
    [by apply delete_acts_contained|constructor|by repeat constructor|constructor].
Qed.

End containment.

(** ** Lexical paths *)

Definition lex_segments (p : str) : list str := split_on BACKSLASH (replace_chr SLASH BACKSLASH p).

#[export] Instance lexical_parts : OsPathParts (H := lexical_paths) :=
  {| os_relpath dst base :=
       Some (join_with BACKSLASH (replicate (length (lex_segments base)) dotdot ++ norm_parts [] (lex_segments dst)));
     os_dirname p := join_with BACKSLASH (removelast (lex_segments p));
     os_basename p := default [] (last (lex_segments p)) |}.

Definition plain_part (p : str) : Prop := p ≠ dotdot ∧ p ≠ [] ∧ p ≠ u ".".

Lemma norm_parts_plain acc ps : Forall plain_part acc → Forall plain_part (norm_parts acc ps).
Proof.
  revert acc. induction ps as [|p ps IH]; intros acc Ha; cbn [norm_parts]; [by apply Forall_rev|].
  repeat case_decide; apply IH; [by destruct Ha|done|]. constructor; [|done]. unfold plain_part. tauto.
Qed.

Lemma norm_parts_id acc ps : Forall plain_part ps → norm_parts acc ps = rev acc ++ ps.
Proof.
  intros Hp. revert acc. induction Hp as [|p ps (H1 & H2 & H3) _ IH]; intros acc; cbn [norm_parts]; [by rewrite app_nil_r|].
  rewrite decide_False by done. rewrite decide_False by tauto. rewrite IH. cbn. by rewrite <- app_assoc.
Qed.

Lemma norm_parts_app acc l1 l2 : norm_parts acc (l1 ++ l2) = norm_parts (rev (norm_parts acc l1)) l2.
Proof.
  revert acc. induction l1 as [|p l1 IH]; intros acc; cbn [norm_parts app]; [by rewrite rev_involutive|].
  repeat case_decide; apply IH.
Qed.

Lemma norm_parts_length acc l : (length (norm_parts acc l) ≤ length acc + length l)%nat.
Proof.
  revert acc. induction l as [|p l IH]; intros acc; cbn [norm_parts length]; [rewrite length_rev; lia|].
  repeat case_decide; etrans; try apply IH; cbn; try lia. destruct acc; cbn; lia.
Qed.

(** Stepping up as often as there are parts leads to the top. *)
Lemma norm_parts_up n acc l :
  (length acc ≤ n)%nat → norm_parts acc (replicate n dotdot ++ l) = norm_parts [] l.
Proof.
  revert acc. induction n as [|n IH]; intros acc Hl.
  - by destruct acc; [|cbn in Hl; lia].
  - cbn [replicate app norm_parts]. rewrite decide_True by done. apply IH. destruct acc; cbn in *; lia.
Qed.

Lemma split_join c ps : ps ≠ [] → Forall (λ p, c ∉ p) ps → split_on c (join_with c ps) = ps.
Proof.
  assert (∀ p, c ∉ p → split_on c p = [p]) as Hnone.
  { induction p as [|x p IH]; [done|]. rewrite not_elem_of_cons. intros [Hx Hp]. cbn.
    destruct (Z.eqb_spec x c); [by subst|]. by rewrite IH. }
  intros Hne Hp. induction Hp as [|p ps Hc Hps IH]; [done|].
  destruct ps as [|p' ps]; cbn [join_with]; [by apply Hnone|].
  rewrite split_on_app_sep, Hnone by done. cbn [app]. f_equal. by apply IH.
Qed.

Lemma replace_chr_notin a b s : a ∉ s → replace_chr a b s = s.
Proof.
  induction s as [|x s IH]; cbn; [done|]. rewrite not_elem_of_cons. intros [Hx Hs].
  destruct (Z.eqb_spec x a); [by subst|]. unfold replace_chr in IH. by rewrite IH.
Qed.

Lemma join_with_notin a c ps : a ≠ c → Forall (λ p, a ∉ p) ps → a ∉ join_with c ps.
Proof.
  intros Hac. induction 1 as [|p ps Hp Hps IH]; cbn [join_with]; [apply not_elem_of_nil|].
  destruct ps as [|p' ps]; [done|]. rewrite not_elem_of_app, not_elem_of_cons. auto.
Qed.

Lemma norm_parts_Forall (P : str → Prop) acc l : Forall P acc → Forall P l → Forall P (norm_parts acc l).
Proof.
  revert acc. induction l as [|p l IH]; intros acc Ha Hl; cbn [norm_parts]; [by apply Forall_rev|].
  apply Forall_cons in Hl as [Hp Hl]. repeat case_decide; apply IH; auto. by destruct Ha.
Qed.

Lemma split_on_notin a c s : a ∉ s → Forall (λ p, a ∉ p) (split_on c s).
Proof.
  induction s as [|x s IH]; cbn; [intros _; repeat constructor; apply not_elem_of_nil|].
  rewrite not_elem_of_cons. intros [Hx Hs]. specialize (IH Hs).
  destruct (x =? c); [constructor; [apply not_elem_of_nil|done]|].
  destruct (split_on c s) as [|p ps].
  - repeat constructor. rewrite not_elem_of_cons. split; [done|apply not_elem_of_nil].
  - apply Forall_cons in IH as [Hp Hps]. constructor; [|done]. by apply not_elem_of_cons.
Qed.

Lemma replaced_notin a b s : a ≠ b → a ∉ replace_chr a b s.
Proof.
  intros Hab. unfold replace_chr. intros (x & Hx & _)%list_elem_of_fmap. revert Hx.
  destruct (Z.eqb_spec x a); intros ->; done.
Qed.

Lemma lexical_relpath_back dst base rel :
  os_relpath (OsPathParts := lexical_parts) dst base = Some rel →
  os_abspath (OsPath := lexical_paths)
    (os_join (OsPath := lexical_paths) base (cleaned_name (replace_chr BACKSLASH SLASH rel)))
  = os_abspath (OsPath := lexical_paths) dst.
Proof.
  intros [= <-]. cbn [os_abspath os_join lexical_paths]. f_equal. fold (lex_segments dst).
  set (n := length (lex_segments base)). set (D := norm_parts [] (lex_segments dst)).
  set (ps := replicate n dotdot ++ D).
  assert (∃ k, n = S k) as [k Hn].
  { subst n. unfold lex_segments. destruct (replace_chr SLASH BACKSLASH base) as [|x s]; cbn; [by eexists|].
    destruct (x =? BACKSLASH); [by eexists|]. destruct (split_on BACKSLASH s); by eexists. }
  assert (Forall (λ p, BACKSLASH ∉ p) ps ∧ Forall (λ p, SLASH ∉ p) ps) as [Hb Hs].
  { subst ps D. split; apply Forall_app; (split; [apply Forall_replicate; by apply (bool_decide_unpack _)|]);
      (apply norm_parts_Forall; [constructor|]).
    - apply split_on_clean.
    - apply split_on_notin, replaced_notin. done. }
  assert (SLASH ∉ join_with BACKSLASH ps) as Hns by (by apply join_with_notin).
  assert (∃ t, join_with BACKSLASH ps = 46 :: t) as [t Ht].
  { subst ps. rewrite Hn. cbn [replicate app join_with]. by destruct (replicate k dotdot ++ D); eexists. }
  assert (replace_chr SLASH BACKSLASH (cleaned_name (replace_chr BACKSLASH SLASH (join_with BACKSLASH ps)))
          = join_with BACKSLASH ps) as Hrel.
  { unfold cleaned_name.
    assert (replace_chr BACKSLASH SLASH (replace_chr BACKSLASH SLASH (join_with BACKSLASH ps))
            = replace_chr BACKSLASH SLASH (join_with BACKSLASH ps)) as -> by (apply replace_chr_notin, replaced_notin; done).
    assert (lstrip SLASH (replace_chr BACKSLASH SLASH (join_with BACKSLASH ps))
            = replace_chr BACKSLASH SLASH (join_with BACKSLASH ps)) as -> by (by rewrite Ht).
    unfold replace_chr. rewrite map_map. rewrite <- (map_id (join_with BACKSLASH ps)) at 2.
    apply map_ext_in. intros x Hx%list_elem_of_In. destruct (Z.eqb_spec x BACKSLASH) as [->|]; [done|].
    destruct (Z.eqb_spec x SLASH) as [->|]; [done|]. done. }
  assert (∀ X, replace_chr SLASH BACKSLASH (base ++ BACKSLASH :: X)
    = replace_chr SLASH BACKSLASH base ++ BACKSLASH :: replace_chr SLASH BACKSLASH X) as ->
    by (intros X; unfold replace_chr; by rewrite map_app).
  rewrite Hrel, split_on_app_sep, split_join by (done || subst ps; by rewrite Hn). fold (lex_segments base).
  rewrite norm_parts_app. subst ps. rewrite norm_parts_up.
  - subst D. rewrite norm_parts_id by (apply norm_parts_plain; constructor). done.
  - rewrite length_rev. apply norm_parts_length.
Qed.

Definition demo_query : fs_query :=
  mkFsQuery (λ _, true) (λ _, true) (λ _, false) (λ _, false) (λ _, None) (λ _, []).
Definition demo_roots : pyval :=
  VDict [(u "files", VDict [(u "write_root", VStr (u "C:\up")); (u "local", VDict [(u "root", VStr (u "C:\srv"))])])].


(** ** Behaviour that differs from what is intended *)

(** The names in the listing of a directory copied from the FTP server are not
    checked: an entry with ".." is written outside the folder. *)
Lemma ftp_listing_escapes :
  let acts := (fs_copy_ftp demo_query demo_roots (u "ftp") (u "/") (u "lab") [] true
                 (Some ([mkFtpEntry (u "/lab/../../windows/x.dll") false (VInt 1)], VNone))).1 in
  ∃ p, Download (u "/lab/../../windows/x.dll") p ∈ acts ∧ os_abspath p = u "C:\windows\x.dll".
Proof.
  eexists. split; [|shelve].
  apply (proj2 (list_elem_of_In _ _)). vm_compute. do 3 right. left. reflexivity. Unshelve. vm_compute. reflexivity.
Qed.

(** A directory copy whose source ends in ".." has the folder above the
    destination as its target, and removes it first - here the whole folder
    TFTP serves. *)
Lemma ftp_copy_removes_root :
  let acts := (fs_copy_ftp demo_query demo_roots (u "ftp") (u "/") (u "x/..") (u "lab") true (Some ([], VNone))).1 in
  ∃ p, Rmtree p ∈ acts ∧ os_abspath p = u "C:\srv".
Proof.
  eexists. split; [|shelve]. apply (proj2 (list_elem_of_In _ _)). vm_compute. left. reflexivity.
  Unshelve. vm_compute. reflexivity.
Qed.
