(* ===== verification/Listings.v ===== *)
(** * Listings of the file sources (src/files/*source.py, src/files/cache.py)

    The names the web panel lists and the reads that follow: what the local
    folder lists is what it serves. *)

From S2P Require Import Prelude Python Collections Constants Wire Options Stats FileLock Cache.
From S2P Require Import Acl Paths Session Source Config WebFiles.
From Stdlib Require Import Sorted.
Open Scope Z_scope.

Section local.
Context `{OsPathParts} (d : disk).

(** The name a file of the walk is listed under. *)
Definition logical_name (rel name : str) : str :=
  if bool_decide (rel = u ".") then name else replace_chr BACKSLASH SLASH (os_join rel name).

(** The directories of the walk that are visited. *)
Definition visited (ls : LocalSource) : list (str * list str) :=
  if ls_recursive ls then dk_walk d (ls_root ls) else take 1 (dk_walk d (ls_root ls)).

(** The files of the visited directories, with their logical names; a
    directory on another drive raises. *)
Fixpoint collect (root : str) (dirs : list (str * list str)) : pyres (list (str * str)) :=
  match dirs with
  | [] => Ok []
  | (dirpath, files) :: dirs' =>
      match os_relpath dirpath root with
      | None => Raise (ValueError (u "path is on a different mount"))
      | Some rel =>
          rest ← collect root dirs';
          Ok (map (λ name, (logical_name rel name, os_join dirpath name)) files ++ rest)
      end
  end.

(** [LocalSource.list]. *)
Definition local_list (ls : LocalSource) : pyres (list str) :=
  l ← collect (ls_root ls) (visited ls); Ok (sorted_strs (map fst l)).

(** [LocalSource.list_detailed], with size and modification time of [os.stat]
    ([None] when it fails). *)
Definition local_list_detailed (stat : str → option (Z * Z)) (ls : LocalSource) : pyres (list (str * option (Z * Z))) :=
  l ← collect (ls_root ls) (visited ls);
  Ok (sort_by (λ a b, str_leb a.1 b.1) (map (λ e, (e.1, stat e.2)) l)).
End local.

(** [FileSource.list_detailed], the default the router inherits. *)
Definition default_detailed {S} `{FileSource S} (src : S) (names : list str) : list (str * option Z) :=
  map (λ n, (n, match source_size src n with Ok sz => sz | Raise _ => None end)) names.

Section router.
Context `{OsPathParts} (urlparse : str → option url) (d : disk) (cl : ftp_client).

(** [RouterSource.list]: the local folder only. *)
Definition router_list (r : RouterSource) : pyres (list str) := local_list d (rt_local r).

(** [RouterSource.list_detailed], inherited: one [size] per name. *)
Definition router_list_detailed (r : RouterSource) : pyres (list (str * option Z)) :=
  names ← router_list r; Ok (default_detailed (H := router_is_source urlparse d cl) r names).
End router.

(** The name [FtpSource.list] gives to a path of the server. *)
Definition ftp_rel (root path : str) : str :=
  let rel := lstrip SLASH path in
  let root := lstrip SLASH root in
  if bool_decide (root ≠ []) && starts_with root rel then lstrip SLASH (drop (length root) rel) else rel.

(** [FtpSource.list]: the entries (path, type) the server sent before the
    listing ended or failed. *)
Definition ftp_list (cl : ftp_client) (s : FtpSource) (entries : list (str * str)) (failure : option ftp_failure)
  : pyres (list str) :=
  match ftp_connect cl s with
  | Some (FtpOther e) => Raise e
  | Some _ => Ok []
  | None =>
      let out := map (λ e, ftp_rel (ftp_root s) e.1) (List.filter (λ e, bool_decide (e.2 = u "file")) entries) in
      match failure with
      | None | Some (FtpStatus _ | FtpTimeout _) => Ok (sorted_strs out)
      | Some f => Raise (uncaught f)
      end
  end.

(** [FileCache.snapshot]. *)
Definition cache_snapshot (c : FileCache) : bool * Z * Z * nat * list str :=
  (c_enabled c, c_max_bytes c, c_bytes c, length (c_entries c), dict_keys (c_entries c)).

(** ** What is listed is served *)

(** Sorting by a key and taking the keys is sorting the keys. *)
Lemma sort_by_keys {A} (l : list (str * A)) :
  map fst (sort_by (λ a b, str_leb a.1 b.1) l) = sorted_strs (map fst l).
Proof.
  unfold sorted_strs. induction l as [|x l IH]; cbn; [done|]. rewrite <- IH. clear IH.
  generalize (sort_by (λ a b : str * A, str_leb a.1 b.1) l). intros m.
  induction m as [|y m IH]; cbn; [done|]. destruct (str_leb x.1 y.1); cbn; [done|]. by rewrite IH.
Qed.

(** Both listings of the local folder have the same names in the same order. *)
Lemma local_listings_agree `{OsPathParts} d stat ls :
  (λ l, map fst l) <$> local_list_detailed d stat ls = local_list d ls.
Proof.
  unfold local_list_detailed, local_list. destruct (collect _ _) as [l|]; cbn; [|done].
  by rewrite sort_by_keys, map_map.
Qed.

(** A file name on disk. *)
Definition file_part (p : str) : Prop := plain_part p ∧ (SLASH ∉ p) ∧ (BACKSLASH ∉ p).

Section served.
Context `{OsPathParts} (d : disk) (root : str) (recursive : bool).
Let ls := mkLocal root recursive.

(** What [os.walk], [os.path.relpath] and [os.path.join] do: a directory of the
    walk is reached from the root by names, [relpath] gives these names back,
    and every file of the walk is a file below the root. *)
Hypothesis walk_dirs : ∀ e, e ∈ dk_walk d root → ∃ ds, Forall file_part ds ∧ e.1 = join_parts root ds ∧
  os_relpath e.1 root = Some (if decide (ds = []) then u "." else join_with BACKSLASH ds).
Hypothesis walk_files : ∀ e name, e ∈ dk_walk d root → name ∈ e.2 →
  file_part name ∧ under root (os_abspath (os_join e.1 name)) = true ∧
  dk_isfile d (os_abspath (os_join e.1 name)) = true.
Hypothesis join_names : ∀ ds name, ds ≠ [] → Forall file_part ds → file_part name →
  os_join (join_with BACKSLASH ds) name = join_with BACKSLASH (ds ++ [name]).

Lemma replace_join ps :
  Forall file_part ps → replace_chr BACKSLASH SLASH (join_with BACKSLASH ps) = join_with SLASH ps.
Proof.
  induction 1 as [|p ps (_ & _ & Hp) _ IH]; [done|]. destruct ps as [|p' ps]; cbn [join_with].
  - by apply replace_chr_notin.
  - unfold replace_chr. rewrite map_app. fold (replace_chr BACKSLASH SLASH p).
    rewrite replace_chr_notin by done. f_equal. cbn [map]. rewrite Z.eqb_refl. f_equal. exact IH.
Qed.

(** A listed name splits into the names it was joined from. *)
Lemma listed_parts ps :
  ps ≠ [] → Forall file_part ps →
  filter (λ p, p ≠ [] ∧ p ≠ u ".") (split_on SLASH (cleaned_name (join_with SLASH ps))) = ps.
Proof.
  intros Hne Hps.
  assert (BACKSLASH ∉ join_with SLASH ps) as Hb.
  { apply join_with_notin; [done|]. eapply Forall_impl; [exact Hps|]. by intros p (_ & _ & Hp). }
  unfold cleaned_name. rewrite replace_chr_notin by done.
  assert (lstrip SLASH (join_with SLASH ps) = join_with SLASH ps) as ->.
  { destruct Hps as [|p qs ((_ & Hp & _) & Hs & _) _]; [done|]. destruct p as [|c p]; [done|].
    assert (∃ t, join_with SLASH ((c :: p) :: qs) = c :: t) as [t ->] by (destruct qs; by eexists).
    cbn. destruct (Z.eqb_spec c SLASH); [|done]. subst. exfalso. apply Hs. apply list_elem_of_here. }
  rewrite split_join; [|done|eapply Forall_impl; [exact Hps|]; by intros p (_ & Hp & _)].
  clear Hne Hb. induction Hps as [|p ps ((_ & H1 & H2) & _) _ IH]; [done|].
  rewrite filter_cons_True by done. by rewrite IH.
Qed.

Lemma no_dotdot ps : Forall file_part ps → existsb (λ p, bool_decide (p = dotdot)) ps = false.
Proof.
  induction 1 as [|p ps ((Hp & _) & _) _ IH]; [done|]. cbn. by rewrite bool_decide_eq_false_2.
Qed.

(** A file of the walk is found again under the name it is listed under. *)
Lemma resolve_listed e name rel :
  e ∈ dk_walk d root → name ∈ e.2 → os_relpath e.1 root = Some rel →
  local_resolve d ls (logical_name rel name) = Some (os_abspath (os_join e.1 name)).
Proof.
  intros He Hn Hrel. destruct (walk_dirs e He) as (ds & Hds & Hdir & Hr). rewrite Hrel in Hr. injection Hr as ->.
  destruct (walk_files e name He Hn) as (Hf & Hu & Hi).
  assert (logical_name (if decide (ds = []) then u "." else join_with BACKSLASH ds) name
          = join_with SLASH (ds ++ [name])) as ->.
  { unfold logical_name. case_decide as Hd; [by subst; rewrite bool_decide_eq_true_2|].
    rewrite bool_decide_eq_false_2.
    - rewrite join_names by done. apply replace_join. apply Forall_app. split; [done|by constructor].
    - intros Hdot. destruct Hds as [|p ps ((_ & H1 & H2) & _) Hds]; [done|].
      destruct ps as [|p' ps]; cbn [join_with] in Hdot; [done|].
      destruct p as [|c1 [|c2 p]]; [done|..]; cbn in Hdot; by simplify_eq. }
  assert (Forall file_part (ds ++ [name])) as Hall by (apply Forall_app; split; [done|by constructor]).
  unfold local_resolve. rewrite listed_parts by (done || by destruct ds).
  rewrite no_dotdot, last_snoc by done. cbn [ls_root ls].
  assert (join_parts root (ds ++ [name]) = os_join e.1 name) as ->.
  { unfold join_parts in *. rewrite fold_left_app. cbn [fold_left]. by rewrite Hdir. }
  by rewrite Hu, Hi.
Qed.

Lemma collect_spec dirs l n p :
  dirs ⊆ dk_walk d root → collect root dirs = Ok l → (n, p) ∈ l →
  ∃ e name rel, e ∈ dk_walk d root ∧ name ∈ e.2 ∧ os_relpath e.1 root = Some rel ∧
    n = logical_name rel name ∧ p = os_join e.1 name.
Proof.
  revert l. induction dirs as [|[dir files] dirs IH]; intros l Hsub; cbn [collect].
  { intros [= <-] Hin. by apply not_elem_of_nil in Hin. }
  destruct (os_relpath dir root) as [rel|] eqn:Hrel; [|done].
  destruct (collect root dirs) as [rest|]; [|done]. intros [= <-] [Hin|Hin]%elem_of_app.
  - apply list_elem_of_fmap in Hin as (name & [= -> ->] & Hname).
    exists (dir, files), name, rel. split_and!; try done. apply Hsub, list_elem_of_here.
  - apply (IH rest); [|done|done]. intros x Hx. apply Hsub. by apply list_elem_of_further.
Qed.

Lemma visited_sub : visited d ls ⊆ dk_walk d root.
Proof.
  unfold visited. cbn. destruct recursive; [done|]. intros x Hx.
  rewrite <- (take_drop 1 (dk_walk d root)). apply elem_of_app. by left.
Qed.

Lemma collect_ok dirs : dirs ⊆ dk_walk d root → ∃ l, collect root dirs = Ok l ∧
  length l = sum_list (map (λ e, length e.2) dirs).
Proof.
  induction dirs as [|[dir files] dirs IH]; intros Hsub; cbn [collect]; [by exists []|].
  destruct (walk_dirs (dir, files)) as (ds & _ & _ & Hr); [apply Hsub, list_elem_of_here|].
  cbn [fst] in Hr. rewrite Hr.
  destruct IH as (l & -> & Hl); [intros x Hx; apply Hsub; by apply list_elem_of_further|].
  eexists. split; [reflexivity|]. rewrite length_app, length_map, Hl. reflexivity.
Qed.

End served.

(** ** A folder with a subfolder *)

(** Relative paths below a folder, for lexical paths. *)
Definition tree_parts : OsPathParts (H := lexical_paths) :=
  {| os_relpath p base :=
       if decide (p = base) then Some (u ".")
       else if starts_with (base ++ [BACKSLASH]) p then Some (drop (length base + 1) p) else None;
     os_dirname p := p;
     os_basename p := p |}.

Definition demo_disk : disk :=
  mkDisk (λ p, bool_decide (p ∈ [u "C:\tftp\a.bin"; u "C:\tftp\fw\b.bin"]))
    (λ _, [(u "C:\tftp", [u "a.bin"]); (u "C:\tftp\fw", [u "b.bin"])])
    (λ p, Some p) (λ _, None).

Lemma join_with_snoc c ds n : ds ≠ [] → join_with c (ds ++ [n]) = join_with c ds ++ c :: n.
Proof.
  induction ds as [|p ds IH]; intros Hne; [done|]. destruct ds as [|q ds]; [done|].
  change (join_with c ((p :: q :: ds) ++ [n])) with (p ++ c :: join_with c ((q :: ds) ++ [n])).
  rewrite IH by done. cbn [join_with]. by rewrite <- app_assoc.
Qed.

Lemma file_part_dec p :
  bool_decide (p ≠ dotdot ∧ p ≠ [] ∧ p ≠ u "." ∧ (SLASH ∉ p) ∧ (BACKSLASH ∉ p)) = true → file_part p.
Proof. intros (H1 & H2 & H3 & H4 & H5)%bool_decide_eq_true_1. by split_and!. Qed.

