(* ===== verification/Main.v ===== *)
(** * The entry point (src/main.py)

    [main] up to the event loop: the checks of the platform and of the rights,
    the first configuration file, the logging and the choice of the adapter,
    which is the only setting the program writes by itself.  The command line,
    the facts about the host, the file system and what is typed at the prompt
    are arguments.  [dict] of a list of pairs, which no configuration has, counts
    as an error. *)

From S2P Require Import Prelude Python Collections Constants Paths Config Logger App WebFiles Listings.
Open Scope Z_scope.

Record args := mkArgs { a_config : list Z; a_select_nic : bool; a_list_nics : bool }.

(** The answers at the prompt, and whether Ctrl-C follows them. *)
Record typed := mkTyped { ty_lines : list (list Z); ty_interrupt : bool }.

Inductive asked := Picked (npf : str) | Interrupted | StillAsking.

(** The prompt with its [KeyboardInterrupt]. *)
Definition ask_nic (nics : pyres (list nic)) (preselected : str) (t : typed) : pyres asked :=
  l ← nics;
  r ← interactive_nic_select l preselected (ty_lines t);
  Ok (match r with
      | Some picked => Picked picked
      | None => if ty_interrupt t then Interrupted else StillAsking
      end).

(** [_is_admin], given what the system call returned. *)
Definition is_admin (r : pyres Z) : bool := match r with Ok z => negb (z =? 0) | Raise _ => false end.

Section main.
Context `{Codec} `{OsPathParts}.

Record host := mkHost {
  ho_win32 : bool;
  ho_admin : pyres Z;
  ho_frozen : bool;
  ho_exe : list Z;                  (* sys.executable *)
  ho_source : list Z;               (* __file__ *)
  ho_meipass : option (list Z);
  ho_files : list Z → option text;  (* the files there are *)
  ho_copy_ok : bool;
  ho_nics : pyres (list nic);
  ho_typed : typed;
  ho_log_file : option exc;  (* what opening the log file raises *)
  ho_save_ok : bool;
}.

(** How [main] ends: with an exit code, by returning, with an exception, still
    at the prompt, or in [asyncio.run(_amain(cfg))]. *)
Inductive ending :=
| Exits (code : Z)
| Returns
| Raises (e : exc)
| Prompting
| Runs (cfg : Config) (lg : logging).

(** [_runtime_dir], the working directory of a frozen program. *)
Definition runtime_dir (h : host) : str :=
  os_dirname (os_abspath (if ho_frozen h then ho_exe h else ho_source h)).

(** [_bundle_dir]. *)
Definition bundle_dir (h : host) : str := default (os_dirname (os_abspath (ho_source h))) (ho_meipass h).

(** [args.config] after the [chdir] of a frozen program. *)
Definition config_path (a : args) (h : host) : str :=
  if ho_frozen h then os_join (runtime_dir h) (a_config a) else a_config a.

(** The configuration file after the first-run seed. *)
Definition seeded (a : args) (h : host) : option text :=
  match ho_files h (config_path a h) with
  | Some t => Some t
  | None => if ho_frozen h && ho_copy_ok h then ho_files h (os_join (bundle_dir h) (u "config.yaml")) else None
  end.

(** [(cfg.get("network", "nic", default="") or "").strip()]. *)
Definition current_nic (data : pyval) : pyres str :=
  match py_or (node_get data [u "network"; u "nic"] (VStr [])) (VStr []) with
  | VStr s => Ok (strip_ws s)
  | v => Raise (AttributeError (u "'" ++ type_name v ++ u "' object has no attribute 'strip'"))
  end.

Definition py_dict (v : pyval) : pyres (list (str * pyval)) :=
  match v with
  | VDict d => Ok d
  | v => Raise (TypeError (u "'" ++ type_name v ++ u "' object is not iterable"))
  end.

(** The configuration with the adapter that was picked. *)
Definition with_nic (picked : str) (data : pyval) : pyres pyval :=
  d ← py_dict data;
  net ← py_dict (py_or (default empty_dict (dict_get (u "network") d)) empty_dict);
  Ok (VDict (dict_set (u "network") (VDict (dict_set (u "nic") (VStr picked) net)) d)).

(** Nobody subscribes before [_amain]. *)
Definition no_call (cb : nat) (s : Config * unit) : bool * (Config * unit) := (false, s).

(** The choice of the adapter. *)
Definition select_nic (a : args) (h : host) (c : Config) (lg : logging) : ending :=
  match current_nic (c_data c) with
  | Raise e => Raises e
  | Ok current =>
      if a_select_nic a || bool_decide (current = []) then
        match ask_nic (ho_nics h) current (ho_typed h) with
        | Raise e => Raises e
        | Ok Interrupted => Exits 1
        | Ok StillAsking => Prompting
        | Ok (Picked picked) =>
            match with_nic picked (c_data c) with
            | Raise e => Raises e
            | Ok v =>
                match config_save no_call (ho_save_ok h) v (c, tt) with
                | (Raise e, _) => Raises e
                | (Ok _, (c, _)) => Runs c lg
                end
            end
        end
      else Runs c lg
  end.

(** [main]. *)
Definition main (a : args) (h : host) (lg : logging) : ending :=
  if negb (ho_win32 h) then Exits 1
  else if a_list_nics a then
    match ask_nic (ho_nics h) [] (ho_typed h) with
    | Raise e => Raises e
    | Ok StillAsking => Prompting
    | Ok _ => Returns
    end
  else if negb (is_admin (ho_admin h)) then Exits 1
  else match config_init no_call (seeded a h) tt with
       | (Raise e, _) => Raises e
       | (Ok _, (c, _)) =>
           match setup_logging (block (c_data c) [u "logging"]) (ho_log_file h) lg with
           | (Raise e, _) => Raises e
           | (Ok _, lg) => select_nic a h c lg
           end
       end.

(** ** What the server is started with *)

(** A setting that is neither the adapter nor contains it. *)
Definition elsewhere (path : list str) : Prop :=
  match path with
  | [] => False
  | k :: rest => k = u "network" → match rest with [] => False | k' :: _ => k' ≠ u "nic" end
  end.

Lemma lstrip_ws_last s c : is_space c = false → ∃ s', lstrip_ws (s ++ [c]) = s' ++ [c].
Proof.
  intros Hc. induction s as [|x s IH]; cbn; [rewrite Hc; by exists []|].
  destruct (is_space x); [done|]. by exists (x :: s).
Qed.

(** A text that does not begin with a space is not blank. *)
Lemma strip_ws_nonblank c s : is_space c = false → strip_ws (c :: s) ≠ [].
Proof.
  intros Hc. unfold strip_ws. rewrite lstrip_ws_nonspace by done. cbn [rev].
  destruct (lstrip_ws_last (rev s) c Hc) as [s' ->]. rewrite rev_app_distr. done.
Qed.

Lemma choose_picks nics dflt line p : choose nics dflt line = Some p → ∃ n, n ∈ nics ∧ p = npf n ∧ nic_guid n ≠ [].
Proof.
  unfold choose. intros Hc. apply bind_Some in Hc as (i & _ & Hc). destruct (_ && _); [|done].
  apply bind_Some in Hc as (n & Hn & Hc). case_bool_decide; [done|]. injection Hc as <-.
  exists n. split_and!; [by eapply list_elem_of_lookup_2|done|done].
Qed.

Lemma select_picks nics pre lines p :
  interactive_nic_select nics pre lines = Ok (Some p) → ∃ n, n ∈ nics ∧ p = npf n ∧ nic_guid n ≠ [].
Proof.
  unfold interactive_nic_select. destruct nics as [|n0 nics0] eqn:Hl; [done|]. rewrite <- Hl. clear Hl n0 nics0. intros [= Hf].
  assert (∀ dflt ls r, fold_left (λ r line, match r with Some x => Some x | None => choose (nic_order nics) dflt line end) ls r
    = Some p → r = Some p ∨ ∃ line, choose (nic_order nics) dflt line = Some p) as Hfold.
  { intros dflt ls. induction ls as [|l ls IH]; intros r; cbn [fold_left]; [by left|]. intros [Hr|?]%IH; [|by right].
    destruct r; [by left|]. right. by exists l. }
  apply Hfold in Hf as [?|(line & Hc)]; [done|]. apply choose_picks in Hc as (n & Hn & -> & Hg).
  exists n. split_and!; [|done|done]. unfold nic_order in Hn. by rewrite sort_by_Permutation in Hn.
Qed.

Lemma ask_picks nics pre ty p : ask_nic nics pre ty = Ok (Picked p) → ∃ l n, nics = Ok l ∧ n ∈ l ∧ p = npf n.
Proof.
  unfold ask_nic. intros (l & Hl & (r & Hr & Ho)%pyres_bind_Ok)%pyres_bind_Ok.
  destruct r as [p'|]; [|by destruct (ty_interrupt ty)]. injection Ho as ->.
  apply select_picks in Hr as (n & Hn & -> & _). by exists l, n.
Qed.

Lemma val_ok_set k v d : val_ok (VDict d) → val_ok v → val_ok (VDict (dict_set k v d)).
Proof.
  rewrite !val_ok_dict. intros [Hnd Hd] Hv. split; [by apply dict_set_NoDup|].
  clear Hnd. induction Hd as [|[k' v'] d Hk Hd IH]; cbn; [by repeat constructor|].
  case_decide; by constructor.
Qed.

Lemma with_nic_val_ok p data v : with_nic p data = Ok v → val_ok data → val_ok v.
Proof.
  unfold with_nic. intros (d & Hd & (net & Hn & [= <-])%pyres_bind_Ok)%pyres_bind_Ok Hok.
  destruct data; try done. injection Hd as ->. apply val_ok_set; [done|].
  assert (val_ok (VDict net)) as Hnet; [|by apply val_ok_set].
  assert (val_ok (VDict [])) as Hnil by (split; [constructor|done]).
  unfold py_or in Hn. destruct (dict_get (u "network") d) as [w|] eqn:Hw; cbn in Hn; [|by injection Hn as <-].
  destruct (truthy w); [|by injection Hn as <-]. destruct w; try done. injection Hn as ->.
  apply dict_get_Some_in in Hw. apply val_ok_dict in Hok as [_ Hok].
  exact (proj1 (Forall_forall _ _) Hok _ Hw).
Qed.

(** Only the adapter changes. *)
Lemma with_nic_get p data v :
  with_nic p data = Ok v →
  node_get v [u "network"; u "nic"] (VStr []) = VStr p ∧
  ∀ path d, elsewhere path → node_get v path d = node_get data path d.
Proof.
  unfold with_nic. intros (d & Hd & (net & Hn & [= <-])%pyres_bind_Ok)%pyres_bind_Ok.
  destruct data; try done. injection Hd as ->. split.
  - cbn [node_get]. rewrite dict_get_set_eq. cbn [node_get]. by rewrite dict_get_set_eq.
  - intros [|k rest] dflt He; [done|]. cbn [node_get elsewhere] in *. rewrite dict_get_set.
    case_decide as Hk; [|done]. subst k. specialize (He eq_refl). destruct rest as [|k' rest]; [done|].
    cbn [node_get]. rewrite dict_get_set_ne by done. unfold py_or in Hn.
    destruct (dict_get (u "network") d) as [w|]; cbn in Hn; [|by injection Hn as <-].
    destruct (truthy w) eqn:Hw; [destruct w; try done; by injection Hn as ->|]. injection Hn as <-. cbn [dict_get].
    destruct w as [| | | | |[|]]; done.
Qed.

(** [C22] The server starts with an adapter and otherwise with what the file
    says: whenever [main] reaches the event loop, the configuration names a
    non-blank adapter, the one of the file unless the user was asked and then
    one the system reported; every other setting is the file's (or the seeded
    template's); and reading the file again gives the same configuration.  With
    an adapter in the file and no [--select-nic] nothing is written at all. *)
Theorem main_only_sets_nic (a : args) (h : host) lg c lg' :
  (∀ t v, seeded a h = Some t → loads t = Ok v → val_ok v) → main a h lg = Runs c lg' →
  ∃ t v current, seeded a h = Some t ∧ loads t = Ok v ∧
    let data := py_or v (VDict []) in
    current_nic data = Ok current ∧
    (∃ nic, current_nic (c_data c) = Ok nic ∧ nic ≠ []) ∧
    (∀ path d, elsewhere path → node_get (c_data c) path d = node_get data path d) ∧
    loaded c ∧
    if a_select_nic a || bool_decide (current = [])
    then ∃ l n, ho_nics h = Ok l ∧ n ∈ l ∧ node_get (c_data c) [u "network"; u "nic"] (VStr []) = VStr (npf n)
    else c_data c = data ∧ c_file c = Some t.
Proof.
  intros Hwf. unfold main. destruct (negb _); [done|]. destruct (a_list_nics a).
  { by destruct (ask_nic _ _ _) as [[]|]. }
  destruct (negb _); [done|]. unfold config_init, config_reload. cbn [fst c_file].
  destruct (seeded a h) as [t|] eqn:Hseed; [|done]. destruct (loads t) as [v|e] eqn:Hload; [|done].
  cbn [fire c_subscribers fold_left fst snd]. destruct (setup_logging _ _ _) as [[[]|e] lg1]; [|done].
  unfold select_nic. cbn [c_data]. destruct (current_nic (py_or v (VDict []))) as [current|] eqn:Hcur; [|done].
  intros Hrun. exists t, v, current. split; [done|]. split; [done|]. cbv zeta. split; [done|].
  destruct (a_select_nic a || bool_decide (current = [])) eqn:Hask.
  - destruct (ask_nic _ _ _) as [[p| |]|] eqn:Hp; try done. apply ask_picks in Hp as (l & n & Hl & Hn & ->).
    destruct (with_nic _ _) as [v'|] eqn:Hv'; [|done]. unfold config_save in Hrun. destruct (ho_save_ok h); [|done].
    injection Hrun as <- _. cbn [c_data c_file fire c_subscribers fold_left fst]. destruct (with_nic_get _ _ _ Hv') as [Hnic Hother].
    assert (val_ok v') as Hok.
    { eapply with_nic_val_ok; [exact Hv'|]. unfold py_or. destruct (truthy v); [by eapply (Hwf t)|]. split; [constructor|done]. }
    split_and!; [|done| |by exists l, n].
    + unfold current_nic. rewrite Hnic. cbn [py_or truthy npf app]. eexists. split; [reflexivity|].
      by apply strip_ws_nonblank.
    + unfold loaded. cbn [c_file c_data]. rewrite loads_dumps by done. unfold with_nic in Hv'.
      apply pyres_bind_Ok in Hv' as (d & _ & (net & _ & [= <-])%pyres_bind_Ok). unfold py_or. cbn [truthy].
      destruct (dict_set (u "network") _ d) eqn:Hd; [|done]. pose proof (dict_get_set_eq (u "network") (VDict (dict_set (u "nic") (VStr (npf n)) net)) d) as Hg.
      by rewrite Hd in Hg.
  - injection Hrun as <- _. apply orb_false_iff in Hask as [_ Hne]. apply bool_decide_eq_false_1 in Hne. cbn [c_data c_file].
    split_and!; [by exists current|done| |done|done]. unfold loaded. cbn. by rewrite Hload.
Qed.
End main.

(** A first run: the template has no adapter, the user is asked. *)
Lemma main_only_sets_nic_witness :
  let files path := if decide (path = u "C:\tmp\_MEI1\config.yaml")
                    then Some (VDict [(u "tftp", VDict [(u "listen_port", VInt 69)])]) else None in
  let h := @mkHost plain_codec true (Ok 1) true (u "C:\app\nishro.exe") [] (Some (u "C:\tmp\_MEI1")) files true
             demo_nics (mkTyped [u "x"; u "0"] false) None true in
  let a := mkArgs (u "config.yaml") false false in
  ∃ c lg', main (H0 := lexical_paths) (H1 := tree_parts) a h demo_logging = Runs c lg' ∧
    node_get (c_data c) [u "tftp"; u "listen_port"] VNone = VInt 69 ∧
    ∃ nic, current_nic (c_data c) = Ok nic ∧ nic ≠ [].
Proof.
  intros files h a. pose (r := main (H0 := lexical_paths) (H1 := tree_parts) a h demo_logging).
  assert (∃ c lg', r = Runs c lg') as (c & lg' & Hr) by (do 2 eexists; vm_compute; reflexivity).
  exists c, lg'. split; [exact Hr|].
  assert (seeded (H0 := lexical_paths) (H1 := tree_parts) a h = Some (VDict [(u "tftp", VDict [(u "listen_port", VInt 69)])]))
    as Hseed by (vm_compute; reflexivity).
  destruct (@main_only_sets_nic plain_codec lexical_paths tree_parts a h demo_logging c lg')
    as (t & v & cur & Hs & Hl & _ & Hnic & Hget & _); [|exact Hr|].
  - intros t v Hs Hl. rewrite Hseed in Hs. injection Hs as <-.
    injection Hl as <-. by repeat constructor; try apply not_elem_of_nil.
  - split; [|exact Hnic]. rewrite Hseed in Hs. injection Hs as <-.
    injection Hl as <-. rewrite Hget; [vm_compute; reflexivity|].
    intros Hk. by apply (f_equal (λ s : list Z, nth 0 s 0)) in Hk.
Defined.
