(* ===== verification/WebSocket.v ===== *)
(** * The live stream of the web panel ([ws_stream] of src/web/app.py)

    After a first message with everything, each tick sends only what changed.
    The browser keeps what it was sent.  The statistics, the rows of sessions
    and of the history are values of any type. *)

From S2P Require Import Prelude Python Collections Constants Logger Settings.
Open Scope Z_scope.

(** [a != b] of two dictionaries of texts. *)
Definition dict_eqb (a b : list (str * str)) : bool :=
  (length a =? length b)%nat && forallb (λ kv, bool_decide (dict_get kv.1 b = Some kv.2)) a.

Lemma dict_eqb_get a b k :
  NoDup (dict_keys a) → NoDup (dict_keys b) → dict_eqb a b = true → dict_get k a = dict_get k b.
Proof.
  unfold dict_eqb. intros Ha Hb [Hl Hall]%andb_true_iff. apply Nat.eqb_eq in Hl.
  rewrite forallb_forall in Hall.
  assert (∀ k v, (k, v) ∈ a → dict_get k b = Some v) as Hab.
  { intros k' v Hin. specialize (Hall (k', v) (proj1 (list_elem_of_In _ _) Hin)). by apply bool_decide_eq_true_1 in Hall. }
  destruct (dict_get k a) as [v|] eqn:Hg; [symmetry; by apply Hab, dict_get_Some_in|].
  symmetry. apply dict_get_None. apply dict_get_None in Hg. intros Hk. apply Hg.
  assert (dict_keys a ⊆+ dict_keys b) as Hsub.
  { apply NoDup_submseteq; [done|]. intros x ([x' v] & -> & Hin)%list_elem_of_fmap.
    by apply Hab, dict_get_Some_key in Hin. }
  apply submseteq_length_Permutation in Hsub; [by rewrite Hsub|]. unfold dict_keys. rewrite !length_map. lia.
Qed.

Section stream.
Context {Sess Hist Stat : Type}.

(** What the server could show at a moment. *)
Record view := mkView {
  v_stats : Stat; v_sessions : list Sess; v_history : list Hist;
  v_users : list (list Z * list Z); v_ui : ui_settings;
}.

(** A message: the first one carries every field. *)
Record message := mkMessage {
  m_stats : Stat; m_logs : list entry; m_sessions : option (list Sess); m_history : option (list Hist);
  m_users : option (list (list Z * list Z)); m_ui : option ui_settings;
}.

(** What the coroutine remembers, and its log queue. *)
Record stream := mkStream {
  s_history_len : nat; s_users : list (list Z * list Z); s_sessions_empty : bool; s_ui : ui_settings;
  s_queue : list entry;
}.

(** [on_log] and the callback it schedules; a full queue loses the line. *)
Definition ws_log (e : entry) (s : stream) : stream :=
  if (length (s_queue s) <? WEB_WS_LOG_QUEUE)%nat
  then mkStream (s_history_len s) (s_users s) (s_sessions_empty s) (s_ui s) (s_queue s ++ [e])
  else s.

(** The first message. *)
Definition ws_init (ring : list entry) (v : view) : message * stream :=
  (mkMessage (v_stats v) (py_slice ring (- WEB_WS_INIT_LOG_COUNT) (zlen ring))
     (Some (v_sessions v)) (Some (v_history v)) (Some (v_users v)) (Some (v_ui v)),
   mkStream (length (v_history v)) (v_users v) false (v_ui v) []).

(** A tick. *)
Definition ws_tick (v : view) (s : stream) : message * stream :=
  let batch := take WEB_WS_LOGS_PER_TICK (s_queue s) in
  let '(sessions, empty) :=
    match v_sessions v with
    | _ :: _ => (Some (v_sessions v), false)
    | [] => if s_sessions_empty s then (None, true) else (Some [], true)
    end in
  let '(history, len) :=
    if (length (v_history v) =? s_history_len s)%nat then (None, s_history_len s)
    else (Some (v_history v), length (v_history v)) in
  let '(users, snapshot) := if dict_eqb (v_users v) (s_users s) then (None, s_users s) else (Some (v_users v), v_users v) in
  let '(ui, prev_ui) := if decide (v_ui v = s_ui s) then (None, s_ui s) else (Some (v_ui v), v_ui v) in
  (mkMessage (v_stats v) batch sessions history users ui,
   mkStream len snapshot empty prev_ui (drop WEB_WS_LOGS_PER_TICK (s_queue s))).

(** ** The browser *)

Record client := mkClient {
  c_stats : Stat; c_logs : list entry; c_sessions : list Sess; c_history : list Hist;
  c_users : list (list Z * list Z); c_ui : ui_settings;
}.

Definition receive (m : message) (c : client) : client :=
  mkClient (m_stats m) (c_logs c ++ m_logs m) (default (c_sessions c) (m_sessions m))
    (default (c_history c) (m_history m)) (default (c_users c) (m_users m)) (default (c_ui c) (m_ui m)).

(** The page after the first message. *)
Definition connect (ring : list entry) (v : view) : client * stream :=
  let '(m, s) := ws_init ring v in
  (mkClient (v_stats v) (m_logs m) (v_sessions v) (v_history v) (v_users v) (v_ui v), s).

Inductive ws_event :=
| WLog (e : entry)
| WTick (v : view).

Definition ws_step (st : client * stream) (ev : ws_event) : client * stream :=
  match ev with
  | WLog e => (st.1, ws_log e st.2)
  | WTick v => let '(m, s) := ws_tick v st.2 in (receive m st.1, s)
  end.

Definition logged (evs : list ws_event) : list entry :=
  omap (λ ev, match ev with WLog e => Some e | WTick _ => None end) evs.

(** What page and coroutine agree on. *)
Record agree (c : client) (s : stream) : Prop := {
  ag_sessions : s_sessions_empty s = true → c_sessions c = [];
  ag_users : c_users c = s_users s;
  ag_nodup : NoDup (dict_keys (s_users s));
  ag_ui : c_ui c = s_ui s;
}.

Definition view_ok (v : view) : Prop := NoDup (dict_keys (v_users v)).

Definition same_users (a b : list (str * str)) : Prop := ∀ k, dict_get k a = dict_get k b.

(** The page shows the view. *)
Definition shows (c : client) (v : view) : Prop :=
  c_stats c = v_stats v ∧ c_sessions c = v_sessions v ∧ same_users (c_users c) (v_users v) ∧ c_ui c = v_ui v.

Lemma tick_agree v c s :
  view_ok v → agree c s →
  agree (receive (ws_tick v s).1 c) (ws_tick v s).2 ∧ shows (receive (ws_tick v s).1 c) v.
Proof.
  intros Hv [H1 H2 H3 H4]. unfold ws_tick.
  assert (∃ sess emp, (match v_sessions v with
    | _ :: _ => (Some (v_sessions v), false)
    | [] => if s_sessions_empty s then (None, true) else (Some [], true) end) = (sess, emp) ∧
    default (c_sessions c) sess = v_sessions v ∧ (emp = true → v_sessions v = [])) as (sess & emp & -> & Hs & He).
  { destruct (v_sessions v) as [|x l]; [|by do 2 eexists].
    destruct (s_sessions_empty s); do 2 eexists; split; try reflexivity; cbn; split; auto. }
  destruct (if (length (v_history v) =? s_history_len s)%nat then _ else _) as [hist len].
  assert (∃ us snap, (if dict_eqb (v_users v) (s_users s) then (None, s_users s) else (Some (v_users v), v_users v)) = (us, snap) ∧
    default (c_users c) us = snap ∧ same_users snap (v_users v) ∧ NoDup (dict_keys snap)) as (us & snap & -> & Hu & Hsame & Hn).
  { destruct (dict_eqb (v_users v) (s_users s)) eqn:Heq; do 2 eexists; (split; [reflexivity|]); [|by split_and!].
    split_and!; [done| |done]. intros k. symmetry. by apply dict_eqb_get. }
  assert (∃ ui prev, (if decide (v_ui v = s_ui s) then (None, s_ui s) else (Some (v_ui v), v_ui v)) = (ui, prev) ∧
    default (c_ui c) ui = prev ∧ prev = v_ui v) as (ui & prev & -> & Hui & Hp).
  { case_decide; do 2 eexists; (split; [reflexivity|]); cbn; [split; congruence|done]. }
  split.
  - split; cbn [receive fst snd c_sessions c_users c_ui s_sessions_empty s_users s_ui m_sessions m_users m_ui]; try done.
    intros Ht. rewrite Hs. auto.
  - split_and!; cbn [receive fst snd c_stats c_sessions c_users c_ui m_stats m_sessions m_users m_ui]; try done.
    + by rewrite Hu.
    + by rewrite Hui.
Qed.

Lemma step_agree st ev :
  match ev with WTick v => view_ok v | _ => True end → agree st.1 st.2 → agree (ws_step st ev).1 (ws_step st ev).2.
Proof.
  intros Hv Ha. destruct st as [c s], ev as [e|v]; cbn [ws_step fst snd] in *.
  - unfold ws_log. case_goal; [|done]. by destruct Ha.
  - destruct (tick_agree v c s Hv Ha) as [Hb _]. by destruct (ws_tick v s).
Qed.

(** [C38] The page is never stale: after the connection and any sequence of log
    lines and ticks, the tick that reports a view leaves the browser showing
    exactly the statistics, the running sessions, the employee names and the
    settings of that view, although unchanged parts are not sent again. *)
Theorem ws_view_exact ring v0 evs v :
  view_ok v0 → Forall (λ ev, match ev with WTick v => view_ok v | _ => True end) evs → view_ok v →
  shows (fold_left ws_step (evs ++ [WTick v]) (connect ring v0)).1 v.
Proof.
  intros H0 He Hv.
  assert (agree (connect ring v0).1 (connect ring v0).2) as Ha by (by split).
  rewrite fold_left_app. cbn [fold_left]. revert Ha. generalize (connect ring v0).
  induction He as [|ev evs Hev _ IH]; intros st Ha; cbn [fold_left].
  - destruct st as [c s]. cbn [ws_step fst snd] in *. destruct (tick_agree v c s Hv Ha) as [_ Hs].
    by destruct (ws_tick v s).
  - apply IH. by apply step_agree.
Qed.

(** The number of lines waiting never exceeds the limit of the queue. *)
Fixpoint no_overflow (evs : list ws_event) (st : client * stream) : Prop :=
  match evs with
  | [] => True
  | ev :: evs' =>
      (match ev with WLog _ => (length (s_queue st.2) < WEB_WS_LOG_QUEUE)%nat | WTick _ => True end) ∧
      no_overflow evs' (ws_step st ev)
  end.

(** No log line is lost or repeated: while at most 500 lines wait between
    ticks, what the page has received followed by what waits for it is the
    tail of the ring it was seeded with followed by every line logged since,
    in order. *)
Theorem ws_logs_exact ring v0 evs :
  no_overflow evs (connect ring v0) →
  let '(c, s) := fold_left ws_step evs (connect ring v0) in
  c_logs c ++ s_queue s = py_slice ring (-200) (zlen ring) ++ logged evs.
Proof.
  assert (c_logs (connect ring v0).1 ++ s_queue (connect ring v0).2 = py_slice ring (-200) (zlen ring)) as Hi.
  { cbn. by rewrite app_nil_r. }
  revert Hi. generalize (connect ring v0) (py_slice ring (-200) (zlen ring)).
  induction evs as [|ev evs IH]; intros [c s] l Hi; cbn [no_overflow fold_left].
  - intros _. cbn in *. by rewrite app_nil_r.
  - intros [Hq Hno]. destruct ev as [e|v]; cbn [ws_step fst snd] in *.
    + unfold ws_log in *. rewrite (proj2 (Nat.ltb_lt _ _) Hq) in *.
      match type of Hno with no_overflow _ ?st => specialize (IH st (l ++ [e])) end.
      destruct (fold_left ws_step evs _) as [c' s']. rewrite IH; [|cbn; by rewrite app_assoc, Hi|done].
      cbn. by rewrite <- app_assoc.
    + destruct (ws_tick v s) as [m s1] eqn:Ht.
      assert (m_logs m = take WEB_WS_LOGS_PER_TICK (s_queue s) ∧ s_queue s1 = drop WEB_WS_LOGS_PER_TICK (s_queue s)) as [Hm Hd].
      { unfold ws_tick in Ht. repeat case_match; by simplify_eq/=. }
      specialize (IH (receive m c, s1) l).
      destruct (fold_left ws_step evs (receive m c, s1)) as [c' s']. apply IH; [|done].
      cbn [fst snd receive c_logs]. by rewrite Hm, Hd, <- app_assoc, take_drop.
Qed.

(** The history is only sent when its length changes: once it holds its 100
    rows a new row does not reach an open page. *)
Lemma ws_history_freezes v s c :
  length (v_history v) = s_history_len s → c_history (receive (ws_tick v s).1 c) = c_history c.
Proof. intros Hl. unfold ws_tick. rewrite Hl, Nat.eqb_refl. by repeat case_match. Qed.
End stream.
Arguments view : clear implicits.
Arguments ws_event : clear implicits.

Definition demo_view (sessions : list Z) (users : list (str * str)) : view Z Z Z :=
  mkView 0 sessions [] users (ui_of (VDict []) true).

Lemma ws_view_exact_witness :
  let st := fold_left ws_step
              ([WTick (demo_view [] [])] ++ [WTick (demo_view [] [(u "7", u "Ann")])])
              (connect [] (demo_view [5] [])) in
  c_sessions st.1 = [] ∧ same_users (c_users st.1) [(u "7", u "Ann")].
Proof.
  destruct (ws_view_exact [] (demo_view [5] []) [WTick (demo_view [] [])] (demo_view [] [(u "7", u "Ann")]))
    as (_ & Hs & Hu & _).
  - constructor.
  - repeat constructor.
  - apply NoDup_singleton.
  - split; [exact Hs|exact Hu].
Defined.

Lemma ws_logs_exact_witness :
  let e n := mkEntry n [] [] [] in
  let st := fold_left ws_step [WLog (e 2); WTick (demo_view [] []); WLog (e 3)] (connect [e 1] (demo_view [] [])) in
  c_logs st.1 ++ s_queue st.2 = [e 1; e 2; e 3].
Proof.
  intros e st.
  pose proof (ws_logs_exact [e 1] (demo_view [] []) [WLog (e 2); WTick (demo_view [] []); WLog (e 3)]) as Hl.
  fold st in Hl. destruct st as [c s]. apply Hl. cbn [no_overflow]. split_and!; try exact I; apply Nat.ltb_lt; vm_compute; reflexivity.
Defined.
