(* ===== verification/WebViews.v ===== *)
(** * Read-only views of the web panel (src/web/app.py)

    Folder listings, the list of adapters, the process statistics with their
    cache, and the small endpoints around the stores of the other files.  The
    file system, psutil, the adapter list of the capture library and the
    clock (in milliseconds) are arguments. *)

From S2P Require Import Prelude Python Collections Constants Wire Stats Cache Paths WebFiles Users Calendar Daily.
From stdpp Require Import sorting.
Open Scope Z_scope.

(** ** Folder listings *)

Record dir_entry := mkDirEntry {
  de_name : list Z; de_is_dir : bool; de_size : option Z; de_mtime : option Z;
}.

(** The sort key [(not is_dir, name.lower())]: folders first. *)
Definition entry_le (a b : dir_entry) : bool :=
  if Bool.eqb (de_is_dir a) (de_is_dir b) then str_leb (lower (de_name a)) (lower (de_name b)) else de_is_dir a.

(** A name with what [os.stat] says about it: folder, size and time, or an
    [OSError]. *)
Definition stat_entry (x : str * option (bool * Z * Z)) : dir_entry :=
  match x.2 with
  | Some (is_dir, size, mtime) => mkDirEntry x.1 is_dir (if is_dir then None else Some size) (Some mtime)
  | None => mkDirEntry x.1 false None None
  end.

(** [_browse_dir]; the listing is [os.listdir] with the stat of each name, or
    the exception it raises. *)
Definition browse_dir `{OsPathParts} (isdir : str → bool) (listing : str → pyres (list (str * option (bool * Z * Z))))
    (root sub_path : str) : str + (str * list dir_entry) :=
  let base := os_abspath root in
  let target := os_abspath (os_join base sub_path) in
  if negb (browse_ok root sub_path) then inl (u "invalid path")
  else if negb (isdir target) then inl (u "not a directory")
  else match listing target with
       | Raise e => inl (exc_str e)
       | Ok names =>
           inr (replace_chr BACKSLASH SLASH (default [] (os_relpath target base)),
                sort_by entry_le (map stat_entry names))
       end.

Lemma entry_le_total a b : entry_le a b = true ∨ entry_le b a = true.
Proof.
  unfold entry_le. destruct (de_is_dir a), (de_is_dir b); cbn [Bool.eqb]; auto using str_leb_total.
Qed.

(** A listing shows every name once and folders before files. *)
Lemma browse_dir_sorted `{OsPathParts} isdir listing root sub path entries names :
  listing (os_abspath (os_join (os_abspath root) sub)) = Ok names →
  browse_dir isdir listing root sub = inr (path, entries) →
  Sorted (λ a b, entry_le a b = true) entries ∧ map de_name entries ≡ₚ map fst names.
Proof.
  intros Hl. unfold browse_dir. rewrite Hl. case_goal; [done|]. case_goal; [done|]. intros [= <- <-].
  split; [apply sort_by_Sorted, entry_le_total|]. rewrite sort_by_Permutation, map_map.
  apply reflexive_eq, map_ext. intros [n [[[] ?]|]]; done.
Qed.

(** The entries of [api_browse_ftp]: the last segment of each path, without the
    two special folders. *)
Definition ftp_entries (l : list (str * bool * Z)) : list dir_entry :=
  sort_by entry_le
    (omap (λ e, let '(path, is_dir, size) := e in
                let name := default [] (last (split_on SLASH path)) in
                if bool_decide (name ∈ [u "."; u ".."]) then None
                else Some (mkDirEntry name is_dir (if is_dir then None else Some size) None)) l).

(** The name of a download: the last segment, or "download.bin". *)
Definition download_name (name : str) : str :=
  match default [] (last (split_on SLASH (replace_chr BACKSLASH SLASH name))) with [] => u "download.bin" | s => s end.

(** ** Adapters *)

(** An adapter of the capture library, and what psutil knows by MAC: the
    Windows name, link state, speed and MTU. *)
Record scapy_nic := mkScapyNic {
  sn_guid : list Z; sn_name : list Z; sn_desc : list Z; sn_mac : list Z; sn_ips : list (list Z); sn_index : Z;
}.

Record nic_row := mkNicRow {
  nr_npf : list Z; nr_guid : list Z; nr_name : list Z; nr_friendly : list Z; nr_desc : list Z; nr_mac : list Z;
  nr_ips : list (list Z); nr_up : bool; nr_speed : Z; nr_mtu : Z; nr_index : Z;
}.

Definition norm_mac (m : str) : str := replace_chr 45 58 (lower m).

(** The first link-level address of an interface, if it has one. *)
Definition link_mac (addrs : list (bool * str)) : str :=
  match List.find (λ a, a.1 && negb (bool_decide (norm_mac a.2 = []))) addrs with
  | Some a => norm_mac a.2
  | None => []
  end.

(** [psu_by_mac]: a later interface with the same MAC replaces an earlier
    one. *)
Definition psu_by_mac (ifaces : list (str * list (bool * str))) (stats : list (str * (bool * Z * Z)))
  : list (str * (str * bool * Z * Z)) :=
  fold_left (λ d i,
    match link_mac i.2 with
    | [] => d
    | mac => let '(up, speed, mtu) := default (false, 0, 0) (dict_get i.1 stats) in dict_set mac (i.1, up, speed, mtu) d
    end) ifaces [].

Definition first_of (a b c : str) : str := match a, b with _ :: _, _ => a | [], _ :: _ => b | [], [] => c end.

Definition nic_row_of (psu : list (str * (str * bool * Z * Z))) (n : scapy_nic) : option nic_row :=
  match sn_guid n with
  | [] => None
  | guid =>
      let mac := norm_mac (sn_mac n) in
      let '(friendly, up, speed, mtu) := default ([], false, 0, 0) (dict_get mac psu) in
      let low := lower (sn_desc n) in
      if contains (u "loopback") low || contains (u "pseudo-") low then None
      else Some (mkNicRow (u "\Device\NPF_" ++ guid) guid (sn_name n) (first_of friendly (sn_desc n) (sn_name n))
                   (sn_desc n) mac (sn_ips n) up speed mtu (sn_index n))
  end.

(** The sort key [(not isup, not ips, win_index)]. *)
Definition nic_le (a b : nic_row) : bool :=
  let has r := match nr_ips r with [] => false | _ => true end in
  if negb (Bool.eqb (nr_up a) (nr_up b)) then nr_up a
  else if negb (Bool.eqb (has a) (has b)) then has a
  else nr_index a <=? nr_index b.

(** [api_nics]. *)
Definition api_nics (psu : list (str * (str * bool * Z * Z))) (nics : list scapy_nic) : list nic_row :=
  sort_by nic_le (omap (nic_row_of psu) nics).

Lemma nic_le_total a b : nic_le a b = true ∨ nic_le b a = true.
Proof.
  unfold nic_le. destruct (nr_up a), (nr_up b); cbn; auto; destruct (nr_ips a), (nr_ips b); cbn; auto;
    rewrite !Z.leb_le; lia.
Qed.

(** Every adapter on offer can be opened - it has a GUID and is the device of
    that GUID - and those that are up come first. *)
Lemma api_nics_usable psu nics :
  Forall (λ r, nr_guid r ≠ [] ∧ nr_npf r = u "\Device\NPF_" ++ nr_guid r) (api_nics psu nics) ∧
  Sorted (λ a b, nic_le a b = true) (api_nics psu nics).
Proof.
  split; [|apply sort_by_Sorted, nic_le_total]. apply Forall_forall. intros r Hr.
  apply elem_of_sort_by, list_elem_of_omap in Hr as (n & _ & Hn). unfold nic_row_of in Hn.
  destruct (sn_guid n) as [|c g] eqn:Hg; [done|].
  destruct (default _ _) as [[[friendly up] speed] mtu]. by case_hyp Hn; simplify_eq.
Qed.

(** ** Process statistics *)

Definition PROC_INTERVAL_MS : Z := 2000.

(** What psutil reports: memory, the CPU shares (in hundredths) and the number
    of cores. *)
Record proc_sample := mkSample { ps_rss : Z; ps_cpu : Z; ps_sys : Z; ps_cores : Z }.

(** The child: its share and memory; [NoProcess] when it is gone or may not be
    looked at, [OtherFailure] for any other exception. *)
Inductive child_sample := ChildSample (cpu rss : Z) | NoProcess | OtherFailure.

Record proc_state := mkProc {
  pc_primed : bool; pc_cache : proc_sample; pc_ts : Z;
  pc_child : option Z; pc_child_primed : bool;
}.

Definition proc_init : proc_state := mkProc false (mkSample 0 0 0 1) 0 None false.

Definition set_child (pid : option Z) (primed : bool) (p : proc_state) : proc_state :=
  mkProc (pc_primed p) (pc_cache p) (pc_ts p) pid primed.

(** [_child_cpu_mem]: a new process is primed first and has no share yet. *)
Definition child_cpu_mem (pid : option Z) (reply : child_sample) (p : proc_state) : (Z * Z) * proc_state :=
  match pid with
  | None => ((0, 0), set_child None false p)
  | Some pid =>
      if pid =? 0 then ((0, 0), set_child None false p)
      else
        let same := bool_decide (pc_child p = Some pid) in
        let primed := same && pc_child_primed p in
        match reply with
        | NoProcess => ((0, 0), set_child None false p)
        | OtherFailure => ((0, 0), set_child (Some pid) primed p)
        | ChildSample cpu rss => ((if primed then cpu else 0, rss), set_child (Some pid) true p)
        end
  end.

Definition set_sample (primed : bool) (c : proc_sample) (now : Z) (p : proc_state) : proc_state :=
  mkProc primed c now (pc_child p) (pc_child_primed p).

(** [_proc_stats]; [None] is an exception of psutil. *)
Definition proc_stats (now : Z) (pid : option Z) (reply : option proc_sample) (child : child_sample) (p : proc_state)
  : proc_sample * proc_state :=
  if pc_primed p && (now - pc_ts p <? PROC_INTERVAL_MS) then (pc_cache p, p)
  else match reply with
       | None => let c := mkSample 0 0 0 1 in (c, set_sample (pc_primed p) c now p)
       | Some s =>
           let '((ccpu, crss), p1) := child_cpu_mem pid child p in
           let cores := if ps_cores s =? 0 then 1 else ps_cores s in
           if negb (pc_primed p) then
             let c := mkSample (ps_rss s + crss) (ps_cpu (pc_cache p)) (ps_sys (pc_cache p)) cores in
             (c, set_sample true c now p1)
           else
             let c := mkSample (ps_rss s + crss) (ps_cpu s + ccpu) (ps_sys s) cores in
             (c, set_sample true c now p1)
       end.

(** The statistics shown are the cached ones, at most one psutil sample is
    taken in two seconds, and there is at least one core to divide by. *)
Lemma proc_stats_cached now pid reply child p :
  1 ≤ ps_cores (pc_cache p) → (∀ s, reply = Some s → 0 ≤ ps_cores s) →
  let '(c, p') := proc_stats now pid reply child p in
  c = pc_cache p' ∧ 1 ≤ ps_cores c ∧
  (pc_primed p' = true → ∀ now' pid' reply' child', now ≤ now' < pc_ts p' + PROC_INTERVAL_MS →
     proc_stats now' pid' reply' child' p' = (c, p')).
Proof.
  intros Hc Hr. assert (∀ p', pc_primed p' = true → ∀ now' pid' reply' child',
    now ≤ now' < pc_ts p' + PROC_INTERVAL_MS → proc_stats now' pid' reply' child' p' = (pc_cache p', p')) as Hcache.
  { intros p' Hp now' pid' reply' child' Hn. unfold proc_stats. rewrite Hp, (proj2 (Z.ltb_lt _ _)) by lia. done. }
  unfold proc_stats at 1.
  destruct (pc_primed p && (now - pc_ts p <? PROC_INTERVAL_MS)); [by split_and!; auto|].
  destruct reply as [s|]; [|split_and!; auto; done].
  specialize (Hr s eq_refl). destruct (child_cpu_mem pid child p) as [[ccpu crss] p1].
  assert (1 ≤ if ps_cores s =? 0 then 1 else ps_cores s) by (destruct (Z.eqb_spec (ps_cores s) 0); lia).
  destruct (negb (pc_primed p)); split_and!; auto.
Qed.

(** ** Endpoints around the stores *)

Section stores.
Context `{Codec}.

(** The middleware [_track_visitors]. *)
Definition track_visitor (path host : str) (today : date) (now : Z) (ok : bool) (s : daily) : daily :=
  if starts_with (u "/static/") path || bool_decide (path = u "/ws") then s
  else daily_visitor host today today now ok s.

(** [GET /api/sessions/daily]. *)
Definition api_sessions_daily (days : Z) (today : date) (s : daily) :=
  (recent (Z.max 1 (Z.min days 180)) today s, today_row today s, user_counts today s, reach_counts today s).

(** The chart always covers the asked number of days, at least one and at most
    180, the last one being today. *)
Lemma api_sessions_daily_days days today s :
  let rows := (api_sessions_daily days today s).1.1.1 in
  zlen rows = Z.max 1 (Z.min days 180) ∧ last (map (λ r, r.1.1) rows) = Some (isoformat today).
Proof.
  unfold api_sessions_daily, recent. cbn [fst]. unfold RETAIN_DAYS.
  set (n := Z.to_nat _). assert (∃ k, n = S k) as [k Hk] by (exists (Nat.pred n); subst n; lia).
  split.
  - unfold zlen. rewrite length_map, length_rev, length_seq. subst n. lia.
  - rewrite Hk. cbn [seq rev]. rewrite map_map, map_app. cbn [map]. by rewrite last_snoc.
Qed.
End stores.

(** The derived values of [_stats_payload]: the hit rate as a fraction of the
    merged counts, and the status. *)
Definition cache_hit_rate (hits misses : Z) : Z * Z :=
  if hits + misses =? 0 then (0, 1) else (hits, hits + misses).

Definition server_status (nic_error : option str) : str :=
  match nic_error with Some (_ :: _) => u "degraded" | _ => u "ready" end.
