(* ===== verification/Dashboard.v ===== *)
(** * What the dashboard shows (src/tftp/server.py, src/web/app.py)

    The live session table over the running system, the statistics payload, and
    the endpoints of the panel that only look: listings, downloads, folders of
    the FTP server and the request to open a folder on the server. *)

From S2P Require Import Prelude Python Collections Constants Wire Options Stats Acl Frame FileLock Cache Paths.
From S2P Require Import Session SessionLife Locked Counted Termination Online Server System Source Config App Engine.
From S2P Require Import WebFiles Listings WebViews.
Open Scope Z_scope.

(** ** The live table *)

Section live.
Context `{OsPath} (inet_aton : list Z → pyres (list Z)) (float_ms : pyval → pyres Z).

(** [sess.info] of a task: as the constructor left it, or as the events so far
    have. *)
Definition run_info (r : run) : sess :=
  match r_state r with
  | Created => fresh_sess Counters_init (FileCache_init 0 0 false) ∅ []
  | Running E x0 evs => (safe_run E (s_config (r_sess r)) evs x0).2
  end.

(** A row of [active_sessions], less its time and speed columns. *)
Definition live_row (key : SessionKey) (r : run) : history_row :=
  let x := run_info r in
  mkRow (sc_id (s_config (r_sess r))) (s_kind (r_sess r)) (req_filename (sc_request (s_config (r_sess r)))) key
    (x_blksize x) (x_windowsize x) (x_transferred x) (x_total x) (x_state x) (x_fault x).

(** [progress] of a row. *)
Definition row_progress (row : history_row) : Z * Z := info_progress (h_transferred row) (h_total row).

(** [active_sessions]. *)
Definition active_rows (sy : system) : list history_row :=
  omap (λ k, live_row k <$> dict_get k (sy_runs sy)) (dict_keys (sv_sessions (sy_server sy))).

(** [GET /api/sessions] and [GET /api/sessions/history]. *)
Definition api_sessions (server : option system) : list history_row :=
  match server with Some sy => active_rows sy | None => [] end.
Definition api_sessions_history (server : option system) : list history_row :=
  match server with Some sy => sv_history (sy_server sy) | None => [] end.

Lemma active_rows_keys sy : sys_inv sy → map h_key (active_rows sy) = dict_keys (sv_sessions (sy_server sy)).
Proof.
  intros Hinv. unfold active_rows. pose proof (iv_sub _ (in_server _ Hinv)) as Hsub. cbn [fst snd] in Hsub. revert Hsub.
  generalize (dict_keys (sv_sessions (sy_server sy))). intros ks Hsub. induction ks as [|k ks IH]; [done|]. cbn [omap list_omap].
  assert (k ∈ dict_keys (sy_runs sy)) as Hk by (apply Hsub; by left).
  destruct (dict_get k (sy_runs sy)) as [r|] eqn:Hg; [|by apply dict_get_None in Hg].
  cbn. rewrite IH; [done|]. intros k' Hk'. apply Hsub. by right.
Qed.

Lemma dict_keys_del {A} (key : SessionKey) (d : list (SessionKey * A)) :
  NoDup (dict_keys d) → dict_keys (dict_del key d) = filter (λ k, k ≠ key) (dict_keys d).
Proof.
  induction d as [|[k v] d IH]; [done|]. change (dict_keys ((k, v) :: d)) with (k :: dict_keys d).
  intros [Hk Hnd]%NoDup_cons. cbn [dict_del]. case_decide as Hd; subst.
  - rewrite filter_cons_False by auto. symmetry. by apply filter_without.
  - rewrite filter_cons_True by done. change (dict_keys ((k, v) :: ?l)) with (k :: dict_keys l). by rewrite IH.
Qed.

(** The rows of other tables: the key is gone, or its row is new. *)
Lemma rows_without key (rs : list (SessionKey * run)) (ks : list SessionKey) :
  omap (λ k, live_row k <$> dict_get k (dict_del key rs)) (filter (λ k, k ≠ key) ks)
  = filter (λ row, h_key row ≠ key) (omap (λ k, live_row k <$> dict_get k rs) ks).
Proof.
  induction ks as [|k ks IH]; [done|]. rewrite filter_cons. destruct (decide (k ≠ key)) as [Hne|Heq]; cbn [omap list_omap].
  - rewrite dict_get_del_ne by done. destruct (dict_get k rs) as [r|]; cbn [fmap option_fmap option_map]; [|done].
    rewrite filter_cons_True by done. by rewrite IH.
  - rewrite IH. destruct (dict_get k rs) as [r|]; cbn [fmap option_fmap option_map]; [|done].
    by rewrite filter_cons_False by auto.
Qed.

Lemma rows_with key r (rs : list (SessionKey * run)) r0 (ks : list SessionKey) :
  dict_get key rs = Some r0 →
  omap (λ k, live_row k <$> dict_get k (dict_set key r rs)) ks
  = map (λ old, if decide (h_key old = key) then live_row key r else old) (omap (λ k, live_row k <$> dict_get k rs) ks).
Proof.
  intros Hg. induction ks as [|k ks IH]; [done|]. cbn [omap list_omap]. rewrite dict_get_set. case_decide as Hk.
  - subst k. rewrite Hg. cbn. rewrite decide_True by done. by rewrite IH.
  - destruct (dict_get k rs) as [r'|]; cbn; [|done]. rewrite decide_False by done. by rewrite IH.
Qed.

(** The row does not show what the others do. *)
Lemma live_row_others key ss ca oth st E x0 evs :
  live_row key (mkRun ss ca (Running (left_by oth E) (moved st x0) evs)) = live_row key (mkRun ss ca (Running E x0 evs)).
Proof.
  unfold live_row, run_info. cbn [r_state r_sess].
  destruct (blind_safe_run (left_by oth E) (s_config ss) _ evs x0 _ (on_stats_ahead st x0)) as [_ (st' & Hst & _)].
  fold (moved st x0) in Hst. rewrite Hst. destruct (safe_run_others oth E (s_config ss) evs x0) as [_ Hx].
  destruct (safe_run E (s_config ss) evs x0).2, (safe_run (left_by oth E) (s_config ss) evs x0).2.
  unfold but_locks in Hx. cbn in Hx. by injection Hx as -> -> -> -> -> -> -> -> -> ->.
Qed.

(** What the event did to the table and to the history. *)
Lemma advance_rows key r E x0 evs s rs s0 :
  dict_keys (sv_sessions s) = dict_keys (sv_sessions s0) → sv_history s = sv_history s0 →
  NoDup (dict_keys (sv_sessions s)) → NoDup (dict_keys rs) → dict_get key rs = Some r →
  let sy' := advance key r E x0 evs s rs in
  let row := live_row key (mkRun (r_sess r) (r_cancelled r) (Running E x0 evs)) in
  match dict_get key (sy_runs sy') with
  | Some _ => sv_history (sy_server sy') = sv_history s0 ∧
      active_rows sy' = map (λ old, if decide (h_key old = key) then row else old) (active_rows (mkSystem s0 rs))
  | None => sv_history (sy_server sy') = take 100 (row :: sv_history s0) ∧
      active_rows sy' = filter (λ old, h_key old ≠ key) (active_rows (mkSystem s0 rs))
  end.
Proof.
  intros Hk Hh Hnd Hndr Hg sy' row. subst sy' row. unfold advance, active_rows. cbn [sy_server sy_runs]. rewrite <- Hk, <- Hh.
  assert (∀ x, (safe_run E (s_config (r_sess r)) evs x0).2 = x →
    sv_history (on_complete key (r_sess r) x s)
    = take 100 (live_row key (mkRun (r_sess r) (r_cancelled r) (Running E x0 evs)) :: sv_history s) ∧
    omap (λ k, live_row k <$> dict_get k (dict_del key rs)) (dict_keys (sv_sessions (on_complete key (r_sess r) x s)))
    = filter (λ old, h_key old ≠ key) (omap (λ k, live_row k <$> dict_get k rs) (dict_keys (sv_sessions s)))) as Hend.
  { intros x Hx. split.
    - cbn [sv_history on_complete]. unfold live_row, run_info. cbn [r_state r_sess]. by rewrite Hx.
    - cbn [sv_sessions on_complete]. rewrite dict_keys_del by done. apply rows_without. }
  destruct (safe_run _ _ _ _) as [[o evs'] x] eqn:Hr.
  destruct o; cbn [sy_server sy_runs]; rewrite ?dict_get_del_eq, ?dict_get_set_eq by done; try exact (Hend x eq_refl).
  split; [done|]. by apply (rows_with key _ rs r).
Qed.

(** [C25] The dashboard follows the transfers: in every state the system can
    reach the live table has exactly one row per session of the table, in its
    order; an event of a session changes that session's row only, or, when the
    session ends with it, takes the row out of the live table and puts it, as
    the last event left it, at the head of the history of at most 100 rows. *)
Theorem live_rows_exact ip mac cfg a ls sy key ev sy' r E x0 evs :
  sys_run inet_aton float_ms ls (sys_init ip mac cfg a) sy → sys_step inet_aton float_ms (LEvent key ev) sy sy' →
  dict_get key (sy_runs sy) = Some r → r_state r = Running E x0 evs →
  map h_key (active_rows sy) = dict_keys (sv_sessions (sy_server sy)) ∧ NoDup (map h_key (active_rows sy)) ∧
  let row := live_row key (mkRun (r_sess r) (r_cancelled r) (Running E x0 (evs ++ [ev]))) in
  match dict_get key (sy_runs sy') with
  | Some _ => sv_history (sy_server sy') = sv_history (sy_server sy) ∧
      active_rows sy' = map (λ old, if decide (h_key old = key) then row else old) (active_rows sy)
  | None => sv_history (sy_server sy') = take 100 (row :: sv_history (sy_server sy)) ∧
      active_rows sy' = filter (λ old, h_key old ≠ key) (active_rows sy)
  end.
Proof.
  intros Hr Hst Hg Hrs. pose proof (sys_run_inv _ _ _ _ _ Hr (sys_init_inv inet_aton float_ms ip mac cfg a)) as Hinv.
  pose proof (iv_keys _ (in_server _ Hinv)) as Hnd. pose proof (sys_inv_keys _ Hinv) as Hndr. cbn [fst snd] in Hnd.
  rewrite active_rows_keys by done. split; [done|]. split; [done|].
  inversion Hst as [| | | |k0 r0 E0 oth st y0 evs0 p q s rs Hg0 Hc0 Hca Hq|k0 r0 E0 oth st y0 evs0 s rs Hg0 Hc0 Hca Hq
    |k0 r0 E0 oth st y0 evs0 s rs Hg0 Hc0 Hca| |]; subst; cbn [sy_server sy_runs] in *;
    rewrite Hg in Hg0; injection Hg0 as <-; rewrite Hrs in Hc0; injection Hc0 as <- <- <-;
    cbv zeta; rewrite <- (live_row_others key (r_sess r) (r_cancelled r) oth st E).
  - destruct (set_queue_same key q s) as (Hk & _ & Hh). apply advance_rows; try done. by rewrite Hk.
  - by apply advance_rows.
  - by apply advance_rows.
Qed.
End live.

(** The session of [demo_running] times out once: its row stays. *)
Lemma live_rows_exact_witness :
  map h_key (active_rows (H := lexical_paths) (demo_running [])) = [demo_key] ∧
  sv_history (sy_server (demo_running [Timeout])) = [] ∧
  h_transferred <$> active_rows (H := lexical_paths) (demo_running [Timeout]) = [0].
Proof.
  assert (sys_step (H := lexical_paths) demo_aton Server.demo_float (LEvent demo_key Timeout) (demo_running []) (demo_running [Timeout]))
    as Hst.
  { refine (eq_rect _ (sys_step _ _ (LEvent demo_key Timeout) _)
      (sy_timeout _ _ demo_key (mkRun demo_session false (Running demo_env demo_x0 [])) demo_env id Counters_init demo_x0 [] _ _ _ _ _ _) _ _);
      vm_compute; reflexivity. }
  destruct (live_rows_exact (H := lexical_paths) demo_aton Server.demo_float (u "10.0.0.1") (u "02:00:00:00:00:01") demo_cfg demo_acl _
    _ demo_key Timeout _ (mkRun demo_session false (Running demo_env demo_x0 [])) demo_env demo_x0 [] demo_begun Hst
    eq_refl eq_refl) as (Hk & _ & Hrow).
  split; [rewrite Hk; vm_compute; reflexivity|].
  assert (∃ r, dict_get demo_key (sy_runs (demo_running [Timeout])) = Some r) as [r Hr] by (eexists; vm_compute; reflexivity).
  rewrite Hr in Hrow. destruct Hrow as [Hh _]. split; [rewrite Hh; vm_compute; reflexivity|vm_compute; reflexivity].
Defined.

(** ** The statistics *)

(** [state.tftp_server]: the Python server, or the C engine with its child. *)
Inductive server_view :=
| PyServer (sessions : Z)
| CEngine (pid : option Z) (stats : pyres (list (list Z * pyval))) (sessions : Z).

(** The engine as the payload sees it: [proc.pid], [get_stats] and [sessions]. *)
Definition core_view (pid : option Z) (e : engine) : server_view :=
  CEngine pid (Ok (e_stats e)) (zlen (e_sessions e)).

Record stats_view := mkStatsView {
  sw_counters : list (list Z * pyval);
  sw_hit_rate : Z * Z;
  sw_proc : proc_sample;
  sw_cache : bool * Z * Z * nat * list (list Z);
  sw_sessions : Z;
  sw_engine : list Z;
  sw_nic_error : option (list Z);
  sw_status : list Z;
}.

(** The child to sample and the event to overlay. *)
Definition c_overlay (engine : str) (sv : option server_view) : option Z * option (list (str * pyval)) :=
  match sv with
  | Some (CEngine pid stats _) =>
      if bool_decide (engine = u "c") then (pid, Some (match stats with Ok c => c | Raise _ => [] end)) else (None, None)
  | _ => (None, None)
  end.

(** [_proc_stats(child_pid)]. *)
Definition sample_proc (now : Z) (pid : option Z) (reply : option proc_sample) (child : child_sample)
  : eff proc_state proc_sample := λ p, let '(c, p) := proc_stats now pid reply child p in (Ok c, p).

(** [_stats_payload]; [now], [reply] and [child] are what the process statistics
    get from the system. *)
Definition stats_payload (data : pyval) (cs : list (counter * Z)) (carry : list (str * Z)) (sv : option server_view)
    (cache : FileCache) (nic_error : option str) (now : Z) (reply : option proc_sample) (child : child_sample)
  : eff proc_state stats_view :=
  engine ← lift_res (engine_mode data);
  let '(pid, ev) := c_overlay engine sv in
  let s := stats_counters cs ev carry in
  let rate := cache_hit_rate (shown s (u "cache_hits")) (shown s (u "cache_misses")) in
  proc ← sample_proc now pid reply child;
  let sessions := match sv with Some (PyServer n) | Some (CEngine _ _ n) => n | None => 0 end in
  mret (mkStatsView s rate proc (cache_snapshot cache) sessions engine nic_error (server_status nic_error)).

(** The ratio shown is one: between 0 and 1, with a positive denominator. *)
Lemma stats_payload_rate data cs carry sv cache err now reply child p v p' :
  stats_payload data cs carry sv cache err now reply child p = (Ok v, p') →
  0 ≤ shown (sw_counters v) (u "cache_hits") → 0 ≤ shown (sw_counters v) (u "cache_misses") →
  0 < (sw_hit_rate v).2 ∧ 0 ≤ (sw_hit_rate v).1 ≤ (sw_hit_rate v).2.
Proof.
  unfold stats_payload. rewrite eff_bind_lift_res. destruct (engine_mode data) as [engine|]; [|done].
  destruct (c_overlay engine sv) as [pid ev]. unfold mbind, eff_bind, sample_proc. destruct (proc_stats _ _ _ _ _) as [c p1].
  intros [= <- <-]. cbn [sw_hit_rate sw_counters].
  generalize (shown (stats_counters cs ev carry) (u "cache_hits")), (shown (stats_counters cs ev carry) (u "cache_misses")).
  intros h m Hh Hm. unfold cache_hit_rate. destruct (Z.eqb_spec (h + m) 0); cbn [fst snd]; lia.
Qed.

(** ** Files *)

Section files.
Context `{OsPathParts} (urlparse : str → option url) (d : disk) (cl : ftp_client).

(** [GET /api/files]. *)
Definition api_files (r : RouterSource) : pyres (list str) := router_list d r.

(** [GET /api/files_detailed]: names and sizes; after an exception the bare
    names and the message. *)
Definition api_files_detailed (r : RouterSource) : pyres (list (str * option Z) * option str) :=
  match router_list_detailed urlparse d cl r with
  | Ok l => Ok (l, None)
  | Raise e => names ← api_files r; Ok (map (λ n, (n, None)) names, Some (exc_str e))
  end.

(** The fallback never helps: only the listing itself can raise, and it raises
    again. *)
Lemma detailed_fallback_raises r e :
  router_list_detailed urlparse d cl r = Raise e → api_files_detailed r = Raise e.
Proof.
  intros Hr. unfold api_files_detailed. rewrite Hr. unfold router_list_detailed in Hr. unfold api_files.
  destruct (router_list d r) as [|e']; [done|]. injection Hr as ->. done.
Qed.

(** [GET /api/files/download]: the cache as the transfers use it, without a
    lock and without a size limit. *)
Definition api_files_download (read : str → read_result) (name : str) (c : FileCache) (st : list (counter * Z))
  : (Z + str * bytes) * FileCache * list (counter * Z) :=
  match name with
  | [] => (inl 422, c, st)
  | _ => match get_or_load read name c st with
         | (None, c, st) => (inl 404, c, st)
         | (Some data, c, st) => (inr (download_name name, data), c, st)
         end
  end.

(** A download in the browser reads what a read request would send, and leaves
    the cache and its counters as the request would. *)
Lemma download_reads_as_tftp E f evs x :
  f ≠ [] →
  let '(r, c, st) := api_files_download (env_read E) f (x_cache x) (x_stats x) in
  cached_read E f evs x
  = (Ret (match r with inr (_, data) => Some data | inl _ => None end), evs, Session.set_cache c (on_stats (λ _, st) x)).
Proof.
  intros Hf. unfold api_files_download, cached_read. destruct f; [done|].
  by destruct (get_or_load _ _ _ _) as [[[data|] c] st].
Qed.

(** [GET /api/browse/local] and [GET /api/browse/wrq]. *)
Definition api_browse (data : pyval) (isdir : str → bool)
    (listing : str → pyres (list (str * option (bool * Z * Z)))) (tree path : str)
  : answer + (str + str * list dir_entry) :=
  match tree_root data tree with
  | inl a => inl a
  | inr root => inr (browse_dir isdir listing root path)
  end.

(** The FTP server of the configuration. *)
Record ftp_cfg := mkFtpCfg { fc_host : list Z; fc_port : Z; fc_user : list Z; fc_password : list Z; fc_root : pyval }.

Definition read_ftp_cfg (data : pyval) : pyres ftp_cfg :=
  let cfg := block data [u "files"; u "ftp"] in
  host ← py_get cfg (u "host") (VStr []);
  pv ← py_get cfg (u "port") (VInt 21);
  port ← py_int pv;
  user ← py_get cfg (u "user") (VStr []);
  password ← py_get cfg (u "password") (VStr []);
  root ← py_get cfg (u "root") (VStr [SLASH]);
  Ok (mkFtpCfg (text_of host) port (text_of user) (py_str password) root).

(** The remote path, or the exception of [ftp_root.rstrip]. *)
Definition remote_of (c : ftp_cfg) (path : str) : option str :=
  match fc_root c with VStr root => Some (remote_path root path) | _ => None end.

(** [GET /api/browse/ftp]; [lists] is what the server lists for a path, or the
    exception of the connection. *)
Definition api_browse_ftp (data : pyval) (lists : str → pyres (list (str * bool * Z))) (path : str)
  : answer + list dir_entry :=
  match read_ftp_cfg data with
  | Raise _ => inl Crash
  | Ok c =>
      match fc_host c with
      | [] => inl (Status 400)
      | _ => match lists <$> remote_of c path with
             | None | Some (Raise _) => inl (Status 500)
             | Some (Ok l) => inr (ftp_entries l)
             end
      end
  end.

(** [POST /api/fs/open]: the argument Explorer is started with. *)
Definition api_fs_open (data : pyval) (isdir : str → bool) (spawns : bool) (tree path : str) : answer + str :=
  let launch arg := if spawns then inr arg else inl (Status 500) in
  if bool_decide (tree = u "ftp") then
    match read_ftp_cfg data with
    | Raise _ => inl (Status 500)
    | Ok c =>
        match fc_host c, remote_of c path with
        | [], _ => inl (Status 400)
        | _, None => inl (Status 500)
        | _, Some full =>
            launch (match fc_user c with
                    | [] => u "ftp://" ++ fc_host c ++ u ":" ++ z_str (fc_port c) ++ full
                    | _ => u "ftp://" ++ fc_user c ++ u ":" ++ fc_password c ++ u "@" ++ fc_host c ++ u ":"
                           ++ z_str (fc_port c) ++ full
                    end)
        end
    end
  else match web_target data tree path with
       | inl Crash => inl (Status 500)
       | inl a => inl a
       | inr (_, target) =>
           launch (if isdir target then target else match os_dirname target with [] => target | p => p end)
       end.

(** [GET /api/acl]. *)
Definition api_acl (data : pyval) : pyres pyval := py_get data (u "security") (VDict []).
End files.

(** The panel browses above the configured FTP root, where the transfers refuse
    to read. *)
Lemma ftp_browse_escapes :
  let data := VDict [(u "files", VDict [(u "ftp", VDict [(u "host", VStr (u "h")); (u "root", VStr (u "/pub"))])])] in
  let listing path := if decide (path = u "/pub/../etc") then Ok [(u "passwd", false, 7)] else Ok [] in
  api_browse_ftp data listing (u "../etc") = inr [mkDirEntry (u "passwd") false (Some 7) None] ∧
  ∃ e, ftp_join (u "/pub") (u "../etc") = Raise e.
Proof. intros data listing. split; [vm_compute; reflexivity|]. eexists. vm_compute. reflexivity. Qed.
